(* ===== verification/_CoqProject ===== *)
-Q . S2P
Prelude.v
GoStrings.v
Regex.v
PathMatch.v
Paths.v
Float64.v
Calendar.v
Encoding.v
Durations.v
DurationFacts.v
Spec.v
SpecFacts.v
Verify.v
VerifyFacts.v
Source.v
SourceFacts.v
Disk.v
Evidence.v
Sign.v
SignFacts.v
Gate.v
GateFacts.v
World.v
Metrics.v
Notify.v
Print.v
Interfaces.v
Drill.v
DrillFacts.v
DrillRecord.v
Rfc3339.v
Poll.v
Keeps.v
DrillGate.v
Sandboxes.v
Lifecycle.v
Docker.v
DockerFacts.v
Cluster.v
Kubernetes.v
KubernetesFacts.v
Velero.v
VeleroFacts.v
Gc.v
GcFacts.v
Restoring.v
Postgres.v
PostgresFacts.v
Mysql.v
Mongodb.v
DriverFacts.v
DrillKeeps.v
Tenancy.v
System.v
OwnerTenancy.v
DockerTenancy.v
KubernetesTenancy.v
VeleroTenancy.v
Feeding.v
Crash.v
Instances.v
Scenario.v
Fakes.v
Reports.v
ReportsFacts.v
Cli.v
CliFacts.v
Fleet.v
Operator.v
OperatorFacts.v
Program.v
PropsSpec.v
PropsSource.v
PropsReport.v
PropsDrill.v
PropsSandbox.v
PropsDriver.v
PropsCli.v
PropsOperator.v
PropsSystem.v
