(* ===== verification/Prelude.v ===== *)
(** * FireDrill: a model of the recovery-drill tool and its correctness

    FireDrill restores a backup into a disposable sandbox, checks that the data
    came back, records the verdict as signed evidence, and lets a gate, reports
    and a Kubernetes operator rest on that evidence. This library models the Go
    packages under [src/pkg] and the commands of [src/cmd/firedrill], and proves
    the chain from a restored backup to an exit code: what a verdict, a file, a
    status or an exit code of 0 claims really happened.

    ** Parts and files

    Shared ground: [Prelude] (errors as values with their text, the state monad
    [M W A := W -> A * W] with [let!] and [let?], 64-bit arithmetic, times and
    durations, sorting), [GoStrings], [Regex], [PathMatch], [Paths], [Float64],
    [Calendar], [Rfc3339] and [Encoding] (the parts of Go's standard library the
    program uses, executable), [Poll] (polling loops), [Keeps] (invariants of
    effectful code, call by call), [Disk] and [World] (the state: temporary files,
    a disk whose writes can fail or be cut short, and everything else).

    - The document: [Spec], [SpecFacts], and its durations as text, [Durations],
      [DurationFacts] (pkg/spec/spec.go).
    - The checks on restored data: [Verify], [VerifyFacts] (pkg/verify).
    - The backup artifact: [Source], [SourceFacts] (pkg/source).
    - Evidence files and the directory scan: [Evidence] (pkg/report/evidence.go,
      scan.go). Signatures, attestations, bundles: [Sign], [SignFacts] (sign.go,
      attest.go, bundle.go). The gate: [Gate], [GateFacts] (gate.go). History,
      control report and scorecard: [Reports], [ReportsFacts] (history.go,
      controls.go, scorecard.go). Terminal and HTML output: [Print] (print.go,
      html.go).
    - Sinks: [Metrics] (pkg/metrics), [Notify] (pkg/notify).
    - The orchestrator: [Interfaces] (pkg/drivers/driver.go,
      pkg/sandbox/sandbox.go), [Drill], [DrillFacts], [DrillRecord] (pkg/drill),
      and [DrillGate], the drill and the gate together.
    - Sandboxes: [Sandboxes] (pkg/sandbox/buffer.go and what the providers share),
      [Lifecycle] (their one teardown and its watchdog, over a process memory with
      pointers), [Docker], [DockerFacts] (pkg/sandbox/docker), [Cluster],
      [Kubernetes], [KubernetesFacts] (pkg/sandbox/kubernetes).
    - Drivers: [Restoring] (what they share), [Postgres], [PostgresFacts], [Mysql],
      [Mongodb], [DriverFacts], [Velero], [VeleroFacts] (pkg/drivers).
    - Garbage collection: [Gc], [GcFacts] (pkg/gc).
    - The operator: [Operator], [OperatorFacts] (pkg/operator).
    - The command line: [Cli], [CliFacts] (cmd/firedrill/main.go,
      pkg/spec/assets.go). The process around it, with its signals, and the
      operator's start-up: [Program] (main.go, pkg/operator/manager.go).
    - The parts put together: [DrillKeeps] (what a drill's calls leave alone),
      [Tenancy] (what a drill relies on from a sandbox provider), [System] (the
      registered drivers, and what a drill on such a provider leaves),
      [OwnerTenancy], [DockerTenancy], [KubernetesTenancy], [VeleroTenancy] (the
      providers keep that contract), [Feeding] (which bytes reach the sandbox),
      [Fleet] (the [run] command on one drill or on all) and [Crash] (a process
      killed or interrupted at any request to the daemon, and the sweep after it).
    - [Instances], [Scenario], [Fakes]: concrete instances of every
      interface, and one drill to run. [PropsSpec], [PropsSource], [PropsReport],
      [PropsDrill], [PropsSandbox], [PropsDriver], [PropsCli], [PropsOperator],
      [PropsSystem]: the properties, each with a concrete input on which its
      hypotheses hold.

    ** How they interact

    [Cli.run_cmd] loads drills ([Spec.LoadAll]) and calls [Drill.Run], which
    fetches ([Source.Fetch]), provisions (the record [Interfaces.SandboxI], made by
    [Docker.Provision] or [Kubernetes.Provision]), restores (the record
    [Interfaces.Driver]), verifies ([Verify.Run] over a [Verify.Engine]) and
    finalizes: verdict, evidence, signature, attestation, sinks. [Gate],
    [LoadHistory] and [BuildControlReport] read the directory that was written.
    [Operator.Reconcile] calls the same [Drill.Run]. An operation keeps the name
    of its Go function; its state is passed explicitly, a deferred call is run
    where the function returns, a failing call yields a [result] or an optional
    error, and a nil dereference or a panic is a value of its own ([Panicked],
    [Panics], [RPanics] or [None]). A context that ends shows as an error of the
    call that observes it; a teardown is passed the one it must run under ([Ctx]),
    because the command's own may be the cancelled one.

    ** Interfaces

    Code that is not in the repository is a parameter, a class where laws are
    needed: [SliceSort] (sort.Slice gives a sorted permutation, and no more),
    [Verify.Clock] with [ClockLaws] (time never goes back, a sleep takes its time),
    [EvidenceCodec] and [EnvelopeCodec] (JSON and PEM round trips), [Crypto]
    (ed25519 and SHA-256 by their documented laws; unforgeability is not assumed),
    [Restoring.Files] (opening the artifact), [DockerLaws], [ClusterLaws],
    [VeleroLaws] (what the daemon and the API server do to their objects), and
    [Operator.ObjectLaws] (optimistic concurrency, with other clients writing
    between any two calls). [Tenancy.Tenancy] is the contract between a drill and
    whoever gives it a place to restore into: the drill's theorems are proved
    against it, and each provider's discharge it. [Crash.Ledger] says what the daemon
    holds when answers are lost; [Crash.interruptible] is the daemon behind a
    context that is cancelled at some request. Kubernetes deletes a namespace in its
    own time: for [VeleroLaws] one whose deletion was accepted is [Terminating] and
    no longer among those that are up, and no theorem says that it is gone. [Lifecycle.Owner] is the interface between the shared
    teardown and the three kinds of sandbox. [Instances], [Fakes] and
    [PropsOperator.Server] implement them.

    ** What the theorems show

    - Verdicts: a verified record was earned ([PropsDrill.Run_verified_is_earned]),
      the verdict is exact, a passed check observed data, a failed restore skips
      the data checks, and so exit code 0 of [run] and the status Verified of the
      operator are earned as well ([PropsCli], [PropsOperator]).
    - Validation is equivalent to a declarative well-formedness ([PropsSpec]).
    - Backups: a fetched copy is the complete plaintext, limits hold, ciphertext
      does not pass for a backup, and nothing is left behind ([PropsSource]).
    - Evidence: crash-safe writes, unique names, round trips of signing and
      verifying, one signer per bundle, exactness of the verifiers, and that the
      record of a verified drill is found again and passes the gate ([PropsReport], [PropsDrill]).
    - The gate refines its specification [Gate.gate_ok]; exit code 0 of [gate]
      guarantees it for every subject that was named ([PropsCli]).
    - Whole drills ([PropsSystem]): with the program's drivers and any of the three
      providers, whatever the outcome, nothing the drill made is left; a verified
      record vouches for the bytes that a sandbox command read; an interrupt
      cancels the command's context but not the teardown, which runs under its
      own, and what a killed process leaves is collected.
      After a [run] that exits 0, [gate] exits 0
      ([PropsCli]).
    - Sandboxes: no resource outlives a failed Provision or a Destroy, one teardown
      whoever calls, an end by the TTL, egress denied before a pod or a restore
      starts, and garbage collection that spares running leases ([PropsSandbox]).
    - Drivers: a physical restore counts only after the cluster answered, and names
      cannot escape their quoting ([PropsDriver]).
    - The operator: status patches lose no update, a drill runs exactly when due
      and, once it ended with a verdict, once per window, and its outcome is put on
      record with the time it ended; a run that errored is not retried in its
      window, against the intent of the code ([PropsOperator]).

    ** Bounds and fuel

    Polling loops take fuel from their own deadline ([Poll.fuel_for]: the deadline
    divided by the sleep, plus two); [Poll] proves that this is enough under
    [ClockLaws], and the loops are shown to decide ([podsReady_terminates],
    [velero_restore_terminates], [basebackup_wait_terminates], [DockerFacts],
    [KubernetesFacts]). Loops over strings take the length of the string, of which
    each round consumes a byte. Streams take the number of their chunks. Integers
    that Go keeps at 64 bits wrap ([wrap64]) or saturate ([Sub], [Round]) as they
    do in Go, and floating point is the Standard Library's binary64.

    ** Not modelled

    - The YAML decoder, the JSON encoders of the reports, the HTML template and the exposition format: each is
      a parameter with its outcome.
    - The S3, Docker, Kubernetes, SQL and HTTP clients, the age, gpg and archive
      decoders, the cron parser: parameters, with laws where a theorem needs them.
    - The flag parser (its result is a parameter of [Program.ExecuteContext]), the
      controller framework behind [Program.RunManager], and log lines. The
      version package holds one constant.
    - Concurrency inside a step: the watchdog is a step that may happen at any
      point after Provision, and other clients of the API server write between
      calls; data races within a single call are not represented. A command is one
      event of the process: the moment at which its context is cancelled is chosen
      with the cancellation and counted in its requests. Only Docker's requests are
      counted so; what other calls under a cancelled context do is among their
      outcomes.
    - A loss of power: a completed write counts as durable for a crash of the
      process only.
    - The clock of [Gate] and [BuildControlReport] is read by their caller; the
      code reads it after the scan. *)

From Stdlib Require Import ZArith Lia Ascii String.
From stdpp Require Import base option list gmap strings pretty sorting.

Declare Scope go_scope.
Delimit Scope go_scope with go.
#[global] Open Scope go_scope.
#[global] Arguments String.append : simpl nomatch.

(** * Results and errors

    A Go [error] value is kept as the tree the code builds: [errors.New] and
    [fmt.Errorf] without [%w] give [ENew], a package-level error value compared
    by identity gives [ESentinel], [%w] gives [EWrap] and [errors.Join] gives
    [EJoin]. *)

Inductive error : Type :=
| ENew (msg : string)
| ESentinel (id msg : string)
| EWrap (pre : string) (inner : error) (post : string)
| EJoin (es : list error).

(** [err.Error()]: joined errors are separated by newlines. *)
Fixpoint Error (e : error) : string :=
  match e with
  | ENew m => m
  | ESentinel _ m => m
  | EWrap pre i post => pre +:+ Error i +:+ post
  | EJoin es =>
      String.concat (String "010"%char EmptyString) (List.map Error es)
  end.

(** [errors.Is(err, sentinel)]. *)
Fixpoint errors_Is (id : string) (e : error) : bool :=
  match e with
  | ENew _ => false
  | ESentinel i _ => String.eqb i id
  | EWrap _ i _ => errors_Is id i
  | EJoin es => List.existsb (errors_Is id) es
  end.

(** [errors.Join(errs...)]: nil when there is nothing to join. *)
Definition errors_Join (es : list error) : option error :=
  match es with [] => None | _ => Some (EJoin es) end.

(** A call returning [(T, error)] whose value is meaningless when the error is
    set. Calls that return a value next to an error are kept as pairs. *)
Inductive result (A : Type) : Type :=
| Ok (a : A)
| Err (e : error).
Arguments Ok {A} a.
Arguments Err {A} e.

Definition is_ok {A} (r : result A) : bool :=
  match r with Ok _ => true | Err _ => false end.

(** A pointer that may be nil. *)
Definition isSome {A} (o : option A) : bool :=
  match o with Some _ => true | None => false end.

Lemma isSome_false {A} (o : option A) : isSome o = false <-> o = None.
Proof. destruct o; done. Qed.

Lemma isSome_true {A} (o : option A) : isSome o = true <-> exists a, o = Some a.
Proof. destruct o; naive_solver. Qed.

(** * Effects

    The world is passed explicitly; every effectful call is a state
    transformer. *)

Definition M (W A : Type) : Type := W -> A * W.

Definition mret {W A} (a : A) : M W A := fun w => (a, w).
Definition mbind {W A B} (c : M W A) (k : A -> M W B) : M W B :=
  fun w => let '(a, w') := c w in k a w'.

Notation "'let!' x ':=' c 'in' k" := (mbind c (fun x => k))
  (at level 10, x pattern, c at level 100, k at level 200,
   format "'let!'  x  ':='  c  'in' '//' k") : go_scope.

(** [v, err := c; if err != nil { return nil, h(err) }; k] *)
Notation "'let?' x ':=' c 'on_err' h 'in' k" :=
  (mbind c (fun r => match r with
                     | Ok x => k
                     | Err e => mret (Err (h e))
                     end))
  (at level 10, x pattern, c at level 100, h at level 100, k at level 200,
   format "'let?'  x  ':='  c  'on_err'  h  'in' '//' k") : go_scope.

(** The same on pure results. *)
Notation "'try' x ':=' c 'on_err' h 'in' k" :=
  (match c with
   | Ok x => k
   | Err e => Err (h e)
   end)
  (at level 10, x pattern, c at level 100, h at level 100, k at level 200,
   format "'try'  x  ':='  c  'on_err'  h  'in' '//' k") : go_scope.

(** [for _, x := range xs { body }], threading an accumulator. *)
Fixpoint mfold {W A B} (f : B -> A -> M W B) (acc : B) (xs : list A) : M W B :=
  match xs with
  | [] => mret acc
  | x :: r => let! acc' := f acc x in mfold f acc' r
  end.

(** * Contexts

    The contexts the program makes a difference of: [context.Background()], which
    nobody cancels, and the one [main] cancels on a signal, which the commands
    hand down (perhaps with a deadline of their own). *)

Inductive Ctx : Type := Background | Inherited.

(** * Machine integers

    [int] and [int64] are 64-bit two's complement; arithmetic wraps. *)

Open Scope Z_scope.

Definition MaxInt64 : Z := 2 ^ 63 - 1.
Definition MinInt64 : Z := - 2 ^ 63.

Definition wrap64 (z : Z) : Z := (z + 2 ^ 63) mod 2 ^ 64 - 2 ^ 63.

Definition in_int64 (z : Z) : Prop := MinInt64 <= z <= MaxInt64.

Lemma wrap64_id z : in_int64 z -> wrap64 z = z.
Proof.
  unfold in_int64, MinInt64, MaxInt64, wrap64. intros H.
  rewrite Z.mod_small; lia.
Qed.

Lemma wrap64_range z : in_int64 (wrap64 z).
Proof.
  unfold in_int64, MinInt64, MaxInt64, wrap64.
  pose proof (Z.mod_pos_bound (z + 2 ^ 63) (2 ^ 64)). lia.
Qed.

(** * Time

    [time.Duration] is a signed 64-bit count of nanoseconds. A [time.Time] is
    kept as its nanoseconds since the Unix epoch (unbounded: the Go type covers
    292 billion years); the zero [Time] is 1 January of year 1. *)

Abbreviation Duration := Z (only parsing).
Abbreviation Time := Z (only parsing).

Definition Nanosecond : Duration := 1.
Definition Second : Duration := 1000000000.
Definition Minute : Duration := 60 * Second.
Definition Hour : Duration := 60 * Minute.

Definition zero_time : Time := - 62135596800 * Second.
Definition IsZero (t : Time) : bool := t =? zero_time.

(** [t.Sub(u)] saturates at the ends of the Duration range. *)
Definition Sub (t u : Time) : Duration := Z.max MinInt64 (Z.min MaxInt64 (t - u)).
Definition After (t u : Time) : bool := u <? t.
Definition Before (t u : Time) : bool := t <? u.
Definition Add (t : Time) (d : Duration) : Time := t + d.

(** [t.Unix()], the floor of the seconds. *)
Definition Unix (t : Time) : Z := t / Second.

Lemma Sub_exact t u : in_int64 (t - u) -> Sub t u = t - u.
Proof. unfold in_int64, Sub. lia. Qed.

Lemma Sub_le_iff t u d : in_int64 d -> d < MaxInt64 -> (Sub t u <= d <-> t - u <= d).
Proof. unfold in_int64, Sub. lia. Qed.

(** [d.Round(m)]: half away from zero; a result that does not fit saturates,
    and [m <= 0] returns [d] unchanged. *)
Definition Round (d m : Duration) : Duration :=
  if m <=? 0 then d else
  let r := Z.rem d m in
  if d <? 0 then
    let r := - r in
    if r + r <? m then d + r
    else let d1 := d - m + r in if MinInt64 <=? d1 then d1 else MinInt64
  else
    if r + r <? m then d - r
    else let d1 := d + m - r in if d1 <=? MaxInt64 then d1 else MaxInt64.

(** * Decimal rendering ([%d]) *)

Definition itoa (z : Z) : string := pretty z.

Lemma itoa_inj a b : itoa a = itoa b -> a = b.
Proof. apply (inj pretty). Qed.

Definition len (s : string) : Z := Z.of_nat (String.length s).

Definition is_digit (c : ascii) : bool :=
  let n := N_of_ascii c in ((48 <=? n) && (n <=? 57))%N.

(** * [sort.Slice]

    The library promises a sorted permutation of the slice and no more: the
    order of equal elements is unspecified. Clients are proved against this
    interface. *)

Class SliceSort : Type := {
  sort_Slice : forall {A : Type}, (A -> A -> bool) -> list A -> list A;
  sort_Slice_perm : forall A (less : A -> A -> bool) l,
    Permutation (sort_Slice less l) l;
  sort_Slice_sorted : forall A (less : A -> A -> bool) l,
    (forall a, less a a = false) ->
    (forall a b c, less a b = true -> less b c = true -> less a c = true) ->
    (forall a b c, less a b = false -> less b c = false -> less a c = false) ->
    StronglySorted (fun a b => less b a = false) (sort_Slice less l)
}.

Lemma StronglySorted_impl {A} (R S : A -> A -> Prop) l :
  (forall a b, R a b -> S a b) -> StronglySorted R l -> StronglySorted S l.
Proof.
  intros H. induction 1 as [|a l Hl IH Ha]; constructor; [done|]. eapply Forall_impl; eauto.
Qed.

(** Insertion sort: what [sort.Slice] runs on at most 12 elements. *)
Fixpoint insert_by {A} (less : A -> A -> bool) (x : A) (l : list A) : list A :=
  match l with
  | [] => [x]
  | y :: r => if less y x then y :: insert_by less x r else x :: y :: r
  end.

Definition insertion_sort {A} (less : A -> A -> bool) (l : list A) : list A :=
  List.fold_right (insert_by less) [] l.

Lemma insert_by_perm {A} (less : A -> A -> bool) x l :
  Permutation (insert_by less x l) (x :: l).
Proof.
  induction l as [|y r IH]; simpl; [done|].
  destruct (less y x); [|done]. rewrite IH. constructor.
Qed.

Lemma insertion_sort_perm {A} (less : A -> A -> bool) l :
  Permutation (insertion_sort less l) l.
Proof. induction l; simpl; [done|]. rewrite insert_by_perm. by constructor. Qed.

Lemma insert_by_sorted {A} (less : A -> A -> bool) x l :
  (forall a, less a a = false) ->
  (forall a b c, less a b = true -> less b c = true -> less a c = true) ->
  (forall a b c, less a b = false -> less b c = false -> less a c = false) ->
  StronglySorted (fun a b => less b a = false) l ->
  StronglySorted (fun a b => less b a = false) (insert_by less x l).
Proof.
  intros Hirr Htr Hneg. induction 1 as [|y r Hr IH Hall]; simpl.
  - repeat constructor.
  - destruct (less y x) eqn:E.
    + constructor; [exact IH|]. rewrite insert_by_perm. constructor; [|done].
      destruct (less x y) eqn:E2; [|done].
      pose proof (Htr _ _ _ E E2). congruence.
    + constructor; [by constructor|]. constructor; [done|].
      rewrite Forall_forall in Hall |- *. eauto.
Qed.

Lemma insertion_sort_sorted {A} (less : A -> A -> bool) l :
  (forall a, less a a = false) ->
  (forall a b c, less a b = true -> less b c = true -> less a c = true) ->
  (forall a b c, less a b = false -> less b c = false -> less a c = false) ->
  StronglySorted (fun a b => less b a = false) (insertion_sort less l).
Proof.
  intros. induction l; simpl; [constructor|]. by apply insert_by_sorted.
Qed.

#[export] Instance insertion_SliceSort : SliceSort := {
  sort_Slice := @insertion_sort;
  sort_Slice_perm := @insertion_sort_perm;
  sort_Slice_sorted := @insertion_sort_sorted
}.

(** [sort.Strings]: equal strings are indistinguishable, so the result is
    determined. *)
Definition sort_Strings (l : list string) : list string :=
  insertion_sort (fun a b => String.ltb a b) l.

Lemma sort_Strings_perm l : Permutation (sort_Strings l) l.
Proof. apply insertion_sort_perm. Qed.

Lemma app_nil_iff {A} (a b : list A) : a ++ b = [] <-> a = [] /\ b = [].
Proof. destruct a, b; naive_solver. Qed.

(** The head of a sorted slice is an extremum. *)
Lemma StronglySorted_head {A} (R : A -> A -> Prop) x l y :
  StronglySorted R (x :: l) -> In y l -> R x y.
Proof.
  intros H Hy. apply StronglySorted_inv in H as [_ H].
  rewrite List.Forall_forall in H. auto.
Qed.

(** [List.find] on a list sorted by [R] returns an [R]-first match. *)
Lemma find_sorted_first {A} (R : A -> A -> Prop) (p : A -> bool) l x :
  StronglySorted R l -> List.find p l = Some x ->
  forall y, In y l -> p y = true -> x = y \/ R x y.
Proof.
  induction 1 as [|a l Hl IH Hall]; simpl; [done|].
  destruct (p a) eqn:Ep.
  - intros [= <-] y [->|Hy] _; [by left|right].
    rewrite List.Forall_forall in Hall. auto.
  - intros Hf y [->|Hy] Hpy; [congruence|auto].
Qed.
