(* ===== verification/GoStrings.v ===== *)
(** The parts of Go's [strings], [bytes], [fmt], [strconv] and [time] the
    program uses on strings, over byte strings ([string] is a list of bytes,
    as a Go string is), with the lemmas the components share. *)

From Stdlib Require Import ZArith Lia Ascii String.
From stdpp Require Import base option list gmap strings pretty.
From S2P Require Import Prelude.

(** * Bytes *)

Definition byte_val (c : ascii) : Z := Z.of_N (N_of_ascii c).

Definition in_range (lo hi c : ascii) : bool :=
  (byte_val lo <=? byte_val c) && (byte_val c <=? byte_val hi).

Definition is_lower (c : ascii) : bool := in_range "a" "z" c.
Definition is_upper (c : ascii) : bool := in_range "A" "Z" c.

Definition newline : ascii := "010"%char.
Definition dquote : ascii := "034"%char.
Definition backslash : ascii := "\"%char.
Definition squote : ascii := "'"%char.
Definition nl : string := String newline EmptyString.

(** * Prefixes, suffixes, substrings *)

(** [strings.CutPrefix(s, p)] when it succeeds. *)
Fixpoint CutPrefix (p s : string) : option string :=
  match p, s with
  | EmptyString, _ => Some s
  | String a p', String b s' => if Ascii.eqb a b then CutPrefix p' s' else None
  | _, _ => None
  end.

Definition HasPrefix (s p : string) : bool :=
  match CutPrefix p s with Some _ => true | None => false end.

Definition CutSuffix (suf s : string) : option string :=
  option_map String.rev (CutPrefix (String.rev suf) (String.rev s)).

Definition HasSuffix (s suf : string) : bool :=
  match CutSuffix suf s with Some _ => true | None => false end.

Definition TrimPrefix (s p : string) : string :=
  match CutPrefix p s with Some r => r | None => s end.

Definition TrimSuffix (s suf : string) : string :=
  match CutSuffix suf s with Some r => r | None => s end.

Fixpoint Contains (s sub : string) : bool :=
  HasPrefix s sub ||
  match s with EmptyString => false | String _ r => Contains r sub end.

Fixpoint IndexByte (c : ascii) (s : string) : bool :=
  match s with
  | EmptyString => false
  | String a r => Ascii.eqb a c || IndexByte c r
  end.

(** [strings.Cut(s, sep)] for a one-byte separator: before, after, found. *)
Fixpoint Cut (s : string) (sep : ascii) : string * string * bool :=
  match s with
  | EmptyString => (EmptyString, EmptyString, false)
  | String a r =>
      if Ascii.eqb a sep then (EmptyString, r, true)
      else let '(b, aft, ok) := Cut r sep in (String a b, aft, ok)
  end.

(** [strings.Split(s, sep)] for a one-byte separator: never empty. *)
Fixpoint Split (s : string) (sep : ascii) : list string :=
  match s with
  | EmptyString => [EmptyString]
  | String a r =>
      if Ascii.eqb a sep then EmptyString :: Split r sep
      else match Split r sep with
           | [] => [String a EmptyString]
           | x :: xs => String a x :: xs
           end
  end.

Definition Join (xs : list string) (sep : string) : string := String.concat sep xs.

(** Byte-wise substitution: [strings.ReplaceAll] of a single byte, and
    [strings.NewReplacer] over single-byte keys. *)
Fixpoint flat_map_bytes (f : ascii -> string) (s : string) : string :=
  match s with
  | EmptyString => EmptyString
  | String a r => f a +:+ flat_map_bytes f r
  end.

Fixpoint map_bytes (f : ascii -> ascii) (s : string) : string :=
  match s with
  | EmptyString => EmptyString
  | String a r => String (f a) (map_bytes f r)
  end.

Fixpoint forall_bytes (p : ascii -> bool) (s : string) : bool :=
  match s with
  | EmptyString => true
  | String a r => p a && forall_bytes p r
  end.

Fixpoint repeat_string (s : string) (n : nat) : string :=
  match n with O => EmptyString | S k => s +:+ repeat_string s k end.

Fixpoint take_bytes (n : nat) (s : string) : string :=
  match n, s with
  | O, _ | _, EmptyString => EmptyString
  | S k, String a r => String a (take_bytes k r)
  end.

Fixpoint drop_bytes (n : nat) (s : string) : string :=
  match n, s with
  | O, _ => s
  | _, EmptyString => EmptyString
  | S k, String _ r => drop_bytes k r
  end.

(** * White space *)

(** The UTF-8 encodings of the code points [unicode.IsSpace] accepts. *)
Definition bs (l : list Z) : string :=
  List.fold_right (fun z r => String (ascii_of_N (Z.to_N z)) r) EmptyString l.

Definition space_encodings : list string :=
  [ bs [9]; bs [10]; bs [11]; bs [12]; bs [13]; bs [32];
    bs [194; 133]; bs [194; 160]; bs [225; 154; 128];
    bs [226; 128; 128]; bs [226; 128; 129]; bs [226; 128; 130]; bs [226; 128; 131];
    bs [226; 128; 132]; bs [226; 128; 133]; bs [226; 128; 134]; bs [226; 128; 135];
    bs [226; 128; 136]; bs [226; 128; 137]; bs [226; 128; 138];
    bs [226; 128; 168]; bs [226; 128; 169]; bs [226; 128; 175];
    bs [226; 129; 159]; bs [227; 128; 128] ].

(** The first listed prefix of [s], cut off. *)
Fixpoint cut_any (ps : list string) (s : string) : option string :=
  match ps with
  | [] => None
  | p :: ps' => match CutPrefix p s with Some r => Some r | None => cut_any ps' s end
  end.

Fixpoint trim_left (fuel : nat) (ps : list string) (s : string) : string :=
  match fuel with
  | O => s
  | S k => match cut_any ps s with Some r => trim_left k ps r | None => s end
  end.

(** [strings.TrimSpace]; every round drops at least one byte, so the length is
    enough fuel. *)
Definition TrimSpace (s : string) : string :=
  let l := trim_left (String.length s) space_encodings s in
  String.rev (trim_left (String.length l) (List.map String.rev space_encodings)
                        (String.rev l)).

(** * Numbers *)

(** Zero-padded decimal, [%0nd], for a non-negative argument. *)
Definition pad_left (c : ascii) (n : nat) (s : string) : string :=
  repeat_string (String c EmptyString) (n - String.length s) +:+ s.

(** [%-ns]: left-aligned in a column of [n] (the code pads ASCII text). *)
Definition pad_right (n : nat) (s : string) : string :=
  s +:+ repeat_string " " (n - String.length s).

Fixpoint digits_val (acc : Z) (s : string) : option Z :=
  match s with
  | EmptyString => Some acc
  | String c r =>
      if is_digit c then digits_val (acc * 10 + (byte_val c - 48)) r else None
  end.

(** An unsigned decimal literal: at least one digit and nothing else. *)
Definition parse_digits (s : string) : option Z :=
  match s with EmptyString => None | _ => digits_val 0 s end.

(** [strconv.ParseInt(s, 10, 64)] and [strconv.Atoi]: an optional sign and
    decimal digits; a literal out of range gives the nearest bound and an
    error. *)
Definition ParseInt (s : string) : Z * option error :=
  let syn := Some (ENew ("strconv.ParseInt: parsing " +:+ s +:+ ": invalid syntax")) in
  let rng := Some (ENew ("strconv.ParseInt: parsing " +:+ s +:+ ": value out of range")) in
  let clamp z :=
    if z <? MinInt64 then (MinInt64, rng)
    else if MaxInt64 <? z then (MaxInt64, rng) else (z, None) in
  match s with
  | String c r =>
      if Ascii.eqb c "-"%char then
        match parse_digits r with Some v => clamp (- v) | None => (0, syn) end
      else if Ascii.eqb c "+"%char then
        match parse_digits r with Some v => clamp v | None => (0, syn) end
      else match parse_digits s with Some v => clamp v | None => (0, syn) end
  | EmptyString => (0, syn)
  end.

(** [%q]. Exact on ASCII; bytes from 0x80 up are passed through, which is what
    Go prints for printable Unicode. *)
Definition hex_char (lower : bool) (v : Z) : ascii :=
  ascii_of_N (Z.to_N (if v <? 10 then 48 + v else (if lower then 87 else 55) + v)).

Definition quote_byte (c : ascii) : string :=
  let v := byte_val c in
  if Ascii.eqb c dquote then String backslash (String dquote EmptyString)
  else if Ascii.eqb c backslash then String backslash (String backslash EmptyString)
  else if v =? 7 then "\a" else if v =? 8 then "\b" else if v =? 12 then "\f"
  else if v =? 10 then "\n" else if v =? 13 then "\r" else if v =? 9 then "\t"
  else if v =? 11 then "\v"
  else if (v <? 32) || (v =? 127) then
    "\x" +:+ String (hex_char true (v / 16)) (String (hex_char true (v mod 16)) EmptyString)
  else String c EmptyString.

Definition quote (s : string) : string :=
  String dquote (flat_map_bytes quote_byte s +:+ String dquote EmptyString).

(** * [time.Duration.String] *)

Fixpoint trim_zeros_rev (s : string) : string :=
  match s with
  | String c r => if Ascii.eqb c "0"%char then trim_zeros_rev r else s
  | EmptyString => EmptyString
  end.

(** [fmtFrac]: the fraction of [u / 10^prec], trailing zeros dropped. *)
Definition fmtFrac (u : Z) (prec : nat) : string :=
  let f := pad_left "0"%char prec (itoa (u mod 10 ^ Z.of_nat prec)) in
  let t := String.rev (trim_zeros_rev (String.rev f)) in
  match t with EmptyString => EmptyString | _ => "." +:+ t end.

Definition Duration_String (d : Duration) : string :=
  let u := Z.abs d in
  let body :=
    if u =? 0 then "0s"
    else if u <? 1000 then itoa u +:+ "ns"
    else if u <? 1000000 then itoa (u / 1000) +:+ fmtFrac u 3 +:+ bs [194; 181] +:+ "s"
    else if u <? Second then itoa (u / 1000000) +:+ fmtFrac u 6 +:+ "ms"
    else
      let s := u / Second in
      let secs := itoa (s mod 60) +:+ fmtFrac u 9 +:+ "s" in
      let m := s / 60 in
      if m =? 0 then secs
      else if m / 60 =? 0 then itoa (m mod 60) +:+ "m" +:+ secs
      else itoa (m / 60) +:+ "h" +:+ itoa (m mod 60) +:+ "m" +:+ secs in
  if d <? 0 then "-" +:+ body else body.

Example dur1 : Duration_String (15 * Minute) = "15m0s". Proof. reflexivity. Qed.
Example dur2 : Duration_String (3 * Hour + 1500 * 1000000) = "3h0m1.5s".
Proof. vm_compute. reflexivity. Qed.
Example dur3 : Duration_String (-1500) = "-1.5" +:+ bs [194; 181] +:+ "s".
Proof. vm_compute. reflexivity. Qed.
Example trim1 : TrimSpace (" a b" +:+ bs [226; 128; 168] +:+ nl) = "a b".
Proof. vm_compute. reflexivity. Qed.
Example quote1 : quote (String dquote (nl +:+ "a")) = String dquote ("\" +:+ String dquote ("\na" +:+ String dquote EmptyString)).
Proof. vm_compute. reflexivity. Qed.
Example parse1 : fst (ParseInt "99999999999999999999") = MaxInt64.
Proof. reflexivity. Qed.

(** * Lemmas *)

Create HintDb gostr.

Lemma sapp_nil_r s : s +:+ EmptyString = s.
Proof. induction s; simpl; congruence. Qed.

Lemma sapp_assoc a b c : (a +:+ b) +:+ c = a +:+ (b +:+ c).
Proof. induction a; simpl; congruence. Qed.

Lemma slen_app a b : String.length (a +:+ b) = (String.length a + String.length b)%nat.
Proof. induction a; simpl; congruence. Qed.

Lemma sapp_inj_l a b c : a +:+ b = a +:+ c -> b = c.
Proof. induction a; simpl; intros H; [done|]. injection H. auto. Qed.

(** Two concatenations with equally long heads agree piecewise. *)
Lemma sapp_inj_len a b c d :
  String.length a = String.length c -> a +:+ b = c +:+ d -> a = c /\ b = d.
Proof.
  revert c. induction a as [|x a IH]; intros [|y c]; simpl; intros Hl H; try done.
  injection H as -> H. injection Hl as Hl. destruct (IH _ Hl H) as [-> ->]. done.
Qed.

Lemma sapp_inj_len_r a b c d :
  String.length b = String.length d -> a +:+ b = c +:+ d -> a = c /\ b = d.
Proof.
  intros Hl H. apply sapp_inj_len; [|done].
  apply (f_equal String.length) in H. rewrite !slen_app in H. lia.
Qed.

Lemma CutPrefix_spec p s r : CutPrefix p s = Some r <-> s = p +:+ r.
Proof.
  revert s. induction p as [|a p IH]; intros [|b s]; simpl; split; try congruence; try done.
  - destruct (Ascii.eqb_spec a b); [|done]. subst. intros ->%IH. done.
  - intros [= -> ->]. rewrite Ascii.eqb_refl. by apply IH.
Qed.

Lemma CutPrefix_app p r : CutPrefix p (p +:+ r) = Some r.
Proof. by apply CutPrefix_spec. Qed.

Lemma HasPrefix_spec s p : HasPrefix s p = true <-> exists r, s = p +:+ r.
Proof.
  unfold HasPrefix. split.
  - destruct (CutPrefix p s) eqn:E; [|done]. intros _. apply CutPrefix_spec in E. eauto.
  - intros [r ->]. by rewrite CutPrefix_app.
Qed.

Lemma srev_app a b : String.rev (a +:+ b) = String.rev b +:+ String.rev a.
Proof.
  assert (H : forall s acc, String.rev_app s acc = String.rev s +:+ acc).
  { unfold String.rev. induction s as [|c s IH]; simpl; intros acc; [done|].
    rewrite IH, (IH (String c EmptyString)), sapp_assoc. done. }
  unfold String.rev at 1. induction a as [|c a IH]; simpl.
  - by rewrite sapp_nil_r.
  - rewrite H. unfold String.rev at 3. simpl. rewrite H, <- sapp_assoc.
    f_equal. exact IH.
Qed.

Lemma srev_cons c s : String.rev (String c s) = String.rev s +:+ String c EmptyString.
Proof. exact (srev_app (String c EmptyString) s). Qed.

Lemma srev_involutive s : String.rev (String.rev s) = s.
Proof. induction s as [|c s IH]; [done|]. rewrite srev_cons, srev_app, IH. done. Qed.

Lemma CutSuffix_spec suf s r : CutSuffix suf s = Some r <-> s = r +:+ suf.
Proof.
  unfold CutSuffix. destruct (CutPrefix _ _) as [x|] eqn:E; simpl.
  - apply CutPrefix_spec in E. apply (f_equal String.rev) in E.
    rewrite srev_app, !srev_involutive in E. split; [by intros [= <-]|].
    intros ->. f_equal. apply sapp_inj_len_r in E as [-> _]; done.
  - split; [done|]. intros ->. rewrite srev_app, CutPrefix_app in E. done.
Qed.

Lemma TrimSuffix_app s suf : TrimSuffix (s +:+ suf) suf = s.
Proof.
  unfold TrimSuffix. destruct (CutSuffix suf (s +:+ suf)) eqn:E.
  - apply CutSuffix_spec in E. by apply sapp_inj_len_r in E as [-> _].
  - assert (CutSuffix suf (s +:+ suf) = Some s) by by apply CutSuffix_spec. congruence.
Qed.

Lemma forall_bytes_app p a b :
  forall_bytes p (a +:+ b) = forall_bytes p a && forall_bytes p b.
Proof. induction a; simpl; [done|]. by rewrite IHa, andb_assoc. Qed.

Lemma forall_bytes_impl (p q : ascii -> bool) s :
  (forall c, p c = true -> q c = true) ->
  forall_bytes p s = true -> forall_bytes q s = true.
Proof.
  intros Hi. induction s; simpl; [done|].
  rewrite !andb_true_iff. intros [Hc Hs]. auto.
Qed.

Lemma Contains_app a b c : Contains (a +:+ b +:+ c) b = true.
Proof.
  assert (Hh : HasPrefix (b +:+ c) b = true) by (apply HasPrefix_spec; eauto).
  induction a as [|x a IH]; simpl.
  - destruct (b +:+ c); simpl; rewrite Hh; done.
  - rewrite IH. apply orb_true_r.
Qed.

Lemma Contains_spec s sub : Contains s sub = true <-> exists a c, s = a +:+ sub +:+ c.
Proof.
  split; [|intros (a & c & ->); apply Contains_app].
  induction s as [|x s IH]; simpl; rewrite orb_true_iff, HasPrefix_spec.
  - intros [[r ->]|]; [|done]. exists EmptyString, r. done.
  - intros [[r ->]|H]; [by exists EmptyString, r|].
    destruct (IH H) as (a & c & ->). by exists (String x a), c.
Qed.

(** The text before the first separator, when it holds none. *)
Lemma Cut_app a sep b :
  IndexByte sep a = false -> Cut (a +:+ String sep b) sep = (a, b, true).
Proof.
  induction a as [|x a IH]; simpl; [by rewrite Ascii.eqb_refl|].
  rewrite orb_false_iff. intros [-> H]. by rewrite IH.
Qed.

Lemma Cut_spec s sep b a :
  Cut s sep = (b, a, true) -> s = b +:+ String sep a /\ IndexByte sep b = false.
Proof.
  revert b. induction s as [|x s IH]; intros b; simpl; [done|].
  destruct (Ascii.eqb_spec x sep).
  - intros [= <- <-]. by subst.
  - destruct (Cut s sep) as [[b' a'] ok] eqn:E. intros [= <- -> ->].
    destruct (IH _ eq_refl) as [-> Hi]. simpl. rewrite Hi.
    destruct (Ascii.eqb_spec x sep); [done|]. done.
Qed.

Lemma Cut_not_found s sep b a :
  Cut s sep = (b, a, false) -> b = s /\ a = EmptyString /\ IndexByte sep s = false.
Proof.
  revert b. induction s as [|x s IH]; intros b; simpl; [by intros [= <- <-]|].
  destruct (Ascii.eqb_spec x sep); [done|].
  destruct (Cut s sep) as [[b' a'] ok] eqn:E. intros [= <- -> ->].
  destruct (IH _ eq_refl) as (-> & -> & ->). done.
Qed.

Lemma IndexByte_forall c p s :
  forall_bytes p s = true -> p c = false -> IndexByte c s = false.
Proof.
  intros H Hc. induction s as [|x s IH]; simpl in *; [done|].
  apply andb_true_iff in H as [Hx Hs]. rewrite IH by done.
  destruct (Ascii.eqb_spec x c); [congruence|done].
Qed.

Lemma repeat_string_length s n :
  String.length (repeat_string s n) = (n * String.length s)%nat.
Proof. induction n; simpl; [done|]. rewrite slen_app. lia. Qed.

Lemma pad_left_length c n s :
  (String.length s <= n)%nat -> String.length (pad_left c n s) = n.
Proof. intros H. unfold pad_left. rewrite slen_app, repeat_string_length. simpl. lia. Qed.

(** ** Decimal text *)

Lemma is_digit_pretty_char x : (x < 10)%N -> is_digit (pretty_N_char x) = true.
Proof.
  intros H. assert (x = 0 \/ x = 1 \/ x = 2 \/ x = 3 \/ x = 4 \/ x = 5 \/ x = 6 \/
    x = 7 \/ x = 8 \/ x = 9)%N as Hx by lia.
  repeat (destruct Hx as [->|Hx]; [reflexivity|]). by subst.
Qed.

Lemma pretty_N_go_digits x s :
  forall_bytes is_digit s = true -> forall_bytes is_digit (pretty_N_go x s) = true.
Proof.
  revert s. induction (N.lt_wf_0 x) as [x _ IH]; intros s Hs.
  destruct (decide (x = 0)%N) as [->|Hx]; [done|].
  rewrite pretty_N_go_step by lia. apply IH.
  - apply N.div_lt; lia.
  - simpl. rewrite is_digit_pretty_char by (apply N.mod_lt; lia). done.
Qed.

Lemma itoa_digits z : 0 <= z -> forall_bytes is_digit (itoa z) = true.
Proof.
  intros H. unfold itoa, pretty, pretty_Z.
  destruct z as [|p|p]; [done| |lia].
  unfold pretty, pretty_positive, pretty, pretty_N.
  destruct (decide _); [done|]. by apply pretty_N_go_digits.
Qed.

Lemma pretty_N_go_length x s n :
  (x < 10 ^ N.of_nat n)%N ->
  (String.length (pretty_N_go x s) <= n + String.length s)%nat.
Proof.
  revert x s. induction n as [|n IH]; intros x s Hx.
  - assert (x = 0%N) as -> by (change (10 ^ N.of_nat 0)%N with 1%N in Hx; lia). done.
  - destruct (decide (x = 0)%N) as [->|Hx0]; [rewrite pretty_N_go_0; lia|].
    rewrite pretty_N_go_step by lia.
    etransitivity; [apply IH|simpl; lia].
    apply N.Div0.div_lt_upper_bound.
    rewrite <- N.pow_succ_r'. replace (N.succ (N.of_nat n)) with (N.of_nat (S n)) by lia.
    done.
Qed.

Lemma itoa_length z n :
  0 <= z < 10 ^ Z.of_nat n -> (0 < n)%nat -> (String.length (itoa z) <= n)%nat.
Proof.
  intros [H0 H] Hn.  unfold itoa, pretty, pretty_Z.
  destruct z as [|p|p]; [simpl; lia| |lia].
  unfold pretty, pretty_positive, pretty, pretty_N.
  destruct (decide _); [simpl; lia|].
  etransitivity; [apply (pretty_N_go_length _ _ n)|cbn [String.length]; lia].
  apply N2Z.inj_lt. rewrite N2Z.inj_pow. simpl Z.of_N. rewrite nat_N_Z. done.
Qed.

Lemma itoa_no_byte z c : 0 <= z -> is_digit c = false -> IndexByte c (itoa z) = false.
Proof. intros H Hc. by apply (IndexByte_forall c is_digit), Hc; apply itoa_digits. Qed.

Lemma take_bytes_length n s :
  String.length (take_bytes n s) = Nat.min n (String.length s).
Proof. revert s. induction n; intros [|c s]; simpl; auto. Qed.

Lemma pretty_N_go_grows x : forall s, (String.length s <= String.length (pretty_N_go x s))%nat.
Proof.
  induction (N.lt_wf_0 x) as [x _ IH]; intros s.
  destruct (decide (x = 0)%N) as [->|Hx]; [by rewrite pretty_N_go_0|].
  rewrite pretty_N_go_step by lia. etransitivity; [|apply IH; apply N.div_lt; lia]. simpl. lia.
Qed.

Lemma itoa_nonempty z : 0 <= z -> itoa z <> EmptyString.
Proof.
  intros H He. unfold itoa, pretty, pretty_Z in He. destruct z as [|p|p]; [done| |lia].
  unfold pretty, pretty_positive, pretty, pretty_N in He. destruct (decide _); [done|].
  rewrite pretty_N_go_step in He by lia.
  pose proof (pretty_N_go_grows (N.pos p / 10) (String (pretty_N_char (N.pos p mod 10)) "")) as Hg.
  rewrite He in Hg. simpl in Hg. lia.
Qed.

#[export] Hint Resolve itoa_digits itoa_no_byte CutPrefix_app Contains_app : gostr.
Create Rewrite HintDb gostr.
#[export] Hint Rewrite sapp_nil_r sapp_assoc slen_app : gostr.
