(* ===== verification/Regex.v ===== *)
(** Regular expressions as the source writes them ([regexp.MustCompile]), with
    an executable matcher by derivatives and its correctness against the
    usual language semantics. All the program's patterns are anchored
    ([^...$]), so a match is membership of the whole text. *)

From Stdlib Require Import ZArith Lia Ascii String.
From stdpp Require Import base option list strings.
From S2P Require Import Prelude GoStrings.

Inductive regex : Type :=
| Void
| Eps
| Cls (p : ascii -> bool)
| Cat (r1 r2 : regex)
| Alt (r1 r2 : regex)
| Star (r : regex).

(** [lit "abc"], [r?], [r+], [r{0,n}]. *)
Fixpoint lit (s : string) : regex :=
  match s with
  | EmptyString => Eps
  | String c r => Cat (Cls (Ascii.eqb c)) (lit r)
  end.
Definition Opt (r : regex) : regex := Alt r Eps.
Definition Plus (r : regex) : regex := Cat r (Star r).
Fixpoint UpTo (n : nat) (r : regex) : regex :=
  match n with O => Eps | S k => Opt (Cat r (UpTo k r)) end.

(** The language of a pattern. *)
Inductive matches : regex -> string -> Prop :=
| m_eps : matches Eps EmptyString
| m_cls p c : p c = true -> matches (Cls p) (String c EmptyString)
| m_cat r1 r2 s1 s2 : matches r1 s1 -> matches r2 s2 -> matches (Cat r1 r2) (s1 +:+ s2)
| m_alt_l r1 r2 s : matches r1 s -> matches (Alt r1 r2) s
| m_alt_r r1 r2 s : matches r2 s -> matches (Alt r1 r2) s
| m_star_nil r : matches (Star r) EmptyString
| m_star_app r s1 s2 : matches r s1 -> matches (Star r) s2 -> matches (Star r) (s1 +:+ s2).

Fixpoint nullable (r : regex) : bool :=
  match r with
  | Void => false
  | Eps => true
  | Cls _ => false
  | Cat a b => nullable a && nullable b
  | Alt a b => nullable a || nullable b
  | Star _ => true
  end.

(** Smart constructors keep derivatives small. *)
Definition cat (a b : regex) : regex :=
  match a, b with
  | Void, _ => Void
  | _, Void => Void
  | Eps, _ => b
  | _, _ => Cat a b
  end.
Definition alt (a b : regex) : regex :=
  match a, b with
  | Void, _ => b
  | _, Void => a
  | _, _ => Alt a b
  end.

Fixpoint deriv (c : ascii) (r : regex) : regex :=
  match r with
  | Void | Eps => Void
  | Cls p => if p c then Eps else Void
  | Cat a b =>
      if nullable a then alt (cat (deriv c a) b) (deriv c b) else cat (deriv c a) b
  | Alt a b => alt (deriv c a) (deriv c b)
  | Star a => cat (deriv c a) (Star a)
  end.

(** [re.MatchString(s)]. *)
Fixpoint MatchString (r : regex) (s : string) : bool :=
  match s with
  | EmptyString => nullable r
  | String c s' => MatchString (deriv c r) s'
  end.

(** * Correctness of the matcher *)

Lemma nullable_spec r : nullable r = true <-> matches r EmptyString.
Proof.
  induction r; simpl.
  - split; [done|inversion 1].
  - split; constructor.
  - split; [done|inversion 1].
  - rewrite andb_true_iff, IHr1, IHr2. split.
    + intros [H1 H2]. apply (m_cat _ _ EmptyString EmptyString H1 H2).
    + inversion 1 as [| |? ? s1 s2 H1 H2| | | |]; subst.
      destruct s1, s2; done.
  - rewrite orb_true_iff, IHr1, IHr2. split.
    + intros [|]; by constructor.
    + inversion 1; auto.
  - split; [constructor|done].
Qed.

Lemma matches_void_l b s : ~ matches (Cat Void b) s.
Proof. inversion 1 as [| |? ? ? ? H1 H2| | | |]; subst. inversion H1. Qed.

Lemma matches_void_r a s : ~ matches (Cat a Void) s.
Proof. inversion 1 as [| |? ? ? ? H1 H2| | | |]; subst. inversion H2. Qed.

Lemma matches_eps_l b s : matches b s <-> matches (Cat Eps b) s.
Proof.
  split.
  - intros H. apply (m_cat Eps b EmptyString s); [constructor|done].
  - inversion 1 as [| |? ? ? ? H1 H2| | | |]; subst. by inversion H1; subst.
Qed.

Lemma cat_spec a b s : matches (cat a b) s <-> matches (Cat a b) s.
Proof.
  destruct a, b; simpl; try reflexivity; try apply matches_eps_l;
    (split; intros H; [inversion H|exfalso]);
    (eapply matches_void_l; eassumption) || (eapply matches_void_r; eassumption).
Qed.

Lemma alt_spec a b s : matches (alt a b) s <-> matches a s \/ matches b s.
Proof.
  assert (H : matches (Alt a b) s <-> matches a s \/ matches b s).
  { split; [inversion 1; auto|]. intros [|]; by constructor. }
  assert (Hl : forall r, matches r s <-> matches Void s \/ matches r s).
  { intros r. split; [auto|]. intros [Hv|]; [inversion Hv|done]. }
  assert (Hr : forall r, matches r s <-> matches r s \/ matches Void s).
  { intros r. split; [auto|]. intros [|Hv]; [done|inversion Hv]. }
  destruct a, b; simpl; first [exact H|apply Hl|apply Hr].
Qed.

Lemma deriv_spec r c s : matches (deriv c r) s <-> matches r (String c s).
Proof.
  revert s. induction r as [| |p|a IHa b IHb|a IHa b IHb|a IHa]; intros s; simpl.
  - split; inversion 1.
  - split; inversion 1.
  - destruct (p c) eqn:E; split; inversion 1; subst; by constructor || congruence.
  - assert (Hcat : matches (cat (deriv c a) b) s <->
             exists s1 s2, s = s1 +:+ s2 /\ matches a (String c s1) /\ matches b s2).
    { rewrite cat_spec. split.
      - inversion 1 as [| |? ? s1 s2 H1 H2| | | |]; subst. apply IHa in H1. eauto.
      - intros (s1 & s2 & -> & H1%IHa & H2). by constructor. }
    assert (Hsplit : matches (Cat a b) (String c s) <->
             (exists s1 s2, s = s1 +:+ s2 /\ matches a (String c s1) /\ matches b s2) \/
             (matches a EmptyString /\ matches b (String c s))).
    { split.
      - inversion 1 as [| |? ? s1 s2 H1 H2 E1 E2| | | |]; subst. destruct s1 as [|x s1]; simpl in *.
        + right. by subst.
        + injection E2 as -> <-. left. eauto.
      - intros [(s1 & s2 & -> & H1 & H2)|[H1 H2]].
        + apply (m_cat _ _ (String c s1) s2 H1 H2).
        + apply (m_cat _ _ EmptyString (String c s) H1 H2). }
    rewrite Hsplit, <- nullable_spec. destruct (nullable a).
    + rewrite alt_spec, Hcat, IHb. tauto.
    + rewrite Hcat. split; [by left|]. intros [|[? _]]; done.
  - rewrite alt_spec, IHa, IHb. split; [intros [|]; by constructor|]. inversion 1; auto.
  - rewrite cat_spec. split.
    + inversion 1 as [| |? ? s1 s2 H1 H2| | | |]; subst. apply IHa in H1.
      apply (m_star_app _ (String c s1) s2 H1 H2).
    + intros H. remember (Star a) as r eqn:Er. remember (String c s) as t eqn:Et.
      induction H as [| | | | | |r s1 s2 H1 _ H2 IH]; try done.
      injection Er as ->. destruct s1 as [|x s1]; simpl in Et.
      * by apply IH.
      * injection Et as -> <-. constructor; [by apply IHa|done].
Qed.

Theorem MatchString_correct r s : MatchString r s = true <-> matches r s.
Proof.
  revert r. induction s as [|c s IH]; intros r; simpl.
  - apply nullable_spec.
  - rewrite IH. apply deriv_spec.
Qed.

(** * Inversion lemmas for reading a pattern's language *)

Lemma matches_lit s t : matches (lit s) t <-> t = s.
Proof.
  revert t. induction s as [|c s IH]; intros t; simpl.
  - split; [by inversion 1|intros ->; constructor].
  - split.
    + inversion 1 as [| |? ? s1 s2 H1 H2| | | |]; subst. inversion H1; subst.
      apply IH in H2 as ->. match goal with H : Ascii.eqb _ _ = true |- _ =>
        apply Ascii.eqb_eq in H as -> end. done.
    + intros ->. apply (m_cat _ _ (String c EmptyString) s).
      * constructor. apply Ascii.eqb_refl.
      * by apply IH.
Qed.

Lemma matches_cls_inv p s : matches (Cls p) s -> exists c, s = String c EmptyString /\ p c = true.
Proof. inversion 1; eauto. Qed.

Lemma matches_star_cls p s : matches (Star (Cls p)) s <-> forall_bytes p s = true.
Proof.
  split.
  - remember (Star (Cls p)) as r eqn:Er. induction 1 as [| | | | | |r s1 s2 H1 _ H2 IH]; try done.
    injection Er as ->. apply matches_cls_inv in H1 as (c & -> & Hc). simpl. rewrite Hc. auto.
  - induction s as [|c s IH]; simpl; [constructor|].
    rewrite andb_true_iff. intros [Hc Hs].
    apply (m_star_app _ (String c EmptyString) s); [by constructor|auto].
Qed.

Lemma matches_upto_cls p n s :
  matches (UpTo n (Cls p)) s <-> (String.length s <= n)%nat /\ forall_bytes p s = true.
Proof.
  revert s. induction n as [|n IH]; intros s; simpl.
  - split; [inversion 1; simpl; split; [lia|done]|].
    intros [Hl _]. destruct s; [constructor|simpl in Hl; lia].
  - split.
    + inversion 1 as [| | |? ? ? H1|? ? ? H1| |]; subst.
      * inversion H1 as [| |? ? s1 s2 H2 H3| | | |]; subst.
        apply matches_cls_inv in H2 as (c & -> & Hc). apply IH in H3 as [Hl Hf].
        simpl. rewrite Hc. split; [lia|done].
      * inversion H1; subst. simpl. split; [lia|done].
    + intros [Hl Hf]. destruct s as [|c s]; [apply m_alt_r; constructor|].
      simpl in *. apply andb_true_iff in Hf as [Hc Hf]. apply m_alt_l.
      apply (m_cat _ _ (String c EmptyString) s); [by constructor|].
      apply IH. split; [lia|done].
Qed.

Lemma matches_cat_iff a b s :
  matches (Cat a b) s <-> exists s1 s2, s = s1 +:+ s2 /\ matches a s1 /\ matches b s2.
Proof.
  split.
  - inversion 1; subst; eauto.
  - intros (s1 & s2 & -> & H1 & H2). by constructor.
Qed.

Lemma matches_alt_iff a b s : matches (Alt a b) s <-> matches a s \/ matches b s.
Proof. split; [inversion 1; auto|]. intros [|]; by constructor. Qed.

Lemma matches_opt_iff r s : matches (Opt r) s <-> matches r s \/ s = EmptyString.
Proof.
  unfold Opt. rewrite matches_alt_iff. split; intros [H|H]; try by left.
  - inversion H; by right.
  - right. subst. constructor.
Qed.

Lemma matches_cls_iff p s : matches (Cls p) s <-> exists c, s = String c EmptyString /\ p c = true.
Proof. split; [apply matches_cls_inv|]. intros (c & -> & H). by constructor. Qed.
