(* ===== verification/PathMatch.v ===== *)
(** Go's [path.Match] (package [path] of the standard library), which the spec
    validator and the source fetcher call on the [match:] glob, with the fact
    the two calls rely on: whether a pattern is malformed does not depend on
    the name it is matched against. *)

From Stdlib Require Import ZArith Lia Ascii String.
From stdpp Require Import base option list strings.
From S2P Require Import Prelude GoStrings.

(** * [utf8.DecodeRuneInString] *)

Definition RuneError : Z := 65533.

Definition cont_byte (lo hi : Z) (c : ascii) : bool :=
  (lo <=? byte_val c) && (byte_val c <=? hi).

(** The rune at the head of [s] and its width; an invalid or truncated
    encoding is [RuneError] of width 1, the empty string has width 0. *)
Definition DecodeRune (s : string) : Z * nat :=
  match s with
  | EmptyString => (RuneError, 0%nat)
  | String c0 r0 =>
      let b0 := byte_val c0 in
      if b0 <? 128 then (b0, 1%nat)
      else if (b0 <? 194) || (244 <? b0) then (RuneError, 1%nat)
      else match r0 with
      | EmptyString => (RuneError, 1%nat)
      | String c1 r1 =>
          let b1 := byte_val c1 in
          let lo := if b0 =? 224 then 160 else if b0 =? 240 then 144 else 128 in
          let hi := if b0 =? 237 then 159 else if b0 =? 244 then 143 else 191 in
          if negb (cont_byte lo hi c1) then (RuneError, 1%nat)
          else if b0 <? 224 then (b0 mod 32 * 64 + b1 mod 64, 2%nat)
          else match r1 with
          | EmptyString => (RuneError, 1%nat)
          | String c2 r2 =>
              let b2 := byte_val c2 in
              if negb (cont_byte 128 191 c2) then (RuneError, 1%nat)
              else if b0 <? 240 then
                (b0 mod 16 * 4096 + b1 mod 64 * 64 + b2 mod 64, 3%nat)
              else match r2 with
              | EmptyString => (RuneError, 1%nat)
              | String c3 _ =>
                  if negb (cont_byte 128 191 c3) then (RuneError, 1%nat)
                  else (b0 mod 8 * 262144 + b1 mod 64 * 4096 + b2 mod 64 * 64
                        + byte_val c3 mod 64, 4%nat)
              end
          end
      end
  end.

(** * [scanChunk], [getEsc], [matchChunk] *)

Definition star_byte : ascii := "*"%char.
Definition slash : ascii := "/"%char.
Definition lbrack : ascii := "["%char.
Definition rbrack : ascii := "]"%char.
Definition dash : ascii := "-"%char.

Definition head_is (c : ascii) (s : string) : bool :=
  match s with String a _ => Ascii.eqb a c | EmptyString => false end.

Fixpoint skip_stars (p : string) : bool * string :=
  match p with
  | String c r => if Ascii.eqb c star_byte then (true, snd (skip_stars r)) else (false, p)
  | EmptyString => (false, p)
  end.

(** The chunk up to the next star outside a bracket, and what follows it. *)
Fixpoint scan_to_star (inrange : bool) (p : string) : string * string :=
  match p with
  | EmptyString => (EmptyString, EmptyString)
  | String c r =>
      if Ascii.eqb c backslash then
        match r with
        | EmptyString => (p, EmptyString)
        | String d r' =>
            let '(a, b) := scan_to_star inrange r' in (String c (String d a), b)
        end
      else if Ascii.eqb c star_byte && negb inrange then (EmptyString, p)
      else
        let inr := if Ascii.eqb c lbrack then true
                   else if Ascii.eqb c rbrack then false else inrange in
        let '(a, b) := scan_to_star inr r in (String c a, b)
  end.

Definition scanChunk (p : string) : bool * string * string :=
  let '(star, p') := skip_stars p in
  let '(chunk, rest) := scan_to_star false p' in (star, chunk, rest).

(** [getEsc]: one possibly escaped character of a class; [None] is
    [ErrBadPattern]. *)
Definition getEsc (chunk : string) : option (Z * string) :=
  match chunk with
  | EmptyString => None
  | String c r =>
      if Ascii.eqb c dash || Ascii.eqb c rbrack then None
      else
        let chunk1 := if Ascii.eqb c backslash then r else chunk in
        match chunk1 with
        | EmptyString => None
        | String _ _ =>
            let '(rn, n) := DecodeRune chunk1 in
            if (rn =? RuneError) && (n =? 1)%nat then None
            else
              let nchunk := drop_bytes n chunk1 in
              match nchunk with EmptyString => None | _ => Some (rn, nchunk) end
        end
  end.

(** The ranges of a class up to its closing bracket: whether [r] is in one of
    them and the rest of the chunk. Each range consumes input. *)
Fixpoint class_ranges (fuel : nat) (chunk : string) (r : Z) (match_ : bool) (nrange : nat)
  : option (bool * string) :=
  match fuel with
  | O => None
  | S k =>
      if head_is rbrack chunk && (0 <? nrange)%nat
      then Some (match_, drop_bytes 1 chunk)
      else match getEsc chunk with
      | None => None
      | Some (lo, chunk1) =>
          let hi_rest :=
            if head_is dash chunk1 then getEsc (drop_bytes 1 chunk1) else Some (lo, chunk1) in
          match hi_rest with
          | None => None
          | Some (hi, chunk2) =>
              class_ranges k chunk2 r (match_ || ((lo <=? r) && (r <=? hi))) (S nrange)
          end
      end
  end.

(** [matchChunk]: [None] is [ErrBadPattern], [Some None] no match, and
    [Some (Some t)] a match leaving [t]. After a failed match the loop goes on
    to check the chunk's syntax. [failed] says that [s] is no longer read. *)
Fixpoint matchChunk (fuel : nat) (chunk s : string) (failed0 : bool)
  : option (option string) :=
  match chunk with
  | EmptyString => Some (if failed0 then None else Some s)
  | String c r =>
      match fuel with
      | O => None
      | S k =>
          let failed := failed0 || match s with EmptyString => true | _ => false end in
          if Ascii.eqb c lbrack then
            let '(rn, n) := if failed then (0, 0%nat) else DecodeRune s in
            let s' := drop_bytes n s in
            let negated := head_is "^"%char r in
            let r1 := if negated then drop_bytes 1 r else r in
            match class_ranges (S (String.length r1)) r1 rn false 0 with
            | None => None
            | Some (m, rest) => matchChunk k rest s' (failed || Bool.eqb m negated)
            end
          else if Ascii.eqb c "?"%char then
            let '(_, n) := if failed then (0, 0%nat) else DecodeRune s in
            matchChunk k r (drop_bytes n s) (failed || head_is slash s)
          else
            let lit := if Ascii.eqb c backslash then r else chunk in
            match lit with
            | EmptyString => None
            | String d r' =>
                if failed then matchChunk k r' s true
                else matchChunk k r' (drop_bytes 1 s) (negb (head_is d s))
            end
      end
  end.

Definition match_chunk (chunk s : string) : option (option string) :=
  matchChunk (S (String.length chunk)) chunk s false.

(** * [path.Match] *)

(** The inner loop: skip [i+1] bytes of the name, never a slash, until the
    chunk matches; the last chunk must exhaust the name. [None] is a bad
    pattern, [Some None] means no position matched. *)
Fixpoint star_search (chunk name : string) (last : bool) : option (option string) :=
  match name with
  | EmptyString => Some None
  | String c r =>
      if Ascii.eqb c slash then Some None
      else match match_chunk chunk r with
      | Some (Some t) =>
          if last && negb (String.eqb t EmptyString) then star_search chunk r last
          else Some (Some t)
      | Some None => star_search chunk r last
      | None => None
      end
  end.

(** The syntax check of the chunks that were not reached. *)
Fixpoint rest_ok (fuel : nat) (pattern : string) : bool :=
  match fuel, pattern with
  | _, EmptyString => true
  | O, _ => false
  | S k, _ =>
      let '(_, chunk, rest) := scanChunk pattern in
      match match_chunk chunk EmptyString with
      | None => false
      | Some _ => rest_ok k rest
      end
  end.

(** [None] is [ErrBadPattern]. *)
Fixpoint Match_ (fuel : nat) (pattern name : string) : option bool :=
  match fuel, pattern with
  | _, EmptyString => Some (String.eqb name EmptyString)
  | O, _ => None
  | S k, _ =>
      let '(star, chunk, rest) := scanChunk pattern in
      if star && String.eqb chunk EmptyString then Some (negb (IndexByte slash name))
      else
        match match_chunk chunk name with
        | None => None
        | Some m =>
            let last := String.eqb rest EmptyString in
            match m with
            | Some t =>
                if String.eqb t EmptyString || negb last then Match_ k rest t
                else if star then
                  match star_search chunk name last with
                  | None => None
                  | Some (Some t') => Match_ k rest t'
                  | Some None => if rest_ok k rest then Some false else None
                  end
                else if rest_ok k rest then Some false else None
            | None =>
                if star then
                  match star_search chunk name last with
                  | None => None
                  | Some (Some t') => Match_ k rest t'
                  | Some None => if rest_ok k rest then Some false else None
                  end
                else if rest_ok k rest then Some false else None
            end
        end
  end.

(** Every round of the loop consumes at least one byte of the pattern. *)
Definition Match (pattern name : string) : option bool :=
  Match_ (S (String.length pattern)) pattern name.

Example glob1 : Match "payments-*.dump.gz" "payments-2026-08-22.dump.gz" = Some true.
Proof. vm_compute. reflexivity. Qed.
Example glob2 : Match "payments-*.dump.gz" "orders-2026.dump.gz" = Some false.
Proof. vm_compute. reflexivity. Qed.
Example glob3 : Match "a[" "probe" = None.
Proof. vm_compute. reflexivity. Qed.
Example glob4 : Match "[a-c]?[^x]*z" "bqyzzz" = Some true.
Proof. vm_compute. reflexivity. Qed.
Example glob5 : Match "[]a]" "a" = None.
Proof. vm_compute. reflexivity. Qed.
Example glob6 : Match "ab[c]" "abc" = Some true /\ Match "a*b" "a/b" = Some false
  /\ Match "a\*" "ab" = Some false /\ Match "a\" "a" = None.
Proof. vm_compute. done. Qed.

(** * Malformedness is a property of the pattern alone *)

Lemma class_ranges_rest fuel : forall chunk r m n r' m',
  option_map snd (class_ranges fuel chunk r m n) =
  option_map snd (class_ranges fuel chunk r' m' n).
Proof.
  induction fuel as [|k IH]; intros; simpl; [done|].
  destruct (head_is rbrack chunk && (0 <? n)%nat); [done|].
  destruct (getEsc chunk) as [[lo chunk1]|]; [|done].
  destruct (if head_is dash chunk1 then _ else _) as [[hi chunk2]|]; [|done].
  apply IH.
Qed.

Lemma matchChunk_err fuel : forall chunk s f s' f',
  matchChunk fuel chunk s f = None <-> matchChunk fuel chunk s' f' = None.
Proof.
  induction fuel as [|k IH]; intros [|c r] s f s' f'; cbn [matchChunk];
    try (destruct f, f'; split; done).
  destruct (Ascii.eqb c lbrack).
  - destruct (if f || _ then _ else DecodeRune s) as [rn n].
    destruct (if f' || _ then _ else DecodeRune s') as [rn' n'].
    generalize (class_ranges_rest (S (String.length (if head_is "^" r then drop_bytes 1 r else r)))
                  (if head_is "^" r then drop_bytes 1 r else r) rn false 0 rn' false).
    destruct (class_ranges _ _ rn _ _) as [[m rest]|],
             (class_ranges _ _ rn' _ _) as [[m' rest']|]; cbn [option_map snd]; try done.
    intros [= <-]. apply IH.
  - destruct (Ascii.eqb c "?").
    + destruct (if f || _ then _ else _), (if f' || _ then _ else _). apply IH.
    + destruct (if Ascii.eqb c backslash then r else _); [done|].
      destruct (f || _), (f' || _); apply IH.
Qed.

Lemma match_chunk_err chunk s s' : match_chunk chunk s = None <-> match_chunk chunk s' = None.
Proof. apply matchChunk_err. Qed.

Lemma star_search_total chunk name last s :
  match_chunk chunk s <> None -> star_search chunk name last <> None.
Proof.
  intros Hok. induction name as [|c r IH]; simpl; [done|].
  destruct (Ascii.eqb c slash); [done|].
  destruct (match_chunk chunk r) as [[t|]|] eqn:E; [|done|].
  - destruct (_ && _); done.
  - exfalso. apply Hok. by rewrite match_chunk_err in E.
Qed.

(** An empty chunk is only scanned at the end of the pattern. *)
Lemma scanChunk_empty p star rest :
  scanChunk p = (star, EmptyString, rest) -> rest = EmptyString.
Proof.
  unfold scanChunk. destruct (skip_stars p) as [st p'] eqn:Es.
  assert (Hh : head_is star_byte p' = false).
  { clear rest star. revert st p' Es. induction p as [|c r IH]; simpl; intros st p'.
    - by intros [= <- <-].
    - destruct (Ascii.eqb c star_byte) eqn:E.
      + intros [= <- <-]. destruct (skip_stars r) as [st' p''] eqn:E2. simpl. eauto.
      + intros [= <- <-]. done. }
  destruct p' as [|c r]; simpl in *; [by intros [= <- <-]|].
  rewrite Hh. simpl. destruct (Ascii.eqb c backslash).
  - destruct r as [|d r]; [done|]. destruct (scan_to_star false r). done.
  - destruct (scan_to_star _ r). done.
Qed.

Lemma Match_err fuel : forall pattern name,
  Match_ fuel pattern name = None <-> rest_ok fuel pattern = false.
Proof.
  induction fuel as [|k IH]; intros [|c p] name; try (simpl; split; done).
  cbn [Match_ rest_ok].
  destruct (scanChunk (String c p)) as [[star chunk] rest] eqn:Es.
  destruct (star && String.eqb chunk EmptyString) eqn:Et.
  { apply andb_true_iff in Et as [_ Et]. apply String.eqb_eq in Et as ->.
    apply scanChunk_empty in Es as ->. destruct k; simpl; split; done. }
  destruct (match_chunk chunk EmptyString) as [m0|] eqn:E0.
  2:{ rewrite (match_chunk_err _ _ name) in E0. rewrite E0. done. }
  destruct (match_chunk chunk name) as [m|] eqn:Em.
  2:{ rewrite (match_chunk_err _ _ EmptyString) in Em. congruence. }
  assert (Hs : forall last, star_search chunk name last <> None)
    by (intros; apply (star_search_total _ _ _ EmptyString); congruence).
  assert (Hr : (if rest_ok k rest then Some false else None) = None <->
               rest_ok k rest = false) by (destruct (rest_ok k rest); done).
  assert (Hst : (if star then
                  match star_search chunk name (String.eqb rest EmptyString) with
                  | None => None
                  | Some (Some t') => Match_ k rest t'
                  | Some None => if rest_ok k rest then Some false else None
                  end
                else if rest_ok k rest then Some false else None) = None <->
               rest_ok k rest = false).
  { destruct star; [|done]. specialize (Hs (String.eqb rest EmptyString)).
    destruct (star_search _ _ _) as [[t'|]|]; [apply IH|done|done]. }
  destruct m as [t|]; [|done].
  destruct (_ || _); [apply IH|done].
Qed.

Lemma Match_err_name pattern n1 n2 : Match pattern n1 = None <-> Match pattern n2 = None.
Proof. unfold Match. by rewrite !Match_err. Qed.
