(* ===== verification/Paths.v ===== *)
(** Go's lexical path operations ([path.Base], [path.Ext], [path.Clean],
    [filepath.Join]), on slash-separated paths as on a Unix host. *)

From Stdlib Require Import ZArith Lia Ascii String.
From stdpp Require Import base option list strings.
From S2P Require Import Prelude GoStrings.

Definition slash : ascii := "/"%char.

(** The part of a reversed path before its first slash. *)
Fixpoint until_slash (s : string) : string :=
  match s with
  | EmptyString => EmptyString
  | String c r => if Ascii.eqb c slash then EmptyString else String c (until_slash r)
  end.

Fixpoint skip_slashes (s : string) : string :=
  match s with
  | String c r => if Ascii.eqb c slash then skip_slashes r else s
  | EmptyString => EmptyString
  end.

(** [path.Base]: the last element; trailing slashes do not count. *)
Definition Base (p : string) : string :=
  match p with
  | EmptyString => "."
  | _ =>
      match skip_slashes (String.rev p) with
      | EmptyString => "/"
      | r => String.rev (until_slash r)
      end
  end.

(** [path.Ext] on the reversed path: the bytes down to the last dot of the last
    element, [None] when it has none. *)
Fixpoint ext_rev (s : string) : option string :=
  match s with
  | EmptyString => None
  | String c r =>
      if Ascii.eqb c slash then None
      else if Ascii.eqb c "."%char then Some "."
      else option_map (fun e => e +:+ String c EmptyString) (ext_rev r)
  end.

Definition Ext (p : string) : string :=
  match ext_rev (String.rev p) with Some e => e | None => EmptyString end.

(** The element stack of [path.Clean]; [stack] is reversed. *)
Fixpoint clean_elems (rooted : bool) (elems stack : list string) : list string :=
  match elems with
  | [] => List.rev stack
  | e :: r =>
      if String.eqb e EmptyString || String.eqb e "." then clean_elems rooted r stack
      else if String.eqb e ".." then
        match stack with
        | top :: rest =>
            if String.eqb top ".." then clean_elems rooted r (e :: stack)
            else clean_elems rooted r rest
        | [] => clean_elems rooted r (if rooted then [] else [e])
        end
      else clean_elems rooted r (e :: stack)
  end.

Definition Clean (p : string) : string :=
  let rooted := HasPrefix p "/" in
  let body := GoStrings.Join (clean_elems rooted (Split p slash) []) "/" in
  if rooted then "/" +:+ body
  else match body with EmptyString => "." | _ => body end.

(** [filepath.Join(dir, name)]: empty elements are dropped, the rest joined and
    cleaned. *)
Definition Join2 (dir name : string) : string :=
  match dir, name with
  | EmptyString, EmptyString => EmptyString
  | EmptyString, _ => Clean name
  | _, EmptyString => Clean dir
  | _, _ => Clean (dir +:+ "/" +:+ name)
  end.

Example base1 : Base "a/b/payments.dump.gz//" = "payments.dump.gz". Proof. reflexivity. Qed.
Example base2 : (Base "", Base "//") = (".", "/"). Proof. reflexivity. Qed.
Example ext1 : (Ext "a.b/payments.dump", Ext "a.b/payments", Ext ".x") = (".dump", "", ".x").
Proof. reflexivity. Qed.
Example join1 : Join2 "/backups/./x/../" "p.dump" = "/backups/p.dump". Proof. reflexivity. Qed.
Example join2 : Join2 "../a" "p" = "../a/p". Proof. reflexivity. Qed.
Example clean1 : (Clean "", Clean "/..", Clean "a/..") = (".", "/", "."). Proof. reflexivity. Qed.

Lemma Clean_nonempty p : Clean p <> EmptyString.
Proof. unfold Clean. destruct (HasPrefix p "/"); [done|]. by destruct (GoStrings.Join _ _). Qed.

Lemma Join2_nonempty dir name : name <> EmptyString -> Join2 dir name <> EmptyString.
Proof. intros H. destruct dir, name; try done; apply Clean_nonempty. Qed.

(** ** The last element of a joined path *)

Lemma Split_nonempty s sep : Split s sep <> [].
Proof.
  destruct s as [|c r]; simpl; [done|]. destruct (Ascii.eqb c sep); [done|].
  by destruct (Split r sep).
Qed.

Lemma Split_single s sep : IndexByte sep s = false -> Split s sep = [s].
Proof.
  induction s as [|c r IH]; simpl; [done|]. rewrite orb_false_iff. intros [-> H].
  by rewrite IH.
Qed.

Lemma Split_snoc a sep name :
  IndexByte sep name = false ->
  Split (a +:+ String sep name) sep = Split a sep ++ [name].
Proof.
  intros H. induction a as [|c a IH]; simpl.
  - by rewrite Ascii.eqb_refl, Split_single.
  - destruct (Ascii.eqb c sep); [by rewrite IH|]. rewrite IH.
    by destruct (Split a sep) eqn:E; [destruct (Split_nonempty a sep)|].
Qed.

(** A proper file name: one element, not a dot. *)
Definition file_name (name : string) : Prop :=
  IndexByte slash name = false /\ name <> EmptyString /\ name <> "." /\ name <> "..".

Lemma clean_elems_snoc rooted es stack name :
  file_name name -> exists pre, clean_elems rooted (es ++ [name]) stack = pre ++ [name].
Proof.
  intros (_ & H1 & H2 & H3). revert stack. induction es as [|e es IH]; intros stack; simpl.
  - destruct (String.eqb_spec name EmptyString); [done|].
    destruct (String.eqb_spec name "."); [done|]. destruct (String.eqb_spec name ".."); [done|].
    simpl. by exists (List.rev stack).
  - destruct (_ || _); [apply IH|]. destruct (String.eqb e ".."); [|apply IH].
    destruct stack as [|t st]; [apply IH|]. destruct (String.eqb t ".."); apply IH.
Qed.

(** Nothing, or a directory with its slash. *)
Definition dir_prefix (p : string) : Prop := p = EmptyString \/ exists q, p = q +:+ "/".

Lemma Join_snoc pre name :
  exists p, GoStrings.Join (pre ++ [name]) "/" = p +:+ name /\ dir_prefix p.
Proof.
  induction pre as [|x pre (p & IH & Hp)]; simpl; [exists EmptyString; split; [done|by left]|].
  unfold GoStrings.Join in *. destruct (pre ++ [name]) as [|y l] eqn:E; [by destruct pre|].
  cbn [String.concat]. exists (x +:+ "/" +:+ p). split.
  - rewrite !sapp_assoc. f_equal. f_equal. exact IH.
  - right. destruct Hp as [->|[q ->]]; [by exists x|]. exists (x +:+ "/" +:+ q).
    by rewrite !sapp_assoc.
Qed.

(** Joining a directory and a file name ends in the file name. *)
Lemma Join2_suffix dir name :
  file_name name -> exists pre, Join2 dir name = pre +:+ name /\ dir_prefix pre.
Proof.
  intros Hn. pose proof Hn as (Hs & H1 & H2 & H3).
  assert (Hc : forall es (rooted : bool), exists pre,
    (let body := GoStrings.Join (clean_elems rooted (es ++ [name]) []) "/" in
     if rooted then "/" +:+ body else match body with EmptyString => "." | _ => body end)
    = pre +:+ name /\ dir_prefix pre).
  { intros es rooted. destruct (clean_elems_snoc rooted es [] name Hn) as [pre ->].
    destruct (Join_snoc pre name) as (p & -> & Hp). cbv zeta. destruct rooted.
    - exists ("/" +:+ p). split; [done|]. right.
      destruct Hp as [->|[q ->]]; [by exists EmptyString|by exists ("/" +:+ q)].
    - exists p. split; [|done]. destruct (p +:+ name) eqn:E; [|done].
      apply (f_equal String.length) in E. rewrite slen_app in E. destruct name; [done|simpl in E; lia]. }
  unfold Join2, Clean. destruct dir as [|c dir]; destruct name as [|n0 name']; try done.
  - rewrite (Split_single _ _ Hs). apply (Hc []).
  - set (name := String n0 name') in *.
    change (String c dir +:+ "/" +:+ name) with (String c dir +:+ String slash name).
    rewrite (Split_snoc _ _ _ Hs). apply Hc.
Qed.

Lemma IndexByte_app c a b : IndexByte c (a +:+ b) = IndexByte c a || IndexByte c b.
Proof. induction a as [|x a IH]; simpl; [done|]. by rewrite IH, orb_assoc. Qed.

Lemma IndexByte_rev c s : IndexByte c (String.rev s) = IndexByte c s.
Proof.
  induction s as [|x s IH]; [done|]. rewrite srev_cons, IndexByte_app, IH. simpl.
  rewrite orb_false_r. apply orb_comm.
Qed.

Lemma until_slash_all s : IndexByte slash s = false -> until_slash s = s.
Proof.
  induction s as [|c s IH]; simpl; [done|]. rewrite orb_false_iff. intros [-> H]. by rewrite IH.
Qed.

Lemma until_slash_app s r : IndexByte slash s = false -> until_slash (s +:+ String slash r) = s.
Proof.
  induction s as [|c s IH]; simpl; [done|]. rewrite orb_false_iff. intros [-> H]. by rewrite IH.
Qed.

Lemma Base_suffix pre name : file_name name -> dir_prefix pre -> Base (pre +:+ name) = name.
Proof.
  intros (Hs & Hne & _) Hp. unfold Base.
  assert (Hrev : skip_slashes (String.rev (pre +:+ name)) = String.rev (pre +:+ name) /\
                 String.rev (pre +:+ name) <> EmptyString).
  { rewrite srev_app. pose proof (IndexByte_rev slash name) as Hi. rewrite Hs in Hi.
    destruct (String.rev name) as [|c r] eqn:Er.
    - apply (f_equal String.rev) in Er. rewrite srev_involutive in Er. by destruct Hne.
    - simpl in Hi |- *. apply orb_false_iff in Hi as [-> _]. done. }
  destruct Hrev as [Hskip Hrne]. destruct (pre +:+ name) as [|c0 r0] eqn:E.
  { by destruct Hrne. }
  rewrite Hskip. destruct (String.rev (String c0 r0)) as [|c r] eqn:Er; [done|].
  rewrite <- Er, <- E, srev_app. pose proof (IndexByte_rev slash name) as Hi. rewrite Hs in Hi.
  destruct Hp as [->|[q ->]].
  - change (String.rev EmptyString) with EmptyString.
    rewrite sapp_nil_r, until_slash_all by done. apply srev_involutive.
  - rewrite srev_app. change (String.rev "/" +:+ String.rev q) with (String slash (String.rev q)).
    rewrite until_slash_app by done. apply srev_involutive.
Qed.

Lemma Base_Join2 dir name : file_name name -> Base (Join2 dir name) = name.
Proof. intros H. destruct (Join2_suffix dir name H) as (pre & -> & Hp). by apply Base_suffix. Qed.

(** Paths that end in names of different kinds differ. *)
Lemma suffix_ne a b s t :
  String.length s = String.length t -> s <> t -> a +:+ s <> b +:+ t.
Proof. intros Hl Hne H. apply sapp_inj_len_r in H as [_ H]; done. Qed.
