(* ===== verification/Float64.v ===== *)
(** IEEE 754 binary64, as the program uses it: durations in seconds, their
    conversion back, comparisons and fixed-point printing. Computed with the
    Standard Library's executable specification of floating point. *)

From Stdlib Require Import ZArith Lia Ascii String SpecFloat.
From stdpp Require Import base option list strings.
From S2P Require Import Prelude GoStrings.

Abbreviation float64 := spec_float (only parsing).

Definition prec : Z := 53.
Definition emax : Z := 1024.

Definition of_int (z : Z) : float64 := binary_normalize prec emax z 0 false.
Definition fadd : float64 -> float64 -> float64 := SFadd prec emax.
Definition fmul : float64 -> float64 -> float64 := SFmul prec emax.
Definition fdiv : float64 -> float64 -> float64 := SFdiv prec emax.
Definition flt : float64 -> float64 -> bool := SFltb.

(** [int64(x)]: truncation toward zero; values out of range give the result of
    the conversion instruction, the smallest integer. *)
Definition to_int64 (x : float64) : Z :=
  match x with
  | S754_finite s m e =>
      let v := if 0 <=? e then Zpos m * 2 ^ e else Zpos m / 2 ^ (- e) in
      let v := if s then - v else v in
      if (MinInt64 <=? v) && (v <=? MaxInt64) then v else MinInt64
  | S754_zero _ => 0
  | _ => MinInt64
  end.

(** [d.Seconds()]. *)
Definition Seconds (d : Duration) : float64 :=
  fadd (of_int (Z.quot d Second)) (fdiv (of_int (Z.rem d Second)) (of_int Second)).

Definition Minutes (d : Duration) : float64 :=
  fadd (of_int (Z.quot d Minute)) (fdiv (of_int (Z.rem d Minute)) (of_int Minute)).

Definition Hours (d : Duration) : float64 :=
  fadd (of_int (Z.quot d Hour)) (fdiv (of_int (Z.rem d Hour)) (of_int Hour)).

(** [time.Duration(x * float64(time.Second))]. *)
Definition of_seconds (x : float64) : Duration := to_int64 (fmul x (of_int Second)).

(** The decimal digits of [|x| * 10^p], rounded half to even. *)
Definition scaled (m : positive) (e : Z) (p : nat) : Z :=
  let n := Zpos m * 10 ^ Z.of_nat p in
  if 0 <=? e then n * 2 ^ e
  else
    let d := 2 ^ (- e) in
    let q := n / d in
    let r := n mod d in
    if 2 * r <? d then q
    else if d <? 2 * r then q + 1
    else if Z.even q then q else q + 1.

(** [%.pf]. *)
Definition format_fixed (p : nat) (x : float64) : string :=
  let fixed v :=
    let s := pad_left "0"%char (S p) (itoa v) in
    let k := (String.length s - p)%nat in
    match p with O => s | _ => take_bytes k s +:+ "." +:+ drop_bytes k s end in
  match x with
  | S754_nan => "NaN"
  | S754_infinity false => "+Inf"
  | S754_infinity true => "-Inf"
  | S754_zero s => (if s then "-" else "") +:+ fixed 0
  | S754_finite s m e => (if s then "-" else "") +:+ fixed (scaled m e p)
  end.

Example fixed1 : format_fixed 1 (Seconds (1250 * 1000000)) = "1.2". Proof. vm_compute. reflexivity. Qed.
Example fixed2 : format_fixed 0 (of_int 67) = "67". Proof. vm_compute. reflexivity. Qed.
Example secs1 : of_seconds (Seconds 1500000000) = 1500000000. Proof. vm_compute. reflexivity. Qed.
Example secs2 : of_seconds (Seconds (-1)) = -1. Proof. vm_compute. reflexivity. Qed.
