(* ===== verification/Calendar.v ===== *)
(** The calendar side of Go's [time] package: the layouts the program formats
    instants with (Rfc3339.v parses them back). Dates are proleptic Gregorian, UTC. *)

From Stdlib Require Import ZArith Lia Ascii String.
From stdpp Require Import base option list strings pretty.
From S2P Require Import Prelude GoStrings.

(** * Civil dates *)

Record date := { year : Z; month : Z; day : Z }.

(** Year and day within a 400-year era that starts in March. *)
Definition yoe_of (doe : Z) : Z := (doe - doe / 1460 + doe / 36524 - doe / 146096) / 365.
Definition doy_of (doe : Z) : Z :=
  doe - (365 * yoe_of doe + yoe_of doe / 4 - yoe_of doe / 100).

(** Days since 1 January 1970 to a date. *)
Definition civil (days : Z) : date :=
  let z := days + 719468 in
  let era := z / 146097 in
  let doe := z mod 146097 in
  let yoe := yoe_of doe in
  let doy := doy_of doe in
  let mp := (5 * doy + 2) / 153 in
  let m := if mp <? 10 then mp + 3 else mp - 9 in
  {| year := yoe + era * 400 + (if m <=? 2 then 1 else 0);
     month := m; day := doy - (153 * mp + 2) / 5 + 1 |}.

Definition days_of (d : date) : Z :=
  let y := if month d <=? 2 then year d - 1 else year d in
  let era := y / 400 in
  let yoe := y mod 400 in
  let doy := (153 * (if 2 <? month d then month d - 3 else month d + 9) + 2) / 5 + day d - 1 in
  era * 146097 + (yoe * 365 + yoe / 4 - yoe / 100 + doy) - 719468.

Example civil1 : civil 0 = {| year := 1970; month := 1; day := 1 |}. Proof. reflexivity. Qed.
Example civil2 : civil 19782 = {| year := 2024; month := 2; day := 29 |}. Proof. reflexivity. Qed.
Example civil3 : civil (-719162) = {| year := 1; month := 1; day := 1 |}. Proof. reflexivity. Qed.

Ltac divs := Z.to_euclidean_division_equations; lia.

Lemma yoe_range doe : 0 <= doe < 146097 -> 0 <= yoe_of doe < 400.
Proof. unfold yoe_of. intros. divs. Qed.

Lemma doy_range doe : 0 <= doe < 146097 -> 0 <= doy_of doe <= 365.
Proof. unfold doy_of, yoe_of. intros. divs. Qed.

(** The month and day of a day of the era. *)
Lemma month_day_range doy :
  0 <= doy <= 365 ->
  0 <= (5 * doy + 2) / 153 <= 11 /\
  1 <= doy - (153 * ((5 * doy + 2) / 153) + 2) / 5 + 1 <= 31.
Proof. intros. split; divs. Qed.

Lemma civil_range days :
  1 <= month (civil days) <= 12 /\ 1 <= day (civil days) <= 31.
Proof.
  unfold civil. cbv zeta. cbn [month day].
  pose proof (Z.mod_pos_bound (days + 719468) 146097 ltac:(lia)) as Hdoe.
  set (doe := (days + 719468) mod 146097) in *.
  pose proof (doy_range doe Hdoe) as Hdoy. set (doy := doy_of doe) in *. destruct (month_day_range doy Hdoy) as [Hm Hd].
  set (mp := (5 * doy + 2) / 153) in *. destruct (Z.ltb_spec mp 10); lia.
Qed.

Lemma days_of_civil days : days_of (civil days) = days.
Proof.
  unfold days_of, civil. cbv zeta. cbn [year month day].
  pose proof (Z.mod_pos_bound (days + 719468) 146097 ltac:(lia)) as Hdoe.
  pose proof (Z.div_mod (days + 719468) 146097 ltac:(lia)) as Hera.
  set (doe := (days + 719468) mod 146097) in *. set (era := (days + 719468) / 146097) in *.
  pose proof (yoe_range doe Hdoe) as Hyoe. pose proof (doy_range doe Hdoe) as Hdoy.
  assert (Hdoe2 : doe = 365 * yoe_of doe + yoe_of doe / 4 - yoe_of doe / 100 + doy_of doe)
    by (unfold doy_of; lia).
  set (yoe := yoe_of doe) in *. set (doy := doy_of doe) in *. destruct (month_day_range doy Hdoy) as [Hm Hd].
  set (mp := (5 * doy + 2) / 153) in *.
  clearbody doy mp yoe.
  assert (Hy : (if (if mp <? 10 then mp + 3 else mp - 9) <=? 2
     then yoe + era * 400 + (if (if mp <? 10 then mp + 3 else mp - 9) <=? 2 then 1 else 0) - 1
     else yoe + era * 400 + (if (if mp <? 10 then mp + 3 else mp - 9) <=? 2 then 1 else 0))
     = yoe + era * 400).
  { destruct (_ <=? 2); lia. }
  rewrite Hy. rewrite Z.div_add, Z.mod_add by lia.
  rewrite (Z.div_small yoe), (Z.mod_small yoe) by lia.
  assert (Hmp : (if 2 <? (if mp <? 10 then mp + 3 else mp - 9)
     then (if mp <? 10 then mp + 3 else mp - 9) - 3
     else (if mp <? 10 then mp + 3 else mp - 9) + 9) = mp).
  { destruct (Z.ltb_spec mp 10).
    - destruct (Z.ltb_spec 2 (mp + 3)); lia.
    - destruct (Z.ltb_spec 2 (mp - 9)); lia. }
  rewrite Hmp. lia.
Qed.

(** * Instants *)

Definition day_of (t : Time) : Z := Unix t / 86400.
Definition second_of_day (t : Time) : Z := Unix t mod 86400.
Definition hour (t : Time) : Z := second_of_day t / 3600.
Definition minute (t : Time) : Z := second_of_day t mod 3600 / 60.
Definition second (t : Time) : Z := second_of_day t mod 60.
Definition Nanosecond_of (t : Time) : Z := t mod Prelude.Second.
Definition date_of (t : Time) : date := civil (day_of t).

Definition pad2 (z : Z) : string := pad_left "0"%char 2 (itoa z).

(** The layouts, for years 0 to 9999 (a negative year has a sign). *)
Definition fmt_date (t : Time) : string :=
  let d := date_of t in
  pad_left "0"%char 4 (itoa (year d)) +:+ "-" +:+ pad2 (month d) +:+ "-" +:+ pad2 (day d).

Definition fmt_clock (sep : string) (t : Time) : string :=
  pad2 (hour t) +:+ sep +:+ pad2 (minute t) +:+ sep +:+ pad2 (second t).

(** ["2006-01-02T15-04-05Z"] *)
Definition fmt_file (t : Time) : string := fmt_date t +:+ "T" +:+ fmt_clock "-" t +:+ "Z".

(** [time.RFC3339] of a UTC instant. *)
Definition fmt_RFC3339 (t : Time) : string := fmt_date t +:+ "T" +:+ fmt_clock ":" t +:+ "Z".

(** ["2006-01-02 15:04"] *)
Definition fmt_minute (t : Time) : string :=
  fmt_date t +:+ " " +:+ pad2 (hour t) +:+ ":" +:+ pad2 (minute t).

(** ["20060102-150405"] *)
Definition fmt_compact (t : Time) : string :=
  let d := date_of t in
  pad_left "0"%char 4 (itoa (year d)) +:+ pad2 (month d) +:+ pad2 (day d) +:+ "-" +:+
  fmt_clock "" t.

Example fmt1 : fmt_file (1709208000 * Prelude.Second + 5) = "2024-02-29T12-00-00Z".
Proof. vm_compute. reflexivity. Qed.
Example fmt2 : fmt_minute (-1) = "1969-12-31 23:59".
Proof. vm_compute. reflexivity. Qed.

(** ** A formatted instant determines its second *)

Lemma digits_val_app acc a b :
  digits_val acc (a +:+ b) = match digits_val acc a with Some v => digits_val v b | None => None end.
Proof.
  revert acc. induction a as [|c a IH]; intros acc; simpl; [done|].
  destruct (is_digit c); [apply IH|done].
Qed.

Lemma digits_val_zeros n s : digits_val 0 (repeat_string "0" n +:+ s) = digits_val 0 s.
Proof.
  induction n as [|n IH]; cbn [repeat_string]; [done|].
  rewrite sapp_assoc. exact IH.
Qed.

Lemma digit_char_val x : (x < 10)%N ->
  is_digit (pretty_N_char x) = true /\ byte_val (pretty_N_char x) - 48 = Z.of_N x.
Proof.
  intros H. assert (x = 0 \/ x = 1 \/ x = 2 \/ x = 3 \/ x = 4 \/ x = 5 \/ x = 6 \/
    x = 7 \/ x = 8 \/ x = 9)%N as Hx by lia.
  repeat (destruct Hx as [->|Hx]; [done|]). by subst.
Qed.

Lemma digits_val_pretty x : forall s k,
  (forall acc, digits_val acc s = Some (acc * 10 ^ Z.of_nat (String.length s) + k)) ->
  digits_val 0 (pretty_N_go x s) = Some (Z.of_N x * 10 ^ Z.of_nat (String.length s) + k).
Proof.
  induction (N.lt_wf_0 x) as [x _ IH]; intros s k Hs.
  destruct (decide (x = 0)%N) as [->|Hx]; [rewrite pretty_N_go_0, Hs; f_equal; lia|].
  rewrite pretty_N_go_step by lia.
  destruct (digit_char_val (x mod 10)) as [Hd Hv]; [apply N.mod_lt; lia|].
  rewrite (IH (x / 10)%N) with (k := Z.of_N (x mod 10) * 10 ^ Z.of_nat (String.length s) + k).
  - f_equal. cbn [String.length]. rewrite Nat2Z.inj_succ, Z.pow_succ_r by lia.
    assert (Hx10 : Z.of_N x = 10 * Z.of_N (x / 10) + Z.of_N (x mod 10))
      by (pose proof (N.div_mod x 10 ltac:(lia)); lia).
    rewrite Hx10. ring.
  - apply N.div_lt; lia.
  - intros acc. cbn [digits_val]. rewrite Hd, Hv, Hs. f_equal. cbn [String.length].
    rewrite Nat2Z.inj_succ, Z.pow_succ_r by lia. ring.
Qed.

Lemma digits_val_itoa z : 0 <= z -> digits_val 0 (itoa z) = Some z.
Proof.
  intros H. unfold itoa, pretty, pretty_Z. destruct z as [|p|p]; [done| |lia].
  unfold pretty, pretty_positive, pretty, pretty_N. destruct (decide _); [done|].
  rewrite (digits_val_pretty (N.pos p) EmptyString 0).
  - f_equal. simpl. lia.
  - intros acc. simpl. f_equal. lia.
Qed.

Lemma digits_val_pad n z : 0 <= z -> digits_val 0 (pad_left "0"%char n (itoa z)) = Some z.
Proof. intros H. unfold pad_left. rewrite digits_val_zeros. by apply digits_val_itoa. Qed.

Lemma pad_inj n a b :
  0 <= a -> 0 <= b -> pad_left "0"%char n (itoa a) = pad_left "0"%char n (itoa b) -> a = b.
Proof.
  intros Ha Hb H. apply (f_equal (digits_val 0)) in H.
  rewrite !digits_val_pad in H by done. by injection H.
Qed.

Lemma pad_itoa_length n z :
  0 <= z < 10 ^ Z.of_nat n -> (0 < n)%nat ->
  String.length (pad_left "0"%char n (itoa z)) = n.
Proof. intros. apply pad_left_length. by apply itoa_length. Qed.

Ltac width :=
  change (10 ^ Z.of_nat 2) with 100; change (10 ^ Z.of_nat 4) with 10000; lia.

(** Fields of one width are recovered one by one. *)
Lemma pad_app_inj n a b x y :
  (0 < n)%nat -> 0 <= a < 10 ^ Z.of_nat n -> 0 <= b < 10 ^ Z.of_nat n ->
  pad_left "0"%char n (itoa a) +:+ x = pad_left "0"%char n (itoa b) +:+ y -> a = b /\ x = y.
Proof.
  intros Hn Ha Hb H. apply sapp_inj_len in H as [H ->].
  - split; [|done]. apply pad_inj in H; lia.
  - by rewrite !pad_itoa_length.
Qed.

(** Years the four-digit layouts cover. *)
Definition four_digit_year (t : Time) : Prop := 0 <= year (date_of t) <= 9999.

Lemma clock_range t :
  0 <= hour t < 24 /\ 0 <= minute t < 60 /\ 0 <= second t < 60.
Proof.
  unfold hour, minute, second, second_of_day.
  pose proof (Z.mod_pos_bound (Unix t) 86400 ltac:(lia)). divs.
Qed.

(** The instant of the parts, to the second. *)
Lemma Unix_parts t :
  Unix t = days_of (date_of t) * 86400 + hour t * 3600 + minute t * 60 + second t.
Proof.
  unfold date_of. rewrite days_of_civil. unfold day_of, hour, minute, second, second_of_day. divs.
Qed.

Lemma time_parts t : t = Unix t * Prelude.Second + Nanosecond_of t.
Proof. unfold Unix, Nanosecond_of, Prelude.Second. divs. Qed.

Lemma fmt_date_inj t u x y :
  four_digit_year t -> four_digit_year u ->
  fmt_date t +:+ x = fmt_date u +:+ y -> date_of t = date_of u /\ x = y.
Proof.
  unfold four_digit_year, fmt_date, pad2. intros Ht Hu.
  pose proof (civil_range (day_of t)) as [Hmt Hdt].
  pose proof (civil_range (day_of u)) as [Hmu Hdu]. fold (date_of t) (date_of u) in *.
  cbv zeta. intros H. rewrite !sapp_assoc in H.
  apply pad_app_inj in H as [Hy H]; [|lia|width|width].
  apply sapp_inj_l in H. apply pad_app_inj in H as [Hm H]; [|lia|width|width].
  apply sapp_inj_l in H. apply pad_app_inj in H as [Hd H]; [|lia|width|width].
  split; [|done]. destruct (date_of t), (date_of u). cbn in *. congruence.
Qed.

Lemma fmt_clock_inj sep t u x y :
  fmt_clock sep t +:+ x = fmt_clock sep u +:+ y ->
  hour t = hour u /\ minute t = minute u /\ second t = second u /\ x = y.
Proof.
  unfold fmt_clock, pad2. intros H.
  destruct (clock_range t) as (Hht & Hmt & Hst), (clock_range u) as (Hhu & Hmu & Hsu).
  rewrite !sapp_assoc in H.
  apply pad_app_inj in H as [Hh H]; [|lia|width|width].
  apply sapp_inj_l in H. apply pad_app_inj in H as [Hm H]; [|lia|width|width].
  apply sapp_inj_l in H. apply pad_app_inj in H as [Hs H]; [|lia|width|width]. auto.
Qed.

Lemma fmt_file_inj t u x y :
  four_digit_year t -> four_digit_year u ->
  fmt_file t +:+ x = fmt_file u +:+ y -> Unix t = Unix u /\ x = y.
Proof.
  unfold fmt_file. intros Ht Hu H. rewrite !sapp_assoc in H.
  apply fmt_date_inj in H as [Hd H]; [|done|done]. apply sapp_inj_l in H.
  apply fmt_clock_inj in H as (Hh & Hm & Hs & H). apply sapp_inj_l in H.
  split; [|done]. by rewrite (Unix_parts t), (Unix_parts u), Hd, Hh, Hm, Hs.
Qed.
