(* ===== verification/Encoding.v ===== *)
(** Text encodings of bytes: [encoding/hex], [encoding/base64] (the standard
    alphabet) and case-insensitive comparison, with their round trips. *)

From Stdlib Require Import ZArith Lia Ascii String.
From stdpp Require Import base option list strings.
From S2P Require Import Prelude GoStrings.

Lemma byte_val_range c : 0 <= byte_val c < 256.
Proof.
  unfold byte_val. pose proof (N_ascii_bounded c). lia.
Qed.

Definition byte_of (z : Z) : ascii := ascii_of_N (Z.to_N z).

Lemma byte_of_val c : byte_of (byte_val c) = c.
Proof. unfold byte_of, byte_val. by rewrite N2Z.id, ascii_N_embedding. Qed.

Lemma byte_val_of z : 0 <= z < 256 -> byte_val (byte_of z) = z.
Proof.
  intros H. unfold byte_of, byte_val. rewrite N_ascii_embedding by lia. lia.
Qed.

(** * Hexadecimal *)

Fixpoint hex_Encode (s : string) : string :=
  match s with
  | EmptyString => EmptyString
  | String c r =>
      String (hex_char true (byte_val c / 16))
        (String (hex_char true (byte_val c mod 16)) (hex_Encode r))
  end.

Definition hex_digit (c : ascii) : option Z :=
  if is_digit c then Some (byte_val c - 48)
  else if in_range "a" "f" c then Some (byte_val c - 87)
  else if in_range "A" "F" c then Some (byte_val c - 55)
  else None.

(** [hex.DecodeString]; [None] is any of its errors. *)
Fixpoint hex_Decode (s : string) : option string :=
  match s with
  | EmptyString => Some EmptyString
  | String a (String b r) =>
      match hex_digit a, hex_digit b, hex_Decode r with
      | Some x, Some y, Some d => Some (String (byte_of (16 * x + y)) d)
      | _, _, _ => None
      end
  | _ => None
  end.

Lemma hex_digit_char v : 0 <= v < 16 -> hex_digit (hex_char true v) = Some v.
Proof.
  intros H. assert (Hv : exists n, (n < 16)%nat /\ v = Z.of_nat n) by (exists (Z.to_nat v); lia).
  destruct Hv as (n & Hn & ->). do 16 (destruct n as [|n]; [reflexivity|]). lia.
Qed.

Lemma hex_digit_range c v : hex_digit c = Some v -> 0 <= v < 16.
Proof.
  unfold hex_digit. destruct (is_digit c) eqn:E1; [|destruct (in_range "a" "f" c) eqn:E2;
    [|destruct (in_range "A" "F" c) eqn:E3; [|discriminate]]]; intros [= <-];
    unfold is_digit, in_range, byte_val in *; cbv zeta in *;
    match goal with H : _ && _ = true |- _ => apply andb_true_iff in H as [H1 H2] end;
    rewrite ?N.leb_le, ?Z.leb_le in H1, H2; simpl in H1, H2; lia.
Qed.

Lemma hex_roundtrip s : hex_Decode (hex_Encode s) = Some s.
Proof.
  induction s as [|c s IH]; [done|]. cbn [hex_Encode hex_Decode].
  pose proof (byte_val_range c).
  rewrite !hex_digit_char, IH by (Z.to_euclidean_division_equations; lia).
  rewrite <- Z.div_mod by lia. by rewrite byte_of_val.
Qed.

Lemma hex_Encode_length s : String.length (hex_Encode s) = (2 * String.length s)%nat.
Proof. induction s; simpl; lia. Qed.

Lemma hex_Encode_inj a b : hex_Encode a = hex_Encode b -> a = b.
Proof. intros H. apply (f_equal hex_Decode) in H. rewrite !hex_roundtrip in H. congruence. Qed.

(** * Case folding

    [strings.EqualFold] on ASCII text. Beyond ASCII the Go function also folds
    U+017F to [s] and U+212A to [k], neither of which is a hex digit. *)

Definition to_lower (c : ascii) : ascii :=
  if is_upper c then byte_of (byte_val c + 32) else c.

Definition EqualFold (a b : string) : bool :=
  String.eqb (map_bytes to_lower a) (map_bytes to_lower b).

Definition ToUpper (s : string) : string :=
  map_bytes (fun c => if is_lower c then byte_of (byte_val c - 32) else c) s.

Lemma to_lower_hex v : 0 <= v < 16 -> to_lower (hex_char true v) = hex_char true v.
Proof.
  intros H. assert (Hv : exists n, (n < 16)%nat /\ v = Z.of_nat n) by (exists (Z.to_nat v); lia).
  destruct Hv as (n & Hn & ->). do 16 (destruct n as [|n]; [reflexivity|]). lia.
Qed.

Lemma map_lower_hex s : map_bytes to_lower (hex_Encode s) = hex_Encode s.
Proof.
  induction s as [|c s IH]; [done|]. cbn [hex_Encode map_bytes].
  pose proof (byte_val_range c).
  rewrite !to_lower_hex, IH by (Z.to_euclidean_division_equations; lia). done.
Qed.

(** On hexadecimal text, folding is equality. *)
Lemma EqualFold_hex a b : EqualFold (hex_Encode a) (hex_Encode b) = true <-> a = b.
Proof.
  unfold EqualFold. rewrite !map_lower_hex, String.eqb_eq. split; [apply hex_Encode_inj|by intros ->].
Qed.

(** A byte is a digit's lower-case character, up to case, exactly when it
    decodes to that digit: all 256 bytes against all 16 digits. *)
Lemma hex_digit_fold_all :
  List.forallb (fun n => List.forallb (fun m =>
    let c := ascii_of_nat n in let v := Z.of_nat m in
    Bool.eqb (Ascii.eqb (to_lower c) (hex_char true v))
             (match hex_digit c with Some x => x =? v | None => false end))
    (List.seq 0 16)) (List.seq 0 256) = true.
Proof. vm_compute. reflexivity. Qed.

Lemma hex_digit_fold c v :
  0 <= v < 16 -> to_lower c = hex_char true v <-> hex_digit c = Some v.
Proof.
  intros Hv. pose proof hex_digit_fold_all as H. rewrite List.forallb_forall in H.
  specialize (H (nat_of_ascii c)). rewrite List.forallb_forall in H.
  assert (Hc : In (nat_of_ascii c) (List.seq 0 256))
    by (apply List.in_seq; pose proof (nat_ascii_bounded c); lia).
  specialize (H Hc (Z.to_nat v)).
  assert (Hn : In (Z.to_nat v) (List.seq 0 16)) by (apply List.in_seq; lia).
  specialize (H Hn). rewrite ascii_nat_embedding, Z2Nat.id in H by lia.
  apply eqb_prop in H. destruct (hex_digit c) as [x|].
  - destruct (Ascii.eqb_spec (to_lower c) (hex_char true v)) as [E|E];
      split; intros H'; [|done|done|]; symmetry in H.
    + apply Z.eqb_eq in H. by subst.
    + injection H' as ->. by rewrite Z.eqb_refl in H.
  - apply Ascii.eqb_neq in H. done.
Qed.

(** Text equals the hexadecimal form of some bytes up to case exactly when it
    decodes to them. *)
Lemma EqualFold_Decode h x : EqualFold h (hex_Encode x) = true <-> hex_Decode h = Some x.
Proof.
  unfold EqualFold. rewrite map_lower_hex, String.eqb_eq. revert h.
  induction x as [|c x IH]; intros h.
  - destruct h as [|a [|b h]]; simpl; [done|done|]. split; [done|].
    destruct (hex_digit a), (hex_digit b), (hex_Decode h); done.
  - destruct h as [|a [|b h]]; simpl; [done|done|].
    pose proof (byte_val_range c) as Hc.
    set (p := byte_val c / 16). set (q := byte_val c mod 16).
    assert (Hp : 0 <= p < 16) by (subst p; Z.to_euclidean_division_equations; lia).
    assert (Hq : 0 <= q < 16) by (subst q; Z.to_euclidean_division_equations; lia).
    assert (Hpq : byte_val c = 16 * p + q) by (subst p q; apply Z.div_mod; lia).
    clearbody p q. specialize (IH h). split.
    + intros [= Ha Hb Hr]. apply hex_digit_fold in Ha, Hb; [|done|done].
      apply IH in Hr. rewrite Ha, Hb, Hr. by rewrite <- Hpq, byte_of_val.
    + destruct (hex_digit a) as [x1|] eqn:Ea, (hex_digit b) as [x2|] eqn:Eb,
        (hex_Decode h) as [r|]; try done.
      intros [= Hx ->]. apply hex_digit_range in Ea as Ra, Eb as Rb.
      apply (f_equal byte_val) in Hx. rewrite byte_val_of in Hx by lia.
      assert (x1 = p) as -> by lia. assert (x2 = q) as -> by lia.
      apply hex_digit_fold in Ea, Eb; [|done|done]. by rewrite Ea, Eb, (proj2 IH eq_refl).
Qed.

(** * Base64 *)

Definition b64_char (v : Z) : ascii :=
  byte_of (if v <? 26 then 65 + v else if v <? 52 then 71 + v
           else if v <? 62 then v - 4 else if v =? 62 then 43 else 47).

Definition b64_digit (c : ascii) : option Z :=
  if is_upper c then Some (byte_val c - 65)
  else if is_lower c then Some (byte_val c - 71)
  else if is_digit c then Some (byte_val c + 4)
  else if byte_val c =? 43 then Some 62
  else if byte_val c =? 47 then Some 63
  else None.

Definition pad_char : ascii := "="%char.

Fixpoint b64_Encode (s : string) : string :=
  match s with
  | EmptyString => EmptyString
  | String a EmptyString =>
      let v := byte_val a * 65536 in
      String (b64_char (v / 262144)) (String (b64_char (v / 4096 mod 64))
        (String pad_char (String pad_char EmptyString)))
  | String a (String b EmptyString) =>
      let v := byte_val a * 65536 + byte_val b * 256 in
      String (b64_char (v / 262144)) (String (b64_char (v / 4096 mod 64))
        (String (b64_char (v / 64 mod 64)) (String pad_char EmptyString)))
  | String a (String b (String c r)) =>
      let v := byte_val a * 65536 + byte_val b * 256 + byte_val c in
      String (b64_char (v / 262144)) (String (b64_char (v / 4096 mod 64))
        (String (b64_char (v / 64 mod 64)) (String (b64_char (v mod 64)) (b64_Encode r))))
  end.

Definition quad (x y z w : Z) : Z := x * 262144 + y * 4096 + z * 64 + w.

(** A decoded text without line breaks; padding ends it. *)
Fixpoint b64_quads (s : string) : option string :=
  match s with
  | EmptyString => Some EmptyString
  | String a (String b (String c (String d r))) =>
      match b64_digit a, b64_digit b with
      | Some x, Some y =>
          match b64_digit c with
          | Some z =>
              match b64_digit d with
              | Some w =>
                  let v := quad x y z w in
                  option_map (fun t => String (byte_of (v / 65536))
                      (String (byte_of (v / 256 mod 256)) (String (byte_of (v mod 256)) t)))
                    (b64_quads r)
              | None =>
                  if Ascii.eqb d pad_char && String.eqb r EmptyString then
                    let v := quad x y z 0 in
                    Some (String (byte_of (v / 65536))
                            (String (byte_of (v / 256 mod 256)) EmptyString))
                  else None
              end
          | None =>
              if Ascii.eqb c pad_char && Ascii.eqb d pad_char && String.eqb r EmptyString then
                Some (String (byte_of (quad x y 0 0 / 65536)) EmptyString)
              else None
          end
      | _, _ => None
      end
  | _ => None
  end.

Fixpoint drop_newlines (s : string) : string :=
  match s with
  | EmptyString => EmptyString
  | String c r =>
      if (byte_val c =? 10) || (byte_val c =? 13) then drop_newlines r
      else String c (drop_newlines r)
  end.

(** [base64.StdEncoding.DecodeString]: carriage returns and newlines are
    skipped; [None] is a corrupt input. *)
Definition b64_Decode (s : string) : option string := b64_quads (drop_newlines s).

Lemma b64_digit_char v :
  0 <= v < 64 ->
  b64_digit (b64_char v) = Some v /\
  (byte_val (b64_char v) =? 10) || (byte_val (b64_char v) =? 13) = false.
Proof.
  intros H. assert (Hv : exists n, (n < 64)%nat /\ v = Z.of_nat n) by (exists (Z.to_nat v); lia).
  destruct Hv as (n & Hn & ->). do 64 (destruct n as [|n]; [split; reflexivity|]). lia.
Qed.

Lemma strong_string_ind (P : string -> Prop) :
  (forall s, (forall t, (String.length t < String.length s)%nat -> P t) -> P s) -> forall s, P s.
Proof.
  intros H s. remember (String.length s) as n eqn:E. revert s E.
  induction (lt_wf n) as [n _ IH]. intros s ->. apply H. intros t Ht. by eapply IH.
Qed.

Ltac sextet := Z.to_euclidean_division_equations; lia.

(** Each sextet is a digit; put back together they give the bytes. *)
Lemma quad_bytes a b c :
  0 <= a < 256 -> 0 <= b < 256 -> 0 <= c < 256 ->
  let v := a * 65536 + b * 256 + c in
  (0 <= v / 262144 < 64 /\ 0 <= v / 4096 mod 64 < 64 /\ 0 <= v / 64 mod 64 < 64 /\
   0 <= v mod 64 < 64) /\
  quad (v / 262144) (v / 4096 mod 64) (v / 64 mod 64) (v mod 64) = v /\
  v / 65536 = a /\ v / 256 mod 256 = b /\ v mod 256 = c.
Proof. intros Ha Hb Hc v. subst v. unfold quad. repeat split; sextet. Qed.

Ltac b64_step :=
  repeat match goal with
  | |- context [b64_digit (b64_char ?v)] => rewrite (proj1 (b64_digit_char v ltac:(assumption)))
  | |- context [(byte_val (b64_char ?v) =? 10) || (byte_val (b64_char ?v) =? 13)] =>
      rewrite (proj2 (b64_digit_char v ltac:(assumption)))
  end.

Lemma b64_roundtrip s : b64_Decode (b64_Encode s) = Some s.
Proof.
  induction s as [s IH] using strong_string_ind. unfold b64_Decode in *.
  destruct s as [|a [|b [|c r]]]; [done| | |]; cbn [b64_Encode]; cbv zeta.
  - pose proof (quad_bytes (byte_val a) 0 0 (byte_val_range a) ltac:(lia) ltac:(lia)) as H.
    cbv zeta in H. rewrite Z.mul_0_l, !Z.add_0_r in H.
    destruct H as ((H1 & H2 & H3 & H4) & Hq & Ha & _).
    cbn [drop_newlines]. b64_step. cbn [b64_quads drop_newlines]. b64_step.
    cbn -[byte_of quad Z.div Z.modulo Z.mul].
    assert (Hz : byte_val a * 65536 / 64 mod 64 = 0 /\ byte_val a * 65536 mod 64 = 0)
      by (split; sextet).
    destruct Hz as [Hz1 Hz2]. rewrite Hz1, Hz2 in Hq. by rewrite Hq, Ha, byte_of_val.
  - pose proof (quad_bytes (byte_val a) (byte_val b) 0 (byte_val_range a) (byte_val_range b)
      ltac:(lia)) as H.
    cbv zeta in H. rewrite !Z.add_0_r in H.
    destruct H as ((H1 & H2 & H3 & H4) & Hq & Ha & Hb & _).
    cbn [drop_newlines]. b64_step. cbn [b64_quads drop_newlines]. b64_step.
    cbn -[byte_of quad Z.div Z.modulo Z.mul].
    assert (Hz2 : (byte_val a * 65536 + byte_val b * 256) mod 64 = 0) by sextet.
    rewrite Hz2 in Hq. by rewrite Hq, Ha, Hb, !byte_of_val.
  - pose proof (quad_bytes (byte_val a) (byte_val b) (byte_val c) (byte_val_range a)
      (byte_val_range b) (byte_val_range c)) as H.
    cbv zeta in H. destruct H as ((H1 & H2 & H3 & H4) & Hq & Ha & Hb & Hc).
    cbn [drop_newlines]. b64_step. cbn [b64_quads]. b64_step. rewrite IH by (simpl; lia).
    cbn [option_map]. by rewrite Hq, Ha, Hb, Hc, !byte_of_val.
Qed.
