(* ===== verification/DurationFacts.v ===== *)
(** Facts about [Durations]: the parser's fuel is enough whatever the text, what
    it reads is a signed 64-bit count, and it inverts [Duration_String]. The last
    needs that products of integers below [2^53] are computed exactly in
    binary64. *)

From Stdlib Require Import ZArith Lia Bool Ascii String SpecFloat.
From stdpp Require Import base option list strings.
From S2P Require Import Prelude GoStrings Float64 Calendar Durations.

(** * Exactness of binary64 on integers *)

(** [x] is the integer [n], with no fractional digit above the binary point. *)
Definition is_int (x : float64) (n : Z) : Prop :=
  exists m e, x = S754_finite false m e /\ e <= 0 /\ Zpos m = n * 2 ^ (- e).

(** ** Digits *)

Lemma digits2_pos_bounds p :
  2 ^ (Zpos (digits2_pos p) - 1) <= Zpos p < 2 ^ Zpos (digits2_pos p).
Proof.
  induction p as [p IH|p IH|]; cbn [digits2_pos]; [| |lia].
  all: rewrite Pos2Z.inj_succ.
  all: replace (2 ^ Z.succ (Zpos (digits2_pos p))) with (2 * 2 ^ Zpos (digits2_pos p))
      by (rewrite Z.pow_succ_r; lia).
  all: replace (Z.succ (Zpos (digits2_pos p)) - 1) with (Z.succ (Zpos (digits2_pos p) - 1)) by lia.
  all: rewrite Z.pow_succ_r by lia; lia.
Qed.

Lemma digits2_pos_le p n : 0 <= n -> Zpos p < 2 ^ n -> Zpos (digits2_pos p) <= n.
Proof.
  intros Hn H. pose proof (digits2_pos_bounds p) as [Hb _].
  assert (Zpos (digits2_pos p) - 1 < n); [|lia].
  apply (Z.pow_lt_mono_r_iff 2); lia.
Qed.

(** ** Shifts that lose nothing *)

Lemma shr_1_even m : 0 < m ->
  shr_1 {| shr_m := 2 * m; shr_r := false; shr_s := false |} =
  {| shr_m := m; shr_r := false; shr_s := false |}.
Proof. intros H. destruct m; [lia|done|lia]. Qed.

Lemma iter_shr_1 p : forall m, 0 < m ->
  SpecFloat.iter_pos shr_1 p {| shr_m := m * 2 ^ Zpos p; shr_r := false; shr_s := false |} =
  {| shr_m := m; shr_r := false; shr_s := false |}.
Proof.
  induction p as [p IH|p IH|]; intros m Hm; cbn [SpecFloat.iter_pos].
  - rewrite (Pos2Z.inj_xI p).
    replace (m * 2 ^ (2 * Zpos p + 1)) with (2 * (m * 2 ^ Zpos p * 2 ^ Zpos p))
      by (rewrite Z.pow_add_r, Z.mul_comm, Z.pow_1_r, Z.pow_mul_r by lia;
          change (2 ^ 2) with (2 * 2); rewrite Z.pow_mul_l; ring).
    rewrite shr_1_even by (repeat apply Z.mul_pos_pos; try done; apply Z.pow_pos_nonneg; lia).
    rewrite IH by (apply Z.mul_pos_pos; [done|apply Z.pow_pos_nonneg; lia]). by apply IH.
  - rewrite (Pos2Z.inj_xO p).
    replace (m * 2 ^ (2 * Zpos p)) with (m * 2 ^ Zpos p * 2 ^ Zpos p)
      by (rewrite Z.pow_mul_r by lia; change (2 ^ 2) with (2 * 2); rewrite Z.pow_mul_l; ring).
    rewrite IH by (apply Z.mul_pos_pos; [done|apply Z.pow_pos_nonneg; lia]). by apply IH.
  - replace (m * 2 ^ 1) with (2 * m) by lia. by apply shr_1_even.
Qed.

Lemma shr_exact m e n k : 0 < n -> e <= 0 -> m = n * 2 ^ (- e) -> k <= - e ->
  exists m' e', shr {| shr_m := m; shr_r := false; shr_s := false |} e k =
                ({| shr_m := m'; shr_r := false; shr_s := false |}, e') /\
    e' <= 0 /\ m' = n * 2 ^ (- e').
Proof.
  intros Hn He -> Hk. unfold shr. destruct k as [|k|k]; [by eauto| |by eauto].
  exists (n * 2 ^ (- (e + Zpos k))), (e + Zpos k). split; [|lia].
  replace (n * 2 ^ (- e)) with (n * 2 ^ (- (e + Zpos k)) * 2 ^ Zpos k).
  - rewrite iter_shr_1; [done|]. apply Z.mul_pos_pos; [done|apply Z.pow_pos_nonneg; lia].
  - rewrite <- Z.mul_assoc, <- Z.pow_add_r by lia. do 2 f_equal. lia.
Qed.

Lemma shr_fexp_exact m e n : 0 < n < 2 ^ prec -> e <= 0 -> m = n * 2 ^ (- e) ->
  exists m' e', shr_fexp prec emax m e loc_Exact =
                ({| shr_m := m'; shr_r := false; shr_s := false |}, e') /\
    e' <= 0 /\ m' = n * 2 ^ (- e').
Proof.
  intros [Hn0 Hn] He Hm. unfold shr_fexp, shr_record_of_loc. eapply shr_exact; try done.
  assert (Hp : 0 < 2 ^ (- e)) by (apply Z.pow_pos_nonneg; lia).
  destruct m as [|m|m]; [nia| |nia]. cbn [Zdigits2]. unfold fexp, emin.
  assert (Zpos (digits2_pos m) <= prec + - e).
  { apply digits2_pos_le; [unfold prec; lia|]. rewrite Z.pow_add_r, Hm by (unfold prec; lia).
    by apply Z.mul_lt_mono_pos_r. }
  unfold prec, emax in *. lia.
Qed.

(** ** Operations *)

Lemma round_aux_exact m e n : 0 < n < 2 ^ prec -> e <= 0 -> m = n * 2 ^ (- e) ->
  is_int (binary_round_aux prec emax false m e loc_Exact) n.
Proof.
  intros Hn He Hm. unfold binary_round_aux.
  destruct (shr_fexp_exact m e n Hn He Hm) as (m1 & e1 & -> & He1 & Hm1).
  cbn [shr_m loc_of_shr_record round_nearest_even].
  destruct (shr_fexp_exact m1 e1 n Hn He1 Hm1) as (m2 & e2 & -> & He2 & Hm2).
  cbn [shr_m]. assert (0 < 2 ^ (- e2)) by (apply Z.pow_pos_nonneg; lia).
  destruct m2 as [|m2|m2]; [nia| |nia].
  replace (e2 <=? emax - prec) with true; [by exists m2, e2|].
  symmetry. apply Z.leb_le. unfold emax, prec. lia.
Qed.

Lemma iter_xO m d : Zpos (Pos.iter xO m d) = Zpos m * 2 ^ Zpos d.
Proof.
  induction d as [|d IH] using Pos.peano_ind; [cbn; lia|].
  rewrite Pos.iter_succ, Pos2Z.inj_succ, Z.pow_succ_r by lia.
  rewrite (Pos2Z.inj_xO (Pos.iter xO m d)), IH. ring.
Qed.

Lemma of_int_exact n : 0 < n < 2 ^ prec -> is_int (of_int n) n.
Proof.
  intros Hn. unfold of_int, binary_normalize. destruct n as [|p|p]; [lia| |lia].
  unfold binary_round, shl_align. rewrite Z.add_0_r, Z.sub_0_r.
  assert (He : fexp prec emax (Zpos (digits2_pos p)) <= 0).
  { pose proof (digits2_pos_le p prec ltac:(done) (proj2 Hn)). unfold fexp, emin, prec, emax in *. lia. }
  destruct (fexp prec emax _) as [|d|d]; [|lia|]; apply round_aux_exact; try lia.
  by rewrite iter_xO.
Qed.

Lemma fmul_exact x y a b : 0 < a -> 0 < b -> a * b < 2 ^ prec ->
  is_int x a -> is_int y b -> is_int (fmul x y) (a * b).
Proof.
  intros Ha Hb Hab (mx & ex & -> & Hx & Hmx) (my & ey & -> & Hy & Hmy).
  unfold fmul, SFmul. cbn [xorb]. apply round_aux_exact; [nia|lia|].
  rewrite Pos2Z.inj_mul, Hmx, Hmy.
  replace (- (ex + ey)) with (- ex + - ey) by lia. rewrite Z.pow_add_r by lia. ring.
Qed.

Lemma to_int64_exact x n : 0 <= n <= MaxInt64 -> is_int x n -> to_int64 x = n.
Proof.
  intros Hn (m & e & -> & He & Hm). unfold to_int64.
  assert (Hv : (if 0 <=? e then Zpos m * 2 ^ e else Zpos m / 2 ^ (- e)) = n).
  { assert (0 < 2 ^ (- e)) by (apply Z.pow_pos_nonneg; lia).
    destruct (Z.leb_spec 0 e) as [H0|H0].
    - replace e with 0 in * by lia. rewrite Hm. cbn. lia.
    - rewrite Hm. apply Z.div_mul. lia. }
  cbv zeta. rewrite Hv.
  replace ((MinInt64 <=? n) && (n <=? MaxInt64)) with true; [done|].
  symmetry. apply andb_true_iff. rewrite !Z.leb_le. unfold MinInt64. lia.
Qed.

(** * Durations *)

(** ** Every component consumes *)

Lemma leadingInt_len s : forall x v r, leadingInt x s = Some (v, r) -> len r <= len s.
Proof.
  unfold len. induction s as [|c s IH]; intros x v r; cbn [leadingInt].
  - intros [= <- <-]. lia.
  - destruct (negb _); [intros [= <- <-]; lia|].
    destruct (_ <? _); [done|]. destruct (_ <? _); [done|].
    intros H%IH. cbn [String.length]. lia.
Qed.

Lemma leadingFraction_len s : forall x sc o f sc' r,
  leadingFraction x sc o s = (f, sc', r) -> len r <= len s.
Proof.
  unfold len. induction s as [|c s IH]; intros x sc o f sc' r; cbn [leadingFraction].
  - intros [= <- <- <-]. lia.
  - cbn [String.length].
    destruct (negb _); [intros [= <- <- <-]; cbn [String.length]; lia|].
    destruct o; [intros H%IH; lia|].
    destruct (_ <? _); [intros H%IH; lia|]. destruct (_ <? _); intros H%IH; lia.
Qed.

Lemma fraction_of_len s f sc r post : fraction_of s = (f, sc, r, post) -> len r <= len s.
Proof.
  unfold fraction_of. destruct s as [|c s]; [intros [= <- <- <- <-]; lia|].
  destruct (Ascii.eqb _ _); [|intros [= <- <- <- <-]; lia].
  destruct (leadingFraction _ _ _ _) as [[f' sc'] r'] eqn:E. intros [= <- <- <- <-].
  apply leadingFraction_len in E. unfold len in *. cbn [String.length]. lia.
Qed.

Lemma span_unit_len s : forall u r, span_unit s = (u, r) -> len u + len r = len s.
Proof.
  unfold len. induction s as [|c s IH]; intros u r; cbn [span_unit].
  - intros [= <- <-]. done.
  - destruct (ends_unit c); [intros [= <- <-]; cbn; lia|].
    destruct (span_unit s) as [u' r'] eqn:E. intros [= <- <-].
    specialize (IH _ _ eq_refl). cbn [String.length]. lia.
Qed.

Lemma len_pos s : String.eqb s EmptyString = false -> 0 < len s.
Proof. destruct s; [done|]. intros _. unfold len. cbn [String.length]. lia. Qed.

Lemma component_shorter orig s v r :
  component orig s = Ok (v, r) -> (String.length r < String.length s)%nat.
Proof.
  unfold component. destruct s as [|c s]; [done|]. remember (String c s) as t.
  destruct (negb (ends_unit c)); [done|].
  destruct (leadingInt 0 t) as [[v1 s1]|] eqn:E1; [|done]. apply leadingInt_len in E1.
  destruct (fraction_of s1) as [[[f sc] s2] post] eqn:E2. apply fraction_of_len in E2.
  destruct (_ && _); [done|].
  destruct (span_unit s2) as [u s3] eqn:E3. apply span_unit_len in E3.
  destruct (String.eqb u EmptyString) eqn:Eu; [done|]. apply len_pos in Eu.
  destruct (unitMap u); [|done]. destruct (_ <? _); [done|].
  assert (len s3 < len t) by lia. unfold len in *.
  destruct (0 <? f); [destruct (_ <? _); [done|]|]; intros [= _ <-]; lia.
Qed.

(** The length of the text is enough fuel: more changes nothing. *)
Lemma components_fuel orig n : forall m d s,
  (String.length s <= n)%nat -> (String.length s <= m)%nat ->
  components n orig d s = components m orig d s.
Proof.
  induction n as [|n IH]; intros m d s Hn Hm.
  - destruct s; cbn in Hn; [|lia]. by destruct m.
  - destruct s as [|c s]; [by destruct m|]. destruct m as [|m]; [cbn in Hm; lia|].
    cbn [components]. destruct (component orig (String c s)) as [[v r]|e] eqn:E; [|done].
    apply component_shorter in E. destruct (_ <? _); [done|]. apply IH; lia.
Qed.

(** ** The result fits *)

Lemma components_range orig n : forall d s v,
  0 <= d <= MaxUint63 -> components n orig d s = Ok v -> 0 <= v <= MaxUint63.
Proof.
  induction n as [|n IH]; intros d s v Hd; destruct s as [|c s]; cbn [components];
    try (intros [= <-]; done).
  destruct (component _ _) as [[x r]|e]; [|done].
  destruct (MaxUint63 <? (d + x) mod 2 ^ 64) eqn:E; [done|]. apply IH.
  apply Z.ltb_ge in E. split; [|done]. by apply Z.mod_pos_bound.
Qed.

Lemma ParseDuration_range s d : ParseDuration s = Ok d -> in_int64 d.
Proof.
  unfold ParseDuration, in_int64, MinInt64. destruct (sign_of s) as [neg r].
  destruct (String.eqb r "0"); [intros [= <-]; done|].
  destruct (String.eqb r EmptyString); [done|].
  destruct (components _ _ _ _) as [v|e] eqn:E; [|done].
  apply components_range in E; [|done]. unfold MaxInt64, MaxUint63 in *.
  destruct neg; [intros [= <-]; lia|].
  destruct (_ <? v) eqn:Ev; [done|]. apply Z.ltb_ge in Ev. intros [= <-]. lia.
Qed.

(** ** What [Duration_String] prints is read back *)

(** The text that may follow a number: its end, or a byte that is no digit. *)
Definition no_digit (s : string) : Prop :=
  match s with String c _ => is_digit c = false | EmptyString => True end.

(** The text that may follow a unit: its end, or the next number. *)
Definition next_number (s : string) : Prop :=
  match s with String c _ => ends_unit c = true | EmptyString => True end.

Lemma digits_val_ge s : forall x v, digits_val x s = Some v -> 0 <= x -> x <= v.
Proof.
  induction s as [|c s IH]; intros x v; cbn [digits_val]; [intros [= <-]; lia|].
  destruct (is_digit c) eqn:Ed; [|done]. intros H Hx. unfold is_digit, byte_val in *.
  apply andb_true_iff in Ed as [E1%N.leb_le E2%N.leb_le].
  apply IH in H; lia.
Qed.

Lemma digits_val_cons c s x v : digits_val x (String c s) = Some v -> 0 <= x ->
  is_digit c = true /\ digits_val (x * 10 + (byte_val c - 48)) s = Some v /\
  0 <= x * 10 + (byte_val c - 48) <= v /\ x * 10 <= v.
Proof.
  cbn [digits_val]. destruct (is_digit c) eqn:Ed; [|done]. intros H Hx.
  unfold is_digit, byte_val in *. apply andb_true_iff in Ed as [E1%N.leb_le E2%N.leb_le].
  pose proof (digits_val_ge _ _ _ H ltac:(lia)). split_and!; [done|done|lia|lia|lia].
Qed.

Lemma leadingInt_digits ds : forall x v rest,
  digits_val x ds = Some v -> 0 <= x -> v <= MaxUint63 -> no_digit rest ->
  leadingInt x (ds +:+ rest) = Some (v, rest).
Proof.
  induction ds as [|c ds IH]; intros x v rest Hv Hx Hm Hr.
  - injection Hv as <-. destruct rest as [|c r]; [done|]. cbn in Hr |- *. by rewrite Hr.
  - apply digits_val_cons in Hv as (Hc & Hv & Hy & H10); [|done].
    cbn [String.append leadingInt]. rewrite Hc. cbn [negb].
    replace (MaxUint63 / 10 <? x) with false
      by (symmetry; apply Z.ltb_ge, Z.div_le_lower_bound; lia).
    replace (MaxUint63 <? _) with false by (symmetry; apply Z.ltb_ge; lia).
    apply IH; [done|lia|done|done].
Qed.

(** The scale after [k] digits. *)
Definition scale10 (k : nat) : float64 := Nat.iter k (fun s => fmul s (of_int 10)) (of_int 1).

Lemma leadingFraction_digits ds : forall x k v rest,
  digits_val x ds = Some v -> 0 <= x -> v < MaxUint63 -> no_digit rest ->
  leadingFraction x (scale10 k) false (ds +:+ rest) =
  (v, scale10 (String.length ds + k), rest).
Proof.
  induction ds as [|c ds IH]; intros x k v rest Hv Hx Hm Hr.
  - injection Hv as <-. destruct rest as [|c r]; [done|]. cbn in Hr |- *. by rewrite Hr.
  - apply digits_val_cons in Hv as (Hc & Hv & Hy & H10); [|done].
    cbn [String.append leadingFraction]. rewrite Hc. cbn [negb].
    replace ((MaxUint63 - 1) / 10 <? x) with false
      by (symmetry; apply Z.ltb_ge, Z.div_le_lower_bound; lia).
    replace (MaxUint63 <? _) with false by (symmetry; apply Z.ltb_ge; lia).
    change (fmul (scale10 k) (of_int 10)) with (scale10 (S k)).
    rewrite (IH _ _ v); [|done|lia|done|done]. do 2 f_equal.
    cbn [String.length]. by rewrite Nat.add_succ_r.
Qed.

Lemma span_unit_app u rest : forall_bytes (fun c => negb (ends_unit c)) u = true ->
  next_number rest -> span_unit (u +:+ rest) = (u, rest).
Proof.
  intros Hu Hr. induction u as [|c u IH]; cbn [String.append span_unit].
  - destruct rest as [|c r]; [done|]. cbn in Hr |- *. by rewrite Hr.
  - cbn [forall_bytes] in Hu. apply andb_true_iff in Hu as [Hc%negb_true_iff Hu].
    by rewrite Hc, IH.
Qed.

(** *** Fractions *)

Definition zeros (n : nat) : string := repeat_string "0" n.

Lemma trim_zeros_rev_split s : exists n, s = zeros n +:+ trim_zeros_rev s.
Proof.
  induction s as [|c s [n IH]]; cbn [trim_zeros_rev]; [by exists 0%nat|].
  destruct (Ascii.eqb_spec c "0") as [->|]; [|by exists 0%nat].
  exists (S n). cbn. f_equal. exact IH.
Qed.

Lemma rev_zeros n : String.length (String.rev (zeros n)) = n /\
  forall v, digits_val v (String.rev (zeros n)) = Some (v * 10 ^ Z.of_nat n).
Proof.
  induction n as [|n [IHl IH]]; [split; [done|]; intros v; cbn; f_equal; lia|].
  change (zeros (S n)) with (String "0" (zeros n)). rewrite srev_cons. split.
  - rewrite slen_app, IHl. cbn. lia.
  - intros v. rewrite digits_val_app, IH. cbn [digits_val].
    change (is_digit "0") with true. change (byte_val "0" - 48) with 0. cbv iota. f_equal.
    rewrite Nat2Z.inj_succ, Z.pow_succ_r by lia. ring.
Qed.

(** Dropping the trailing zeros scales the digits' value. *)
Lemma trimmed_value f v : digits_val 0 f = Some v ->
  let t := String.rev (trim_zeros_rev (String.rev f)) in
  exists n y, (String.length t + n = String.length f)%nat /\
    digits_val 0 t = Some y /\ y * 10 ^ Z.of_nat n = v.
Proof.
  intros Hv t. destruct (trim_zeros_rev_split (String.rev f)) as [n Hn].
  apply (f_equal String.rev) in Hn. rewrite srev_involutive, srev_app in Hn. fold t in Hn.
  destruct (rev_zeros n) as [Hl Hz]. exists n.
  rewrite Hn, digits_val_app in Hv. destruct (digits_val 0 t) as [y|]; [|done].
  rewrite Hz in Hv. injection Hv as Hv. exists y.
  split_and!; [|done|done]. by rewrite Hn, slen_app, Hl.
Qed.

Lemma fmtFrac_spec w p : (0 < p)%nat ->
  (fmtFrac w p = EmptyString /\ w mod 10 ^ Z.of_nat p = 0) \/
  exists t n y, fmtFrac w p = "." +:+ t /\ t <> EmptyString /\
    (String.length t + n = p)%nat /\
    digits_val 0 t = Some y /\ y * 10 ^ Z.of_nat n = w mod 10 ^ Z.of_nat p.
Proof.
  intros Hp. unfold fmtFrac. set (F := w mod 10 ^ Z.of_nat p).
  assert (HF : 0 <= F < 10 ^ Z.of_nat p)
    by (apply Z.mod_pos_bound, Z.pow_pos_nonneg; lia).
  pose proof (digits_val_pad p F ltac:(lia)) as Hv.
  destruct (trimmed_value _ _ Hv) as (n & y & Hl & Hy & HyF).
  rewrite (pad_itoa_length _ _ HF Hp) in Hl.
  destruct (String.rev (trim_zeros_rev _)) as [|c t] eqn:Et.
  - left. split; [done|]. cbn in Hy. injection Hy as <-. lia.
  - right. exists (String c t), n, y. done.
Qed.

(** The fraction of one of the three printed scales is computed exactly. *)
Lemma fraction_exact p k n y :
  In p [3; 6; 9]%nat -> (k + n = p)%nat -> (0 < k)%nat ->
  0 < y -> y * 10 ^ Z.of_nat n < 10 ^ Z.of_nat p ->
  to_int64 (fmul (of_int y) (fdiv (of_int (10 ^ Z.of_nat p)) (scale10 k))) =
  y * 10 ^ Z.of_nat n.
Proof.
  intros Hp Hk Hk0 Hy Hlt.
  assert (Hd : fdiv (of_int (10 ^ Z.of_nat p)) (scale10 k) = of_int (10 ^ Z.of_nat n)).
  { replace n with (p - k)%nat by lia. clear Hlt Hy.
    destruct Hp as [<-|[<-|[<-|[]]]];
      do 10 (destruct k as [|k]; [first [exfalso; lia|vm_compute; reflexivity]|]); lia. }
  assert (H10 : 10 ^ Z.of_nat p <= 10 ^ 9) by (apply Z.pow_le_mono_r; [lia|]; cbn in Hp; lia).
  assert (Hn : 0 < 10 ^ Z.of_nat n) by (apply Z.pow_pos_nonneg; lia).
  rewrite Hd. apply to_int64_exact; [unfold MaxInt64; lia|].
  apply fmul_exact; [done|done|unfold prec; lia| |];
    apply of_int_exact; unfold prec; split; nia.
Qed.

(** *** Components *)

Definition unit_word (u : string) (unit : Z) : Prop :=
  unitMap u = Some unit /\ 0 < unit /\
  forall_bytes (fun c => negb (ends_unit c)) u = true /\ u <> EmptyString.

Lemma unit_word_no_digit u unit rest : unit_word u unit -> no_digit (u +:+ rest).
Proof.
  intros (_ & _ & Hu & Hne). destruct u as [|c u]; [done|].
  cbn [forall_bytes String.append no_digit] in *.
  apply andb_true_iff in Hu as [Hc%negb_true_iff _]. by apply orb_false_iff in Hc as [_ Hc].
Qed.

Lemma itoa_next_number v r : 0 <= v -> next_number (itoa v +:+ r).
Proof.
  intros Hv. pose proof (itoa_digits v Hv) as Hd. pose proof (itoa_nonempty v Hv) as Hne.
  destruct (itoa v) as [|c s]; [done|]. cbn in Hd |- *.
  apply andb_true_iff in Hd as [Hc _]. unfold ends_unit. rewrite Hc. apply orb_true_r.
Qed.

Lemma len_app a b : len (a +:+ b) = len a + len b.
Proof. unfold len. rewrite slen_app. lia. Qed.

Lemma component_spec orig v tail f sc post u rest unit x :
  0 <= v -> 0 <= x -> v * unit + x <= MaxUint63 -> no_digit tail ->
  fraction_of tail = (f, sc, u +:+ rest, post) ->
  unit_word u unit -> next_number rest ->
  (if 0 <? f then to_int64 (fmul (of_int f) (fdiv (of_int unit) sc)) else 0%Z) = x ->
  component orig (itoa v +:+ tail) = Ok (v * unit + x, rest).
Proof.
  intros Hv Hx0 Hm Ht Hf (Hu & Hpos & Hb & Hne) Hr Hx.
  pose proof (itoa_next_number v tail Hv) as Hn. unfold component.
  assert (Hl : leadingInt 0 (itoa v +:+ tail) = Some (v, tail)).
  { apply leadingInt_digits; [by apply digits_val_itoa|lia|nia|done]. }
  assert (Hp : (len (itoa v +:+ tail) =? len tail) = false).
  { rewrite len_app. apply Z.eqb_neq. pose proof (itoa_nonempty v Hv). unfold len.
    destruct (itoa v); [done|]. cbn [String.length]. lia. }
  destruct (itoa v +:+ tail) as [|c s] eqn:Es.
  { exfalso. pose proof (itoa_nonempty v Hv). by destruct (itoa v). }
  cbn in Hn. rewrite Hn, Hl, Hf, Hp. cbn [negb andb].
  rewrite span_unit_app by done.
  replace (String.eqb u EmptyString) with false by (symmetry; by apply String.eqb_neq).
  rewrite Hu. replace (MaxUint63 / unit <? v) with false
    by (symmetry; apply Z.ltb_ge, Z.div_le_lower_bound; lia).
  destruct (0 <? f).
  - rewrite Hx. by replace (MaxUint63 <? v * unit + x) with false by (symmetry; by apply Z.ltb_ge).
  - subst x. by rewrite Z.add_0_r.
Qed.

Lemma component_whole orig v u rest unit :
  0 <= v -> v * unit <= MaxUint63 -> unit_word u unit -> next_number rest ->
  component orig (itoa v +:+ u +:+ rest) = Ok (v * unit, rest).
Proof.
  intros Hv Hm Hu Hr. pose proof (unit_word_no_digit u unit rest Hu) as Ht.
  rewrite <- (Z.add_0_r (v * unit)).
  eapply (component_spec _ _ _ 0 (of_int 1) false u); try done; [lia| ].
  destruct Hu as (_ & _ & Hb & Hne). destruct u as [|c u]; [done|].
  cbn [forall_bytes] in Hb. apply andb_true_iff in Hb as [Hc%negb_true_iff _].
  apply orb_false_iff in Hc as [Hc _]. cbn. by rewrite Hc.
Qed.

Lemma component_fraction orig v w p u rest :
  In p [3; 6; 9]%nat -> 0 <= v ->
  v * 10 ^ Z.of_nat p + w mod 10 ^ Z.of_nat p <= MaxUint63 ->
  unit_word u (10 ^ Z.of_nat p) -> next_number rest ->
  component orig (itoa v +:+ fmtFrac w p +:+ u +:+ rest) =
  Ok (v * 10 ^ Z.of_nat p + w mod 10 ^ Z.of_nat p, rest).
Proof.
  intros Hp Hv Hm Hu Hr.
  assert (Hp0 : (0 < p)%nat) by (cbn in Hp; lia).
  assert (HF : 0 <= w mod 10 ^ Z.of_nat p < 10 ^ Z.of_nat p)
    by (apply Z.mod_pos_bound, Z.pow_pos_nonneg; lia).
  destruct (fmtFrac_spec w p Hp0) as [[-> H0]|(t & n & y & -> & Hne & Hl & Hy & HyF)].
  { rewrite H0, Z.add_0_r. change (EmptyString +:+ u +:+ rest) with (u +:+ rest).
    apply component_whole; [done|lia|done|done]. }
  assert (0 <= y) by (apply digits_val_ge in Hy; lia).
  assert (0 < 10 ^ Z.of_nat n) by (apply Z.pow_pos_nonneg; lia).
  assert (10 ^ Z.of_nat p <= 10 ^ 9) by (apply Z.pow_le_mono_r; [lia|]; cbn in Hp; lia).
  assert (y < MaxUint63) by (unfold MaxUint63; nia).
  eapply component_spec; try done; [lia| |].
  - change (("." +:+ t) +:+ u +:+ rest) with (String "." (t +:+ u +:+ rest)).
    unfold fraction_of. change (Ascii.eqb "." ".") with true. cbv iota. change (of_int 1) with (scale10 0).
    rewrite (leadingFraction_digits t 0 0 y); [done|done|lia|done|].
    by apply (unit_word_no_digit _ _ _ Hu).
  - destruct (Z.ltb_spec 0 y); [|lia]. rewrite Nat.add_0_r, <- HyF.
    apply (fraction_exact p); try done; [|lia]. destruct t; [done|cbn; lia].
Qed.

Lemma components_step orig n d s v r :
  component orig s = Ok (v, r) -> 0 <= d -> 0 <= v -> d + v <= MaxUint63 ->
  (String.length s <= n)%nat ->
  components n orig d s = components n orig (d + v) r.
Proof.
  intros Hc Hd Hv Hm Hn. pose proof (component_shorter _ _ _ _ Hc).
  destruct n as [|n]; [lia|]. destruct s as [|c s]; [done|].
  rewrite (components_fuel orig (S n) n (d + v) r) by lia.
  cbn [components]. rewrite Hc. rewrite Z.mod_small by (unfold MaxUint63 in Hm; lia).
  by replace (MaxUint63 <? d + v) with false by (symmetry; apply Z.ltb_ge; lia).
Qed.

(** One component, when it is the whole text. *)
Lemma components_last orig n d s v :
  component orig s = Ok (v, EmptyString) -> 0 <= d -> 0 <= v -> d + v <= MaxUint63 ->
  (String.length s <= n)%nat -> components n orig d s = Ok (d + v).
Proof. intros. rewrite (components_step _ _ _ _ v EmptyString) by done. by destruct n. Qed.

(** *** The round trip *)

(** The text after the sign. *)
Definition magnitude (u : Z) : string := Duration_String (Z.abs u).

Lemma Duration_String_sign d :
  Duration_String d = if d <? 0 then "-" +:+ magnitude d else magnitude d.
Proof.
  unfold magnitude, Duration_String. rewrite Z.abs_idemp.
  by replace (Z.abs d <? 0) with false by (symmetry; apply Z.ltb_ge; lia).
Qed.

Ltac is_unit := split_and!; [vm_compute; reflexivity|done|vm_compute; reflexivity|done].

Lemma components_seconds orig n d u s :
  0 <= d -> 0 <= s -> d + s * Second + u mod Second <= MaxUint63 ->
  (String.length (itoa s +:+ fmtFrac u 9 +:+ "s") <= n)%nat ->
  components n orig d (itoa s +:+ fmtFrac u 9 +:+ "s") = Ok (d + s * Second + u mod Second).
Proof.
  intros Hd Hs Hm Hn. pose proof (Z.mod_pos_bound u Second ltac:(done)).
  rewrite <- Z.add_assoc. apply components_last; try done; [|unfold Second in *; lia|lia].
  change "s" with ("s" +:+ EmptyString). change Second with (10 ^ Z.of_nat 9).
  apply component_fraction; [cbn; tauto|done| |is_unit|done].
  change (10 ^ Z.of_nat 9) with Second. lia.
Qed.

Lemma components_word orig n d v u unit rest :
  unit_word u unit -> 0 <= d -> 0 <= v -> d + v * unit <= MaxUint63 -> next_number rest ->
  (String.length (itoa v +:+ u +:+ rest) <= n)%nat ->
  components n orig d (itoa v +:+ u +:+ rest) = components n orig (d + v * unit) rest.
Proof.
  intros Hu Hd Hv Hm Hr Hn. pose proof Hu as (_ & Hp & _).
  apply components_step; try done; [|nia]. apply component_whole; [done|lia|done|done].
Qed.

(** Hours, minutes and seconds, from a second up. *)
Definition clock (u : Z) : string :=
  let s := u / Second in
  let secs := itoa (s mod 60) +:+ fmtFrac u 9 +:+ "s" in
  let m := s / 60 in
  if m =? 0 then secs
  else if m / 60 =? 0 then itoa (m mod 60) +:+ "m" +:+ secs
  else itoa (m / 60) +:+ "h" +:+ itoa (m mod 60) +:+ "m" +:+ secs.

Lemma components_clock orig u : Second <= u <= MaxUint63 ->
  components (String.length (clock u)) orig 0 (clock u) = Ok u.
Proof.
  intros [Hu Hm]. remember (String.length (clock u)) as n eqn:Hn. unfold clock in *.
  cbv zeta in *. unfold MaxUint63 in Hm. set (s := u / Second) in *.
  assert (Hs : u = s * Second + u mod Second /\ 0 <= u mod Second < Second /\ 0 < s).
  { subst s. unfold Second in *. Z.to_euclidean_division_equations. lia. }
  assert (Hmin : s = s / 60 * 60 + s mod 60 /\ 0 <= s mod 60 < 60 /\ 0 <= s / 60)
    by (Z.to_euclidean_division_equations; lia).
  set (m := s / 60) in *.
  assert (Hh : m = m / 60 * 60 + m mod 60 /\ 0 <= m mod 60 < 60 /\ 0 <= m / 60)
    by (Z.to_euclidean_division_equations; lia).
  destruct (Z.eqb_spec m 0) as [H0|H0].
  { rewrite components_seconds; [f_equal; lia|lia|lia|unfold MaxUint63; lia|lia]. }
  pose proof (itoa_next_number (s mod 60) (fmtFrac u 9 +:+ "s") ltac:(lia)) as Hns.
  destruct (Z.eqb_spec (m / 60) 0) as [H1|H1].
  { rewrite (components_word _ _ _ _ "m" Minute);
      [|is_unit|lia|lia|unfold MaxUint63, Minute, Second in *; lia|done|lia].
    rewrite !slen_app in Hn. rewrite components_seconds; [f_equal|..];
      rewrite ?slen_app; unfold MaxUint63, Minute, Second in *; lia. }
  pose proof (itoa_next_number (m mod 60) ("m" +:+ itoa (s mod 60) +:+ fmtFrac u 9 +:+ "s") ltac:(lia)).
  rewrite (components_word _ _ _ _ "h" Hour);
    [|is_unit|lia|lia|unfold MaxUint63, Hour, Minute, Second in *; lia|done|lia].
  rewrite !slen_app in Hn.
  rewrite (components_word _ _ _ _ "m" Minute);
    [|is_unit|unfold Hour, Minute, Second in *; lia|lia
     |unfold MaxUint63, Hour, Minute, Second in *; lia|done|rewrite !slen_app; lia].
  rewrite components_seconds; [f_equal|..];
    rewrite ?slen_app; unfold MaxUint63, Hour, Minute, Second in *; lia.
Qed.

Lemma components_magnitude orig u : 0 < u <= MaxUint63 ->
  components (String.length (Duration_String u)) orig 0 (Duration_String u) = Ok u.
Proof.
  intros Hu. assert (Hm : u <= MaxUint63) by lia. unfold MaxUint63 in Hm.
  remember (String.length (Duration_String u)) as n eqn:Hn.
  unfold Duration_String in *. rewrite Z.abs_eq in * by lia. cbv zeta in *.
  replace (u <? 0) with false in * by (symmetry; apply Z.ltb_ge; lia).
  replace (u =? 0) with false in * by (symmetry; apply Z.eqb_neq; lia).
  destruct (Z.ltb_spec u 1000).
  { subst n. apply (components_last _ _ 0 _ u); try lia. rewrite <- (Z.mul_1_r u) at 2.
    change "ns" with ("ns" +:+ EmptyString).
    apply component_whole; [lia|unfold MaxUint63; lia|is_unit|done]. }
  assert (Hdm : forall k, 0 < k -> u = u / k * k + u mod k /\ 0 <= u mod k < k /\ 0 <= u / k).
  { intros k Hk. pose proof (Z.div_mod u k ltac:(lia)). pose proof (Z.mod_pos_bound u k Hk).
    pose proof (Z.div_pos u k). lia. }
  destruct (Z.ltb_spec u 1000000).
  { destruct (Hdm 1000 ltac:(done)) as (He & _ & Hq). subst n.
    apply (components_last _ _ 0 _ u); try lia. rewrite He at 3.
    rewrite <- (sapp_nil_r (bs [194; 181] +:+ "s")). change 1000 with (10 ^ Z.of_nat 3) at 2 3.
    apply component_fraction; [cbn; tauto|done|change (10 ^ Z.of_nat 3) with 1000; lia|is_unit|done]. }
  destruct (Z.ltb_spec u Second).
  { destruct (Hdm 1000000 ltac:(done)) as (He & _ & Hq). subst n.
    apply (components_last _ _ 0 _ u); try lia. rewrite He at 3.
    change "ms" with ("ms" +:+ EmptyString). change 1000000 with (10 ^ Z.of_nat 6) at 2 3.
    apply component_fraction; [cbn; tauto|done|change (10 ^ Z.of_nat 6) with 1000000; lia|is_unit|done]. }
  subst n. apply (components_clock orig u). lia.
Qed.

Lemma magnitude_head u : 0 < u -> exists c r, Duration_String u = String c r /\
  is_digit c = true /\ r <> EmptyString.
Proof.
  intros Hu. assert (Hi : forall v t, 0 <= v -> t <> EmptyString ->
    exists c r, itoa v +:+ t = String c r /\ is_digit c = true /\ r <> EmptyString).
  { intros v t Hv Ht. pose proof (itoa_digits v Hv) as Hd. pose proof (itoa_nonempty v Hv) as Hne.
    destruct (itoa v) as [|c r]; [done|]. exists c, (r +:+ t). cbn in Hd |- *.
    apply andb_true_iff in Hd as [Hc _]. split_and!; [done|done|]. by destruct r. }
  assert (Hne : forall a (c : ascii) b, a +:+ String c b <> EmptyString) by (by intros [|]).
  unfold Duration_String. rewrite Z.abs_eq by lia. cbv zeta.
  replace (u <? 0) with false by (symmetry; apply Z.ltb_ge; lia).
  replace (u =? 0) with false by (symmetry; apply Z.eqb_neq; lia).
  assert (0 <= u / Second / 60 / 60 /\ 0 <= u / 1000 /\ 0 <= u / 1000000)
    by (unfold Second; Z.to_euclidean_division_equations; lia).
  pose proof (Z.mod_pos_bound (u / Second) 60 ltac:(done)).
  pose proof (Z.mod_pos_bound (u / Second / 60) 60 ltac:(done)).
  repeat case_match; apply Hi; try lia; try done; apply Hne.
Qed.

Lemma ParseDuration_String d : in_int64 d -> ParseDuration (Duration_String d) = Ok d.
Proof.
  intros [Hlo Hhi]. unfold MinInt64, MaxInt64 in *. rewrite Duration_String_sign. unfold magnitude.
  destruct (Z.eqb_spec d 0) as [->|H0]; [vm_compute; reflexivity|].
  destruct (magnitude_head (Z.abs d) ltac:(lia)) as (c & r & Hs & Hc & Hr).
  pose proof (fun o => components_magnitude o (Z.abs d) ltac:(unfold MaxUint63; lia)) as Hm.
  rewrite Hs in *.
  assert (Hsign : sign_of (String c r) = (false, String c r)).
  { cbn. destruct (Ascii.eqb_spec c "-") as [->|]; [done|].
    by destruct (Ascii.eqb_spec c "+") as [->|]. }
  assert (H1 : String.eqb (String c r) "0" = false).
  { apply String.eqb_neq. by intros [= -> ->]. }
  unfold ParseDuration. destruct (Z.ltb_spec d 0).
  - change (sign_of ("-" +:+ String c r)) with (true, String c r). cbv iota beta.
    rewrite H1, Hm. cbn [String.eqb]. f_equal. lia.
  - rewrite Hsign, H1, Hm. cbn [String.eqb].
    replace (MaxInt64 <? Z.abs d) with false by (symmetry; apply Z.ltb_ge; unfold MaxInt64; lia).
    f_equal. lia.
Qed.
