(* ===== verification/Spec.v ===== *)
(** Package [spec] (pkg/spec/spec.go): the RecoveryDrill document, its
    validation, and the loader's document loop.

    The YAML decoder is third-party: [ParseAll] takes the outcome of each
    successive [dec.Decode] call. Pointer fields that may be nil are options;
    [Duration] fields are nanosecond counts. *)

From Stdlib Require Import ZArith Lia Ascii String.
From stdpp Require Import base option list gmap strings.
From S2P Require Import Prelude GoStrings Regex PathMatch.

(** * The document *)

Definition APIVersion : string := "firedrill.dev/v1".
Definition Kind : string := "RecoveryDrill".

Record Metadata := { meta_Name : string }.

Record Objectives := { RTO : Duration; RPO : Duration }.

Record Decrypt := {
  dec_Type : string;
  IdentityFile : string;
  IdentityEnv : string;
  PassphraseEnv : string
}.

Record From := {
  from_Type : string;
  URI : string;
  CredentialsRef : string;
  Region : string;
  Endpoint : string;
  MaxBytes : Z;
  MaxUncompressedBytes : Z;
  from_Decrypt : option Decrypt;
  Select : string;
  Match : string;
  Backup : string;
  from_Namespace : string
}.

Record Source := {
  src_Driver : string;
  src_From : From;
  Format : string;
  Database : string
}.

Record Sandbox := {
  Provider : string;
  Image : string;
  TTL : Duration;
  sb_Namespace : string
}.

Record FreshnessCheck := { MaxAge : Duration }.
Record RowCountCheck := { row_Query : string; row_Min : Z }.
Record ChecksumCheck := { Table : string; Column : string; sum_Expect : string }.
Record CanaryCheck := { canary_SQL : string; canary_Query : string; canary_Expect : string }.
Record SmokeCheck := { smoke_SQL : string; smoke_Query : string; ExpectRows : string }.
Record PodsReadyCheck := { Timeout : Duration }.
Record ResourceCountCheck := { res_Kind : string; res_Min : Z }.

(** One verification step; exactly one field must be set. *)
Record Check := {
  RestoreSucceeded : option unit;
  Freshness : option FreshnessCheck;
  RowCount : option RowCountCheck;
  Checksum : option ChecksumCheck;
  Smoke : option SmokeCheck;
  Canary : option CanaryCheck;
  PodsReady : option PodsReadyCheck;
  ResourceCount : option ResourceCountCheck
}.

Definition canary_Statement (c : CanaryCheck) : string :=
  if negb (String.eqb (canary_Query c) "") then canary_Query c else canary_SQL c.

Definition smoke_Statement (c : SmokeCheck) : string :=
  if negb (String.eqb (smoke_Query c) "") then smoke_Query c else smoke_SQL c.

Record Sink := {
  sink_Type : string;
  TextfileDir : string;
  sink_URL : string;
  WebhookEnv : string;
  URLEnv : string;
  OnlyFailures : bool
}.

Record Report := {
  Sign : bool;
  HTML : bool;
  Controls : list string;
  Dir : string;
  Sinks : list Sink
}.

Record Spec := {
  Schedule : string;
  spec_Objectives : Objectives;
  spec_Source : Source;
  spec_Sandbox : Sandbox;
  Verify : list Check;
  spec_Report : Report
}.

Record Drill := {
  drill_APIVersion : string;
  drill_Kind : string;
  drill_Metadata : Metadata;
  drill_Spec : Spec
}.

Definition drill_Name (d : Drill) : string := meta_Name (drill_Metadata d).

(** * Checks *)

Definition isSQL (c : Check) : bool :=
  isSome (RowCount c) || isSome (Checksum c) || isSome (Smoke c) || isSome (Canary c).

Definition isK8s (c : Check) : bool :=
  isSome (PodsReady c) || isSome (ResourceCount c).

(** The check inspects restored data, not process metadata. *)
Definition provesData (c : Check) : bool := isSQL c || isK8s c.

Definition resource_kinds : list string :=
  ["deployments"; "statefulsets"; "services"; "configmaps"; "secrets"; "pods"].

Definition str_in (s : string) (l : list string) : bool := List.existsb (String.eqb s) l.

Definition is_empty (s : string) : bool := String.eqb s "".

Definition b2n (b : bool) : nat := if b then 1 else 0.

Definition count_set (c : Check) : nat :=
  b2n (isSome (RestoreSucceeded c)) + b2n (isSome (Freshness c)) +
  b2n (isSome (RowCount c)) + b2n (isSome (Checksum c)) +
  b2n (isSome (Smoke c)) + b2n (isSome (Canary c)) +
  b2n (isSome (PodsReady c)) + b2n (isSome (ResourceCount c)).

(** [if f != nil { n++; if bad { return err } }], in source order. *)
Definition first_error (es : list (option error)) : option error :=
  List.fold_right (fun e r => match e with Some x => Some x | None => r end) None es.

Definition when {A} (o : option A) (f : A -> option error) : option error :=
  match o with Some a => f a | None => None end.

Definition err_if (b : bool) (e : error) : option error := if b then Some e else None.

(** [(c *Check) validate()]. *)
Definition check_validate (c : Check) : option error :=
  first_error [
    when (Freshness c) (fun f =>
      err_if (MaxAge f <=? 0) (ENew "freshness.maxAge must be > 0"));
    when (RowCount c) (fun r =>
      err_if (is_empty (row_Query r)) (ENew "rowCount.query is required"));
    when (Checksum c) (fun k =>
      err_if (is_empty (Table k) || is_empty (Column k))
        (ENew "checksum requires table and column"));
    when (Smoke c) (fun s =>
      if negb (is_empty (smoke_SQL s)) && negb (is_empty (smoke_Query s))
      then Some (ENew "smoke: set either sql or query, not both")
      else err_if (is_empty (smoke_Statement s))
             (ENew "smoke.sql (or smoke.query) is required"));
    when (Canary c) (fun k =>
      if negb (is_empty (canary_SQL k)) && negb (is_empty (canary_Query k))
      then Some (ENew "canary: set either sql or query, not both")
      else err_if (is_empty (canary_Statement k) || is_empty (canary_Expect k))
             (ENew "canary requires sql (or query) and expect"));
    when (PodsReady c) (fun p =>
      err_if (Timeout p <=? 0) (ENew "podsReady.timeout must be > 0"));
    when (ResourceCount c) (fun r =>
      err_if (negb (str_in (res_Kind r) resource_kinds))
        (ENew ("resourceCount.kind " +:+ quote (res_Kind r) +:+
               " unsupported (deployments|statefulsets|services|configmaps|secrets|pods)")));
    err_if (negb (count_set c =? 1)%nat)
      (ENew ("exactly one check type must be set, got " +:+ itoa (Z.of_nat (count_set c))))
  ].

(** * Validation *)

Definition dns_char (c : ascii) : bool := is_lower c || is_digit c || Ascii.eqb c "-".
Definition dns_alnum (c : ascii) : bool := is_lower c || is_digit c.

(** [^[a-z0-9]([a-z0-9-]{0,61}[a-z0-9])?$] *)
Definition nameRe : regex :=
  Cat (Cls dns_alnum) (Opt (Cat (UpTo 61 (Cls dns_char)) (Cls dns_alnum))).

Definition add_if (b : bool) (e : string) : list error := if b then [ENew e] else [].

Definition validate_header (d : Drill) : list error :=
  add_if (negb (String.eqb (drill_APIVersion d) APIVersion))
    ("apiVersion must be " +:+ quote APIVersion +:+ ", got " +:+ quote (drill_APIVersion d)) ++
  add_if (negb (String.eqb (drill_Kind d) Kind))
    ("kind must be " +:+ quote Kind +:+ ", got " +:+ quote (drill_Kind d)) ++
  add_if (negb (MatchString nameRe (drill_Name d)))
    ("metadata.name " +:+ quote (drill_Name d) +:+
     " must be a lowercase DNS label (a-z, 0-9, '-'; max 63 chars) — it is used in file, container and pod names").

Definition is_velero (d : Drill) : bool :=
  String.eqb (src_Driver (spec_Source (drill_Spec d))) "velero".
Definition is_mongo (d : Drill) : bool :=
  String.eqb (src_Driver (spec_Source (drill_Spec d))) "mongodb".

(** The format switch, the database rule and the driver switch. *)
Definition validate_source (d : Drill) : list error :=
  let s := spec_Source (drill_Spec d) in
  let mongo := is_mongo d in
  (if is_empty (Format s) then []
   else if String.eqb (Format s) "dump" then
     add_if mongo "spec.source.format dump is not supported for driver: mongodb (use archive)"
   else if String.eqb (Format s) "basebackup" then
     add_if (negb (String.eqb (src_Driver s) "postgres"))
       "spec.source.format basebackup is only supported for driver: postgres"
   else if String.eqb (Format s) "archive" then
     add_if (negb mongo) "spec.source.format archive is only supported for driver: mongodb"
   else [ENew ("spec.source.format must be dump, basebackup or archive, got " +:+ quote (Format s))]) ++
  add_if (negb (is_empty (Database s)) && negb (String.eqb (Format s) "basebackup") && negb mongo)
    "spec.source.database is only valid with format: basebackup or driver: mongodb" ++
  add_if (negb (str_in (src_Driver s) ["postgres"; "mysql"; "mongodb"; "velero"]))
    ("spec.source.driver: unsupported driver " +:+ quote (src_Driver s) +:+
     " (supported: postgres, mysql, mongodb, velero)").

Definition validate_decrypt (o : option Decrypt) : list error :=
  match o with
  | None => []
  | Some dec =>
      if String.eqb (dec_Type dec) "age" then
        add_if (is_empty (IdentityFile dec) && is_empty (IdentityEnv dec) && is_empty (PassphraseEnv dec))
          "spec.source.from.decrypt: age needs identityFile, identityEnv or passphraseEnv"
      else if String.eqb (dec_Type dec) "gpg" then
        add_if (negb (is_empty (IdentityFile dec)) || negb (is_empty (IdentityEnv dec)))
          "spec.source.from.decrypt: gpg uses the local keyring — set passphraseEnv only"
      else [ENew ("spec.source.from.decrypt.type must be age or gpg, got " +:+ quote (dec_Type dec))]
  end.

Definition bad_glob (g : string) : bool := negb (isSome (PathMatch.Match g "probe")).

(** The [from.type] switch. *)
Definition validate_from (d : Drill) : list error :=
  let f := src_From (spec_Source (drill_Spec d)) in
  let velero := is_velero d in
  if String.eqb (from_Type f) "file" || String.eqb (from_Type f) "s3" then
    add_if velero "spec.source.from.type must be velero when driver is velero" ++
    add_if (is_empty (URI f)) "spec.source.from.uri is required" ++
    add_if (negb (is_empty (Endpoint f)) && negb (String.eqb (from_Type f) "s3"))
      "spec.source.from.endpoint is only valid with type: s3" ++
    add_if (negb (str_in (Select f) [""; "latest"]))
      ("spec.source.from.select must be latest (got " +:+ quote (Select f) +:+ ")") ++
    add_if (negb (is_empty (Match f)) && is_empty (Select f))
      "spec.source.from.match requires select: latest" ++
    add_if (bad_glob (Match f))
      ("spec.source.from.match " +:+ quote (Match f) +:+
       " is not a valid glob: syntax error in pattern") ++
    validate_decrypt (from_Decrypt f)
  else if String.eqb (from_Type f) "velero" then
    add_if (negb velero) "spec.source.from.type velero requires driver: velero" ++
    add_if (negb (is_empty (Select f)) || negb (is_empty (Match f)))
      "spec.source.from.select/match are not valid for velero sources" ++
    add_if (isSome (from_Decrypt f))
      "spec.source.from.decrypt is not valid for velero sources (Velero handles its own backup storage)" ++
    add_if (is_empty (Backup f)) "spec.source.from.backup (Velero Backup name) is required" ++
    add_if (is_empty (from_Namespace f)) "spec.source.from.namespace (source namespace) is required"
  else [ENew ("spec.source.from.type must be file, s3 or velero, got " +:+ quote (from_Type f))].

(** The provider switch, the image, TTL and objective rules. *)
Definition validate_sandbox (d : Drill) : list error :=
  let s := spec_Sandbox (drill_Spec d) in
  let o := spec_Objectives (drill_Spec d) in
  let velero := is_velero d in
  (if String.eqb (Provider s) "docker" || String.eqb (Provider s) "kubernetes" then
     add_if (velero && negb (String.eqb (Provider s) "kubernetes"))
       "spec.sandbox.provider must be kubernetes for velero drills"
   else [ENew ("spec.sandbox.provider: unsupported provider " +:+ quote (Provider s) +:+
               " (supported: docker, kubernetes)")]) ++
  add_if (is_empty (Image s) && negb velero) "spec.sandbox.image is required" ++
  add_if (TTL s <=? 0) "spec.sandbox.ttl must be > 0 (hard teardown guardrail)" ++
  add_if (RTO o <=? 0) "spec.objectives.rto must be > 0" ++
  add_if (RPO o <=? 0) "spec.objectives.rpo must be > 0".

(** The per-check loop: the check's own validation, then its kind against the
    driver. *)
Fixpoint validate_checks (velero : bool) (i : Z) (cs : list Check) : list error :=
  match cs with
  | [] => []
  | c :: r =>
      let at_ := "spec.verify[" +:+ itoa i +:+ "]: " in
      match check_validate c with Some e => [EWrap at_ e ""] | None => [] end ++
      add_if (velero && isSQL c)
        (at_ +:+ "SQL checks are not valid for velero drills (use podsReady/resourceCount)") ++
      add_if (negb velero && isK8s c)
        (at_ +:+ "kubernetes checks are only valid for velero drills") ++
      validate_checks velero (i + 1) r
  end.

Definition validate_verify (d : Drill) : list error :=
  let cs := Verify (drill_Spec d) in
  let hasDataCheck := List.existsb provesData cs in
  add_if (match cs with [] => true | _ => false end)
    "spec.verify must contain at least one check" ++
  add_if (match cs with [] => false | _ => negb hasDataCheck end)
    "spec.verify must include at least one data-proving check (rowCount, checksum, smoke, canary, podsReady or resourceCount) — restoreSucceeded/freshness alone cannot prove the data came back" ++
  validate_checks (is_velero d) 0 cs.

Fixpoint validate_sinks (i : Z) (ss : list Sink) : list error :=
  match ss with
  | [] => []
  | s :: r =>
      let at_ := "spec.report.sinks[" +:+ itoa i +:+ "]: " in
      (if String.eqb (sink_Type s) "prometheus" then
         add_if (is_empty (TextfileDir s)) (at_ +:+ "prometheus sink requires textfileDir")
       else if String.eqb (sink_Type s) "pushgateway" then
         add_if (is_empty (sink_URL s)) (at_ +:+ "pushgateway sink requires url")
       else if String.eqb (sink_Type s) "slack" then
         add_if (is_empty (WebhookEnv s))
           (at_ +:+ "slack sink requires webhookEnv (name of the env var holding the webhook URL)")
       else if String.eqb (sink_Type s) "webhook" then
         add_if (is_empty (URLEnv s))
           (at_ +:+ "webhook sink requires urlEnv (name of the env var holding the endpoint URL)")
       else [ENew (at_ +:+ "unsupported sink type " +:+ quote (sink_Type s) +:+
                   " (supported: prometheus, pushgateway, slack, webhook)")]) ++
      validate_sinks (i + 1) r
  end.

Definition validate_errors (d : Drill) : list error :=
  validate_header d ++ validate_source d ++ validate_from d ++ validate_sandbox d ++
  validate_verify d ++ validate_sinks 0 (Sinks (spec_Report (drill_Spec d))).

(** [(d *Drill) Validate()]: every violation, joined. *)
Definition Validate (d : Drill) : option error := errors_Join (validate_errors d).

(** * Loading *)

(** [ParseAll]'s loop over the documents the decoder yields before EOF. [seen]
    is the set of names so far and [n] is [len(drills)]. *)
Fixpoint parse_loop (docs : list (result Drill)) (seen : gset string) (n : Z)
  : result (list Drill) :=
  match docs with
  | [] => Ok []
  | Err e :: _ =>
      Err (EWrap ("parsing drill spec (document " +:+ itoa (n + 1) +:+ "): ") e "")
  | Ok d :: r =>
      match Validate d with
      | Some e =>
          Err (EWrap ("document " +:+ itoa (n + 1) +:+ " (" +:+ drill_Name d +:+ "): ") e "")
      | None =>
          if decide (drill_Name d ∈ seen)
          then Err (ENew ("duplicate drill name " +:+ quote (drill_Name d)))
          else match parse_loop r ({[drill_Name d]} ∪ seen) (n + 1) with
               | Ok ds => Ok (d :: ds)
               | Err e => Err e
               end
      end
  end.

Definition ParseAll (docs : list (result Drill)) : result (list Drill) :=
  match parse_loop docs ∅ 0 with
  | Ok [] => Err (ENew "no drill documents found")
  | r => r
  end.

(** [drills[0]]; indexing an empty slice panics, which [None] stands for. *)
Definition Parse (docs : list (result Drill)) : option (result Drill) :=
  match ParseAll docs with
  | Err e => Some (Err e)
  | Ok [] => None
  | Ok (d :: _) => Some (Ok d)
  end.

(** [LoadAll] and [Load] first open the file. *)
Definition LoadAll (opened : result (list (result Drill))) : result (list Drill) :=
  match opened with Err e => Err e | Ok docs => ParseAll docs end.

Definition Load (opened : result (list (result Drill))) : option (result Drill) :=
  match LoadAll opened with
  | Err e => Some (Err e)
  | Ok [] => None
  | Ok (d :: _) => Some (Ok d)
  end.

Definition FindDrill (drills : list Drill) (name : string) : result Drill :=
  match List.find (fun d => String.eqb (drill_Name d) name) drills with
  | Some d => Ok d
  | None => Err (ENew ("drill " +:+ quote name +:+ " not found (file contains: " +:+
                       Join (List.map drill_Name drills) ", " +:+ ")"))
  end.

(** * What validation promises *)

(** A DNS label: 1 to 63 lowercase letters, digits and dashes, with a letter or
    digit at both ends. *)
Inductive dns_label : string -> Prop :=
| dns_one c : dns_alnum c = true -> dns_label (String c "")
| dns_more a m z :
    dns_alnum a = true -> (String.length m <= 61)%nat ->
    forall_bytes dns_char m = true -> dns_alnum z = true ->
    dns_label (String a (m +:+ String z "")).

(** The eight well-formed shapes of a check. *)
Inductive valid_check : Check -> Prop :=
| vc_restore : valid_check
    {| RestoreSucceeded := Some tt; Freshness := None; RowCount := None; Checksum := None;
       Smoke := None; Canary := None; PodsReady := None; ResourceCount := None |}
| vc_freshness f : 0 < MaxAge f -> valid_check
    {| RestoreSucceeded := None; Freshness := Some f; RowCount := None; Checksum := None;
       Smoke := None; Canary := None; PodsReady := None; ResourceCount := None |}
| vc_rowCount r : row_Query r <> "" -> valid_check
    {| RestoreSucceeded := None; Freshness := None; RowCount := Some r; Checksum := None;
       Smoke := None; Canary := None; PodsReady := None; ResourceCount := None |}
| vc_checksum k : Table k <> "" -> Column k <> "" -> valid_check
    {| RestoreSucceeded := None; Freshness := None; RowCount := None; Checksum := Some k;
       Smoke := None; Canary := None; PodsReady := None; ResourceCount := None |}
| vc_smoke s :
    (smoke_SQL s = "" /\ smoke_Query s <> "" \/ smoke_SQL s <> "" /\ smoke_Query s = "") ->
    valid_check
    {| RestoreSucceeded := None; Freshness := None; RowCount := None; Checksum := None;
       Smoke := Some s; Canary := None; PodsReady := None; ResourceCount := None |}
| vc_canary k :
    (canary_SQL k = "" /\ canary_Query k <> "" \/ canary_SQL k <> "" /\ canary_Query k = "") ->
    canary_Expect k <> "" -> valid_check
    {| RestoreSucceeded := None; Freshness := None; RowCount := None; Checksum := None;
       Smoke := None; Canary := Some k; PodsReady := None; ResourceCount := None |}
| vc_podsReady p : 0 < Timeout p -> valid_check
    {| RestoreSucceeded := None; Freshness := None; RowCount := None; Checksum := None;
       Smoke := None; Canary := None; PodsReady := Some p; ResourceCount := None |}
| vc_resourceCount r : In (res_Kind r) resource_kinds -> valid_check
    {| RestoreSucceeded := None; Freshness := None; RowCount := None; Checksum := None;
       Smoke := None; Canary := None; PodsReady := None; ResourceCount := Some r |}.

Definition valid_decrypt (dec : Decrypt) : Prop :=
  dec_Type dec = "age" /\
    (IdentityFile dec <> "" \/ IdentityEnv dec <> "" \/ PassphraseEnv dec <> "") \/
  dec_Type dec = "gpg" /\ IdentityFile dec = "" /\ IdentityEnv dec = "".

Definition valid_format (s : Source) : Prop :=
  Format s = "" \/
  Format s = "dump" /\ src_Driver s <> "mongodb" \/
  Format s = "basebackup" /\ src_Driver s = "postgres" \/
  Format s = "archive" /\ src_Driver s = "mongodb".

(** An artifact the engine drivers restore. *)
Definition valid_artifact (f : From) : Prop :=
  (from_Type f = "file" /\ Endpoint f = "" \/ from_Type f = "s3") /\
  URI f <> "" /\
  (Select f = "latest" \/ Select f = "" /\ Match f = "") /\
  PathMatch.Match (Match f) "probe" <> None /\
  (forall dec, from_Decrypt f = Some dec -> valid_decrypt dec).

Definition valid_velero_source (f : From) : Prop :=
  from_Type f = "velero" /\ Select f = "" /\ Match f = "" /\ from_Decrypt f = None /\
  Backup f <> "" /\ from_Namespace f <> "".

Definition valid_sink (s : Sink) : Prop :=
  sink_Type s = "prometheus" /\ TextfileDir s <> "" \/
  sink_Type s = "pushgateway" /\ sink_URL s <> "" \/
  sink_Type s = "slack" /\ WebhookEnv s <> "" \/
  sink_Type s = "webhook" /\ URLEnv s <> "".

Record well_formed (d : Drill) : Prop := {
  wf_api : drill_APIVersion d = APIVersion;
  wf_kind : drill_Kind d = Kind;
  wf_name : dns_label (drill_Name d);
  wf_driver : In (src_Driver (spec_Source (drill_Spec d)))
                 ["postgres"; "mysql"; "mongodb"; "velero"];
  wf_format : valid_format (spec_Source (drill_Spec d));
  wf_database : Database (spec_Source (drill_Spec d)) <> "" ->
    Format (spec_Source (drill_Spec d)) = "basebackup" \/
    src_Driver (spec_Source (drill_Spec d)) = "mongodb";
  wf_from : if is_velero d then valid_velero_source (src_From (spec_Source (drill_Spec d)))
            else valid_artifact (src_From (spec_Source (drill_Spec d)));
  wf_provider : Provider (spec_Sandbox (drill_Spec d)) = "kubernetes" \/
    Provider (spec_Sandbox (drill_Spec d)) = "docker" /\ is_velero d = false;
  wf_image : Image (spec_Sandbox (drill_Spec d)) <> "" \/ is_velero d = true;
  wf_ttl : 0 < TTL (spec_Sandbox (drill_Spec d));
  wf_rto : 0 < RTO (spec_Objectives (drill_Spec d));
  wf_rpo : 0 < RPO (spec_Objectives (drill_Spec d));
  wf_data : exists c, In c (Verify (drill_Spec d)) /\ provesData c = true;
  wf_checks : forall c, In c (Verify (drill_Spec d)) -> valid_check c /\
    if is_velero d then isSQL c = false else isK8s c = false;
  wf_sinks : forall s, In s (Sinks (spec_Report (drill_Spec d))) -> valid_sink s
}.
