(* ===== verification/SpecFacts.v ===== *)
(** Correctness of package [spec]: validation decides the declarative
    well-formedness of a drill, and the loader returns validated drills with
    distinct names. *)

From Stdlib Require Import ZArith Lia Ascii String.
From stdpp Require Import base option list gmap strings.
From S2P Require Import Prelude GoStrings Regex PathMatch Spec.

(** * Names *)

Lemma dns_alnum_char c : dns_alnum c = true -> dns_char c = true.
Proof. unfold dns_alnum, dns_char. intros ->. done. Qed.

Lemma nameRe_spec s : MatchString nameRe s = true <-> dns_label s.
Proof.
  rewrite MatchString_correct. unfold nameRe.
  rewrite matches_cat_iff. setoid_rewrite matches_opt_iff.
  setoid_rewrite matches_cat_iff. setoid_rewrite matches_upto_cls.
  setoid_rewrite matches_cls_iff. split.
  - intros (s1 & s2 & -> & (c & -> & Hc) & [(t1 & t2 & -> & [Hl Hf] & (z & -> & Hz))| ->]);
      simpl; by constructor.
  - inversion 1 as [c Hc|a m z Ha Hl Hm Hz]; subst.
    + exists (String c ""), "". naive_solver.
    + exists (String a ""), (m +:+ String z ""). split; [done|]. split; [eauto|].
      left. exists m, (String z ""). naive_solver.
Qed.

Lemma dns_label_length s : dns_label s -> (1 <= String.length s <= 63)%nat.
Proof. destruct 1; simpl; rewrite ?slen_app; simpl; lia. Qed.

Lemma dns_label_bytes s : dns_label s -> forall_bytes dns_char s = true.
Proof.
  destruct 1 as [c Hc|a m z Ha Hl Hm Hz]; simpl.
  - by rewrite dns_alnum_char.
  - by rewrite forall_bytes_app, Hm, !dns_alnum_char; simpl; rewrite ?dns_alnum_char.
Qed.

(** * Reflection of the boolean guards *)

Lemma add_if_nil b e : add_if b e = [] <-> b = false.
Proof. destruct b; done. Qed.

Lemma is_empty_true s : is_empty s = true <-> s = "".
Proof. apply String.eqb_eq. Qed.
Lemma is_empty_false s : is_empty s = false <-> s <> "".
Proof. apply String.eqb_neq. Qed.

Lemma str_in_spec s l : str_in s l = true <-> In s l.
Proof.
  unfold str_in. rewrite List.existsb_exists. split.
  - intros (x & Hx & ->%String.eqb_eq). done.
  - intros H. exists s. by rewrite String.eqb_refl.
Qed.

(** Turn a conjunction of boolean guards into propositions. *)
Ltac reflect_guards :=
  rewrite ?List.app_nil_r, ?add_if_nil, ?negb_false_iff, ?negb_true_iff, ?andb_false_iff, ?andb_true_iff,
    ?orb_false_iff, ?orb_true_iff, ?negb_false_iff, ?negb_true_iff,
    ?is_empty_true, ?is_empty_false, ?String.eqb_eq, ?String.eqb_neq,
    ?Z.leb_gt, ?Z.leb_le.

Lemma single_not_nil {A} (x : A) : [x] = [] <-> False.
Proof. done. Qed.

(** Decide every comparison of a string with a literal. *)
Ltac eqb_cases :=
  repeat match goal with
  | |- context [String.eqb ?x ?y] => destruct (String.eqb_spec x y)
  end.

(** * Checks *)

Lemma err_if_None b e : err_if b e = None <-> b = false.
Proof. destruct b; done. Qed.

Lemma first_error_cons e es :
  first_error (e :: es) = None <-> e = None /\ first_error es = None.
Proof. destruct e; simpl; [naive_solver|tauto]. Qed.

(** Two aliases of which exactly one is set. *)
Lemma one_alias (sql query : string) (bad : bool) e1 e2 :
  (if negb (is_empty sql) && negb (is_empty query) then Some e1
   else err_if (is_empty (if negb (String.eqb query "") then query else sql) || bad) e2) = None
  <-> (sql = "" /\ query <> "" \/ sql <> "" /\ query = "") /\ bad = false.
Proof.
  unfold is_empty, err_if.
  destruct (String.eqb_spec sql ""), (String.eqb_spec query ""), bad; simpl;
    eqb_cases; simpl; naive_solver.
Qed.

Lemma one_alias_only (sql query : string) e1 e2 :
  (if negb (is_empty sql) && negb (is_empty query) then Some e1
   else err_if (is_empty (if negb (String.eqb query "") then query else sql)) e2) = None
  <-> (sql = "" /\ query <> "" \/ sql <> "" /\ query = "").
Proof.
  generalize (one_alias sql query false e1 e2). rewrite orb_false_r. intros ->. tauto.
Qed.

Lemma one_set c :
  count_set c = 1%nat ->
  (exists u, c = Build_Check (Some u) None None None None None None None) \/
  (exists u, c = Build_Check None (Some u) None None None None None None) \/
  (exists u, c = Build_Check None None (Some u) None None None None None) \/
  (exists u, c = Build_Check None None None (Some u) None None None None) \/
  (exists u, c = Build_Check None None None None (Some u) None None None) \/
  (exists u, c = Build_Check None None None None None (Some u) None None) \/
  (exists u, c = Build_Check None None None None None None (Some u) None) \/
  (exists u, c = Build_Check None None None None None None None (Some u)).
Proof.
  destruct c as [[|] [|] [|] [|] [|] [|] [|] [|]]; try discriminate; intros _; eauto 10.
Qed.

Lemma check_validate_sound c : check_validate c = None -> valid_check c.
Proof.
  unfold check_validate. rewrite !first_error_cons, !err_if_None, negb_false_iff.
  intros (Hf & Hr & Hk & Hs & Hc & Hp & Hq & Hn & _).
  apply Nat.eqb_eq, one_set in Hn as Hn.
  unfold smoke_Statement, canary_Statement in *.
  remember resource_kinds as ks eqn:Eks.
  repeat (destruct Hn as [[u ->]|Hn]); [..|destruct Hn as [u ->]]; simpl in *.
  - destruct u. constructor.
  - constructor. apply err_if_None, Z.leb_gt in Hf. done.
  - constructor. apply err_if_None, is_empty_false in Hr. done.
  - apply err_if_None, orb_false_iff in Hk as [?%is_empty_false ?%is_empty_false].
    by constructor.
  - constructor. by apply one_alias_only in Hs.
  - apply one_alias in Hc as [? ?%is_empty_false]. by constructor.
  - constructor. apply err_if_None, Z.leb_gt in Hp. done.
  - constructor. apply err_if_None, negb_false_iff, str_in_spec in Hq. by subst.
Qed.

Lemma check_validate_complete c : valid_check c -> check_validate c = None.
Proof.
  intros H. unfold check_validate. rewrite !first_error_cons, !err_if_None, negb_false_iff.
  unfold smoke_Statement, canary_Statement.
  destruct H; cbn [Freshness RowCount Checksum Smoke Canary PodsReady ResourceCount when]; repeat split; rewrite ?err_if_None; try done.
  - by apply Z.leb_gt.
  - by apply is_empty_false.
  - apply orb_false_iff. by rewrite !is_empty_false.
  - by apply one_alias_only.
  - apply one_alias. by rewrite is_empty_false.
  - by apply Z.leb_gt.
  - by apply negb_false_iff, str_in_spec.
Qed.

Lemma check_validate_iff c : check_validate c = None <-> valid_check c.
Proof. split; [apply check_validate_sound|apply check_validate_complete]. Qed.

(** * The document *)

Lemma validate_header_nil d :
  validate_header d = [] <->
  drill_APIVersion d = APIVersion /\ drill_Kind d = Kind /\ dns_label (drill_Name d).
Proof.
  unfold validate_header. rewrite !app_nil_iff, !add_if_nil, !negb_false_iff, !String.eqb_eq.
  rewrite nameRe_spec. tauto.
Qed.

Lemma validate_source_nil d :
  let s := spec_Source (drill_Spec d) in
  validate_source d = [] <->
  valid_format s /\
  (Database s <> "" -> Format s = "basebackup" \/ src_Driver s = "mongodb") /\
  In (src_Driver s) ["postgres"; "mysql"; "mongodb"; "velero"].
Proof.
  intros s. unfold validate_source, is_mongo. fold s.
  rewrite !app_nil_iff, !add_if_nil, negb_false_iff, str_in_spec.
  assert (Hf : forall x, (if is_empty (Format s) then []
     else if String.eqb (Format s) "dump" then add_if (String.eqb (src_Driver s) "mongodb") x
     else if String.eqb (Format s) "basebackup" then
       add_if (negb (String.eqb (src_Driver s) "postgres"))
         "spec.source.format basebackup is only supported for driver: postgres"
     else if String.eqb (Format s) "archive" then
       add_if (negb (String.eqb (src_Driver s) "mongodb"))
         "spec.source.format archive is only supported for driver: mongodb"
     else [ENew ("spec.source.format must be dump, basebackup or archive, got " +:+
                 quote (Format s))]) = [] <-> valid_format s).
  { intros x. unfold valid_format, is_empty.
    destruct (String.eqb_spec (Format s) "") as [->|]; [naive_solver|].
    destruct (String.eqb_spec (Format s) "dump") as [->|].
    { rewrite add_if_nil, String.eqb_neq. naive_solver. }
    destruct (String.eqb_spec (Format s) "basebackup") as [->|].
    { rewrite add_if_nil, negb_false_iff, String.eqb_eq. naive_solver. }
    destruct (String.eqb_spec (Format s) "archive") as [->|]; [|naive_solver].
    rewrite add_if_nil, negb_false_iff, String.eqb_eq. naive_solver. }
  rewrite Hf, !andb_false_iff, !negb_false_iff, is_empty_true, !String.eqb_eq.
  destruct (String.eqb_spec (Database s) ""); tauto.
Qed.

Lemma validate_decrypt_nil o :
  validate_decrypt o = [] <-> (forall dec, o = Some dec -> valid_decrypt dec).
Proof.
  destruct o as [dec|]; [|naive_solver]. unfold validate_decrypt.
  transitivity (valid_decrypt dec); [|naive_solver]. unfold valid_decrypt.
  destruct (String.eqb_spec (dec_Type dec) "age") as [->|];
    [|destruct (String.eqb_spec (dec_Type dec) "gpg") as [->|]].
  - rewrite add_if_nil, !andb_false_iff, !is_empty_false. naive_solver.
  - rewrite add_if_nil, orb_false_iff, !negb_false_iff, !is_empty_true. naive_solver.
  - naive_solver.
Qed.

Lemma bad_glob_false g : bad_glob g = false <-> PathMatch.Match g "probe" <> None.
Proof. unfold bad_glob. destruct (PathMatch.Match g "probe"); naive_solver. Qed.

Lemma artifact_nil f :
  from_Type f = "file" \/ from_Type f = "s3" ->
  add_if (is_empty (URI f)) "spec.source.from.uri is required" ++
  add_if (negb (is_empty (Endpoint f)) && negb (String.eqb (from_Type f) "s3"))
    "spec.source.from.endpoint is only valid with type: s3" ++
  add_if (negb (str_in (Select f) [""; "latest"]))
    ("spec.source.from.select must be latest (got " +:+ quote (Select f) +:+ ")") ++
  add_if (negb (is_empty (Match f)) && is_empty (Select f))
    "spec.source.from.match requires select: latest" ++
  add_if (bad_glob (Match f))
    ("spec.source.from.match " +:+ quote (Match f) +:+
     " is not a valid glob: syntax error in pattern") ++
  validate_decrypt (from_Decrypt f) = [] <-> valid_artifact f.
Proof.
  intros Ht. rewrite !app_nil_iff, !add_if_nil, !andb_false_iff, !negb_false_iff.
  rewrite validate_decrypt_nil, bad_glob_false, str_in_spec, !is_empty_true, !is_empty_false,
    String.eqb_eq. unfold valid_artifact.
  assert (Hin : In (Select f) [""; "latest"] <-> Select f = "" \/ Select f = "latest")
    by (simpl; intuition congruence).
  rewrite Hin. clear Hin. generalize (forall dec, from_Decrypt f = Some dec -> valid_decrypt dec).
  intros Q. assert ("latest" <> "" /\ "file" <> "s3") as [? ?] by done.
  destruct Ht as [-> | ->]; destruct (String.eqb_spec (Select f) ""); intuition congruence.
Qed.

Lemma validate_from_nil d :
  let f := src_From (spec_Source (drill_Spec d)) in
  validate_from d = [] <->
  if is_velero d then valid_velero_source f else valid_artifact f.
Proof.
  intros f. unfold validate_from. fold f.
  destruct (String.eqb (from_Type f) "file" || String.eqb (from_Type f) "s3") eqn:E.
  { apply orb_true_iff in E. rewrite !String.eqb_eq in E.
    rewrite app_nil_iff, artifact_nil, add_if_nil by done.
    unfold valid_velero_source. destruct (is_velero d); [|tauto]. split; [intros [? _]; done|].
    intros [H _]. destruct E; congruence. }
  apply orb_false_iff in E. rewrite !String.eqb_neq in E.
  destruct (String.eqb_spec (from_Type f) "velero") as [Hv|Hv].
  - rewrite !app_nil_iff, !add_if_nil, negb_false_iff, orb_false_iff, !negb_false_iff,
      !is_empty_true, !is_empty_false, isSome_false.
    unfold valid_velero_source, valid_artifact. destruct (is_velero d); [tauto|].
    split; [intros [? _]; done|]. tauto.
  - split; [done|]. unfold valid_velero_source, valid_artifact.
    destruct (is_velero d); tauto.
Qed.

Lemma validate_sandbox_nil d :
  let s := spec_Sandbox (drill_Spec d) in
  let o := spec_Objectives (drill_Spec d) in
  validate_sandbox d = [] <->
  (Provider s = "kubernetes" \/ Provider s = "docker" /\ is_velero d = false) /\
  (Image s <> "" \/ is_velero d = true) /\ 0 < TTL s /\ 0 < RTO o /\ 0 < RPO o.
Proof.
  intros s o. unfold validate_sandbox. fold s o.
  rewrite !app_nil_iff, !add_if_nil, andb_false_iff, negb_false_iff, is_empty_false, !Z.leb_gt.
  destruct (String.eqb_spec (Provider s) "docker") as [->|];
    [|destruct (String.eqb_spec (Provider s) "kubernetes") as [->|]]; simpl;
    rewrite ?add_if_nil; destruct (is_velero d); simpl; naive_solver.
Qed.

Lemma forall_in_cons {A} (P : A -> Prop) x l :
  (forall y, In y (x :: l) -> P y) <-> P x /\ (forall y, In y l -> P y).
Proof. simpl. naive_solver. Qed.

Lemma validate_checks_nil velero i cs :
  validate_checks velero i cs = [] <->
  (forall c, In c cs -> valid_check c /\
     if velero then isSQL c = false else isK8s c = false).
Proof.
  revert i. induction cs as [|c cs IH]; intros i; cbn [validate_checks]; [naive_solver|].
  rewrite !app_nil_iff, !add_if_nil, IH, forall_in_cons, <- (check_validate_iff c).
  destruct (check_validate c), velero; simpl; naive_solver.
Qed.

Lemma validate_verify_nil d :
  let cs := Verify (drill_Spec d) in
  validate_verify d = [] <->
  (exists c, In c cs /\ provesData c = true) /\
  (forall c, In c cs -> valid_check c /\
     if is_velero d then isSQL c = false else isK8s c = false).
Proof.
  intros cs. unfold validate_verify. fold cs.
  rewrite !app_nil_iff, !add_if_nil, validate_checks_nil.
  rewrite <- List.existsb_exists. destruct cs; simpl; [naive_solver|].
  rewrite negb_false_iff. tauto.
Qed.

Lemma validate_sinks_nil i ss :
  validate_sinks i ss = [] <-> (forall s, In s ss -> valid_sink s).
Proof.
  revert i. induction ss as [|s ss IH]; intros i; cbn [validate_sinks]; [naive_solver|].
  rewrite app_nil_iff, IH, forall_in_cons.
  assert (H : forall a b c e x, (if String.eqb (sink_Type s) "prometheus" then
       add_if (is_empty (TextfileDir s)) a
     else if String.eqb (sink_Type s) "pushgateway" then add_if (is_empty (sink_URL s)) b
     else if String.eqb (sink_Type s) "slack" then add_if (is_empty (WebhookEnv s)) c
     else if String.eqb (sink_Type s) "webhook" then add_if (is_empty (URLEnv s)) e
     else [ENew x]) = [] <-> valid_sink s).
  { intros. unfold valid_sink.
    destruct (String.eqb_spec (sink_Type s) "prometheus") as [->|];
      [|destruct (String.eqb_spec (sink_Type s) "pushgateway") as [->|];
      [|destruct (String.eqb_spec (sink_Type s) "slack") as [->|];
      [|destruct (String.eqb_spec (sink_Type s) "webhook") as [->|]]]];
      rewrite ?add_if_nil, ?is_empty_false; naive_solver. }
  rewrite H. done.
Qed.

Lemma errors_Join_None es : errors_Join es = None <-> es = [].
Proof. destruct es; done. Qed.

Lemma Validate_iff d : Validate d = None <-> well_formed d.
Proof.
  unfold Validate, validate_errors.
  rewrite errors_Join_None, !app_nil_iff, validate_header_nil, validate_source_nil,
    validate_from_nil, validate_sandbox_nil, validate_verify_nil, validate_sinks_nil.
  split; [intros; constructor; tauto|]. intros []. tauto.
Qed.

(** * The loader *)

Lemma map_Ok_inj {A} (l k : list A) : List.map Ok l = List.map Ok k -> l = k.
Proof.
  revert k. induction l as [|a l IH]; intros [|b k] H; try done.
  cbn [List.map] in H. injection H as <- H. by rewrite (IH k H).
Qed.

(** None of the names is among the seen ones and that of [d]. *)
Lemma fresh_cons d ds (seen : gset string) :
  (forall x, In x ds -> drill_Name x ∉ {[drill_Name d]} ∪ seen) <->
  (drill_Name d ∉ List.map drill_Name ds) /\ forall x, In x ds -> drill_Name x ∉ seen.
Proof.
  rewrite list_elem_of_In, List.in_map_iff. split.
  - intros H. split; [intros (x & Hx & Hin)|intros x Hin]; specialize (H x Hin); set_solver.
  - intros (Hne & H) x Hin. specialize (H x Hin).
    assert (drill_Name x <> drill_Name d) by eauto. set_solver.
Qed.

Lemma parse_loop_ok docs seen n ds :
  parse_loop docs seen n = Ok ds <->
  docs = List.map Ok ds /\ Forall well_formed ds /\
  NoDup (List.map drill_Name ds) /\ (forall d, In d ds -> drill_Name d ∉ seen).
Proof.
  revert seen n ds. induction docs as [|[d|e] docs IH]; intros seen n ds; cbn [parse_loop].
  - split.
    + intros [= <-]. split; [done|]. split; [constructor|]. split; [constructor|done].
    + intros [H _]. by destruct ds.
  - destruct (Validate d) as [e|] eqn:Ev.
    { split; [done|]. intros (H & Hw & _). destruct ds as [|d' ds]; [done|].
      injection H as <- _. apply Forall_cons in Hw as [Hw _].
      apply Validate_iff in Hw. congruence. }
    apply Validate_iff in Ev. destruct (decide (drill_Name d ∈ seen)) as [Hs|Hs].
    { split; [done|]. intros (H & _ & _ & Hn). destruct ds as [|d' ds]; [done|].
      injection H as <- _. exfalso. apply (Hn d); [by left|done]. }
    assert (Hstep := fun ds' => IH ({[drill_Name d]} ∪ seen) (n + 1) ds').
    setoid_rewrite fresh_cons in Hstep. destruct (parse_loop docs _ _) as [ds'|e] eqn:El.
    + destruct (proj1 (Hstep ds') eq_refl) as (-> & Hw & Hn & Hni & Hin). split.
      * intros [= <-]. split; [done|]. split; [by constructor|]. split; [by constructor|].
        intros x [<-|Hx]; auto.
      * intros (H & _). destruct ds as [|d' ds]; [done|]. cbn [List.map] in H.
        injection H as <- H%map_Ok_inj. by subst.
    + split; [done|]. intros (H & Hw & Hn & Hin). destruct ds as [|d' ds]; [done|].
      injection H as <- ->. apply Forall_cons in Hw as [_ Hw]. apply NoDup_cons in Hn as [Hni Hn].
      enough (Err e = Ok ds) by done. apply Hstep. split_and!; try done.
      intros x Hx. apply Hin. by right.
  - split; [done|]. intros (H & _). by destruct ds.
Qed.

Lemma ParseAll_ok docs ds :
  ParseAll docs = Ok ds <->
  ds <> [] /\ docs = List.map Ok ds /\ Forall well_formed ds /\
  NoDup (List.map drill_Name ds).
Proof.
  unfold ParseAll. transitivity (ds <> [] /\ parse_loop docs ∅ 0 = Ok ds).
  - destruct (parse_loop docs ∅ 0) as [[|d l]|e] eqn:E; split; try done.
    + intros [Hne [= <-]]. done.
    + intros H. split; [by injection H as <-|done].
    + intros [_ H]. done.
    + by intros [_ ?].
  - rewrite parse_loop_ok. set_solver.
Qed.

Lemma FindDrill_ok drills name d :
  FindDrill drills name = Ok d -> In d drills /\ drill_Name d = name.
Proof.
  unfold FindDrill. destruct (List.find _ drills) as [d'|] eqn:E; [|done].
  intros [= <-]. apply List.find_some in E as [H ->%String.eqb_eq]. done.
Qed.

Lemma LoadAll_ok opened ds :
  LoadAll opened = Ok ds ->
  ds <> [] /\ Forall well_formed ds /\ NoDup (List.map drill_Name ds).
Proof. destruct opened as [docs|e]; [|done]. by intros (? & _ & ? & ?)%ParseAll_ok. Qed.

(** Distinct names make the search find every drill. *)
Lemma FindDrill_iff drills name d :
  NoDup (List.map drill_Name drills) ->
  FindDrill drills name = Ok d <-> In d drills /\ drill_Name d = name.
Proof.
  intros Hnd. split; [apply FindDrill_ok|]. intros [Hin <-]. unfold FindDrill.
  induction drills as [|x l IH]; [done|]. apply NoDup_cons in Hnd as [Hx Hnd]. cbn [List.find].
  destruct (String.eqb_spec (drill_Name x) (drill_Name d)) as [He|He].
  - destruct Hin as [->|Hin]; [done|]. destruct Hx. rewrite He, list_elem_of_In. by apply in_map.
  - destruct Hin as [->|Hin]; [done|]. specialize (IH Hnd Hin).
    by destruct (List.find _ l).
Qed.
