(* ===== verification/Verify.v ===== *)
(** Package [verify] (pkg/verify: verify.go, engine.go, k8s.go): the checks run
    against restored data.

    The database handle and the Kubernetes client are third-party: [sqlDB] and
    [K8sClient] are records of the calls the code makes on them, each a
    transformer of the world [W]. The [Engine] record is the Go interface of
    the same name. A cancelled context shows as an error of the call that
    observes it. *)

From Stdlib Require Import ZArith Lia Ascii String.
From stdpp Require Import base option list strings.
From S2P Require Import Prelude GoStrings Regex Spec.

(** * Clock

    [time.Now], [time.Sleep] and [ctx.Err]. *)
Class Clock (W : Type) : Type := {
  Now : M W Time;
  Sleep : Duration -> M W unit;
  ctx_Err : M W (option error)
}.

(** What the program relies on: time never goes back, and sleeping takes at
    least as long as asked. [time_of] is the clock's reading. *)
Class ClockLaws (W : Type) `{Clock W} : Type := {
  time_of : W -> Time;
  Now_reads : forall w, time_of w <= fst (Now w) <= time_of (snd (Now w));
  Sleep_takes : forall d w, time_of w + Z.max 0 d <= time_of (snd (Sleep d w));
  ctx_Err_takes : forall w, time_of w <= time_of (snd (ctx_Err w))
}.

(** * Results *)

Record Result := {
  res_Name : string;
  Passed : bool;
  Detail : string;
  Skipped : bool
}.

Definition mkResult (name : string) (passed : bool) (detail : string) : Result :=
  {| res_Name := name; Passed := passed; Detail := detail; Skipped := false |}.

(** * Engines *)

Record Engine (W : Type) := {
  Count : string -> M W (result Z);
  Rows : string -> M W (result Z);
  Scalar : string -> M W (result string);
  eng_Checksum : string -> string -> M W (result string)
}.
Arguments Count {W}. Arguments Rows {W}. Arguments Scalar {W}. Arguments eng_Checksum {W}.

Definition errNoChecksumDialect : error :=
  ESentinel "verify.errNoChecksumDialect" "no checksum dialect configured".

(** The [database/sql] calls: one-row queries scanned into an integer or a
    string, and a row set with the error its iteration ended on. *)
Record sqlDB (W : Type) := {
  query_row_int : string -> M W (result Z);
  query_row_string : string -> M W (result string);
  query : string -> M W (result (list unit * option error))
}.
Arguments query_row_int {W}. Arguments query_row_string {W}. Arguments query {W}.

Record sqlEngine (W : Type) := {
  db : option (sqlDB W);
  checksumQuery : option (string -> string -> string)
}.
Arguments db {W}. Arguments checksumQuery {W}.

Definition no_connection : error := ENew "no database connection".

Section SqlEngine.
Context {W : Type}.

Definition sql_Count (e : sqlEngine W) (q : string) : M W (result Z) :=
  match db e with
  | None => mret (Err no_connection)
  | Some d => query_row_int d q
  end.

Definition sql_Rows (e : sqlEngine W) (q : string) : M W (result Z) :=
  match db e with
  | None => mret (Err no_connection)
  | Some d =>
      let! r := query d q in
      mret (match r with
            | Err err => Err err
            | Ok (rows, None) => Ok (Z.of_nat (List.length rows))
            | Ok (_, Some err) => Err err
            end)
  end.

Definition sql_Scalar (e : sqlEngine W) (q : string) : M W (result string) :=
  match db e with
  | None => mret (Err no_connection)
  | Some d => query_row_string d q
  end.

Definition sql_Checksum (e : sqlEngine W) (table column : string) : M W (result string) :=
  match checksumQuery e with
  | None => mret (Err errNoChecksumDialect)
  | Some cq =>
      match db e with
      | None => mret (Err no_connection)
      | Some d => query_row_string d (cq table column)
      end
  end.

Definition sql_engine (e : sqlEngine W) : Engine W := {|
  Count := sql_Count e; Rows := sql_Rows e; Scalar := sql_Scalar e;
  eng_Checksum := sql_Checksum e |}.

(** A nil handle yields a nil engine. *)
Definition NewSQL (d : option (sqlDB W)) (cq : option (string -> string -> string))
  : option (Engine W) :=
  match d with
  | None => None
  | Some d => Some (sql_engine {| db := Some d; checksumQuery := cq |})
  end.
End SqlEngine.

(** * Kubernetes *)

Record Condition := { cond_Type : string; cond_Status : string }.
Record Pod := { Phase : string; Conditions : list Condition }.

Inductive resource : Type :=
| Deployments | StatefulSets | Services | ConfigMaps | Secrets | PodsR.

Record K8sClient (W : Type) := {
  list_pods : string -> M W (result (list Pod));
  list_len : resource -> string -> M W (result Z)   (* len(l.Items) *)
}.
Arguments list_pods {W}. Arguments list_len {W}.

(** The first Ready condition decides. *)
Definition podIsReady (p : Pod) : bool :=
  if negb (String.eqb (Phase p) "Running") then false
  else match List.find (fun c => String.eqb (cond_Type c) "Ready") (Conditions p) with
       | Some c => String.eqb (cond_Status c) "True"
       | None => false
       end.

(** Pods that still count against readiness: completed jobs do not. *)
Definition pod_ok (p : Pod) : bool := String.eqb (Phase p) "Succeeded" || podIsReady p.

Definition not_ready (pods : list Pod) : nat :=
  List.length (List.filter (fun p => negb (pod_ok p)) pods).

Definition stablePolls : nat := 3.

(** * Context *)

Record Context (W : Type) := {
  RestoreErr : option error;
  BackupAge : Duration;
  ctx_RTO : Duration;
  K8s : option (K8sClient W);
  ctx_Namespace : string
}.
Arguments RestoreErr {W}. Arguments BackupAge {W}. Arguments ctx_RTO {W}.
Arguments K8s {W}. Arguments ctx_Namespace {W}.

(** * Row expressions *)

Definition is_space (c : ascii) : bool :=
  let v := byte_val c in (v =? 32) || (v =? 9) || (v =? 10) || (v =? 12) || (v =? 13).

(** [^(>=|<=|==|>|<)\s*(\d+)$] *)
Definition rowsExprRe : regex :=
  Cat (Alt (lit ">=") (Alt (lit "<=") (Alt (lit "==") (Alt (lit ">") (lit "<")))))
      (Cat (Star (Cls is_space)) (Plus (Cls is_digit))).

Inductive cmp : Type := Ge | Le | Eq | Gt | Lt.

Fixpoint skip_spaces (s : string) : string :=
  match s with
  | String c r => if is_space c then skip_spaces r else s
  | EmptyString => s
  end.

(** [\s*(\d+)$]: the digits. *)
Definition digits_after (r : string) : option string :=
  let d := skip_spaces r in
  if negb (is_empty d) && forall_bytes is_digit d then Some d else None.

Definition op_text (op : cmp) : string :=
  match op with Ge => ">=" | Le => "<=" | Eq => "==" | Gt => ">" | Lt => "<" end.

Definition try_op (s : string) (op : cmp) : option (cmp * string) :=
  match CutPrefix (op_text op) s with
  | Some r => option_map (pair op) (digits_after r)
  | None => None
  end.

(** [FindStringSubmatch]: the operator (the alternatives in the pattern's
    order) and the digits. *)
Definition rows_submatch (s : string) : option (cmp * string) :=
  List.fold_right (fun op r => match try_op s op with Some m => Some m | None => r end)
    None [Ge; Le; Eq; Gt; Lt].

Definition cmp_holds (op : cmp) (n v : Z) : bool :=
  match op with
  | Ge => v <=? n | Le => n <=? v | Eq => n =? v | Gt => v <? n | Lt => n <? v
  end.

Definition evalRows (n : Z) (expr : string) : result bool :=
  match rows_submatch (TrimSpace expr) with
  | None => Err (ENew ("invalid expectRows " +:+ quote expr +:+
                       " (want e.g. " +:+ quote ">=1" +:+ ")"))
  | Some (op, digits) => Ok (cmp_holds op n (fst (ParseInt digits)))
  end.

(** * The checks *)

Definition ident_head (c : ascii) : bool := is_lower c || is_upper c || Ascii.eqb c "_".
Definition ident_char (c : ascii) : bool :=
  is_lower c || is_upper c || is_digit c || Ascii.eqb c "_" || Ascii.eqb c ".".

(** [^[a-zA-Z_][a-zA-Z0-9_.]*$] *)
Definition identRe : regex := Cat (Cls ident_head) (Star (Cls ident_char)).

Section Checks.
Context {W : Type} `{Clock W}.

(** Skip data checks when the restore failed. *)
Definition dataCheck (dc : Context W) (name : string) (run : M W Result) : M W Result :=
  match RestoreErr dc with
  | Some _ => mret {| res_Name := name; Passed := false;
                      Detail := "skipped: restore failed"; Skipped := true |}
  | None => run
  end.

Definition requireEngine (eng : option (Engine W)) (name : string)
  (run : Engine W -> M W Result) : M W Result :=
  match eng with
  | None => mret (mkResult name false
                    "no database connection configured for this drill type")
  | Some e => run e
  end.

Definition query_failed (name : string) (e : error) : Result :=
  mkResult name false ("query failed: " +:+ Error e).

Definition rowCount (e : Engine W) (c : RowCountCheck) : M W Result :=
  let! r := Count e (row_Query c) in
  mret (match r with
        | Err err => query_failed "rowCount" err
        | Ok n => mkResult "rowCount" (row_Min c <=? n)
                    (itoa n +:+ " rows (min " +:+ itoa (row_Min c) +:+ ")")
        end).

Definition checksum (e : Engine W) (c : ChecksumCheck) : M W Result :=
  if negb (MatchString identRe (Table c)) || negb (MatchString identRe (Column c))
  then mret (mkResult "checksum" false "invalid table/column identifier")
  else
    let! r := eng_Checksum e (Table c) (Column c) in
    mret (match r with
          | Err err =>
              if errors_Is "verify.errNoChecksumDialect" err
              then mkResult "checksum" false (Error errNoChecksumDialect)
              else query_failed "checksum" err
          | Ok sum =>
              if negb (is_empty (sum_Expect c)) && negb (String.eqb sum (sum_Expect c))
              then mkResult "checksum" false
                     (Table c +:+ "." +:+ Column c +:+ " = " +:+ sum +:+
                      ", expected " +:+ sum_Expect c)
              else mkResult "checksum" true
                     (Table c +:+ "." +:+ Column c +:+ " md5=" +:+ sum)
          end).

Definition smoke (e : Engine W) (c : SmokeCheck) : M W Result :=
  let! r := Rows e (smoke_Statement c) in
  mret (match r with
        | Err err => query_failed "smoke" err
        | Ok n =>
            let expect := if is_empty (ExpectRows c) then ">=1" else ExpectRows c in
            match evalRows n expect with
            | Err err => mkResult "smoke" false (Error err)
            | Ok ok => mkResult "smoke" ok
                         (itoa n +:+ " rows (expect " +:+ expect +:+ ")")
            end
        end).

Definition canary (e : Engine W) (c : CanaryCheck) : M W Result :=
  let! r := Scalar e (canary_Statement c) in
  mret (match r with
        | Err err => query_failed "canary" err
        | Ok got =>
            if negb (String.eqb got (canary_Expect c))
            then mkResult "canary" false
                   "sentinel value mismatch — possible ransomware/corruption"
            else mkResult "canary" true "sentinel restored intact"
        end).

(** One sample: the number of stable polls so far, and the last detail. *)
Definition pods_sample (r : result (list Pod)) (stable : nat) (lastDetail : string)
  : nat * string :=
  match r with
  | Err err => (0%nat, "listing pods: " +:+ Error err)
  | Ok [] => (0%nat, "no pods in restored namespace")
  | Ok pods =>
      if (not_ready pods =? 0)%nat then (S stable, lastDetail)
      else (0%nat, itoa (Z.of_nat (not_ready pods)) +:+ "/" +:+
                   itoa (Z.of_nat (List.length pods)) +:+ " pod(s) not ready")
  end.

Definition pods_count (r : result (list Pod)) : Z :=
  match r with Ok l => Z.of_nat (List.length l) | Err _ => 0 end.

Definition pods_timeout (c : PodsReadyCheck) (lastDetail : string) : Result :=
  mkResult "podsReady" false
    ("timeout after " +:+ Duration_String (Timeout c) +:+ ": " +:+ lastDetail).

(** The polling loop; [None] when the fuel runs out. *)
Fixpoint pods_loop (fuel : nat) (cli : K8sClient W) (ns : string) (c : PodsReadyCheck)
  (deadline : Time) (stable : nat) (lastDetail : string) : M W (option Result) :=
  match fuel with
  | O => mret None
  | S k =>
      let! t := Now in
      if negb (Before t deadline) then mret (Some (pods_timeout c lastDetail))
      else
        let! cerr := ctx_Err in
        match cerr with
        | Some err => mret (Some (mkResult "podsReady" false (Error err)))
        | None =>
            let! r := list_pods cli ns in
            let '(stable', detail') := pods_sample r stable lastDetail in
            if (stablePolls <=? stable')%nat then
              mret (Some (mkResult "podsReady" true
                (itoa (pods_count r) +:+ " pod(s) ready (stable over " +:+
                 itoa (Z.of_nat stablePolls) +:+ " checks)")))
            else
              let! _ := Sleep (2 * Second) in
              pods_loop k cli ns c deadline stable' detail'
        end
  end.

(** Every round sleeps two seconds, so the timeout bounds the rounds. *)
Definition pods_fuel (c : PodsReadyCheck) : nat :=
  S (S (Z.to_nat (Timeout c / (2 * Second)))).

Definition podsReady (cli : option (K8sClient W)) (ns : string) (c : PodsReadyCheck)
  : M W Result :=
  match cli with
  | None => mret (mkResult "podsReady" false "no kubernetes client configured")
  | Some cl =>
      let! t := Now in
      let! r := pods_loop (pods_fuel c) cl ns c (Add t (Timeout c)) 0 "" in
      mret (match r with Some res => res | None => pods_timeout c "" end)
  end.

Definition resource_of (kind : string) : option resource :=
  if String.eqb kind "deployments" then Some Deployments
  else if String.eqb kind "statefulsets" then Some StatefulSets
  else if String.eqb kind "services" then Some Services
  else if String.eqb kind "configmaps" then Some ConfigMaps
  else if String.eqb kind "secrets" then Some Secrets
  else if String.eqb kind "pods" then Some PodsR
  else None.

Definition resourceCount (cli : option (K8sClient W)) (ns : string)
  (c : ResourceCountCheck) : M W Result :=
  match cli with
  | None => mret (mkResult "resourceCount" false "no kubernetes client configured")
  | Some cl =>
      match resource_of (res_Kind c) with
      | None => mret (mkResult "resourceCount" false
                        ("unsupported kind " +:+ quote (res_Kind c)))
      | Some res =>
          let! r := list_len cl res ns in
          mret (match r with
                | Err err => mkResult "resourceCount" false
                               ("listing " +:+ res_Kind c +:+ ": " +:+ Error err)
                | Ok n => mkResult "resourceCount" (res_Min c <=? n)
                            (itoa n +:+ " " +:+ res_Kind c +:+ " (min " +:+
                             itoa (res_Min c) +:+ ")")
                end)
      end
  end.

Definition restoreSucceeded (dc : Context W) : Result :=
  match RestoreErr dc with
  | Some e => mkResult "restoreSucceeded" false (Error e)
  | None => mkResult "restoreSucceeded" true "restore completed"
  end.

Definition freshness (dc : Context W) (f : FreshnessCheck) : Result :=
  mkResult "freshness" (BackupAge dc <=? MaxAge f)
    ("backup age " +:+ Duration_String (Round (BackupAge dc) Second) +:+
     " (max " +:+ Duration_String (MaxAge f) +:+ ")").

Definition runOne (eng : option (Engine W)) (c : Check) (dc : Context W) : M W Result :=
  match RestoreSucceeded c, Freshness c, RowCount c, Checksum c, Smoke c, Canary c,
        PodsReady c, ResourceCount c with
  | Some _, _, _, _, _, _, _, _ => mret (restoreSucceeded dc)
  | _, Some f, _, _, _, _, _, _ => mret (freshness dc f)
  | _, _, Some r, _, _, _, _, _ =>
      dataCheck dc "rowCount" (requireEngine eng "rowCount" (fun e => rowCount e r))
  | _, _, _, Some k, _, _, _, _ =>
      dataCheck dc "checksum" (requireEngine eng "checksum" (fun e => checksum e k))
  | _, _, _, _, Some s, _, _, _ =>
      dataCheck dc "smoke" (requireEngine eng "smoke" (fun e => smoke e s))
  | _, _, _, _, _, Some k, _, _ =>
      dataCheck dc "canary" (requireEngine eng "canary" (fun e => canary e k))
  | _, _, _, _, _, _, Some p, _ =>
      dataCheck dc "podsReady" (podsReady (K8s dc) (ctx_Namespace dc) p)
  | _, _, _, _, _, _, _, Some r =>
      dataCheck dc "resourceCount" (resourceCount (K8s dc) (ctx_Namespace dc) r)
  | None, None, None, None, None, None, None, None =>
      mret (mkResult "unknown" false "unrecognized check")
  end.

(** [Run]: every configured check, in order. *)
Fixpoint Run (eng : option (Engine W)) (checks : list Check) (dc : Context W)
  : M W (list Result) :=
  match checks with
  | [] => mret []
  | c :: r =>
      let! x := runOne eng c dc in
      let! xs := Run eng r dc in
      mret (x :: xs)
  end.
End Checks.
