(* ===== verification/VerifyFacts.v ===== *)
(** Correctness of package [verify]: what a passed check means, that a failed
    restore touches nothing, and that the pod poll is bounded. *)

From Stdlib Require Import ZArith Lia Ascii String.
From stdpp Require Import base option list gmap strings.
From S2P Require Import Prelude GoStrings Regex Spec SpecFacts Verify.

(** * Row expressions *)

Lemma skip_spaces_spec s :
  exists sp, s = sp +:+ skip_spaces s /\ forall_bytes is_space sp = true /\
  match skip_spaces s with String c _ => is_space c = false | _ => True end.
Proof.
  induction s as [|c s (sp & Hs & Hf & Hh)]; simpl; [by exists ""|].
  destruct (is_space c) eqn:E.
  - exists (String c sp). simpl. by rewrite E, <- Hs.
  - exists "". simpl. by rewrite E.
Qed.

Lemma digit_not_space c : is_digit c = true -> is_space c = false.
Proof.
  unfold is_digit, is_space, byte_val. rewrite andb_true_iff, !N.leb_le. intros [? ?].
  rewrite !orb_false_iff, !Z.eqb_neq. lia.
Qed.

(** The spaces before a digit run are skipped exactly. *)
Lemma skip_spaces_digits sp d :
  forall_bytes is_space sp = true -> forall_bytes is_digit d = true ->
  skip_spaces (sp +:+ d) = d.
Proof.
  intros Hsp Hd. induction sp as [|c sp IH]; simpl in *.
  - destruct d as [|c d]; [done|]. simpl in *. apply andb_true_iff in Hd as [Hc _].
    by rewrite digit_not_space.
  - apply andb_true_iff in Hsp as [-> Hsp]. auto.
Qed.

Definition tail_re : regex := Cat (Star (Cls is_space)) (Plus (Cls is_digit)).

Lemma digits_after_spec r d :
  digits_after r = Some d ->
  d <> "" /\ forall_bytes is_digit d = true /\ matches tail_re r.
Proof.
  unfold digits_after. destruct (skip_spaces_spec r) as (sp & Hr & Hf & _).
  destruct (negb _ && _) eqn:E; [|done]. intros [= <-].
  apply andb_true_iff in E as [Hne%negb_true_iff%is_empty_false Ed].
  split; [done|]. split; [done|]. rewrite Hr.
  constructor; [by apply matches_star_cls|].
  destruct (skip_spaces r) as [|c t]; [done|]. simpl in Ed.
  apply andb_true_iff in Ed as [Hc Ht].
  apply (m_cat _ _ (String c "") t); [by constructor|by apply matches_star_cls].
Qed.

Lemma tail_re_spec r : matches tail_re r <-> digits_after r <> None.
Proof.
  split.
  - unfold tail_re, Plus. rewrite matches_cat_iff.
    intros (sp & t & -> & Hsp%matches_star_cls & Ht).
    rewrite matches_cat_iff in Ht. destruct Ht as (c1 & d & -> & Hc & Hd%matches_star_cls).
    apply matches_cls_iff in Hc as (c & -> & Hc). unfold digits_after.
    assert (Hcd : forall_bytes is_digit (String c d) = true) by (simpl; by rewrite Hc, Hd).
    change (String c "" +:+ d) with (String c d).
    rewrite skip_spaces_digits, Hcd by done. done.
  - destruct (digits_after r) eqn:E; [|done]. intros _.
    by apply digits_after_spec in E as (_ & _ & ?).
Qed.

Definition op_re : regex := Alt (lit ">=") (Alt (lit "<=") (Alt (lit "==") (Alt (lit ">") (lit "<")))).

Lemma op_re_spec s : matches op_re s <-> exists op, s = op_text op.
Proof.
  unfold op_re. rewrite !matches_alt_iff, !matches_lit. split.
  - intros [->|[->|[->|[->| ->]]]];
      [by exists Ge|by exists Le|by exists Eq|by exists Gt|by exists Lt].
  - intros [[] ->]; simpl; auto.
Qed.

Lemma fold_first_Some {A B} (f : A -> option B) l b :
  List.fold_right (fun a r => match f a with Some m => Some m | None => r end) None l = Some b ->
  exists a, In a l /\ f a = Some b.
Proof.
  induction l as [|a l IH]; simpl; [done|].
  destruct (f a) eqn:E; [intros [= ->]; eauto|]. intros (x & ? & ?)%IH. eauto.
Qed.

Lemma fold_first_None {A B} (f : A -> option B) l :
  List.fold_right (fun a r => match f a with Some m => Some m | None => r end) None l = None ->
  forall a, In a l -> f a = None.
Proof.
  induction l as [|a l IH]; simpl; [done|].
  destruct (f a) eqn:E; [done|]. intros H x [<-|Hx]; auto.
Qed.

(** The capture: operator text, optional spaces, digits. *)
Lemma rows_submatch_Some s op d :
  rows_submatch s = Some (op, d) ->
  exists r, s = op_text op +:+ r /\ digits_after r = Some d.
Proof.
  intros (o & _ & H)%fold_first_Some. unfold try_op in H.
  destruct (CutPrefix (op_text o) s) as [r|] eqn:E; [|done].
  apply CutPrefix_spec in E. destruct (digits_after r) eqn:Ed; [|done].
  injection H as <- <-. eauto.
Qed.

Lemma rows_submatch_complete s : matches rowsExprRe s -> rows_submatch s <> None.
Proof.
  unfold rowsExprRe. fold op_re tail_re. rewrite matches_cat_iff.
  intros (o & r & -> & (op & ->)%op_re_spec & Ht%tail_re_spec) Hm.
  apply fold_first_None with (a := op) in Hm; [|destruct op; simpl; tauto].
  unfold try_op in Hm. rewrite CutPrefix_app in Hm.
  destruct (digits_after r); done.
Qed.

Lemma rows_submatch_iff s : rows_submatch s <> None <-> MatchString rowsExprRe s = true.
Proof.
  rewrite MatchString_correct. split; [|apply rows_submatch_complete].
  destruct (rows_submatch s) as [[op d]|] eqn:E; [|done]. intros _.
  apply rows_submatch_Some in E as (r & -> & Hd).
  unfold rowsExprRe. fold op_re tail_re. constructor.
  - apply op_re_spec. eauto.
  - apply tail_re_spec. by rewrite Hd.
Qed.

(** * The pod poll *)

Section Pods.
Context {W : Type} `{Clock W}.
Variables (cli : K8sClient W) (ns : string).

(** A sample in which there are pods and every one is ready or completed. *)
Definition ready_sample (r : result (list Pod)) : Prop :=
  exists pods, r = Ok pods /\ pods <> [] /\ forall p, In p pods -> pod_ok p = true.

(** One listing within the deadline, from [w] to [w']. *)
Definition sampled (deadline : Time) (w : W) (r : result (list Pod)) (w' : W) : Prop :=
  exists t w1 w2, Now w = (t, w1) /\ t < deadline /\ ctx_Err w1 = (None, w2) /\
                  list_pods cli ns w2 = (r, w').

(** Consecutive samples, two seconds of sleep after each. *)
Inductive polls (deadline : Time) : W -> list (result (list Pod)) -> W -> Prop :=
| polls_nil w : polls deadline w [] w
| polls_cons w r w1 u w2 rs w3 :
    sampled deadline w r w1 -> Sleep (2 * Second) w1 = (u, w2) ->
    polls deadline w2 rs w3 -> polls deadline w (r :: rs) w3.

Lemma not_ready_zero pods : not_ready pods = 0%nat <-> forall p, In p pods -> pod_ok p = true.
Proof.
  unfold not_ready. rewrite List.length_zero_iff_nil. split.
  - intros E p Hp. destruct (pod_ok p) eqn:Ep; [done|].
    assert (Hin : In p (List.filter (fun p => negb (pod_ok p)) pods))
      by (apply List.filter_In; by rewrite Ep). by rewrite E in Hin.
  - intros Hall. induction pods as [|p l IH]; simpl; [done|].
    rewrite (Hall p) by (by left). apply IH. intros q Hq. apply Hall. by right.
Qed.

(** A sample either extends the run of ready polls or resets it. *)
Lemma pods_sample_spec r stable detail :
  ready_sample r /\ pods_sample r stable detail = (S stable, detail) \/
  fst (pods_sample r stable detail) = 0%nat.
Proof.
  destruct r as [[|p l]|e]; cbn [pods_sample]; try by right.
  destruct (not_ready (p :: l) =? 0)%nat eqn:E; [|by right].
  left. split; [|done]. exists (p :: l). apply Nat.eqb_eq in E.
  by rewrite not_ready_zero in E.
Qed.

(** [suf] is a run of ready samples that, with [s] earlier ones, makes three. *)
Definition stable_end (s : nat) (rs : list (result (list Pod))) : Prop :=
  exists pre suf, rs = pre ++ suf /\ Forall ready_sample suf /\
    (List.length suf = stablePolls \/ pre = [] /\ (List.length suf + s = stablePolls)%nat).

Lemma stable_end_cons_ready s r rs :
  ready_sample r -> stable_end (S s) rs -> stable_end s (r :: rs).
Proof.
  intros Hr (pre & suf & -> & Hs & [Hl|[-> Hl]]).
  - exists (r :: pre), suf. auto.
  - exists [], (r :: suf). split; [done|]. split; [by constructor|].
    right. split; [done|]. simpl. lia.
Qed.

Lemma stable_end_cons_reset s r rs : stable_end 0 rs -> stable_end s (r :: rs).
Proof.
  intros (pre & suf & -> & Hs & [Hl|[-> Hl]]).
  - exists (r :: pre), suf. auto.
  - exists [r], suf. split; [done|]. split; [done|]. left. lia.
Qed.

Lemma pods_loop_passed fuel : forall c deadline s detail w res w',
  (s < stablePolls)%nat -> pods_loop fuel cli ns c deadline s detail w = (Some res, w') -> Passed res = true ->
  exists rs w1 last, polls deadline w rs w1 /\ sampled deadline w1 last w' /\
    stable_end s (rs ++ [last]).
Proof.
  induction fuel as [|k IH]; intros c deadline s detail w res w' Hs E Hp; [done|].
  cbn [pods_loop] in E. unfold mbind, mret in E.
  destruct (Now w) as [t wt] eqn:Et.
  destruct (Before t deadline) eqn:Eb; cbn [negb] in E.
  2:{ injection E as <- <-. done. }
  destruct (ctx_Err wt) as [[err|] wc] eqn:Ec; [injection E as <- <-; done|].
  destruct (list_pods cli ns wc) as [r wl] eqn:El.
  assert (Hsam : sampled deadline w r wl).
  { exists t, wt, wc. unfold Before in Eb. apply Z.ltb_lt in Eb. done. }
  destruct (pods_sample r s detail) as [s' d'] eqn:Es.
  destruct (stablePolls <=? s')%nat eqn:El3.
  - injection E as <- <-. exists [], w, r.
    split; [constructor|]. split; [done|]. apply Nat.leb_le in El3.
    destruct (pods_sample_spec r s detail) as [[Hr Hq]|Hq]; rewrite Es in Hq.
    + injection Hq as -> ->. unfold stablePolls in *. simpl.
      exists [], [r]. split; [done|]. split; [by repeat constructor|].
      right. split; [done|]. unfold stablePolls. simpl. lia.
    + simpl in Hq. unfold stablePolls in *. lia.
  - destruct (Sleep (2 * Second) wl) as [u ws] eqn:Esl.
    apply Nat.leb_gt in El3.
    destruct (IH _ _ _ _ _ _ _ El3 E Hp) as (rs & w1 & last & Hpolls & Hlast & Hend).
    exists (r :: rs), w1, last. split; [by econstructor|]. split; [done|].
    simpl. destruct (pods_sample_spec r s detail) as [[Hr Hq]|Hq]; rewrite Es in Hq.
    + injection Hq as -> ->. by apply stable_end_cons_ready.
    + simpl in Hq. subst. by apply stable_end_cons_reset.
Qed.

(** ** Termination

    Under the clock's laws every round takes two seconds, so the rounds are
    bounded by the timeout. *)
Context `{!ClockLaws W}.
Hypothesis list_takes : forall w, time_of w <= time_of (snd (list_pods cli ns w)).

Lemma pods_loop_total fuel : forall c deadline s detail w,
  deadline - time_of w < (Z.of_nat fuel - 1) * (2 * Second) ->
  (0 < fuel)%nat ->
  fst (pods_loop fuel cli ns c deadline s detail w) <> None.
Proof.
  induction fuel as [|k IH]; intros c deadline s detail w Hf Hpos; [lia|].
  cbn [pods_loop]. unfold mbind, mret.
  pose proof (Now_reads w) as Hn. destruct (Now w) as [t wt]. cbn [fst snd] in Hn.
  destruct (Before t deadline) eqn:Eb; cbn [negb]; [|done].
  unfold Before in Eb. apply Z.ltb_lt in Eb.
  pose proof (ctx_Err_takes wt) as Hc. destruct (ctx_Err wt) as [[err|] wc]; [done|].
  cbn [snd] in Hc.
  pose proof (list_takes wc) as Hl. destruct (list_pods cli ns wc) as [r wl]. cbn [snd] in Hl.
  destruct (pods_sample r s detail) as [s' d'].
  destruct (stablePolls <=? s')%nat; [done|].
  pose proof (Sleep_takes (2 * Second) wl) as Hs.
  destruct (Sleep (2 * Second) wl) as [u ws]. cbn [snd] in Hs. unfold Second in *.
  destruct k as [|k]; [lia|]. apply IH; lia.
Qed.

Lemma pods_fuel_enough c t w :
  t <= time_of w -> 0 < Timeout c ->
  Add t (Timeout c) - time_of w < (Z.of_nat (pods_fuel c) - 1) * (2 * Second).
Proof.
  unfold Add, pods_fuel, Second. intros Ht Hc.
  pose proof (Z.div_mod (Timeout c) (2 * 1000000000)) as Hd.
  pose proof (Z.mod_pos_bound (Timeout c) (2 * 1000000000)) as Hm.
  pose proof (Z.div_pos (Timeout c) (2 * 1000000000)) as Hp.
  rewrite !Nat2Z.inj_succ, Z2Nat.id by lia. lia.
Qed.
End Pods.

(** * What a passed check means *)

Lemma identRe_spec s :
  MatchString identRe s = true <->
  exists c r, s = String c r /\ ident_head c = true /\ forall_bytes ident_char r = true.
Proof.
  rewrite MatchString_correct. unfold identRe. rewrite matches_cat_iff.
  setoid_rewrite matches_cls_iff. setoid_rewrite matches_star_cls. split.
  - intros (? & r & -> & (c & -> & Hc) & Hr). eauto.
  - intros (c & r & -> & Hc & Hr). exists (String c ""), r. eauto.
Qed.

(** The check's own name, the one its result carries. *)
Definition check_name (c : Check) : string :=
  if isSome (RestoreSucceeded c) then "restoreSucceeded"
  else if isSome (Freshness c) then "freshness"
  else if isSome (RowCount c) then "rowCount"
  else if isSome (Checksum c) then "checksum"
  else if isSome (Smoke c) then "smoke"
  else if isSome (Canary c) then "canary"
  else if isSome (PodsReady c) then "podsReady"
  else if isSome (ResourceCount c) then "resourceCount"
  else "unknown".

(** The row-count assertion [expr] holds of [n]. *)
Definition rows_hold (n : Z) (expr : string) : Prop :=
  exists op digits,
    rows_submatch (TrimSpace (if is_empty expr then ">=1" else expr)) = Some (op, digits) /\
    cmp_holds op n (fst (ParseInt digits)) = true.

Section Meaning.
Context {W : Type} `{Clock W}.

(** What a data check observed of the restored data, in world [w]. *)
Inductive observed (eng : option (Engine W)) (dc : Context W) (w : W) : Check -> Prop :=
| ob_rowCount c r e n :
    RowCount c = Some r -> eng = Some e ->
    fst (Count e (row_Query r) w) = Ok n -> row_Min r <= n -> observed eng dc w c
| ob_checksum c k e sum :
    Checksum c = Some k -> eng = Some e ->
    MatchString identRe (Table k) = true -> MatchString identRe (Column k) = true ->
    fst (eng_Checksum e (Table k) (Column k) w) = Ok sum ->
    (sum_Expect k <> "" -> sum = sum_Expect k) -> observed eng dc w c
| ob_smoke c s e n :
    Smoke c = Some s -> eng = Some e ->
    fst (Rows e (smoke_Statement s) w) = Ok n -> rows_hold n (ExpectRows s) ->
    observed eng dc w c
| ob_canary c k e :
    Canary c = Some k -> eng = Some e ->
    fst (Scalar e (canary_Statement k) w) = Ok (canary_Expect k) -> observed eng dc w c
| ob_podsReady c p cli deadline w0 w1 rs last w2 :
    PodsReady c = Some p -> K8s dc = Some cli ->
    w0 = snd (Now w) -> deadline = Add (fst (Now w)) (Timeout p) ->
    polls cli (ctx_Namespace dc) deadline w0 rs w1 ->
    sampled cli (ctx_Namespace dc) deadline w1 last w2 ->
    stable_end 0 (rs ++ [last]) -> observed eng dc w c
| ob_resourceCount c r cli res n :
    ResourceCount c = Some r -> K8s dc = Some cli ->
    resource_of (res_Kind r) = Some res ->
    fst (list_len cli res (ctx_Namespace dc) w) = Ok n -> res_Min r <= n ->
    observed eng dc w c.

Lemma requireEngine_passed (eng : option (Engine W)) name run w :
  Passed (fst (requireEngine eng name run w)) = true ->
  exists e, eng = Some e /\ Passed (fst (run e w)) = true.
Proof. destruct eng; simpl; [eauto|done]. Qed.

Lemma rowCount_passed (e : Engine W) c w :
  Passed (fst (rowCount e c w)) = true <->
  exists n, fst (Count e (row_Query c) w) = Ok n /\ row_Min c <= n.
Proof.
  unfold rowCount, mbind, mret. destruct (Count e (row_Query c) w) as [[n|err] w']; simpl.
  - rewrite Z.leb_le. naive_solver.
  - naive_solver.
Qed.

Lemma checksum_passed (e : Engine W) c w :
  Passed (fst (checksum e c w)) = true <->
  MatchString identRe (Table c) = true /\ MatchString identRe (Column c) = true /\
  exists sum, fst (eng_Checksum e (Table c) (Column c) w) = Ok sum /\
    (sum_Expect c <> "" -> sum = sum_Expect c).
Proof.
  unfold checksum. destruct (MatchString identRe (Table c)); [|simpl; naive_solver].
  destruct (MatchString identRe (Column c)); [|simpl; naive_solver].
  cbn [negb orb]. unfold mbind, mret.
  destruct (eng_Checksum e (Table c) (Column c) w) as [[sum|err] w']; cbn [fst].
  - unfold is_empty. destruct (String.eqb_spec (sum_Expect c) ""); simpl; [naive_solver|].
    destruct (String.eqb_spec sum (sum_Expect c)); simpl; naive_solver.
  - destruct (errors_Is _ err); simpl; naive_solver.
Qed.

Lemma smoke_passed (e : Engine W) c w :
  Passed (fst (smoke e c w)) = true <->
  exists n, fst (Rows e (smoke_Statement c) w) = Ok n /\ rows_hold n (ExpectRows c).
Proof.
  unfold smoke, mbind, mret, rows_hold, evalRows.
  destruct (Rows e (smoke_Statement c) w) as [[n|err] w']; cbn [fst]; [|simpl; naive_solver].
  destruct (rows_submatch _) as [[op d]|] eqn:E; simpl; naive_solver.
Qed.

Lemma canary_passed (e : Engine W) c w :
  Passed (fst (canary e c w)) = true <->
  fst (Scalar e (canary_Statement c) w) = Ok (canary_Expect c).
Proof.
  unfold canary, mbind, mret.
  destruct (Scalar e (canary_Statement c) w) as [[got|err] w']; cbn [fst]; [|done].
  destruct (String.eqb_spec got (canary_Expect c)); simpl; naive_solver.
Qed.

Lemma resourceCount_passed cli ns c (w : W) :
  Passed (fst (resourceCount cli ns c w)) = true <->
  exists cl res n, cli = Some cl /\ resource_of (res_Kind c) = Some res /\
    fst (list_len cl res ns w) = Ok n /\ res_Min c <= n.
Proof.
  unfold resourceCount. destruct cli as [cl|]; [|simpl; naive_solver].
  destruct (resource_of (res_Kind c)) as [res|]; [|simpl; naive_solver].
  unfold mbind, mret. destruct (list_len cl res ns w) as [[n|err] w'] eqn:E; cbn [fst].
  - simpl. rewrite Z.leb_le. split.
    + intros Hle. exists cl, res, n. by rewrite E.
    + intros (cl' & res' & n' & [= <-] & [= <-] & Hn & Hle). rewrite E in Hn. by injection Hn as ->.
  - split; [done|]. intros (cl' & res' & n' & [= <-] & [= <-] & Hn & Hle). by rewrite E in Hn.
Qed.

Lemma podsReady_passed cli ns c (w : W) :
  Passed (fst (podsReady cli ns c w)) = true ->
  exists cl rs w1 last w2, cli = Some cl /\
    polls cl ns (Add (fst (Now w)) (Timeout c)) (snd (Now w)) rs w1 /\
    sampled cl ns (Add (fst (Now w)) (Timeout c)) w1 last w2 /\
    stable_end 0 (rs ++ [last]).
Proof.
  unfold podsReady. destruct cli as [cl|]; [|done]. unfold mbind, mret.
  destruct (Now w) as [t w0]; cbn [fst snd].
  destruct (pods_loop _ _ _ _ _ _ _ _) as [[res|] w'] eqn:E; [|done].
  intros Hp. apply pods_loop_passed in E as (rs & w1 & last & ? & ? & ?);
    [|unfold stablePolls; lia|done].
  exists cl, rs, w1, last, w'. done.
Qed.

Lemma runOne_passed_observed eng c dc (w : W) :
  provesData c = true -> RestoreSucceeded c = None -> Freshness c = None ->
  Passed (fst (runOne eng c dc w)) = true ->
  RestoreErr dc = None /\ observed eng dc w c.
Proof.
  intros Hd Hr Hf. unfold runOne, dataCheck. rewrite Hr, Hf.
  destruct (RowCount c) eqn:E1.
  { destruct (RestoreErr dc); [done|]. intros (e & -> & Hp)%requireEngine_passed.
    apply rowCount_passed in Hp as (n & ? & ?). split; [done|]. by eapply ob_rowCount. }
  destruct (Checksum c) eqn:E2.
  { destruct (RestoreErr dc); [done|]. intros (e & -> & Hp)%requireEngine_passed.
    apply checksum_passed in Hp as (? & ? & sum & ? & ?). split; [done|].
    by eapply ob_checksum. }
  destruct (Smoke c) eqn:E3.
  { destruct (RestoreErr dc); [done|]. intros (e & -> & Hp)%requireEngine_passed.
    apply smoke_passed in Hp as (n & ? & ?). split; [done|]. by eapply ob_smoke. }
  destruct (Canary c) eqn:E4.
  { destruct (RestoreErr dc); [done|]. intros (e & -> & Hp)%requireEngine_passed.
    apply canary_passed in Hp. split; [done|]. by eapply ob_canary. }
  destruct (PodsReady c) eqn:E5.
  { destruct (RestoreErr dc); [done|].
    intros (cl & rs & w1 & last & w2 & ? & ? & ? & ?)%podsReady_passed.
    split; [done|]. by eapply ob_podsReady. }
  destruct (ResourceCount c) eqn:E6.
  { destruct (RestoreErr dc); [done|].
    intros (cl & res & n & ? & ? & ? & ?)%resourceCount_passed. split; [done|].
    by eapply ob_resourceCount. }
  unfold provesData, isSQL, isK8s in Hd. rewrite E1, E2, E3, E4, E5, E6 in Hd. done.
Qed.
End Meaning.

(** * Whole runs *)

(** The names of the checks that inspect restored data. *)
Definition data_names : list string :=
  ["rowCount"; "checksum"; "smoke"; "canary"; "podsReady"; "resourceCount"].

Section Runs.
Context {W : Type} `{Clock W}.

Lemma requireEngine_name eng name (run : Engine W -> M W Result) w :
  (forall e, res_Name (fst (run e w)) = name /\ Skipped (fst (run e w)) = false) ->
  res_Name (fst (requireEngine eng name run w)) = name /\
  Skipped (fst (requireEngine eng name run w)) = false.
Proof. destruct eng; simpl; auto. Qed.

Lemma rowCount_name (e : Engine W) r w :
  res_Name (fst (rowCount e r w)) = "rowCount" /\ Skipped (fst (rowCount e r w)) = false.
Proof. unfold rowCount, mbind, mret. by destruct (Count e _ w) as [[|] ?]. Qed.

Lemma checksum_name (e : Engine W) r w :
  res_Name (fst (checksum e r w)) = "checksum" /\ Skipped (fst (checksum e r w)) = false.
Proof.
  unfold checksum, mbind, mret. destruct (_ || _); [done|].
  destruct (eng_Checksum e _ _ w) as [[|] ?]; cbn [fst].
  - by destruct (_ && _).
  - by destruct (errors_Is _ _).
Qed.

Lemma smoke_name (e : Engine W) r w :
  res_Name (fst (smoke e r w)) = "smoke" /\ Skipped (fst (smoke e r w)) = false.
Proof.
  unfold smoke, mbind, mret. destruct (Rows e _ w) as [[|] ?]; cbn [fst]; [|done].
  by destruct (evalRows _ _).
Qed.

Lemma canary_name (e : Engine W) r w :
  res_Name (fst (canary e r w)) = "canary" /\ Skipped (fst (canary e r w)) = false.
Proof.
  unfold canary, mbind, mret. destruct (Scalar e _ w) as [[|] ?]; cbn [fst]; [|done].
  by destruct (negb _).
Qed.

Lemma pods_loop_name fuel : forall (cli : K8sClient W) ns c dl s d w res w',
  pods_loop fuel cli ns c dl s d w = (Some res, w') ->
  res_Name res = "podsReady" /\ Skipped res = false.
Proof.
  induction fuel as [|k IH]; intros cli ns c dl s d w res w'; [done|].
  cbn [pods_loop]. unfold mbind, mret. destruct (Now w) as [t w1].
  destruct (negb _); [by intros [= <- <-]|].
  destruct (ctx_Err w1) as [[err|] w2]; [by intros [= <- <-]|].
  destruct (list_pods cli ns w2) as [r w3]. destruct (pods_sample r s d) as [s' d'].
  destruct (_ <=? _)%nat; [by intros [= <- <-]|].
  destruct (Sleep _ w3) as [u w4]. apply IH.
Qed.

Lemma podsReady_name cli ns c (w : W) :
  res_Name (fst (podsReady cli ns c w)) = "podsReady" /\
  Skipped (fst (podsReady cli ns c w)) = false.
Proof.
  unfold podsReady. destruct cli as [cl|]; [|done]. unfold mbind, mret.
  destruct (Now w) as [t w0].
  destruct (pods_loop _ _ _ _ _ _ _ _) as [[res|] w'] eqn:E; [|done].
  by apply pods_loop_name in E.
Qed.

Lemma resourceCount_name cli ns c (w : W) :
  res_Name (fst (resourceCount cli ns c w)) = "resourceCount" /\
  Skipped (fst (resourceCount cli ns c w)) = false.
Proof.
  unfold resourceCount. destruct cli as [cl|]; [|done].
  destruct (resource_of _); [|done]. unfold mbind, mret.
  by destruct (list_len cl _ ns w) as [[|] ?].
Qed.

Lemma dataCheck_name (dc : Context W) name (run : M W Result) w :
  res_Name (fst (run w)) = name /\ Skipped (fst (run w)) = false ->
  res_Name (fst (dataCheck dc name run w)) = name /\
  Skipped (fst (dataCheck dc name run w)) = isSome (RestoreErr dc).
Proof. unfold dataCheck. by destruct (RestoreErr dc). Qed.

(** A result carries its check's name; only data checks are skipped, and
    exactly when the restore failed. *)
Lemma runOne_name eng c dc (w : W) :
  res_Name (fst (runOne eng c dc w)) = check_name c /\
  Skipped (fst (runOne eng c dc w)) = isSome (RestoreErr dc) && str_in (check_name c) data_names.
Proof.
  unfold runOne, check_name.
  assert (Hd : forall name run, str_in name data_names = true ->
    res_Name (fst (run w)) = name /\ Skipped (fst (run w)) = false ->
    res_Name (fst (dataCheck dc name run w)) = name /\
    Skipped (fst (dataCheck dc name run w)) =
      isSome (RestoreErr dc) && str_in name data_names).
  { intros name run -> Hr. rewrite andb_true_r. by apply dataCheck_name. }
  destruct (RestoreSucceeded c); cbn [isSome].
  { rewrite andb_false_r. unfold restoreSucceeded. by destruct (RestoreErr dc). }
  destruct (Freshness c); cbn [isSome]; [by rewrite andb_false_r|].
  destruct (RowCount c); cbn [isSome].
  { apply Hd; [done|]. apply requireEngine_name. intros. apply rowCount_name. }
  destruct (Checksum c); cbn [isSome].
  { apply Hd; [done|]. apply requireEngine_name. intros. apply checksum_name. }
  destruct (Smoke c); cbn [isSome].
  { apply Hd; [done|]. apply requireEngine_name. intros. apply smoke_name. }
  destruct (Canary c); cbn [isSome].
  { apply Hd; [done|]. apply requireEngine_name. intros. apply canary_name. }
  destruct (PodsReady c); cbn [isSome].
  { apply Hd; [done|]. apply podsReady_name. }
  destruct (ResourceCount c); cbn [isSome].
  { apply Hd; [done|]. apply resourceCount_name. }
  by rewrite andb_false_r.
Qed.

(** With a failed restore no check touches the engine, the cluster or the
    clock. *)
Lemma runOne_restore_failed eng c (dc : Context W) e w :
  RestoreErr dc = Some e -> snd (runOne eng c dc w) = w.
Proof.
  intros He. unfold runOne, dataCheck. rewrite He.
  repeat match goal with |- context [match ?o with Some _ => _ | None => _ end] =>
    destruct o; [done|] end. done.
Qed.

Lemma Run_restore_failed eng cs (dc : Context W) e w :
  RestoreErr dc = Some e -> snd (Run eng cs dc w) = w.
Proof.
  intros He. induction cs as [|c cs IH]; [done|]. cbn [Run]. unfold mbind, mret.
  pose proof (runOne_restore_failed eng c dc e w He) as H1.
  destruct (runOne eng c dc w) as [x w1]. cbn [snd] in H1. subst.
  by destruct (Run eng cs dc w).
Qed.

(** One result per check, in order, each produced by its check. *)
Lemma Run_Forall2 eng cs dc w :
  Forall2 (fun c r => exists w1, r = fst (runOne eng c dc w1)) cs (fst (Run eng cs dc w)).
Proof.
  revert w. induction cs as [|c cs IH]; intros w; [constructor|].
  cbn [Run]. unfold mbind, mret. destruct (runOne eng c dc w) as [x w1] eqn:E.
  specialize (IH w1). destruct (Run eng cs dc w1) as [xs w2].
  constructor; [|done]. exists w. by rewrite E.
Qed.

Lemma Run_names eng cs dc w :
  List.map res_Name (fst (Run eng cs dc w)) = List.map check_name cs.
Proof.
  induction (Run_Forall2 eng cs dc w) as [|c r cs' rs [w1 ->] _ IH]; [done|].
  simpl. rewrite IH. f_equal. apply runOne_name.
Qed.

Lemma Run_in eng cs dc w r :
  In r (fst (Run eng cs dc w)) ->
  exists c w1, In c cs /\ r = fst (runOne eng c dc w1).
Proof.
  induction (Run_Forall2 eng cs dc w) as [|c x cs' rs [w1 ->] _ IH]; [done|].
  intros [<-|Hin]; [by exists c, w1; split; [left|]|].
  destruct (IH Hin) as (c' & w' & ? & ?). exists c', w'. split; [by right|done].
Qed.

(** A result named after a data check comes from a check whose first set
    field is one of the data-proving ones. *)
Lemma data_name_check c :
  str_in (check_name c) data_names = true ->
  provesData c = true /\ RestoreSucceeded c = None /\ Freshness c = None.
Proof.
  unfold check_name, provesData, isSQL, isK8s.
  destruct (RestoreSucceeded c), (Freshness c), (RowCount c), (Checksum c), (Smoke c),
    (Canary c), (PodsReady c), (ResourceCount c); done.
Qed.

Lemma valid_check_data c :
  valid_check c -> provesData c = str_in (check_name c) data_names.
Proof. by destruct 1. Qed.

Lemma valid_check_known c : valid_check c -> check_name c <> "unknown".
Proof. by destruct 1. Qed.

(** A passed data result is evidence of an observation. *)
Lemma Run_passed_observed eng cs dc w r :
  In r (fst (Run eng cs dc w)) -> Passed r = true ->
  str_in (res_Name r) data_names = true ->
  RestoreErr dc = None /\ exists c w1, In c cs /\ observed eng dc w1 c.
Proof.
  intros (c & w1 & Hc & ->)%Run_in Hp Hn.
  rewrite (proj1 (runOne_name eng c dc w1)) in Hn.
  apply data_name_check in Hn as (Hd & Hr & Hf).
  destruct (runOne_passed_observed eng c dc w1 Hd Hr Hf Hp) as [He Hob].
  split; [done|]. exists c, w1. done.
Qed.
End Runs.

(** * Identifiers and secrets *)

Section Safety.
Context {W : Type} `{Clock W}.

(** The canary's result is the same for any two secrets the restored value
    compares alike with. *)
Lemma canary_secret (e : Engine W) c c' w :
  canary_Statement c = canary_Statement c' ->
  (fst (Scalar e (canary_Statement c) w) = Ok (canary_Expect c) <->
   fst (Scalar e (canary_Statement c') w) = Ok (canary_Expect c')) ->
  canary e c w = canary e c' w.
Proof.
  unfold canary, mbind, mret. intros ->.
  destruct (Scalar e (canary_Statement c') w) as [[got|err] w']; cbn [fst]; [|done].
  intros Hiff.
  destruct (String.eqb_spec got (canary_Expect c)),
           (String.eqb_spec got (canary_Expect c')); naive_solver.
Qed.

(** An identifier that is not one never reaches the engine. *)
Lemma checksum_guard (e e' : Engine W) c w :
  MatchString identRe (Table c) && MatchString identRe (Column c) = false ->
  checksum e c w = checksum e' c w /\ snd (checksum e c w) = w /\
  Passed (fst (checksum e c w)) = false.
Proof.
  unfold checksum. intros Hb.
  assert (negb (MatchString identRe (Table c)) || negb (MatchString identRe (Column c)) = true)
    as -> by (destruct (MatchString identRe (Table c)), (MatchString identRe (Column c)); done).
  done.
Qed.
End Safety.
