(* ===== verification/Source.v ===== *)
(** Package [source] (pkg/source: source.go, compress.go, decrypt.go): finding
    the backup artifact, undoing its encryption and compression, and landing
    the plaintext in a private temporary file.

    A reader is the sequence of results its [Read] calls give: chunks of bytes
    and the error the stream ends on ([None] is EOF). The operating system and
    the object store are records of the calls the code makes on them; the
    decoders (gzip, zstd, bzip2, age, gpg) are third-party and parameters. The
    state is the map from temporary file names to their contents. *)

From Stdlib Require Import ZArith Lia Ascii String.
From stdpp Require Import base option list gmap strings.
From S2P Require Import Prelude GoStrings PathMatch Paths Spec.

(** * Readers *)

Record Reader := { chunks : list string; rerr : option error }.

Definition contents (r : Reader) : string := String.concat EmptyString (chunks r).

Definition string_reader (s : string) : Reader := {| chunks := [s]; rerr := None |}.

(** [br.Peek(n)] on a buffered reader over [r]. *)
Definition Peek (r : Reader) (n : nat) : string := take_bytes n (contents r).

(** [io.LimitReader(r, n)]: EOF after [n] bytes, and at once when [n <= 0]. *)
Definition LimitReader (r : Reader) (n : Z) : Reader :=
  if n <=? 0 then {| chunks := []; rerr := None |}
  else if len (contents r) <? n then r
  else string_reader (take_bytes (Z.to_nat n) (contents r)).

(** [capReader]: what a reader capped at [limit] gives, [n] bytes into it. The
    chunk that passes the limit comes with the error. *)
Fixpoint cap_chunks (limit n : Z) (what : string) (cs : list string) (term : option error)
  : list string * option error :=
  match cs with
  | [] => ([], term)
  | c :: r =>
      let n' := n + len c in
      if (0 <? limit) && (limit <? n')
      then ([c], Some (ENew (what +:+ " exceeds maxBytes " +:+ itoa limit)))
      else let '(cs', e) := cap_chunks limit n' what r term in (c :: cs', e)
  end.

Definition capReader (r : Reader) (limit : Z) (what : string) : Reader :=
  let '(cs, e) := cap_chunks limit 0 what (chunks r) (rerr r) in
  {| chunks := cs; rerr := e |}.

(** * Magic bytes *)

Definition Gzip : string := "gzip".
Definition Zstd : string := "zstd".
Definition Bzip2 : string := "bzip2".

Definition magics : list (string * string) :=
  [(Zstd, bs [40; 181; 47; 253]); (Gzip, bs [31; 139]); (Bzip2, "BZh")].

Definition maxMagic : nat := 4.

(** The first table entry whose magic [head] starts with. *)
Fixpoint detect_in (table : list (string * string)) (head : string) : string :=
  match table with
  | [] => EmptyString
  | (name, magic) :: r => if HasPrefix head magic then name else detect_in r head
  end.

Definition detect (head : string) : string := detect_in magics head.

Definition Age : string := "age".
Definition GPG : string := "gpg".

Definition pgpPacketTags : list Z := [132; 133; 140; 193; 195].

(** * Limits *)

(** [maxBytes * 100] is a 64-bit product. *)
Definition uncompressedLimit (maxBytes maxUncompressed : Z) : Z :=
  if 0 <? maxUncompressed then maxUncompressed
  else if 0 <? maxBytes then wrap64 (maxBytes * 100)
  else 0.

(** A destination that takes [f] bytes and then fails, or never fails. *)
Definition Copy (fault : option (nat * error)) (src : Reader) : string * option error :=
  match fault with
  | Some (k, e) =>
      if (k <? String.length (contents src))%nat
      then (take_bytes k (contents src), Some e)
      else (contents src, rerr src)
  | None => (contents src, rerr src)
  end.

(** What was written, and the error. [limit + 1] is a 64-bit sum. *)
Definition copyLimited (fault : option (nat * error)) (src : Reader) (limit : Z) (what : string)
  : string * option error :=
  if limit <=? 0 then Copy fault src
  else
    let '(w, err) := Copy fault (LimitReader src (wrap64 (limit + 1))) in
    match err with
    | Some e => (w, Some e)
    | None =>
        if limit <? len w
        then (w, Some (ENew (what +:+ " exceeds " +:+ itoa limit +:+ " bytes")))
        else (w, None)
    end.

(** * The operating system *)

Record FileInfo := { fi_ModTime : Time; fi_Size : Z; IsDir : bool }.

(** A directory entry; [Info] can fail. *)
Record DirEntry := { de_Name : string; de_IsDir : bool; Info : result FileInfo }.

Abbreviation Tmp := (gmap string string).

Record OS := {
  Stat : string -> result FileInfo;
  Open : string -> result Reader;
  ReadDir : string -> result (list DirEntry);
  Getenv : string -> string;
  LookPath : string -> result string;
  Pipe : result unit;
  (** a name that does not exist yet *)
  CreateTemp : Tmp -> string -> result string;
  WriteFault : string -> option (nat * error);
  CloseFault : string -> option error;
  TimeNow : Time
}.

(** * Backups *)

Record Backup := {
  Path : string;
  ModTime : Time;
  Size : Z;
  ResolvedURI : string;
  Encryption : string;
  Compression : string;
  UncompressedBytes : Z;
  cleanup : option string   (* the temporary file to remove *)
}.

Definition non_empty (s : string) : bool := negb (is_empty s).

Definition Layers (b : Backup) : string :=
  GoStrings.Join ((if non_empty (Encryption b) then [Encryption b] else []) ++
        (if non_empty (Compression b) then [Compression b] else [])) ", ".

(** [Cleanup]; nil-safe. *)
Definition Cleanup (b : option Backup) : M Tmp unit := fun fs =>
  match b with
  | Some {| cleanup := Some name |} => (tt, delete name fs)
  | _ => (tt, fs)
  end.

(** * Selection *)

Definition globMatch (glob name : string) : bool :=
  if is_empty glob then true
  else match PathMatch.Match glob name with Some ok => ok | None => false end.

Definition noMatchErr (location match_ : string) : error :=
  if is_empty match_ then ENew ("no backup found under " +:+ location)
  else ENew ("no backup matching " +:+ quote match_ +:+ " found under " +:+ location).

(** The directory loop: the newest candidate so far. *)
Definition latest_step (from : From) (newest : string * Time) (e : DirEntry) : string * Time :=
  if de_IsDir e || negb (globMatch (Match from) (de_Name e)) then newest
  else match Info e with
       | Err _ => newest
       | Ok fi =>
           if fi_Size fi =? 0 then newest
           else if is_empty (fst newest) || After (fi_ModTime fi) (snd newest)
           then (Join2 (URI from) (de_Name e), fi_ModTime fi)
           else newest
       end.

Definition latestFile (os : OS) (from : From) : result string :=
  match ReadDir os (URI from) with
  | Err e => Err (EWrap "listing backup directory: " e "")
  | Ok entries =>
      let '(newest, _) := List.fold_left (latest_step from) entries (EmptyString, zero_time) in
      if is_empty newest then Err (noMatchErr (URI from) (Match from)) else Ok newest
  end.

(** An S3 listing entry; the SDK's fields are pointers. *)
Record Object := { Key : option string; obj_Size : option Z; LastModified : option Time }.

Definition maxListKeys : Z := 10000.

Definition ToString (o : option string) : string := default EmptyString o.
Definition ToInt64 (o : option Z) : Z := default 0 o.

(** Listing outcomes: [LPanic] is a nil timestamp dereferenced. *)
Inductive listing (A : Type) : Type :=
| LOk (a : A)
| LErr (e : error)
| LPanic.
Arguments LOk {A}. Arguments LErr {A}. Arguments LPanic {A}.

Definition no_object : Object := {| Key := None; obj_Size := None; LastModified := None |}.

Definition candidate (match_ : string) (o : Object) : bool :=
  negb (HasSuffix (ToString (Key o)) "/") && negb (ToInt64 (obj_Size o) =? 0) &&
  globMatch match_ (Base (ToString (Key o))).

(** The objects of one page. *)
Fixpoint scan_objects (where_ match_ : string) (os : list Object) (seen : Z) (newest : Object)
  : listing (Z * Object) :=
  match os with
  | [] => LOk (seen, newest)
  | o :: r =>
      let seen := seen + 1 in
      if maxListKeys <? seen then
        LErr (ENew ("more than " +:+ itoa maxListKeys +:+ " objects under " +:+ where_ +:+
                    " — narrow the prefix or add a match glob"))
      else if negb (candidate match_ o) then scan_objects where_ match_ r seen newest
      else
        match Key newest with
        | None => scan_objects where_ match_ r seen o
        | Some _ =>
            match LastModified o, LastModified newest with
            | Some t, Some u =>
                scan_objects where_ match_ r seen (if After t u then o else newest)
            | _, _ => LPanic
            end
        end
  end.

(** The paginator, one [NextPage] outcome at a time. *)
Fixpoint scan_pages (where_ match_ : string) (pages : list (result (list Object))) (seen : Z)
  (newest : Object) : listing Object :=
  match pages with
  | [] => LOk newest
  | Err e :: _ => LErr (EWrap ("listing " +:+ where_ +:+ ": ") e "")
  | Ok os :: r =>
      match scan_objects where_ match_ os seen newest with
      | LOk (seen', newest') => scan_pages where_ match_ r seen' newest'
      | LErr e => LErr e
      | LPanic => LPanic
      end
  end.

Definition latestObject (pages : list (result (list Object))) (bucket prefix match_ : string)
  : listing string :=
  let where_ := "s3://" +:+ bucket +:+ "/" +:+ prefix in
  match scan_pages where_ match_ pages 0 no_object with
  | LOk newest =>
      match Key newest with
      | None => LErr (noMatchErr where_ match_)
      | Some k => LOk k
      end
  | LErr e => LErr e
  | LPanic => LPanic
  end.

Definition parseS3URI (uri : string) (allowEmptyKey : bool) : result (string * string) :=
  match CutPrefix "s3://" uri with
  | None => Err (ENew ("s3 uri must start with s3://, got " +:+ quote uri))
  | Some rest =>
      let '(bucket, key, ok) := Cut rest slash in
      if is_empty bucket || (negb allowEmptyKey && (negb ok || is_empty key))
      then Err (ENew ("invalid s3 uri " +:+ quote uri +:+ " (want s3://bucket/key)"))
      else Ok (bucket, key)
  end.

(** Strip a compression suffix: the temporary file keeps the artifact's own
    extension. *)
Definition plainExt (name : string) : string :=
  let base := Base name in
  let ext := Ext base in
  if str_in ext [".gz"; ".zst"; ".zstd"; ".bz2"] then Ext (TrimSuffix base ext) else ext.

(** * Spooling *)

(** The bytes reach the disk as they are copied; on any error the file is
    removed. *)
Definition spool (os : OS) (r : Reader) (pattern : string) (limit : Z)
  : M Tmp (result (string * Z)) := fun fs =>
  match CreateTemp os fs pattern with
  | Err e => (Err e, fs)
  | Ok name =>
      let '(w, err) := copyLimited (WriteFault os name) r limit "decompressed backup" in
      let fs := <[name := w]> fs in
      let err := match err with Some e => Some e | None => CloseFault os name end in
      match err with
      | Some e => (Err e, delete name fs)
      | None => (Ok (name, len w), fs)
      end
  end.

(** * The S3 client *)

(** [GetObject]: the body, [ContentLength] and [LastModified]. [Pages] are the
    outcomes of the paginator's successive [NextPage] calls. *)
Record GetObjectOutput := {
  Body : Reader; ContentLength : option Z; go_LastModified : option Time }.

Record S3Client := {
  Pages : string -> string -> list (result (list Object));
  GetObject : string -> string -> result GetObjectOutput
}.

(** What [s3Client] asks of the AWS SDK. *)
Record S3Options := {
  opt_Region : option string; SharedConfigProfile : option string;
  BaseEndpoint : option string; UsePathStyle : bool }.

Definition opt_of (s : string) : option string := if is_empty s then None else Some s.

Definition s3_options (from : From) : S3Options := {|
  opt_Region := opt_of (Region from);
  SharedConfigProfile := opt_of (CredentialsRef from);
  BaseEndpoint := opt_of (Endpoint from);
  UsePathStyle := non_empty (Endpoint from) |}.

(** * Decoders *)

(** Third-party: the compression libraries, the age library and the gpg
    process. [gpg_start] runs gpg with the arguments and, on descriptor 3, the
    passphrase; it gives gpg's standard output and, when it exits non-zero, its
    standard error. [Reads] is how many [Read] calls the whole pipeline makes
    on the transferred stream. *)
Record Codecs := {
  gzip_NewReader : Reader -> result Reader;
  zstd_NewReader : Reader -> result Reader;
  bzip2_NewReader : Reader -> Reader;
  Identity : Type;
  ParseIdentities : Reader -> result (list Identity);
  NewScryptIdentity : string -> result Identity;
  armor_Header : string;
  armor_NewReader : Reader -> Reader;
  age_Decrypt : Reader -> list Identity -> result Reader;
  gpg_start : string -> list string -> option string -> Reader ->
              result (Reader * option string);
  Reads : string -> string -> Reader -> nat
}.

Section Pipeline.
Context (cx : Codecs) (os : OS).

Definition decompress (r : Reader) : result (Reader * string) :=
  let head := Peek r maxMagic in
  match head, rerr r with
  | EmptyString, Some e => Err e
  | EmptyString, None => Ok (r, EmptyString)
  | _, _ =>
      let d := detect head in
      if String.eqb d Gzip then
        try zr := gzip_NewReader cx r on_err (fun e => EWrap "gzip: " e "") in Ok (zr, Gzip)
      else if String.eqb d Zstd then
        try zr := zstd_NewReader cx r on_err (fun e => EWrap "zstd: " e "") in Ok (zr, Zstd)
      else if String.eqb d Bzip2 then Ok (bzip2_NewReader cx r, Bzip2)
      else Ok (r, EmptyString)
  end.

Definition encryptionMagics : list (string * string) :=
  [(Age, "age-encryption.org/v1"); (Age, armor_Header cx);
   (GPG, "-----BEGIN PGP MESSAGE-----")].

Definition detectEncryption (head : string) : string :=
  let d := detect_in encryptionMagics head in
  if non_empty d then d
  else match head with
       | String c _ => if existsb (Z.eqb (byte_val c)) pgpPacketTags then GPG else EmptyString
       | EmptyString => EmptyString
       end.

Definition maxEncryptionMagic : nat :=
  List.fold_left (fun n m => Nat.max n (String.length (snd m))) encryptionMagics 1%nat.

Definition ids_from_file (cfg : Decrypt) : result (list (Identity cx)) :=
  if is_empty (IdentityFile cfg) then Ok []
  else
    try f := Open os (IdentityFile cfg) on_err (fun e => EWrap "age identity file: " e "") in
    try ids := ParseIdentities cx f
      on_err (fun e => EWrap ("parsing " +:+ IdentityFile cfg +:+ ": ") e "") in
    Ok ids.

Definition ids_from_env (cfg : Decrypt) : result (list (Identity cx)) :=
  if is_empty (IdentityEnv cfg) then Ok []
  else
    let v := Getenv os (IdentityEnv cfg) in
    if is_empty v then
      Err (ENew ("age identity: env var " +:+ IdentityEnv cfg +:+ " is empty or unset"))
    else
      try ids := ParseIdentities cx (string_reader v)
        on_err (fun e => EWrap ("parsing identity from " +:+ IdentityEnv cfg +:+ ": ") e "") in
      Ok ids.

Definition ids_from_passphrase (cfg : Decrypt) : result (list (Identity cx)) :=
  if is_empty (PassphraseEnv cfg) then Ok []
  else
    let v := Getenv os (PassphraseEnv cfg) in
    if is_empty v then
      Err (ENew ("age passphrase: env var " +:+ PassphraseEnv cfg +:+ " is empty or unset"))
    else
      try id := NewScryptIdentity cx v on_err (fun e => e) in Ok [id].

(** The identities of the three sources, in that order. *)
Definition ageIdentities (cfg : Decrypt) : result (list (Identity cx)) :=
  try a := ids_from_file cfg on_err (fun e => e) in
  try b := ids_from_env cfg on_err (fun e => e) in
  try c := ids_from_passphrase cfg on_err (fun e => e) in
  match a ++ b ++ c with
  | [] => Err (ENew "decrypt.type age needs identityFile, identityEnv or passphraseEnv")
  | ids => Ok ids
  end.

Definition decryptAge (r : Reader) (head : string) (cfg : Decrypt) : result Reader :=
  try ids := ageIdentities cfg on_err (fun e => e) in
  let in_ := if HasPrefix head (armor_Header cx) then armor_NewReader cx r else r in
  try out := age_Decrypt cx in_ ids
    on_err (fun e => EWrap "decrypting age backup (wrong identity?): " e "") in
  Ok out.

(** [gpgReader]: EOF becomes an error when gpg exits non-zero. *)
Definition gpgReader (out : Reader) (exit : option string) : Reader :=
  match rerr out, exit with
  | None, Some stderr =>
      {| chunks := chunks out;
         rerr := Some (ENew ("gpg decryption failed: " +:+ TrimSpace stderr)) |}
  | _, _ => out
  end.

Definition gpg_args (pass : bool) : list string :=
  ["--batch"; "--yes"; "--quiet"; "--decrypt"] ++
  (if pass then ["--pinentry-mode"; "loopback"; "--passphrase-fd"; "3"] else []).

Definition decryptGPG (r : Reader) (cfg : Decrypt) : result Reader :=
  try bin := LookPath os "gpg"
    on_err (fun e => EWrap "decrypt.type gpg needs the gpg binary on PATH: " e "") in
  let pass := Getenv os (PassphraseEnv cfg) in
  let start pw :=
    try p := gpg_start cx bin (gpg_args (isSome pw)) pw r
      on_err (fun e => EWrap "starting gpg: " e "") in
    Ok (gpgReader (fst p) (snd p)) in
  if is_empty (PassphraseEnv cfg) then start None
  else if is_empty pass then
    Err (ENew ("gpg passphrase: env var " +:+ PassphraseEnv cfg +:+ " is empty or unset"))
  else
    try _ := Pipe os on_err (fun e => e) in start (Some pass).

Definition decrypt (r : Reader) (cfg : option Decrypt) : result (Reader * string) :=
  let head := Peek r maxEncryptionMagic in
  match head, rerr r with
  | EmptyString, Some e => Err e
  | _, _ =>
      let detected := detectEncryption head in
      match cfg with
      | None =>
          if non_empty detected then
            Err (ENew ("backup looks " +:+ detected +:+
              "-encrypted — add source.from.decrypt to the spec so FireDrill can read it"))
          else Ok (r, EmptyString)
      | Some c =>
          if String.eqb (dec_Type c) Age then
            try rd := decryptAge r head c on_err (fun e => e) in Ok (rd, Age)
          else if String.eqb (dec_Type c) GPG then
            try rd := decryptGPG r c on_err (fun e => e) in Ok (rd, GPG)
          else Err (ENew ("unsupported decrypt.type " +:+ quote (dec_Type c)))
      end
  end.

(** Both layers, outermost first. *)
Definition unwrap (what : string) (r : Reader) (cfg : option Decrypt)
  : result (Reader * string * string) :=
  let reading e := EWrap ("reading " +:+ what +:+ ": ") e "" in
  try p := decrypt r cfg on_err reading in
  try q := decompress (fst p) on_err reading in
  Ok (fst q, snd p, snd q).

Definition exceeding (size maxBytes : Z) : error :=
  ENew ("backup is " +:+ itoa size +:+ " bytes, exceeding maxBytes " +:+ itoa maxBytes).

Definition spool_pattern (name : string) : string := "firedrill-backup-*" +:+ plainExt name.

Definition file_path (from : From) : result string :=
  if non_empty (Select from) then latestFile os from else Ok (URI from).

Definition fetchFile (from : From) : M Tmp (result Backup) :=
  match file_path from with
  | Err e => mret (Err e)
  | Ok p =>
      match Stat os p with
      | Err e => mret (Err (EWrap "backup file: " e ""))
      | Ok fi =>
          if IsDir fi then
            mret (Err (ENew ("backup path " +:+ p +:+
              " is a directory (use select: latest to pick from it)")))
          else if (0 <? MaxBytes from) && (MaxBytes from <? fi_Size fi) then
            mret (Err (exceeding (fi_Size fi) (MaxBytes from)))
          else
            match Open os p with
            | Err e => mret (Err e)
            | Ok f =>
                match unwrap p f (from_Decrypt from) with
                | Err e => mret (Err e)
                | Ok (r, enc, comp) =>
                    let b path n cl := {|
                      Path := path; ModTime := fi_ModTime fi; Size := fi_Size fi;
                      ResolvedURI := p; Encryption := enc; Compression := comp;
                      UncompressedBytes := n; cleanup := cl |} in
                    if is_empty comp && is_empty enc then mret (Ok (b p 0 None))
                    else
                      let? t := spool os r (spool_pattern p)
                                  (uncompressedLimit (MaxBytes from) (MaxUncompressedBytes from))
                        on_err (fun e => e) in
                      mret (Ok (b (fst t) (if non_empty comp then snd t else 0)
                                  (Some (fst t))))
                end
            end
      end
  end.

(** The bytes [transferred] has counted after the pipeline's reads. *)
Definition transferred_n (cap : Reader) (reads : nat) : Z :=
  len (String.concat EmptyString (take reads (chunks cap))).

Definition s3_key (cli : S3Client) (from : From) (bucket key : string) : listing string :=
  if non_empty (Select from)
  then latestObject (Pages cli bucket key) bucket key (Match from)
  else LOk key.

(** [LPanic] is the panic of [latestObject]. *)
Definition fetchS3 (connect : S3Options -> result S3Client) (from : From)
  : M Tmp (listing Backup) :=
  match parseS3URI (URI from) (non_empty (Select from)) with
  | Err e => mret (LErr e)
  | Ok (bucket, prefix) =>
      match connect (s3_options from) with
      | Err e => mret (LErr (EWrap "aws config: " e ""))
      | Ok cli =>
          match s3_key cli from bucket prefix with
          | LPanic => mret LPanic
          | LErr e => mret (LErr e)
          | LOk key =>
              let resolved := "s3://" +:+ bucket +:+ "/" +:+ key in
              match GetObject cli bucket key with
              | Err e => mret (LErr (EWrap ("s3 get " +:+ resolved +:+ ": ") e ""))
              | Ok obj =>
                  if (0 <? MaxBytes from) &&
                     match ContentLength obj with Some n => MaxBytes from <? n | None => false end
                  then mret (LErr (exceeding (ToInt64 (ContentLength obj)) (MaxBytes from)))
                  else
                    let cap := capReader (Body obj) (MaxBytes from) "backup" in
                    match unwrap resolved cap (from_Decrypt from) with
                    | Err e => mret (LErr e)
                    | Ok (r, enc, comp) =>
                        let! sp := spool os r (spool_pattern key)
                          (uncompressedLimit (MaxBytes from) (MaxUncompressedBytes from)) in
                        mret match sp with
                        | Err e => LErr (EWrap "downloading backup: " e "")
                        | Ok (name, n) => LOk {|
                            Path := name;
                            ModTime := default (TimeNow os) (go_LastModified obj);
                            Size := transferred_n cap (Reads cx enc comp cap);
                            ResolvedURI := resolved; Encryption := enc; Compression := comp;
                            UncompressedBytes := if non_empty comp then n else 0;
                            cleanup := Some name |}
                        end
                    end
              end
          end
      end
  end.

Definition of_result {A} (r : result A) : listing A :=
  match r with Ok a => LOk a | Err e => LErr e end.

Definition Fetch (connect : S3Options -> result S3Client) (from : From)
  : M Tmp (listing Backup) :=
  if String.eqb (from_Type from) "file" then
    let! r := fetchFile from in mret (of_result r)
  else if String.eqb (from_Type from) "s3" then fetchS3 connect from
  else mret (LErr (ENew ("unsupported source type " +:+ quote (from_Type from)))).
End Pipeline.
