(* ===== verification/SourceFacts.v ===== *)
(** What the source layer guarantees: the newest matching artifact is the one
    drilled, limits hold, no ciphertext and no truncated stream passes for a
    backup, and no temporary file outlives the backup it holds. *)

From Stdlib Require Import ZArith Lia Ascii String.
From stdpp Require Import base option list gmap strings.
From S2P Require Import Prelude GoStrings PathMatch Paths Spec SpecFacts Source.

(** * Strings *)

Lemma len_nonneg s : 0 <= len s.
Proof. unfold len. lia. Qed.

Lemma string_reader_contents s : contents (string_reader s) = s.
Proof. unfold contents. simpl. done. Qed.

(** * Newest wins *)

Section LatestFile.
Variables (os : OS) (from : From).

(** A regular, non-empty, matching entry and its file information. *)
Definition eligible (e : DirEntry) (fi : FileInfo) : Prop :=
  de_IsDir e = false /\ globMatch (Match from) (de_Name e) = true /\
  Info e = Ok fi /\ fi_Size fi <> 0.

Definition newest_so_far (seen : list DirEntry) (st : string * Time) : Prop :=
  (fst st = EmptyString /\ forall e fi, In e seen -> ~ eligible e fi) \/
  exists e fi, In e seen /\ eligible e fi /\
    st = (Join2 (URI from) (de_Name e), fi_ModTime fi) /\
    forall e' fi', In e' seen -> eligible e' fi' -> fi_ModTime fi' <= fi_ModTime fi.

Lemma latest_step_cases st e :
  (exists fi, eligible e fi /\
     latest_step from st e =
       (if is_empty (fst st) || After (fi_ModTime fi) (snd st)
        then (Join2 (URI from) (de_Name e), fi_ModTime fi) else st)) \/
  (latest_step from st e = st /\ forall fi, ~ eligible e fi).
Proof.
  unfold latest_step, eligible.
  destruct (de_IsDir e); simpl; [right; split; [done|naive_solver]|].
  destruct (globMatch _ _); simpl; [|right; split; [done|naive_solver]].
  destruct (Info e) as [fi|]; [|right; split; [done|naive_solver]].
  destruct (Z.eqb_spec (fi_Size fi) 0); [right; split; [done|naive_solver]|].
  left. exists fi. done.
Qed.

Lemma latest_step_inv seen st e :
  (forall e', In e' (seen ++ [e]) -> de_Name e' <> EmptyString) ->
  newest_so_far seen st -> newest_so_far (seen ++ [e]) (latest_step from st e).
Proof.
  intros Hn Hst.
  destruct (latest_step_cases st e) as [(fi & Hel & ->)|[-> Hno]].
  - assert (Hthis : (forall e' fi', In e' seen -> eligible e' fi' -> fi_ModTime fi' <= fi_ModTime fi) ->
      newest_so_far (seen ++ [e]) (Join2 (URI from) (de_Name e), fi_ModTime fi)).
    { intros Hmax. right. exists e, fi. split; [apply in_or_app; simpl; auto|].
      split; [done|]. split; [done|]. intros e' fi' [Hin|[<-|[]]]%in_app_or Hel'; [eauto|].
      destruct Hel as (_ & _ & H1 & _), Hel' as (_ & _ & H2 & _). rewrite H1 in H2.
      injection H2 as ->. lia. }
    destruct Hst as [[Hs Hall]|(e0 & fi0 & Hin & Hel0 & -> & Hmax)].
    + rewrite Hs. apply Hthis. intros e' fi' Hin He. by destruct (Hall e' fi' Hin).
    + cbn [fst snd]. assert (is_empty (Join2 (URI from) (de_Name e0)) = false) as ->.
      { apply is_empty_false, Join2_nonempty, Hn, in_or_app. auto. }
      cbn [orb]. unfold After. destruct (Z.ltb_spec (fi_ModTime fi0) (fi_ModTime fi)).
      * apply Hthis. intros e' fi' Hi He. specialize (Hmax e' fi' Hi He). lia.
      * right. exists e0, fi0. split; [apply in_or_app; auto|]. split; [done|].
        split; [done|]. intros e' fi' [Hi|[<-|[]]]%in_app_or Hel'; [eauto|].
        destruct Hel as (_ & _ & H1 & _), Hel' as (_ & _ & H2 & _). rewrite H1 in H2.
        injection H2 as ->. lia.
  - destruct Hst as [[Hs Hall]|(e0 & fi0 & Hin & Hel0 & -> & Hmax)].
    + left. split; [done|]. intros e' fi' [Hi|[<-|[]]]%in_app_or; eauto.
    + right. exists e0, fi0. split; [apply in_or_app; auto|]. split; [done|].
      split; [done|]. intros e' fi' [Hi|[<-|[]]]%in_app_or He; [eauto|]. by destruct (Hno fi').
Qed.

Lemma latest_fold_inv entries :
  (forall e, In e entries -> de_Name e <> EmptyString) ->
  newest_so_far entries (List.fold_left (latest_step from) entries (EmptyString, zero_time)).
Proof.
  induction entries as [|e l IH] using rev_ind; intros Hn.
  - left. split; [done|]. by intros e fi [].
  - rewrite fold_left_app. cbn [List.fold_left]. apply latest_step_inv; [done|].
    apply IH. intros e' He. apply Hn, in_or_app. auto.
Qed.

Lemma latestFile_newest entries p :
  ReadDir os (URI from) = Ok entries ->
  (forall e, In e entries -> de_Name e <> EmptyString) ->
  latestFile os from = Ok p ->
  exists e fi, In e entries /\ eligible e fi /\ p = Join2 (URI from) (de_Name e) /\
    forall e' fi', In e' entries -> eligible e' fi' -> fi_ModTime fi' <= fi_ModTime fi.
Proof.
  unfold latestFile. intros -> Hn. pose proof (latest_fold_inv entries Hn) as Hi.
  destruct (List.fold_left _ _ _) as [n t]. destruct (is_empty n) eqn:E; [done|].
  intros [= <-]. destruct Hi as [[Hs _]|(e & fi & Hin & Hel & [= -> ->] & Hmax)].
  - cbn [fst] in Hs. by subst.
  - eauto 6.
Qed.

Lemma latestFile_complete entries :
  ReadDir os (URI from) = Ok entries ->
  (forall e, In e entries -> de_Name e <> EmptyString) ->
  (exists e fi, In e entries /\ eligible e fi) <-> exists p, latestFile os from = Ok p.
Proof.
  intros Hr Hn. split.
  - intros (e & fi & Hin & Hel). unfold latestFile. rewrite Hr.
    pose proof (latest_fold_inv entries Hn) as Hi.
    destruct (List.fold_left _ _ _) as [n t]. destruct (is_empty n) eqn:E; [|eauto].
    destruct Hi as [[_ Hall]|(e0 & fi0 & Hin0 & _ & [= -> ->] & _)]; [by destruct (Hall e fi)|].
    apply is_empty_true in E. by destruct (Join2_nonempty (URI from) (de_Name e0) (Hn e0 Hin0)).
  - intros [p Hp]. destruct (latestFile_newest entries p Hr Hn Hp) as (e & fi & ? & ? & _). eauto.
Qed.
End LatestFile.

(** * Newest object *)

Section LatestObject.
Variables (where_ match_ : string).

(** The listing's fields the SDK promises for every object. *)
Definition complete_object (o : Object) : Prop :=
  (exists k, Key o = Some k) /\ exists t, LastModified o = Some t.

Definition newest_object (seen : list Object) (n : Object) : Prop :=
  (n = no_object /\ forall o, In o seen -> candidate match_ o = false) \/
  (In n seen /\ candidate match_ n = true /\ exists t, LastModified n = Some t /\
    forall o u, In o seen -> candidate match_ o = true -> LastModified o = Some u -> u <= t).

Lemma newest_object_skip seen n o :
  candidate match_ o = false -> newest_object seen n -> newest_object (seen ++ [o]) n.
Proof.
  intros Hc [[-> Hall]|(Hin & Hn & t & Ht & Hmax)].
  - left. split; [done|]. intros o' [Hi|[<-|[]]]%in_app_or; auto.
  - right. split; [apply in_or_app; auto|]. split; [done|]. exists t. split; [done|].
    intros o' u [Hi|[<-|[]]]%in_app_or Ho' Hu; [eauto|congruence].
Qed.

Lemma newest_object_take seen n o t :
  candidate match_ o = true -> LastModified o = Some t -> newest_object seen n ->
  (forall u, LastModified n = Some u -> u <= t) -> newest_object (seen ++ [o]) o.
Proof.
  intros Hc Ht Hn Hle. right. split; [apply in_or_app; simpl; auto|]. split; [done|].
  exists t. split; [done|]. intros o' u [Hi|[<-|[]]]%in_app_or Ho' Hu.
  - destruct Hn as [[-> Hall]|(_ & _ & t0 & Ht0 & Hmax)]; [rewrite Hall in Ho'; done|].
    specialize (Hle _ Ht0). specialize (Hmax o' u Hi Ho' Hu). lia.
  - rewrite Ht in Hu. injection Hu as ->. lia.
Qed.

Lemma newest_object_keep seen n o t u :
  LastModified o = Some t -> LastModified n = Some u -> t <= u ->
  newest_object seen n -> newest_object (seen ++ [o]) n.
Proof.
  intros Ht Hu Hle [[-> _]|(Hin & Hn & t0 & Ht0 & Hmax)]; [done|].
  right. split; [apply in_or_app; auto|]. split; [done|]. exists t0. split; [done|].
  rewrite Hu in Ht0. injection Ht0 as ->.
  intros o' u' [Hi|[<-|[]]]%in_app_or Ho' Hu'; [eauto|]. rewrite Ht in Hu'. by injection Hu' as <-.
Qed.

(** A page of complete objects keeps the invariant, and never panics. *)
Lemma scan_objects_spec os : forall done_ seen n,
  Forall complete_object os -> Forall complete_object done_ ->
  newest_object done_ n -> seen = Z.of_nat (List.length done_) ->
  seen <= maxListKeys ->
  match scan_objects where_ match_ os seen n with
  | LOk (seen', n') => newest_object (done_ ++ os) n' /\
      seen' = Z.of_nat (List.length (done_ ++ os)) /\ seen' <= maxListKeys
  | LErr _ => maxListKeys < Z.of_nat (List.length (done_ ++ os))
  | LPanic => False
  end.
Proof.
  induction os as [|o os IH]; intros done_ seen n Hos Hdone Hn Hseen Hle; cbn [scan_objects].
  - rewrite app_nil_r. auto.
  - apply Forall_cons in Hos as [Ho Hos]. cbv zeta.
    assert (Hd' : Forall complete_object (done_ ++ [o])) by (apply Forall_app; auto).
    assert (Hlen : seen + 1 = Z.of_nat (List.length (done_ ++ [o])))
      by (rewrite length_app; simpl; lia).
    assert (Happ : (done_ ++ o :: os) = (done_ ++ [o]) ++ os) by (by rewrite <- app_assoc).
    rewrite Happ.
    destruct (Z.ltb_spec maxListKeys (seen + 1)) as [Hlt|Hge].
    { rewrite length_app. lia. }
    destruct (candidate match_ o) eqn:Ec; cbn [negb].
    2:{ apply IH; auto using newest_object_skip. }
    destruct Ho as [[k Hk] [t Ht]]. rewrite Ht.
    destruct (Key n) as [kn|] eqn:Ekn.
    + destruct Hn as [[-> _]|Hn]; [done|]. pose proof Hn as (Hin & Hcn & u & Hu & Hmax).
      rewrite Hu. apply IH; auto. unfold After. destruct (Z.ltb_spec u t).
      * eapply newest_object_take; [done|done|by right|]. intros u' Hu'. rewrite Hu in Hu'. by injection Hu' as <-; lia.
      * eapply newest_object_keep; [done|done|lia|by right].
    + apply IH; auto. eapply newest_object_take; [done|done|done|].
      intros u Hu. destruct Hn as [[-> _]|(Hin & _)]; [done|].
      rewrite Forall_forall in Hdone. apply list_elem_of_In in Hin.
      destruct (Hdone _ Hin) as [[k' Hk'] _]. congruence.
Qed.

Lemma scan_pages_spec pages : forall done_ seen n,
  Forall complete_object (List.concat pages) -> Forall complete_object done_ ->
  newest_object done_ n -> seen = Z.of_nat (List.length done_) -> seen <= maxListKeys ->
  match scan_pages where_ match_ (List.map Ok pages) seen n with
  | LOk n' => newest_object (done_ ++ List.concat pages) n' /\
      Z.of_nat (List.length (done_ ++ List.concat pages)) <= maxListKeys
  | LErr _ => maxListKeys < Z.of_nat (List.length (done_ ++ List.concat pages))
  | LPanic => False
  end.
Proof.
  induction pages as [|os pages IH]; intros done_ seen n Hp Hd Hn Hs Hle; cbn [List.map scan_pages List.concat].
  - rewrite app_nil_r. split; [done|lia].
  - cbn [List.concat] in Hp. apply Forall_app in Hp as [Hos Hp].
    pose proof (scan_objects_spec os done_ seen n Hos Hd Hn Hs Hle) as H.
    rewrite app_assoc.
    destruct (scan_objects where_ match_ os seen n) as [[seen' n']|e|].
    + destruct H as (Hn' & Hs' & Hle'). apply (IH (done_ ++ os) seen' n'); auto.
      apply Forall_app. auto.
    + rewrite length_app. lia.
    + done.
Qed.
End LatestObject.

Lemma latestObject_spec pages bucket prefix match_ :
  Forall complete_object (List.concat pages) ->
  match latestObject (List.map Ok pages) bucket prefix match_ with
  | LOk k => exists o t, In o (List.concat pages) /\ Key o = Some k /\
      candidate match_ o = true /\ LastModified o = Some t /\
      (forall o' u, In o' (List.concat pages) -> candidate match_ o' = true ->
                    LastModified o' = Some u -> u <= t) /\
      Z.of_nat (List.length (List.concat pages)) <= maxListKeys
  | LErr _ => (forall o, In o (List.concat pages) -> candidate match_ o = false) \/
      maxListKeys < Z.of_nat (List.length (List.concat pages))
  | LPanic => False
  end.
Proof.
  intros Hall. unfold latestObject. cbv zeta.
  pose proof (scan_pages_spec ("s3://" +:+ bucket +:+ "/" +:+ prefix) match_ pages [] 0 no_object
    Hall (Forall_nil_2 _)) as H.
  cbn [app] in H. specialize (H (or_introl (conj eq_refl (fun o (F : False) => False_ind _ F)))
    eq_refl). unfold maxListKeys at 1 in H. specialize (H ltac:(lia)).
  destruct (scan_pages _ _ _ _ _) as [n|e|]; [|by right|done].
  destruct H as [[[-> Hno]|(Hin & Hc & t & Ht & Hmax)] Hlen].
  - cbn. by left.
  - assert (Hk : complete_object n).
    { rewrite Forall_forall in Hall. by apply Hall, list_elem_of_In. }
    destruct Hk as [[k Hk] _]. rewrite Hk. exists n, t. by repeat (split; [done|]).
Qed.

(** * Limits *)

Lemma Copy_no_error fault r w :
  Copy fault r = (w, None) -> w = contents r /\ rerr r = None.
Proof.
  unfold Copy. destruct fault as [[k e]|]; [|by intros [= <- ->]].
  destruct (_ <? _)%nat; [done|]. by intros [= <- ->].
Qed.

Lemma LimitReader_small r n : len (contents r) < n -> LimitReader r n = r.
Proof.
  intros H. pose proof (len_nonneg (contents r)). unfold LimitReader.
  destruct (Z.leb_spec n 0); [lia|]. by destruct (Z.ltb_spec (len (contents r)) n); [|lia].
Qed.

Lemma LimitReader_large r n :
  0 < n <= len (contents r) -> len (contents (LimitReader r n)) = n.
Proof.
  intros H. unfold LimitReader. destruct (Z.leb_spec n 0); [lia|].
  destruct (Z.ltb_spec (len (contents r)) n); [lia|].
  rewrite string_reader_contents. unfold len in *. rewrite take_bytes_length. lia.
Qed.

(** The limit is exact, when [limit + 1] does not overflow. *)
Lemma copyLimited_ok fault r limit what w :
  limit < MaxInt64 -> copyLimited fault r limit what = (w, None) ->
  w = contents r /\ rerr r = None /\ (0 < limit -> len w <= limit).
Proof.
  unfold copyLimited. intros Hl. destruct (Z.leb_spec limit 0).
  - intros [-> ?]%Copy_no_error. split; [done|]. split; [done|]. lia.
  - rewrite wrap64_id by (unfold in_int64, MinInt64, MaxInt64 in *; lia).
    destruct (Copy fault (LimitReader r (limit + 1))) as [w0 err] eqn:Ec.
    destruct err; [done|]. apply Copy_no_error in Ec as [-> He].
    destruct (Z.ltb_spec limit (len (contents (LimitReader r (limit + 1))))); [done|].
    intros [= <-].
    destruct (Z.le_gt_cases (limit + 1) (len (contents r))) as [Hge|Hlt].
    + rewrite LimitReader_large in * by lia. lia.
    + rewrite LimitReader_small in * by lia. auto.
Qed.

Lemma copyLimited_complete r limit what :
  limit < MaxInt64 -> rerr r = None -> (limit <= 0 \/ len (contents r) <= limit) ->
  copyLimited None r limit what = (contents r, None).
Proof.
  unfold copyLimited. intros Hl He Hle. destruct (Z.leb_spec limit 0).
  - unfold Copy. by rewrite He.
  - rewrite wrap64_id by (unfold in_int64, MinInt64, MaxInt64 in *; lia).
    rewrite LimitReader_small by lia. unfold Copy. rewrite He.
    destruct (Z.ltb_spec limit (len (contents r))); [lia|done].
Qed.

(** At the largest limit [limit + 1] wraps, and nothing is copied. *)
Lemma copyLimited_overflow r what :
  copyLimited None r MaxInt64 what = (EmptyString, None).
Proof. reflexivity. Qed.

Lemma uncompressedLimit_range a b :
  in_int64 b -> in_int64 (uncompressedLimit a b).
Proof.
  intros Hb. unfold uncompressedLimit. destruct (0 <? b); [done|].
  destruct (0 <? a); [apply wrap64_range|]. unfold in_int64, MinInt64, MaxInt64. lia.
Qed.

Lemma uncompressedLimit_100 a :
  0 < a <= MaxInt64 / 100 -> uncompressedLimit a 0 = 100 * a.
Proof.
  intros H. unfold uncompressedLimit. cbn [Z.ltb Z.compare].
  destruct (Z.ltb_spec 0 a); [|lia]. rewrite wrap64_id; [lia|].
  unfold in_int64, MinInt64, MaxInt64 in *.
  assert (a <= 92233720368547758) by (etransitivity; [apply H|]; vm_compute; discriminate). lia.
Qed.

(** The capped stream is the stream when it is within the limit, and otherwise
    ends in an error. *)
Lemma cap_chunks_spec limit what cs : forall n term,
  0 < limit -> 0 <= n <= limit ->
  match cap_chunks limit n what cs term with
  | (cs', e) =>
      (n + len (String.concat EmptyString cs) <= limit /\ cs' = cs /\ e = term) \/
      (limit < n + len (String.concat EmptyString cs) /\ e <> None)
  end.
Proof.
  assert (Hcat : forall c r, len (String.concat EmptyString (c :: r)) =
                             len c + len (String.concat EmptyString r)).
  { intros c [|d r]; unfold len; cbn [String.concat]; [simpl; lia|].
    rewrite !slen_app. simpl. lia. }
  induction cs as [|c cs IH]; intros n term Hlim Hn; cbn [cap_chunks].
  - left. unfold len. simpl. split; [lia|done].
  - rewrite Hcat. pose proof (len_nonneg c). pose proof (len_nonneg (String.concat EmptyString cs)).
    destruct (Z.ltb_spec 0 limit); [|lia]. cbn [andb]. cbv zeta.
    destruct (Z.ltb_spec limit (n + len c)); [right; split; [lia|done]|].
    specialize (IH (n + len c) term Hlim ltac:(lia)).
    destruct (cap_chunks _ _ _ cs term) as [cs' e].
    destruct IH as [(? & -> & ->)|[? ?]]; [left|right]; (split; [lia|done]).
Qed.

Lemma capReader_spec r limit what :
  0 < limit ->
  (len (contents r) <= limit /\ capReader r limit what = r) \/
  (limit < len (contents r) /\ rerr (capReader r limit what) <> None).
Proof.
  intros H. unfold capReader, contents.
  pose proof (cap_chunks_spec limit what (chunks r) 0 (rerr r) H ltac:(lia)) as Hc.
  destruct (cap_chunks _ _ _ _ _) as [cs e]. destruct Hc as [(? & -> & ->)|[? ?]].
  - left. split; [lia|]. by destruct r.
  - right. split; [lia|done].
Qed.

(** * Temporary files *)

(** [os.CreateTemp] names a file that does not exist. *)
Definition fresh_temp (os : OS) : Prop :=
  forall fs pat name, CreateTemp os fs pat = Ok name -> fs !! name = None.

Section Spool.
Variables (os : OS).
Hypothesis Hfresh : fresh_temp os.

Lemma spool_err r pat limit fs e fs' :
  spool os r pat limit fs = (Err e, fs') -> fs' = fs.
Proof.
  unfold spool. destruct (CreateTemp os fs pat) as [name|e0] eqn:Ec; [|by intros [= _ <-]].
  destruct (copyLimited _ _ _ _) as [w err]. cbv zeta.
  destruct (match err with Some e => Some e | None => CloseFault os name end); [|done].
  intros [= _ <-]. rewrite delete_insert_id; [done|eauto].
Qed.

Lemma spool_ok r pat limit fs name n fs' :
  limit < MaxInt64 -> spool os r pat limit fs = (Ok (name, n), fs') ->
  fs !! name = None /\ fs' = <[name := contents r]> fs /\ rerr r = None /\
  n = len (contents r) /\ (0 < limit -> n <= limit).
Proof.
  unfold spool. intros Hl. destruct (CreateTemp os fs pat) as [nm|e0] eqn:Ec; [|done].
  destruct (copyLimited _ _ _ _) as [w err] eqn:Ecp. cbv zeta.
  destruct err as [e|]; [done|]. destruct (CloseFault os nm); [done|].
  apply copyLimited_ok in Ecp as (-> & He & Hlim); [|done].
  intros [= <- <- <-]. split; [eauto|]. auto.
Qed.
End Spool.

(** * The pipeline *)

Section Fetching.
Context (cx : Codecs) (os : OS).

(** Without a [decrypt] block the stream passes through untouched, and only
    when no encryption is recognised. *)
Lemma decrypt_none r p :
  decrypt cx os r None = Ok p ->
  p = (r, EmptyString) /\ detectEncryption cx (Peek r (maxEncryptionMagic cx)) = EmptyString.
Proof.
  unfold decrypt. cbv zeta. intros H.
  assert (E : (if non_empty (detectEncryption cx (Peek r (maxEncryptionMagic cx)))
               then None else Some (r, EmptyString)) = Some p).
  { destruct (Peek r _), (rerr r); try done;
      destruct (non_empty _); try done; by injection H as <-. }
  unfold non_empty in E. destruct (is_empty _) eqn:Ee; [|done].
  apply is_empty_true in Ee. injection E as <-. done.
Qed.

(** A gpg process that exits non-zero never gives a stream that ends well. *)
Lemma gpgReader_exit out stderr : rerr (gpgReader out (Some stderr)) <> None.
Proof. unfold gpgReader. destruct (rerr out) eqn:E; [|done]. by rewrite E. Qed.

(** What a fetched file backup is: the plain artifact in place, or the
    complete plaintext of both layers in a fresh temporary file. *)
Lemma fetchFile_ok from fs b fs' :
  fresh_temp os ->
  uncompressedLimit (MaxBytes from) (MaxUncompressedBytes from) < MaxInt64 ->
  fetchFile cx os from fs = (Ok b, fs') ->
  exists p fi f r,
    file_path os from = Ok p /\ Stat os p = Ok fi /\ IsDir fi = false /\ Open os p = Ok f /\
    unwrap cx os p f (from_Decrypt from) = Ok (r, Encryption b, Compression b) /\
    ResolvedURI b = p /\ ModTime b = fi_ModTime fi /\ Size b = fi_Size fi /\
    (0 < MaxBytes from -> Size b <= MaxBytes from) /\
    ((Encryption b = EmptyString /\ Compression b = EmptyString /\ Path b = p /\
      cleanup b = None /\ fs' = fs) \/
     (rerr r = None /\ cleanup b = Some (Path b) /\ fs !! Path b = None /\
      fs' = <[Path b := contents r]> fs /\
      (0 < uncompressedLimit (MaxBytes from) (MaxUncompressedBytes from) ->
       len (contents r) <= uncompressedLimit (MaxBytes from) (MaxUncompressedBytes from)))).
Proof.
  intros Hfresh Hlim. unfold fetchFile. destruct (file_path os from) as [p|] eqn:Ep0; [|done].
  destruct (Stat os p) as [fi|] eqn:Es; [|done]. destruct (IsDir fi) eqn:Ed; [done|].
  destruct ((0 <? MaxBytes from) && (MaxBytes from <? fi_Size fi)) eqn:Eg; [done|].
  assert (Hmax : 0 < MaxBytes from -> fi_Size fi <= MaxBytes from) by
    (intros Hm; apply Z.ltb_lt in Hm; rewrite Hm in Eg; by apply Z.ltb_ge in Eg).
  destruct (Open os p) as [f|] eqn:Eo; [|done].
  destruct (unwrap cx os p f _) as [[[r enc] comp]|] eqn:Eu; [|done]. cbv zeta.
  destruct (is_empty comp && is_empty enc) eqn:Ep.
  - apply andb_true_iff in Ep as [->%is_empty_true ->%is_empty_true].
    intros [= <- <-]. exists p, fi, f, r. cbn. repeat (split; [done|]). by left.
  - unfold mbind, mret.
    destruct (spool os r _ _ fs) as [[[name n]|e] fs1] eqn:Esp; [|done].
    intros [= <- <-]. exists p, fi, f, r. cbn. repeat (split; [done|]). right.
    apply spool_ok in Esp as (Hf & -> & He & -> & Hle); auto.
Qed.

Lemma fetchFile_err from fs e fs' :
  fresh_temp os -> fetchFile cx os from fs = (Err e, fs') -> fs' = fs.
Proof.
  intros Hfresh. unfold fetchFile, mbind, mret.
  destruct (file_path os from) as [p|]; [|by intros [= _ <-]].
  destruct (Stat os p) as [fi|]; [|by intros [= _ <-]].
  destruct (IsDir fi); [by intros [= _ <-]|].
  destruct (_ && _); [by intros [= _ <-]|].
  destruct (Open os p) as [f|]; [|by intros [= _ <-]].
  destruct (unwrap cx os p f _) as [[[r enc] comp]|]; [|by intros [= _ <-]]. cbv zeta.
  destruct (is_empty comp && is_empty enc); [done|].
  destruct (spool os r _ _ fs) as [[[name n]|e'] fs1] eqn:Esp; [done|].
  intros [= _ <-]. by apply spool_err in Esp.
Qed.

(** Peel the guards of [fetchS3]. *)
Ltac fetchS3_cases H :=
  unfold fetchS3, mbind, mret in H; cbv zeta in H;
  repeat match type of H with
  | context [match parseS3URI ?a ?b with Ok _ => _ | Err _ => _ end] =>
      destruct (parseS3URI a b) as [[? ?]|] eqn:?
  | context [match ?c (s3_options ?f) with Ok _ => _ | Err _ => _ end] =>
      destruct (c (s3_options f)) eqn:?
  | context [match s3_key ?a ?b ?c ?d with LOk _ => _ | LErr _ => _ | LPanic => _ end] =>
      destruct (s3_key a b c d) eqn:?
  | context [match GetObject ?a ?b ?c with Ok _ => _ | Err _ => _ end] =>
      destruct (GetObject a b c) eqn:?
  | context [if ?a && ?b then _ else _] => destruct (a && b) eqn:?
  | context [match unwrap ?a ?b ?c ?d ?e with Ok _ => _ | Err _ => _ end] =>
      destruct (unwrap a b c d e) as [[[? ?] ?]|] eqn:?
  | context [spool ?a ?b ?c ?d ?e] => destruct (spool a b c d e) as [[[? ?]|] ?] eqn:?
  end.

Lemma fetchS3_fs connect from fs out fs' :
  fresh_temp os -> fetchS3 cx os connect from fs = (out, fs') ->
  match out with
  | LOk b => exists name, cleanup b = Some name /\ Path b = name /\ fs !! name = None /\
               exists w, fs' = <[name := w]> fs
  | _ => fs' = fs
  end.
Proof.
  intros Hfresh H. fetchS3_cases H; try (by injection H as <- <-).
  - injection H as <- <-. cbn.
    match goal with E : spool _ _ _ _ _ = (Ok _, _) |- _ =>
      unfold spool in E; destruct (CreateTemp os fs _) as [nm|] eqn:Ec; [|done];
      destruct (copyLimited _ _ _ _) as [w err]; cbv zeta in E;
      destruct (match err with Some e => Some e | None => CloseFault os nm end); [done|];
      injection E as <- <- <- end.
    exists nm. split; [done|]. split; [done|]. split; [eauto|]. by exists w.
  - injection H as <- <-. eapply spool_err; eauto.
Qed.

(** A downloaded artifact: the complete plaintext of the capped body. *)
Lemma fetchS3_ok connect from fs b fs' :
  fresh_temp os ->
  uncompressedLimit (MaxBytes from) (MaxUncompressedBytes from) < MaxInt64 ->
  fetchS3 cx os connect from fs = (LOk b, fs') ->
  exists cli bucket prefix key obj r,
    parseS3URI (URI from) (non_empty (Select from)) = Ok (bucket, prefix) /\
    connect (s3_options from) = Ok cli /\
    s3_key cli from bucket prefix = LOk key /\ GetObject cli bucket key = Ok obj /\
    ResolvedURI b = "s3://" +:+ bucket +:+ "/" +:+ key /\
    unwrap cx os (ResolvedURI b) (capReader (Body obj) (MaxBytes from) "backup")
      (from_Decrypt from) = Ok (r, Encryption b, Compression b) /\
    rerr r = None /\ fs' = <[Path b := contents r]> fs /\
    (0 < uncompressedLimit (MaxBytes from) (MaxUncompressedBytes from) ->
     len (contents r) <= uncompressedLimit (MaxBytes from) (MaxUncompressedBytes from)).
Proof.
  intros Hfresh Hlim H. fetchS3_cases H; try done.
  injection H as <- <-.
  match goal with E : spool _ _ _ _ _ = (Ok _, _) |- _ =>
    apply spool_ok in E as (Hf & -> & He & -> & Hle); [|done|done] end.
  match goal with
  | E1 : _ = Ok (?bucket, ?prefix), E2 : connect _ = Ok ?cli, E3 : s3_key _ _ _ _ = LOk ?key,
    E4 : GetObject _ _ _ = Ok ?obj, E5 : unwrap _ _ _ _ _ = Ok (?r, _, _) |- _ =>
      exists cli, bucket, prefix, key, obj, r end.
  by repeat (split; [done|]).
Qed.

Lemma Fetch_fs connect from fs out fs' :
  fresh_temp os -> Fetch cx os connect from fs = (out, fs') ->
  match out with
  | LOk b => snd (Cleanup (Some b) fs') = fs
  | _ => fs' = fs
  end.
Proof.
  intros Hfresh. unfold Fetch. destruct (String.eqb _ "file"); [|destruct (String.eqb _ "s3")].
  - unfold mbind, mret. destruct (fetchFile cx os from fs) as [[b|e] fs1] eqn:E;
      intros [= <- <-]; [|by apply fetchFile_err in E].
    revert E. unfold fetchFile, mbind, mret.
    destruct (file_path os from) as [p|]; [|done].
    destruct (Stat os p) as [fi|]; [|done]. destruct (IsDir fi); [done|].
    destruct (_ && _); [done|]. destruct (Open os p) as [f|]; [|done].
    destruct (unwrap cx os p f _) as [[[r enc] comp]|]; [|done]. cbv zeta.
    destruct (is_empty comp && is_empty enc); [by intros [= <- <-]|].
    unfold spool. destruct (CreateTemp os fs _) as [nm|] eqn:Ec; [|done].
    destruct (copyLimited _ _ _ _) as [w err]. cbv zeta.
    destruct (match err with Some e => Some e | None => CloseFault os nm end); [done|].
    intros [= <- <-]. cbn. rewrite delete_insert_id; [done|eauto].
  - intros H. apply fetchS3_fs in H; [|done]. destruct out as [b| |]; [|done|done].
    destruct H as (name & Hc & _ & Hf & w & ->). unfold Cleanup. destruct b; cbn in *. subst.
    cbn. by rewrite delete_insert_id.
  - by intros [= <- <-].
Qed.
End Fetching.

(** * What validation buys *)

(** A glob accepted by validation never fails at fetch time. *)
Lemma accepted_glob_matches g name : bad_glob g = false -> exists ok, PathMatch.Match g name = Some ok.
Proof.
  unfold bad_glob. rewrite negb_false_iff, isSome_true. intros [b Hb].
  destruct (PathMatch.Match g name) as [ok|] eqn:E; [eauto|].
  apply (Match_err_name g name "probe") in E. congruence.
Qed.
