(* ===== verification/Disk.v ===== *)
(** The file system the report package writes to: a map from paths to
    contents. Each call may fail; a failed or interrupted write leaves a prefix
    of the data in the file. *)

From Stdlib Require Import ZArith Lia Ascii String.
From stdpp Require Import base option list gmap strings.
From S2P Require Import Prelude GoStrings Paths.

Abbreviation Disk := (gmap string string).

(** Which calls fail, and how far a failing write gets. *)
Record DiskEnv := {
  MkdirErr : string -> option error;
  ReadErr : string -> option error;
  WriteErr : string -> option (nat * error);
  RenameErr : string -> string -> option error
}.

(** No call fails. *)
Definition healthy : DiskEnv := {|
  MkdirErr _ := None; ReadErr _ := None; WriteErr _ := None; RenameErr _ _ := None |}.

Definition ErrNotExist (p : string) : error :=
  ESentinel "fs.ErrNotExist" ("open " +:+ p +:+ ": no such file or directory").

Section Disk.
Context (env : DiskEnv).

Definition ReadFile (p : string) (d : Disk) : result string :=
  match ReadErr env p with
  | Some e => Err e
  | None => match d !! p with Some s => Ok s | None => Err (ErrNotExist p) end
  end.

(** [os.Stat] as the code uses it: does the path exist. *)
Definition Exists (p : string) (d : Disk) : bool := isSome (d !! p).

Definition WriteFile (p data : string) : M Disk (option error) := fun d =>
  match WriteErr env p with
  | Some (k, e) => (Some e, <[p := take_bytes k data]> d)
  | None => (None, <[p := data]> d)
  end.

(** Atomic: the target holds the old contents or the new ones. *)
Definition Rename (old new : string) : M Disk (option error) := fun d =>
  match RenameErr env old new with
  | Some e => (Some e, d)
  | None =>
      match d !! old with
      | Some s => (None, <[new := s]> (delete old d))
      | None => (Some (ErrNotExist old), d)
      end
  end.
End Disk.

(** ** Programs of file operations

    What a function does to the disk, one call after the other, each next call
    chosen by the outcome of the last. Running a program to its end is [exec];
    [crashes] are the disks that can be found when the process stops anywhere
    before or inside one of the calls. What a finished call wrote is there: the
    code does not sync, so this is a crash of the process, not a loss of power. *)
Inductive FileOp :=
| OpWrite (p data : string)
| OpRename (old new : string).

Inductive DiskProg (A : Type) : Type :=
| Done (a : A)
| Do (op : FileOp) (k : option error -> DiskProg A).
Arguments Done {A}.
Arguments Do {A}.

Definition perform (env : DiskEnv) (op : FileOp) : M Disk (option error) :=
  match op with
  | OpWrite p data => WriteFile env p data
  | OpRename old new => Rename env old new
  end.

Fixpoint exec (env : DiskEnv) {A} (p : DiskProg A) : M Disk A :=
  match p with
  | Done a => mret a
  | Do op k => let! r := perform env op in exec env (k r)
  end.

(** A call that is cut short: a write leaves a prefix, a rename is atomic. *)
Inductive cut_short (d : Disk) : FileOp -> Disk -> Prop :=
| cut_write p data k : cut_short d (OpWrite p data) (<[p := take_bytes k data]> d)
| cut_rename old new : cut_short d (OpRename old new) d.

Inductive crashes (env : DiskEnv) {A} : DiskProg A -> Disk -> Disk -> Prop :=
| crash_before p d : crashes env p d d
| crash_inside op k d d' : cut_short d op d' -> crashes env (Do op k) d d'
| crash_after op k d r d1 d' :
    perform env op d = (r, d1) -> crashes env (k r) d1 d' -> crashes env (Do op k) d d'.

(** The end of a run is one of the disks a crash can leave. *)
Lemma exec_crashes env {A} (p : DiskProg A) d : crashes env p d (snd (exec env p d)).
Proof.
  revert d. induction p as [a|op k IH]; intros d; [constructor|]. cbn [exec]. unfold mbind.
  destruct (perform env op d) as [r d1] eqn:E. econstructor; [exact E|apply IH].
Qed.

Lemma crashes_Done env {A} (a : A) d d' : crashes env (Done a) d d' -> d' = d.
Proof. by inversion 1. Qed.

(** Writing a sibling and renaming it over the target is atomic at the target:
    a crash leaves there what was there, or all of the data. *)
Lemma write_rename_atomic env {A} tmp final data (fail : error -> A) (k : option error -> A) d d' :
  tmp <> final ->
  crashes env (Do (OpWrite tmp data) (fun r =>
    match r with
    | Some e => Done (fail e)
    | None => Do (OpRename tmp final) (fun r => Done (k r))
    end)) d d' ->
  d' !! final = d !! final \/ d' !! final = Some data.
Proof.
  intros Hne H. inversion H as [|? ? ? ? Hc|? ? ? r d1 ? Hp Hk]; subst; [by left| |]; clear H.
  - inversion Hc; subst. left. by rewrite lookup_insert_ne.
  - cbn [perform] in Hp. unfold WriteFile in Hp. destruct (WriteErr env tmp) as [[n e]|].
    { injection Hp as <- <-. apply crashes_Done in Hk as ->. left. by rewrite lookup_insert_ne. }
    injection Hp as <- <-.
    inversion Hk as [|? ? ? ? Hc|? ? ? r d1 ? Hp Hk2]; subst; clear Hk.
    { left. by rewrite lookup_insert_ne. }
    { inversion Hc; subst. left. by rewrite lookup_insert_ne. }
    apply crashes_Done in Hk2 as ->. cbn [perform] in Hp. unfold Rename in Hp.
    destruct (RenameErr env tmp final).
    { injection Hp as <- <-. left. by rewrite lookup_insert_ne. }
    rewrite lookup_insert_eq in Hp. injection Hp as <- <-. right. apply lookup_insert_eq.
Qed.

(** The three outcomes of the same calls when they are not cut short. *)
Lemma exec_write_rename env {A} tmp final data (fail : error -> A) (k : option error -> A) d :
  exec env (Do (OpWrite tmp data) (fun r =>
    match r with
    | Some e => Done (fail e)
    | None => Do (OpRename tmp final) (fun r => Done (k r))
    end)) d =
  match WriteErr env tmp with
  | Some (n, e) => (fail e, <[tmp := take_bytes n data]> d)
  | None =>
      match RenameErr env tmp final with
      | Some e => (k (Some e), <[tmp := data]> d)
      | None => (k None, <[final := data]> (delete tmp (<[tmp := data]> d)))
      end
  end.
Proof.
  cbn [exec perform]. unfold mbind, mret, WriteFile.
  destruct (WriteErr env tmp) as [[n e]|]; [done|]. cbn [exec perform]. unfold mbind, mret, Rename.
  destruct (RenameErr env tmp final); [done|]. by rewrite lookup_insert_eq.
Qed.

Lemma take_bytes_all n s : (String.length s <= n)%nat -> take_bytes n s = s.
Proof.
  revert s. induction n as [|n IH]; intros [|c s]; simpl; intros H; try done; try lia.
  rewrite IH by lia. done.
Qed.

(** Directory listing of the JSON files of [dir], in the order
    [filepath.Glob] sorts them ([dir] without glob metacharacters). *)
Definition json_files (dir : string) (d : Disk) : list string :=
  sort_Strings (List.filter
    (fun p => String.eqb p (Join2 dir (Base p)) && HasSuffix (Base p) ".json")
    (map_to_list d).*1).

Lemma json_files_in dir d p :
  In p (json_files dir d) <->
  isSome (d !! p) = true /\ p = Join2 dir (Base p) /\ HasSuffix (Base p) ".json" = true.
Proof.
  unfold json_files.
  rewrite <- list_elem_of_In, sort_Strings_perm, list_elem_of_In, List.filter_In.
  rewrite andb_true_iff, String.eqb_eq, <- list_elem_of_In, list_elem_of_fmap, isSome_true.
  split.
  - intros [([q s] & -> & Hq) [? ?]]. apply elem_of_map_to_list in Hq. eauto.
  - intros ([s Hs] & ? & ?). split; [|done]. exists (p, s). split; [done|].
    by apply elem_of_map_to_list.
Qed.
