(* ===== verification/Evidence.v ===== *)
(** The evidence record and its file (pkg/report/evidence.go, scan.go).

    [encoding/json] appears as the interface [EvidenceCodec]: an encoder, a decoder and
    the round trip documented for values of the record types. *)

From Stdlib Require Import ZArith Lia Ascii String SpecFloat.
From stdpp Require Import base option list gmap strings.
From S2P Require Import Prelude GoStrings Paths Float64 Calendar Disk.
From S2P Require Verify.

(** * The record *)

Record EvBackup := {
  bk_URI : string;
  bk_ModTime : Time;
  bk_AgeSecs : float64;
  bk_Bytes : Z;
  bk_ResolvedURI : string;
  bk_Encryption : string;
  bk_Compression : string;
  bk_UncompressedBytes : Z
}.

Record EvObjectives := { obj_RTO : string; obj_RPO : string }.

Record EvMeasured := { RestoreSeconds : float64; RTOMet : bool; RPOMet : bool }.

Record EvSandbox := { sbx_Provider : string; sbx_Image : string; sbx_Destroyed : bool }.

Record Evidence := {
  ev_Drill : string;
  ev_Tool : string;
  StartedAt : Time;
  FinishedAt : Time;
  ev_Backup : EvBackup;
  ev_Objectives : EvObjectives;
  ev_Measured : EvMeasured;
  ev_Sandbox : EvSandbox;
  ev_Checks : list Verify.Result;
  ev_Controls : list string;
  ev_Verified : bool;
  ev_Error : string
}.

(** * JSON *)

(** [MarshalIndent] and [Unmarshal] at the evidence type. [encodable] are the
    values that survive the trip (valid UTF-8 strings, finite numbers, years of
    four digits). *)
Class EvidenceCodec : Type := {
  Canonical : Evidence -> result string;
  Unmarshal_evidence : string -> result Evidence;
  encodable : Evidence -> Prop;
  Canonical_roundtrip : forall e, encodable e ->
    exists s, Canonical e = Ok s /\ Unmarshal_evidence s = Ok e
}.

(** * Writing *)

Definition evidence_name (e : Evidence) : string :=
  ev_Drill e +:+ "-" +:+ fmt_file (FinishedAt e) +:+ "-" +:+
  pad_left "0"%char 9 (itoa (Nanosecond_of (FinishedAt e))) +:+ ".json".

Definition evidence_dir (dir : string) : string := if String.eqb dir "" then "evidence" else dir.

Definition evidence_path (e : Evidence) (dir : string) : string :=
  Join2 (evidence_dir dir) (evidence_name e).

Section Write.
Context `{EvidenceCodec} (env : DiskEnv).

Definition Write_calls (e : Evidence) (dir : string) : DiskProg (result string) :=
  match MkdirErr env (evidence_dir dir) with
  | Some err => Done (Err err)
  | None =>
      let path := evidence_path e dir in
      match Canonical e with
      | Err err => Done (Err err)
      | Ok data =>
          let tmp := path +:+ ".tmp" in
          Do (OpWrite tmp data) (fun werr =>
            match werr with
            | Some err => Done (Err err)
            | None =>
                Do (OpRename tmp path) (fun rerr =>
                  Done match rerr with Some err => Err err | None => Ok path end)
            end)
      end
  end.

Definition Write (e : Evidence) (dir : string) : M Disk (result string) :=
  exec env (Write_calls e dir).
End Write.

(** * Reading *)

Record evidenceFile := { ef_Path : string; E : Evidence }.

Section Scan.
Context `{EvidenceCodec} (env : DiskEnv).

(** Files that are not evidence are skipped; an unreadable file is an
    error. *)
Fixpoint scan_files (d : Disk) (paths : list string) : result (list evidenceFile) :=
  match paths with
  | [] => Ok []
  | p :: r =>
      match ReadFile env p d with
      | Err e => Err e
      | Ok data =>
          match Unmarshal_evidence data with
          | Err _ => scan_files d r
          | Ok e =>
              if String.eqb (ev_Drill e) "" then scan_files d r
              else match scan_files d r with
                   | Ok fs => Ok ({| ef_Path := p; E := e |} :: fs)
                   | Err err => Err err
                   end
          end
      end
  end.

Definition scanEvidence (d : Disk) (dir : string) : result (list evidenceFile) :=
  scan_files d (json_files dir d).
End Scan.

(** * Facts *)

(** Two runs never share a file: the name determines the drill and the
    instant, to the nanosecond. *)
Lemma evidence_name_inj e1 e2 :
  four_digit_year (FinishedAt e1) -> four_digit_year (FinishedAt e2) ->
  evidence_name e1 = evidence_name e2 ->
  ev_Drill e1 = ev_Drill e2 /\ FinishedAt e1 = FinishedAt e2.
Proof.
  unfold evidence_name. intros H1 H2 H.
  assert (Hns : forall t, 0 <= Nanosecond_of t < 10 ^ Z.of_nat 9).
  { intros t. unfold Nanosecond_of. apply Z.mod_pos_bound. reflexivity. }
  assert (Hlen : forall t x, four_digit_year t ->
    String.length ("-" +:+ fmt_file t +:+ "-" +:+ pad_left "0"%char 9 (itoa (Nanosecond_of t)) +:+ x)
    = (31 + String.length x)%nat).
  { intros t x Ht. destruct (clock_range t) as (Hh & Hm & Hs).
    pose proof (civil_range (day_of t)) as [Hmo Hda]. fold (date_of t) in *.
    unfold four_digit_year in Ht. unfold fmt_file, fmt_date, fmt_clock, pad2. cbv zeta.
    rewrite !slen_app, !pad_itoa_length by (try lia; try width; apply Hns). simpl. lia. }
  apply sapp_inj_len_r in H as [-> H]; [|by rewrite !Hlen].
  split; [done|]. apply sapp_inj_l in H.
  apply fmt_file_inj in H as [Hu H]; [|done|done]. apply sapp_inj_l in H.
  apply pad_app_inj in H as [Hn _]; [|lia|apply Hns|apply Hns].
  by rewrite (time_parts (FinishedAt e1)), (time_parts (FinishedAt e2)), Hu, Hn.
Qed.

Section Facts.
Context `{EvidenceCodec} (env : DiskEnv).

Lemma tmp_differs p : p +:+ ".tmp" <> p.
Proof. intros H'. apply (f_equal String.length) in H'. rewrite slen_app in H'. simpl in H'. lia. Qed.

Lemma Write_ok e dir d p d' :
  Write env e dir d = (Ok p, d') ->
  p = evidence_path e dir /\
  exists data, Canonical e = Ok data /\ d' !! p = Some data /\ d' !! (p +:+ ".tmp") = None /\
    forall q, q <> p -> q <> p +:+ ".tmp" -> d' !! q = d !! q.
Proof.
  unfold Write, Write_calls. destruct (MkdirErr env _); [done|]. cbv zeta.
  destruct (Canonical e) as [data|] eqn:Ec; [|done].
  rewrite (exec_write_rename _ _ _ _ Err (fun r => match r with Some e => Err e | None => Ok _ end)).
  destruct (WriteErr env _) as [[k er]|]; [done|]. destruct (RenameErr env _ _); [done|].
  intros [= <- <-]. split; [done|]. exists data. split; [done|].
  split; [by rewrite lookup_insert_eq|]. split.
  - rewrite lookup_insert_ne by (apply not_eq_sym, tmp_differs). by rewrite lookup_delete_eq.
  - intros q Hq Hq'. rewrite lookup_insert_ne, lookup_delete_ne, lookup_insert_ne; done.
Qed.

(** The file at the final path is never partial: a crash leaves what was there
    or the whole record. *)
Lemma Write_atomic e dir d d' :
  crashes env (Write_calls env e dir) d d' ->
  d' !! evidence_path e dir = d !! evidence_path e dir \/
  exists data, Canonical e = Ok data /\ d' !! evidence_path e dir = Some data.
Proof.
  unfold Write_calls. destruct (MkdirErr env _); [intros ->%crashes_Done; by left|]. cbv zeta.
  destruct (Canonical e) as [data|]; [|intros ->%crashes_Done; by left].
  intros [?|?]%(write_rename_atomic _ _ _ _ Err); [by left|right; eauto|apply tmp_differs].
Qed.

(** Scanning finds exactly the records the files hold. *)
Lemma scan_files_in d paths fs :
  scan_files env d paths = Ok fs ->
  forall f, In f fs <->
    In (ef_Path f) paths /\ ev_Drill (E f) <> "" /\
    exists data, ReadFile env (ef_Path f) d = Ok data /\ Unmarshal_evidence data = Ok (E f).
Proof.
  revert fs. induction paths as [|p r IH]; intros fs; cbn [scan_files].
  - intros [= <-] f. simpl. naive_solver.
  - destruct (ReadFile env p d) as [data|] eqn:Er; [|done].
    destruct (Unmarshal_evidence data) as [e|] eqn:Eu.
    + destruct (String.eqb_spec (ev_Drill e) "") as [He|He].
      * intros Hs f. rewrite (IH _ Hs f). simpl. split; [naive_solver|].
        intros ([<-|Hin] & Hne & data' & Hr & Hu); [|eauto 6]. rewrite Er in Hr.
        injection Hr as <-. congruence.
      * destruct (scan_files env d r) as [fs'|] eqn:Es; [|done]. intros [= <-] f. simpl.
        rewrite (IH _ eq_refl f). split.
        -- intros [<-|(? & ? & ?)]; [|by auto]. simpl. split; [by left|]. eauto.
        -- intros ([Hp|Hin] & Hne & data' & Hr & Hu); [left|by right; eauto].
           rewrite <- Hp, Er in Hr. injection Hr as <-. rewrite Eu in Hu. injection Hu as ->.
           destruct f; simpl in *; congruence.
    + intros Hs f. rewrite (IH _ Hs f). simpl. split; [naive_solver|].
      intros ([<-|Hin] & Hne & data' & Hr & Hu); [|eauto 6]. rewrite Er in Hr.
      injection Hr as <-. congruence.
Qed.

Lemma scanEvidence_in d dir fs :
  scanEvidence env d dir = Ok fs ->
  forall f, In f fs <->
    isSome (d !! ef_Path f) = true /\ ef_Path f = Join2 dir (Base (ef_Path f)) /\
    HasSuffix (Base (ef_Path f)) ".json" = true /\ ev_Drill (E f) <> "" /\
    exists data, ReadFile env (ef_Path f) d = Ok data /\ Unmarshal_evidence data = Ok (E f).
Proof.
  intros Hs f. rewrite (scan_files_in _ _ _ Hs f), json_files_in. tauto.
Qed.
End Facts.
