(* ===== verification/Sign.v ===== *)
(** Signing and verifying evidence (pkg/report/sign.go, attest.go, bundle.go).

    Ed25519 and SHA-256 are the interface [Crypto]; PEM and the JSON of the
    envelopes are the interface [EnvelopeCodec]. Both list only documented laws:
    a signature made with a key verifies under its public key, sizes, and round
    trips of what was encoded. *)

From Stdlib Require Import ZArith Lia Ascii String.
From stdpp Require Import base option list gmap strings.
From S2P Require Import Prelude GoStrings Paths Disk Encoding.

(** * Interfaces *)

Definition PublicKeySize : nat := 32.
Definition PrivateKeySize : nat := 64.

Class Crypto : Type := {
  ed_Public : string -> string;
  ed_Sign : string -> string -> string;
  ed_Verify : string -> string -> string -> bool;
  sha256 : string -> string;
  ed_Public_size : forall k, String.length k = PrivateKeySize ->
    String.length (ed_Public k) = PublicKeySize;
  ed_Verify_Sign : forall k m, String.length k = PrivateKeySize ->
    ed_Verify (ed_Public k) m (ed_Sign k m) = true;
  sha256_size : forall m, String.length (sha256 m) = 32%nat
}.

Record Signature := {
  Algorithm : string; PublicKey : string; KeyFingerprint : string; sig_Signature : string }.

(** An in-toto statement: the predicate is raw JSON. *)
Record subject := { sub_Name : string; Digest : gmap string string }.

Record statement := {
  st_Type : string; Subject : list subject; st_PredicateType : string; Predicate : string }.

(** A DSSE envelope. *)
Record signature := { KeyID : string; Sig : string }.

Record envelope := { PayloadType : string; Payload : string; Signatures : list signature }.

Definition ascii_text (s : string) : Prop :=
  forall_bytes (fun c => byte_val c <? 128) s = true.

Definition ascii_subject (s : subject) : Prop :=
  ascii_text (sub_Name s) /\ map_Forall (fun k v => ascii_text k /\ ascii_text v) (Digest s).

(** The decoder may return the raw predicate in another layout. *)
Definition same_statement (a b : statement) : Prop :=
  st_Type a = st_Type b /\ Subject a = Subject b /\ st_PredicateType a = st_PredicateType b.

Class EnvelopeCodec : Type := {
  pem_Encode : string -> string -> string;
  pem_Decode : string -> option (string * string);
  pem_roundtrip : forall t b, ascii_text t -> pem_Decode (pem_Encode t b) = Some (t, b);
  Marshal_sig : Signature -> result string;
  Unmarshal_sig : string -> result Signature;
  sig_roundtrip : forall s, ascii_text (Algorithm s) -> ascii_text (PublicKey s) ->
    ascii_text (KeyFingerprint s) -> ascii_text (sig_Signature s) ->
    exists t, Marshal_sig s = Ok t /\ Unmarshal_sig t = Ok s;
  Marshal_statement : statement -> result string;
  Unmarshal_statement : string -> result statement;
  statement_roundtrip : forall s t, ascii_text (st_Type s) -> ascii_text (st_PredicateType s) ->
    Forall ascii_subject (Subject s) -> Marshal_statement s = Ok t ->
    exists s', Unmarshal_statement t = Ok s' /\ same_statement s' s;
  Marshal_envelope : envelope -> result string;
  Unmarshal_envelope : string -> result envelope;
  envelope_roundtrip : forall e t, ascii_text (PayloadType e) -> ascii_text (Payload e) ->
    Forall (fun s => ascii_text (KeyID s) /\ ascii_text (Sig s)) (Signatures e) ->
    Marshal_envelope e = Ok t -> Unmarshal_envelope (t +:+ nl) = Ok e
}.

(** * Keys *)

Definition privPEMType : string := "FIREDRILL ED25519 PRIVATE KEY".
Definition pubPEMType : string := "FIREDRILL ED25519 PUBLIC KEY".

Section Sign.
Context `{Crypto} `{EnvelopeCodec} (env : DiskEnv).

Definition DefaultKeyDir (home : result string) : result string :=
  try h := home on_err (fun e => e) in Ok (Join2 h ".config/firedrill").

Definition privPath (dir : string) : string := Join2 dir "firedrill.key".
Definition pubPath (dir : string) : string := Join2 dir "firedrill.pub".

(** [generated] is what [ed25519.GenerateKey] returns, [pkix] the PKIX
    encoder. *)
Definition GenerateKeypair (generated : result (string * string)) (pkix : string -> result string)
  (dir : string) : M Disk (result (string * string)) := fun d =>
  match MkdirErr env dir with
  | Some e => (Err e, d)
  | None =>
      if Exists (privPath dir) d then
        (Err (ENew ("key already exists at " +:+ privPath dir +:+
                    " (remove it first to rotate)")), d)
      else
        match generated with
        | Err e => (Err e, d)
        | Ok (pub, priv) =>
            (let! e1 := WriteFile env (privPath dir) (pem_Encode privPEMType priv) in
             match e1 with
             | Some e => mret (Err e)
             | None =>
                 let! e2 := WriteFile env (pubPath dir) (pem_Encode pubPEMType pub) in
                 match e2 with
                 | Some e => mret (Err e)
                 | None =>
                     match pkix pub with
                     | Err e => mret (Err e)
                     | Ok spki =>
                         let! e3 := WriteFile env (Join2 dir "firedrill.cosign.pub")
                                      (pem_Encode "PUBLIC KEY" spki) in
                         mret match e3 with
                              | Some e => Err e
                              | None => Ok (privPath dir, pubPath dir)
                              end
                     end
                 end
             end) d
        end
  end.

Definition LoadPrivateKey (dir : string) (d : Disk) : result string :=
  try data := ReadFile env (privPath dir) d
    on_err (fun e => EWrap "loading signing key (run `firedrill keygen`?): " e "") in
  match pem_Decode data with
  | Some (t, b) =>
      if String.eqb t privPEMType && (String.length b =? PrivateKeySize)%nat then Ok b
      else Err (ENew "malformed signing key")
  | None => Err (ENew "malformed signing key")
  end.

(** The block's type is not checked here. *)
Definition ParsePublicKeyPEM (data : string) : result string :=
  match pem_Decode data with
  | Some (_, b) =>
      if (String.length b =? PublicKeySize)%nat then Ok b
      else Err (ENew "malformed public key PEM")
  | None => Err (ENew "malformed public key PEM")
  end.

Definition LoadPublicKey (dir : string) (d : Disk) : result string :=
  try data := ReadFile env (pubPath dir) d
    on_err (fun e => EWrap "loading public key: " e "") in
  ParsePublicKeyPEM data.

(** SHA-256 of the key, the first 8 bytes in hexadecimal. *)
Definition Fingerprint (pub : string) : string := hex_Encode (take_bytes 8 (sha256 pub)).

(** * Detached signatures *)

Definition sig_path (path : string) : string := path +:+ ".sig".

Definition make_sig (priv data : string) : Signature :=
  let pub := ed_Public priv in
  {| Algorithm := "ed25519"; PublicKey := hex_Encode pub;
     KeyFingerprint := Fingerprint pub;
     sig_Signature := hex_Encode (ed_Sign priv data) |}.

Definition Sign (path priv : string) : M Disk (result string) := fun d =>
  match ReadFile env path d with
  | Err e => (Err e, d)
  | Ok data =>
      match Marshal_sig (make_sig priv data) with
      | Err e => (Err e, d)
      | Ok out =>
          (let! werr := WriteFile env (sig_path path) out in
           mret match werr with Some e => Err e | None => Ok (sig_path path) end) d
      end
  end.

Definition public_key_of (sig : Signature) : option string :=
  match hex_Decode (PublicKey sig) with
  | Some pub => if (String.length pub =? PublicKeySize)%nat then Some pub else None
  | None => None
  end.

Definition read_sig (path : string) (d : Disk) : result Signature :=
  try sigData := ReadFile env (sig_path path) d
    on_err (fun e => EWrap "missing signature file: " e "") in
  try sig := Unmarshal_sig sigData
    on_err (fun e => EWrap "malformed signature envelope: " e "") in
  Ok sig.

(** [Verify]; [None] is success. *)
Definition Verify (path : string) (trustedPub : option string) (d : Disk) : option error :=
  match ReadFile env path d with
  | Err e => Some e
  | Ok data =>
      match read_sig path d with
      | Err e => Some e
      | Ok sig =>
          if negb (String.eqb (Algorithm sig) "ed25519") then
            Some (ENew ("unsupported algorithm " +:+ quote (Algorithm sig)))
          else
            match public_key_of sig with
            | None => Some (ENew "malformed public key in signature")
            | Some pub =>
                if match trustedPub with Some k => negb (String.eqb k pub) | None => false end
                then Some (ENew "signature key does not match trusted public key")
                else
                  match hex_Decode (sig_Signature sig) with
                  | None => Some (ENew "malformed signature")
                  | Some raw =>
                      if negb (ed_Verify pub data raw)
                      then Some (ENew "SIGNATURE INVALID — evidence has been modified")
                      else None
                  end
            end
      end
  end.

(** * Attestations *)

Definition PredicateType : string := "https://firedrill.dev/drill-evidence/v1".
Definition payloadType : string := "application/vnd.in-toto+json".

(** The DSSE pre-authentication encoding. *)
Definition pae (ty payload : string) : string :=
  "DSSEv1 " +:+ itoa (len ty) +:+ " " +:+ ty +:+ " " +:+ itoa (len payload) +:+ " " +:+ payload.

Definition att_path (path : string) : string := path +:+ ".intoto.jsonl".

Definition make_statement (path data : string) : statement := {|
  st_Type := "https://in-toto.io/Statement/v1";
  Subject := [{| sub_Name := Base path; Digest := {["sha256" := hex_Encode (sha256 data)]} |}];
  st_PredicateType := PredicateType;
  Predicate := data |}.

Definition make_envelope (priv payload : string) : envelope := {|
  PayloadType := payloadType;
  Payload := b64_Encode payload;
  Signatures := [{| KeyID := Fingerprint (ed_Public priv);
                    Sig := b64_Encode (ed_Sign priv (pae payloadType payload)) |}] |}.

Definition Attest (path priv : string) : M Disk (result string) := fun d =>
  match ReadFile env path d with
  | Err e => (Err e, d)
  | Ok data =>
      match Marshal_statement (make_statement path data) with
      | Err e => (Err e, d)
      | Ok payload =>
          match Marshal_envelope (make_envelope priv payload) with
          | Err e => (Err e, d)
          | Ok out =>
              (let! werr := WriteFile env (att_path path) (out +:+ nl) in
               mret match werr with Some e => Err e | None => Ok (att_path path) end) d
          end
      end
  end.

(** One envelope signature: undecodable ones are skipped. *)
Definition sig_verifies (pub ty payload : string) (s : signature) : bool :=
  match b64_Decode (Sig s) with
  | Some raw => ed_Verify pub (pae ty payload) raw
  | None => false
  end.

Definition subject_matches (want : string) (s : subject) : bool :=
  EqualFold (default EmptyString (Digest s !! "sha256")) want.

Definition VerifyAttestation (path pub : string) (d : Disk) : option error :=
  match ReadFile env (att_path path) d with
  | Err e => Some (EWrap "missing attestation: " e "")
  | Ok envData =>
      match Unmarshal_envelope envData with
      | Err e => Some (EWrap "malformed attestation envelope: " e "")
      | Ok en =>
          if negb (String.eqb (PayloadType en) payloadType) then
            Some (ENew ("unexpected payloadType " +:+ quote (PayloadType en)))
          else
            match b64_Decode (Payload en) with
            | None => Some (ENew "malformed attestation payload")
            | Some payload =>
                match Signatures en with
                | [] => Some (ENew "attestation has no signatures")
                | sigs =>
                    if negb (List.existsb (sig_verifies pub (PayloadType en) payload) sigs)
                    then Some (ENew "ATTESTATION INVALID — signature does not verify")
                    else
                      match Unmarshal_statement payload with
                      | Err e => Some (EWrap "malformed statement: " e "")
                      | Ok st =>
                          if negb (String.eqb (st_PredicateType st) PredicateType) then
                            Some (ENew ("unexpected predicateType " +:+
                                        quote (st_PredicateType st)))
                          else
                            match ReadFile env path d with
                            | Err e => Some e
                            | Ok data =>
                                if List.existsb (subject_matches (hex_Encode (sha256 data)))
                                     (Subject st)
                                then None
                                else Some (ENew
                                  "ATTESTATION INVALID — evidence digest does not match subject")
                            end
                      end
                end
            end
      end
  end.

(** * Bundles *)

Record BundleResult := {
  SignerFingerprint : string;
  AttestationChecked : bool;
  KeySource : string;
  Notes : list string
}.

Definition SignerKey (path : string) (d : Disk) : result string :=
  try sig := read_sig path d on_err (fun e => e) in
  match public_key_of sig with
  | Some pub => Ok pub
  | None => Err (ENew "malformed public key in signature")
  end.

(** The key to check the attestation with, and where it came from. *)
Definition att_key (path : string) (trusted : option string) (keyDir : string) (d : Disk)
  : option (string * string) :=
  match trusted with
  | Some k => Some (k, "pinned key")
  | None =>
      match SignerKey path d with
      | Ok k => Some (k, "signature envelope")
      | Err _ =>
          if String.eqb keyDir "" then None
          else match LoadPublicKey keyDir d with
               | Ok k => Some (k, "key directory")
               | Err _ => None
               end
      end
  end.

Definition VerifyBundle (path : string) (trusted : option string) (keyDir : string) (d : Disk)
  : result BundleResult :=
  match Verify path trusted d with
  | Some e => Err e
  | None =>
      let signer := match SignerKey path d with Ok k => Fingerprint k | Err _ => EmptyString end in
      if negb (Exists (att_path path) d) then
        Ok {| SignerFingerprint := signer; AttestationChecked := false; KeySource := EmptyString;
              Notes := ["no attestation present (pre-v0.6 evidence)"] |}
      else
        match att_key path trusted keyDir d with
        | None =>
            Ok {| SignerFingerprint := signer; AttestationChecked := false;
                  KeySource := EmptyString;
                  Notes := ["attestation not checked (no public key available)"] |}
        | Some (att, source) =>
            match VerifyAttestation path att d with
            | Some e => Err e
            | None =>
                Ok {| SignerFingerprint := signer; AttestationChecked := true;
                      KeySource := source; Notes := [] |}
            end
        end
  end.
End Sign.
