(* ===== verification/SignFacts.v ===== *)
(** What signing and verifying guarantee: what was signed verifies, what
    verifies was signed by the key it names, the encoding under the signature
    is injective, and a bundle is checked with the key that signed it. *)

From Stdlib Require Import ZArith Lia Ascii String.
From stdpp Require Import base option list gmap strings.
From S2P Require Import Prelude GoStrings Paths Disk Encoding Sign.

(** * ASCII text *)

Lemma ascii_hex_char v : 0 <= v < 16 -> (byte_val (hex_char true v) <? 128) = true.
Proof.
  intros H. assert (Hv : exists n, (n < 16)%nat /\ v = Z.of_nat n) by (exists (Z.to_nat v); lia).
  destruct Hv as (n & Hn & ->). do 16 (destruct n as [|n]; [reflexivity|]). lia.
Qed.

Lemma ascii_hex s : ascii_text (hex_Encode s).
Proof.
  unfold ascii_text. induction s as [|c s IH]; [done|]. cbn [hex_Encode forall_bytes].
  pose proof (byte_val_range c). rewrite IH, !ascii_hex_char; [done|sextet|sextet].
Qed.

Lemma ascii_b64_char v : 0 <= v < 64 -> (byte_val (b64_char v) <? 128) = true.
Proof.
  intros H. assert (Hv : exists n, (n < 64)%nat /\ v = Z.of_nat n) by (exists (Z.to_nat v); lia).
  destruct Hv as (n & Hn & ->). do 64 (destruct n as [|n]; [reflexivity|]). lia.
Qed.

Lemma ascii_b64 s : ascii_text (b64_Encode s).
Proof.
  unfold ascii_text. induction s as [s IH] using strong_string_ind.
  destruct s as [|a [|b [|c r]]]; [done| | |]; cbn [b64_Encode]; cbv zeta; cbn [forall_bytes];
    pose proof (byte_val_range a).
  - rewrite !ascii_b64_char by sextet. done.
  - pose proof (byte_val_range b). rewrite !ascii_b64_char by sextet. done.
  - pose proof (byte_val_range b). pose proof (byte_val_range c).
    rewrite !ascii_b64_char by sextet. rewrite IH by (simpl; lia). done.
Qed.

(** * Pre-authentication encoding *)

(** A number followed by a space is read back unambiguously. *)
Lemma itoa_space_inj a b x y :
  0 <= a -> 0 <= b -> itoa a +:+ " " +:+ x = itoa b +:+ " " +:+ y -> a = b /\ x = y.
Proof.
  intros Ha Hb H.
  assert (Hn : forall z, 0 <= z -> IndexByte " " (itoa z) = false)
    by (intros; by apply itoa_no_byte).
  pose proof (Cut_app (itoa a) " " x (Hn a Ha)) as H1.
  pose proof (Cut_app (itoa b) " " y (Hn b Hb)) as H2.
  change (String " " x) with (" " +:+ x) in H1. change (String " " y) with (" " +:+ y) in H2.
  rewrite H, H2 in H1. injection H1 as Hi ->. by apply itoa_inj in Hi.
Qed.

Lemma pae_inj t1 p1 t2 p2 : pae t1 p1 = pae t2 p2 -> t1 = t2 /\ p1 = p2.
Proof.
  unfold pae. intros H. apply sapp_inj_l in H.
  assert (Hlen : forall s, 0 <= len s) by (intros; unfold len; lia).
  apply itoa_space_inj in H as [Hl H]; [|apply Hlen|apply Hlen].
  apply sapp_inj_len in H as [-> H]; [|unfold len in Hl; lia]. apply sapp_inj_l in H.
  by apply itoa_space_inj in H as [_ ->].
Qed.

(** * Signatures *)

Section Facts.
Context `{Crypto} `{EnvelopeCodec} (env : DiskEnv).

(** What a successful verification has checked. *)
Lemma Verify_iff path trusted d :
  Verify env path trusted d = None <->
  exists data sig pub raw,
    ReadFile env path d = Ok data /\ read_sig env path d = Ok sig /\
    Algorithm sig = "ed25519" /\ public_key_of sig = Some pub /\
    hex_Decode (sig_Signature sig) = Some raw /\ ed_Verify pub data raw = true /\
    (forall k, trusted = Some k -> k = pub).
Proof.
  unfold Verify. split.
  - destruct (ReadFile env path d) as [data|]; [|done].
    destruct (read_sig env path d) as [sig|]; [|done].
    destruct (String.eqb_spec (Algorithm sig) "ed25519") as [Ha|]; [|done]. cbn [negb].
    destruct (public_key_of sig) as [pub|] eqn:Ep; [|done].
    assert (Ht : match trusted with Some k => negb (String.eqb k pub) | None => false end = false ->
      forall k, trusted = Some k -> k = pub).
    { intros Hf k ->. destruct (String.eqb_spec k pub); [done|done]. }
    destruct (match trusted with Some k => _ | None => _ end); [done|].
    destruct (hex_Decode _) as [raw|] eqn:Er; [|done].
    destruct (ed_Verify pub data raw) eqn:Ev; [|done]. intros _.
    exists data, sig, pub, raw. auto 10.
  - intros (data & sig & pub & raw & -> & -> & -> & -> & -> & Hv & Ht).
    rewrite String.eqb_refl. cbn [negb]. rewrite Hv.
    destruct trusted as [k|]; [|done]. rewrite (Ht k eq_refl), String.eqb_refl. done.
Qed.

Lemma public_key_make_sig priv data :
  String.length priv = PrivateKeySize ->
  public_key_of (make_sig priv data) = Some (ed_Public priv).
Proof.
  intros Hp. unfold public_key_of, make_sig. cbn [PublicKey].
  by rewrite hex_roundtrip, ed_Public_size, Nat.eqb_refl.
Qed.

Lemma path_suffix_ne path s : s <> EmptyString -> path +:+ s <> path.
Proof.
  intros Hs He. apply (f_equal String.length) in He. rewrite slen_app in He.
  destruct s; [done|]. simpl in He. lia.
Qed.

(** [Sign] leaves the evidence alone and writes an envelope that reads
    back. *)
Lemma Sign_ok path priv d sp d' :
  (forall p, ReadErr env p = None) ->
  Sign env path priv d = (Ok sp, d') ->
  exists data, d !! path = Some data /\ d' !! path = Some data /\
    read_sig env path d' = Ok (make_sig priv data) /\
    (forall q, q <> sig_path path -> d' !! q = d !! q).
Proof.
  intros Hr. unfold Sign, ReadFile. rewrite Hr. destruct (d !! path) as [data|] eqn:Ed; [|done].
  destruct (sig_roundtrip (make_sig priv data)) as (t & Hm & Hu);
    [done|apply ascii_hex|apply ascii_hex|apply ascii_hex|]. rewrite Hm.
  unfold mbind, mret, WriteFile. destruct (WriteErr env _) as [[k e]|]; [done|].
  intros [= _ <-]. exists data. split; [done|].
  assert (Hne : sig_path path <> path) by by apply path_suffix_ne.
  split; [by rewrite lookup_insert_ne|]. split.
  - unfold read_sig, ReadFile. by rewrite Hr, lookup_insert_eq, Hu.
  - intros q Hq. by rewrite lookup_insert_ne.
Qed.

Lemma Sign_Verify path priv d sp d' trusted :
  (forall p, ReadErr env p = None) -> String.length priv = PrivateKeySize ->
  Sign env path priv d = (Ok sp, d') ->
  (trusted = None \/ trusted = Some (ed_Public priv)) ->
  Verify env path trusted d' = None.
Proof.
  intros Hr Hp Hs Ht. destruct (Sign_ok _ _ _ _ _ Hr Hs) as (data & _ & Hd' & Hsig & _).
  apply Verify_iff. exists data, (make_sig priv data), (ed_Public priv), (ed_Sign priv data).
  split; [by unfold ReadFile; rewrite Hr, Hd'|]. split; [done|]. split; [done|].
  split; [by apply public_key_make_sig|]. split; [apply hex_roundtrip|].
  split; [by apply ed_Verify_Sign|]. intros k ->. destruct Ht as [|[=]]; congruence.
Qed.

(** Nothing signed by another key passes under a pinned one. *)
Lemma Verify_pinned path k d :
  Verify env path (Some k) d = None -> SignerKey env path d = Ok k.
Proof.
  intros (data & sig & pub & raw & _ & Hsig & _ & Hk & _ & _ & Ht)%Verify_iff.
  unfold SignerKey. rewrite Hsig, Hk. by rewrite (Ht k eq_refl).
Qed.

Lemma Verify_SignerKey path trusted d :
  Verify env path trusted d = None -> exists k, SignerKey env path d = Ok k.
Proof.
  intros (data & sig & pub & raw & _ & Hsig & _ & Hk & _)%Verify_iff.
  unfold SignerKey. rewrite Hsig, Hk. eauto.
Qed.

(** * Attestations *)

Lemma VerifyAttestation_iff path pub d :
  VerifyAttestation env path pub d = None <->
  exists envData en payload st data s sub,
    ReadFile env (att_path path) d = Ok envData /\ Unmarshal_envelope envData = Ok en /\
    PayloadType en = payloadType /\ b64_Decode (Payload en) = Some payload /\
    In s (Signatures en) /\ sig_verifies pub payloadType payload s = true /\
    Unmarshal_statement payload = Ok st /\ st_PredicateType st = PredicateType /\
    ReadFile env path d = Ok data /\ In sub (Subject st) /\
    subject_matches (hex_Encode (sha256 data)) sub = true.
Proof.
  unfold VerifyAttestation. split.
  - destruct (ReadFile env (att_path path) d) as [envData|]; [|done].
    destruct (Unmarshal_envelope envData) as [en|] eqn:Ee; [|done].
    destruct (String.eqb_spec (PayloadType en) payloadType) as [Hp|]; [|done]. cbn [negb].
    destruct (b64_Decode (Payload en)) as [payload|] eqn:Eb; [|done].
    destruct (Signatures en) as [|s0 sr] eqn:Es; [done|].
    destruct (List.existsb _ (s0 :: sr)) eqn:Ex; [|done]. cbn [negb].
    destruct (Unmarshal_statement payload) as [st|] eqn:Eu; [|done].
    destruct (String.eqb_spec (st_PredicateType st) PredicateType) as [Ht|]; [|done]. cbn [negb].
    destruct (ReadFile env path d) as [data|]; [|done].
    destruct (List.existsb _ (Subject st)) eqn:Ex2; [|done]. intros _.
    apply List.existsb_exists in Ex as (s & Hs & Hv), Ex2 as (sub & Hsub & Hm).
    rewrite Hp in Hv. rewrite <- Es in Hs.
    exists envData, en, payload, st, data, s, sub.
    repeat (split; [first [done|by rewrite <- Es]|]). done.
  - intros (envData & en & payload & st & data & s & sub & -> & -> & Hp & -> & Hs & Hv & -> &
      Ht & -> & Hsub & Hm).
    rewrite Hp, String.eqb_refl. cbn [negb].
    destruct (Signatures en) as [|s0 sr] eqn:Es; [done|]. rewrite <- Es in *.
    assert (Hex : List.existsb (sig_verifies pub payloadType payload) (Signatures en) = true)
      by (apply List.existsb_exists; eauto).
    rewrite Hex, Ht, String.eqb_refl. cbn [negb].
    assert (Hex2 : List.existsb (subject_matches (hex_Encode (sha256 data))) (Subject st) = true)
      by (apply List.existsb_exists; eauto).
    by rewrite Hex2.
Qed.

Lemma Attest_ok path priv d ap d' :
  (forall p, ReadErr env p = None) -> ascii_text (Base path) ->
  String.length priv = PrivateKeySize ->
  Attest env path priv d = (Ok ap, d') ->
  VerifyAttestation env path (ed_Public priv) d' = None /\
  (forall q, q <> att_path path -> d' !! q = d !! q) /\ Exists (att_path path) d' = true.
Proof.
  intros Hr Hb Hp. unfold Attest. unfold ReadFile at 1. rewrite Hr.
  destruct (d !! path) as [data|] eqn:Ed; [|done].
  destruct (Marshal_statement (make_statement path data)) as [payload|] eqn:Em; [|done].
  destruct (Marshal_envelope (make_envelope priv payload)) as [out|] eqn:Ee; [|done].
  unfold mbind, mret, WriteFile. destruct (WriteErr env _) as [[k e]|]; [done|].
  intros [= _ <-]. assert (Hne : att_path path <> path) by by apply path_suffix_ne.
  split; [|split; [intros q Hq; by rewrite lookup_insert_ne|
                   unfold Exists; by rewrite lookup_insert_eq]].
  apply envelope_roundtrip in Ee;
    [|done|apply ascii_b64|repeat constructor; [apply ascii_hex|apply ascii_b64]].
  destruct (statement_roundtrip (make_statement path data) payload)
    as (st & Hst & Hty & Hsub & Hpt); [done|done| |done|].
  { constructor; [|constructor]. split; [done|]. cbn [Digest make_statement Subject].
    apply map_Forall_singleton. split; [done|apply ascii_hex]. }
  apply VerifyAttestation_iff.
  exists (out +:+ nl), (make_envelope priv payload), payload, st, data,
    {| KeyID := Fingerprint (ed_Public priv);
       Sig := b64_Encode (ed_Sign priv (pae payloadType payload)) |},
    {| sub_Name := Base path; Digest := {["sha256" := hex_Encode (sha256 data)]} |}.
  split; [by unfold ReadFile; rewrite Hr, lookup_insert_eq|]. split; [done|]. split; [done|].
  split; [apply b64_roundtrip|]. split; [by left|].
  split; [unfold sig_verifies; cbn [Sig]; rewrite b64_roundtrip; by apply ed_Verify_Sign|].
  split; [done|]. split; [by rewrite Hpt|].
  split; [unfold ReadFile; by rewrite Hr, lookup_insert_ne, Ed|].
  split; [rewrite Hsub; by left|].
  unfold subject_matches. cbn [Digest]. rewrite lookup_singleton_eq. cbn [default].
  by apply EqualFold_hex.
Qed.

(** The same, with nothing of the verifier's own helpers left: the bytes the
    signature covers and the digest entry are written out. *)
Lemma sig_verifies_iff pub ty payload s :
  sig_verifies pub ty payload s = true <->
  exists raw, b64_Decode (Sig s) = Some raw /\
    ed_Verify pub ("DSSEv1 " +:+ itoa (len ty) +:+ " " +:+ ty +:+ " " +:+
                   itoa (len payload) +:+ " " +:+ payload) raw = true.
Proof.
  unfold sig_verifies. destruct (b64_Decode (Sig s)) as [raw|].
  - split; [intros Hv; by exists raw|]. by intros (? & [= <-] & Hv).
  - by split; [|intros (? & ? & _)].
Qed.

Lemma subject_matches_iff data s :
  subject_matches (hex_Encode (sha256 data)) s = true <->
  exists h, Digest s !! "sha256" = Some h /\ hex_Decode h = Some (sha256 data).
Proof.
  unfold subject_matches. rewrite EqualFold_Decode.
  destruct (Digest s !! "sha256") as [h|]; cbn [default].
  - split; [intros Hh; by exists h|]. by intros (? & [= <-] & Hh).
  - split; [|by intros (? & ? & _)]. intros [= He].
    pose proof (sha256_size data) as Hl. by rewrite <- He in Hl.
Qed.

(** An accepted attestation covers the evidence: a statement under a
    signature of [pub] whose subject digest is the digest of the file as it
    is now. *)
Lemma VerifyAttestation_sound path pub d :
  VerifyAttestation env path pub d = None ->
  exists payload raw st data sub,
    ed_Verify pub (pae payloadType payload) raw = true /\
    Unmarshal_statement payload = Ok st /\ In sub (Subject st) /\
    ReadFile env path d = Ok data /\
    EqualFold (default EmptyString (Digest sub !! "sha256")) (hex_Encode (sha256 data)) = true.
Proof.
  intros (envData & en & payload & st & data & s & sub & _ & _ & _ & _ & _ & Hv & Hst & _ & Hd &
    Hsub & Hm)%VerifyAttestation_iff.
  unfold sig_verifies in Hv. destruct (b64_Decode (Sig s)) as [raw|]; [|done].
  exists payload, raw, st, data, sub. auto.
Qed.

(** * Bundles *)

(** Once the signature verifies the signer's key is at hand, so the key
    directory is never used. *)
Lemma VerifyBundle_keyDir path trusted k1 k2 d :
  VerifyBundle env path trusted k1 d = VerifyBundle env path trusted k2 d.
Proof.
  unfold VerifyBundle. destruct (Verify env path trusted d) eqn:Ev; [done|].
  unfold att_key. destruct trusted; [done|].
  destruct (Verify_SignerKey _ _ _ Ev) as [k ->]. done.
Qed.

(** An accepted bundle with an attestation: one key made both. *)
Lemma VerifyBundle_one_signer path trusted keyDir d b :
  VerifyBundle env path trusted keyDir d = Ok b -> AttestationChecked b = true ->
  exists k, SignerKey env path d = Ok k /\ SignerFingerprint b = Fingerprint k /\
    Verify env path (Some k) d = None /\ VerifyAttestation env path k d = None /\
    (forall t, trusted = Some t -> t = k).
Proof.
  unfold VerifyBundle. destruct (Verify env path trusted d) eqn:Ev; [done|].
  destruct (Verify_SignerKey _ _ _ Ev) as [k Hk]. rewrite Hk. cbv zeta.
  assert (Ht : forall t, trusted = Some t -> t = k).
  { intros t ->. pose proof (Verify_pinned _ _ _ Ev) as Hk'. congruence. }
  assert (Hpin : Verify env path (Some k) d = None).
  { pose proof Ev as (data & sig & pub & raw & Hd & Hs & Ha & Hpk & Hraw & Hv & _)%Verify_iff.
    assert (pub = k) as -> by (unfold SignerKey in Hk; rewrite Hs, Hpk in Hk; by injection Hk).
    apply Verify_iff. exists data, sig, k, raw. repeat (split; [done|]). by intros ? [= <-]. }
  assert (Hak : exists src, att_key env path trusted keyDir d = Some (k, src)).
  { unfold att_key. destruct trusted as [t|]; [rewrite (Ht t eq_refl)|rewrite Hk]; eauto. }
  destruct Hak as [src ->]. destruct (Exists _ d); cbn [negb]; [|by intros [= <-]].
  destruct (VerifyAttestation env path k d) eqn:Ea; [done|]. intros [= <-] _.
  exists k. cbn. auto 6.
Qed.

Lemma sig_att_ne path : sig_path path <> att_path path.
Proof. unfold sig_path, att_path. intros He. by apply sapp_inj_l in He. Qed.

(** Signed and attested evidence verifies as a bundle, on any machine. *)
Lemma Sign_Attest_VerifyBundle path priv d sp d1 ap d2 trusted keyDir :
  (forall p, ReadErr env p = None) -> ascii_text (Base path) ->
  String.length priv = PrivateKeySize ->
  Sign env path priv d = (Ok sp, d1) -> Attest env path priv d1 = (Ok ap, d2) ->
  (trusted = None \/ trusted = Some (ed_Public priv)) ->
  exists b, VerifyBundle env path trusted keyDir d2 = Ok b /\ AttestationChecked b = true /\
    SignerFingerprint b = Fingerprint (ed_Public priv) /\
    KeySource b = (match trusted with Some _ => "pinned key" | None => "signature envelope" end).
Proof.
  intros Hr Hb Hp Hs Ha Ht.
  pose proof (Sign_Verify path priv d sp d1 trusted Hr Hp Hs Ht) as Hv1.
  destruct (Sign_ok _ _ _ _ _ Hr Hs) as (data & _ & Hd1 & Hsig & _).
  destruct (Attest_ok _ _ _ _ _ Hr Hb Hp Ha) as (Hatt & Hsame & Hex).
  assert (Hp1 : forall q, q <> att_path path -> ReadFile env q d2 = ReadFile env q d1)
    by (intros q Hq; unfold ReadFile; by rewrite (Hsame q Hq)).
  assert (Hrs : read_sig env path d2 = read_sig env path d1)
    by (unfold read_sig; by rewrite Hp1 by apply sig_att_ne).
  assert (Hv2 : Verify env path trusted d2 = None).
  { unfold Verify in *. rewrite Hp1, Hrs; [exact Hv1|]. apply not_eq_sym, path_suffix_ne. done. }
  assert (Hk : SignerKey env path d2 = Ok (ed_Public priv))
    by (unfold SignerKey; by rewrite Hrs, Hsig, public_key_make_sig).
  unfold VerifyBundle. rewrite Hv2, Hk, Hex. cbv zeta. cbn [negb].
  unfold att_key. destruct Ht as [->| ->].
  - rewrite Hk, Hatt. eexists. split; [reflexivity|]. done.
  - rewrite Hatt. eexists. split; [reflexivity|]. done.
Qed.

(** * Keys *)

Lemma GenerateKeypair_keeps gen pkix dir d k :
  d !! privPath dir = Some k ->
  snd (GenerateKeypair env gen pkix dir d) = d /\
  is_ok (fst (GenerateKeypair env gen pkix dir d)) = false.
Proof.
  intros Hk. unfold GenerateKeypair, Exists. rewrite Hk.
  destruct (MkdirErr env dir); done.
Qed.
End Facts.
