(* ===== verification/Gate.v ===== *)
(** The recovery gate (pkg/report/gate.go): is recovery still being proven? *)

From Stdlib Require Import ZArith Lia Ascii String SpecFloat.
From stdpp Require Import base option list gmap strings sorting.
From S2P Require Import Prelude GoStrings Encoding Float64 Calendar Disk Evidence Sign.

Record GateOptions := {
  gate_Dir : string;
  gate_MaxAge : Duration;
  By : string;
  Subjects : list string;
  RequireSigned : bool;
  gate_PublicKey : option string;
  AllowUnverified : bool;
  gate_Now : Time
}.

Record SubjectStatus := {
  st_Subject : string;
  Runs : Z;
  LastRun : option Time;
  LastVerified : option Time;
  Signed : bool;
  Violations : list string;
  st_Evidence : string
}.

Definition OK (s : SubjectStatus) : bool := match Violations s with [] => true | _ => false end.

Record GateReport := {
  rep_GeneratedAt : Time;
  rep_EvidenceDir : string;
  rep_By : string;
  rep_MaxAge : string;
  rep_Subjects : list SubjectStatus;
  rep_Violations : Z
}.

Definition subjectsOf (e : Evidence) (by_ : string) : list string :=
  if String.eqb by_ "control" then ev_Controls e else [ev_Drill e].

Definition humanDur (d : Duration) : string :=
  if 48 * Hour <=? d then itoa (to_int64 (fdiv (Hours d) (of_int 24))) +:+ "d"
  else if 2 * Hour <=? d then itoa (to_int64 (Hours d)) +:+ "h"
  else if Minute <=? d then itoa (to_int64 (Minutes d)) +:+ "m"
  else Duration_String (Round d Second).

Example humanDur1 : (humanDur (700 * Hour), humanDur (6 * Hour + Minute), humanDur (90 * Second))
                    = ("29d", "6h", "1m").
Proof. vm_compute. reflexivity. Qed.

Definition stamp (t : option Time) : string :=
  match t with None => "—" | Some t => fmt_minute t end.

Definition yes (ok : bool) : string := if ok then "✓" else "—".

(** [trunc] counts and cuts bytes. *)
Definition trunc (s : string) (n : Z) : string :=
  if len s <=? n then s else take_bytes (Z.to_nat (n - 1)) s +:+ "…".

Abbreviation Groups := (gmap string (list evidenceFile)).

(** [groups[s] = append(groups[s], f)] *)
Definition group_add (f : evidenceFile) (m : Groups) (s : string) : Groups :=
  <[s := default [] (m !! s) ++ [f]]> m.

Definition group_file (by_ : string) (m : Groups) (f : evidenceFile) : Groups :=
  List.fold_left (group_add f) (subjectsOf (E f) by_) m.

Definition group_files (by_ : string) (files : list evidenceFile) : Groups :=
  List.fold_left (group_file by_) files ∅.

Definition newest_first (a b : evidenceFile) : bool :=
  After (FinishedAt (E a)) (FinishedAt (E b)).

Section Gate.
Context {SS : SliceSort} {EC : EvidenceCodec} {CR : Crypto} {VC : EnvelopeCodec}
  (env : DiskEnv) (d : Disk).

Definition stale_violation (verified : option evidenceFile) (opts : GateOptions) (now : Time)
  : list string :=
  if 0 <? gate_MaxAge opts then
    match verified with
    | None => ["no verified run on record"]
    | Some v =>
        let age := Sub now (FinishedAt (E v)) in
        if gate_MaxAge opts <? age then
          ["last verified run was " +:+ humanDur age +:+ " ago (max " +:+
           humanDur (gate_MaxAge opts) +:+ ")"]
        else []
    end
  else [].

(** The status on a slice already sorted newest first. *)
Definition evaluate_sorted (name : string) (runs : list evidenceFile) (opts : GateOptions)
  (now : Time) : SubjectStatus :=
  match runs with
  | [] => {| st_Subject := name; Runs := 0; LastRun := None; LastVerified := None;
             Signed := false; Violations := ["no evidence — has this drill run at all?"];
             st_Evidence := EmptyString |}
  | latest :: _ =>
      let verified := List.find (fun r => ev_Verified (E r)) runs in
      let sigOn := match verified with Some v => v | None => latest end in
      let signed := negb (isSome (Verify env (ef_Path sigOn) (gate_PublicKey opts) d)) in
      {| st_Subject := name;
         Runs := Z.of_nat (List.length runs);
         LastRun := Some (FinishedAt (E latest));
         LastVerified := option_map (fun v => FinishedAt (E v)) verified;
         Signed := signed;
         Violations :=
           (if negb (ev_Verified (E latest)) && negb (AllowUnverified opts)
            then ["latest run did not verify recovery"] else []) ++
           stale_violation verified opts now ++
           (if RequireSigned opts && negb signed then
              ["evidence is unsigned or its signature does not validate" +:+
               (if isSome (gate_PublicKey opts) then " against the pinned key" else "")]
            else []);
         st_Evidence := ef_Path latest |}
  end.

Definition sort_runs (runs : list evidenceFile) : list evidenceFile :=
  sort_Slice newest_first runs.

Definition evaluate (name : string) (runs : list evidenceFile) (opts : GateOptions)
  (now : Time) : SubjectStatus := evaluate_sorted name (sort_runs runs) opts now.

(** The subject loop. [evaluate] sorts the group's slice in place. *)
Fixpoint gate_loop (opts : GateOptions) (now : Time) (groups : Groups) (names : list string)
  : list SubjectStatus :=
  match names with
  | [] => []
  | n :: r =>
      let runs := default [] (groups !! n) in
      evaluate n runs opts now :: gate_loop opts now (<[n := sort_runs runs]> groups) r
  end.

Definition count_failing (l : list SubjectStatus) : Z :=
  Z.of_nat (List.length (List.filter (fun s => negb (OK s)) l)).

Definition gate_by (opts : GateOptions) : string :=
  if String.eqb (By opts) "" then "drill" else By opts.

Definition gate_names (opts : GateOptions) (groups : Groups) : list string :=
  sort_Strings (match Subjects opts with [] => (map_to_list groups).*1 | l => l end).

(** [wall] is [time.Now()]. *)
Definition Gate (opts : GateOptions) (wall : Time) : result GateReport :=
  match scanEvidence env d (gate_Dir opts) with
  | Err e => Err e
  | Ok files =>
      let now := if IsZero (gate_Now opts) then wall else gate_Now opts in
      let by_ := gate_by opts in
      if negb (String.eqb by_ "drill") && negb (String.eqb by_ "control")
      then Err (ENew ("gate by " +:+ quote by_ +:+ " unsupported (drill|control)"))
      else
        let groups := group_files by_ files in
        let subjects := gate_loop opts now groups (gate_names opts groups) in
        Ok {| rep_GeneratedAt := now; rep_EvidenceDir := gate_Dir opts; rep_By := by_;
              rep_MaxAge := if 0 <? gate_MaxAge opts then Duration_String (gate_MaxAge opts)
                            else EmptyString;
              rep_Subjects := subjects; rep_Violations := count_failing subjects |}
  end.
End Gate.

Definition status_text (s : SubjectStatus) : string :=
  if OK s then "ok" else "FAIL: " +:+ Join (Violations s) "; ".

(** [WriteText]. The columns pad by runes: the text written is exact for
    subjects of printable ASCII up to their width; a dash or a check mark counts
    as one column. *)
Definition runes (s : string) : nat :=
  let fix go s := match s with
    | EmptyString => O
    | String c r => if (128 <=? byte_val c) && (byte_val c <? 192) then go r else S (go r)
    end in go s.

Definition column (n : nat) (s : string) : string :=
  s +:+ repeat_string " " (n - runes s) +:+ "  ".

Definition gate_row (a b c e f : string) : string :=
  column 24 a +:+ column 17 b +:+ column 17 c +:+ column 6 e +:+ f +:+ nl.

Definition WriteText (r : GateReport) : string :=
  match rep_Subjects r with
  | [] => "no " +:+ rep_By r +:+ "s to check in " +:+ rep_EvidenceDir r +:+ nl
  | ss =>
      gate_row (ToUpper (rep_By r)) "LAST RUN (UTC)" "LAST VERIFIED" "SIGNED" "STATUS" +:+
      String.concat "" (List.map (fun s =>
        gate_row (trunc (st_Subject s) 24) (stamp (LastRun s)) (stamp (LastVerified s))
          (yes (Signed s)) (status_text s)) ss) +:+
      nl +:+ itoa (Z.of_nat (List.length ss)) +:+ " " +:+ rep_By r +:+ "(s): " +:+
      itoa (Z.of_nat (List.length ss) - rep_Violations r) +:+ " ok, " +:+
      itoa (rep_Violations r) +:+ " failing" +:+ nl
  end.

(** * What the gate promises *)

(** Standing of a subject, independent of the order its runs were read in. *)
Definition newest (runs : list evidenceFile) (p : evidenceFile -> Prop) (r : evidenceFile) : Prop :=
  In r runs /\ p r /\ forall r', In r' runs -> p r' -> FinishedAt (E r') <= FinishedAt (E r).

Definition verified_run (r : evidenceFile) : Prop := ev_Verified (E r) = true.

(** The run the gate leans on for the signature. *)
Definition leaned (runs : list evidenceFile) (r : evidenceFile) : Prop :=
  newest runs verified_run r \/
  (forall r', In r' runs -> ~ verified_run r') /\ newest runs (fun _ => True) r.

Record gate_ok {CR : Crypto} {VC : EnvelopeCodec} (env : DiskEnv) (d : Disk) (opts : GateOptions)
  (now : Time) (runs : list evidenceFile) : Prop := {
  ok_latest : exists r, newest runs (fun _ => True) r /\
    (verified_run r \/ AllowUnverified opts = true);
  ok_age : 0 < gate_MaxAge opts -> exists r, In r runs /\ verified_run r /\
    Sub now (FinishedAt (E r)) <= gate_MaxAge opts;
  ok_signed : RequireSigned opts = true -> exists r, leaned runs r /\
    Verify env (ef_Path r) (gate_PublicKey opts) d = None
}.

(** The runs of a subject, in the order they were read. *)
Definition runs_of (by_ name : string) (files : list evidenceFile) : list evidenceFile :=
  List.concat (List.map (fun f =>
    List.map (fun _ => f) (List.filter (String.eqb name) (subjectsOf (E f) by_))) files).

(** * Proofs *)

Lemma newest_first_irrefl a : newest_first a a = false.
Proof. unfold newest_first, After. lia. Qed.

Lemma newest_first_trans a b c :
  newest_first a b = true -> newest_first b c = true -> newest_first a c = true.
Proof. unfold newest_first, After. lia. Qed.

Lemma newest_first_neg_trans a b c :
  newest_first a b = false -> newest_first b c = false -> newest_first a c = false.
Proof. unfold newest_first, After. lia. Qed.

Section Proofs.
Context {SS : SliceSort} {EC : EvidenceCodec} {CR : Crypto} {VC : EnvelopeCodec}
  (env : DiskEnv) (d : Disk).

Definition desc (a b : evidenceFile) : Prop := FinishedAt (E b) <= FinishedAt (E a).

Lemma sort_runs_sorted runs : StronglySorted desc (sort_runs runs).
Proof.
  pose proof (sort_Slice_sorted _ newest_first runs newest_first_irrefl newest_first_trans
    newest_first_neg_trans) as Hso. unfold sort_runs.
  induction Hso as [|a l Hl IH Hall]; [constructor|]. constructor; [done|].
  eapply Forall_impl; [exact Hall|]. unfold newest_first, After, desc. intros x Hx.
  by apply Z.ltb_ge in Hx.
Qed.

Lemma sort_runs_in runs r : In r (sort_runs runs) <-> In r runs.
Proof.
  unfold sort_runs. rewrite <- !list_elem_of_In. by rewrite sort_Slice_perm.
Qed.

Lemma newest_perm runs p r : newest (sort_runs runs) p r <-> newest runs p r.
Proof. unfold newest. setoid_rewrite sort_runs_in. done. Qed.

Lemma leaned_perm runs r : leaned (sort_runs runs) r <-> leaned runs r.
Proof. unfold leaned. rewrite !newest_perm. by setoid_rewrite sort_runs_in. Qed.

Lemma sorted_head_newest runs x :
  StronglySorted desc (x :: runs) -> newest (x :: runs) (fun _ => True) x.
Proof.
  intros H. split; [by left|]. split; [done|]. intros r [<-|Hin] _; [lia|].
  by apply (StronglySorted_head desc x runs).
Qed.

Lemma sorted_find_newest runs v :
  StronglySorted desc runs -> List.find (fun r => ev_Verified (E r)) runs = Some v ->
  newest runs verified_run v.
Proof.
  intros Hs Hf. pose proof (List.find_some _ _ Hf) as [Hin Hv]. split; [done|]. split; [done|].
  intros r Hr Hrv. destruct (find_sorted_first desc _ _ _ Hs Hf r Hr Hrv) as [->|]; [lia|done].
Qed.

Lemma Sub_antitone now t u : t <= u -> Sub now u <= Sub now t.
Proof. unfold Sub. lia. Qed.

Lemma stale_nil verified opts now :
  stale_violation verified opts now = [] <->
  (0 < gate_MaxAge opts -> exists v, verified = Some v /\
     Sub now (FinishedAt (E v)) <= gate_MaxAge opts).
Proof.
  unfold stale_violation. destruct (Z.ltb_spec 0 (gate_MaxAge opts)); [|split; [lia|done]].
  destruct verified as [v|]; cbv zeta.
  - destruct (Z.ltb_spec (gate_MaxAge opts) (Sub now (FinishedAt (E v)))).
    + split; [done|]. intros Hx. destruct (Hx H) as (v' & [= <-] & ?). lia.
    + split; [|done]. intros _ _. eauto.
  - split; [done|]. intros Hx. by destruct (Hx H) as (v' & ? & _).
Qed.

(** The run the signature is checked on. *)
Definition sig_run (latest : evidenceFile) (runs : list evidenceFile) : evidenceFile :=
  match List.find (fun r => ev_Verified (E r)) runs with Some v => v | None => latest end.

Lemma OK_sorted name latest l opts now :
  OK (evaluate_sorted env d name (latest :: l) opts now) = true <->
  (verified_run latest \/ AllowUnverified opts = true) /\
  (0 < gate_MaxAge opts -> exists v,
     List.find (fun r => ev_Verified (E r)) (latest :: l) = Some v /\
     Sub now (FinishedAt (E v)) <= gate_MaxAge opts) /\
  (RequireSigned opts = true ->
     Verify env (ef_Path (sig_run latest (latest :: l))) (gate_PublicKey opts) d = None).
Proof.
  unfold OK, evaluate_sorted. cbv zeta. cbn [Violations]. fold (sig_run latest (latest :: l)).
  set (vs := _ ++ _ ++ _). assert (Hvs : match vs with [] => true | _ => false end = true <-> vs = [])
    by (destruct vs; done). rewrite Hvs. subst vs. clear Hvs.
  rewrite !app_nil_iff. rewrite stale_nil. unfold verified_run.
  assert (H1 : (if negb (ev_Verified (E latest)) && negb (AllowUnverified opts)
                then ["latest run did not verify recovery"] else []) = [] <->
               ev_Verified (E latest) = true \/ AllowUnverified opts = true)
    by (destruct (ev_Verified _), (AllowUnverified _); simpl; naive_solver).
  rewrite H1.
  set (sg := isSome (Verify _ _ _ _)).
  assert (H2 : sg = false <->
    Verify env (ef_Path (sig_run latest (latest :: l))) (gate_PublicKey opts) d = None)
    by apply isSome_false.
  rewrite <- H2. clearbody sg. destruct (RequireSigned opts), sg; simpl; naive_solver.
Qed.

(** A passing subject has the standing the gate promises. *)
Lemma evaluate_sound name runs opts now :
  OK (evaluate env d name runs opts now) = true -> gate_ok env d opts now runs.
Proof.
  unfold evaluate. pose proof (sort_runs_sorted runs) as Hs.
  destruct (sort_runs runs) as [|latest l] eqn:Er; [done|]. rewrite OK_sorted.
  intros (Hl & Ha & Hg). pose proof (sorted_head_newest _ _ Hs) as Hn. rewrite <- Er in *.
  rewrite newest_perm in Hn. constructor.
  - eauto.
  - intros Hm. destruct (Ha Hm) as (v & Hf & Hle). exists v.
    apply List.find_some in Hf as [Hin Hv]. rewrite sort_runs_in in Hin. done.
  - intros Hr. exists (sig_run latest (sort_runs runs)). split; [|auto].
    unfold sig_run. destruct (List.find _ _) as [v|] eqn:Hf.
    + left. rewrite <- newest_perm. by apply sorted_find_newest.
    + right. split; [|done]. intros r Hin Hv. rewrite <- sort_runs_in in Hin.
      pose proof (List.find_none _ _ Hf r Hin) as Hnone. unfold verified_run in Hv.
      cbv beta in Hnone. congruence.
Qed.

(** Distinct finishing times make the newest run unique. *)
Lemma newest_unique runs p a b :
  (forall x y, In x runs -> In y runs -> FinishedAt (E x) = FinishedAt (E y) -> x = y) ->
  newest runs p a -> newest runs p b -> a = b.
Proof.
  intros Hinj (Ha & Hpa & Hma) (Hb & Hpb & Hmb). apply Hinj; [done|done|].
  specialize (Hma b Hb Hpb). specialize (Hmb a Ha Hpa). lia.
Qed.

Lemma evaluate_complete name runs opts now :
  (forall x y, In x runs -> In y runs -> FinishedAt (E x) = FinishedAt (E y) -> x = y) ->
  gate_ok env d opts now runs -> OK (evaluate env d name runs opts now) = true.
Proof.
  intros Hinj [(r & Hr & Hrv) Hage Hsig]. unfold evaluate.
  pose proof (sort_runs_sorted runs) as Hs.
  destruct (sort_runs runs) as [|latest l] eqn:Er.
  { destruct Hr as [Hin _]. rewrite <- sort_runs_in, Er in Hin. done. }
  pose proof (sorted_head_newest _ _ Hs) as Hn. rewrite OK_sorted. rewrite <- Er in *.
  rewrite newest_perm in Hn. rewrite (newest_unique _ _ _ _ Hinj Hr Hn) in *.
  split; [done|]. split.
  - intros Hm. destruct (Hage Hm) as (v & Hin & Hv & Hle).
    destruct (List.find _ _) as [w|] eqn:Hf.
    + exists w. split; [done|]. pose proof (sorted_find_newest _ _ Hs Hf) as Hw.
      rewrite newest_perm in Hw. destruct Hw as (_ & _ & Hmax).
      etransitivity; [|exact Hle]. apply Sub_antitone. by apply Hmax.
    + rewrite <- sort_runs_in in Hin. pose proof (List.find_none _ _ Hf v Hin) as Hnone.
      unfold verified_run in Hv. cbv beta in Hnone. congruence.
  - intros Hq. destruct (Hsig Hq) as (s & Hl & Hvf).
    assert (s = sig_run latest (sort_runs runs)) as <-; [|done].
    unfold sig_run. destruct (List.find _ _) as [w|] eqn:Hf.
    + pose proof (sorted_find_newest _ _ Hs Hf) as Hw. rewrite newest_perm in Hw.
      destruct Hl as [Hl|[Hnov _]].
      * eapply newest_unique; eauto.
      * destruct Hw as (Hw & Hwv & _). by destruct (Hnov w Hw).
    + destruct Hl as [(Hs1 & Hs2 & _)|[_ Hl]].
      * rewrite <- sort_runs_in in Hs1. pose proof (List.find_none _ _ Hf s Hs1) as Hnone.
        unfold verified_run in Hs2. cbv beta in Hnone. congruence.
      * eapply newest_unique; eauto.
Qed.
End Proofs.
