(* ===== verification/GateFacts.v ===== *)
(** The gate over a whole evidence directory: no violations exactly when every
    subject has the standing [gate_ok] asks for. *)

From Stdlib Require Import ZArith Lia Ascii String SpecFloat.
From stdpp Require Import base option list gmap strings sorting.
From S2P Require Import Prelude GoStrings Float64 Calendar Disk Evidence Sign Gate.

(** * Grouping *)

Definition group (m : Groups) (n : string) : list evidenceFile := default [] (m !! n).

Lemma group_add_lookup f m s n :
  group (group_add f m s) n = group m n ++ (if String.eqb n s then [f] else []).
Proof.
  unfold group, group_add. destruct (String.eqb_spec n s) as [->|Hne].
  - by rewrite lookup_insert_eq.
  - by rewrite lookup_insert_ne, app_nil_r.
Qed.

Lemma group_file_lookup by_ m f n :
  group (group_file by_ m f) n =
  group m n ++ List.map (fun _ => f) (List.filter (String.eqb n) (subjectsOf (E f) by_)).
Proof.
  unfold group_file. revert m. induction (subjectsOf (E f) by_) as [|s ss IH]; intros m; simpl.
  - by rewrite app_nil_r.
  - rewrite IH, group_add_lookup, <- app_assoc. by destruct (String.eqb n s).
Qed.

Lemma group_files_lookup by_ files n : group (group_files by_ files) n = runs_of by_ n files.
Proof.
  unfold group_files, runs_of.
  assert (Hg : forall fs m, group (List.fold_left (group_file by_) fs m) n =
    group m n ++ List.concat (List.map (fun f =>
      List.map (fun _ => f) (List.filter (String.eqb n) (subjectsOf (E f) by_))) fs)).
  { induction fs as [|f fs IH]; intros m; simpl; [by rewrite app_nil_r|].
    by rewrite IH, group_file_lookup, <- app_assoc. }
  rewrite Hg. unfold group. by rewrite lookup_empty.
Qed.

(** By drill, a subject's runs are the records that name it. *)
Lemma runs_of_drill name files r :
  In r (runs_of "drill" name files) <-> In r files /\ ev_Drill (E r) = name.
Proof.
  unfold runs_of, subjectsOf. rewrite in_concat. setoid_rewrite in_map_iff. split.
  - intros (l & (f & <- & Hf) & Hin). simpl in Hin.
    destruct (String.eqb_spec name (ev_Drill (E f))); simpl in Hin; [|done].
    destruct Hin as [<-|[]]. done.
  - intros (Hin & <-). exists [r]. split; [|by left]. exists r. simpl. by rewrite String.eqb_refl.
Qed.

(** By control, they are the records that declare it. *)
Lemma runs_of_control name files r :
  In r (runs_of "control" name files) <-> In r files /\ In name (ev_Controls (E r)).
Proof.
  unfold runs_of, subjectsOf. rewrite in_concat. setoid_rewrite in_map_iff. cbn [String.eqb].
  split.
  - intros (l & (f & <- & Hf) & Hin). apply in_map_iff in Hin as (x & <- & Hx).
    apply List.filter_In in Hx as [Hx <-%String.eqb_eq]. done.
  - intros (Hin & Hn). exists (List.map (fun _ => r) (List.filter (String.eqb name) (ev_Controls (E r)))).
    split; [by exists r|]. apply in_map_iff. exists name. split; [done|].
    apply List.filter_In. by rewrite String.eqb_refl.
Qed.

Section GateFacts.
Context {SS : SliceSort} {EC : EvidenceCodec} {CR : Crypto} {VC : EnvelopeCodec}
  (env : DiskEnv) (d : Disk).

Lemma newest_In a b p r :
  (forall x, In x a <-> In x b) -> newest a p r <-> newest b p r.
Proof. intros Hab. unfold newest. by setoid_rewrite Hab. Qed.

(** The standing depends on which runs there are, not on their order. *)
Lemma gate_ok_In a b opts now :
  (forall x, In x a <-> In x b) -> gate_ok env d opts now a -> gate_ok env d opts now b.
Proof.
  intros Hab [(r & Hr & Hv) H2 H3]. constructor.
  - exists r. rewrite (newest_In _ _ _ _ Hab) in Hr. done.
  - intros Hm. destruct (H2 Hm) as (v & Hin & ?). exists v. by rewrite <- Hab.
  - intros Hq. destruct (H3 Hq) as (s & Hl & ?). exists s. split; [|done].
    unfold leaned in *. setoid_rewrite <- Hab. by rewrite <- !(newest_In _ _ _ _ Hab).
Qed.

(** Every name is evaluated on a reordering of its group. *)
Lemma gate_loop_spec opts now runs names : forall groups,
  (forall n x, In x (group groups n) <-> In x (runs n)) ->
  Forall2 (fun n s => exists rs, (forall x, In x rs <-> In x (runs n)) /\
                      s = evaluate env d n rs opts now)
    names (gate_loop env d opts now groups names).
Proof.
  induction names as [|n r IH]; intros groups Hg; cbn [gate_loop]; constructor.
  - exists (group groups n). split; [auto|done].
  - apply IH. intros m x. unfold group at 1. destruct (decide (m = n)) as [->|Hne].
    + rewrite lookup_insert_eq. change (In x (sort_runs (group groups n)) <-> In x (runs n)).
      rewrite sort_runs_in. apply Hg.
    + rewrite lookup_insert_ne by done. apply Hg.
Qed.

Lemma count_failing_zero l : count_failing l = 0 <-> forall s, In s l -> OK s = true.
Proof.
  unfold count_failing. split.
  - intros Hz s Hs. destruct (OK s) eqn:Eo; [done|].
    assert (Hin : In s (List.filter (fun s => negb (OK s)) l))
      by (apply List.filter_In; by rewrite Eo).
    destruct (List.filter _ l); [done|]. simpl in Hz. lia.
  - intros Hall. induction l as [|s l IH]; simpl; [done|].
    rewrite (Hall s) by by left. simpl. apply IH. intros s' Hs'. apply Hall. by right.
Qed.

(** The reference point the report is made against. *)
Definition gate_now (opts : GateOptions) (wall : Time) : Time :=
  if IsZero (gate_Now opts) then wall else gate_Now opts.

Definition no_ties (runs : list evidenceFile) : Prop :=
  forall x y, In x runs -> In y runs -> FinishedAt (E x) = FinishedAt (E y) -> x = y.

Lemma gate_names_in opts groups n :
  In n (gate_names opts groups) <->
  match Subjects opts with [] => isSome (groups !! n) = true | l => In n l end.
Proof.
  unfold gate_names. rewrite <- list_elem_of_In, sort_Strings_perm.
  destruct (Subjects opts) as [|s l]; [|by rewrite list_elem_of_In].
  rewrite list_elem_of_fmap, isSome_true. split.
  - intros ([k v] & -> & Hk). apply elem_of_map_to_list in Hk. eauto.
  - intros [v Hv]. exists (n, v). split; [done|]. by apply elem_of_map_to_list.
Qed.

Lemma Gate_spec opts wall rep files :
  scanEvidence env d (gate_Dir opts) = Ok files ->
  Gate env d opts wall = Ok rep ->
  let ok n := gate_ok env d opts (gate_now opts wall) (runs_of (gate_by opts) n files) in
  let names := gate_names opts (group_files (gate_by opts) files) in
  (rep_Violations rep = 0 -> forall n, In n names -> ok n) /\
  ((forall n, In n names -> no_ties (runs_of (gate_by opts) n files) /\ ok n) ->
   rep_Violations rep = 0).
Proof.
  intros Hs Hg ok names. unfold Gate in Hg. rewrite Hs in Hg.
  destruct (negb _ && negb _); [done|]. injection Hg as <-. cbn [rep_Violations].
  rewrite count_failing_zero. fold (gate_now opts wall). fold names.
  pose proof (gate_loop_spec opts (gate_now opts wall)
    (fun n => runs_of (gate_by opts) n files) names (group_files (gate_by opts) files)) as Hl.
  specialize (Hl ltac:(intros n x; by rewrite group_files_lookup)). split.
  - intros Hall n Hn. revert Hall.
    induction Hl as [|m s ns ss (rs & Hrs & ->) _ IH]; [done|]. intros Hall.
    destruct Hn as [<-|Hn]; [|apply IH; [done|]; intros s Hs'; apply Hall; by right].
    eapply gate_ok_In; [exact Hrs|]. eapply evaluate_sound. apply Hall. by left.
  - intros Hok s Hin. revert Hok.
    induction Hl as [|m s' ns ss (rs & Hrs & ->) _ IH]; [done|]. intros Hok.
    destruct Hin as [<-|Hin]; [|apply IH; [done|]; intros n Hn; apply Hok; by right].
    destruct (Hok m (or_introl eq_refl)) as [Hties Hm]. apply evaluate_complete.
    + intros x y Hx Hy. apply Hties; by apply Hrs.
    + eapply gate_ok_In; [|exact Hm]. intros x. by rewrite Hrs.
Qed.

Lemma Gate_violations_nonneg opts wall rep : Gate env d opts wall = Ok rep -> 0 <= rep_Violations rep.
Proof.
  unfold Gate. destruct (scanEvidence env d _) as [files|e]; [|done].
  destruct (negb _ && negb _); [done|]. intros [= <-]. unfold count_failing. cbn. lia.
Qed.

Lemma Gate_total opts wall files :
  scanEvidence env d (gate_Dir opts) = Ok files ->
  gate_by opts = "drill" \/ gate_by opts = "control" -> exists rep, Gate env d opts wall = Ok rep.
Proof. intros Hs Hb. unfold Gate. rewrite Hs. destruct Hb as [-> | ->]; cbn; eauto. Qed.

(** A report exists only over a directory that could be read. *)
Lemma Gate_scans opts wall rep :
  Gate env d opts wall = Ok rep -> exists files, scanEvidence env d (gate_Dir opts) = Ok files.
Proof. unfold Gate. destruct (scanEvidence env d _) as [files|e]; [eauto|done]. Qed.
End GateFacts.
