(* ===== verification/World.v ===== *)
(** The state a drill runs in: the temporary files, the disk, and everything
    outside the process ([X]: clock, containers, network, terminal). *)

From Stdlib Require Import ZArith String.
From stdpp Require Import base option list gmap strings.
From S2P Require Import Prelude Source Disk.

Record World (X : Type) := { w_tmp : Tmp; w_disk : Disk; w_ext : X }.
Arguments w_tmp {X}. Arguments w_disk {X}. Arguments w_ext {X}.

Section Lift.
Context {X : Type}.

Definition on_tmp {A} (c : M Tmp A) : M (World X) A := fun w =>
  let '(a, t) := c (w_tmp w) in
  (a, {| w_tmp := t; w_disk := w_disk w; w_ext := w_ext w |}).

Definition on_disk {A} (c : M Disk A) : M (World X) A := fun w =>
  let '(a, d) := c (w_disk w) in
  (a, {| w_tmp := w_tmp w; w_disk := d; w_ext := w_ext w |}).

Definition on_ext {A} (c : M X A) : M (World X) A := fun w =>
  let '(a, x) := c (w_ext w) in
  (a, {| w_tmp := w_tmp w; w_disk := w_disk w; w_ext := x |}).
End Lift.
