(* ===== verification/Metrics.v ===== *)
(** Prometheus export (pkg/metrics/metrics.go): the registry of a drill's
    evidence and the two metric sinks. The Prometheus client library is
    third-party: [expose] gathers a registry and renders the exposition format,
    [push] is the Pushgateway call. *)

From Stdlib Require Import ZArith Lia Ascii String SpecFloat.
From stdpp Require Import base option list gmap strings.
From S2P Require Import Prelude GoStrings Paths Float64 Calendar Disk Spec Evidence Source World.
From S2P Require Verify.

Abbreviation Labels := (list (string * string)).

(** A gauge vector: one value per label set. *)
Record Family := {
  fam_Name : string; Help : string; label_names : list string;
  samples : list (Labels * float64)
}.

(** [g.With(l).Set(v)]: overwrites the sample of [l] when there is one. *)
Fixpoint set_sample (l : Labels) (v : float64) (ss : list (Labels * float64))
  : list (Labels * float64) :=
  match ss with
  | [] => [(l, v)]
  | (l', v') :: r => if decide (l = l') then (l, v) :: r else (l', v') :: set_sample l v r
  end.

Definition b2f (b : bool) : float64 := of_int (if b then 1 else 0).

Definition gauge (base : Labels) (name help : string) (v : float64) : Family := {|
  fam_Name := name; Help := help; label_names := base.*1; samples := set_sample base v [] |}.

Definition check_family (base : Labels) (checks : list Verify.Result) : Family := {|
  fam_Name := "firedrill_check_passed";
  Help := "1 if the check passed, 0 if it failed or was skipped.";
  label_names := base.*1 ++ ["check"];
  samples := List.fold_left
    (fun ss r => set_sample (base ++ [("check", Verify.res_Name r)]) (b2f (Verify.Passed r)) ss)
    checks [] |}.

Definition base_labels (e : Evidence) (withDrillLabel : bool) : Labels :=
  if withDrillLabel then [("drill", ev_Drill e)] else [].

Definition Registry (e : Evidence) (withDrillLabel : bool) : list Family :=
  let base := base_labels e withDrillLabel in
  [ gauge base "firedrill_drill_verified" "1 if the drill verified recovery end to end."
      (b2f (ev_Verified e));
    gauge base "firedrill_restore_duration_seconds" "Measured restore time (the drill's RTO)."
      (RestoreSeconds (ev_Measured e));
    gauge base "firedrill_backup_age_seconds" "Age of the backup at drill time (the drill's RPO)."
      (bk_AgeSecs (ev_Backup e));
    gauge base "firedrill_rto_met" "1 if the measured restore time met the RTO objective."
      (b2f (RTOMet (ev_Measured e)));
    gauge base "firedrill_rpo_met" "1 if the backup age met the RPO objective."
      (b2f (RPOMet (ev_Measured e)));
    gauge base "firedrill_drill_timestamp_seconds" "Unix time the drill finished."
      (of_int (Unix (FinishedAt e)));
    check_family base (ev_Checks e) ].

Section Exporting.
Context {X : Type} (env : DiskEnv)
  (expose : list Family -> result string)
  (push : string -> string -> Labels -> list Family -> M X (option error)).

Definition prom_path (dir drill : string) : string :=
  Join2 dir ("firedrill-" +:+ drill +:+ ".prom").

Definition textfile_calls (reg : list Family) (dir drill : string)
  : DiskProg (option error) :=
  match expose reg with
  | Err e => Done (Some e)
  | Ok text =>
      match MkdirErr env dir with
      | Some e => Done (Some e)
      | None =>
          let final := prom_path dir drill in
          let tmp := final +:+ ".tmp" in
          Do (OpWrite tmp text) (fun werr =>
            match werr with
            | Some e => Done (Some e)
            | None => Do (OpRename tmp final) (fun rerr => Done rerr)
            end)
      end
  end.

Definition writeTextfile (reg : list Family) (dir drill : string) : M Disk (option error) :=
  exec env (textfile_calls reg dir drill).

Definition export_one (e : Evidence) (s : Sink) : M (World X) (option error) :=
  if String.eqb (sink_Type s) "prometheus" then
    on_disk (writeTextfile (Registry e true) (TextfileDir s) (ev_Drill e))
  else if String.eqb (sink_Type s) "pushgateway" then
    on_ext (push (sink_URL s) "firedrill" [("drill", ev_Drill e)] (Registry e false))
  else mret (Some (ENew ("unsupported sink type " +:+ quote (sink_Type s)))).

(** One error per failed sink. *)
Fixpoint Export (e : Evidence) (sinks : list Sink) : M (World X) (list error) :=
  match sinks with
  | [] => mret []
  | s :: r =>
      let! err := export_one e s in
      let! errs := Export e r in
      mret (match err with
            | Some x => EWrap ("sink " +:+ sink_Type s +:+ ": ") x "" :: errs
            | None => errs
            end)
  end.
End Exporting.

(** * Facts *)

(** The sample of a label set is the last value set for it. *)
Fixpoint lookup_sample (l : Labels) (ss : list (Labels * float64)) : option float64 :=
  match ss with
  | [] => None
  | (l', v) :: r => if decide (l = l') then Some v else lookup_sample l r
  end.

Lemma lookup_set_sample l l' v ss :
  lookup_sample l' (set_sample l v ss) = if decide (l' = l) then Some v else lookup_sample l' ss.
Proof.
  induction ss as [|[l0 v0] r IH]; simpl.
  - done.
  - destruct (decide (l = l0)) as [->|Hne]; simpl.
    + destruct (decide (l' = l0)); done.
    + rewrite IH. destruct (decide (l' = l0)) as [->|]; destruct (decide _); congruence.
Qed.

Lemma check_sample_last base checks n :
  lookup_sample (base ++ [("check", n)]) (samples (check_family base checks)) =
  option_map (fun r => b2f (Verify.Passed r))
    (last (List.filter (fun r => String.eqb (Verify.res_Name r) n) checks)).
Proof.
  unfold check_family. cbn [samples].
  induction checks as [|r checks IH] using rev_ind; [done|].
  rewrite fold_left_app, List.filter_app. cbn [List.fold_left List.filter].
  rewrite lookup_set_sample, IH.
  destruct (String.eqb_spec (Verify.res_Name r) n) as [->|Hne].
  - destruct (decide _); [|done]. by rewrite last_snoc.
  - rewrite app_nil_r. destruct (decide _) as [He|]; [|done].
    apply app_inv_head in He. injection He as He. by symmetry in He.
Qed.

Section ExportFacts.
Context {X : Type} (env : DiskEnv) (expose : list Family -> result string)
  (push : string -> string -> Labels -> list Family -> M X (option error)).

(** The scraped file is never partial: it is what it was or the whole text. *)
Lemma textfile_atomic reg dir drill d d' :
  crashes env (textfile_calls env expose reg dir drill) d d' ->
  d' !! prom_path dir drill = d !! prom_path dir drill \/
  exists text, expose reg = Ok text /\ d' !! prom_path dir drill = Some text.
Proof.
  unfold textfile_calls. destruct (expose reg) as [text|]; [|intros ->%crashes_Done; by left].
  destruct (MkdirErr env dir); [intros ->%crashes_Done; by left|]. cbv zeta.
  intros [?|?]%(write_rename_atomic _ _ _ _ Some); [by left|right; eauto|apply tmp_differs].
Qed.
End ExportFacts.
