(* ===== verification/Notify.v ===== *)
(** Notification sinks (pkg/notify/slack.go, webhook.go). The HTTP client and
    the environment are parameters; the request carries what the code puts in
    it. *)

From Stdlib Require Import ZArith Lia Ascii String SpecFloat.
From stdpp Require Import base option list strings.
From S2P Require Import Prelude GoStrings PathMatch Float64 Spec Evidence.
From S2P Require Verify.

(** * JSON strings

    [encoding/json] with HTML escaping: control characters, quotes,
    backslashes, [<], [>], [&] and the two line separators are escaped, invalid
    UTF-8 becomes U+FFFD. *)

Definition hex4 (v : Z) : string :=
  String (hex_char true (v / 4096)) (String (hex_char true (v / 256 mod 16))
    (String (hex_char true (v / 16 mod 16)) (String (hex_char true (v mod 16)) EmptyString))).

Definition json_byte (c : ascii) : string :=
  let v := byte_val c in
  if Ascii.eqb c dquote then String backslash (String dquote EmptyString)
  else if Ascii.eqb c backslash then String backslash (String backslash EmptyString)
  else if v =? 8 then "\b" else if v =? 12 then "\f"
  else if v =? 10 then "\n" else if v =? 13 then "\r" else if v =? 9 then "\t"
  else if (v <? 32) || (v =? 60) || (v =? 62) || (v =? 38) then "\u" +:+ hex4 v
  else String c EmptyString.

Fixpoint json_runes (fuel : nat) (s : string) : string :=
  match fuel, s with
  | S k, String c r =>
      if byte_val c <? 128 then json_byte c +:+ json_runes k r
      else
        let '(rune, width) := DecodeRune s in
        (if (width =? 1)%nat then "\ufffd"
         else if (rune =? 8232) || (rune =? 8233) then "\u" +:+ hex4 rune
         else take_bytes width s) +:+ json_runes k (drop_bytes width s)
  | _, _ => EmptyString
  end.

(** Every round consumes a byte, so the length is enough fuel. *)
Definition json_string (s : string) : string :=
  String dquote (json_runes (String.length s) s +:+ String dquote EmptyString).

Example json1 : json_string ("a<" +:+ nl) = String dquote ("a\u003c\n" +:+ String dquote EmptyString).
Proof. vm_compute. reflexivity. Qed.
Example json2 : json_string (bs [226; 128; 168; 255; 195; 169]) =
  String dquote ("\u2028\ufffd" +:+ bs [195; 169] +:+ String dquote EmptyString).
Proof. vm_compute. reflexivity. Qed.

(** * Messages *)

Definition met (ok : bool) : string := if ok then "met" else "missed".

Definition truncate (s : string) (n : Z) : string :=
  if len s <=? n then s else take_bytes (Z.to_nat n) s +:+ "…".

Definition failed_checks (e : Evidence) : list Verify.Result :=
  List.filter (fun c => negb (Verify.Passed c) && negb (Verify.Skipped c)) (ev_Checks e).

Definition Message (e : Evidence) : string :=
  let m := ev_Measured e in
  let o := ev_Objectives e in
  let rto := Round (of_seconds (RestoreSeconds m)) Second in
  let age := Round (of_seconds (bk_AgeSecs (ev_Backup e))) Minute in
  let failed := List.map (fun c => "`" +:+ Verify.res_Name c +:+ "` (" +:+ Verify.Detail c +:+ ")")
                  (failed_checks e) in
  (if ev_Verified e
   then ":white_check_mark: *FireDrill: recovery verified* — drill `" +:+ ev_Drill e +:+ "`" +:+ nl
   else ":rotating_light: *FireDrill: recovery NOT verified* — drill `" +:+ ev_Drill e +:+ "`" +:+ nl) +:+
  "> RTO " +:+ Duration_String rto +:+ " (target " +:+ obj_RTO o +:+ ", " +:+ met (RTOMet m) +:+
  ") · RPO " +:+ Duration_String age +:+ " (target " +:+ obj_RPO o +:+ ", " +:+ met (RPOMet m) +:+
  ")" +:+ nl +:+
  (match failed with [] => EmptyString
   | _ => "> failed checks: " +:+ Join failed ", " +:+ nl end) +:+
  (if is_empty (ev_Error e) then EmptyString
   else "> error: " +:+ truncate (ev_Error e) 300 +:+ nl).

Definition event (e : Evidence) : string :=
  if ev_Verified e then "drill.verified" else "drill.failed".

(** * Requests *)

Record Request := {
  Method : string; req_URL : string; Header : list (string * string); req_Body : string }.

Record Response := { StatusCode : Z; Status : string }.

Section Notify.
Context {X : Type} {EC : EvidenceCodec}
  (Getenv : string -> string)
  (NewRequestErr : string -> option error)   (* a URL that does not parse *)
  (Do : Request -> M X (result Response)).

Definition slack_body (e : Evidence) : string :=
  "{" +:+ json_string "text" +:+ ":" +:+ json_string (Message e) +:+ "}".

Definition Slack (e : Evidence) (sink : Sink) : M X (option error) :=
  if OnlyFailures sink && ev_Verified e then mret None
  else
    let url := Getenv (WebhookEnv sink) in
    if is_empty url then
      mret (Some (ENew ("slack sink: env var " +:+ WebhookEnv sink +:+ " is empty or unset")))
    else
      match NewRequestErr url with
      | Some err => mret (Some err)
      | None =>
          let! r := Do {| Method := "POST"; req_URL := url;
                          Header := [("Content-Type", "application/json")];
                          req_Body := slack_body e |} in
          mret match r with
               | Err err => Some (EWrap "slack sink: " err "")
               | Ok resp =>
                   if 300 <=? StatusCode resp
                   then Some (ENew ("slack sink: webhook returned " +:+ Status resp))
                   else None
               end
      end.

Definition Webhook (e : Evidence) (sink : Sink) : M X (option error) :=
  if OnlyFailures sink && ev_Verified e then mret None
  else
    let url := Getenv (URLEnv sink) in
    if is_empty url then
      mret (Some (ENew ("webhook sink: env var " +:+ URLEnv sink +:+ " is empty or unset")))
    else
      match Canonical e with
      | Err err => mret (Some (EWrap "webhook sink: " err ""))
      | Ok body =>
          match NewRequestErr url with
          | Some err => mret (Some err)
          | None =>
              let! r := Do {| Method := "POST"; req_URL := url;
                              Header := [("Content-Type", "application/json");
                                         ("User-Agent", "firedrill");
                                         ("X-FireDrill-Event", event e);
                                         ("X-FireDrill-Drill", ev_Drill e)];
                              req_Body := body |} in
              mret match r with
                   | Err err => Some (EWrap "webhook sink: " err "")
                   | Ok resp =>
                       if 300 <=? StatusCode resp
                       then Some (ENew ("webhook sink: " +:+ URLEnv sink +:+ " returned " +:+
                                        Status resp))
                       else None
                   end
          end
      end.
End Notify.
