(* ===== verification/Print.v ===== *)
(** Terminal output of a drill (pkg/report/print.go) and the HTML report file
    (html.go). *)

From Stdlib Require Import ZArith Lia Ascii String SpecFloat.
From stdpp Require Import base option list gmap strings.
From S2P Require Import Prelude GoStrings Float64 Disk Evidence.

Definition esc : string := String "027"%char EmptyString.
Definition green : string := esc +:+ "[32m".
Definition red : string := esc +:+ "[31m".
Definition dim : string := esc +:+ "[2m".
Definition bold : string := esc +:+ "[1m".
Definition reset : string := esc +:+ "[0m".

Section Printer.
(** [W] is the destination of the text; [Color] the printer's flag. *)
Context {X : Type} (W : string -> M X unit) (Color : bool).

Definition paint (code s : string) : string := if Color then code +:+ s +:+ reset else s.

(** At least one dot; the action's bytes are counted. *)
Definition dots (action : string) : string :=
  repeat_string "." (Z.to_nat (Z.max 1 (52 - len action))).

Definition step_line (action outcome : string) (ok : bool) : string :=
  "▸ " +:+ action +:+ " " +:+ paint dim (dots action) +:+ " " +:+
  paint (if ok then green else red) outcome +:+ nl.

Definition Step (action outcome : string) (ok : bool) : M X unit :=
  W (step_line action outcome ok).

(** [Info] of an already formatted text. *)
Definition Info (text : string) : M X unit := W ("▸ " +:+ text +:+ nl).

Definition check_mark (ok : bool) : string :=
  if ok then paint green "✓" else paint red "✗".

Definition summary_text (e : Evidence) (evidencePath : string) (signed : bool) : string :=
  let m := ev_Measured e in
  let o := ev_Objectives e in
  let rto := Round (of_seconds (RestoreSeconds m)) Second in
  let age := Round (of_seconds (bk_AgeSecs (ev_Backup e))) Minute in
  "▸ measured RTO " +:+ Duration_String rto +:+ " (target " +:+ obj_RTO o +:+ " " +:+
  check_mark (RTOMet m) +:+ ")   RPO " +:+ Duration_String age +:+ " (target " +:+ obj_RPO o +:+
  " " +:+ check_mark (RPOMet m) +:+ ")" +:+ nl +:+
  "▸ evidence " +:+ evidencePath +:+
  (if signed then "  " +:+ paint dim "(signed ✓)" else EmptyString) +:+ nl +:+
  (if ev_Verified e
   then paint (bold +:+ green) "✔ RECOVERY VERIFIED — sandbox destroyed"
   else paint (bold +:+ red) "✘ RECOVERY FAILED — see evidence for details") +:+ nl.

Definition Summary (e : Evidence) (evidencePath : string) (signed : bool) : M X unit :=
  W (summary_text e evidencePath signed).
End Printer.

(** * The HTML report

    [render] is the template engine on the embedded template. *)

Definition html_path (evidencePath : string) : string := TrimSuffix evidencePath ".json" +:+ ".html".

Definition WriteHTML (env : DiskEnv) (render : Evidence -> result string) (e : Evidence)
  (evidencePath : string) : M Disk (result string) :=
  match render e with
  | Err err =>
      let! _ := WriteFile env (html_path evidencePath) EmptyString in mret (Err err)
  | Ok text =>
      let! werr := WriteFile env (html_path evidencePath) text in
      mret match werr with Some err => Err err | None => Ok (html_path evidencePath) end
  end.

Lemma html_path_ne p : html_path p <> p.
Proof.
  unfold html_path, TrimSuffix. destruct (CutSuffix ".json" p) as [r|] eqn:E.
  - apply CutSuffix_spec in E as ->. intros H. by apply sapp_inj_l in H.
  - intros H. apply (f_equal String.length) in H. rewrite slen_app in H. simpl in H. lia.
Qed.

(** The summary speaks of the verdict only: the same words whatever became of
    the sandbox. *)
Definition with_destroyed (b : bool) (e : Evidence) : Evidence := {|
  ev_Drill := ev_Drill e; ev_Tool := ev_Tool e; StartedAt := StartedAt e;
  FinishedAt := FinishedAt e; ev_Backup := ev_Backup e; ev_Objectives := ev_Objectives e;
  ev_Measured := ev_Measured e;
  ev_Sandbox := {| sbx_Provider := sbx_Provider (ev_Sandbox e);
                   sbx_Image := sbx_Image (ev_Sandbox e); sbx_Destroyed := b |};
  ev_Checks := ev_Checks e; ev_Controls := ev_Controls e; ev_Verified := ev_Verified e;
  ev_Error := ev_Error e |}.

Lemma summary_ignores_teardown color e b path signed :
  summary_text color (with_destroyed b e) path signed = summary_text color e path signed.
Proof. reflexivity. Qed.
