(* ===== verification/Interfaces.v ===== *)
(** The interfaces between the orchestrator, the drivers and the sandbox
    providers (pkg/drivers/driver.go, pkg/sandbox/sandbox.go).

    Of the contexts only those of the teardown are passed, which must not be the
    cancelled one. Every other call is made under the context of the command: that
    it is cancelled or expired shows as an error of the call that observes it. *)

From Stdlib Require Import ZArith String.
From stdpp Require Import base option list gmap strings.
From S2P Require Import Prelude GoStrings Spec.
From S2P Require Verify Source.

(** A running sandbox: the driver's view ([Exec] gives the exit code, the
    output and an error) and lifecycle control. *)
Record SandboxI (W : Type) := {
  Exec : list string -> option Source.Reader -> M W (Z * string * option error);
  Host : string;
  HostPort : string;
  User : string;
  Password : string;
  DB : string;
  Destroy : Ctx -> M W (option error);
  WasDestroyed : W -> bool
}.
Arguments Exec {W}. Arguments Host {W}. Arguments HostPort {W}. Arguments User {W}.
Arguments Password {W}. Arguments DB {W}. Arguments Destroy {W}. Arguments WasDestroyed {W}.

Record RestoreResult := {
  res_Duration : Duration;
  res_Output : string;
  res_Format : string;
  DSN : string
}.

(** What [Restore] returns: a result, or an error and perhaps a result. Every
    driver of the repository returns a result with a nil error. *)
Inductive RestoreOut : Type :=
| Restored (r : RestoreResult)
| RestoreFailed (r : option RestoreResult) (e : error).

Definition restore_result (o : RestoreOut) : option RestoreResult :=
  match o with Restored r => Some r | RestoreFailed r _ => r end.

Definition restore_err (o : RestoreOut) : option error :=
  match o with Restored _ => None | RestoreFailed _ e => Some e end.

(** The verification path of a driver, in the order of the type switch. *)
Inductive VerifyPath (W : Type) : Type :=
| Verifier (engine : SandboxI W -> Source -> Verify.Engine W)
| SQLCapable (sqlDriver : string) (dsn : SandboxI W -> string)
    (checksumQuery : string -> string -> string)
| NoPath.
Arguments Verifier {W}. Arguments SQLCapable {W}. Arguments NoPath {W}.

Record Driver (W : Type) := {
  drv_Name : string;
  ContainerEnv : string -> string -> string -> list string;
  Port : string;
  ReadyCmds : string -> string -> string -> list (list string);
  Restore : SandboxI W -> string -> Source -> M W RestoreOut;
  verification : VerifyPath W
}.
Arguments drv_Name {W}. Arguments ContainerEnv {W}. Arguments Port {W}.
Arguments ReadyCmds {W}. Arguments Restore {W}. Arguments verification {W}.

(** * The driver registry *)

Section Registry.
Context {W : Type}.

Definition Register (d : Driver W) (reg : gmap string (Driver W)) : gmap string (Driver W) :=
  <[drv_Name d := d]> reg.

Definition Get (reg : gmap string (Driver W)) (name : string) : result (Driver W) :=
  match reg !! name with
  | Some d => Ok d
  | None => Err (ENew ("unknown driver " +:+ quote name))
  end.

(** Map iteration order is unspecified in Go; one order is fixed here. *)
Definition Names (reg : gmap string (Driver W)) : list string := (map_to_list reg).*1.

Lemma Get_Register d reg n :
  Get (Register d reg) n = if decide (n = drv_Name d) then Ok d else Get reg n.
Proof.
  unfold Get, Register. destruct (decide (n = drv_Name d)) as [->|Hne].
  - by rewrite lookup_insert_eq.
  - by rewrite lookup_insert_ne.
Qed.

Lemma Names_in reg n : In n (Names reg) <-> is_ok (Get reg n) = true.
Proof.
  unfold Names, Get. rewrite <- list_elem_of_In, list_elem_of_fmap. split.
  - intros ([k d] & -> & H). apply elem_of_map_to_list in H. simpl. by rewrite H.
  - destruct (reg !! n) as [d|] eqn:E; [|done]. intros _. exists (n, d). split; [done|].
    by apply elem_of_map_to_list.
Qed.
End Registry.

(** * Sandbox configuration *)

Record Config (W : Type) := {
  cfg_Image : string;
  cfg_TTL : Duration;
  cfg_Name : string;
  cfg_Driver : Driver W;
  cfg_Namespace : string;
  ColdStart : bool
}.
Arguments cfg_Image {W}. Arguments cfg_TTL {W}. Arguments cfg_Name {W}.
Arguments cfg_Driver {W}. Arguments cfg_Namespace {W}. Arguments ColdStart {W}.

(** A prepared Velero drill: the restored namespace and its lifecycle. *)
Record VeleroDrill (W : Type) := {
  TargetNS : string;
  vd_BackupAge : Duration;
  vd_Restore : M W RestoreOut;
  Clients : Verify.K8sClient W;
  vd_Destroy : Ctx -> M W (option error);
  vd_WasDestroyed : W -> bool
}.
Arguments TargetNS {W}. Arguments vd_BackupAge {W}. Arguments vd_Restore {W}.
Arguments Clients {W}. Arguments vd_Destroy {W}. Arguments vd_WasDestroyed {W}.
