(* ===== verification/Drill.v ===== *)
(** The orchestrator (pkg/drill/drill.go, velero.go): fetch, provision, restore,
    verify, destroy, report.

    Deferred calls run when the function returns, last first; the evidence is a
    pointer, so the deferred teardown also updates the record the caller gets.
    [Panicked] is the nil dereference of the object listing. *)

From Stdlib Require Import ZArith Lia Ascii String SpecFloat.
From stdpp Require Import base option list gmap strings.
From S2P Require Import Prelude GoStrings Float64 Spec Disk Evidence World Interfaces Print.
From S2P Require Verify Source Sign Metrics Notify.

Record Options (X : Type) := {
  Printer : option ((string -> M X unit) * bool);   (* destination and colour *)
  opt_EvidenceDir : string;
  opt_KeyDir : string;
  opt_Version : string
}.
Arguments Printer {X}. Arguments opt_EvidenceDir {X}. Arguments opt_KeyDir {X}.
Arguments opt_Version {X}.

Inductive outcome : Type :=
| Ran (e : option Evidence) (path : string) (err : option error)
| Panicked.

(** * Evidence updates *)

Definition set_backup (b : EvBackup) (e : Evidence) : Evidence := {|
  ev_Drill := ev_Drill e; ev_Tool := ev_Tool e; StartedAt := StartedAt e;
  FinishedAt := FinishedAt e; ev_Backup := b; ev_Objectives := ev_Objectives e;
  ev_Measured := ev_Measured e; ev_Sandbox := ev_Sandbox e; ev_Checks := ev_Checks e;
  ev_Controls := ev_Controls e; ev_Verified := ev_Verified e; ev_Error := ev_Error e |}.

Definition set_image (img : string) (e : Evidence) : Evidence := {|
  ev_Drill := ev_Drill e; ev_Tool := ev_Tool e; StartedAt := StartedAt e;
  FinishedAt := FinishedAt e; ev_Backup := ev_Backup e; ev_Objectives := ev_Objectives e;
  ev_Measured := ev_Measured e;
  ev_Sandbox := {| sbx_Provider := sbx_Provider (ev_Sandbox e); sbx_Image := img;
                   sbx_Destroyed := sbx_Destroyed (ev_Sandbox e) |};
  ev_Checks := ev_Checks e; ev_Controls := ev_Controls e; ev_Verified := ev_Verified e;
  ev_Error := ev_Error e |}.

Definition set_restore (res : option RestoreResult) (e : Evidence) : Evidence :=
  match res with
  | None => e
  | Some r => {|
      ev_Drill := ev_Drill e; ev_Tool := ev_Tool e; StartedAt := StartedAt e;
      FinishedAt := FinishedAt e; ev_Backup := ev_Backup e; ev_Objectives := ev_Objectives e;
      ev_Measured := {| RestoreSeconds := Seconds (res_Duration r);
                        RTOMet := RTOMet (ev_Measured e); RPOMet := RPOMet (ev_Measured e) |};
      ev_Sandbox := ev_Sandbox e; ev_Checks := ev_Checks e; ev_Controls := ev_Controls e;
      ev_Verified := ev_Verified e; ev_Error := ev_Error e |}
  end.

Definition set_checks (cs : list Verify.Result) (e : Evidence) : Evidence := {|
  ev_Drill := ev_Drill e; ev_Tool := ev_Tool e; StartedAt := StartedAt e;
  FinishedAt := FinishedAt e; ev_Backup := ev_Backup e; ev_Objectives := ev_Objectives e;
  ev_Measured := ev_Measured e; ev_Sandbox := ev_Sandbox e; ev_Checks := cs;
  ev_Controls := ev_Controls e; ev_Verified := ev_Verified e; ev_Error := ev_Error e |}.

(** * The verdict *)

Definition dataCheckNames : list string :=
  ["rowCount"; "checksum"; "smoke"; "canary"; "podsReady"; "resourceCount"].

(** The check loop of [finalize]: the running verdict and [dataProven]. *)
Definition verdict_step (st : bool * bool) (r : Verify.Result) : bool * bool :=
  let '(verified, dataProven) := st in
  let verified := if negb (Verify.Passed r) && negb (Verify.Skipped r) then false else verified in
  let verified := if Verify.Skipped r then false else verified in
  (verified, if Verify.Passed r && str_in (Verify.res_Name r) dataCheckNames then true
             else dataProven).

Definition rto_met (restoreErr : option error) (dur rto : Duration) : bool :=
  negb (isSome restoreErr) && (dur <=? rto).

Definition verdict (restoreErr : option error) (rtoMet rpoMet : bool)
  (checks : list Verify.Result) : bool :=
  let '(verified, dataProven) :=
    List.fold_left verdict_step checks (negb (isSome restoreErr) && rtoMet && rpoMet, false) in
  if dataProven then verified else false.

(** The record [finalize] writes. *)
Definition finalized (d : Drill) (e : Evidence) (restoreErr : option error)
  (restoreDur backupAge : Duration) (now : Time) : Evidence :=
  let o := spec_Objectives (drill_Spec d) in
  let rtoMet := rto_met restoreErr restoreDur (RTO o) in
  let rpoMet := backupAge <=? RPO o in
  {| ev_Drill := ev_Drill e; ev_Tool := ev_Tool e; StartedAt := StartedAt e;
     FinishedAt := now; ev_Backup := ev_Backup e; ev_Objectives := ev_Objectives e;
     ev_Measured := {| RestoreSeconds := RestoreSeconds (ev_Measured e);
                       RTOMet := rtoMet; RPOMet := rpoMet |};
     ev_Sandbox := ev_Sandbox e; ev_Checks := ev_Checks e; ev_Controls := ev_Controls e;
     ev_Verified := verdict restoreErr rtoMet rpoMet (ev_Checks e);
     ev_Error := match restoreErr with Some err => Error err | None => ev_Error e end |}.

Definition status_of (r : Verify.Result) : string :=
  if Verify.Skipped r then "SKIP" else if negb (Verify.Passed r) then "FAIL" else "PASS".

Definition check_line (r : Verify.Result) : string :=
  "verify   " +:+ Verify.res_Name r +:+ "  (" +:+ Verify.Detail r +:+ ")".

Section Drill.
Context {X : Type} {CK : Verify.Clock (World X)} {EC : EvidenceCodec} {CR : Sign.Crypto}
  {VC : Sign.EnvelopeCodec}.

Abbreviation W := (World X).

(** Everything the drill calls outside the code modelled here. *)
Record Deps := {
  disk : DiskEnv;
  codecs : Source.Codecs;
  os : Source.OS;
  connect : Source.S3Options -> result Source.S3Client;
  registry : gmap string (Driver W);
  docker_Provision : Config W -> M W (result (SandboxI W));
  k8s_Provision : Config W -> M W (result (SandboxI W));
  velero_Prepare : string -> string -> string -> Duration -> M W (result (VeleroDrill W));
  sql_Open : string -> string -> M W (result (Verify.sqlDB W));
  sql_Close : Verify.sqlDB W -> M W unit;
  UserHomeDir : result string;
  render_html : Evidence -> result string;
  expose : list Metrics.Family -> result string;
  push : string -> string -> Metrics.Labels -> list Metrics.Family -> M X (option error);
  NewRequestErr : string -> option error;
  http_Do : Notify.Request -> M X (result Notify.Response)
}.

Context (dp : Deps).

(** [if p != nil { ... }] *)
Definition printing (o : Options X) (f : (string -> M X unit) -> bool -> M X unit) : M W unit :=
  match Printer o with Some (dst, color) => on_ext (f dst color) | None => mret tt end.

Definition info (o : Options X) (text : string) : M W unit :=
  printing o (fun dst _ => Info dst text).

Definition step (o : Options X) (action result_ : string) (ok : bool) : M W unit :=
  printing o (fun dst color => Step dst color action result_ ok).

Definition warn (o : Options X) (what : string) (e : option error) : M W unit :=
  match e with Some err => info o (what +:+ Error err) | None => mret tt end.

(** ** Signing and rendering *)

Definition sign_evidence (o : Options X) (path : string) : M W (option error) :=
  let keyDir := if is_empty (opt_KeyDir o) then Sign.DefaultKeyDir (UserHomeDir dp)
                else Ok (opt_KeyDir o) in
  match keyDir with
  | Err err => mret (Some err)
  | Ok dir =>
      let! k := on_disk (fun d => (Sign.LoadPrivateKey (disk dp) dir d, d)) in
      match k with
      | Err err => mret (Some err)
      | Ok priv =>
          let! s := on_disk (Sign.Sign (disk dp) path priv) in
          match s with
          | Err err => mret (Some (EWrap "signing evidence: " err ""))
          | Ok _ =>
              let! a := on_disk (Sign.Attest (disk dp) path priv) in
              mret match a with
                   | Err err => Some (EWrap "attesting evidence: " err "")
                   | Ok _ => None
                   end
          end
      end
  end.

Definition html_report (o : Options X) (e : Evidence) (path : string) : M W (option error) :=
  let! r := on_disk (WriteHTML (disk dp) (render_html dp) e path) in
  match r with
  | Err err => mret (Some (EWrap "writing html report: " err ""))
  | Ok p => let! _ := info o ("report   " +:+ p) in mret None
  end.

(** ** Sinks

    Failures are warnings. The other types are collected, in order. *)
Fixpoint notify_sinks (o : Options X) (e : Evidence) (ss : list Sink) : M W (list Sink) :=
  match ss with
  | [] => mret []
  | s :: r =>
      if String.eqb (sink_Type s) "slack" then
        let! serr := on_ext (Notify.Slack (Source.Getenv (os dp)) (NewRequestErr dp)
                               (http_Do dp) e s) in
        let! _ := warn o "warning: " serr in notify_sinks o e r
      else if String.eqb (sink_Type s) "webhook" then
        let! serr := on_ext (Notify.Webhook (Source.Getenv (os dp)) (NewRequestErr dp)
                               (http_Do dp) e s) in
        let! _ := warn o "warning: " serr in notify_sinks o e r
      else
        let! rest := notify_sinks o e r in mret (s :: rest)
  end.

Fixpoint warn_all (o : Options X) (errs : list error) : M W unit :=
  match errs with
  | [] => mret tt
  | err :: r => let! _ := warn o "warning: metrics " (Some err) in warn_all o r
  end.

Definition export_sinks (o : Options X) (e : Evidence) (sinks : list Sink) : M W unit :=
  let! metricSinks := notify_sinks o e sinks in
  let! errs := Metrics.Export (disk dp) (expose dp) (push dp) e metricSinks in
  warn_all o errs.

(** ** [finalize] *)

Definition finalize (d : Drill) (o : Options X) (e : Evidence) (restoreErr : option error)
  (restoreDur backupAge : Duration) : M W outcome :=
  let! now := Verify.Now in
  let e := finalized d e restoreErr restoreDur backupAge now in
  let rep := spec_Report (drill_Spec d) in
  let dir := if is_empty (opt_EvidenceDir o) then Dir rep else opt_EvidenceDir o in
  let! wr := on_disk (Write (disk dp) e dir) in
  match wr with
  | Err err => mret (Ran (Some e) EmptyString (Some (EWrap "writing evidence: " err "")))
  | Ok path =>
      let! serr := if Spec.Sign rep then sign_evidence o path else mret None in
      match serr with
      | Some err => mret (Ran (Some e) path (Some err))
      | None =>
          let! herr := if HTML rep then html_report o e path else mret None in
          match herr with
          | Some err => mret (Ran (Some e) path (Some err))
          | None =>
              let! _ := export_sinks o e (Sinks rep) in
              mret (Ran (Some e) path None)
          end
      end
  end.

(** ** Teardown

    [Destroy] under [context.Background()], so that a cancelled drill is torn down
    all the same, then the sandbox's fate. *)
Definition teardown_of (o : Options X) (what : string) (destroy : M W (option error))
  (was : W -> bool) : M W bool :=
  let! derr := destroy in
  let! _ := warn o ("warning: " +:+ what +:+ " teardown: ") derr in
  fun w => (was w, w).

Definition teardown (o : Options X) (sb : SandboxI W) : M W bool :=
  teardown_of o "sandbox" (Destroy sb Background) (WasDestroyed sb).

Definition outcome_destroyed (destroyed : bool) (out : outcome) : outcome :=
  match out with
  | Ran (Some e) p err => Ran (Some (with_destroyed destroyed e)) p err
  | o => o
  end.

(** [defer teardown()] *)
Definition with_teardown (td : M W bool) (body : M W outcome) : M W outcome :=
  let! out := body in
  let! destroyed := td in
  mret (outcome_destroyed destroyed out).

Definition print_checks (o : Options X) (cs : list Verify.Result) : M W unit :=
  List.fold_right (fun r k =>
    let! _ := step o (check_line r) (status_of r) (Verify.Passed r || Verify.Skipped r) in k)
    (mret tt) cs.

Definition print_provision (o : Options X) (what : string) (t0 : Time) : M W unit :=
  match Printer o with
  | None => mret tt
  | Some _ =>
      let! t := Verify.Now in
      step o what ("ok   " +:+ format_fixed 1 (Seconds (Sub t t0)) +:+ "s") true
  end.

(** ** Engine drills *)

Definition new_evidence (d : Drill) (o : Options X) (now : Time) : Evidence :=
  let sp := drill_Spec d in
  {| ev_Drill := drill_Name d; ev_Tool := "firedrill " +:+ opt_Version o;
     StartedAt := now; FinishedAt := zero_time;
     ev_Backup := {| bk_URI := ""; bk_ModTime := zero_time; bk_AgeSecs := of_int 0; bk_Bytes := 0;
                     bk_ResolvedURI := ""; bk_Encryption := ""; bk_Compression := "";
                     bk_UncompressedBytes := 0 |};
     ev_Objectives := {| obj_RTO := Duration_String (RTO (spec_Objectives sp));
                         obj_RPO := Duration_String (RPO (spec_Objectives sp)) |};
     ev_Measured := {| RestoreSeconds := of_int 0; RTOMet := false; RPOMet := false |};
     ev_Sandbox := {| sbx_Provider := Provider (spec_Sandbox sp);
                      sbx_Image := Image (spec_Sandbox sp); sbx_Destroyed := false |};
     ev_Checks := []; ev_Controls := Controls (spec_Report sp); ev_Verified := false;
     ev_Error := "" |}.

Definition backup_record (d : Drill) (b : Source.Backup) (age : Duration) : EvBackup :=
  let uri := URI (src_From (spec_Source (drill_Spec d))) in
  {| bk_URI := uri; bk_ModTime := Source.ModTime b; bk_AgeSecs := Seconds age;
     bk_Bytes := Source.Size b;
     bk_ResolvedURI := if String.eqb (Source.ResolvedURI b) uri then "" else Source.ResolvedURI b;
     bk_Encryption := Source.Encryption b; bk_Compression := Source.Compression b;
     bk_UncompressedBytes := Source.UncompressedBytes b |}.

Definition restore_label (b : Source.Backup) : string :=
  Source.ResolvedURI b +:+
  (if is_empty (Source.Layers b) then EmptyString else " (" +:+ Source.Layers b +:+ ")").

Definition print_restore (o : Options X) (b : Source.Backup) (r : RestoreOut) : M W unit :=
  match r with
  | Restored res =>
      step o ("restore  " +:+ restore_label b)
        ("ok   " +:+ Duration_String (Round (res_Duration res) Second)) true
  | RestoreFailed _ _ => step o ("restore  " +:+ restore_label b) "FAIL" false
  end.

(** The verification engine: nothing when the restore failed, [Err] when the
    drill cannot go on. [snd] is the deferred [db.Close]. *)
Definition open_engine (drv : Driver W) (sb : SandboxI W) (src : Source) (r : RestoreOut)
  : M W (result (option (Verify.Engine W) * M W unit)) :=
  match r with
  | RestoreFailed _ _ => mret (Ok (None, mret tt))
  | Restored res =>
      match verification drv with
      | Verifier engine => mret (Ok (Some (engine sb src), mret tt))
      | SQLCapable sqlDriver dsn checksumQuery =>
          let dsn := if is_empty (DSN res) then dsn sb else DSN res in
          let! r := sql_Open dp sqlDriver dsn in
          mret match r with
               | Err e => Err (EWrap "connecting to sandbox: " e "")
               | Ok db => Ok (Verify.NewSQL (Some db) (Some checksumQuery), sql_Close dp db)
               end
      | NoPath =>
          mret (Err (ENew ("driver " +:+ drv_Name drv +:+ " supports no verification path")))
      end
  end.

Definition engine_context (d : Drill) (r : RestoreOut) (age : Duration) : Verify.Context W := {|
  Verify.RestoreErr := restore_err r; Verify.BackupAge := age;
  Verify.ctx_RTO := RTO (spec_Objectives (drill_Spec d));
  Verify.K8s := None; Verify.ctx_Namespace := EmptyString |}.

Definition restore_dur (r : RestoreOut) : Duration :=
  match restore_result r with Some res => res_Duration res | None => 0 end.

(** Verify, destroy, report. *)
Definition verify_and_report (d : Drill) (o : Options X) (e : Evidence) (td : M W bool)
  (eng : option (Verify.Engine W)) (dc : Verify.Context W) (r : RestoreOut) : M W outcome :=
  let! checks := Verify.Run eng (Spec.Verify (drill_Spec d)) dc in
  let e := set_checks checks e in
  let! _ := print_checks o checks in
  let! destroyed := td in
  finalize d o (with_destroyed destroyed e) (restore_err r) (restore_dur r) (Verify.BackupAge dc).

(** From the running sandbox on. *)
Definition in_sandbox (d : Drill) (o : Options X) (drv : Driver W) (b : Source.Backup)
  (age : Duration) (e : Evidence) (t0 : Time) (sb : SandboxI W) : M W outcome :=
  let sp := drill_Spec d in
  let! _ := print_provision o ("provision sandbox  " +:+ Provider (spec_Sandbox sp) +:+ " " +:+
                               Image (spec_Sandbox sp)) t0 in
  let! r := Restore drv sb (Source.Path b) (spec_Source sp) in
  let e := set_restore (restore_result r) e in
  let! _ := print_restore o b r in
  let! eng := open_engine drv sb (spec_Source sp) r in
  match eng with
  | Err err => mret (Ran None EmptyString (Some err))
  | Ok (eng, close) =>
      let! out := verify_and_report d o e (teardown o sb) eng (engine_context d r age) r in
      let! _ := close in
      mret out
  end.

Definition sandbox_config (d : Drill) (drv : Driver W) : Config W :=
  let sp := drill_Spec d in
  {| cfg_Image := Image (spec_Sandbox sp); cfg_TTL := TTL (spec_Sandbox sp);
     cfg_Name := drill_Name d; cfg_Driver := drv;
     cfg_Namespace := sb_Namespace (spec_Sandbox sp);
     ColdStart := String.eqb (Format (spec_Source sp)) "basebackup" |}.

Definition provision (d : Drill) (drv : Driver W) : M W (result (SandboxI W)) :=
  let provider := Provider (spec_Sandbox (drill_Spec d)) in
  if String.eqb provider "docker" then docker_Provision dp (sandbox_config d drv)
  else if String.eqb provider "kubernetes" then k8s_Provision dp (sandbox_config d drv)
  else mret (Err (ENew ("unknown provider " +:+ quote provider))).

Definition with_backup (d : Drill) (o : Options X) (drv : Driver W) (e : Evidence)
  (b : Source.Backup) : M W outcome :=
  let! now := Verify.Now in
  let age := Sub now (Source.ModTime b) in
  let e := set_backup (backup_record d b age) e in
  let! t0 := Verify.Now in
  let! r := provision d drv in
  match r with
  | Err err => mret (Ran None EmptyString (Some (EWrap "provisioning sandbox: " err "")))
  | Ok sb => with_teardown (teardown o sb) (in_sandbox d o drv b age e t0 sb)
  end.

Definition fetch (d : Drill) : M W (Source.listing Source.Backup) :=
  on_tmp (Source.Fetch (codecs dp) (os dp) (connect dp) (src_From (spec_Source (drill_Spec d)))).

Definition run_engine (d : Drill) (o : Options X) (e : Evidence) : M W outcome :=
  match Get (registry dp) (src_Driver (spec_Source (drill_Spec d))) with
  | Err err =>
      mret (Ran None EmptyString
        (Some (EWrap "" err (" (available: " +:+ Join (Names (registry dp)) ", " +:+ ")"))))
  | Ok drv =>
      let! f := fetch d in
      match f with
      | Source.LErr err => mret (Ran None EmptyString (Some (EWrap "fetching backup: " err "")))
      | Source.LPanic => mret Panicked
      | Source.LOk b =>
          let! out := with_backup d o drv e b in
          let! _ := on_tmp (Source.Cleanup (Some b)) in
          mret out
      end
  end.

(** ** Velero drills *)

Definition velero_context (d : Drill) (vd : VeleroDrill W) (r : RestoreOut) : Verify.Context W := {|
  Verify.RestoreErr := restore_err r; Verify.BackupAge := vd_BackupAge vd;
  Verify.ctx_RTO := RTO (spec_Objectives (drill_Spec d));
  Verify.K8s := Some (Clients vd); Verify.ctx_Namespace := TargetNS vd |}.

Definition print_velero (o : Options X) (backup : string) (vd : VeleroDrill W) (r : RestoreOut)
  : M W unit :=
  match r with
  | Restored _ =>
      step o ("restore  velero backup " +:+ backup +:+ " → " +:+ TargetNS vd)
        ("ok   " +:+ Duration_String (Round (restore_dur r) Second)) true
  | RestoreFailed _ _ => step o ("restore  velero backup " +:+ backup) "FAIL" false
  end.

Definition velero_teardown (o : Options X) (vd : VeleroDrill W) : M W bool :=
  teardown_of o "namespace" (vd_Destroy vd Background) (vd_WasDestroyed vd).

Definition in_namespace (d : Drill) (o : Options X) (e : Evidence) (t0 : Time)
  (vd : VeleroDrill W) : M W outcome :=
  let from := src_From (spec_Source (drill_Spec d)) in
  let! now := Verify.Now in
  let e := set_image ("namespace:" +:+ TargetNS vd) (set_backup
    {| bk_URI := "velero://" +:+ Backup from +:+ " (namespace " +:+ from_Namespace from +:+ ")";
       bk_ModTime := Add now (- vd_BackupAge vd); bk_AgeSecs := Seconds (vd_BackupAge vd);
       bk_Bytes := 0; bk_ResolvedURI := ""; bk_Encryption := ""; bk_Compression := "";
       bk_UncompressedBytes := 0 |} e) in
  let! _ := print_provision o ("provision namespace  " +:+ TargetNS vd) t0 in
  let! r := vd_Restore vd in
  let e := set_restore (restore_result r) e in
  let! _ := print_velero o (Backup from) vd r in
  verify_and_report d o e (velero_teardown o vd) None (velero_context d vd r) r.

Definition runVelero (d : Drill) (o : Options X) (e : Evidence) : M W outcome :=
  let from := src_From (spec_Source (drill_Spec d)) in
  let! t0 := Verify.Now in
  let! r := velero_Prepare dp (drill_Name d) (Backup from) (from_Namespace from)
              (TTL (spec_Sandbox (drill_Spec d))) in
  match r with
  | Err err => mret (Ran None EmptyString (Some (EWrap "preparing velero drill: " err "")))
  | Ok vd => with_teardown (velero_teardown o vd) (in_namespace d o e t0 vd)
  end.

(** ** [Run] and [RunAll] *)

Definition Run (d : Drill) (o : Options X) : M W outcome :=
  let! now := Verify.Now in
  let e := new_evidence d o now in
  if String.eqb (src_Driver (spec_Source (drill_Spec d))) "velero"
  then runVelero d o e else run_engine d o e.

Record Outcome := {
  out_Drill : string; out_Evidence : option Evidence; out_Path : string; out_Err : option error }.

(** [None] when a drill panics: the process is gone. *)
Fixpoint run_each (many : bool) (ds : list Drill) (o : Options X) : M W (option (list Outcome)) :=
  match ds with
  | [] => mret (Some [])
  | d :: r =>
      let! _ := if many then info o ("── drill " +:+ drill_Name d +:+ " ──") else mret tt in
      let! out := Run d o in
      match out with
      | Panicked => mret None
      | Ran e path err =>
          let! rest := run_each many r o in
          mret (option_map (cons {| out_Drill := drill_Name d; out_Evidence := e;
                                    out_Path := path; out_Err := err |}) rest)
      end
  end.

Definition RunAll (ds : list Drill) (o : Options X) : M W (option (list Outcome)) :=
  run_each (1 <? Z.of_nat (List.length ds)) ds o.
End Drill.
Arguments Deps X : clear implicits.
