(* ===== verification/DrillFacts.v ===== *)
(** What a drill's verdict and record mean. *)

From Stdlib Require Import ZArith Lia Ascii String SpecFloat.
From stdpp Require Import base option list gmap strings.
From S2P Require Import Prelude GoStrings Float64 Spec SpecFacts Disk Evidence World Interfaces Print Drill.
From S2P Require Verify VerifyFacts Source Sign Metrics Notify.

(** * The verdict *)

Definition passing (r : Verify.Result) : Prop := Verify.Passed r = true /\ Verify.Skipped r = false.

Definition is_data_check (r : Verify.Result) : Prop :=
  str_in (Verify.res_Name r) dataCheckNames = true.

Lemma verdict_fold checks v p :
  List.fold_left verdict_step checks (v, p) = (true, true) <->
  v = true /\ (forall r, In r checks -> passing r) /\
  (p = true \/ exists r, In r checks /\ is_data_check r).
Proof.
  revert v p. induction checks as [|r l IH]; intros v p; cbn [List.fold_left].
  - split; [intros [= -> ->]; naive_solver|]. intros (-> & _ & [->|(r & [] & _)]). done.
  - unfold verdict_step at 2. rewrite IH. unfold passing, is_data_check.
    destruct (Verify.Passed r) eqn:Hp, (Verify.Skipped r) eqn:Hs; cbn [negb andb];
      try (split; [intros [? _]; done|];
           intros (_ & Hall & _); destruct (Hall r (or_introl eq_refl)); congruence).
    split; intros (Hv & Hall & Hd); (split; [exact Hv|]); split.
    + intros x [<-|Hx]; auto.
    + destruct (str_in (Verify.res_Name r) dataCheckNames) eqn:Hn;
        [right; exists r; split; [by left|done]|].
      destruct Hd as [->|(x & Hx & ?)]; [by left|]. right. exists x. split; [by right|done].
    + intros x Hx. apply Hall. by right.
    + destruct Hd as [->|(x & [<-|Hx] & Hn)].
      * left. by destruct (str_in _ _).
      * left. by rewrite Hn.
      * right. eauto.
Qed.

Lemma verdict_iff restoreErr rtoMet rpoMet checks :
  verdict restoreErr rtoMet rpoMet checks = true <->
  restoreErr = None /\ rtoMet = true /\ rpoMet = true /\
  (forall r, In r checks -> passing r) /\ exists r, In r checks /\ is_data_check r.
Proof.
  unfold verdict.
  pose proof (verdict_fold checks (negb (isSome restoreErr) && rtoMet && rpoMet) false) as H.
  destruct (List.fold_left _ _ _) as [v p]. rewrite !andb_true_iff, negb_true_iff, isSome_false in H.
  assert (Hvp : (if p then v else false) = true <-> (v, p) = (true, true))
    by (destruct v, p; naive_solver).
  rewrite Hvp, H. naive_solver.
Qed.

Lemma rto_met_true restoreErr dur rto :
  rto_met restoreErr dur rto = true <-> restoreErr = None /\ dur <= rto.
Proof. unfold rto_met. rewrite andb_true_iff, negb_true_iff, isSome_false, Z.leb_le. done. Qed.

Lemma finalized_verified d e restoreErr dur age now :
  ev_Verified (finalized d e restoreErr dur age now) = true <->
  restoreErr = None /\ dur <= RTO (spec_Objectives (drill_Spec d)) /\
  age <= RPO (spec_Objectives (drill_Spec d)) /\
  (forall r, In r (ev_Checks e) -> passing r) /\ exists r, In r (ev_Checks e) /\ is_data_check r.
Proof.
  unfold finalized. cbn [ev_Verified]. rewrite verdict_iff, rto_met_true, Z.leb_le. tauto.
Qed.

(** A check that fails, is skipped, or is absent is fatal to the verdict
    whatever the others say. *)
Lemma verdict_false_on restoreErr rtoMet rpoMet checks r :
  In r checks -> ~ passing r -> verdict restoreErr rtoMet rpoMet checks = false.
Proof.
  intros Hin Hn. apply not_true_is_false. intros (_ & _ & _ & Hall & _)%verdict_iff. auto.
Qed.

(** * Runs *)

Section Runs.
Context {X : Type} {CK : Verify.Clock (World X)} {EC : EvidenceCodec} {CR : Sign.Crypto}
  {VC : Sign.EnvelopeCodec}.
Abbreviation W := (World X).
Context (dp : Deps X).

(** [finalize] returns the finalised record whatever happens to the files. *)
Lemma finalize_record d o e re dur age w :
  exists path err, fst (finalize dp d o e re dur age w) =
    Ran (Some (finalized d e re dur age (fst (Verify.Now w)))) path err.
Proof.
  unfold finalize, mbind, mret. destruct (Verify.Now w) as [now w1]. cbn [fst].
  destruct (on_disk _ w1) as [[path|err] w2]; [|by eauto].
  destruct (if Spec.Sign _ then _ else _) as [serr w3].
  destruct serr as [err|]; [by eauto|].
  destruct (if HTML _ then _ else _) as [herr w4].
  destruct herr as [err|]; [by eauto|].
  destruct (export_sinks _ _ _ _ _) as [u w5]. by eauto.
Qed.

Lemma verify_and_report_record d o e td eng dc r w :
  exists w1 b now path err, fst (verify_and_report dp d o e td eng dc r w) =
    Ran (Some (finalized d (with_destroyed b
           (set_checks (fst (Verify.Run eng (Spec.Verify (drill_Spec d)) dc w1)) e))
           (restore_err r) (restore_dur r) (Verify.BackupAge dc) now)) path err.
Proof.
  exists w. unfold verify_and_report, mbind.
  destruct (Verify.Run _ _ _ w) as [checks w1]. cbn [fst].
  destruct (print_checks o checks w1) as [u w2]. destruct (td w2) as [b w3]. exists b.
  destruct (finalize_record d o (with_destroyed b (set_checks checks e)) (restore_err r)
    (restore_dur r) (Verify.BackupAge dc) w3) as (path & err & ->). eauto.
Qed.

(** The path and error of an outcome, up to the deferred teardown. *)
Lemma with_teardown_record (td : M W bool) (body : M W outcome) w e path err :
  fst (with_teardown td body w) = Ran (Some e) path err ->
  exists e0 b, fst (body w) = Ran (Some e0) path err /\ e = with_destroyed b e0.
Proof.
  unfold with_teardown, mbind, mret. destruct (body w) as [out w1].
  destruct (td w1) as [b w2]. cbn [fst]. destruct out as [[e0|] p er|]; try done.
  intros [= <- <- <-]. eauto.
Qed.

(** How a drill came by its restore and its verification context. *)
Inductive provenance (d : Drill) (r : RestoreOut) : option (Verify.Engine W) ->
    Verify.Context W -> Prop :=
| prov_engine drv b sb age eng wf wp wr wo we close :
    Get (registry dp) (src_Driver (spec_Source (drill_Spec d))) = Ok drv ->
    fst (fetch dp d wf) = Source.LOk b ->
    fst (provision dp d drv wp) = Ok sb ->
    fst (Restore drv sb (Source.Path b) (spec_Source (drill_Spec d)) wr) = r ->
    age = Sub (fst (Verify.Now wo)) (Source.ModTime b) ->
    fst (open_engine dp drv sb (spec_Source (drill_Spec d)) r we) = Ok (eng, close) ->
    provenance d r eng (engine_context d r age)
| prov_velero vd wp wr :
    fst (velero_Prepare dp (drill_Name d) (Backup (src_From (spec_Source (drill_Spec d))))
           (from_Namespace (src_From (spec_Source (drill_Spec d))))
           (TTL (spec_Sandbox (drill_Spec d))) wp) = Ok vd ->
    fst (vd_Restore vd wr) = r ->
    provenance d r None (velero_context d vd r).

(** The record a run returns. *)
Definition record_of (d : Drill) (e : Evidence) : Prop :=
  exists r eng dc w1 e0 b now,
    provenance d r eng dc /\ Verify.RestoreErr dc = restore_err r /\
    e = with_destroyed b (finalized d e0 (restore_err r) (restore_dur r)
          (Verify.BackupAge dc) now) /\
    ev_Checks e0 = fst (Verify.Run eng (Spec.Verify (drill_Spec d)) dc w1) /\
    ev_Drill e0 = drill_Name d.

Lemma in_sandbox_record d o drv b age e t0 sb w e' path err wf wp wo :
  Get (registry dp) (src_Driver (spec_Source (drill_Spec d))) = Ok drv ->
  fst (fetch dp d wf) = Source.LOk b -> fst (provision dp d drv wp) = Ok sb ->
  age = Sub (fst (Verify.Now wo)) (Source.ModTime b) -> ev_Drill e = drill_Name d ->
  fst (in_sandbox dp d o drv b age e t0 sb w) = Ran (Some e') path err ->
  exists r eng dc w1 e0 now,
    provenance d r eng dc /\ Verify.RestoreErr dc = restore_err r /\
    e' = finalized d e0 (restore_err r) (restore_dur r) (Verify.BackupAge dc) now /\
    ev_Checks e0 = fst (Verify.Run eng (Spec.Verify (drill_Spec d)) dc w1) /\
    ev_Drill e0 = drill_Name d.
Proof.
  intros Hd Hf Hp Ha Hn. unfold in_sandbox, mbind, mret.
  destruct (print_provision _ _ _ w) as [u1 w1].
  destruct (Restore drv sb _ _ w1) as [r w2] eqn:Er.
  destruct (print_restore o b r w2) as [u2 w3].
  destruct (open_engine dp drv sb _ r w3) as [[[eng close]|e0] w4] eqn:Eo; [|done].
  destruct (verify_and_report_record d o (set_restore (restore_result r) e) (teardown o sb)
    eng (engine_context d r age) r w4) as (wv & bd & now & p & er & Hrec).
  destruct (verify_and_report _ _ _ _ _ _ _ _ w4) as [out w5]. cbn [fst] in Hrec. subst out.
  destruct (close w5) as [u3 w6]. cbn [fst]. intros [= <- <- <-].
  exists r, eng, (engine_context d r age), wv. do 2 eexists.
  split; [eapply (prov_engine d r drv b sb age eng wf wp w1 wo w3 close); try done;
          [by rewrite Er|by rewrite Eo]|].
  split; [done|]. split; [reflexivity|]. split; [done|].
  cbn. by destruct (restore_result r).
Qed.

Lemma Run_record d o w e path err :
  fst (Run dp d o w) = Ran (Some e) path err -> record_of d e.
Proof.
  unfold Run, mbind. destruct (Verify.Now w) as [t w1].
  destruct (String.eqb _ "velero").
  - unfold runVelero, mbind, mret. destruct (Verify.Now w1) as [t0 w2].
    destruct (velero_Prepare dp _ _ _ _ w2) as [[vd|er] w3] eqn:Ev; [|done].
    intros (e0 & b & Hb & ->)%with_teardown_record.
    unfold in_namespace, mbind in Hb. destruct (Verify.Now w3) as [t1 w4].
    destruct (print_provision _ _ _ w4) as [u1 w5].
    destruct (vd_Restore vd w5) as [r w6] eqn:Er.
    destruct (print_velero _ _ _ _ w6) as [u2 w7].
    match type of Hb with context [verify_and_report dp d o ?e1 ?td ?en ?dc r w7] =>
      destruct (verify_and_report_record d o e1 td en dc r w7)
        as (wv & bd & now & p & er & Hrec) end.
    rewrite Hrec in Hb. injection Hb as <- <- <-.
    exists r, None, (velero_context d vd r), wv. do 3 eexists.
    split; [eapply (prov_velero d r vd w2 w5); [by rewrite Ev|by rewrite Er]|].
    split; [done|]. split; [reflexivity|]. split; [done|].
    cbn. by destruct (restore_result r).
  - unfold run_engine, mbind, mret.
    destruct (Get (registry dp) _) as [drv|] eqn:Ed; [|done].
    destruct (fetch dp d w1) as [[b|er|] w2] eqn:Ef; [|done|done].
    destruct (with_backup dp d o drv _ b w2) as [out w3] eqn:Eb.
    destruct (on_tmp _ w3) as [u w4]. cbn [fst]. intros ->.
    apply (f_equal fst) in Eb. cbn [fst] in Eb. revert Eb.
    unfold with_backup, mbind, mret. destruct (Verify.Now w2) as [now w5] eqn:En.
    destruct (Verify.Now w5) as [t0 w6].
    destruct (provision dp d drv w6) as [[sb|er] w7] eqn:Ep; [|done].
    intros (e0 & bd & Hb & ->)%with_teardown_record.
    eapply (in_sandbox_record _ _ _ _ _ _ _ _ _ _ _ _ w1 w6 w2) in Hb as (r & eng & dc & wv & e1 & now' & Hp & Hr & -> & Hc & Hn);
      [|done|by rewrite Ef|by rewrite Ep|by rewrite En|done].
    exists r, eng, dc, wv, e1, bd, now'. done.
Qed.

Lemma dataCheckNames_data_names : dataCheckNames = VerifyFacts.data_names.
Proof. reflexivity. Qed.

(** ** A verified verdict is earned *)
Lemma record_verified d e :
  record_of d e -> ev_Verified e = true ->
  exists res eng dc w1,
    provenance d (Restored res) eng dc /\
    res_Duration res <= RTO (spec_Objectives (drill_Spec d)) /\
    Verify.BackupAge dc <= RPO (spec_Objectives (drill_Spec d)) /\
    ev_Checks e = fst (Verify.Run eng (Spec.Verify (drill_Spec d)) dc w1) /\
    (forall r, In r (ev_Checks e) -> passing r) /\
    exists c w2, In c (Spec.Verify (drill_Spec d)) /\ VerifyFacts.observed eng dc w2 c.
Proof.
  intros (r & eng & dc & w1 & e0 & b & now & Hprov & Hre & -> & Hc & _) Hv.
  change (ev_Verified (finalized d e0 (restore_err r) (restore_dur r) (Verify.BackupAge dc) now)
          = true) in Hv.
  apply finalized_verified in Hv as (Hnone & Hrto & Hrpo & Hall & rr & Hin & Hdata).
  destruct r as [res|ro er]; [|done]. exists res, eng, dc, w1. cbn in Hrto.
  split; [done|]. split; [done|]. split; [done|]. split; [done|]. split; [done|].
  rewrite Hc in Hin. destruct (Hall rr) as [Hpass _]; [by rewrite Hc|].
  unfold is_data_check in Hdata. rewrite dataCheckNames_data_names in Hdata.
  destruct (VerifyFacts.Run_passed_observed _ _ _ _ _ Hin Hpass Hdata) as (_ & c & w2 & ? & ?).
  eauto.
Qed.

(** ** Teardown closes every path *)
Lemma with_teardown_last (td : M W bool) (body : M W outcome) w :
  exists w1, snd (with_teardown td body w) = snd (td w1) /\
    forall e p err, fst (with_teardown td body w) = Ran (Some e) p err ->
      sbx_Destroyed (ev_Sandbox e) = fst (td w1).
Proof.
  unfold with_teardown, mbind, mret. destruct (body w) as [out w1]. exists w1.
  destruct (td w1) as [b w2]. cbn [fst snd]. split; [done|].
  intros e p err. destruct out as [[e0|] p0 er|]; try done. by intros [= <- _ _].
Qed.

Lemma teardown_fate o (sb : SandboxI W) w :
  fst (teardown o sb w) = WasDestroyed sb (snd (teardown o sb w)).
Proof.
  unfold teardown, teardown_of, mbind. destruct (Destroy sb Background w) as [derr w1].
  by destruct (warn o _ derr w1).
Qed.

Lemma velero_teardown_fate o (vd : VeleroDrill W) w :
  fst (velero_teardown o vd w) = vd_WasDestroyed vd (snd (velero_teardown o vd w)).
Proof.
  unfold velero_teardown, teardown_of, mbind. destruct (vd_Destroy vd Background w) as [derr w1].
  by destruct (warn o _ derr w1).
Qed.

(** Once a sandbox is up, the last things a drill does are tearing it down
    and removing the fetched backup. *)
Lemma run_engine_teardown d o e drv b sb w w1 w2 :
  Get (registry dp) (src_Driver (spec_Source (drill_Spec d))) = Ok drv ->
  fetch dp d w = (Source.LOk b, w1) ->
  provision dp d drv (snd (Verify.Now (snd (Verify.Now w1)))) = (Ok sb, w2) ->
  exists w3, snd (run_engine dp d o e w) =
      snd (on_tmp (Source.Cleanup (Some b)) (snd (teardown o sb w3))) /\
    forall e' p err, fst (run_engine dp d o e w) = Ran (Some e') p err ->
      sbx_Destroyed (ev_Sandbox e') = WasDestroyed sb (snd (teardown o sb w3)).
Proof.
  intros Hd Hf Hp. unfold run_engine. rewrite Hd. unfold with_backup, mbind, mret. rewrite Hf. destruct (Verify.Now w1) as [now wa].
  cbn [snd] in Hp. destruct (Verify.Now wa) as [t0 wb]. cbn [snd] in Hp. rewrite Hp.
  match goal with |- context [with_teardown ?td ?body w2] =>
    destruct (with_teardown_last td body w2) as (w3 & Hw & He);
    destruct (with_teardown td body w2) as [out wc] end.
  cbn [fst snd] in *. exists w3. subst wc.
  destruct (on_tmp (Source.Cleanup (Some b)) (snd (teardown o sb w3))) as [u wd].
  cbn [fst snd]. split; [done|]. intros e' p err ->. rewrite <- teardown_fate. by eapply He.
Qed.

(** Nothing is provisioned when the backup cannot be fetched. *)
Lemma run_engine_no_backup d o e drv err w w1 :
  Get (registry dp) (src_Driver (spec_Source (drill_Spec d))) = Ok drv ->
  fetch dp d w = (Source.LErr err, w1) ->
  run_engine dp d o e w =
    (Ran None EmptyString (Some (EWrap "fetching backup: " err "")), w1).
Proof. intros Hd Hf. unfold run_engine. rewrite Hd. unfold mbind, mret. by rewrite Hf. Qed.

(** ** The fleet *)

Lemma run_each_drills many ds o w outs w' :
  run_each dp many ds o w = (Some outs, w') ->
  List.map out_Drill outs = List.map drill_Name ds /\
  Forall2 (fun d out => exists w1, fst (Run dp d o w1) =
             Ran (out_Evidence out) (out_Path out) (out_Err out)) ds outs.
Proof.
  revert w outs w'. induction ds as [|d ds IH]; intros w outs w'; cbn [run_each].
  - intros [= <- <-]. split; [done|constructor].
  - unfold mbind, mret. match goal with |- context [(if many then ?a else ?b) w] =>
    destruct ((if many then a else b) w) as [u w1] end.
    destruct (Run dp d o w1) as [[e p err|] w2] eqn:Er; [|done].
    destruct (run_each dp many ds o w2) as [[rest|] w3] eqn:Es; [|done]. cbn.
    intros [= <- <-]. destruct (IH _ _ _ Es) as [Hn Hall]. simpl. rewrite Hn.
    split; [done|]. constructor; [|done]. exists w1. by rewrite Er.
Qed.

(** A panic of the object listing is the only way the fleet stops. *)
Lemma run_each_total many ds o w :
  (forall d w, In d ds -> fst (Run dp d o w) <> Panicked) ->
  fst (run_each dp many ds o w) <> None.
Proof.
  revert w. induction ds as [|d ds IH]; intros w Hnp; cbn [run_each]; [done|].
  unfold mbind, mret. match goal with |- context [(if many then ?a else ?b) w] =>
    destruct ((if many then a else b) w) as [u w1] end.
  pose proof (Hnp d w1 (or_introl eq_refl)) as Hd.
  destruct (Run dp d o w1) as [[e p err|] w2]; [|done].
  specialize (IH w2 (fun d' w' Hi => Hnp d' w' (or_intror Hi))).
  by destruct (run_each dp many ds o w2) as [[rest|] w3].
Qed.

(** ** Panics

    Only a listing of the object store can panic. *)
Lemma fetch_file_no_panic d w :
  from_Type (src_From (spec_Source (drill_Spec d))) <> "s3" ->
  fst (fetch dp d w) <> Source.LPanic.
Proof.
  intros Hs. unfold fetch, on_tmp, Source.Fetch.
  destruct (String.eqb_spec (from_Type (src_From (spec_Source (drill_Spec d)))) "file").
  - unfold mbind, mret. by destruct (Source.fetchFile _ _ _ (w_tmp w)) as [[b|e0] t].
  - by destruct (String.eqb_spec (from_Type (src_From (spec_Source (drill_Spec d)))) "s3").
Qed.

Lemma verify_and_report_no_panic d o e td eng dc r w :
  fst (verify_and_report dp d o e td eng dc r w) <> Panicked.
Proof.
  destruct (verify_and_report_record d o e td eng dc r w) as (? & ? & ? & ? & ? & ->). done.
Qed.

Lemma with_backup_no_panic d o drv e b w :
  fst (with_backup dp d o drv e b w) <> Panicked.
Proof.
  unfold with_backup, mbind, mret. destruct (Verify.Now w) as [now w1].
  destruct (Verify.Now w1) as [t0 w2]. destruct (provision dp d drv w2) as [[sb|er] w3]; [|done].
  unfold with_teardown, mbind, mret.
  match goal with |- context [in_sandbox ?a ?b ?c ?d ?e ?f ?g ?h ?i w3] =>
    assert (Hn : fst (in_sandbox a b c d e f g h i w3) <> Panicked);
    [|destruct (in_sandbox a b c d e f g h i w3) as [out w4]] end.
  { unfold in_sandbox, mbind, mret. destruct (print_provision _ _ _ w3) as [u1 w4].
    destruct (Restore drv sb _ _ w4) as [r w5]. destruct (print_restore o b r w5) as [u2 w6].
    destruct (open_engine dp drv sb _ r w6) as [[[eng close]|er] w7]; [|done].
    match goal with |- context [verify_and_report ?a ?b ?c ?d ?e ?f ?g ?h w7] =>
      pose proof (verify_and_report_no_panic b c d e f g h w7) as Hv;
      destruct (verify_and_report a b c d e f g h w7) as [out w8] end.
    by destruct (close w8). }
  destruct (teardown o sb w4) as [bd w5]. cbn [fst] in *. by destruct out as [[?|] ? ?|].
Qed.

(** What a verified record has behind it. *)
Definition earned (d : Drill) (e : Evidence) : Prop :=
  exists res eng dc w1,
    provenance d (Restored res) eng dc /\
    res_Duration res <= RTO (spec_Objectives (drill_Spec d)) /\
    Verify.BackupAge dc <= RPO (spec_Objectives (drill_Spec d)) /\
    ev_Checks e = fst (Verify.Run eng (Spec.Verify (drill_Spec d)) dc w1) /\
    (forall r, In r (ev_Checks e) -> passing r) /\
    exists c w2, In c (Spec.Verify (drill_Spec d)) /\ VerifyFacts.observed eng dc w2 c.

Lemma verified_earned d o w e path err :
  fst (Run dp d o w) = Ran (Some e) path err -> ev_Verified e = true -> earned d e.
Proof. intros H. apply record_verified. by eapply Run_record. Qed.
End Runs.
