(* ===== verification/DrillRecord.v ===== *)
(** The files a drill leaves: the record it returns is the record on disk, its
    signature and attestation verify, and a directory scan finds it. *)

From Stdlib Require Import ZArith Lia Ascii String SpecFloat.
From stdpp Require Import base option list gmap strings.
From S2P Require Import Prelude GoStrings Paths Calendar Spec SpecFacts Disk Evidence World Interfaces Print Drill DrillFacts.
From S2P Require Verify Source Sign SignFacts Metrics Notify.

(** * File names *)

Definition no_slash (s : string) : Prop := IndexByte slash s = false.

Lemma dns_label_no_slash s : dns_label s -> no_slash s.
Proof.
  intros H. apply dns_label_bytes in H. by apply (IndexByte_forall slash dns_char).
Qed.

Lemma pad_no_slash n z : 0 <= z -> no_slash (pad_left "0"%char n (itoa z)).
Proof.
  intros H. unfold no_slash, pad_left. rewrite IndexByte_app.
  rewrite (itoa_no_byte z slash H eq_refl), orb_false_r.
  induction (n - String.length (itoa z))%nat as [|k IH]; [done|]. exact IH.
Qed.

Lemma fmt_file_no_slash t : four_digit_year t -> no_slash (fmt_file t).
Proof.
  intros Hy. destruct (clock_range t) as (Hh & Hm & Hs).
  pose proof (civil_range (day_of t)) as [Hmo Hda]. fold (date_of t) in *.
  unfold four_digit_year in Hy. unfold no_slash, fmt_file, fmt_date, fmt_clock, pad2.
  cbv zeta. rewrite !IndexByte_app, !pad_no_slash by lia. reflexivity.
Qed.

Lemma evidence_name_file e :
  four_digit_year (FinishedAt e) -> no_slash (ev_Drill e) -> file_name (evidence_name e).
Proof.
  intros Hy Hd. assert (Hns : 0 <= Nanosecond_of (FinishedAt e)).
  { unfold Nanosecond_of. apply Z.mod_pos_bound. reflexivity. }
  assert (Hlen : (5 <= String.length (evidence_name e))%nat).
  { unfold evidence_name. rewrite !slen_app. simpl. lia. }
  split; [|split; [|split]; intros He; rewrite He in Hlen; simpl in Hlen; lia].
  unfold evidence_name. rewrite !IndexByte_app, Hd, fmt_file_no_slash, pad_no_slash by done.
  reflexivity.
Qed.

(** The last four bytes of the record, signature and attestation paths; none is
    the end of an HTML or metrics path. *)
Definition kept_ends : list string := ["json"; ".sig"; "sonl"].
Definition lost_ends : list string := ["html"; "prom"; ".tmp"].

Definition ends_in (ends : list string) (p : string) : Prop :=
  exists a s, p = a +:+ s /\ In s ends.

Lemma ends_differ p q : ends_in kept_ends p -> ends_in lost_ends q -> p <> q.
Proof.
  intros (a & s & -> & Hs) (b & t & -> & Ht). apply suffix_ne; simpl in Hs, Ht;
    repeat destruct Hs as [<-|Hs]; repeat destruct Ht as [<-|Ht]; done.
Qed.

Lemma evidence_path_end e dir :
  four_digit_year (FinishedAt e) -> no_slash (ev_Drill e) ->
  ends_in kept_ends (evidence_path e dir).
Proof.
  intros Hy Hd. unfold evidence_path.
  destruct (Join2_suffix (evidence_dir dir) _ (evidence_name_file e Hy Hd)) as (pre & -> & _).
  unfold evidence_name. rewrite <- !sapp_assoc.
  change ".json" with ("." +:+ "json"). rewrite <- sapp_assoc. eexists _, _. split; [done|].
  by left.
Qed.

Lemma sig_path_end p : ends_in kept_ends (Sign.sig_path p).
Proof. exists p, ".sig". split; [done|]. right. by left. Qed.

Lemma att_path_end p : ends_in kept_ends (Sign.att_path p).
Proof.
  exists (p +:+ ".intoto.j"), "sonl". split; [|do 2 right; by left].
  unfold Sign.att_path. by rewrite sapp_assoc.
Qed.

Lemma html_path_end p : ends_in lost_ends (html_path p).
Proof.
  exists (TrimSuffix p ".json" +:+ "."), "html". split; [|by left].
  unfold html_path. by rewrite sapp_assoc.
Qed.

Lemma tmp_path_end p : ends_in lost_ends (p +:+ ".tmp").
Proof. exists p, ".tmp". split; [done|]. do 2 right. by left. Qed.

Lemma prom_path_end dir drill : no_slash drill -> ends_in lost_ends (Metrics.prom_path dir drill).
Proof.
  intros Hd. unfold Metrics.prom_path.
  assert (Hf : file_name ("firedrill-" +:+ drill +:+ ".prom")).
  { split; [|done]. rewrite !IndexByte_app, Hd. done. }
  destruct (Join2_suffix dir _ Hf) as (pre & -> & _).
  exists (pre +:+ "firedrill-" +:+ drill +:+ "."), "prom". split; [|right; by left].
  by rewrite !sapp_assoc.
Qed.

(** * What each step leaves alone *)

Section Frames.
Context {X : Type} {CK : Verify.Clock (World X)} {EC : EvidenceCodec} {CR : Sign.Crypto}
  {VC : Sign.EnvelopeCodec}.
Abbreviation W := (World X).
Context (dp : Deps X).

Definition disk_same (w w' : W) : Prop := w_disk w' = w_disk w.

Lemma on_ext_disk {A} (c : M X A) w : w_disk (snd (on_ext c w)) = w_disk w.
Proof. unfold on_ext. by destruct (c (w_ext w)). Qed.

Lemma warn_disk o what e (w : W) : w_disk (snd (warn o what e w)) = w_disk w.
Proof.
  unfold warn, info, printing. destruct e; [|done]. destruct (Printer o) as [[? ?]|]; [|done].
  apply on_ext_disk.
Qed.

Lemma info_disk o text (w : W) : w_disk (snd (info o text w)) = w_disk w.
Proof. unfold info, printing. destruct (Printer o) as [[? ?]|]; [apply on_ext_disk|done]. Qed.

Lemma notify_sinks_disk o e ss w : w_disk (snd (notify_sinks dp o e ss w)) = w_disk w.
Proof.
  revert w. induction ss as [|s ss IH]; intros w; cbn [notify_sinks]; [done|].
  destruct (String.eqb _ "slack"); [|destruct (String.eqb _ "webhook")]; unfold mbind, mret.
  - match goal with |- context [on_ext ?c w] =>
      pose proof (on_ext_disk c w) as H1; destruct (on_ext c w) as [serr w1] end.
    pose proof (warn_disk o "warning: " serr w1) as H2. destruct (warn o _ serr w1) as [u w2].
    cbn [snd] in *. by rewrite IH, H2, H1.
  - match goal with |- context [on_ext ?c w] =>
      pose proof (on_ext_disk c w) as H1; destruct (on_ext c w) as [serr w1] end.
    pose proof (warn_disk o "warning: " serr w1) as H2. destruct (warn o _ serr w1) as [u w2].
    cbn [snd] in *. by rewrite IH, H2, H1.
  - specialize (IH w). destruct (notify_sinks dp o e ss w) as [rest w1]. done.
Qed.

Lemma warn_all_disk o errs (w : W) : w_disk (snd (warn_all o errs w)) = w_disk w.
Proof.
  revert w. induction errs as [|err errs IH]; intros w; cbn [warn_all]; [done|].
  unfold mbind. pose proof (warn_disk o "warning: metrics " (Some err) w) as H1.
  destruct (warn o _ _ w) as [u w1]. cbn [snd] in H1. by rewrite IH.
Qed.

Lemma writeTextfile_frame env reg dir drill d q :
  q <> Metrics.prom_path dir drill -> q <> Metrics.prom_path dir drill +:+ ".tmp" ->
  snd (Metrics.writeTextfile env (expose dp) reg dir drill d) !! q = d !! q.
Proof.
  intros H1 H2. unfold Metrics.writeTextfile, Metrics.textfile_calls.
  destruct (expose dp reg); [|done]. destruct (MkdirErr env dir); [done|]. cbv zeta.
  rewrite (exec_write_rename _ _ _ _ Some (fun r => r)).
  destruct (WriteErr env _) as [[k e]|]; [by apply lookup_insert_ne|].
  destruct (RenameErr env _ _); [by apply lookup_insert_ne|]. cbn [snd].
  rewrite lookup_insert_ne, lookup_delete_ne, lookup_insert_ne; done.
Qed.

Lemma Export_frame e sinks w q :
  no_slash (ev_Drill e) -> ends_in kept_ends q ->
  w_disk (snd (Metrics.Export (disk dp) (expose dp) (push dp) e sinks w)) !! q = w_disk w !! q.
Proof.
  intros Hd Hq. revert w. induction sinks as [|s sinks IH]; intros w; cbn [Metrics.Export]; [done|].
  unfold mbind, mret.
  assert (H1 : w_disk (snd (Metrics.export_one (disk dp) (expose dp) (push dp) e s w)) !! q
               = w_disk w !! q).
  { unfold Metrics.export_one. destruct (String.eqb _ "prometheus").
    - unfold on_disk.
      pose proof (writeTextfile_frame (disk dp) (Metrics.Registry e true) (TextfileDir s)
        (ev_Drill e) (w_disk w) q) as Hf.
      destruct (Metrics.writeTextfile _ _ _ _ _ (w_disk w)) as [r d']. cbn in *. apply Hf.
      + apply ends_differ; [done|by apply prom_path_end].
      + apply ends_differ; [done|apply tmp_path_end].
    - destruct (String.eqb _ "pushgateway"); [by rewrite on_ext_disk|done]. }
  destruct (Metrics.export_one _ _ _ e s w) as [err w1]. cbn [snd] in H1.
  specialize (IH w1). destruct (Metrics.Export _ _ _ e sinks w1) as [errs w2]. cbn [snd] in *.
  by rewrite IH.
Qed.

Lemma export_sinks_frame o e sinks w q :
  no_slash (ev_Drill e) -> ends_in kept_ends q ->
  w_disk (snd (export_sinks dp o e sinks w)) !! q = w_disk w !! q.
Proof.
  intros Hd Hq. unfold export_sinks, mbind.
  pose proof (notify_sinks_disk o e sinks w) as H1.
  destruct (notify_sinks dp o e sinks w) as [ms w1]. cbn [snd] in H1.
  pose proof (Export_frame e ms w1 q Hd Hq) as H2.
  destruct (Metrics.Export _ _ _ e ms w1) as [errs w2]. cbn [snd] in H2.
  pose proof (warn_all_disk o errs w2) as H3. destruct (warn_all o errs w2) as [u w3].
  cbn [snd] in *. by rewrite H3, H2, H1.
Qed.

Lemma html_report_frame o e path w q :
  ends_in kept_ends q -> w_disk (snd (html_report dp o e path w)) !! q = w_disk w !! q.
Proof.
  intros Hq. pose proof (ends_differ _ _ Hq (html_path_end path)) as Hne.
  unfold html_report, mbind, mret.
  assert (H1 : w_disk (snd (on_disk (WriteHTML (disk dp) (render_html dp) e path) w)) !! q
               = w_disk w !! q).
  { unfold on_disk, WriteHTML, mbind, mret, WriteFile.
    destruct (render_html dp e); destruct (WriteErr (disk dp) _) as [[k er]|]; cbn;
      by rewrite lookup_insert_ne. }
  destruct (on_disk _ w) as [r w1]. cbn [snd] in H1. destruct r as [p|err]; [|done].
  pose proof (info_disk o ("report   " +:+ p) w1) as H2. destruct (info o _ w1) as [u w2].
  cbn [snd] in *. by rewrite H2.
Qed.

(** * The files [finalize] leaves *)

Lemma on_disk_run {A} (c : M Disk A) (w w' : W) a :
  on_disk c w = (a, w') -> c (w_disk w) = (a, w_disk w') /\ w_ext w' = w_ext w.
Proof. unfold on_disk. destruct (c (w_disk w)) as [x d']. by intros [= <- <-]. Qed.

Lemma sign_evidence_ok o path w w' :
  (forall p, ReadErr (disk dp) p = None) ->
  sign_evidence dp o path w = (None, w') ->
  exists priv sp d1 ap,
    String.length priv = Sign.PrivateKeySize /\
    Sign.Sign (disk dp) path priv (w_disk w) = (Ok sp, d1) /\
    Sign.Attest (disk dp) path priv d1 = (Ok ap, w_disk w').
Proof.
  intros Hr. unfold sign_evidence, mbind, mret. cbv zeta.
  destruct (if is_empty _ then _ else _) as [dir|]; [|done].
  destruct (on_disk (fun d => (Sign.LoadPrivateKey (disk dp) dir d, d)) w) as [k w1] eqn:E1.
  apply on_disk_run in E1 as [[= Hk Hd1] _]. destruct k as [priv|]; [|done].
  destruct (on_disk (Sign.Sign _ _ _) w1) as [s w2] eqn:E2.
  apply on_disk_run in E2 as [E2 _]. destruct s as [sp|]; [|done].
  destruct (on_disk (Sign.Attest _ _ _) w2) as [a w3] eqn:E3.
  apply on_disk_run in E3 as [E3 _]. destruct a as [ap|]; [|done].
  intros [= <-]. exists priv, sp, (w_disk w2), ap. split.
  - revert Hk. unfold Sign.LoadPrivateKey. destruct (ReadFile _ _ _); [|done].
    destruct (Sign.pem_Decode _) as [[t b]|]; [|done].
    destruct (String.eqb t _); [|done]. cbn [andb].
    destruct (Nat.eqb_spec (String.length b) Sign.PrivateKeySize); [|done]. by intros [= ->].
  - by rewrite Hd1.
Qed.

(** The signature and the attestation of a file, as they are on the disk of
    [w'], when the drill signs. *)
Definition signed_files (d : Drill) (path : string) (w' : W) : Prop :=
  Spec.Sign (spec_Report (drill_Spec d)) = true -> exists priv sp d0 d1 ap d2,
    String.length priv = Sign.PrivateKeySize /\
    Sign.Sign (disk dp) path priv d0 = (Ok sp, d1) /\
    Sign.Attest (disk dp) path priv d1 = (Ok ap, d2) /\
    forall q, ends_in kept_ends q -> w_disk w' !! q = d2 !! q.

(** Signing leaves the file as it was. *)
Lemma sign_keeps_file env path priv d sp d1 ap d2 :
  (forall p, ReadErr env p = None) -> Sign.Sign env path priv d = (Ok sp, d1) ->
  Sign.Attest env path priv d1 = (Ok ap, d2) -> d2 !! path = d !! path.
Proof.
  intros Hr Hsg Hat. destruct (SignFacts.Sign_ok _ _ _ _ _ _ Hr Hsg) as (dt & Hd0 & Hd1 & _).
  assert (Hap : d2 !! path = d1 !! path); [|congruence].
  unfold Sign.Attest in Hat. destruct (ReadFile _ path d1); [|done].
  destruct (Sign.Marshal_statement _); [|done]. destruct (Sign.Marshal_envelope _); [|done].
  revert Hat. unfold mbind, mret, WriteFile. destruct (WriteErr _ _) as [[k er]|]; [done|].
  intros [= _ <-]. rewrite lookup_insert_ne; [done|]. by apply SignFacts.path_suffix_ne.
Qed.

(** The step that signs, and whatever keeps the signed files after it. *)
Lemma sign_step_files d o p data (w2 w3 w' : W) :
  (forall p, ReadErr (disk dp) p = None) -> ends_in kept_ends p -> w_disk w2 !! p = Some data ->
  (if Spec.Sign (spec_Report (drill_Spec d)) then sign_evidence dp o p else fun w => (None, w)) w2 =
    (None, w3) ->
  (forall q, ends_in kept_ends q -> w_disk w' !! q = w_disk w3 !! q) ->
  w_disk w' !! p = Some data /\ signed_files d p w'.
Proof.
  intros Hr Hpe Hdata Hs Hq. rewrite (Hq p Hpe). unfold signed_files. destruct (Spec.Sign _).
  - destruct (sign_evidence_ok _ _ _ _ Hr Hs) as (priv & sp & d1 & ap & Hl & Hsg & Hat).
    split; [by rewrite (sign_keeps_file _ _ _ _ _ _ _ _ Hr Hsg Hat)|].
    intros _. by exists priv, sp, (w_disk w2), d1, ap, (w_disk w3).
  - injection Hs as <-. by split.
Qed.

Lemma finalize_files d o e re dur age w e' path w' :
  (forall p, ReadErr (disk dp) p = None) -> four_digit_year (fst (Verify.Now w)) -> no_slash (ev_Drill e) ->
  finalize dp d o e re dur age w = (Ran (Some e') path None, w') ->
  exists data, Canonical e' = Ok data /\ w_disk w' !! path = Some data /\
    (exists dir, path = evidence_path e' dir) /\ FinishedAt e' = fst (Verify.Now w) /\
    signed_files d path w'.
Proof.
  intros Hr Hy Hd. unfold finalize, mbind, mret.
  destruct (Verify.Now w) as [now w1]. cbn [fst] in *.
  set (e1 := finalized d e re dur age now). set (dir := if is_empty _ then _ else _).
  destruct (on_disk (Write (disk dp) e1 dir) w1) as [wr w2] eqn:Ew.
  apply on_disk_run in Ew as [Ew _]. destruct wr as [p|]; [|done].
  destruct (Write_ok _ _ _ _ _ _ Ew) as (Hp & data & Hc & Hdata & _).
  assert (Hpe : ends_in kept_ends p) by (rewrite Hp; by apply evidence_path_end).
  match goal with |- context [(if Spec.Sign ?s then ?a else ?b) w2] =>
    destruct ((if Spec.Sign s then a else b) w2) as [serr w3] eqn:Es end.
  destruct serr; [done|].
  match goal with |- context [(if HTML ?s then ?a else ?b) w3] =>
    destruct ((if HTML s then a else b) w3) as [herr w4] eqn:Eh end. destruct herr; [done|].
  pose proof (fun q => export_sinks_frame o e1 (Sinks (spec_Report (drill_Spec d))) w4 q Hd) as H1.
  destruct (export_sinks dp o e1 _ w4) as [u w5]. intros [= <- <- <-].
  destruct (sign_step_files d o p data w2 w3 w5 Hr Hpe Hdata Es) as [Hf Hs]; [|by exists data; eauto 10].
  intros q Hq. cbn [snd] in H1. rewrite (H1 q Hq). destruct (HTML _); [|by injection Eh as <-].
  pose proof (html_report_frame o e1 p w3 q Hq) as H2. by rewrite Eh in H2.
Qed.
End Frames.

(** * Reading the files back *)

Section ReadBack.
Context {CR : Sign.Crypto} {VC : Sign.EnvelopeCodec}.

(** A bundle check looks at three files. *)
Lemma VerifyBundle_frame env path trusted d d' :
  d !! path = d' !! path -> d !! Sign.sig_path path = d' !! Sign.sig_path path ->
  d !! Sign.att_path path = d' !! Sign.att_path path ->
  Sign.VerifyBundle env path trusted "" d = Sign.VerifyBundle env path trusted "" d'.
Proof.
  intros H1 H2 H3.
  assert (R : forall q, d !! q = d' !! q -> ReadFile env q d = ReadFile env q d')
    by (intros q Hq; unfold ReadFile; by rewrite Hq).
  assert (Rs : Sign.read_sig env path d = Sign.read_sig env path d')
    by (unfold Sign.read_sig; by rewrite (R _ H2)).
  assert (Ra : forall k, Sign.VerifyAttestation env path k d = Sign.VerifyAttestation env path k d')
    by (intros k; unfold Sign.VerifyAttestation; by rewrite (R _ H3), (R _ H1)).
  unfold Sign.VerifyBundle, Sign.att_key, Sign.Verify, Sign.SignerKey, Exists.
  rewrite (R _ H1), Rs, H3. cbv zeta.
  by repeat first [ rewrite Ra | progress cbn [String.eqb] | case_match ].
Qed.
End ReadBack.

Lemma forall_dns_ascii s : forall_bytes dns_char s = true -> Sign.ascii_text s.
Proof.
  unfold Sign.ascii_text. apply forall_bytes_impl. intros c. unfold dns_char.
  rewrite !orb_true_iff. unfold is_lower, in_range, is_digit.
  pose proof (N_ascii_bounded c) as Hb. unfold byte_val.
  intros [[Hc|Hc]|Hc].
  - apply andb_true_iff in Hc as [_ Hc]. change (Z.of_N (N_of_ascii "z")) with 122 in Hc.
    apply Z.leb_le in Hc. apply Z.ltb_lt. lia.
  - cbv zeta in Hc. apply andb_true_iff in Hc as [_ Hc]. apply N.leb_le in Hc.
    apply Z.ltb_lt. lia.
  - apply Ascii.eqb_eq in Hc as ->. done.
Qed.

Lemma ascii_app a b : Sign.ascii_text a -> Sign.ascii_text b -> Sign.ascii_text (a +:+ b).
Proof. unfold Sign.ascii_text. intros Ha Hb. by rewrite forall_bytes_app, Ha, Hb. Qed.

Lemma ascii_pad n z : 0 <= z -> Sign.ascii_text (pad_left "0"%char n (itoa z)).
Proof.
  intros Hz. apply ascii_app.
  - induction (n - String.length (itoa z))%nat as [|k IH]; [done|]. exact IH.
  - unfold Sign.ascii_text. apply (forall_bytes_impl is_digit); [|by apply itoa_digits].
    intros c. unfold is_digit, byte_val. cbv zeta. intros Hc.
    apply andb_true_iff in Hc as [_ Hc]. apply N.leb_le in Hc. apply Z.ltb_lt. lia.
Qed.

Lemma ascii_evidence_name e :
  four_digit_year (FinishedAt e) -> forall_bytes dns_char (ev_Drill e) = true ->
  Sign.ascii_text (evidence_name e).
Proof.
  intros Hy Hd. destruct (clock_range (FinishedAt e)) as (Hh & Hm & Hs).
  pose proof (civil_range (day_of (FinishedAt e))) as [Hmo Hda]. fold (date_of (FinishedAt e)) in *.
  unfold four_digit_year in Hy. assert (Hns : 0 <= Nanosecond_of (FinishedAt e)).
  { unfold Nanosecond_of. apply Z.mod_pos_bound. reflexivity. }
  unfold evidence_name, fmt_file, fmt_date, fmt_clock, pad2. cbv zeta.
  repeat first [ reflexivity | by apply forall_dns_ascii | apply ascii_pad; lia
               | apply ascii_app ].
Qed.

Section Bundles.
Context {X : Type} {CK : Verify.Clock (World X)} {EC : EvidenceCodec} {CR : Sign.Crypto}
  {VC : Sign.EnvelopeCodec}.
Context (dp : Deps X).

(** A signed drill's evidence is a complete bundle. *)
Lemma finalize_bundle d o e re dur age w e' path w' keyDir :
  (forall p, ReadErr (disk dp) p = None) -> four_digit_year (fst (Verify.Now w)) ->
  forall_bytes dns_char (ev_Drill e) = true ->
  Spec.Sign (spec_Report (drill_Spec d)) = true ->
  finalize dp d o e re dur age w = (Ran (Some e') path None, w') ->
  exists b, Sign.VerifyBundle (disk dp) path None keyDir (w_disk w') = Ok b /\
    Sign.AttestationChecked b = true /\ Sign.KeySource b = "signature envelope".
Proof.
  intros Hr Hclock Hdns Hsign Hf.
  assert (Hns : no_slash (ev_Drill e)) by by apply (IndexByte_forall slash dns_char).
  destruct (finalize_files _ _ _ _ _ _ _ _ _ _ _ Hr Hclock Hns Hf)
    as (data & _ & _ & (dir & Hp) & Hfin & Hs).
  destruct (Hs Hsign) as (priv & sp & d0 & d1 & ap & d2 & Hlen & Hsg & Hat & Hq).
  assert (Hdr : ev_Drill e' = ev_Drill e).
  { destruct (finalize_record dp d o e re dur age w) as (p & er & Hrec).
    rewrite Hf in Hrec. cbn [fst] in Hrec. by injection Hrec as -> _ _. }
  assert (Hy : four_digit_year (FinishedAt e')) by (rewrite Hfin; exact Hclock).
  assert (Hfile : file_name (evidence_name e')) by (apply evidence_name_file; by rewrite ?Hdr).
  assert (Hascii : Sign.ascii_text (Base path)).
  { rewrite Hp. unfold evidence_path. rewrite Base_Join2 by done.
    apply ascii_evidence_name; by rewrite ?Hdr. }
  destruct (SignFacts.Sign_Attest_VerifyBundle _ _ _ _ _ _ _ _ None "" Hr Hascii Hlen Hsg Hat
    (or_introl eq_refl)) as (b & Hb & Hatt & _ & Hks).
  exists b. split; [|done]. rewrite (SignFacts.VerifyBundle_keyDir _ _ _ keyDir "").
  rewrite <- Hb. apply VerifyBundle_frame; apply Hq.
  - rewrite Hp. apply evidence_path_end; by rewrite ?Hdr.
  - apply sig_path_end.
  - apply att_path_end.
Qed.

(** And a scan of the evidence directory finds it. *)
Lemma finalize_scanned d o e re dur age w e' path w' files :
  (forall p, ReadErr (disk dp) p = None) -> four_digit_year (fst (Verify.Now w)) ->
  forall_bytes dns_char (ev_Drill e) = true -> ev_Drill e <> "" -> encodable e' ->
  finalize dp d o e re dur age w = (Ran (Some e') path None, w') ->
  scanEvidence (disk dp) (w_disk w') (evidence_dir
    (if is_empty (opt_EvidenceDir o) then Dir (spec_Report (drill_Spec d))
     else opt_EvidenceDir o)) = Ok files ->
  In {| ef_Path := path; E := e' |} files.
Proof.
  intros Hr Hclock Hdns Hne Henc Hf Hscan.
  assert (Hns : no_slash (ev_Drill e)) by by apply (IndexByte_forall slash dns_char).
  destruct (finalize_files _ _ _ _ _ _ _ _ _ _ _ Hr Hclock Hns Hf)
    as (data & Hc & Hdata & _ & Hfin & _).
  assert (Hdr : ev_Drill e' = ev_Drill e).
  { destruct (finalize_record dp d o e re dur age w) as (p & er & Hrec).
    rewrite Hf in Hrec. cbn [fst] in Hrec. by injection Hrec as -> _ _. }
  assert (Hy : four_digit_year (FinishedAt e')) by (rewrite Hfin; exact Hclock).
  assert (Hfile : file_name (evidence_name e')) by (apply evidence_name_file; by rewrite ?Hdr).
  apply (scanEvidence_in _ _ _ _ Hscan). cbn [ef_Path E].
  assert (Hp : path = evidence_path e' (if is_empty (opt_EvidenceDir o)
    then Dir (spec_Report (drill_Spec d)) else opt_EvidenceDir o)).
  { revert Hf. unfold finalize, mbind, mret. destruct (Verify.Now w) as [now w1].
    match goal with |- context [on_disk ?c w1] => destruct (on_disk c w1) as [wr w2] eqn:Ew end.
    apply on_disk_run in Ew as [Ew _]. destruct wr as [p|]; [|done].
    destruct (Write_ok _ _ _ _ _ _ Ew) as (Hp & _).
    match goal with |- context [(if Spec.Sign ?s then ?a else ?b) w2] =>
      destruct ((if Spec.Sign s then a else b) w2) as [serr w3] end.
    destruct serr; [done|].
    match goal with |- context [(if HTML ?s then ?a else ?b) w3] =>
      destruct ((if HTML s then a else b) w3) as [herr w4] end. destruct herr; [done|].
    destruct (export_sinks _ _ _ _ w4) as [u w5]. by intros [= <- <- _]. }
  split; [by rewrite Hdata|]. unfold evidence_path in Hp.
  assert (Hb : Base path = evidence_name e') by (rewrite Hp; by apply Base_Join2).
  split; [by rewrite Hb|]. split.
  { rewrite Hb. unfold evidence_name, HasSuffix.
    rewrite <- !sapp_assoc.
    destruct (CutSuffix ".json" _) eqn:Ec; [done|].
    match type of Ec with CutSuffix _ (?a +:+ _) = _ =>
      assert (CutSuffix ".json" (a +:+ ".json") = Some a) by by apply CutSuffix_spec end.
    congruence. }
  split; [by rewrite Hdr|]. exists data. split; [unfold ReadFile; by rewrite Hr, Hdata|].
  destruct (Canonical_roundtrip e' Henc) as (s & Hs & Hu). congruence.
Qed.
End Bundles.
