(* ===== verification/Rfc3339.v ===== *)
(** [time.Parse(time.RFC3339, s)]: what the program reads expiry labels and
    status timestamps with. The layout's two-digit fields are fixed width except
    the hour, a fraction of a second may follow the seconds, and the zone is [Z]
    or an offset. *)

From Stdlib Require Import ZArith Lia Ascii String.
From stdpp Require Import base option list strings.
From S2P Require Import Prelude GoStrings Calendar.

(** [getnum]: one or two digits, two when [fixed]. *)
Definition getnum (s : string) (fixed : bool) : option (Z * string) :=
  match s with
  | String a (String b r) =>
      if negb (is_digit a) then None
      else if is_digit b then Some ((byte_val a - 48) * 10 + (byte_val b - 48), r)
      else if fixed then None else Some (byte_val a - 48, String b r)
  | String a EmptyString =>
      if negb (is_digit a) || fixed then None else Some (byte_val a - 48, EmptyString)
  | EmptyString => None
  end.

(** Four digits. *)
Definition get_year (s : string) : option (Z * string) :=
  match s with
  | String a (String b (String c (String d r))) =>
      match digits_val 0 (String a (String b (String c (String d EmptyString)))) with
      | Some y => Some (y, r)
      | None => None
      end
  | _ => None
  end.

Definition is_leap (y : Z) : bool :=
  (y mod 4 =? 0) && (negb (y mod 100 =? 0) || (y mod 400 =? 0)).

Definition daysIn (m y : Z) : Z :=
  if m =? 2 then (if is_leap y then 29 else 28)
  else if (m =? 4) || (m =? 6) || (m =? 9) || (m =? 11) then 30 else 31.

(** The digits after the point: nine are read, the rest skipped. *)
Fixpoint span_digits (s : string) : string * string :=
  match s with
  | String c r => if is_digit c then let '(a, b) := span_digits r in (String c a, b)
                  else (EmptyString, s)
  | EmptyString => (EmptyString, EmptyString)
  end.

Definition fraction (s : string) : Z * string :=
  match s with
  | String p (String d r) =>
      if (Ascii.eqb p "." || Ascii.eqb p ",") && is_digit d then
        let '(ds, rest) := span_digits (String d r) in
        let ds := take_bytes 9 ds in
        match digits_val 0 ds with
        | Some v => (v * 10 ^ (9 - len ds), rest)
        | None => (0, rest)
        end
      else (0, s)
  | _ => (0, s)
  end.

(** The offset east of UTC, in seconds. *)
Definition zone (s : string) : option (Z * string) :=
  match s with
  | String "Z" r => Some (0, r)
  | String sg (String a (String b (String ":" (String c (String d r))))) =>
      match getnum (String a (String b EmptyString)) true,
            getnum (String c (String d EmptyString)) true with
      | Some (hr, _), Some (mm, _) =>
          if (24 <? hr) || (60 <? mm) then None
          else if Ascii.eqb sg "+" then Some ((hr * 60 + mm) * 60, r)
          else if Ascii.eqb sg "-" then Some (- ((hr * 60 + mm) * 60), r)
          else None
      | _, _ => None
      end
  | _ => None
  end.

Definition instant (y mo d h mi s ns : Z) : Time :=
  (days_of {| year := y; month := mo; day := d |} * 86400 + h * 3600 + mi * 60 + s)
    * Prelude.Second + ns.

Notation "'get' x ':=' c 'in' k" := (match c with Some x => k | None => None end)
  (at level 200, x pattern, c at level 100, k at level 200) : go_scope.

Definition Parse_RFC3339 (v : string) : option Time :=
  get (y, v) := get_year v in
  get v := CutPrefix "-" v in
  get (mo, v) := getnum v true in
  get v := CutPrefix "-" v in
  get (d, v) := getnum v true in
  get v := CutPrefix "T" v in
  get (h, v) := getnum v false in
  get v := CutPrefix ":" v in
  get (mi, v) := getnum v true in
  get v := CutPrefix ":" v in
  get (s, v) := getnum v true in
  let '(ns, v) := fraction v in
  get (off, v) := zone v in
  if negb (String.eqb v EmptyString) then None
  else if (mo <? 1) || (12 <? mo) || (24 <=? h) || (60 <=? mi) || (60 <=? s) ||
          (d <? 1) || (daysIn mo y <? d) then None
  else Some (instant y mo d h mi s ns - off * Prelude.Second).

Example rfc1 : Parse_RFC3339 "1970-01-01T00:00:05Z" = Some 5000000000. Proof. reflexivity. Qed.
Example rfc2 : Parse_RFC3339 "1970-01-01T3:00:00.5+03:00" = Some 500000000. Proof. reflexivity. Qed.
Example rfc3 : Parse_RFC3339 "2023-02-29T00:00:00Z" = None. Proof. reflexivity. Qed.

(** * Round trip *)

(** A month other than February has a length of its own. *)
Ltac long_month :=
  match goal with
  | |- context [daysIn ?m ?y] =>
      let v := eval vm_compute in m in
      let d := eval vm_compute in (daysIn v 0) in change (daysIn m y) with d
  end.

(** A date of the calendar is a date of its month. *)
Lemma civil_day_in_month days :
  day (civil days) <= daysIn (month (civil days)) (year (civil days)).
Proof.
  unfold civil. cbv zeta. cbn [year month day].
  pose proof (Z.mod_pos_bound (days + 719468) 146097 ltac:(lia)) as Hdoe.
  set (doe := (days + 719468) mod 146097) in *. set (era := (days + 719468) / 146097) in *.
  pose proof (yoe_range doe Hdoe) as Hyoe. pose proof (doy_range doe Hdoe) as Hdoy.
  destruct (month_day_range _ Hdoy) as [Hm Hd].
  assert (Hleap : doy_of doe = 365 -> is_leap (yoe_of doe + era * 400 + 1) = true).
  { unfold is_leap. intros H365.
    rewrite andb_true_iff, orb_true_iff, negb_true_iff, !Z.eqb_eq, Z.eqb_neq.
    unfold doy_of, yoe_of in *. clearbody doe era. divs. }
  set (yoe := yoe_of doe) in *. set (doy := doy_of doe) in *. clearbody yoe doy doe era.
  set (mp := (5 * doy + 2) / 153) in *.
  assert (Hmp : 153 * mp <= 5 * doy + 2 < 153 * mp + 153) by (subst mp; divs).
  clearbody mp.
  assert (Hcase : mp = 0 \/ mp = 1 \/ mp = 2 \/ mp = 3 \/ mp = 4 \/ mp = 5 \/ mp = 6 \/ mp = 7 \/
    mp = 8 \/ mp = 9 \/ mp = 10 \/ mp = 11) by lia.
  assert (H11 : mp = 11 \/ mp <= 10) by lia. destruct H11 as [->|H10].
  - change (if 11 <? 10 then 11 + 3 else 11 - 9) with 2.
    change (if 2 <=? 2 then 1 else 0) with 1. change ((153 * 11 + 2) / 5) with 337.
    unfold daysIn. change (2 =? 2) with true. cbv iota.
    destruct (Z.eq_dec doy 365) as [He|He]; [rewrite (Hleap He); lia|].
    destruct (is_leap _); lia.
  - clear Hleap. repeat (destruct Hcase as [->|Hcase]; [long_month; divs|]). lia.
Qed.

Lemma getnum_two s v r f :
  String.length s = 2%nat -> digits_val 0 s = Some v -> getnum (s +:+ r) f = Some (v, r).
Proof.
  destruct s as [|a [|b [|]]]; try discriminate. intros _.
  cbn [digits_val String.append getnum].
  destruct (is_digit a); [|done]. destruct (is_digit b); [|done]. by intros [= <-].
Qed.

Lemma get_year_four s v r :
  String.length s = 4%nat -> digits_val 0 s = Some v -> get_year (s +:+ r) = Some (v, r).
Proof.
  destruct s as [|a [|b [|c [|d [|]]]]]; try discriminate. intros _ Hv.
  unfold get_year. cbn [String.append]. by rewrite Hv.
Qed.

Lemma getnum_pad2 z r f : 0 <= z < 100 -> getnum (pad2 z +:+ r) f = Some (z, r).
Proof.
  intros H. apply getnum_two; [apply pad_itoa_length; [exact H|lia]|apply digits_val_pad; lia].
Qed.

(** Formatting and parsing an instant keeps its second. *)
Lemma Parse_fmt t :
  four_digit_year t -> Parse_RFC3339 (fmt_RFC3339 t) = Some (Unix t * Prelude.Second).
Proof.
  intros Hy. pose proof (civil_range (day_of t)) as [Hm Hd]. fold (date_of t) in *.
  destruct (clock_range t) as (Hh & Hmi & Hs).
  pose proof (civil_day_in_month (day_of t)) as Hdm. fold (date_of t) in Hdm.
  unfold four_digit_year in Hy. unfold Parse_RFC3339, fmt_RFC3339, fmt_date, fmt_clock. cbv zeta.
  rewrite !sapp_assoc.
  rewrite (get_year_four _ (year (date_of t)));
    [|apply pad_itoa_length; [width|lia]|apply digits_val_pad; lia].
  rewrite CutPrefix_app, getnum_pad2, CutPrefix_app, getnum_pad2, CutPrefix_app, getnum_pad2,
    CutPrefix_app, getnum_pad2, CutPrefix_app, getnum_pad2 by lia.
  cbn [fraction zone String.append String.eqb negb]. 
  repeat match goal with |- context [if ?b then None else _] => replace b with false end.
  - f_equal. unfold instant. rewrite (Unix_parts t). destruct (date_of t). cbn. lia.
  - symmetry. rewrite !orb_false_iff. repeat split; lia.
Qed.
