(* ===== verification/Poll.v ===== *)
(** Polling loops. The program waits for containers, pods, databases and
    restores in loops of the same shape: a round either decides or sleeps, and a
    round past the deadline decides. *)

From Stdlib Require Import ZArith Lia String.
From stdpp Require Import base option list.
From S2P Require Import Prelude.
From S2P Require Verify.

Section Poll.
Context {W A : Type}.

(** [None] when the fuel runs out. *)
Fixpoint poll (fuel : nat) (round : M W (option A)) : M W (option A) :=
  match fuel with
  | O => mret None
  | S k =>
      let! r := round in
      match r with
      | Some a => mret (Some a)
      | None => poll k round
      end
  end.

(** The worlds the loop passes through before it decides. *)
Inductive undecided (round : M W (option A)) : W -> W -> Prop :=
| und_refl w : undecided round w w
| und_step w w1 w2 :
    round w = (None, w1) -> undecided round w1 w2 -> undecided round w w2.

(** A decision is the decision of a round, after rounds that made none. *)
Lemma poll_decided round fuel w a w' :
  poll fuel round w = (Some a, w') ->
  exists w1, undecided round w w1 /\ round w1 = (Some a, w').
Proof.
  revert w. induction fuel as [|k IH]; intros w; cbn [poll]; [discriminate|].
  unfold mbind, mret. destruct (round w) as [[b|] w1] eqn:E.
  - intros [= -> ->]. exists w. split; [constructor|done].
  - intros (w2 & Hu & Hr)%IH. exists w2. split; [|done]. by econstructor.
Qed.

(** What undecided rounds keep, the loop keeps. *)
Lemma undecided_inv (P : W -> Prop) round w w' :
  (forall w w1, P w -> round w = (None, w1) -> P w1) -> undecided round w w' -> P w -> P w'.
Proof. intros H. induction 1; eauto. Qed.

Context `{CL : Verify.ClockLaws W}.

(** The loop ends: an undecided round takes at least [step], and none begins
    after [limit]. *)
Lemma poll_total round step limit fuel w :
  (forall w, fst (round w) = None ->
     Verify.time_of w <= limit /\ Verify.time_of w + step <= Verify.time_of (snd (round w))) ->
  limit - Verify.time_of w < (Z.of_nat fuel - 1) * step -> 0 < step -> (0 < fuel)%nat ->
  fst (poll fuel round w) <> None.
Proof.
  intros Hr. revert w. induction fuel as [|k IH]; intros w Hf Hs Hpos; [lia|].
  cbn [poll]. unfold mbind, mret. specialize (Hr w).
  destruct (round w) as [[a|] w1] eqn:E; [done|]. cbn [fst snd] in Hr.
  destruct (Hr eq_refl) as [Hl Ht]. destruct k as [|k]; [lia|]. apply IH; [|done|lia]. nia.
Qed.

(** Fuel for a loop that lasts [d] in rounds of at least [step]. *)
Definition fuel_for (d step : Duration) : nat := S (S (Z.to_nat (d / step))).

Lemma fuel_for_enough d step t limit :
  0 < step -> 0 <= d -> limit - t <= d -> limit - t < (Z.of_nat (fuel_for d step) - 1) * step.
Proof.
  intros Hs Hd Hl. unfold fuel_for. rewrite !Nat2Z.inj_succ, Z2Nat.id by (apply Z.div_pos; lia).
  pose proof (Z.div_mod d step). pose proof (Z.mod_pos_bound d step). nia.
Qed.
End Poll.
