(* ===== verification/Keeps.v ===== *)
(** Invariants of effectful code: [keeps P c] when running [c] in a world that
    satisfies [P] ends in one that does, whatever it returns. The rules follow
    the shape of the code, so an invariant is checked call by call. *)

From Stdlib Require Import ZArith String.
From stdpp Require Import base option list.
From S2P Require Import Prelude Poll.

Definition keeps {W A} (P : W -> Prop) (c : M W A) : Prop := forall w, P w -> P (snd (c w)).

(** A call that never changes a view of the world. *)
Definition silent {W X A} (view : W -> X) (c : M W A) : Prop :=
  forall x, keeps (fun w => view w = x) c.

Create HintDb keeps.

Section Rules.
Context {W : Type} (P : W -> Prop).

Lemma keeps_ret {A} (a : A) : keeps P (mret a).
Proof. by intros w. Qed.

Lemma keeps_bind {A B} (c : M W A) (k : A -> M W B) :
  keeps P c -> (forall a, keeps P (k a)) -> keeps P (mbind c k).
Proof.
  intros Hc Hk w Hw. unfold mbind. specialize (Hc w Hw). destruct (c w) as [a w']. by apply Hk.
Qed.

Lemma keeps_and (Q : W -> Prop) {A} (c : M W A) :
  keeps P c -> keeps Q c -> keeps (fun w => P w /\ Q w) c.
Proof. intros HP HQ w [? ?]. split; auto. Qed.

Lemma keeps_mfold {A B} (f : B -> A -> M W B) acc xs :
  (forall acc x, In x xs -> keeps P (f acc x)) -> keeps P (mfold f acc xs).
Proof.
  revert acc. induction xs as [|x xs IH]; intros acc Hf; cbn [mfold]; [apply keeps_ret|].
  apply keeps_bind; [apply Hf; by left|]. intros acc'. apply IH. intros a y Hy. apply Hf. by right.
Qed.

Lemma keeps_poll {A} fuel (round : M W (option A)) : keeps P round -> keeps P (poll fuel round).
Proof.
  intros Hr. induction fuel as [|k IH]; cbn [poll]; [apply keeps_ret|].
  apply keeps_bind; [done|]. intros [a|]; [apply keeps_ret|done].
Qed.
End Rules.

#[export] Hint Resolve keeps_ret keeps_poll : keeps.

(** One call after the other, splitting on what each returns. *)
Ltac keeps_step :=
  match goal with
  | |- keeps _ (mbind _ _) => apply keeps_bind
  | |- keeps _ (match ?x with _ => _ end) => destruct x
  | |- forall _, keeps _ _ => intros ?
  | |- keeps _ _ => solve [eauto with keeps]
  end.
Ltac keeps_auto := repeat (cbv beta zeta; keeps_step).

(** A success of [v, err := c; if err != nil { return err }; k] is one of both. *)
Lemma bind_ok {W A B} (c : M W (result A)) h (k : A -> M W (result B)) w b w' :
  (let? x := c on_err h in k x) w = (Ok b, w') ->
  exists a w1, c w = (Ok a, w1) /\ k a w1 = (Ok b, w').
Proof.
  unfold mbind, mret. destruct (c w) as [[a|e] w1]; [eauto|discriminate].
Qed.

(** What a call leaves, with its result named. *)
Lemma keeps_run {W A} (P : W -> Prop) (c : M W A) w a w' :
  keeps P c -> c w = (a, w') -> P w -> P w'.
Proof. intros Hc H Hw. specialize (Hc w Hw). by rewrite H in Hc. Qed.
