(* ===== verification/DrillGate.v ===== *)
(** The drill and the gate together: the record a verified drill leaves is one
    the gate leans on, and nothing a whole drill does after writing it touches
    the files. *)

From Stdlib Require Import ZArith Lia Ascii String SpecFloat.
From stdpp Require Import base option list gmap strings.
From S2P Require Import Prelude GoStrings Paths Float64 Calendar Spec SpecFacts Disk Evidence World Print Interfaces Gate GateFacts Drill DrillFacts DrillRecord Keeps.
From S2P Require Verify Source Sign SignFacts.

Section DrillGate.
Context {X : Type} {CK : Verify.Clock (World X)} {EC : EvidenceCodec} {CR : Sign.Crypto}
  {VC : Sign.EnvelopeCodec} {SS : SliceSort}.
Context (dp : Deps X).

(** Where a drill's evidence goes. *)
Definition evidence_of (d : Drill) (o : Options X) : string :=
  evidence_dir (if is_empty (opt_EvidenceDir o) then Dir (spec_Report (drill_Spec d))
                else opt_EvidenceDir o).

(** A newest, verified, young enough and, if asked for, signed record gives its
    drill the standing the gate asks for. *)
Lemma newest_run_ok env disk opts now runs r :
  In r runs -> ev_Verified (E r) = true ->
  (forall r', In r' runs -> FinishedAt (E r') <= FinishedAt (E r)) ->
  (0 < gate_MaxAge opts -> Sub now (FinishedAt (E r)) <= gate_MaxAge opts) ->
  (RequireSigned opts = true -> Sign.Verify env (ef_Path r) (gate_PublicKey opts) disk = None) ->
  gate_ok env disk opts now runs.
Proof.
  intros Hin Hv Hnew Hage Hsig. constructor.
  - exists r. split; [|by left]. split; [done|]. split; [done|]. auto.
  - intros Hm. exists r. auto.
  - intros Hq. exists r. split; [|auto]. left. split; [done|]. split; [done|]. auto.
Qed.

Lemma bundle_verifies env path keyDir disk b :
  Sign.VerifyBundle env path None keyDir disk = Ok b -> Sign.Verify env path None disk = None.
Proof. unfold Sign.VerifyBundle. by destruct (Sign.Verify env path None disk). Qed.

Lemma finalize_passes_gate d o e re dur age w e' path w' opts wall files :
  (forall p, ReadErr (disk dp) p = None) -> four_digit_year (fst (Verify.Now w)) ->
  forall_bytes dns_char (ev_Drill e) = true -> ev_Drill e <> EmptyString -> encodable e' ->
  finalize dp d o e re dur age w = (Ran (Some e') path None, w') -> ev_Verified e' = true ->
  gate_Dir opts = evidence_of d o -> gate_by opts = "drill" -> Subjects opts = [ev_Drill e] ->
  gate_PublicKey opts = None ->
  (RequireSigned opts = true -> Spec.Sign (spec_Report (drill_Spec d)) = true) ->
  (0 < gate_MaxAge opts -> Sub (gate_now opts wall) (FinishedAt e') <= gate_MaxAge opts) ->
  scanEvidence (disk dp) (w_disk w') (gate_Dir opts) = Ok files ->
  let runs := runs_of "drill" (ev_Drill e) files in
  no_ties runs -> (forall r, In r runs -> FinishedAt (E r) <= FinishedAt e') ->
  exists rep, Gate (disk dp) (w_disk w') opts wall = Ok rep /\ rep_Violations rep = 0.
Proof.
  intros Hr Hc Hdns Hne Henc Hf Hv Hdir Hby Hsub Hpk Hsig Hage Hscan runs Hties Hnew.
  destruct (Gate_total (disk dp) (w_disk w') opts wall files Hscan (or_introl Hby)) as [rep Hg].
  exists rep. split; [done|].
  destruct (Gate_spec (disk dp) (w_disk w') opts wall rep files Hscan Hg) as [_ Hconv].
  apply Hconv. clear Hconv. intros n Hn. apply gate_names_in in Hn. rewrite Hsub in Hn.
  destruct Hn as [<-|[]]. rewrite Hby. split; [done|].
  assert (Hdr : ev_Drill e' = ev_Drill e).
  { destruct (finalize_record dp d o e re dur age w) as (p & er & Hrec).
    rewrite Hf in Hrec. cbn [fst] in Hrec. by injection Hrec as -> _ _. }
  apply (newest_run_ok _ _ _ _ _ {| ef_Path := path; E := e' |}); cbn [E ef_Path]; try done.
  - apply runs_of_drill. split; [|done]. eapply finalize_scanned; try done.
    by rewrite <- Hscan, Hdir.
  - intros Hq. rewrite Hpk.
    destruct (finalize_bundle dp d o e re dur age w e' path w' EmptyString Hr Hc Hdns (Hsig Hq) Hf)
      as (b & Hb & _). by eapply bundle_verifies.
Qed.
End DrillGate.

(** * What a whole drill leaves on disk

    The record [Run] returns is the one it wrote. *)

Section WholeDrill.
Context {X : Type} {CK : Verify.Clock (World X)} {EC : EvidenceCodec} {CR : Sign.Crypto}
  {VC : Sign.EnvelopeCodec}.
Abbreviation W := (World X).
Context (dp : Deps X).

(** Tearing down and closing do not write files of the process. *)
Class EndsQuietly : Prop := {
  docker_ends cfg sb w w' : docker_Provision dp cfg w = (Ok sb, w') -> silent w_disk (Destroy sb Background);
  k8s_ends cfg sb w w' : k8s_Provision dp cfg w = (Ok sb, w') -> silent w_disk (Destroy sb Background);
  velero_ends n b s ttl vd w w' :
    velero_Prepare dp n b s ttl w = (Ok vd, w') -> silent w_disk (vd_Destroy vd Background);
  close_ends db : silent w_disk (sql_Close dp db) }.

Context {EQ : EndsQuietly}.

(** [e] at [path] is what [finalize] wrote for [d], up to the flag that the
    deferred teardown sets again, and the disk has not changed since. *)
Definition written (d : Drill) (o : Options X) (e : Evidence) (path : string) (w' : W) : Prop :=
  exists e0 re dur age w1 w2 b, ev_Drill e0 = drill_Name d /\
    finalize dp d o e0 re dur age w1 = (Ran (Some (with_destroyed b e)) path None, w2) /\
    w_disk w' = w_disk w2.

(** A body that ends on [written], and what may follow it. *)
Definition writes (d : Drill) (o : Options X) (body : M W outcome) : Prop :=
  forall w e path w', body w = (Ran (Some e) path None, w') -> written d o e path w'.

Lemma silent_step {A} (c : M W A) w : silent w_disk c -> w_disk (snd (c w)) = w_disk w.
Proof. intros Hc. by apply (Hc (w_disk w)). Qed.

Lemma writes_bind {A} d o (c : M W A) k :
  (forall w a w1, c w = (a, w1) -> writes d o (k a)) -> writes d o (mbind c k).
Proof. intros Hk w e path w'. unfold mbind. destruct (c w) as [a w1] eqn:E. by eapply Hk. Qed.

Lemma writes_nothing d o path err : writes d o (mret (Ran None path err)).
Proof. by intros w e p w'. Qed.

Lemma writes_then {A} d o body (c : M W A) :
  silent w_disk c -> writes d o body -> writes d o (let! out := body in let! _ := c in mret out).
Proof.
  intros Hc Hb w e path w'. unfold mbind, mret. destruct (body w) as [out w1] eqn:Eb.
  pose proof (silent_step c w1 Hc) as Hd. destruct (c w1) as [a w2]. intros [= -> ->].
  destruct (Hb _ _ _ _ Eb) as (e0 & re & dur & age & v1 & v2 & b & Hn & Hf & Hw).
  exists e0, re, dur, age, v1, v2, b. cbn [snd] in Hd. by rewrite Hd.
Qed.

Lemma same_flag e : with_destroyed (sbx_Destroyed (ev_Sandbox e)) e = e.
Proof. by destruct e as [? ? ? ? ? ? ? []]. Qed.

Lemma flag_again b c e : with_destroyed b (with_destroyed c e) = with_destroyed b e.
Proof. done. Qed.

Lemma teardown_silent o what destroy was :
  silent w_disk destroy -> silent w_disk (teardown_of (X := X) o what destroy was).
Proof.
  intros Hd D. unfold teardown_of. apply keeps_bind; [done|]. intros e.
  apply keeps_bind; [|by intros _ w].
  intros v Hv. by rewrite warn_disk.
Qed.

Lemma with_teardown_writes d o td body :
  silent w_disk td -> writes d o body -> writes d o (with_teardown td body).
Proof.
  intros Ht Hb w e path w'. unfold with_teardown, mbind, mret. destruct (body w) as [out w1] eqn:Eb.
  pose proof (silent_step td w1 Ht) as Hd. destruct (td w1) as [c w2]. cbn [snd] in Hd.
  destruct out as [[e1|] p err|]; cbn [outcome_destroyed]; [|done|done]. intros [= <- <- -> <-].
  destruct (Hb _ _ _ _ Eb) as (e0 & re & dur & age & v1 & v2 & b & Hn & Hf & Hw).
  exists e0, re, dur, age, v1, v2, b. rewrite flag_again, Hd. done.
Qed.

(** ** The drill *)

Lemma verify_and_report_writes d o e td eng dc r :
  ev_Drill e = drill_Name d -> writes d o (verify_and_report dp d o e td eng dc r).
Proof.
  intros Hn. unfold verify_and_report. do 3 (apply writes_bind; intros ? ? ? ?).
  intros v e1 p v1 Hf.
  do 6 eexists. exists (sbx_Destroyed (ev_Sandbox e1)). rewrite same_flag.
  split; [|split; [exact Hf|done]]. exact Hn.
Qed.

Lemma set_restore_drill r e : ev_Drill (set_restore r e) = ev_Drill e.
Proof. by destruct r. Qed.

Lemma open_engine_closes drv sb src r w eng close w' :
  open_engine dp drv sb src r w = (Ok (eng, close), w') -> silent w_disk close.
Proof.
  assert (Hret : silent w_disk (mret tt : M W unit)) by (intros D; apply keeps_ret).
  unfold open_engine. destruct r as [res|r err]; [|by intros [= _ <- _]].
  destruct (verification drv) as [engine|sqlDriver dsn q|]; [by intros [= _ <- _]| |done].
  unfold mbind, mret. destruct (sql_Open dp _ _ w) as [[db|err] w1]; [|done].
  intros [= _ <- _]. apply close_ends.
Qed.

Lemma in_sandbox_writes d o drv b age e t0 sb :
  silent w_disk (Destroy sb Background) -> ev_Drill e = drill_Name d ->
  writes d o (in_sandbox dp d o drv b age e t0 sb).
Proof.
  intros Hs Hn. unfold in_sandbox. apply writes_bind. intros _ _ _ _. apply writes_bind.
  intros _ r _ _. apply writes_bind. intros _ _ _ _. apply writes_bind.
  intros w [[eng close]|err] w1 Eo; [|apply writes_nothing]. apply writes_then.
  - by eapply open_engine_closes.
  - apply verify_and_report_writes. by rewrite set_restore_drill.
Qed.

Lemma with_backup_writes d o drv e b :
  ev_Drill e = drill_Name d -> writes d o (with_backup dp d o drv e b).
Proof.
  intros Hn. unfold with_backup. apply writes_bind. intros _ now _ _. apply writes_bind.
  intros _ t0 _ _. apply writes_bind. intros w [sb|err] w1 Ep; [|apply writes_nothing].
  assert (Hs : silent w_disk (Destroy sb Background)).
  { unfold provision in Ep. destruct (String.eqb _ "docker"); [by eapply docker_ends|].
    destruct (String.eqb _ "kubernetes"); [by eapply k8s_ends|done]. }
  apply with_teardown_writes; [by apply teardown_silent|by apply in_sandbox_writes].
Qed.

Lemma runVelero_writes d o e : ev_Drill e = drill_Name d -> writes d o (runVelero dp d o e).
Proof.
  intros Hn. unfold runVelero. apply writes_bind. intros _ t0 _ _. apply writes_bind.
  intros w [vd|err] w1 Ep; [|apply writes_nothing].
  apply with_teardown_writes; [apply teardown_silent; by eapply velero_ends|].
  unfold in_namespace. do 4 (apply writes_bind; intros ? ? ? ?).
  apply verify_and_report_writes. by rewrite set_restore_drill.
Qed.

Lemma Run_writes d o : writes d o (Run dp d o).
Proof.
  unfold Run. apply writes_bind. intros _ now _ _. cbv zeta.
  destruct (String.eqb _ "velero"); [by apply runVelero_writes|].
  unfold run_engine. destruct (Get _ _) as [drv|err]; [|apply writes_nothing].
  apply writes_bind. intros _ [b|err|] _ _; [|apply writes_nothing|by intros w e p w'].
  apply writes_then; [|by apply with_backup_writes].
  intros D w. unfold on_tmp. by destruct (Source.Cleanup _ _).
Qed.

(** ** The gate after the drill *)

Context {SS : SliceSort}.

Lemma finalize_ends d o e re dur age w e' path err w' :
  finalize dp d o e re dur age w = (Ran (Some e') path err, w') ->
  FinishedAt e' = fst (Verify.Now w) /\ ev_Drill e' = ev_Drill e.
Proof.
  intros H. destruct (finalize_record dp d o e re dur age w) as (p & er & Hr).
  rewrite H in Hr. cbn [fst] in Hr. by injection Hr as -> _ _.
Qed.

(** The record of a verified run passes a gate over the same directory. *)
Lemma Run_passes_gate d o w e path w' opts wall files :
  (forall p, ReadErr (disk dp) p = None) -> well_formed d ->
  Run dp d o w = (Ran (Some e) path None, w') -> ev_Verified e = true ->
  four_digit_year (FinishedAt e) -> (forall b, encodable (with_destroyed b e)) ->
  gate_Dir opts = evidence_of d o -> gate_by opts = "drill" -> Subjects opts = [drill_Name d] ->
  gate_PublicKey opts = None ->
  (RequireSigned opts = true -> Spec.Sign (spec_Report (drill_Spec d)) = true) ->
  (0 < gate_MaxAge opts -> Sub (gate_now opts wall) (FinishedAt e) <= gate_MaxAge opts) ->
  scanEvidence (disk dp) (w_disk w') (gate_Dir opts) = Ok files ->
  let runs := runs_of "drill" (drill_Name d) files in
  no_ties runs -> (forall r, In r runs -> FinishedAt (E r) <= FinishedAt e) ->
  exists rep, Gate (disk dp) (w_disk w') opts wall = Ok rep /\ rep_Violations rep = 0.
Proof.
  intros Hr Hwf H Hv Hy Henc Hdir Hby Hsub Hpk Hsig Hage Hscan runs Hties Hnew.
  destruct (Run_writes d o _ _ _ _ H) as (e0 & re & dur & age & w1 & w2 & b & Hn & Hf & Hd).
  destruct (finalize_ends _ _ _ _ _ _ _ _ _ _ _ Hf) as [Hfin _]. cbn in Hfin.
  rewrite Hd in *. subst runs. rewrite <- Hn in *.
  assert (Hdns : dns_label (ev_Drill e0)) by (rewrite Hn; apply Hwf).
  eapply (finalize_passes_gate dp d o e0 re dur age w1 (with_destroyed b e) path w2); try done.
  - by rewrite <- Hfin.
  - by apply dns_label_bytes.
  - intros He. apply dns_label_length in Hdns. rewrite He in Hdns. simpl in Hdns. lia.
Qed.
End WholeDrill.
