(* ===== verification/Sandboxes.v ===== *)
(** What the sandbox providers share: the capped output buffer
    (pkg/sandbox/buffer.go), the names they give their resources, and the
    lifecycle of a sandbox object, which the drill and the TTL watchdog both
    hold a pointer to. *)

From Stdlib Require Import ZArith Lia Ascii String.
From stdpp Require Import base option list gmap strings.
From S2P Require Import Prelude GoStrings PathMatch Encoding Spec SpecFacts.
From S2P Require Verify.

(** * Captured output *)

Definition MaxExecOutput : Z := Z.shiftl 4 20.

Record LimitedBuffer := { buf : string; Max : Z }.

(** [Write] always reports the whole of [p] as written. *)
Definition buffer_Write (l : LimitedBuffer) (p : string) : LimitedBuffer * Z :=
  let remaining := Max l - len (buf l) in
  ((if 0 <? remaining then
      if remaining <? len p
      then {| buf := buf l +:+ take_bytes (Z.to_nat remaining) p; Max := Max l |}
      else {| buf := buf l +:+ p; Max := Max l |}
    else l),
   len p).

(** The stream copied into a fresh buffer, one [Write] per chunk. *)
Definition capture (max : Z) (chunks : list string) : LimitedBuffer :=
  List.fold_left (fun l p => fst (buffer_Write l p)) chunks {| buf := ""; Max := max |}.

Lemma take_bytes_app n a b :
  take_bytes n (a +:+ b) = take_bytes n a +:+ take_bytes (n - String.length a) b.
Proof.
  revert n. induction a as [|c a IH]; intros n; [by rewrite Nat.sub_0_r; destruct n|].
  destruct n as [|n]; [by destruct b|]. cbn. by rewrite IH.
Qed.

Lemma take_bytes_ge n s : (String.length s <= n)%nat -> take_bytes n s = s.
Proof.
  revert n. induction s as [|c s IH]; intros [|n]; simpl; intros H; try done; try lia.
  rewrite IH by lia. done.
Qed.

(** The buffer holds the stream's first [Max] bytes, whatever the chunks. *)
Lemma capture_prefix max chunks :
  0 <= max ->
  buf (capture max chunks) = take_bytes (Z.to_nat max) (String.concat "" chunks) /\
  Max (capture max chunks) = max.
Proof.
  intros Hm. unfold capture. induction chunks as [|p chunks [IH IHm]] using rev_ind.
  { simpl. split; [by destruct (Z.to_nat max)|done]. }
  rewrite fold_left_app. cbn [List.fold_left].
  assert (Hc : String.concat "" (chunks ++ [p]) = String.concat "" chunks +:+ p).
  { clear. induction chunks as [|q chunks IH]; [by rewrite sapp_nil_r || done|].
    destruct chunks as [|r chunks]; [done|]. change (q +:+ "" +:+ String.concat "" ((r :: chunks) ++ [p])
      = (q +:+ "" +:+ String.concat "" (r :: chunks)) +:+ p).
    rewrite IH. by rewrite !sapp_assoc. }
  rewrite Hc, take_bytes_app. unfold buffer_Write. cbn [fst].
  set (l := List.fold_left _ chunks _) in *. set (s := String.concat "" chunks) in *.
  assert (Hlen : len (buf l) = Z.min max (len s)).
  { rewrite IH. unfold len. rewrite take_bytes_length. lia. }
  rewrite IHm, Hlen. unfold len in *.
  destruct (Z.ltb_spec 0 (max - Z.min max (Z.of_nat (String.length s)))) as [Hr|Hr].
  - rewrite (take_bytes_ge _ s) in IH by lia.
    destruct (Z.ltb_spec (max - Z.min max (Z.of_nat (String.length s))) (Z.of_nat (String.length p)));
      cbn [buf Max]; (split; [|done]); rewrite IH, (take_bytes_ge _ s) by lia; f_equal.
    + f_equal. lia.
    + rewrite take_bytes_ge by lia. done.
  - split; [|done]. rewrite IH. replace (Z.to_nat max - String.length s)%nat with 0%nat by lia.
    destruct p; by rewrite sapp_nil_r.
Qed.

(** * Names *)

Definition sanitize_rune (r : Z) : ascii :=
  if ((97 <=? r) && (r <=? 122)) || ((48 <=? r) && (r <=? 57)) || (r =? 45) then byte_of r
  else if (65 <=? r) && (r <=? 90) then byte_of (r + 32)
  else "-"%char.

(** [strings.Map]: rune by rune. A rune has at least one byte, so the length of
    the string is fuel enough. *)
Fixpoint sanitize_runes (fuel : nat) (s : string) : string :=
  match fuel, s with
  | S k, String _ _ =>
      let '(r, n) := DecodeRune s in
      String (sanitize_rune r) (sanitize_runes k (drop_bytes n s))
  | _, _ => EmptyString
  end.

Definition sanitize (s : string) : string := sanitize_runes (String.length s) s.

Lemma is_lower_val c : is_lower c = (97 <=? byte_val c) && (byte_val c <=? 122).
Proof. done. Qed.

Lemma is_digit_val c : is_digit c = (48 <=? byte_val c) && (byte_val c <=? 57).
Proof.
  unfold is_digit, byte_val. cbv zeta.
  destruct (N.leb_spec 48 (N_of_ascii c)), (N.leb_spec (N_of_ascii c) 57),
    (Z.leb_spec 48 (Z.of_N (N_of_ascii c))), (Z.leb_spec (Z.of_N (N_of_ascii c)) 57); try done; lia.
Qed.

Lemma sanitize_rune_dns r : dns_char (sanitize_rune r) = true.
Proof.
  unfold sanitize_rune, dns_char.
  destruct ((97 <=? r) && (r <=? 122)) eqn:E1; cbn [orb].
  { rewrite is_lower_val, byte_val_of by lia. by rewrite E1. }
  destruct ((48 <=? r) && (r <=? 57)) eqn:E2; cbn [orb].
  { rewrite is_digit_val, byte_val_of by lia. by rewrite E2, orb_true_r. }
  destruct (Z.eqb_spec r 45) as [->|]; [done|].
  destruct ((65 <=? r) && (r <=? 90)) eqn:E3; [|done].
  rewrite is_lower_val, byte_val_of by lia. apply orb_true_iff. left. apply orb_true_iff. left. lia.
Qed.

Lemma sanitize_runes_dns fuel s : forall_bytes dns_char (sanitize_runes fuel s) = true.
Proof.
  revert s. induction fuel as [|k IH]; intros [|c s]; try done. cbn [sanitize_runes].
  destruct (DecodeRune (String c s)) as [r n]. cbn [forall_bytes].
  by rewrite sanitize_rune_dns, IH.
Qed.

(** Whatever the name, the result is made of label characters. *)
Lemma sanitize_dns s : forall_bytes dns_char (sanitize s) = true.
Proof. apply sanitize_runes_dns. Qed.

Lemma dns_char_val c :
  dns_char c = ((97 <=? byte_val c) && (byte_val c <=? 122)) ||
               ((48 <=? byte_val c) && (byte_val c <=? 57)) || (byte_val c =? 45).
Proof.
  unfold dns_char. rewrite is_lower_val, is_digit_val. f_equal.
  destruct (Ascii.eqb_spec c "-") as [->|Hc]; [done|]. symmetry. apply Z.eqb_neq. intros Hv.
  apply Hc. rewrite <- (byte_of_val c), Hv. done.
Qed.

(** A validated drill name is left alone. *)
Lemma sanitize_id s : forall_bytes dns_char s = true -> sanitize s = s.
Proof.
  unfold sanitize. induction s as [|c s IH]; [done|]. cbn [forall_bytes String.length].
  rewrite andb_true_iff. intros [Hc Hs]. cbn [sanitize_runes].
  assert (Hd : DecodeRune (String c s) = (byte_val c, 1%nat)).
  { unfold DecodeRune. rewrite dns_char_val in Hc. destruct (Z.ltb_spec (byte_val c) 128); [done|lia]. }
  rewrite Hd. cbn [drop_bytes]. rewrite IH by done. f_equal.
  unfold sanitize_rune. rewrite dns_char_val in Hc. rewrite Hc. apply byte_of_val.
Qed.

(** [randomHex(n)] of the [n] bytes the system's generator gave. *)
Definition randomHex (bytes : string) : string := hex_Encode bytes.

Definition sandbox_name (drill suffix : string) : string :=
  "firedrill-" +:+ sanitize drill +:+ "-" +:+ suffix.

(** The name of a drill takes 19 bytes more than the drill's. *)
Lemma sandbox_name_length drill bytes :
  forall_bytes dns_char drill = true -> String.length bytes = 4%nat ->
  String.length (sandbox_name drill (randomHex bytes)) = (String.length drill + 19)%nat.
Proof.
  intros Hd Hb. unfold sandbox_name, randomHex.
  rewrite !slen_app, (sanitize_id _ Hd), hex_Encode_length, Hb. cbn [String.length]. lia.
Qed.

(** * Readiness

    The driver's readiness commands: every one exits 0 in a single pass. *)
Fixpoint all_ready {D} (exec : list string -> M D (Z * string * option error))
  (cmds : list (list string)) : M D bool :=
  match cmds with
  | [] => mret true
  | cmd :: r =>
      let! x := exec cmd in
      let '(code, _, err) := x in
      if isSome err || negb (code =? 0) then mret false else all_ready exec r
  end.

Definition Millisecond : Duration := 1000000.
