(* ===== verification/Lifecycle.v ===== *)
(** The lifecycle of a sandbox object: Docker containers, pods and Velero
    namespaces are torn down by the same code ([destroyOnce.Do], the recorded
    error, the atomic flag, the watchdog's timer), and the drill and the watchdog
    goroutine hold pointers to one object. The process memory is explicit, so the
    aliasing is. *)

From Stdlib Require Import ZArith Lia String.
From stdpp Require Import base option list gmap relations.
From S2P Require Import Prelude.
From S2P Require Verify.

(** * Memory *)

Record Heap (S : Type) := { next : positive; cells : gmap positive S }.
Arguments next {S}. Arguments cells {S}.

(** A process: the objects it allocated and the world outside it. *)
Record Proc (S D : Type) := { heap : Heap S; ext : D }.
Arguments heap {S D}. Arguments ext {S D}.

Section Memory.
Context {S D : Type}.

Definition on_world {A} (c : M D A) : M (Proc S D) A := fun w =>
  let '(a, d) := c (ext w) in (a, {| heap := heap w; ext := d |}).

Definition load (p : positive) (w : Proc S D) : option S := cells (heap w) !! p.

Definition store (p : positive) (s : S) (w : Proc S D) : Proc S D :=
  {| heap := {| next := next (heap w); cells := <[p := s]> (cells (heap w)) |}; ext := ext w |}.

Definition alloc (s : S) : M (Proc S D) positive := fun w =>
  let p := next (heap w) in
  (p, {| heap := {| next := Pos.succ p; cells := <[p := s]> (cells (heap w)) |};
         ext := ext w |}).

Definition modify (p : positive) (f : S -> S) : M (Proc S D) unit := fun w =>
  match load p w with
  | Some s => (tt, store p (f s) w)
  | None => (tt, w)
  end.

Lemma load_store p s w : load p (store p s w) = Some s.
Proof. apply lookup_insert_eq. Qed.

Lemma load_on_world {A} p (c : M D A) w : load p (snd (on_world c w)) = load p w.
Proof. unfold on_world. by destruct (c (ext w)). Qed.

Lemma on_world_run {A} (c : M D A) w :
  on_world c w = (fst (c (ext w)), {| heap := heap w; ext := snd (c (ext w)) |}).
Proof. unfold on_world. by destruct (c (ext w)). Qed.
End Memory.

(** The clock of a process is the world's. *)
#[export] Instance Proc_Clock {S D} `{Verify.Clock D} : Verify.Clock (Proc S D) := {
  Verify.Now := on_world Verify.Now;
  Verify.Sleep d := on_world (Verify.Sleep d);
  Verify.ctx_Err := on_world Verify.ctx_Err }.

#[export] Program Instance Proc_ClockLaws {S D} `{CL : Verify.ClockLaws D} :
  Verify.ClockLaws (Proc S D) := { Verify.time_of w := Verify.time_of (ext w) }.
Next Obligation.
  intros. unfold Verify.Now. cbn. rewrite on_world_run. apply Verify.Now_reads.
Qed.
Next Obligation.
  intros. unfold Verify.Sleep. cbn. rewrite on_world_run. apply Verify.Sleep_takes.
Qed.
Next Obligation.
  intros. unfold Verify.ctx_Err. cbn. rewrite on_world_run. apply Verify.ctx_Err_takes.
Qed.

(** * Lifecycles *)

Record Lifecycle := {
  once : bool;                 (* [destroyOnce] is used up *)
  destroyErr : option error;
  destroyed : bool;
  timer : option Time;         (* the deadline of the armed watchdog *)
  cancelled : bool             (* [ttlCancel] was called *)
}.

Definition newborn : Lifecycle := {|
  once := false; destroyErr := None; destroyed := false; timer := None; cancelled := false |}.

Definition arm (deadline : Time) (l : Lifecycle) : Lifecycle := {|
  once := once l; destroyErr := destroyErr l; destroyed := destroyed l;
  timer := Some deadline; cancelled := cancelled l |}.

Definition ended (err : option error) (l : Lifecycle) : Lifecycle := {|
  once := true; destroyErr := err; destroyed := negb (isSome err);
  timer := timer l; cancelled := isSome (timer l) |}.

(** An object with a lifecycle, and how it is removed from the world. *)
Class Owner (S D : Type) : Type := {
  life : S -> Lifecycle;
  set_life : Lifecycle -> S -> S;
  remove : Ctx -> S -> M D (option error);
  life_set : forall l s, life (set_life l s) = l
}.

Section Owner.
Context {S D : Type} {CK : Verify.Clock D} {OW : Owner S D}.

(** [Destroy]: what is inside [destroyOnce.Do], once. *)
Definition Destroy (c : Ctx) (p : positive) : M (Proc S D) (option error) := fun w =>
  match load p w with
  | None => (None, w)
  | Some s =>
      if once (life s) then (destroyErr (life s), w)
      else
        let '(err, d) := remove c s (ext w) in
        (err, store p (set_life (ended err (life s)) s) {| heap := heap w; ext := d |})
  end.

Definition WasDestroyed (p : positive) (w : Proc S D) : bool :=
  match load p w with Some s => destroyed (life s) | None => false end.

(** The watchdog goroutine, when it is scheduled: nothing after the
    cancellation or before the deadline. *)
Definition watchdog (p : positive) : M (Proc S D) unit := fun w =>
  match load p w with
  | None => (tt, w)
  | Some s =>
      match timer (life s) with
      | None => (tt, w)
      | Some deadline =>
          if cancelled (life s) then (tt, w)
          else
            let '(now, w) := Verify.Now w in
            if now <? deadline then (tt, w) else (tt, snd (Destroy Background p w))
      end
  end.

(** What can happen once the sandbox is up: the world moves on, other objects
    are allocated or changed, [Destroy] is called under whatever context, the
    watchdog runs. *)
Inductive step (p : positive) : Proc S D -> Proc S D -> Prop :=
| st_world w d : step p w {| heap := heap w; ext := d |}
| st_alloc w s : p <> next (heap w) -> step p w (snd (alloc s w))
| st_other w q s : q <> p -> step p w (store q s w)
| st_destroy c w : step p w (snd (Destroy c p w))
| st_watchdog w : step p w (snd (watchdog p w)).

Definition steps (p : positive) : Proc S D -> Proc S D -> Prop := rtc (step p).

Lemma load_Destroy c p w s :
  load p w = Some s ->
  load p (snd (Destroy c p w)) =
    Some (if once (life s) then s
          else set_life (ended (fst (Destroy c p w)) (life s)) s).
Proof.
  intros Hs. unfold Destroy. rewrite Hs. destruct (once (life s)); [done|].
  destruct (remove c s (ext w)) as [err d]. apply load_store.
Qed.

(** [Destroy] ends with the once used up, and reports what it recorded. *)
Lemma Destroy_ends c p w s :
  load p w = Some s ->
  exists s', load p (snd (Destroy c p w)) = Some s' /\ once (life s') = true /\
    fst (Destroy c p w) = destroyErr (life s').
Proof.
  intros Hs. rewrite (load_Destroy _ _ _ _ Hs). destruct (once (life s)) eqn:E.
  - exists s. split; [done|]. split; [done|]. unfold Destroy. by rewrite Hs, E.
  - eexists. split; [done|]. by rewrite life_set.
Qed.

(** Used up: nothing is removed again, and every call reports the first
    outcome. *)
Lemma Destroy_again c p w s :
  load p w = Some s -> once (life s) = true -> Destroy c p w = (destroyErr (life s), w).
Proof. intros Hs Ho. unfold Destroy. by rewrite Hs, Ho. Qed.

Lemma watchdog_cases p w :
  snd (watchdog p w) = w \/
  exists d, snd (watchdog p w) = {| heap := heap w; ext := d |} \/
            snd (watchdog p w) = snd (Destroy Background p {| heap := heap w; ext := d |}).
Proof.
  unfold watchdog. destruct (load p w) as [s|]; [|by left].
  destruct (timer (life s)); [|by left]. destruct (cancelled (life s)); [by left|].
  unfold Verify.Now. cbn. rewrite on_world_run. right. eexists.
  destruct (_ <? _); [by left|by right].
Qed.

(** The same with the moment at which it looked at the clock. *)
Lemma watchdog_moves p w :
  snd (watchdog p w) = w \/
  snd (watchdog p w) = snd (Verify.Now w) \/
  snd (watchdog p w) = snd (Destroy Background p (snd (Verify.Now w))).
Proof.
  unfold watchdog. destruct (load p w) as [s|]; [|by left].
  destruct (timer (life s)); [|by left]. destruct (cancelled (life s)); [by left|].
  destruct (Verify.Now w) as [now w1]. destruct (_ <? _); auto.
Qed.

(** After the end the object never changes. *)
Lemma step_ended p w w' s :
  step p w w' -> load p w = Some s -> once (life s) = true -> load p w' = Some s.
Proof.
  intros Hst Hs Ho. destruct Hst as [w d|w s0 Hp|w q s0 Hq|c w|w].
  - done.
  - unfold load, alloc. cbn. by rewrite lookup_insert_ne by done.
  - unfold load, store. cbn. by rewrite lookup_insert_ne by done.
  - by rewrite (Destroy_again _ _ _ _ Hs Ho).
  - destruct (watchdog_cases p w) as [->|(d & [->| ->])]; [done|done|].
    by rewrite (Destroy_again _ _ {| heap := heap w; ext := d |} _ Hs Ho).
Qed.

Lemma steps_ended p w w' s :
  steps p w w' -> load p w = Some s -> once (life s) = true -> load p w' = Some s.
Proof. induction 1; eauto using step_ended. Qed.

(** A sandbox whose watchdog is armed at [deadline]: still up, or ended. *)
Definition guarded (p : positive) (deadline : Time) (w : Proc S D) : Prop :=
  exists s, load p w = Some s /\ timer (life s) = Some deadline /\
    (once (life s) = false -> cancelled (life s) = false).

Lemma Destroy_guarded c p dl w : guarded p dl w -> guarded p dl (snd (Destroy c p w)).
Proof.
  intros (s & Hs & Ht & Hc). unfold guarded. rewrite (load_Destroy _ _ _ _ Hs).
  destruct (once (life s)) eqn:E; [eexists; rewrite E; eauto|].
  eexists. split; [done|]. by rewrite life_set.
Qed.

Lemma step_guarded p dl w w' : step p w w' -> guarded p dl w -> guarded p dl w'.
Proof.
  intros Hst Hg. destruct Hst as [w d|w s0 Hp|w q s0 Hq|c w|w].
  - done.
  - destruct Hg as (s & Hs & Hg). exists s. unfold load, alloc in *. cbn.
    by rewrite lookup_insert_ne by done.
  - destruct Hg as (s & Hs & Hg). exists s. unfold load, store in *. cbn.
    by rewrite lookup_insert_ne by done.
  - by apply Destroy_guarded.
  - destruct (watchdog_cases p w) as [->|(d & [->| ->])]; [done|done|].
    by apply (Destroy_guarded _ p dl {| heap := heap w; ext := d |}).
Qed.

Lemma steps_guarded p dl w w' : steps p w w' -> guarded p dl w -> guarded p dl w'.
Proof. induction 1; eauto using step_guarded. Qed.

(** The watchdog running past the deadline leaves no sandbox up. *)
Lemma watchdog_ends p dl w :
  guarded p dl w -> dl <= fst (Verify.Now w) ->
  exists s, load p (snd (watchdog p w)) = Some s /\ once (life s) = true.
Proof.
  intros (s & Hs & Ht & Hc) Hdl. unfold watchdog. rewrite Hs, Ht.
  destruct (cancelled (life s)) eqn:Ec.
  { exists s. split; [done|]. destruct (once (life s)); [done|]. by specialize (Hc eq_refl). }
  unfold Verify.Now in *. cbn in *. rewrite on_world_run in *. cbn in Hdl.
  rewrite (proj2 (Z.ltb_ge _ _) Hdl). cbn [snd].
  destruct (Destroy_ends Background p {| heap := heap w; ext := snd (Verify.Now (ext w)) |} s Hs)
    as (s' & ? & ? & _). eauto.
Qed.
End Owner.
