(* ===== verification/Docker.v ===== *)
(** Docker sandboxes (pkg/sandbox/docker/docker.go). The daemon's client is
    third-party: [DockerAPI] holds the calls the code makes, over the daemon's
    state [D]; the sandbox objects live in the process ([Lifecycle.Proc]). *)

From Stdlib Require Import ZArith Lia Ascii String.
From stdpp Require Import base option list gmap strings.
From S2P Require Import Prelude GoStrings Calendar Spec Interfaces Poll Keeps Sandboxes Lifecycle.
From S2P Require Verify Source.

Definition dbName : string := "firedrill".
Definition dbUser : string := "firedrill".

(** [client.ContainerCreateOptions], as the code fills it. *)
Record ContainerSpec := {
  cs_Name : string;
  cs_Image : string;
  Env : list string;
  Labels : gmap string string;
  ExposedPort : string;
  Entrypoint : list string;
  HostIP : string;
  cs_HostPort : string;
  AutoRemove : bool;
  NetworkMode : string
}.

(** An entry of [ContainerList] and of [NetworkList]. *)
Record ContainerSummary := {
  c_ID : string; Names : list string; c_Labels : gmap string string; c_Created : Z }.
Record NetworkSummary := { n_ID : string; n_Name : string; n_Created : Time }.

Record DockerAPI (D : Type) := {
  client_New : M D (option error);
  Ping : M D (option error);
  rand_Read : nat -> M D string;
  NetworkCreate : string -> M D (result string);
  ImagePull : string -> M D (option error);
  PullWait : string -> M D (option error);
  ParsePort : string -> result string;
  ContainerCreate : ContainerSpec -> M D (result string);
  ContainerStart : string -> M D (option error);
  (** the published host ports of each port, or no network settings *)
  ContainerInspect : string -> M D (result (option (gmap string (list string))));
  ContainerRemove : Ctx -> string -> M D (option error);
  NetworkRemove : Ctx -> string -> M D (option error);
  ContainerList : M D (result (list ContainerSummary));
  NetworkList : M D (result (list NetworkSummary));
  ExecCreate : string -> list string -> bool -> M D (result string);
  ExecAttach : string -> M D (result unit);
  (** the demultiplexed output, in the writes [stdcopy] makes *)
  ExecStream : string -> option Source.Reader -> M D (list string * option error);
  ExecInspect : string -> M D (result Z)
}.
Arguments client_New {D}. Arguments Ping {D}. Arguments rand_Read {D}. Arguments NetworkCreate {D}.
Arguments ImagePull {D}. Arguments PullWait {D}. Arguments ParsePort {D}.
Arguments ContainerCreate {D}. Arguments ContainerStart {D}. Arguments ContainerInspect {D}.
Arguments ContainerRemove {D}. Arguments NetworkRemove {D}. Arguments ContainerList {D}.
Arguments NetworkList {D}. Arguments ExecCreate {D}. Arguments ExecAttach {D}.
Arguments ExecStream {D}. Arguments ExecInspect {D}.

(** The sandbox object. *)
Record Sandbox := {
  ContainerID : string;
  networkID : string;
  password : string;
  hostPort : string;
  sb_life : Lifecycle
}.

Definition set_container (id : string) (s : Sandbox) : Sandbox := {|
  ContainerID := id; networkID := networkID s; password := password s;
  hostPort := hostPort s; sb_life := sb_life s |}.

Definition set_port (port : string) (s : Sandbox) : Sandbox := {|
  ContainerID := ContainerID s; networkID := networkID s; password := password s;
  hostPort := port; sb_life := sb_life s |}.

Definition set_sb_life (l : Lifecycle) (s : Sandbox) : Sandbox := {|
  ContainerID := ContainerID s; networkID := networkID s; password := password s;
  hostPort := hostPort s; sb_life := l |}.

(** [if err != nil { return fmt.Errorf(pre + "%w", err) }] *)
Definition failing {W} (pre : string) (c : M W (option error)) : M W (result unit) :=
  let! e := c in mret match e with Some err => Err (EWrap pre err "") | None => Ok tt end.

Section Docker.
Context {D : Type} {CK : Verify.Clock D} (api : DockerAPI D).

(** What [Destroy] does inside its once: the container, then the network; the
    first failure is kept. *)
Definition remove_container (c : Ctx) (id : string) : M D (option error) :=
  if negb (is_empty id) then
    let! e := ContainerRemove api c id in
    mret match e with Some err => Some (EWrap "removing container: " err "") | None => None end
  else mret None.

Definition remove_network (c : Ctx) (id : string) (e1 : option error) : M D (option error) :=
  if negb (is_empty id) then
    let! e := NetworkRemove api c id in
    mret match e1, e with
         | None, Some err => Some (EWrap "removing network: " err "")
         | _, _ => e1
         end
  else mret e1.

Definition remove_sandbox (c : Ctx) (s : Sandbox) : M D (option error) :=
  let! e1 := remove_container c (ContainerID s) in remove_network c (networkID s) e1.

#[local] Instance Docker_Owner : Owner Sandbox D := {|
  life := sb_life; set_life := set_sb_life; remove := remove_sandbox;
  life_set _ _ := eq_refl |}.

(** ** Commands *)

Definition Exec (id : string) (cmd : list string) (stdin : option Source.Reader)
  : M D (Z * string * option error) :=
  let! created := ExecCreate api id cmd (isSome stdin) in
  match created with
  | Err e => mret (-1, EmptyString, Some (EWrap "exec create: " e ""))
  | Ok eid =>
      let! att := ExecAttach api eid in
      match att with
      | Err e => mret (-1, EmptyString, Some (EWrap "exec attach: " e ""))
      | Ok _ =>
          let! r := ExecStream api eid stdin in
          let '(chunks, err) := r in
          let out := buf (capture MaxExecOutput chunks) in
          match err with
          | Some e => mret (-1, out, Some (EWrap "exec output: " e ""))
          | None =>
              let! insp := ExecInspect api eid in
              mret match insp with
                   | Err e => (-1, out, Some (EWrap "exec inspect: " e ""))
                   | Ok code => (code, out, None)
                   end
          end
      end
  end.

Definition ready_round (id : string) (cmds : list (list string)) (deadline : Time)
  : M D (option (option error)) :=
  let! t := Verify.Now in
  if negb (Before t deadline)
  then mret (Some (Some (ENew "sandbox database not ready after 3m")))
  else
    let! cerr := Verify.ctx_Err in
    match cerr with
    | Some e => mret (Some (Some e))
    | None =>
        let! ready := all_ready (fun cmd => Exec id cmd None) cmds in
        if ready then mret (Some None)
        else let! _ := Verify.Sleep (500 * Millisecond) in mret None
    end.

Definition ready_fuel : nat := fuel_for (3 * Minute) (500 * Millisecond).

Definition waitReady (id : string) (cmds : list (list string)) : M D (option error) :=
  let! t := Verify.Now in
  let! r := poll ready_fuel (ready_round id cmds (Add t (3 * Minute))) in
  mret match r with
       | Some e => e
       | None => Some (ENew "sandbox database not ready after 3m")
       end.

(** ** Provisioning *)

Abbreviation St := (Proc Sandbox D).

Definition container_spec {W} (cfg : Config W) (name pw nid port : string) (now : Time)
  : ContainerSpec := {|
  cs_Name := name;
  cs_Image := cfg_Image cfg;
  Env := ContainerEnv (cfg_Driver cfg) dbUser pw dbName;
  Labels := <["firedrill" := "sandbox"]> (<["firedrill/drill" := cfg_Name cfg]>
    {["firedrill.expires-at" := fmt_RFC3339 (Add now (cfg_TTL cfg))]});
  ExposedPort := port;
  Entrypoint := if ColdStart cfg then ["sleep"; "infinity"] else [];
  HostIP := "127.0.0.1"; cs_HostPort := "";
  AutoRemove := false; NetworkMode := nid |}.

(** The part of [Provision] that the deferred cleanup covers. *)
Definition start_sandbox {W} (cfg : Config W) (name pw nid : string) (p : positive)
  : M St (result unit) :=
  let? _ := on_world (failing ("pulling " +:+ cfg_Image cfg +:+ ": ") (ImagePull api (cfg_Image cfg)))
    on_err (fun e => e) in
  let? _ := on_world (failing ("pulling " +:+ cfg_Image cfg +:+ ": ") (PullWait api (cfg_Image cfg)))
    on_err (fun e => e) in
  let? port := mret (ParsePort api (Port (cfg_Driver cfg)))
    on_err (fun e => EWrap "driver port: " e "") in
  let! now := Verify.Now in
  let? id := on_world (ContainerCreate api (container_spec cfg name pw nid port now))
    on_err (fun e => EWrap "creating sandbox container: " e "") in
  let! _ := modify p (set_container id) in
  let? _ := on_world (failing "starting sandbox: " (ContainerStart api id)) on_err (fun e => e) in
  let? _ := (if ColdStart cfg then mret (Ok tt)
             else let! e := on_world (waitReady id
                              (ReadyCmds (cfg_Driver cfg) dbUser pw dbName)) in
                  mret match e with Some err => Err err | None => Ok tt end)
    on_err (fun e => e) in
  let? settings := on_world (ContainerInspect api id)
    on_err (fun e => EWrap "inspecting sandbox: " e "") in
  match settings with
  | None => mret (Err (ENew "sandbox has no network settings"))
  | Some ports =>
      match ports !! port with
      | Some (binding :: _) =>
          let! _ := modify p (set_port binding) in
          let! t := Verify.Now in
          let! _ := modify p (fun s => set_sb_life (arm (Add t (cfg_TTL cfg)) (sb_life s)) s) in
          mret (Ok tt)
      | _ => mret (Err (ENew "sandbox has no published port"))
      end
  end.

Definition Provision {W} (cfg : Config W) : M St (result positive) :=
  let? _ := on_world (failing "connecting to docker: " (client_New api)) on_err (fun e => e) in
  let! ping := on_world (Ping api) in
  match ping with
  | Some e =>
      mret (Err (EWrap "cannot reach the Docker daemon — is Docker running? (" e ")"))
  | None =>
      let! suffix := on_world (rand_Read api 4) in
      let name := sandbox_name (cfg_Name cfg) (randomHex suffix) in
      let! secret := on_world (rand_Read api 16) in
      let pw := randomHex secret in
      let? nid := on_world (NetworkCreate api name)
        on_err (fun e => EWrap "creating sandbox network: " e "") in
      let! p := alloc {| ContainerID := EmptyString; networkID := nid; password := pw;
                         hostPort := EmptyString; sb_life := newborn |} in
      let! r := start_sandbox cfg name pw nid p in
      match r with
      | Err e => let! _ := Destroy Background p in mret (Err e)
      | Ok _ => mret (Ok p)
      end
  end.

(** The pointer as the drill sees it. *)
Definition sandbox_exec (p : positive) (cmd : list string) (stdin : option Source.Reader)
  : M St (Z * string * option error) := fun w =>
  match load p w with
  | Some s => on_world (Exec (ContainerID s) cmd stdin) w
  | None => ((-1, EmptyString, None), w)
  end.

Definition as_sandbox (p : positive) (w : St) : SandboxI St := {|
  Interfaces.Exec := sandbox_exec p;
  Host := "127.0.0.1";
  HostPort := match load p w with Some s => hostPort s | None => EmptyString end;
  User := dbUser;
  Password := match load p w with Some s => password s | None => EmptyString end;
  DB := dbName;
  Interfaces.Destroy c := Destroy c p;
  Interfaces.WasDestroyed := WasDestroyed p |}.
End Docker.
