(* ===== verification/DockerFacts.v ===== *)
(** Docker sandboxes: no resource outlives a failed [Provision], what a
    provisioned sandbox is, and that waiting ends. *)

From Stdlib Require Import ZArith Lia Ascii String.
From stdpp Require Import base option list gmap strings.
From S2P Require Import Prelude GoStrings Calendar Spec Interfaces Poll Keeps Sandboxes Lifecycle Docker.
From S2P Require Verify Source.

(** The daemon as documented: identifiers are not empty and never reused while
    in use, creating adds one resource or fails without effect, a removal that
    reports success removed the resource, any removal touches no other, and
    nothing else changes what exists. That a creation which reports an error had
    no effect is the daemon's word for the errors it answers with; a request whose
    answer is lost may have had one, and is outside of these laws: [Crash.Ledger]
    covers it. *)
Class DockerLaws {D} {CK : Verify.Clock D} (api : DockerAPI D) : Type := {
  containers : D -> gset string;
  networks : D -> gset string;
  resources d := (containers d, networks d);
  NetworkCreate_spec n d r d' : (NetworkCreate api n d = (r, d')) ->
    match r return Prop with
    | Ok id => id <> "" /\ (id ∉ networks d) /\ networks d' = {[id]} ∪ networks d /\
               containers d' = containers d
    | Err _ => resources d' = resources d
    end;
  ContainerCreate_spec s d r d' : ContainerCreate api s d = (r, d') ->
    match r return Prop with
    | Ok id => id <> "" /\ (id ∉ containers d) /\ containers d' = {[id]} ∪ containers d /\
               networks d' = networks d
    | Err _ => resources d' = resources d
    end;
  ContainerRemove_spec c id d d' : ContainerRemove api c id d = (None, d') ->
    containers d' = containers d ∖ {[id]} /\ networks d' = networks d;
  NetworkRemove_spec c id d d' : NetworkRemove api c id d = (None, d') ->
    networks d' = networks d ∖ {[id]} /\ containers d' = containers d;
  ContainerRemove_only c id d r d' : (ContainerRemove api c id d = (r, d')) ->
    containers d ∖ {[id]} ⊆ containers d' /\ networks d' = networks d;
  NetworkRemove_only c id d r d' : (NetworkRemove api c id d = (r, d')) ->
    networks d ∖ {[id]} ⊆ networks d' /\ containers d' = containers d;
  ContainerList_quiet r : keeps (fun d => resources d = r) (ContainerList api);
  NetworkList_quiet r : keeps (fun d => resources d = r) (NetworkList api);
  client_New_quiet r : keeps (fun d => resources d = r) (client_New api);
  Ping_quiet r : keeps (fun d => resources d = r) (Ping api);
  rand_Read_quiet n r : keeps (fun d => resources d = r) (rand_Read api n);
  ImagePull_quiet i r : keeps (fun d => resources d = r) (ImagePull api i);
  PullWait_quiet i r : keeps (fun d => resources d = r) (PullWait api i);
  ContainerStart_quiet i r : keeps (fun d => resources d = r) (ContainerStart api i);
  ContainerInspect_quiet i r : keeps (fun d => resources d = r) (ContainerInspect api i);
  ExecCreate_quiet i c b r : keeps (fun d => resources d = r) (ExecCreate api i c b);
  ExecAttach_quiet i r : keeps (fun d => resources d = r) (ExecAttach api i);
  ExecStream_quiet i s r : keeps (fun d => resources d = r) (ExecStream api i s);
  ExecInspect_quiet i r : keeps (fun d => resources d = r) (ExecInspect api i);
  Now_quiet r : keeps (fun d => resources d = r) Verify.Now;
  Sleep_quiet x r : keeps (fun d => resources d = r) (Verify.Sleep x);
  ctx_Err_quiet r : keeps (fun d => resources d = r) Verify.ctx_Err
}.

#[export] Hint Resolve ContainerList_quiet NetworkList_quiet client_New_quiet Ping_quiet rand_Read_quiet ImagePull_quiet PullWait_quiet
  ContainerStart_quiet ContainerInspect_quiet ExecCreate_quiet ExecAttach_quiet ExecStream_quiet
  ExecInspect_quiet Now_quiet Sleep_quiet ctx_Err_quiet : keeps.

Section DockerFacts.
Context {D : Type} {CK : Verify.Clock D} (api : DockerAPI D) {DL : DockerLaws api}.

#[local] Instance Own : Owner Sandbox D := Docker_Owner api.

Abbreviation St := (Proc Sandbox D).

Lemma failing_keeps {W} (P : W -> Prop) pre c : keeps P c -> keeps P (failing pre c).
Proof. intros Hc. unfold failing. keeps_auto. Qed.

#[local] Hint Resolve failing_keeps : keeps.

Lemma Exec_quiet id cmd stdin r : keeps (fun d => resources d = r) (Exec api id cmd stdin).
Proof. unfold Exec. keeps_auto. Qed.

#[local] Hint Resolve Exec_quiet : keeps.

Lemma all_ready_quiet id cmds r :
  keeps (fun d => resources d = r) (all_ready (fun cmd => Exec api id cmd None) cmds).
Proof. induction cmds as [|cmd cmds IH]; cbn [all_ready]; keeps_auto. Qed.

#[local] Hint Resolve all_ready_quiet : keeps.

Lemma waitReady_quiet id cmds r : keeps (fun d => resources d = r) (waitReady api id cmds).
Proof.
  unfold waitReady. keeps_auto. apply keeps_poll. unfold ready_round. keeps_auto.
Qed.

#[local] Hint Resolve waitReady_quiet : keeps.
(** [s] has its network, and its container once that is created, on top of the
    containers [C] and networks [N]. *)
Definition owned (s : Sandbox) (C N : gset string) (d : D) : Prop :=
  networkID s <> "" /\ (networkID s ∉ N) /\ networks d = {[networkID s]} ∪ N /\
  (ContainerID s = "" /\ containers d = C \/
   ContainerID s <> "" /\ (ContainerID s ∉ C) /\ containers d = {[ContainerID s]} ∪ C).

(** [p] has them and was not torn down. *)
Definition owns (p : positive) (C N : gset string) (w : St) : Prop :=
  exists s, load p w = Some s /\ once (sb_life s) = false /\ owned s C N (ext w).

Lemma owned_quiet {A} (c : M D A) s C N :
  (forall r, keeps (fun d => resources d = r) c) -> keeps (owned s C N) c.
Proof.
  intros Hc d Ho. specialize (Hc _ d eq_refl). cbn in Hc. injection Hc as H1 H2.
  unfold owned. by rewrite H1, H2.
Qed.

Lemma owns_on_world {A} (c : M D A) p C N :
  (forall r, keeps (fun d => resources d = r) c) -> keeps (owns p C N) (on_world c).
Proof.
  intros Hc w (s & Hs & Ho & Hd). rewrite on_world_run. exists s. split; [done|]. split; [done|].
  by apply (owned_quiet c).
Qed.

Lemma owns_modify (f : Sandbox -> Sandbox) p C N :
  (forall s, ContainerID (f s) = ContainerID s /\ networkID (f s) = networkID s /\
             once (sb_life (f s)) = once (sb_life s)) ->
  keeps (owns p C N) (modify p f).
Proof.
  intros Hf w (s & Hs & Ho). destruct (Hf s) as (H1 & H2 & H3). unfold modify. rewrite Hs.
  cbn [snd]. exists (f s). rewrite load_store. unfold owned. rewrite H1, H2, H3. done.
Qed.

Lemma owns_Now p C N : keeps (owns p C N) (Verify.Now (W := St)).
Proof. apply owns_on_world. eauto with keeps. Qed.

#[local] Hint Resolve owns_on_world owns_modify owns_Now : keeps.

(** Creating the container and recording its identifier is one step. *)
Lemma owns_create {B} spec p C N (k : string -> M (St) (result B)) h :
  (forall id, keeps (owns p C N) (k id)) ->
  forall w, owns p C N w ->
  (forall s, load p w = Some s -> ContainerID s = "") ->
  owns p C N (snd ((let? id := on_world (ContainerCreate api spec) on_err h in
                    let! _ := modify p (set_container id) in k id) w)).
Proof.
  intros Hk w (s & Hs & Ho & Hn & HN & Hnw & Hc) Hid. specialize (Hid s Hs).
  destruct Hc as [[_ Hc]|[Hc _]]; [|done]. unfold mbind, mret. rewrite on_world_run.
  pose proof (ContainerCreate_spec spec (ext w)) as Hspec.
  destruct (ContainerCreate api spec (ext w)) as [[id|e] d]; specialize (Hspec _ _ eq_refl).
  - destruct Hspec as (Hne & Hfr & HC & HN'). unfold modify. cbn [fst snd].
    change (load p {| heap := heap w; ext := d |}) with (load p w). rewrite Hs.
    apply Hk. exists (set_container id s). rewrite load_store. unfold owned. cbn. rewrite HC, HN', Hnw, Hc.
    rewrite Hc in Hfr. repeat (split; [done|]). by right.
  - injection Hspec as HC HN'. exists s. unfold owned. cbn. rewrite HC, HN', Hnw, Hc. by repeat (split; [done|]); left.
Qed.

Lemma start_sandbox_owns {W} (cfg : Config W) name pw nid p C N w :
  owns p C N w -> (forall s, load p w = Some s -> ContainerID s = "") ->
  owns p C N (snd (start_sandbox api cfg name pw nid p w)).
Proof.
  intros Ho Hid. unfold start_sandbox. revert w Ho Hid.
  assert (Hpre : forall {A} (c : M D (result A)) h (k : A -> M (St) (result unit)),
    (forall r, keeps (fun d => resources d = r) c) ->
    (forall a w, owns p C N w -> (forall s, load p w = Some s -> ContainerID s = "") ->
       owns p C N (snd (k a w))) ->
    forall w, owns p C N w -> (forall s, load p w = Some s -> ContainerID s = "") ->
    owns p C N (snd ((let? x := on_world c on_err h in k x) w))).
  { intros A c h k Hc Hk w Ho Hid. unfold mbind.
    pose proof (owns_on_world c p C N Hc w Ho) as Ho'. pose proof (load_on_world p c w) as Hl.
    destruct (on_world c w) as [[a|e] w']; cbn [snd] in *; [|done].
    apply Hk; [done|]. intros s Hs. apply Hid. by rewrite <- Hl. }
  apply Hpre; [eauto with keeps|]. intros _. apply Hpre; [eauto with keeps|]. intros _ w Ho Hid.
  unfold mbind at 1. unfold mret at 1. destruct (ParsePort api _) as [port|]; [|done].
  unfold mbind at 1. pose proof (owns_Now p C N w Ho) as Ho'.
  pose proof (load_on_world p Verify.Now w) as Hl. change (on_world Verify.Now w) with (Verify.Now w) in Hl.
  destruct (Verify.Now w) as [now w']. cbn [snd] in *.
  apply owns_create; [|done|intros s Hs; apply Hid; by rewrite <- Hl].
  intros id. keeps_auto.
Qed.

(** The daemon's removals succeed, when nobody cancels them. *)
Definition removals_work : Prop :=
  (forall id d, fst (ContainerRemove api Background id d) = None) /\
  (forall id d, fst (NetworkRemove api Background id d) = None).

Lemma remove_sandbox_works s d : removals_work -> fst (remove_sandbox api Background s d) = None.
Proof.
  intros [HC HN]. unfold remove_sandbox, mbind at 1.
  assert (H1 : fst (remove_container api Background (ContainerID s) d) = None).
  { unfold remove_container, mbind, mret. destruct (negb _); [|done].
    specialize (HC (ContainerID s) d). destruct (ContainerRemove _ _ _ d) as [e d1]. cbn in HC.
    by subst e. }
  destruct (remove_container api Background (ContainerID s) d) as [e1 d1]. cbn in H1. subst e1.
  unfold remove_network, mbind, mret. destruct (negb _); [|done].
  specialize (HN (networkID s) d1). destruct (NetworkRemove _ _ _ d1) as [e d2]. cbn in HN.
  by subst e.
Qed.

(** A removal that reports no error gave back what [s] had. *)
Lemma remove_sandbox_ok c s d d' C N :
  remove_sandbox api c s d = (None, d') -> owned s C N d -> resources d' = (C, N).
Proof.
  intros H (Hn & Hfr & Hnw & Hc). unfold remove_sandbox, mbind in H.
  destruct (remove_container api c (ContainerID s) d) as [e1 d1] eqn:E1.
  unfold remove_network, is_empty in H. rewrite (proj2 (String.eqb_neq _ _) Hn) in H.
  cbn [negb] in H. unfold mbind, mret in H.
  destruct (NetworkRemove api c (networkID s) d1) as [e2 d2] eqn:E2.
  destruct e1 as [e1|]; [done|]. destruct e2 as [e2|]; [done|]. injection H as <-.
  apply NetworkRemove_spec in E2 as [Hn2 Hc2].
  assert (H1 : networks d1 = {[networkID s]} ∪ N /\ containers d1 = C).
  { unfold remove_container, is_empty, mbind, mret in E1. destruct Hc as [[Hid Hc]|(Hid & Hfc & Hc)].
    - rewrite Hid in E1. by injection E1 as <-.
    - rewrite (proj2 (String.eqb_neq _ _) Hid) in E1. cbn [negb] in E1.
      destruct (ContainerRemove api c (ContainerID s) d) as [[e|] d3] eqn:E3; [done|].
      injection E1 as <-. apply ContainerRemove_spec in E3 as [H3 H4].
      rewrite H3, H4, Hc. set_solver. }
  destruct H1 as [H1 H2]. unfold resources. rewrite Hn2, Hc2, H1, H2. f_equal. set_solver.
Qed.

(** [Destroy] of a sandbox that is still up gives its resources back when it
    reports no error, as it does when the daemon's removals work. *)
Lemma Destroy_owned p C N w :
  owns p C N w ->
  (fst (Destroy Background p w) = None -> resources (ext (snd (Destroy Background p w))) = (C, N)) /\
  (removals_work -> fst (Destroy Background p w) = None) /\
  exists s, load p (snd (Destroy Background p w)) = Some s /\ once (sb_life s) = true /\
    destroyed (sb_life s) = negb (isSome (fst (Destroy Background p w))).
Proof.
  intros (s & Hs & Ho & Hd).
  rewrite (load_Destroy _ _ _ _ Hs). unfold Destroy. rewrite Hs. cbn [life Own Docker_Owner] in *.
  rewrite Ho. change (remove Background s) with (remove_sandbox api Background s).
  pose proof (remove_sandbox_works s (ext w)) as Hw.
  destruct (remove_sandbox api Background s (ext w)) as [err d] eqn:E. cbn [fst snd ext store heap] in *.
  split; [|split; [done|eexists; split; [done|by split]]].
  intros ->. by eapply remove_sandbox_ok.
Qed.

Lemma Destroy_owns p C N w :
  removals_work -> owns p C N w ->
  fst (Destroy Background p w) = None /\ resources (ext (snd (Destroy Background p w))) = (C, N) /\
  WasDestroyed p (snd (Destroy Background p w)) = true.
Proof.
  intros Hw Ho. destruct (Destroy_owned p C N w Ho) as (H1 & H2 & s & Hs & _ & Hd).
  specialize (H2 Hw). unfold WasDestroyed. rewrite Hs. cbn [life Own Docker_Owner].
  rewrite Hd, H2. auto.
Qed.

(** ** [Provision] *)

(** Up to the creation of the network, then on. *)
Lemma Provision_split {W} (cfg : Config W) (w : St) r (w' : St) :
  Provision api cfg w = (r, w') ->
  (exists e, r = Err e /\ resources (ext w') = resources (ext w) /\ heap w' = heap w) \/
  exists p name pw nid w1 r1 w2,
    (forall q, q <> p -> load q w1 = load q w) /\
    owns p (containers (ext w)) (networks (ext w)) w1 /\
    load p w1 = Some {| ContainerID := ""; networkID := nid; password := pw; hostPort := "";
                        sb_life := newborn |} /\
    start_sandbox api cfg name pw nid p w1 = (r1, w2) /\
    match r1 with
    | Ok _ => r = Ok p /\ w' = w2
    | Err e => r = Err e /\ w' = snd (Destroy Background p w2)
    end.
Proof.
  assert (Hq : forall {A} (c : M D A) (w : St), (forall r, keeps (fun d => resources d = r) c) ->
    resources (ext (snd (on_world c w))) = resources (ext w) /\ heap (snd (on_world c w)) = heap w).
  { intros A c w0 Hc. rewrite on_world_run. split; [by apply Hc|done]. }
  assert (Hf : forall pre c, (forall r, keeps (fun d => resources d = r) c) ->
    forall r, keeps (fun d => resources d = r) (failing (W := D) pre c)) by eauto with keeps.
  unfold Provision. unfold mbind at 1. intros H.
  pose proof (Hq _ _ w (Hf "connecting to docker: " _ client_New_quiet)) as [H1 G1].
  destruct (on_world _ w) as [[u|e] w1]; cbn [snd] in H1, G1;
    [|injection H as <- <-; left; eauto].
  unfold mbind at 1 in H. pose proof (Hq _ (Ping api) w1 Ping_quiet) as [H2 G2].
  destruct (on_world (Ping api) w1) as [[e|] w2]; cbn [snd] in H2, G2;
    [injection H as <- <-; left; eexists; by rewrite H2, G2|].
  unfold mbind at 1 in H. pose proof (Hq _ _ w2 (rand_Read_quiet 4)) as [H3 G3].
  destruct (on_world (rand_Read api 4) w2) as [suffix w3]. cbv zeta in H. cbn [snd] in H3, G3.
  unfold mbind at 1 in H. pose proof (Hq _ _ w3 (rand_Read_quiet 16)) as [H4 G4].
  destruct (on_world (rand_Read api 16) w3) as [secret w4]. cbn [snd] in H4, G4.
  assert (Hw4 : resources (ext w4) = resources (ext w)) by congruence.
  assert (Gw4 : heap w4 = heap w) by congruence. clear H1 H2 H3 H4 G1 G2 G3 G4.
  unfold mbind at 1 in H. rewrite on_world_run in H. revert H.
  set (name := sandbox_name _ _). pose proof (NetworkCreate_spec name (ext w4)) as Hn.
  destruct (NetworkCreate api name (ext w4)) as [[nid|e] d]; specialize (Hn _ _ eq_refl); cbn [fst snd].
  2: { intros [= <- <-]. left. eexists. split; [done|]. cbn. split; congruence. }
  unfold mbind at 1, alloc at 1. cbn [heap ext]. cbv beta zeta.
  set (p := next _). set (s0 := {| ContainerID := _ |}). set (w5 := {| heap := _; ext := d |}).
  destruct Hn as (Hne & Hfr & HN & HC). injection Hw4 as HC4 HN4.
  unfold mbind at 1. destruct (start_sandbox api cfg name _ nid p w5) as [r1 w6] eqn:Es. intros H.
  right. exists p, name, (randomHex secret), nid, w5, r1, w6.
  assert (Hl : load p w5 = Some s0) by apply lookup_insert_eq.
  split; [|split; [|split; [done|split; [done|]]]].
  - intros q Hq'. unfold load, w5. cbn. rewrite lookup_insert_ne by done. by rewrite Gw4.
  - exists s0. unfold owned. cbn. rewrite HC, HN, <- HC4, <- HN4. eauto 10.
  - destruct r1 as [[]|e]; [by injection H as <- <-|]. unfold mbind in H.
    destruct (Destroy Background p w6) as [x w7]. by injection H as <- <-.
Qed.

(** A failed [Provision] leaves nothing behind. *)
Lemma docker_Provision_failed {W} (cfg : Config W) (w : St) e (w' : St) :
  removals_work -> Provision api cfg w = (Err e, w') -> resources (ext w') = resources (ext w).
Proof.
  intros Hwk [(e' & _ & Hr & _)|(p & name & pw & nid & w1 & r1 & w2 & _ & Ho & Hl & Hs & Hr)]%Provision_split;
    [done|].
  destruct r1 as [u|e1]; [by destruct Hr|]. destruct Hr as [_ ->].
  assert (Ho2 : owns p (containers (ext w)) (networks (ext w)) w2).
  { pose proof (start_sandbox_owns cfg name pw nid p _ _ w1 Ho) as H. rewrite Hs in H.
    apply H. rewrite Hl. by intros s [= <-]. }
  apply (Destroy_owns _ _ _ _ Hwk Ho2).
Qed.

(** [p] is up, its container is [id] and its watchdog not armed yet. *)
Definition unguarded (p : positive) (id : string) (w : St) : Prop :=
  exists s, load p w = Some s /\ ContainerID s = id /\ once (sb_life s) = false /\
    cancelled (sb_life s) = false.

Lemma unguarded_on_world {A} (c : M D A) p id : keeps (unguarded p id) (on_world c).
Proof. intros w (s & Hs & Hr). exists s. by rewrite load_on_world. Qed.

#[local] Hint Resolve unguarded_on_world : keeps.

(** A successful start records the container and arms the watchdog at most a
    TTL from the end. *)
Lemma start_sandbox_ok {CL : Verify.ClockLaws D} {W} (cfg : Config W) name pw nid p (w w' : St) u s0 :
  start_sandbox api cfg name pw nid p w = (Ok u, w') ->
  load p w = Some s0 -> sb_life s0 = newborn ->
  exists s dl, load p w' = Some s /\ ContainerID s <> "" /\ timer (sb_life s) = Some dl /\
    once (sb_life s) = false /\ cancelled (sb_life s) = false /\
    dl <= Verify.time_of w' + cfg_TTL cfg.
Proof.
  unfold start_sandbox. intros H Hl Hb.
  apply bind_ok in H as (? & w1 & E1 & H). apply bind_ok in H as (? & w2 & E2 & H).
  apply bind_ok in H as (port & w3 & E3 & H). injection E3 as _ <-.
  assert (Hl2 : load p w2 = Some s0).
  { replace w2 with (snd (@pair (result unit) _ (Ok tt) w2)) by done.
    transitivity (load p w1).
    - erewrite <- (load_on_world p _ w1). by rewrite E2.
    - rewrite <- Hl. erewrite <- (load_on_world p _ w). by rewrite E1. }
  unfold mbind at 1 in H. pose proof (load_on_world p Verify.Now w2) as Hn.
  change (on_world Verify.Now w2) with (Verify.Now w2) in Hn.
  destruct (Verify.Now w2) as [now w4]. cbn [snd] in Hn. rewrite Hl2 in Hn.
  apply bind_ok in H as (id & w5 & E5 & H).
  assert (Hid : id <> "").
  { rewrite on_world_run in E5. injection E5 as E5 _.
    pose proof (ContainerCreate_spec (container_spec cfg name pw nid port now) (ext w4)) as Hc.
    destruct (ContainerCreate _ _ _) as [r d]. cbn in E5. subst r. by destruct (Hc _ _ eq_refl). }
  assert (Hl5 : load p w5 = Some s0).
  { rewrite <- Hn. erewrite <- (load_on_world p _ w4). by rewrite E5. }
  unfold mbind at 1 in H. unfold modify at 1 in H. rewrite Hl5 in H.
  assert (Hu : unguarded p id (store p (set_container id s0) w5)).
  { exists (set_container id s0). rewrite load_store. cbn. by rewrite Hb. }
  apply bind_ok in H as (? & w6 & E6 & H). apply (keeps_run (unguarded p id)) in E6; [|by auto with keeps|done].
  apply bind_ok in H as (? & w7 & E7 & H). apply (keeps_run (unguarded p id)) in E7; [|keeps_auto|done].
  apply bind_ok in H as (ports & w8 & E8 & H). apply (keeps_run (unguarded p id)) in E8; [|by auto with keeps|done].
  destruct ports as [ports|]; [|done]. destruct (ports !! port) as [[|binding bs]|]; [done| |done].
  destruct E8 as (s & Hs & Hc & Ho & Hca). revert H. unfold mbind, mret, modify at 1. rewrite Hs.
  pose proof (Verify.Now_reads (store p (set_port binding s) w8)) as Ht.
  pose proof (load_on_world p Verify.Now (store p (set_port binding s) w8)) as Hl8.
  change (on_world Verify.Now (store p (set_port binding s) w8))
    with (Verify.Now (store p (set_port binding s) w8)) in Hl8.
  destruct (Verify.Now _) as [t w9]. cbn [fst snd] in Ht, Hl8. rewrite load_store in Hl8.
  unfold modify. rewrite Hl8. intros [= _ <-].
  eexists _, _. split; [apply load_store|]. cbn. rewrite Hc. repeat (split; [done|]).
  unfold Add. cbn in Ht. lia.
Qed.

(** A provisioned sandbox owns one new network and at most one new container. *)
Lemma Provision_owns {W} (cfg : Config W) (w w' : St) p :
  Provision api cfg w = (Ok p, w') -> owns p (containers (ext w)) (networks (ext w)) w'.
Proof.
  intros [(e' & ? & _)|(p' & name & pw & nid & w1 & r1 & w2 & _ & Ho & Hl & Hs & Hr)]%Provision_split;
    [done|].
  destruct r1 as [u|e1]; [|by destruct Hr]. destruct Hr as [[= <-] ->].
  pose proof (start_sandbox_owns cfg name pw nid p _ _ w1 Ho) as H. rewrite Hs in H.
  apply H. rewrite Hl. by intros s' [= <-].
Qed.

(** It is up, and its watchdog fires within the TTL. *)
Lemma Provision_up {CL : Verify.ClockLaws D} {W} (cfg : Config W) (w w' : St) p :
  Provision api cfg w = (Ok p, w') ->
  exists s dl, load p w' = Some s /\ ContainerID s <> "" /\ once (sb_life s) = false /\
    guarded p dl w' /\ dl <= Verify.time_of w' + cfg_TTL cfg.
Proof.
  intros [(e' & ? & _)|(p' & name & pw & nid & w1 & r1 & w2 & _ & _ & Hl & Hs & Hr)]%Provision_split;
    [done|].
  destruct r1 as [u|e1]; [|by destruct Hr]. destruct Hr as [[= <-] ->].
  destruct (start_sandbox_ok _ _ _ _ _ _ _ _ _ Hs Hl eq_refl)
    as (s & dl & Hs' & Hid & Ht & Honce & Hc & Hdl).
  exists s, dl. repeat (split; [done|]). split; [|done]. by exists s.
Qed.

(** ** Waiting ends

    Every round sleeps half a second and none starts after the deadline, so the
    loop decides within its fuel. *)
Lemma waitReady_ends {CL : Verify.ClockLaws D} id cmds w :
  (forall t cmd, keeps (fun d => t <= Verify.time_of d) (Exec api id cmd None)) ->
  fst (poll ready_fuel (ready_round api id cmds (Add (fst (Verify.Now w)) (3 * Minute)))
         (snd (Verify.Now w))) <> None.
Proof.
  intros Hex. apply (poll_total _ (500 * Millisecond) (Add (fst (Verify.Now w)) (3 * Minute)));
    [| |done|unfold ready_fuel, fuel_for; lia].
  - generalize (Add (fst (Verify.Now w)) (3 * Minute)). clear w. intros dl w.
    unfold ready_round, mbind, mret.
    pose proof (Verify.Now_reads w) as Hn. destruct (Verify.Now w) as [t w1]. cbn [fst snd] in Hn.
    destruct (Before t dl) eqn:Eb; cbn [negb]; [|done]. apply Z.ltb_lt in Eb.
    pose proof (Verify.ctx_Err_takes w1) as Hc. destruct (Verify.ctx_Err w1) as [[e|] w2]; [done|].
    cbn [snd] in Hc.
    assert (Hr : keeps (fun d => Verify.time_of w2 <= Verify.time_of d)
              (all_ready (fun cmd => Exec api id cmd None) cmds)).
    { induction cmds as [|cmd r IH]; cbn [all_ready]; keeps_auto. }
    specialize (Hr w2 (Z.le_refl _)). destruct (all_ready _ _ w2) as [[|] w3]; [done|].
    cbn [snd] in Hr. pose proof (Verify.Sleep_takes (500 * Millisecond) w3) as Hs.
    destruct (Verify.Sleep _ w3) as [u w4]. cbn [fst snd] in *. intros _.
    unfold Millisecond in *. lia.
  - apply fuel_for_enough; [done|done|]. pose proof (Verify.Now_reads w). unfold Add, Minute, Second in *. lia.
Qed.
End DockerFacts.
