(* ===== verification/Cluster.v ===== *)
(** The Kubernetes API as the program uses it. The client libraries are
    third-party: [ClusterAPI] holds the calls, over the cluster's state [D]. The
    sandbox provider, the Velero driver and the garbage collector share it, and
    the small helpers of pkg/sandbox/kubernetes/kubernetes.go they call. *)

From Stdlib Require Import ZArith Lia Ascii String.
From stdpp Require Import base option list gmap strings.
From S2P Require Import Prelude GoStrings Spec Interfaces.
From S2P Require Verify Source.

(** * Objects *)

Record NamespaceSpec := {
  nss_Name : string; nss_Labels : gmap string string; nss_Annotations : gmap string string }.

Record NamespaceMeta := {
  ns_Name : string; ns_Phase : string; ns_Annotations : gmap string string; ns_Created : Time }.

(** A network policy: the pods it selects, the directions it governs and the
    allowed destinations. *)
Record PolicySpec := {
  np_Name : string; np_Namespace : string; PodSelector : gmap string string;
  PolicyTypes : list string; Egress : list string }.

Record PodSpec := {
  pod_Name : string; pod_Namespace : string;
  pod_Labels : gmap string string; pod_Annotations : gmap string string;
  RestartPolicy : string; ActiveDeadlineSeconds : Z;
  pod_Image : string; pod_Command : list string; pod_Env : list (string * string);
  ContainerPort : Z; AllowPrivilegeEscalation : bool }.

Record PodStatus := { st_Phase : string; PodIP : string }.

Record PodMeta := {
  p_Namespace : string; p_Name : string; p_Annotations : gmap string string; p_Created : Time }.

(** What the code reads of a Velero Backup: [status.phase] and
    [status.completionTimestamp]. *)
Record BackupObj := { b_Created : Time; b_Phase : string; b_Completion : option string }.

Record RestoreSpec := {
  rs_Name : string; rs_Labels : gmap string string; backupName : string;
  includedNamespaces : list string; namespaceMapping : gmap string string;
  existingResourcePolicy : string }.

Record RestoreStatus := {
  rt_Phase : string; rt_Warnings : Z; rt_Errors : Z; validationErrors : list string }.

Record RestoreMeta := { r_Name : string; r_Created : Time }.

(** The outcomes of the three-way [select] on a starting port-forward. *)
Inductive forward_event := FwdReady | FwdFailed (e : error) | FwdTimeout.

Record ClusterAPI (D : Type) := {
  InClusterConfig : M D (option error);
  ClientConfig : M D (option error);
  NewForConfig : M D (option error);
  NewDynamic : M D (option error);
  rand_Read : nat -> M D string;
  IsNotFound : error -> bool;
  IsAlreadyExists : error -> bool;
  CreateNamespace : NamespaceSpec -> M D (option error);
  DeleteNamespace : Ctx -> string -> M D (option error);
  ListNamespaces : string -> M D (result (list NamespaceMeta));
  CreatePolicy : PolicySpec -> M D (option error);
  CreatePod : PodSpec -> M D (option error);
  GetPod : string -> string -> M D (result PodStatus);
  DeletePod : Ctx -> string -> string -> M D (option error);
  ListPods : string -> M D (result (list PodMeta));
  NewExecutor : string -> string -> list string -> bool -> M D (option error);
  StreamExec : string -> string -> list string -> option Source.Reader ->
               M D (list string * option error);
  (** the exit status an error value carries, when it has that method *)
  ExitStatus : error -> option Z;
  (** [intstr.Parse] of a port: its value and its text *)
  IntValue : string -> Z;
  IntString : string -> string;
  RoundTripper : M D (option error);
  ForwardNew : string -> string -> Z -> M D (option error);
  ForwardWait : M D forward_event;
  GetPorts : M D (result (list Z));
  StopForward : M D unit;
  GetBackup : string -> M D (result BackupObj);
  CreateRestore : RestoreSpec -> M D (option error);
  GetRestore : string -> M D (result RestoreStatus);
  DeleteRestore : Ctx -> string -> M D (option error);
  ListRestores : string -> M D (result (list RestoreMeta))
}.
Arguments InClusterConfig {D}. Arguments ClientConfig {D}. Arguments NewForConfig {D}.
Arguments NewDynamic {D}. Arguments rand_Read {D}. Arguments IsNotFound {D}.
Arguments IsAlreadyExists {D}. Arguments CreateNamespace {D}. Arguments DeleteNamespace {D}.
Arguments ListNamespaces {D}. Arguments CreatePolicy {D}. Arguments CreatePod {D}.
Arguments GetPod {D}. Arguments DeletePod {D}. Arguments ListPods {D}. Arguments NewExecutor {D}.
Arguments StreamExec {D}. Arguments ExitStatus {D}. Arguments IntValue {D}. Arguments IntString {D}. Arguments RoundTripper {D}.
Arguments ForwardNew {D}. Arguments ForwardWait {D}. Arguments GetPorts {D}.
Arguments StopForward {D}. Arguments GetBackup {D}. Arguments CreateRestore {D}.
Arguments GetRestore {D}. Arguments DeleteRestore {D}. Arguments ListRestores {D}.

Section Cluster.
Context {D : Type} (api : ClusterAPI D).

(** [LoadConfig]: in-cluster first, then the kubeconfig chain; whether it was
    in-cluster. *)
Definition LoadConfig : M D (result bool) :=
  let! inc := InClusterConfig api in
  match inc with
  | None => mret (Ok true)
  | Some _ =>
      let! e := ClientConfig api in
      mret match e with
           | Some err => Err (EWrap "no kubernetes config (in-cluster or kubeconfig): " err "")
           | None => Ok false
           end
  end.

(** [if err != nil && !is(err)], for an error predicate of the API. *)
Definition unless (is_ : error -> bool) (e : option error) : option error :=
  match e with Some err => if is_ err then None else Some err | None => None end.

Definition ensureNamespace (ns : string) : M D (option error) :=
  let! e := CreateNamespace api {|
    nss_Name := ns; nss_Labels := {["app.kubernetes.io/managed-by" := "firedrill"]};
    nss_Annotations := ∅ |} in
  mret (unless (IsAlreadyExists api) e).

Definition sandbox_label : gmap string string := {["firedrill/sandbox" := "true"]}.

(** No rules in a policy that governs egress: every destination is denied. *)
Definition deny_egress (ns : string) : PolicySpec := {|
  np_Name := "firedrill-sandbox-deny-egress"; np_Namespace := ns;
  PodSelector := sandbox_label; PolicyTypes := ["Egress"]; Egress := [] |}.

Definition EnsureDenyEgressPolicy (ns : string) : M D (option error) :=
  let! e := CreatePolicy api (deny_egress ns) in
  mret (unless (IsAlreadyExists api) e).

(** [errorAs]: the first error of the chain with the method. *)
Fixpoint errorAs {T} (as_T : error -> option T) (e : error) : option T :=
  match as_T e with
  | Some t => Some t
  | None => match e with EWrap _ inner _ => errorAs as_T inner | _ => None end
  end.
End Cluster.

(** [NAME=value] pairs. *)
Definition envVars (env : list string) : list (string * string) :=
  List.map (fun e => let '(k, v, _) := Cut e "="%char in (k, v)) env.

(** An entry is split at its first [=]. *)
Lemma envVars_pair k v :
  IndexByte "="%char k = false -> envVars [k +:+ "=" +:+ v] = [(k, v)].
Proof.
  intros Hk. unfold envVars. cbn [List.map]. change ("=" +:+ v) with (String "=" v).
  by rewrite (Cut_app k "="%char v Hk).
Qed.
