(* ===== verification/Kubernetes.v ===== *)
(** Kubernetes sandboxes (pkg/sandbox/kubernetes/kubernetes.go): a pod in a
    namespace whose egress is denied, reached over its IP or a port-forward. *)

From Stdlib Require Import ZArith Lia Ascii String.
From stdpp Require Import base option list gmap strings.
From S2P Require Import Prelude GoStrings Float64 Calendar Spec Interfaces Poll Keeps Sandboxes Lifecycle Cluster.
From S2P Require Verify Source.

Definition dbName : string := "firedrill".
Definition dbUser : string := "firedrill".

(** The sandbox object. *)
Record Sandbox := {
  namespace : string;
  podName : string;
  password : string;
  host : string;
  hostPort : string;
  pfStop : bool;            (* a port-forward is open *)
  pod_life : Lifecycle
}.

Definition set_address (h p : string) (stop : bool) (s : Sandbox) : Sandbox := {|
  namespace := namespace s; podName := podName s; password := password s;
  host := h; hostPort := p; pfStop := stop; pod_life := pod_life s |}.

Definition set_pod_life (l : Lifecycle) (s : Sandbox) : Sandbox := {|
  namespace := namespace s; podName := podName s; password := password s;
  host := host s; hostPort := hostPort s; pfStop := pfStop s; pod_life := l |}.

Section Kubernetes.
Context {D : Type} {CK : Verify.Clock D} (api : ClusterAPI D).

(** What [Destroy] does inside its once; the namespace and policy stay. *)
Definition remove_pod (c : Ctx) (s : Sandbox) : M D (option error) :=
  let! _ := if pfStop s then StopForward api else mret tt in
  let! e := DeletePod api c (namespace s) (podName s) in
  mret match unless (IsNotFound api) e with
       | Some err => Some (EWrap "deleting sandbox pod: " err "")
       | None => None
       end.

#[local] Instance Pod_Owner : Owner Sandbox D := {|
  life := pod_life; set_life := set_pod_life; remove := remove_pod; life_set _ _ := eq_refl |}.

(** ** Commands *)

Definition Exec (ns name : string) (cmd : list string) (stdin : option Source.Reader)
  : M D (Z * string * option error) :=
  let! setup := NewExecutor api ns name cmd (isSome stdin) in
  match setup with
  | Some e => mret (-1, EmptyString, Some (EWrap "exec setup: " e ""))
  | None =>
      let! r := StreamExec api ns name cmd stdin in
      let '(chunks, err) := r in
      let out := buf (capture MaxExecOutput chunks) in
      mret match err with
           | None => (0, out, None)
           | Some e => match errorAs (ExitStatus api) e with
                       | Some code => (code, out, None)
                       | None => (-1, out, Some e)
                       end
           end
  end.

Definition ready_round (ns name : string) (cmds : list (list string)) (deadline : Time)
  : M D (option (option error)) :=
  let! t := Verify.Now in
  if negb (Before t deadline)
  then mret (Some (Some (ENew "sandbox database not ready after 4m")))
  else
    let! cerr := Verify.ctx_Err in
    match cerr with
    | Some e => mret (Some (Some e))
    | None =>
        let again := let! _ := Verify.Sleep Second in mret None in
        let! p := GetPod api ns name in
        match p with
        | Err _ => again
        | Ok st =>
            if String.eqb (st_Phase st) "Failed" || String.eqb (st_Phase st) "Succeeded" then
              mret (Some (Some (ENew ("sandbox pod exited (" +:+ st_Phase st +:+ ")"))))
            else if String.eqb (st_Phase st) "Running" then
              let! ready := all_ready (fun cmd => Exec ns name cmd None) cmds in
              if ready then mret (Some None) else again
            else again
        end
    end.

Definition ready_fuel : nat := fuel_for (4 * Minute) Second.

Definition waitReady (ns name : string) (cmds : list (list string)) : M D (option error) :=
  let! t := Verify.Now in
  let! r := poll ready_fuel (ready_round ns name cmds (Add t (4 * Minute))) in
  mret match r with
       | Some e => e
       | None => Some (ENew "sandbox database not ready after 4m")
       end.

(** ** The local port-forward *)

Definition portForward (ns name : string) (podPort : Z) : M D (result Z) :=
  let! e := RoundTripper api in
  match e with
  | Some err => mret (Err err)
  | None =>
      let! e := ForwardNew api ns name podPort in
      match e with
      | Some err => mret (Err err)
      | None =>
          let! ev := ForwardWait api in
          match ev with
          | FwdFailed err => mret (Err err)
          | FwdTimeout =>
              let! _ := StopForward api in
              mret (Err (ENew "port-forward not ready after 30s"))
          | FwdReady =>
              let! ports := GetPorts api in
              match ports with
              | Ok (local_ :: _) => mret (Ok local_)
              | Ok [] =>
                  let! _ := StopForward api in
                  mret (Err (ENew "port-forward ports: %!w(<nil>)"))
              | Err err =>
                  let! _ := StopForward api in
                  mret (Err (EWrap "port-forward ports: " err ""))
              end
          end
      end
  end.

(** ** Provisioning *)

Abbreviation St := (Proc Sandbox D).

Definition errs {W} (c : M W (option error)) : M W (result unit) :=
  let! e := c in mret match e with Some err => Err err | None => Ok tt end.

Definition pod_spec {W} (cfg : Config W) (ns name pw : string) (port : string) (now : Time)
  : PodSpec := {|
  pod_Name := name; pod_Namespace := ns;
  pod_Labels := <["app.kubernetes.io/managed-by" := "firedrill"]>
    (<["firedrill/sandbox" := "true"]> {["firedrill/drill" := sanitize (cfg_Name cfg)]});
  pod_Annotations := {["firedrill.expires-at" := fmt_RFC3339 (Add now (cfg_TTL cfg))]};
  RestartPolicy := "Never";
  ActiveDeadlineSeconds := wrap64 (to_int64 (Seconds (cfg_TTL cfg)) + 60);
  pod_Image := cfg_Image cfg;
  pod_Command := if ColdStart cfg then ["sleep"; "infinity"] else [];
  pod_Env := envVars (ContainerEnv (cfg_Driver cfg) dbUser pw dbName);
  ContainerPort := Z.land (IntValue api port) 65535;
  AllowPrivilegeEscalation := false |}.

(** How the drill reaches the pod. *)
Definition connect (inCluster : bool) (ns name port : string) (p : positive)
  : M St (result unit) :=
  if inCluster then
    let? st := on_world (GetPod api ns name) on_err (fun e => e) in
    let! _ := modify p (set_address (PodIP st) (IntString api port) false) in
    mret (Ok tt)
  else
    let? local_ := on_world (portForward ns name (IntValue api port))
      on_err (fun e => EWrap "port-forward to sandbox: " e "") in
    let! _ := modify p (set_address "127.0.0.1" (itoa local_) true) in
    mret (Ok tt).

(** The pod, from its creation to the armed watchdog. *)
Definition run_pod {W} (cfg : Config W) (inCluster : bool) (ns name pw : string)
  (p : positive) : M St (result unit) :=
  let port := TrimSuffix (Port (cfg_Driver cfg)) "/tcp" in
  let! now := Verify.Now in
  let? _ := on_world (errs (CreatePod api (pod_spec cfg ns name pw port now)))
    on_err (fun e => EWrap "creating sandbox pod: " e "") in
  let cmds := if ColdStart cfg then [] else ReadyCmds (cfg_Driver cfg) dbUser pw dbName in
  let? _ := on_world (errs (waitReady ns name cmds)) on_err (fun e => e) in
  let? _ := connect inCluster ns name port p on_err (fun e => e) in
  let! t := Verify.Now in
  let! _ := modify p (fun s => set_pod_life (arm (Add t (cfg_TTL cfg)) (pod_life s)) s) in
  mret (Ok tt).

(** The part of [Provision] that the deferred cleanup covers. *)
Definition start_sandbox {W} (cfg : Config W) (inCluster : bool) (ns name pw : string)
  (p : positive) : M St (result unit) :=
  let? _ := on_world (errs (ensureNamespace api ns)) on_err (fun e => e) in
  let? _ := on_world (errs (EnsureDenyEgressPolicy api ns)) on_err (fun e => e) in
  run_pod cfg inCluster ns name pw p.

Definition Provision {W} (cfg : Config W) : M St (result positive) :=
  let? inCluster := on_world (LoadConfig api) on_err (fun e => e) in
  let? _ := on_world (errs (NewForConfig api))
    on_err (fun e => EWrap "kubernetes client: " e "") in
  let ns := if is_empty (cfg_Namespace cfg) then "firedrill" else cfg_Namespace cfg in
  let! secret := on_world (rand_Read api 16) in
  let! suffix := on_world (rand_Read api 4) in
  let pw := randomHex secret in
  let name := sandbox_name (cfg_Name cfg) (randomHex suffix) in
  let! p := alloc {| namespace := ns; podName := name; password := pw; host := EmptyString;
                     hostPort := EmptyString; pfStop := false; pod_life := newborn |} in
  let! r := start_sandbox cfg inCluster ns name pw p in
  match r with
  | Err e => let! _ := Destroy Background p in mret (Err e)
  | Ok _ => mret (Ok p)
  end.

(** The pointer as the drill sees it. *)
Definition sandbox_exec (p : positive) (cmd : list string) (stdin : option Source.Reader)
  : M St (Z * string * option error) := fun w =>
  match load p w with
  | Some s => on_world (Exec (namespace s) (podName s) cmd stdin) w
  | None => ((-1, EmptyString, None), w)
  end.

Definition as_sandbox (p : positive) (w : St) : SandboxI St := {|
  Interfaces.Exec := sandbox_exec p;
  Host := match load p w with Some s => host s | None => EmptyString end;
  HostPort := match load p w with Some s => hostPort s | None => EmptyString end;
  User := dbUser;
  Password := match load p w with Some s => password s | None => EmptyString end;
  DB := dbName;
  Interfaces.Destroy c := Destroy c p;
  Interfaces.WasDestroyed := WasDestroyed p |}.
End Kubernetes.
