(* ===== verification/KubernetesFacts.v ===== *)
(** Kubernetes sandboxes: a pod runs only where egress is denied, a failed
    [Provision] leaves no pod, and waiting ends. *)

From Stdlib Require Import ZArith Lia Ascii String.
From stdpp Require Import base option list gmap strings.
From S2P Require Import Prelude GoStrings Spec Interfaces Poll Keeps Sandboxes Lifecycle Cluster Kubernetes.
From S2P Require Verify Source.

(** The API server as documented: names are unique, a creation that succeeds
    adds its object and one that fails adds nothing ("already exists" only when
    it does), a deletion that succeeds removes, and no other call creates
    anything. *)
Class ClusterLaws {D} {CK : Verify.Clock D} (api : ClusterAPI D) : Type := {
  pods : D -> gset (string * string);
  policies : D -> gmap (string * string) PolicySpec;
  spaces : D -> gset string;
  objects d := (pods d, policies d, spaces d);
  CreatePolicy_spec s d r d' : (CreatePolicy api s d = (r, d')) ->
    pods d' = pods d /\ spaces d' = spaces d /\
    match r return Prop with
    | None => policies d' = <[(np_Namespace s, np_Name s) := s]> (policies d)
    | Some e => policies d' = policies d /\
        (IsAlreadyExists api e = true -> is_Some (policies d !! (np_Namespace s, np_Name s)))
    end;
  CreatePod_spec s d r d' : (CreatePod api s d = (r, d')) ->
    policies d' = policies d /\ spaces d' = spaces d /\
    match r return Prop with
    | None => pods d' = {[(pod_Namespace s, pod_Name s)]} ∪ pods d
    | Some _ => pods d' = pods d
    end;
  DeletePod_spec c ns n d r d' : (DeletePod api c ns n d = (r, d')) ->
    policies d' = policies d /\ spaces d' = spaces d /\
    match r return Prop with
    | None => pods d' = pods d ∖ {[(ns, n)]}
    | Some e => pods d' = pods d /\ (IsNotFound api e = true -> (ns, n) ∉ pods d)
    end;
  CreateNamespace_spec s d r d' : (CreateNamespace api s d = (r, d')) ->
    pods d' = pods d /\ policies d' = policies d /\
    match r return Prop with
    | None => (nss_Name s ∉ spaces d) /\ spaces d' = {[nss_Name s]} ∪ spaces d
    | Some _ => spaces d' = spaces d
    end;
  quiet_api : silent objects (InClusterConfig api) /\ silent objects (ClientConfig api) /\
    silent objects (NewForConfig api) /\ (forall n, silent objects (rand_Read api n)) /\
    (forall a b, silent objects (GetPod api a b)) /\
    (forall a b c i, silent objects (NewExecutor api a b c i)) /\
    (forall a b c i, silent objects (StreamExec api a b c i)) /\ silent objects (RoundTripper api) /\
    (forall a b c, silent objects (ForwardNew api a b c)) /\ silent objects (ForwardWait api) /\
    silent objects (GetPorts api) /\ silent objects (StopForward api) /\
    silent objects Verify.Now /\ (forall x, silent objects (Verify.Sleep x)) /\
    silent objects Verify.ctx_Err
}.

Section KubernetesFacts.
Context {D : Type} {CK : Verify.Clock D} (api : ClusterAPI D) {KL : ClusterLaws api}.

#[local] Instance Own : Owner Sandbox D := Pod_Owner api.

Abbreviation St := (Proc Sandbox D).

(** A property of the objects is kept by every call that creates nothing. *)
Lemma quiet_on {A} (P : D -> Prop) (c : M D A) :
  (forall d d', objects d' = objects d -> P d -> P d') -> silent objects c -> keeps P c.
Proof.
  intros HP Hc d Hd. eapply HP; [|exact Hd]. exact (Hc _ d eq_refl).
Qed.

Section Objects.
Context (P : D -> Prop) (HP : forall d d', objects d' = objects d -> P d -> P d').

Ltac quiet := apply (quiet_on P); [exact HP|apply quiet_api].

Lemma Exec_keeps ns n cmd stdin : keeps P (Exec api ns n cmd stdin).
Proof. unfold Exec. keeps_auto; quiet. Qed.

Lemma waitReady_keeps ns n cmds : keeps P (waitReady api ns n cmds).
Proof.
  unfold waitReady. apply keeps_bind; [quiet|]. intros t.
  apply keeps_bind; [|keeps_auto]. apply keeps_poll. unfold ready_round. cbv zeta.
  assert (Hall : keeps P (all_ready (fun cmd => Exec api ns n cmd None) cmds)).
  { induction cmds as [|cmd r IH]; cbn [all_ready]; keeps_auto. apply Exec_keeps. }
  keeps_auto; first [apply Hall|quiet].
Qed.

Lemma portForward_keeps ns n port : keeps P (portForward api ns n port).
Proof. unfold portForward. keeps_auto; quiet. Qed.

Lemma LoadConfig_keeps : keeps P (LoadConfig api).
Proof. unfold LoadConfig. keeps_auto; quiet. Qed.
End Objects.

(** ** A sandbox pod never runs where egress is allowed *)

Definition policy_name : string := "firedrill-sandbox-deny-egress".

(** Policies of that name are the deny-all policy (nobody else uses the name),
    and the namespaces of the given pods have it. *)
Definition confined (d : D) : Prop :=
  (forall ns s, policies d !! (ns, policy_name) = Some s -> s = deny_egress ns) /\
  (forall ns n, (ns, n) ∈ pods d -> policies d !! (ns, policy_name) = Some (deny_egress ns)).

Lemma confined_objects d d' : objects d' = objects d -> confined d -> confined d'.
Proof. unfold confined. by intros [= -> -> _]. Qed.

Lemma errs_keeps {W} (P : W -> Prop) c : keeps P c -> keeps P (errs c).
Proof. intros Hc. unfold errs. keeps_auto. Qed.

Lemma ensureNamespace_confined ns : keeps confined (ensureNamespace api ns).
Proof.
  unfold ensureNamespace. apply keeps_bind; [|keeps_auto]. intros d Hd.
  destruct (CreateNamespace api _ d) as [r d'] eqn:E. apply CreateNamespace_spec in E.
  destruct E as (Hp & Hq & _). unfold confined. cbn [snd]. by rewrite Hp, Hq.
Qed.

(** After a success the namespace is governed. *)
Lemma EnsureDenyEgressPolicy_confined ns d r d' :
  EnsureDenyEgressPolicy api ns d = (r, d') -> confined d ->
  confined d' /\ (r = None -> policies d' !! (ns, policy_name) = Some (deny_egress ns)).
Proof.
  unfold EnsureDenyEgressPolicy, mbind, mret. intros H [H1 H2].
  destruct (CreatePolicy api (deny_egress ns) d) as [e d1] eqn:E. injection H as <- <-.
  apply CreatePolicy_spec in E. change (np_Namespace (deny_egress ns)) with ns in E.
  change (np_Name (deny_egress ns)) with policy_name in E. destruct E as (Hp & _ & E).
  destruct e as [e|].
  - destruct E as [Hq Ha]. unfold confined. rewrite Hp, Hq. split; [done|]. cbn [unless].
    destruct (IsAlreadyExists api e); [|done]. destruct (Ha eq_refl) as [s Hs]. intros _.
    rewrite Hs. f_equal. by apply H1.
  - unfold confined. rewrite Hp, E. split; [|intros _; by rewrite lookup_insert_eq]. split.
    + intros ns' s. destruct (decide (ns = ns')) as [->|Hne].
      * rewrite lookup_insert_eq. by intros [= <-].
      * rewrite lookup_insert_ne by congruence. apply H1.
    + intros ns' n Hin. destruct (decide (ns = ns')) as [->|Hne].
      * by rewrite lookup_insert_eq.
      * rewrite lookup_insert_ne by congruence. by eapply H2.
Qed.

Lemma DeletePod_confined c ns n : keeps confined (DeletePod api c ns n).
Proof.
  intros d [H1 H2]. destruct (DeletePod api c ns n d) as [r d'] eqn:E. apply DeletePod_spec in E.
  destruct E as (Hq & _ & E). cbn [snd]. unfold confined. rewrite Hq. split; [done|].
  intros ns' m Hin. apply (H2 ns' m). destruct r; [destruct E as [<- _]; done|set_solver].
Qed.

Lemma on_world_keeps {A} (P : D -> Prop) (c : M D A) :
  keeps P c -> keeps (fun w : St => P (ext w)) (on_world c).
Proof. intros Hc w Hw. rewrite on_world_run. by apply Hc. Qed.

Lemma modify_keeps (P : D -> Prop) p f : keeps (fun w : St => P (ext w)) (modify p f).
Proof. intros w Hw. unfold modify. by destruct (load p w). Qed.

Lemma connect_keeps (P : D -> Prop) inC ns n port p :
  (forall d d', objects d' = objects d -> P d -> P d') ->
  keeps (fun w : St => P (ext w)) (connect api inC ns n port p).
Proof.
  intros HP. unfold connect. destruct inC.
  - apply keeps_bind; [apply on_world_keeps, (quiet_on P); [exact HP|apply quiet_api]|].
    intros [st|e]; [|apply keeps_ret]. apply keeps_bind; [apply modify_keeps|intros; apply keeps_ret].
  - apply keeps_bind; [apply on_world_keeps, portForward_keeps, HP|].
    intros [st|e]; [|apply keeps_ret]. apply keeps_bind; [apply modify_keeps|intros; apply keeps_ret].
Qed.

Lemma errs_run {W} (c : M W (option error)) w :
  errs c w = (match fst (c w) with Some e => Err e | None => Ok tt end, snd (c w)).
Proof. unfold errs, mbind, mret. by destruct (c w) as [[e|] w']. Qed.

(** What holds of the objects before the pod is created and survives its
    creation holds at the end. *)
Lemma run_pod_keeps {W} (P : D -> Prop) (cfg : Config W) inC ns name pw p :
  (forall d d', objects d' = objects d -> P d -> P d') ->
  (forall port now, keeps P (CreatePod api (pod_spec api cfg ns name pw port now))) ->
  keeps (fun w : St => P (ext w)) (run_pod api cfg inC ns name pw p).
Proof.
  intros HP Hc. unfold run_pod. cbv zeta.
  assert (Hnow : keeps (fun w : St => P (ext w)) (Verify.Now (W := St)))
    by apply on_world_keeps, (quiet_on _ _ HP), quiet_api.
  apply keeps_bind; [exact Hnow|]. intros now.
  apply keeps_bind; [apply on_world_keeps, errs_keeps, Hc|]. intros [u1|e]; [|apply keeps_ret].
  apply keeps_bind; [apply on_world_keeps, errs_keeps, (waitReady_keeps _ HP)|].
  intros [u2|e]; [|apply keeps_ret].
  apply keeps_bind; [apply (connect_keeps _ _ _ _ _ _ HP)|]. intros [u3|e]; [|apply keeps_ret].
  apply keeps_bind; [exact Hnow|]. intros t.
  apply keeps_bind; [apply modify_keeps|intros; apply keeps_ret].
Qed.

Definition governed (ns : string) (d : D) : Prop :=
  confined d /\ policies d !! (ns, policy_name) = Some (deny_egress ns).

Lemma CreatePod_governed s : keeps (governed (pod_Namespace s)) (CreatePod api s).
Proof.
  intros d [[H1 H2] H3]. destruct (CreatePod api s d) as [r d'] eqn:E. apply CreatePod_spec in E.
  destruct E as (Hq & _ & E). cbn [snd]. unfold governed, confined. rewrite Hq. split; [|done].
  split; [done|]. intros ns m Hin. destruct r; rewrite E in Hin; [by eapply H2|].
  apply elem_of_union in Hin as [Hin%elem_of_singleton|Hin]; [|by eapply H2].
  by injection Hin as -> _.
Qed.

Lemma governed_objects ns d d' : objects d' = objects d -> governed ns d -> governed ns d'.
Proof.
  intros Ho [H1 H2]. split; [by eapply confined_objects|]. by injection Ho as _ -> _.
Qed.

Lemma start_sandbox_confined {W} (cfg : Config W) inC ns name pw p :
  keeps (fun w : St => confined (ext w)) (start_sandbox api cfg inC ns name pw p).
Proof.
  unfold start_sandbox. apply keeps_bind.
  { apply on_world_keeps, errs_keeps, ensureNamespace_confined. }
  intros [u|e]; [|apply keeps_ret]. intros w Hw. unfold mbind.
  rewrite on_world_run, errs_run. cbn [fst snd].
  destruct (EnsureDenyEgressPolicy api ns (ext w)) as [r d] eqn:E.
  apply EnsureDenyEgressPolicy_confined in E as [Hc Hp]; [|exact Hw].
  destruct r as [e|]; cbn [fst snd]; [exact Hc|].
  pose proof (run_pod_keeps (governed ns) cfg inC ns name pw p (governed_objects ns)
    (fun port now => CreatePod_governed (pod_spec api cfg ns name pw port now))) as Hr.
  apply (Hr {| heap := heap w; ext := d |}). by split; [|apply Hp].
Qed.

(** Every pod that a [Provision] leaves, its own included, is in a namespace
    whose pods have no egress. *)
Lemma Provision_confined {W} (cfg : Config W) :
  keeps (fun w : St => confined (ext w)) (Provision api cfg).
Proof.
  unfold Provision. apply keeps_bind; [apply on_world_keeps, LoadConfig_keeps, confined_objects|].
  intros [inC|e]; [|apply keeps_ret].
  assert (Hq : forall {A} (c : M D A), silent objects c -> keeps (fun w : St => confined (ext w)) (on_world c)).
  { intros A c Hc. apply on_world_keeps, (quiet_on _ _ confined_objects Hc). }
  apply keeps_bind.
  { apply on_world_keeps, errs_keeps, (quiet_on _ _ confined_objects), quiet_api. }
  intros [u|e]; [|apply keeps_ret]. cbv zeta.
  apply keeps_bind; [apply Hq, quiet_api|]. intros secret.
  apply keeps_bind; [apply Hq, quiet_api|]. intros suffix.
  apply keeps_bind; [by intros w Hw|]. intros p.
  apply keeps_bind; [apply start_sandbox_confined|]. intros [v|e]; [apply keeps_ret|].
  apply keeps_bind; [|intros; apply keeps_ret]. intros w Hw. unfold Destroy.
  destruct (load p w) as [s|]; [|done]. destruct (once (life s)); [done|].
  change (remove Background s) with (remove_pod api Background s).
  assert (Hr : keeps confined (remove_pod api Background s)).
  { unfold remove_pod. apply keeps_bind.
    - destruct (pfStop s); [apply (quiet_on _ _ confined_objects), quiet_api|apply keeps_ret].
    - intros _. apply keeps_bind; [apply DeletePod_confined|intros; apply keeps_ret]. }
  specialize (Hr (ext w) Hw). by destruct (remove_pod api Background s (ext w)).
Qed.

(** ** A failed [Provision] leaves no pod *)

(** [p] stands for the pod [k] and was not torn down. *)
Definition stands_for (p : positive) (k : string * string) (w : St) : Prop :=
  exists s, load p w = Some s /\ (namespace s, podName s) = k /\ once (pod_life s) = false.

Lemma stands_on_world {A} (c : M D A) p k : keeps (stands_for p k) (on_world c).
Proof. intros w (s & Hs & Hr). exists s. by rewrite load_on_world. Qed.

Lemma stands_Now p k : keeps (stands_for p k) (Verify.Now (W := St)).
Proof. apply stands_on_world. Qed.

Lemma stands_modify p k f :
  (forall s, (namespace (f s), podName (f s)) = (namespace s, podName s) /\
             once (pod_life (f s)) = once (pod_life s)) ->
  keeps (stands_for p k) (modify p f).
Proof.
  intros Hf w (s & Hs & Hk & Ho). unfold modify. rewrite Hs. cbn [snd]. exists (f s).
  rewrite load_store. destruct (Hf s) as [-> ->]. done.
Qed.

#[local] Hint Resolve stands_on_world stands_Now stands_modify : keeps.

Lemma start_sandbox_stands {W} (cfg : Config W) inC ns name pw p k :
  keeps (stands_for p k) (start_sandbox api cfg inC ns name pw p).
Proof. unfold start_sandbox, run_pod, connect. keeps_auto. Qed.

Definition at_most (k : string * string) (C : gset (string * string)) (d : D) : Prop :=
  pods d ⊆ {[k]} ∪ C.

Lemma start_sandbox_at_most {W} (cfg : Config W) inC ns name pw p C :
  keeps (fun w : St => at_most (ns, name) C (ext w)) (start_sandbox api cfg inC ns name pw p).
Proof.
  assert (HP : forall d d', objects d' = objects d -> at_most (ns, name) C d -> at_most (ns, name) C d').
  { unfold at_most. by intros d d' [= -> _ _]. }
  unfold start_sandbox.
  apply keeps_bind.
  { apply on_world_keeps, errs_keeps. unfold ensureNamespace. apply keeps_bind; [|keeps_auto].
    intros d Hd. destruct (CreateNamespace api _ d) eqn:E. apply CreateNamespace_spec in E.
    destruct E as (Hp & _). unfold at_most. cbn [snd]. by rewrite Hp. }
  intros [u|e]; [|apply keeps_ret]. apply keeps_bind.
  { apply on_world_keeps, errs_keeps. unfold EnsureDenyEgressPolicy. apply keeps_bind; [|keeps_auto].
    intros d Hd. destruct (CreatePolicy api _ d) eqn:E. apply CreatePolicy_spec in E.
    destruct E as (Hp & _). unfold at_most. cbn [snd]. by rewrite Hp. }
  intros [v|e]; [|apply keeps_ret]. apply run_pod_keeps; [exact HP|].
  intros port now d Hd. destruct (CreatePod api _ d) as [r d'] eqn:E. apply CreatePod_spec in E.
  destruct E as (_ & _ & E). unfold at_most in *. cbn [snd].
  destruct r; rewrite E; [done|]. cbn [pod_spec pod_Namespace pod_Name]. set_solver.
Qed.

(** The API server's deletions succeed, or find nothing to delete, when nobody
    cancels them. *)
Definition deletions_work : Prop :=
  forall ns n d, unless (IsNotFound api) (fst (DeletePod api Background ns n d)) = None.

Lemma remove_pod_run c s d :
  exists d1, pods d1 = pods d /\
    remove_pod api c s d =
    (match unless (IsNotFound api) (fst (DeletePod api c (namespace s) (podName s) d1)) with
     | Some err => Some (EWrap "deleting sandbox pod: " err "")
     | None => None
     end, snd (DeletePod api c (namespace s) (podName s) d1)).
Proof.
  exists (snd ((if pfStop s then StopForward api else mret tt) d)). split.
  - destruct (pfStop s); [|done].
    assert (Hq : silent objects (StopForward api)) by apply quiet_api.
    specialize (Hq _ d eq_refl). by injection Hq as -> _ _.
  - unfold remove_pod, mbind, mret. destruct (pfStop s).
    + destruct (StopForward api d) as [u d1]. cbn [snd]. by destruct (DeletePod _ _ _ _ d1).
    + cbn [snd]. by destruct (DeletePod _ _ _ _ d).
Qed.

Lemma remove_pod_ok c s d d' C :
  at_most (namespace s, podName s) C d -> remove_pod api c s d = (None, d') -> pods d' ⊆ C.
Proof.
  intros Hm. destruct (remove_pod_run c s d) as (d1 & Hp & ->). unfold at_most in Hm.
  rewrite <- Hp in Hm.
  destruct (DeletePod api c (namespace s) (podName s) d1) as [e d2] eqn:E. cbn [fst snd].
  apply DeletePod_spec in E as (_ & _ & E). destruct e as [e|]; cbn [unless].
  - destruct E as [E Hnf]. destruct (IsNotFound api e); [|done]. intros [= <-].
    specialize (Hnf eq_refl). rewrite E. set_solver.
  - intros [= <-]. rewrite E. set_solver.
Qed.

Lemma remove_pod_works s d : deletions_work -> fst (remove_pod api Background s d) = None.
Proof. intros Hw. destruct (remove_pod_run Background s d) as (d1 & _ & ->). cbn [fst]. by rewrite Hw. Qed.

(** [Destroy] of a pod that is still up, when the API server's deletions work. *)
Lemma Destroy_pod p k C w :
  deletions_work -> stands_for p k w -> at_most k C (ext w) ->
  fst (Destroy Background p w) = None /\ pods (ext (snd (Destroy Background p w))) ⊆ C /\
  WasDestroyed p (snd (Destroy Background p w)) = true.
Proof.
  intros Hdel (s & Hs & <- & Ho) Hm. unfold WasDestroyed. rewrite (load_Destroy _ _ _ _ Hs).
  unfold Destroy. rewrite Hs. cbn [life Own Pod_Owner] in *. rewrite Ho.
  change (remove Background s) with (remove_pod api Background s).
  pose proof (remove_pod_works s (ext w) Hdel) as Hn. pose proof (remove_pod_ok Background s (ext w)) as Hok.
  destruct (remove_pod api Background s (ext w)) as [err d]. cbn in Hn. subst err. cbn.
  split; [done|]. split; [by apply Hok|done].
Qed.

(** [Provision] up to the object, then on: nothing happened before it. *)
Lemma pod_Provision_split {W} (cfg : Config W) (w : St) r (w' : St) :
  Provision api cfg w = (r, w') ->
  (exists e, r = Err e /\ objects (ext w') = objects (ext w) /\ heap w' = heap w) \/
  exists p inC ns name pw w1 r1 w2,
    (forall q, q <> p -> load q w1 = load q w) /\
    stands_for p (ns, name) w1 /\ objects (ext w1) = objects (ext w) /\
    start_sandbox api cfg inC ns name pw p w1 = (r1, w2) /\
    match r1 with
    | Ok _ => r = Ok p /\ w' = w2
    | Err e => r = Err e /\ w' = snd (Destroy Background p w2)
    end.
Proof.
  assert (Hq : forall {A} (c : M D A) (w0 : St), silent objects c ->
    objects (ext (snd (on_world c w0))) = objects (ext w0) /\ heap (snd (on_world c w0)) = heap w0).
  { intros A c w0 Hc. rewrite on_world_run. split; [exact (Hc _ (ext w0) eq_refl)|done]. }
  assert (Hlc : silent objects (LoadConfig api)).
  { intros x. apply LoadConfig_keeps. by intros d d' ->. }
  assert (Hnc : silent objects (errs (NewForConfig api))).
  { intros x. apply errs_keeps. apply quiet_api. }
  assert (Hr : forall n, silent objects (rand_Read api n)) by apply quiet_api.
  unfold Provision. unfold mbind at 1. destruct (Hq _ _ w Hlc) as [H1 G1].
  destruct (on_world (LoadConfig api) w) as [[inC|e0] w1]; cbn [snd] in H1, G1;
    [|intros [= <- <-]; left; by eexists].
  unfold mbind at 1. destruct (Hq _ _ w1 Hnc) as [H2 G2].
  destruct (on_world (errs _) w1) as [[u|e0] w2]; cbn [snd] in H2, G2;
    [|intros [= <- <-]; left; eexists; by rewrite H2, G2].
  cbv zeta. set (ns := if is_empty _ then _ else _).
  unfold mbind at 1. destruct (Hq _ _ w2 (Hr 16%nat)) as [H3 G3].
  destruct (on_world (rand_Read api 16) w2) as [secret w3]. cbn [snd] in H3, G3.
  unfold mbind at 1. destruct (Hq _ _ w3 (Hr 4%nat)) as [H4 G4].
  destruct (on_world (rand_Read api 4) w3) as [suffix w4]. cbn [snd] in H4, G4.
  assert (Gw : heap w4 = heap w) by congruence.
  unfold mbind at 1, alloc at 1. cbv zeta. set (name := sandbox_name _ _). set (p := next _).
  set (s0 := {| namespace := ns |}). set (w5 := {| heap := _; ext := ext w4 |}).
  unfold mbind at 1.
  destruct (start_sandbox api cfg inC ns name (randomHex secret) p w5) as [r1 w6] eqn:Es. intros H.
  right. exists p, inC, ns, name, (randomHex secret), w5, r1, w6.
  split; [|split; [|split; [|split; [done|]]]].
  - intros q Hq'. unfold load, w5. cbn. rewrite lookup_insert_ne by done. by rewrite Gw.
  - exists s0. split; [apply lookup_insert_eq|done].
  - change (ext w5) with (ext w4). congruence.
  - destruct r1 as [[]|e]; [by injection H as <- <-|]. unfold mbind in H.
    destruct (Destroy Background p w6) as [x w7]. by injection H as <- <-.
Qed.

(** The pod that a [Provision] leaves. *)
Lemma pod_Provision_stands {W} (cfg : Config W) (w w' : St) p :
  Provision api cfg w = (Ok p, w') ->
  exists k, stands_for p k w' /\ at_most k (pods (ext w)) (ext w').
Proof.
  intros [(e & ? & _)|(p' & inC & ns & name & pw & w1 & r1 & w2 & _ & Hs & Ho & Hst & Hr)]%pod_Provision_split;
    [done|]. destruct r1; [|by destruct Hr]. destruct Hr as [[= <-] ->]. exists (ns, name).
  pose proof (start_sandbox_stands cfg inC ns name pw p _ w1 Hs) as H1.
  pose proof (start_sandbox_at_most cfg inC ns name pw p (pods (ext w)) w1) as H2.
  rewrite Hst in H1, H2. split; [done|]. apply H2. unfold at_most. injection Ho as -> _ _. set_solver.
Qed.

Lemma pod_Provision_failed {W} (cfg : Config W) (w w' : St) e :
  deletions_work -> Provision api cfg w = (Err e, w') -> pods (ext w') ⊆ pods (ext w).
Proof.
  intros Hdel [(e' & _ & Ho & _)|(p & inC & ns & name & pw & w1 & r1 & w2 & _ & Hs & Ho & Hst & Hr)]%pod_Provision_split.
  { by injection Ho as -> _ _. }
  destruct r1; [by destruct Hr|]. destruct Hr as [_ ->].
  pose proof (start_sandbox_stands cfg inC ns name pw p _ w1 Hs) as H1.
  pose proof (start_sandbox_at_most cfg inC ns name pw p (pods (ext w)) w1) as H2.
  rewrite Hst in H1, H2. apply (Destroy_pod p (ns, name)); [done|done|].
  apply H2. unfold at_most. injection Ho as -> _ _. set_solver.
Qed.
End KubernetesFacts.
