(* ===== verification/Velero.v ===== *)
(** Velero drills (pkg/drivers/velero/velero.go): restoring a backup of a
    namespace into an ephemeral one. *)

From Stdlib Require Import ZArith Lia Ascii String.
From stdpp Require Import base option list gmap strings.
From S2P Require Import Prelude GoStrings Calendar Rfc3339 Spec Interfaces Poll Keeps Sandboxes Lifecycle Cluster.
From S2P Require Verify Kubernetes.

Definition VeleroNamespace : string := "velero".

(** The drill object. *)
Record Drill := {
  SourceNS : string;
  TargetNS : string;
  v_Backup : string;
  BackupAge : Duration;
  restoreName : string;
  v_life : Lifecycle
}.

Definition set_restore_name (n : string) (d : Drill) : Drill := {|
  SourceNS := SourceNS d; TargetNS := TargetNS d; v_Backup := v_Backup d;
  BackupAge := BackupAge d; restoreName := n; v_life := v_life d |}.

Definition set_v_life (l : Lifecycle) (d : Drill) : Drill := {|
  SourceNS := SourceNS d; TargetNS := TargetNS d; v_Backup := v_Backup d;
  BackupAge := BackupAge d; restoreName := restoreName d; v_life := l |}.

Record VResult := {
  v_Duration : Duration; v_Phase : string; v_Warnings : Z; v_Errors : Z }.

Section Velero.
Context {D : Type} {CK : Verify.Clock D} (api : ClusterAPI D).

(** What [Destroy] does inside its once; the first failure is kept. *)
Definition remove_namespace (c : Ctx) (d : Drill) : M D (option error) :=
  let! e := DeleteNamespace api c (TargetNS d) in
  let e1 := match unless (IsNotFound api) e with
            | Some err => Some (EWrap "deleting ephemeral namespace: " err "")
            | None => None
            end in
  if negb (is_empty (restoreName d)) then
    let! e := DeleteRestore api c (restoreName d) in
    mret match e1, unless (IsNotFound api) e with
         | None, Some err => Some (EWrap "deleting restore CR: " err "")
         | _, _ => e1
         end
  else mret e1.

#[local] Instance Namespace_Owner : Owner Drill D := {|
  life := v_life; set_life := set_v_life; remove := remove_namespace; life_set _ _ := eq_refl |}.

Abbreviation St := (Proc Drill D).

(** ** [Prepare] *)

Definition Since (t : Time) : M D Duration :=
  let! now := Verify.Now in mret (Sub now t).

(** The completion time drives the age; the creation time when it is missing
    or not a timestamp. *)
Definition backup_age (b : BackupObj) : M D Duration :=
  let! age := Since (b_Created b) in
  match b_Completion b with
  | Some ts => match Parse_RFC3339 ts with Some t => Since t | None => mret age end
  | None => mret age
  end.

Definition namespace_spec (name : string) (expires : Time) : NamespaceSpec := {|
  nss_Name := name;
  nss_Labels := <["app.kubernetes.io/managed-by" := "firedrill"]> sandbox_label;
  nss_Annotations := {["firedrill.expires-at" := fmt_RFC3339 expires]} |}.

(** The new namespace is governed, or removed again. *)
Definition govern (target : string) (ttl : Duration) (p : positive) : M St (result positive) :=
  let! r := on_world (Kubernetes.errs (EnsureDenyEgressPolicy api target)) in
  match r with
  | Err e => let! _ := Destroy Background p in mret (Err e)
  | Ok _ =>
      let! t := Verify.Now in
      let! _ := modify p (fun d => set_v_life (arm (Add t ttl) (v_life d)) d) in
      mret (Ok p)
  end.

Definition new_namespace (drillName backup sourceNS : string) (ttl : Duration) (b : BackupObj)
  : M St (result positive) :=
  let! age := on_world (backup_age b) in
  let! suffix := on_world (rand_Read api 4) in
  let target := sandbox_name drillName (randomHex suffix) in
  let! p := alloc {| SourceNS := sourceNS; TargetNS := target; v_Backup := backup;
                     BackupAge := age; restoreName := EmptyString; v_life := newborn |} in
  let! now := Verify.Now in
  let? _ := on_world (Kubernetes.errs (CreateNamespace api (namespace_spec target (Add now ttl))))
    on_err (fun e => EWrap "creating ephemeral namespace: " e "") in
  govern target ttl p.

Definition Prepare (drillName backup sourceNS : string) (ttl : Duration)
  : M St (result positive) :=
  let? _ := on_world (LoadConfig api) on_err (fun e => e) in
  let? _ := on_world (Kubernetes.errs (NewDynamic api)) on_err (fun e => EWrap "dynamic client: " e "") in
  let? _ := on_world (Kubernetes.errs (NewForConfig api)) on_err (fun e => EWrap "kubernetes client: " e "") in
  let? b := on_world (GetBackup api backup)
    on_err (fun e => EWrap ("reading Velero backup " +:+ quote backup +:+ ": ") e
                       " (is Velero installed and the backup name correct?)") in
  if negb (String.eqb (b_Phase b) "Completed") then
    mret (Err (ENew ("velero backup " +:+ quote backup +:+ " is in phase " +:+
                     quote (b_Phase b) +:+ ", want Completed")))
  else new_namespace drillName backup sourceNS ttl b.

(** ** [Restore] *)

Definition restore_spec (d : Drill) (name : string) : RestoreSpec := {|
  rs_Name := name;
  rs_Labels := {["app.kubernetes.io/managed-by" := "firedrill"]};
  backupName := v_Backup d;
  includedNamespaces := [SourceNS d];
  namespaceMapping := {[SourceNS d := TargetNS d]};
  existingResourcePolicy := "none" |}.

Definition terminal (phase : string) : bool :=
  String.eqb phase "Completed" || String.eqb phase "PartiallyFailed" || HasPrefix phase "Failed".

(** The result of a terminal phase, with an error unless it is [Completed]. *)
Definition conclude (start now : Time) (r : RestoreStatus) : VResult * option error :=
  let res := {| v_Duration := Sub now start; v_Phase := rt_Phase r;
                v_Warnings := rt_Warnings r; v_Errors := rt_Errors r |} in
  if negb (String.eqb (rt_Phase r) "Completed") then
    let detail := match validationErrors r with
                  | [] => EmptyString
                  | verrs => ": " +:+ Join verrs "; "
                  end in
    (res, Some (ENew ("velero restore phase " +:+ rt_Phase r +:+ " (" +:+ itoa (rt_Errors r) +:+
                      " errors, " +:+ itoa (rt_Warnings r) +:+ " warnings)" +:+ detail)))
  else (res, None).

(** The [select]: the context ends before or during the wait, or the wait
    passes. *)
Definition wait_or_done (d : Duration) : M D (option error) :=
  let! e := Verify.ctx_Err in
  match e with
  | Some err => mret (Some err)
  | None => let! _ := Verify.Sleep d in Verify.ctx_Err
  end.

Definition restore_round (start : Time) (name : string)
  : M D (option (option VResult * option error)) :=
  let! e := wait_or_done (2 * Second) in
  match e with
  | Some err => mret (Some (None, Some err))
  | None =>
      let! r := GetRestore api name in
      match r with
      | Err _ => mret None
      | Ok st =>
          if terminal (rt_Phase st) then
            let! now := Verify.Now in
            let '(res, err) := conclude start now st in mret (Some (Some res, err))
          else mret None
      end
  end.

(** The drill's context ends at the TTL, which bounds the rounds. *)
Definition Restore (ttl : Duration) (p : positive) : M St (option VResult * option error) :=
  let! suffix := on_world (rand_Read api 3) in
  fun w =>
    match load p w with
    | None => ((None, None), w)
    | Some d =>
        let name := TargetNS d +:+ "-" +:+ randomHex suffix in
        (let! _ := modify p (set_restore_name name) in
         let! start := Verify.Now in
         let! e := on_world (CreateRestore api (restore_spec d name)) in
         match e with
         | Some err => mret (None, Some (EWrap "creating Velero restore: " err ""))
         | None =>
             let! r := on_world (poll (fuel_for ttl (2 * Second)) (restore_round start name)) in
             mret match r with
                  | Some out => out
                  | None => (None, Some (ESentinel "context.DeadlineExceeded" "context deadline exceeded"))
                  end
         end) w
    end.

(** The drill as the orchestrator sees it. *)
Definition as_restore_out (r : option VResult * option error) : RestoreOut :=
  let res v := {| res_Duration := v_Duration v; res_Output := EmptyString;
                  res_Format := EmptyString; DSN := EmptyString |} in
  match r with
  | (Some v, None) => Restored (res v)
  | (v, Some e) => RestoreFailed (option_map res v) e
  | (None, None) => RestoreFailed None (ENew EmptyString)
  end.

Definition as_velero (ttl : Duration) (clients : Verify.K8sClient St) (p : positive) (w : St)
  : VeleroDrill St := {|
  Interfaces.TargetNS := match load p w with Some d => TargetNS d | None => EmptyString end;
  vd_BackupAge := match load p w with Some d => BackupAge d | None => 0 end;
  vd_Restore := let! r := Restore ttl p in mret (as_restore_out r);
  Clients := clients;
  vd_Destroy c := Destroy c p;
  vd_WasDestroyed := WasDestroyed p |}.
End Velero.
