(* ===== verification/VeleroFacts.v ===== *)
(** Velero drills: the source namespace is never a target, the ephemeral one is
    governed before anything is restored into it and removed when preparing
    fails, and a restore ends in the phase Velero reported. *)

From Stdlib Require Import ZArith Lia Ascii String.
From stdpp Require Import base option list gmap strings.
From S2P Require Import Prelude GoStrings Spec Interfaces Poll Keeps Sandboxes Lifecycle Cluster KubernetesFacts Velero.
From S2P Require Verify Kubernetes.

(** The rest of the API server. Deleting a namespace is asynchronous: the server
    accepts the deletion, marks the namespace [Terminating] and empties it in its
    own time; nothing can be created in it any more. [spaces] are therefore the
    namespaces that are up, that is, in any other phase, and [pods] and
    [policies] what is in them; [terminating] are those on their way out, which
    may vanish at any moment. An accepted deletion takes a namespace out of the
    first set and puts it at most into the second; it takes its own pods along
    and no others. A listing shows the phase. Creating fails while the name is in
    either set, and [made] is what each namespace was created from. Velero's
    objects are no namespaces, pods or policies, and listing changes nothing. *)
Class VeleroLaws {D} {CK : Verify.Clock D} (api : ClusterAPI D) {KL : ClusterLaws api} : Type := {
  terminating : D -> gset string;
  made : D -> gmap string NamespaceSpec;
  DeleteNamespace_spec c n d r d' : (DeleteNamespace api c n d = (r, d')) ->
    match r return Prop with
    | None => spaces d' = spaces d ∖ {[n]} /\ terminating d' ⊆ {[n]} ∪ terminating d
    | Some e => spaces d' = spaces d /\ terminating d' ⊆ terminating d /\
        (IsNotFound api e = true -> n ∉ spaces d)
    end;
  DeleteNamespace_pods c n d : forall ns m, (ns, m) ∈ pods d -> ns <> n ->
    (ns, m) ∈ pods (snd (DeleteNamespace api c n d));
  ListNamespaces_phase s d l d' : (ListNamespaces api s d = (Ok l, d')) -> forall m, In m l ->
    (ns_Phase m = "Terminating" /\ ns_Name m ∈ terminating d') \/ ns_Name m ∈ spaces d';
  CreateNamespace_made s d d' : (CreateNamespace api s d = (None, d')) ->
    (nss_Name s ∉ terminating d) /\ made d' = <[nss_Name s := s]> (made d);
  made_quiet : (forall s, silent made (CreatePolicy api s)) /\ silent made Verify.Now;
  quiet_lists : (forall s, silent objects (ListPods api s)) /\
    (forall s, silent objects (ListNamespaces api s)) /\
    (forall s, silent objects (ListRestores api s));
  quiet_velero : silent objects (NewDynamic api) /\ (forall n, silent objects (GetBackup api n)) /\
    (forall s, silent objects (CreateRestore api s)) /\
    (forall n, silent objects (GetRestore api n)) /\ (forall c n, silent objects (DeleteRestore api c n))
}.

Section VeleroFacts.
Context {D : Type} {CK : Verify.Clock D} (api : ClusterAPI D) {KL : ClusterLaws api}
  {VL : VeleroLaws api}.

#[local] Instance Own : Owner Drill D := Namespace_Owner api.

Abbreviation St := (Proc Drill D).

Lemma silent_world {A} (c : M D A) (w : St) a w' :
  silent objects c -> on_world c w = (a, w') -> objects (ext w') = objects (ext w) /\ heap w' = heap w.
Proof.
  intros Hc H. rewrite on_world_run in H. injection H as _ <-. split; [|done].
  exact (Hc _ (ext w) eq_refl).
Qed.

Lemma silent_errs (c : M D (option error)) : silent objects c -> silent objects (Kubernetes.errs c).
Proof. intros Hc x. apply errs_keeps, Hc. Qed.

Lemma silent_bind {A B} (c : M D A) (k : A -> M D B) :
  silent objects c -> (forall a, silent objects (k a)) -> silent objects (mbind c k).
Proof. intros Hc Hk x. apply keeps_bind; [apply Hc|intros a; apply Hk]. Qed.

Lemma silent_ret {A} (a : A) : silent objects (mret (W := D) a).
Proof. intros x. apply keeps_ret. Qed.

Lemma backup_age_silent b : silent objects (backup_age b).
Proof.
  assert (Hs : forall t, silent objects (Since (D := D) t)).
  { intros t. apply silent_bind; [apply quiet_api|intros; apply silent_ret]. }
  apply silent_bind; [apply Hs|]. intros age. destruct (b_Completion b) as [ts|]; [|apply silent_ret].
  destruct (Rfc3339.Parse_RFC3339 ts); [apply Hs|apply silent_ret].
Qed.

(** Neither the cluster's objects nor the process's have changed. *)
Definition still (w w' : St) : Prop :=
  objects (ext w') = objects (ext w) /\ heap w' = heap w.

Lemma still_trans w1 w2 w3 : still w1 w2 -> still w2 w3 -> still w1 w3.
Proof. unfold still. intros [-> ->] [-> ->]. done. Qed.

(** No object but one was created, and that one never armed. *)
Definition one_newborn (w w' : St) : Prop :=
  exists p d, v_life d = newborn /\ heap w' = {| next := next (heap w'); cells := <[p := d]> (cells (heap w)) |}.

(** A step that changes no object either ends the function or goes on from there. *)
Lemma step_silent {A B} (c : M D (result A)) (h : error -> error) (k : A -> M St (result B))
  (w w' : St) r :
  silent objects c ->
  (let? x := on_world c on_err h in k x) w = (r, w') ->
  (exists e, r = Err e /\ still w w') \/
  exists a w1, c (ext w) = (Ok a, ext w1) /\ still w w1 /\ k a w1 = (r, w').
Proof.
  intros Hc. unfold mbind, still. rewrite on_world_run. pose proof (Hc _ (ext w) eq_refl) as O.
  destruct (c (ext w)) as [[a|e] d]; cbn [fst snd] in *.
  - intros H. right. by exists a, {| heap := heap w; ext := d |}.
  - intros [= <- <-]. left. by eexists.
Qed.

(** What follows the policy. *)
Definition governed (ttl : Duration) (p : positive) (d : Drill) (r : result positive) (w' : St)
  (r1 : result unit) (w2 : St) : Prop :=
  match r1 with
  | Ok _ => r = Ok p /\ exists t w3, Verify.Now w2 = (t, w3) /\
      w' = store p (set_v_life (arm (Add t ttl) (v_life d)) d) w3
  | Err e => r = Err e /\ w' = snd (Destroy Background p w2)
  end.

Lemma govern_split ttl p d (w : St) r w' :
  load p w = Some d -> govern api (TargetNS d) ttl p w = (r, w') ->
  exists r1 w2, on_world (Kubernetes.errs (EnsureDenyEgressPolicy api (TargetNS d))) w = (r1, w2) /\
    governed ttl p d r w' r1 w2.
Proof.
  intros Hl. unfold govern, mbind, mret, governed.
  destruct (on_world _ w) as [r1 w2] eqn:E. intros H. exists r1, w2. split; [done|].
  rewrite on_world_run in E. injection E as _ <-.
  destruct r1 as [x|e]; revert H; [|destruct (Destroy Background p _); by intros [= <- <-]].
  destruct (Verify.Now _) as [t w3] eqn:En. unfold modify.
  assert (Hl3 : load p w3 = Some d)
    by (unfold load; by apply (silent_world Verify.Now) in En as [_ ->]; [|apply quiet_api]).
  rewrite Hl3. intros [= <- <-]. eauto.
Qed.

(** The new namespace did not exist, and nothing else has changed when it is
    governed. *)
Lemma new_namespace_split drill backup source ttl b (w : St) r w' :
  new_namespace api drill backup source ttl b w = (r, w') ->
  (exists e, r = Err e /\ spaces (ext w') = spaces (ext w) /\ one_newborn w w') \/
  exists p d w1, (forall q, q <> p -> load q w1 = load q w) /\ load p w1 = Some d /\ SourceNS d = source /\ v_Backup d = backup /\
    v_life d = newborn /\ restoreName d = "" /\ (TargetNS d ∉ spaces (ext w)) /\
    spaces (ext w1) = {[TargetNS d]} ∪ spaces (ext w) /\
    policies (ext w1) = policies (ext w) /\ pods (ext w1) = pods (ext w) /\
    govern api (TargetNS d) ttl p w1 = (r, w').
Proof.
  unfold new_namespace. unfold mbind at 1. destruct (on_world (backup_age b) w) as [age w5] eqn:E5.
  apply silent_world in E5 as [O5 G5]; [|apply backup_age_silent].
  unfold mbind at 1. destruct (on_world (rand_Read api 4) w5) as [suffix w6] eqn:E6.
  apply silent_world in E6 as [O6 G6]; [|apply quiet_api].
  cbv zeta. unfold mbind at 1, alloc. cbv zeta. set (p := next (heap w6)).
  set (dr := {| SourceNS := source; TargetNS := _; v_Backup := backup; BackupAge := age;
                restoreName := EmptyString; v_life := newborn |}).
  set (w7 := {| heap := _; ext := ext w6 |}).
  assert (Hl : load p w7 = Some dr) by apply lookup_insert_eq.
  unfold mbind at 1. destruct (Verify.Now w7) as [now w8] eqn:E8.
  apply (silent_world Verify.Now) in E8 as [O8 Hh8]; [|apply quiet_api].
  unfold mbind at 1. rewrite on_world_run, errs_run. cbn [fst snd].
  destruct (CreateNamespace api _ (ext w8)) as [rc dc] eqn:Ec.
  apply CreateNamespace_spec in Ec as (Hp & Hq & Hs).
  assert (Ow : objects (ext w8) = objects (ext w))
    by (rewrite O8; change (objects (ext w7)) with (objects (ext w6)); congruence).
  injection Ow as Hpd Hpo Hsp. destruct rc as [e|]; cbn [fst snd].
  { intros [= <- <-]. left. eexists. split; [done|]. cbn [ext heap]. split; [by rewrite Hs, Hsp|].
    exists p, dr. split; [done|]. rewrite Hh8. cbn. by rewrite G6, G5. }
  destruct Hs as [Hfr Hs]. cbn [nss_Name namespace_spec] in Hfr, Hs.
  change (sandbox_name drill (randomHex suffix)) with (TargetNS dr) in Hfr, Hs |- *.
  intros H. right. exists p, dr, {| heap := heap w8; ext := dc |}.
  split; [intros q Hne; unfold load; cbn [heap]; rewrite Hh8; cbn; rewrite lookup_insert_ne by done; by rewrite G6, G5|].
  split; [unfold load; cbn [heap]; by rewrite Hh8|]. cbn [ext].
  rewrite <- Hsp, <- Hpo, <- Hpd. done.
Qed.

(** [Prepare] up to the new namespace, then on. *)
Lemma Prepare_split drill backup source ttl (w : St) r w' :
  Prepare api drill backup source ttl w = (r, w') ->
  (exists e, r = Err e /\ spaces (ext w') = spaces (ext w) /\ (heap w' = heap w \/ one_newborn w w')) \/
  exists b d0 p d w1 r1 w2, (forall q, q <> p -> load q w1 = load q w) /\
    GetBackup api backup d0 = (Ok b, snd (GetBackup api backup d0)) /\ b_Phase b = "Completed" /\
    load p w1 = Some d /\ SourceNS d = source /\ v_Backup d = backup /\ v_life d = newborn /\
    restoreName d = "" /\ (TargetNS d ∉ spaces (ext w)) /\
    spaces (ext w1) = {[TargetNS d]} ∪ spaces (ext w) /\
    policies (ext w1) = policies (ext w) /\ pods (ext w1) = pods (ext w) /\
    on_world (Kubernetes.errs (EnsureDenyEgressPolicy api (TargetNS d))) w1 = (r1, w2) /\
    governed ttl p d r w' r1 w2.
Proof.
  unfold Prepare. intros H.
  assert (Hend : forall e (w1 : St), still w w1 -> exists e', @Err positive e = Err e' /\
    spaces (ext w1) = spaces (ext w) /\ (heap w1 = heap w \/ one_newborn w w1))
    by (intros e w1 [O G]; exists e; split; [done|split; [by injection O|by left]]).
  apply step_silent in H as [(e & -> & O1)|(inC & w1 & _ & O1 & H)];
    [left; by apply Hend| |intros x; apply (LoadConfig_keeps api); by intros d d' ->].
  apply step_silent in H as [(e & -> & O2)|(u & w2 & _ & O2 & H)];
    [left; apply Hend; by eapply still_trans| |apply silent_errs, quiet_velero].
  pose proof (still_trans _ _ _ O1 O2) as O12.
  apply step_silent in H as [(e & -> & O3)|(v & w3 & _ & O3 & H)];
    [left; apply Hend; by eapply still_trans| |apply silent_errs, quiet_api].
  pose proof (still_trans _ _ _ O12 O3) as O13.
  apply step_silent in H as [(e & -> & O4)|(b & w4 & Hb & O4 & H)];
    [left; apply Hend; by eapply still_trans| |apply quiet_velero].
  pose proof (still_trans _ _ _ O13 O4) as O. clear O1 O2 O3 O4 O12 O13.
  destruct (String.eqb_spec (b_Phase b) "Completed") as [Hph|Hph]; cbn [negb] in H;
    [|injection H as <- <-; left; by apply Hend].
  destruct O as [O G]. injection O as Hpd Hpo Hsp.
  apply new_namespace_split in H as [(e & -> & Hs & Hn)|(p & d & w5 & Hc & Hl & H1 & H2 & H3 & H4 & H5 & H6 & H7 & H8 & H)].
  { left. exists e. rewrite Hs, Hsp. split; [done|]. split; [done|]. right. unfold one_newborn in *.
    by rewrite <- G. }
  destruct (govern_split _ _ _ _ _ _ Hl H) as (r1 & w6 & He & Hg).
  right. exists b, (ext w3), p, d, w5, r1, w6. rewrite <- Hsp, <- Hpo, <- Hpd, Hb.
  split; [|done]. intros q Hq. rewrite (Hc q Hq). unfold load. by rewrite G.
Qed.

Lemma EnsureDenyEgressPolicy_spaces ns d : spaces (snd (EnsureDenyEgressPolicy api ns d)) = spaces d.
Proof.
  unfold EnsureDenyEgressPolicy, mbind, mret. destruct (CreatePolicy api _ d) eqn:E.
  apply CreatePolicy_spec in E. cbn [snd]. by destruct E as (_ & -> & _).
Qed.

(** A prepared drill restores a completed backup into a namespace that did not
    exist, that has the deny-all egress policy, and that the watchdog removes
    at the TTL. An existing source namespace is therefore never the target. *)
Lemma Prepare_ok {CL : Verify.ClockLaws D} drill backup source ttl (w w' : St) p :
  confined api (ext w) -> Prepare api drill backup source ttl w = (Ok p, w') ->
  exists d dl, load p w' = Some d /\ SourceNS d = source /\ v_Backup d = backup /\
    (exists b d0, fst (GetBackup api backup d0) = Ok b /\ b_Phase b = "Completed") /\
    (TargetNS d ∉ spaces (ext w)) /\
    policies (ext w') !! (TargetNS d, policy_name) = Some (deny_egress (TargetNS d)) /\
    confined api (ext w') /\ once (v_life d) = false /\
    guarded p dl w' /\ dl <= Verify.time_of w' + ttl.
Proof.
  intros Hc [(e & ? & _)|(b & d0 & p' & d & w1 & r1 & w2 & _ & Hb & Hph & Hl & Hsrc & Hbk & Hlife & _ &
    Hfr & _ & Hpol & Hpods & He & Hr)]%Prepare_split; [done|].
  destruct r1 as [u|e]; [|by destruct Hr]. destruct Hr as ([= <-] & t & w3 & Hn & ->).
  rewrite on_world_run, errs_run in He. cbn [fst snd] in He.
  destruct (EnsureDenyEgressPolicy api (TargetNS d) (ext w1)) as [r dd] eqn:E. injection He as He <-.
  destruct r as [e|]; [done|].
  apply (EnsureDenyEgressPolicy_confined api) in E as [Hc2 Hp];
    [|unfold confined; rewrite Hpol, Hpods; exact Hc].
  pose proof (Verify.Now_reads {| heap := heap w1; ext := dd |}) as Ht. rewrite Hn in Ht.
  apply (silent_world Verify.Now) in Hn as [O _]; [|apply quiet_api]. cbn [ext] in O.
  eexists _, (Add t ttl). split; [apply load_store|]. cbn [SourceNS v_Backup TargetNS set_v_life].
  split; [done|]. split; [done|]. split; [exists b, d0; by rewrite Hb|]. split; [done|].
  change (ext (store p _ w3)) with (ext w3).
  split; [injection O as _ -> _; by apply Hp|].
  split; [by eapply (confined_objects api)|]. split; [by cbn; rewrite Hlife|]. split.
  - eexists. split; [apply load_store|]. cbn. by rewrite Hlife.
  - unfold Add. cbn in Ht |- *. lia.
Qed.

(** A failed [Prepare] leaves no namespace, when the API server's deletions
    work. *)
Lemma Prepare_failed drill backup source ttl (w w' : St) e :
  (forall n d, unless (IsNotFound api) (fst (DeleteNamespace api Background n d)) = None) ->
  Prepare api drill backup source ttl w = (Err e, w') -> spaces (ext w') ⊆ spaces (ext w).
Proof.
  intros Hdel [(e' & _ & Hs & _)|(b & d0 & p & d & w1 & r1 & w2 & _ & _ & _ & Hl & _ & _ & Hlife & Hrn &
    Hfr & Hsp & _ & _ & He & Hr)]%Prepare_split; [by rewrite Hs|].
  destruct r1 as [u|e1]; [by destruct Hr|]. destruct Hr as [_ ->].
  rewrite on_world_run in He. injection He as _ <-. unfold Destroy, load in *. cbn [heap].
  rewrite Hl. cbn [life Own Namespace_Owner]. rewrite Hlife. cbn [once newborn].
  change (remove Background d) with (remove_namespace api Background d). unfold remove_namespace, mbind, mret. rewrite Hrn.
  cbn [ext]. set (d1 := snd (Kubernetes.errs _ _)).
  assert (Hd1 : spaces d1 = spaces (ext w1)).
  { unfold d1. rewrite errs_run. apply EnsureDenyEgressPolicy_spaces. }
  pose proof (Hdel (TargetNS d) d1) as Hd.
  destruct (DeleteNamespace api Background (TargetNS d) d1) as [r d2] eqn:E. apply DeleteNamespace_spec in E.
  cbn [fst] in Hd. change (is_empty "") with true. cbn. destruct r as [e0|].
  - destruct E as (-> & _ & Hnf). cbn [unless] in Hd. destruct (IsNotFound api e0); [|done].
    specialize (Hnf eq_refl). rewrite Hd1, Hsp in *. set_solver.
  - destruct E as [-> _]. rewrite Hd1, Hsp. set_solver.
Qed.

(** What a listing shows when nothing is up that was not before: every other
    namespace is on its way out. *)
Lemma only_terminating sel d l d' (v : gset string) :
  spaces d ⊆ v -> ListNamespaces api sel d = (Ok l, d') ->
  forall m, In m l -> ns_Name m ∈ v \/ ns_Phase m = "Terminating" /\ ns_Name m ∈ terminating d'.
Proof.
  intros Hv Hl m Hm. destruct (ListNamespaces_phase _ _ _ _ Hl m Hm) as [?|Hs]; [by right|]. left.
  assert (Hq : silent objects (ListNamespaces api sel)) by apply quiet_lists.
  specialize (Hq _ d eq_refl). rewrite Hl in Hq. injection Hq as _ _ Hq. cbn [snd] in Hq.
  rewrite Hq in Hs. by apply Hv.
Qed.

(** ** The lease *)

(** The calls of [Prepare] take no time back. *)
Definition timely {CL : Verify.ClockLaws D} : Prop :=
  forall t, let P d := t <= Verify.time_of d in
  keeps P (InClusterConfig api) /\ keeps P (ClientConfig api) /\ keeps P (NewForConfig api) /\
  keeps P (NewDynamic api) /\ (forall n, keeps P (GetBackup api n)) /\
  (forall n, keeps P (rand_Read api n)) /\ (forall s, keeps P (CreateNamespace api s)) /\
  (forall s, keeps P (CreatePolicy api s)).

Lemma Now_timely {CL : Verify.ClockLaws D} t : keeps (fun d : D => t <= Verify.time_of d) Verify.Now.
Proof. intros d Hd. pose proof (Verify.Now_reads d). lia. Qed.

Lemma before_namespace_timely {CL : Verify.ClockLaws D} t :
  timely -> let P (d : D) := t <= Verify.time_of d in
  keeps P (LoadConfig api) /\ keeps P (Kubernetes.errs (NewDynamic api)) /\
  keeps P (Kubernetes.errs (NewForConfig api)) /\ (forall n, keeps P (GetBackup api n)) /\
  (forall b, keeps P (backup_age b)) /\ (forall n, keeps P (rand_Read api n)).
Proof.
  intros Ht P. destruct (Ht t) as (H1 & H2 & H3 & H4 & H5 & H6 & _).
  assert (Hs : forall x, keeps P (Since x))
    by (intros x; apply keeps_bind; [apply Now_timely|intros; apply keeps_ret]).
  split; [unfold LoadConfig; keeps_auto; done|]. split; [by apply errs_keeps|].
  split; [by apply errs_keeps|]. split; [done|]. split; [|done]. intros b. unfold backup_age.
  apply keeps_bind; [apply Hs|]. intros age. destruct (b_Completion b); [|apply keeps_ret].
  destruct (Rfc3339.Parse_RFC3339 _); [apply Hs|apply keeps_ret].
Qed.

(** A step of [Prepare] on the world, when it succeeds. *)
Lemma world_step {CL : Verify.ClockLaws D} {A B} (c : M D (result A)) (h : error -> error)
  (k : A -> M St (result B)) (w w' : St) b t :
  keeps (fun d => t <= Verify.time_of d) c -> t <= Verify.time_of w ->
  (let? x := on_world c on_err h in k x) w = (Ok b, w') ->
  exists a w1, t <= Verify.time_of w1 /\ heap w1 = heap w /\ k a w1 = (Ok b, w').
Proof.
  intros Hc Ht (a & w1 & Ha & Hk)%bind_ok. exists a, w1. rewrite on_world_run in Ha.
  injection Ha as _ <-. split; [by apply Hc|done].
Qed.

(** The namespace is created with a lease that ends [ttl] after a moment within
    [Prepare], and no later than the watchdog's deadline. *)
Lemma govern_leased {CL : Verify.ClockLaws D} ttl p d s (w w' : St) t :
  timely -> load p w = Some d -> v_life d = newborn -> t + ttl <= Verify.time_of w + ttl ->
  made (ext w) !! TargetNS d = Some s -> govern api (TargetNS d) ttl p w = (Ok p, w') ->
  exists d' dl, load p w' = Some d' /\ TargetNS d' = TargetNS d /\
    made (ext w') !! TargetNS d = Some s /\ guarded p dl w' /\
    t + ttl <= dl <= Verify.time_of w' + ttl.
Proof.
  intros Htm Hl Hlife Ht Hm (r1 & w2 & He & Hg)%(govern_split _ _ _ _ _ _ Hl).
  rewrite on_world_run, errs_run in He. cbn [fst snd] in He.
  unfold EnsureDenyEgressPolicy, mbind, mret in He.
  pose proof (proj1 made_quiet (deny_egress (TargetNS d)) (made (ext w)) (ext w) eq_refl) as Hm1.
  destruct (Htm t) as (_ & _ & _ & _ & _ & _ & _ & Hp).
  specialize (Hp (deny_egress (TargetNS d)) (ext w)). cbn in Hp.
  destruct (CreatePolicy api (deny_egress (TargetNS d)) (ext w)) as [e d1]. cbn [fst snd] in *.
  injection He as <- <-. unfold governed in Hg.
  destruct (unless (IsAlreadyExists api) e) as [e'|]; [by destruct Hg|].
  destruct Hg as (_ & now & w3 & Hn & ->).
  pose proof (Verify.Now_reads {| heap := heap w; ext := d1 |}) as Hr. rewrite Hn in Hr.
  cbn [fst snd] in Hr. change (Verify.time_of {| heap := heap w; ext := d1 |})
    with (Verify.time_of d1) in Hr.
  unfold Verify.Now in Hn. cbn in Hn. rewrite on_world_run in Hn. injection Hn as Hn <-.
  eexists _, (Add now ttl). split; [apply load_store|]. split; [done|]. split.
  - cbn [ext store]. pose proof (proj2 made_quiet (made d1) d1 eq_refl) as Hm2. cbn in Hm2 |- *.
    by rewrite Hm2, Hm1.
  - split; [eexists; split; [apply load_store|]; cbn; by rewrite Hlife|].
    specialize (Hp ltac:(cbn in Ht; lia)). unfold Add. cbn in Hr |- *. lia.
Qed.

(** The backup, as it is read once the clients are there. *)
Definition when_backup_read (w : St) : D :=
  snd (NewForConfig api (snd (NewDynamic api (snd (LoadConfig api (ext w)))))).

Lemma Prepare_backup drill backup source ttl (w w' : St) p :
  Prepare api drill backup source ttl w = (Ok p, w') ->
  exists b, fst (GetBackup api backup (when_backup_read w)) = Ok b /\ b_Phase b = "Completed".
Proof.
  unfold Prepare, when_backup_read. intros (inC & w1 & H1 & H)%bind_ok.
  apply bind_ok in H as (u & w2 & H2 & H). apply bind_ok in H as (v & w3 & H3 & H).
  apply bind_ok in H as (b & w4 & H4 & H). exists b.
  rewrite on_world_run in H1. rewrite on_world_run, errs_run in H2.
  rewrite on_world_run, errs_run in H3. rewrite on_world_run in H4. cbn [fst snd] in H2, H3.
  injection H1 as _ <-. injection H2 as _ <-. injection H3 as _ <-. injection H4 as H4 _.
  cbn [ext] in H4. split; [exact H4|].
  destruct (String.eqb_spec (b_Phase b) "Completed") as [Hp|]; [exact Hp|discriminate H].
Qed.

Lemma govern_returns target ttl p (w w' : St) q : govern api target ttl p w = (Ok q, w') -> q = p.
Proof.
  unfold govern, mbind, mret. destruct (on_world _ w) as [[u|e] w1].
  - destruct (Verify.Now w1) as [now w2]. destruct (modify p _ w2) as [u' w3]. by intros [= <- _].
  - by destruct (Destroy Background p w1).
Qed.

Lemma Prepare_leased {CL : Verify.ClockLaws D} drill backup source ttl (w w' : St) p :
  timely -> Prepare api drill backup source ttl w = (Ok p, w') ->
  exists d s dl t, load p w' = Some d /\ made (ext w') !! TargetNS d = Some s /\
    s = namespace_spec (TargetNS d) (t + ttl) /\ Verify.time_of w <= t /\ guarded p dl w' /\
    t + ttl <= dl <= Verify.time_of w' + ttl.
Proof.
  intros Htm H. pose proof (before_namespace_timely (Verify.time_of w) Htm) as
    (K1 & K2 & K3 & K4 & K5 & K6). unfold Prepare in H.
  apply (world_step _ _ _ w w' p _ K1) in H as (inC & w1 & T1 & _ & H); [|lia].
  apply (world_step _ _ _ w1 w' p _ K2 T1) in H as (u & w2 & T2 & _ & H).
  apply (world_step _ _ _ w2 w' p _ K3 T2) in H as (v & w3 & T3 & _ & H).
  apply (world_step _ _ _ w3 w' p _ (K4 _) T3) in H as (b & w4 & T4 & _ & H).
  destruct (negb _); [done|]. unfold new_namespace, mbind at 1 in H.
  rewrite on_world_run in H. pose proof (K5 b (ext w4) T4) as T5. cbn in T5.
  unfold mbind at 1 in H. rewrite on_world_run in H. cbn [ext] in H.
  set (d6 := snd (rand_Read api 4 _)) in H. assert (T6 : Verify.time_of w <= Verify.time_of d6)
    by exact (K6 4%nat _ T5). clearbody d6. cbv zeta in H. unfold mbind at 1, alloc in H. cbn [heap ext] in H.
  set (q := next (heap w4)) in H. set (dr := {| SourceNS := source |}) in H.
  unfold mbind at 1, Verify.Now in H. cbn [Proc_Clock] in H. rewrite on_world_run in H. cbn [ext heap] in H.
  pose proof (Verify.Now_reads d6) as R. set (t := fst (Verify.Now d6)) in *.
  set (d7 := snd (Verify.Now d6)) in *.
  apply bind_ok in H as (x & w8 & Hc & H). rewrite on_world_run, errs_run in Hc. cbn [ext fst snd heap] in Hc.
  change (sandbox_name drill _) with (TargetNS dr) in Hc, H.
  destruct (Htm t) as (_ & _ & _ & _ & _ & _ & K8 & _).
  specialize (K8 (namespace_spec (TargetNS dr) (Add t ttl)) d7 (proj2 R)).
  destruct (CreateNamespace api (namespace_spec (TargetNS dr) (Add t ttl)) d7) as [[e|] d8] eqn:Ec;
    [done|]. injection Hc as _ <-. apply CreateNamespace_made in Ec as [_ Em].
  cbn [snd nss_Name namespace_spec] in Em, K8.
  pose proof (govern_returns _ _ _ _ _ _ H) as Hq.
  subst p. eapply govern_leased with (t := t) (d := dr) in H as (d' & dl & Hl & Hd & Hm & Hg & Hb);
    [|done|by unfold load; cbn; rewrite lookup_insert_eq|done|
    unfold Verify.time_of, Proc_ClockLaws; cbn [ext]; lia|cbn [ext]; rewrite Em; apply lookup_insert_eq].
  exists d', (namespace_spec (TargetNS dr) (Add t ttl)), dl, t. rewrite Hd. split; [done|].
  split; [done|]. split; [done|]. split; [lia|done].
Qed.

(** ** [Restore] *)

(** The round that decided with a result: it waited, read the restore object and
    found it in a terminal phase, and then looked at the clock. *)
Lemma restore_round_decides start name d v err d' :
  restore_round api start name d = (Some (Some v, err), d') ->
  exists d1 st d2 now, wait_or_done (2 * Second) d = (None, d1) /\
    GetRestore api name d1 = (Ok st, d2) /\ terminal (rt_Phase st) = true /\
    Verify.Now d2 = (now, d') /\ conclude start now st = (v, err).
Proof.
  unfold restore_round, mbind, mret. destruct (wait_or_done (2 * Second) d) as [[e|] d1]; [done|].
  destruct (GetRestore api name d1) as [[st|e] d2] eqn:E; [|done].
  destruct (terminal (rt_Phase st)) eqn:Et; [|done]. destruct (Verify.Now d2) as [now d3] eqn:En.
  destruct (conclude start now st) as [res err'] eqn:Ec. intros [= <- <- <-].
  exists d1, st, d2, now. done.
Qed.

Lemma conclude_completed start now st :
  snd (conclude start now st) = None <-> rt_Phase st = "Completed".
Proof.
  unfold conclude. destruct (String.eqb_spec (rt_Phase st) "Completed"); cbn; naive_solver.
Qed.

(** The object a restore creates, spelled out: it takes the source namespace from
    the backup and maps it to the ephemeral one. *)
Definition restore_of (d : Drill) (name : string) (s : RestoreSpec) : Prop :=
  rs_Name s = name /\ backupName s = v_Backup d /\ includedNamespaces s = [SourceNS d] /\
  namespaceMapping s = {[SourceNS d := TargetNS d]} /\ existingResourcePolicy s = "none".

(** A result is Velero's word on the object the drill created: the name is made
    from the bytes drawn for it, the object is created under it and noted in the
    drill, and the same name is read, round after round from there, until its
    phase is terminal. *)
Lemma Restore_result ttl p (w w' : St) v err :
  Restore api ttl p w = ((Some v, err), w') ->
  exists d suffix d1 start d2 s d3 d4 d5 st d6 now,
    let name := TargetNS d +:+ "-" +:+ randomHex suffix in
    load p w = Some d /\ rand_Read api 3 (ext w) = (suffix, d1) /\
    Verify.Now d1 = (start, d2) /\ restore_of d name s /\ CreateRestore api s d2 = (None, d3) /\
    undecided (restore_round api start name) d3 d4 /\
    wait_or_done (2 * Second) d4 = (None, d5) /\ GetRestore api name d5 = (Ok st, d6) /\
    Verify.Now d6 = (now, ext w') /\ load p w' = Some (set_restore_name name d) /\
    terminal (rt_Phase st) = true /\ conclude start now st = (v, err).
Proof.
  unfold Restore. unfold mbind at 1. rewrite on_world_run.
  destruct (rand_Read api 3 (ext w)) as [suffix d1] eqn:Er. cbn [fst snd].
  unfold load at 1. cbn [heap]. fold (load p w). destruct (load p w) as [d|] eqn:El; [|done].
  unfold mbind, mret, modify, load at 1. cbn [heap]. fold (load p w). rewrite El.
  set (name := TargetNS d +:+ "-" +:+ randomHex suffix).
  unfold Verify.Now at 1, store. cbn [Proc_Clock heap ext]. rewrite on_world_run. cbn [ext heap].
  destruct (Verify.Now d1) as [start d2] eqn:En. cbn [fst snd]. rewrite on_world_run. cbn [ext heap].
  destruct (CreateRestore api _ d2) as [[e|] d3] eqn:Ec; cbn [fst snd]; [done|].
  rewrite on_world_run. cbn [ext heap]. destruct (poll _ _ d3) as [[out|] dp] eqn:Ep; cbn [fst snd]; [|done].
  intros [= -> <-]. apply poll_decided in Ep as (d4 & Hu & Hr).
  apply restore_round_decides in Hr as (d5 & st & d6 & now & Hw & Hg & Ht & Hn & Hc).
  exists d, suffix, d1, start, d2, (restore_spec d name), d3, d4, d5, st, d6, now. cbv zeta.
  fold name. do 3 (split; [done|]). split; [by repeat split|]. do 5 (split; [done|]).
  split; [unfold load; cbn; apply lookup_insert_eq|done].
Qed.

(** The loop ends: when the drill's context ends at [dl], a round after that
    decides, and every round before it takes two seconds. *)
Lemma Restore_ends {CL : Verify.ClockLaws D} start name ttl dl d :
  (forall d, dl <= Verify.time_of d -> fst (Verify.ctx_Err d) <> None) ->
  (forall d, Verify.time_of d <= Verify.time_of (snd (GetRestore api name d))) ->
  0 <= ttl -> dl - Verify.time_of d <= ttl ->
  fst (poll (fuel_for ttl (2 * Second)) (restore_round api start name) d) <> None.
Proof.
  intros Hctx Hget Httl Hdl. apply (poll_total _ (2 * Second) dl);
    [|by apply fuel_for_enough|done|unfold fuel_for; lia].
  clear Hdl d. intros d. unfold restore_round, wait_or_done, mbind, mret.
  pose proof (Hctx d) as Hc. pose proof (Verify.ctx_Err_takes d) as H1.
  destruct (Verify.ctx_Err d) as [[err|] d1]; [done|]. cbn [fst snd] in *.
  pose proof (Verify.Sleep_takes (2 * Second) d1) as H2.
  destruct (Verify.Sleep (2 * Second) d1) as [u d2]. cbn [snd] in H2.
  pose proof (Verify.ctx_Err_takes d2) as H3.
  destruct (Verify.ctx_Err d2) as [[err|] d3]; [done|]. cbn [snd] in H3.
  pose proof (Hget d3) as H4. destruct (GetRestore api name d3) as [[st|e] d4]; cbn [snd] in H4.
  - destruct (terminal (rt_Phase st)).
    + destruct (Verify.Now d4). destruct (conclude _ _ _). done.
    + intros _. cbn [snd]. unfold Second in *. destruct (Z.le_gt_cases dl (Verify.time_of d)); [by destruct (Hc H)|lia].
  - intros _. cbn [snd]. unfold Second in *. destruct (Z.le_gt_cases dl (Verify.time_of d)); [by destruct (Hc H)|lia].
Qed.
End VeleroFacts.
