(* ===== verification/Gc.v ===== *)
(** Garbage collection (pkg/gc/gc.go): sweeping the sandboxes whose process
    died. *)

From Stdlib Require Import ZArith Lia Ascii String.
From stdpp Require Import base option list gmap strings.
From S2P Require Import Prelude GoStrings Calendar Rfc3339 Spec Poll Keeps Sandboxes Docker.
From S2P Require Verify Cluster.

Definition ExpiresAtLabel : string := "firedrill.expires-at".

Record Result := { Reaped : list string; gc_Skipped : list string; Errors : list string }.

Definition reap (x : string) (r : Result) : Result := {|
  Reaped := Reaped r ++ [x]; gc_Skipped := gc_Skipped r; Errors := Errors r |}.
Definition skip (x : string) (r : Result) : Result := {|
  Reaped := Reaped r; gc_Skipped := gc_Skipped r ++ [x]; Errors := Errors r |}.
Definition failed (x : string) (r : Result) : Result := {|
  Reaped := Reaped r; gc_Skipped := gc_Skipped r; Errors := Errors r ++ [x] |}.

Definition empty_result : Result := {| Reaped := []; gc_Skipped := []; Errors := [] |}.

Record Options := { OlderThan : Duration; DryRun : bool; Force : bool }.

(** [m[k]] of a string map: the zero value when absent. *)
Definition label (m : gmap string string) (k : string) : string := default EmptyString (m !! k).

Definition expired (o : Options) (expiresAt : string) (created now : Time) : bool :=
  let old := OlderThan o <? Sub now created in
  if negb (is_empty expiresAt) && negb (Force o) then
    match Parse_RFC3339 expiresAt with
    | Some t => After now t
    | None => old
    end
  else old.

Definition firstName (names : list string) : string :=
  match names with [] => "?" | n :: _ => n end.

(** ** Docker *)

Section Docker.
Context {D : Type} {CK : Verify.Clock D} (api : DockerAPI D) (o : Options).

Definition sweep_container (now : Time) (res : Result) (c : ContainerSummary) : M D Result :=
  if negb (String.eqb (label (c_Labels c) "firedrill") "sandbox") then mret res
  else
    let name := TrimPrefix (firstName (Names c)) "/" in
    if negb (expired o (label (c_Labels c) ExpiresAtLabel) (c_Created c * Prelude.Second) now)
    then mret (skip ("container " +:+ name) res)
    else if DryRun o then mret (reap ("container " +:+ name +:+ " (dry-run)") res)
    else
      let! err := ContainerRemove api Inherited (c_ID c) in
      mret match err with
           | Some e => failed ("container " +:+ name +:+ ": " +:+ Error e) res
           | None => reap ("container " +:+ name) res
           end.

Definition sweep_network (now : Time) (res : Result) (nw : NetworkSummary) : M D Result :=
  if negb (HasPrefix (n_Name nw) "firedrill-") then mret res
  else if (Sub now (n_Created nw) <=? OlderThan o) && negb (Force o)
  then mret (skip ("network " +:+ n_Name nw) res)
  else if DryRun o then mret (reap ("network " +:+ n_Name nw +:+ " (dry-run)") res)
  else
    let! err := NetworkRemove api Inherited (n_ID nw) in
    mret match err with
         | Some _ => skip ("network " +:+ n_Name nw +:+ " (in use)") res
         | None => reap ("network " +:+ n_Name nw) res
         end.

(** The result, when there is one, and the error. *)
Definition SweepDocker : M D (option Result * option error) :=
  let! e := client_New api in
  match e with
  | Some err => mret (None, Some (EWrap "connecting to docker: " err ""))
  | None =>
      let! e := Ping api in
      match e with
      | Some err =>
          mret (None, Some (EWrap "cannot reach the Docker daemon — is Docker running? (" err ")"))
      | None =>
          let! now := Verify.Now in
          let! containers := ContainerList api in
          match containers with
          | Err err => mret (None, Some (EWrap "listing containers: " err ""))
          | Ok cs =>
              let! res := mfold (sweep_container now) empty_result cs in
              let! networks := NetworkList api in
              match networks with
              | Err err => mret (Some res, Some (EWrap "listing networks: " err ""))
              | Ok ns =>
                  let! res := mfold (sweep_network now) res ns in
                  mret (Some res, None)
              end
          end
      end
  end.
End Docker.

(** ** Kubernetes *)

Section Kubernetes.
Context {D : Type} {CK : Verify.Clock D} (api : Cluster.ClusterAPI D) (o : Options).

Definition deleted (id : string) (err : option error) (res : Result) : Result :=
  match Cluster.unless (Cluster.IsNotFound api) err with
  | Some e => failed (id +:+ ": " +:+ Error e) res
  | None => reap id res
  end.

Definition sweep_pod (now : Time) (res : Result) (p : Cluster.PodMeta) : M D Result :=
  let id := "pod " +:+ Cluster.p_Namespace p +:+ "/" +:+ Cluster.p_Name p in
  if negb (expired o (label (Cluster.p_Annotations p) ExpiresAtLabel) (Cluster.p_Created p) now)
  then mret (skip id res)
  else if DryRun o then mret (reap (id +:+ " (dry-run)") res)
  else
    let! err := Cluster.DeletePod api Inherited (Cluster.p_Namespace p) (Cluster.p_Name p) in
    mret (deleted id err res).

Definition sweep_namespace (now : Time) (res : Result) (ns : Cluster.NamespaceMeta) : M D Result :=
  let id := "namespace " +:+ Cluster.ns_Name ns in
  if String.eqb (Cluster.ns_Phase ns) "Terminating" then mret (skip (id +:+ " (terminating)") res)
  else if negb (expired o (label (Cluster.ns_Annotations ns) ExpiresAtLabel)
                  (Cluster.ns_Created ns) now)
  then mret (skip id res)
  else if DryRun o then mret (reap (id +:+ " (dry-run)") res)
  else
    let! err := Cluster.DeleteNamespace api Inherited (Cluster.ns_Name ns) in
    mret (deleted id err res).

Definition sweep_restore (now : Time) (res : Result) (r : Cluster.RestoreMeta) : M D Result :=
  let id := "restore " +:+ Cluster.r_Name r in
  if (Sub now (Cluster.r_Created r) <=? OlderThan o) && negb (Force o) then mret (skip id res)
  else if DryRun o then mret (reap (id +:+ " (dry-run)") res)
  else
    let! err := Cluster.DeleteRestore api Inherited (Cluster.r_Name r) in
    mret (deleted id err res).

(** Velero's restores, when the cluster has them. *)
Definition sweep_restores (now : Time) (res : Result) : M D Result :=
  let! e := Cluster.NewDynamic api in
  match e with
  | Some _ => mret res
  | None =>
      let! rs := Cluster.ListRestores api "app.kubernetes.io/managed-by=firedrill" in
      match rs with
      | Err _ => mret res
      | Ok rs => mfold (sweep_restore now) res rs
      end
  end.

Definition SweepKubernetes : M D (option Result * option error) :=
  let! cfg := Cluster.LoadConfig api in
  match cfg with
  | Err e => mret (None, Some e)
  | Ok _ =>
      let! e := Cluster.NewForConfig api in
      match e with
      | Some err => mret (None, Some err)
      | None =>
          let! now := Verify.Now in
          let! pods := Cluster.ListPods api "firedrill/sandbox=true" in
          match pods with
          | Err err => mret (None, Some (EWrap "listing sandbox pods: " err ""))
          | Ok ps =>
              let! res := mfold (sweep_pod now) empty_result ps in
              let! nss := Cluster.ListNamespaces api "firedrill/sandbox=true" in
              match nss with
              | Err err => mret (Some res, Some (EWrap "listing namespaces: " err ""))
              | Ok ns =>
                  let! res := mfold (sweep_namespace now) res ns in
                  let! res := sweep_restores now res in
                  mret (Some res, None)
              end
          end
      end
  end.
End Kubernetes.
