(* ===== verification/GcFacts.v ===== *)
(** Garbage collection: what a sweep may remove, and that it respects the leases
    the providers write. *)

From Stdlib Require Import ZArith Lia Ascii String.
From stdpp Require Import base option list gmap strings.
From S2P Require Import Prelude GoStrings Calendar Rfc3339 Spec Interfaces Poll Keeps Sandboxes Docker DockerFacts KubernetesFacts VeleroFacts Gc.
From S2P Require Verify Cluster Kubernetes Velero.

(** ** Leases *)

(** An expiry label ends the lease at the second it names. *)
Lemma expired_label o t created now :
  four_digit_year t -> Force o = false ->
  expired o (fmt_RFC3339 t) created now = (Unix t * Prelude.Second <? now).
Proof.
  intros Hy Hf. unfold expired. rewrite Hf, (Parse_fmt _ Hy).
  replace (is_empty (fmt_RFC3339 t)) with false; [done|]. symmetry. apply String.eqb_neq.
  unfold fmt_RFC3339. intros H. apply (f_equal String.length) in H. rewrite !slen_app in H.
  simpl in H. lia.
Qed.

(** Within the lease a sandbox is live; a second after its end it is not. *)
Lemma lease_bounds t now :
  (Unix t * Prelude.Second <? now) = true -> t - Prelude.Second < now.
Proof.
  rewrite Z.ltb_lt. pose proof (time_parts t) as Ht. unfold Nanosecond_of in Ht.
  pose proof (Z.mod_pos_bound t Prelude.Second eq_refl). lia.
Qed.

Lemma lease_over t now : t < now -> (Unix t * Prelude.Second <? now) = true.
Proof.
  rewrite Z.ltb_lt. pose proof (time_parts t) as Ht. unfold Nanosecond_of in Ht.
  pose proof (Z.mod_pos_bound t Prelude.Second eq_refl). lia.
Qed.

Lemma docker_lease {W} (cfg : Config W) name pw nid port t :
  label (Labels (container_spec cfg name pw nid port t)) ExpiresAtLabel =
  fmt_RFC3339 (Add t (cfg_TTL cfg)).
Proof. reflexivity. Qed.

Lemma pod_lease {D} (api : Cluster.ClusterAPI D) {W} (cfg : Config W) ns name pw port t :
  label (Cluster.pod_Annotations (Kubernetes.pod_spec api cfg ns name pw port t)) ExpiresAtLabel =
  fmt_RFC3339 (Add t (cfg_TTL cfg)).
Proof. reflexivity. Qed.

Lemma namespace_lease name t :
  label (Cluster.nss_Annotations (Velero.namespace_spec name t)) ExpiresAtLabel = fmt_RFC3339 t.
Proof. reflexivity. Qed.

(** ** Docker *)

Section Docker.
Context {D : Type} {CK : Verify.Clock D} (api : DockerAPI D) {DL : DockerLaws api} (o : Options).

Definition reapable (now : Time) (c : ContainerSummary) : Prop :=
  DryRun o = false /\ label (c_Labels c) "firedrill" = "sandbox" /\
  expired o (label (c_Labels c) ExpiresAtLabel) (c_Created c * Prelude.Second) now = true.

Lemma sweep_container_spares id now res c :
  (c_ID c = id -> ~ reapable now c) -> keeps (fun d => id ∈ containers d) (sweep_container api o now res c).
Proof.
  intros Hn. unfold sweep_container.
  destruct (String.eqb_spec (label (c_Labels c) "firedrill") "sandbox") as [Hl|]; [|apply keeps_ret].
  cbn [negb]. cbv zeta. destruct (expired _ _ _ _) eqn:Ee; [|apply keeps_ret]. cbn [negb].
  destruct (DryRun o) eqn:Ed; [apply keeps_ret|].
  apply keeps_bind; [|intros [e|]; apply keeps_ret]. intros d Hd.
  destruct (ContainerRemove api Inherited (c_ID c) d) as [r d'] eqn:E. apply ContainerRemove_only in E as [Hc _].
  cbn [snd]. assert (c_ID c <> id) by (intros Hid; by apply (Hn Hid)). set_solver.
Qed.

Lemma sweep_network_containers id now res nw :
  keeps (fun d => id ∈ containers d) (sweep_network api o now res nw).
Proof.
  unfold sweep_network. destruct (negb (HasPrefix _ _)); [apply keeps_ret|].
  destruct (_ && _); [apply keeps_ret|]. destruct (DryRun o); [apply keeps_ret|].
  apply keeps_bind; [|intros [e|]; apply keeps_ret]. intros d Hd.
  destruct (NetworkRemove api Inherited (n_ID nw) d) eqn:E. apply NetworkRemove_only in E as [_ Hc].
  cbn [snd]. by rewrite Hc.
Qed.

Lemma containers_quiet {A} (c : M D A) id :
  (forall r, keeps (fun d => resources d = r) c) -> keeps (fun d => id ∈ containers d) c.
Proof. intros Hc d Hd. specialize (Hc _ d eq_refl). cbn in Hc. by injection Hc as -> _. Qed.

(** The state in which a sweep reads the clock. *)
Definition sweep_start (d : D) : D := snd (Ping api (snd (client_New api d))).

(** A container that a sweep removed was listed as a sandbox and had expired. *)
Lemma SweepDocker_spares d out d' id :
  SweepDocker api o d = (out, d') -> id ∈ containers d -> id ∉ containers d' ->
  exists cs c, fst (ContainerList api (snd (Verify.Now (sweep_start d)))) = Ok cs /\ In c cs /\
    c_ID c = id /\ reapable (fst (Verify.Now (sweep_start d))) c.
Proof.
  unfold SweepDocker. intros H Hin Hout.
  assert (Hq : forall {A} (c : M D A) d, (forall r, keeps (fun d => resources d = r) c) ->
    id ∈ containers d -> id ∈ containers (snd (c d))) by (intros A c d0 Hc; by apply containers_quiet).
  unfold mbind at 1 in H. pose proof (Hq _ _ d client_New_quiet Hin) as H1.
  unfold sweep_start. destruct (client_New api d) as [[e|] w1]; cbn [snd] in H1 |- *; [by injection H as _ <-|].
  unfold mbind at 1 in H. pose proof (Hq _ _ w1 Ping_quiet H1) as H2.
  destruct (Ping api w1) as [[e|] w2]; cbn [snd] in H2 |- *; [by injection H as _ <-|].
  unfold mbind at 1 in H. pose proof (Hq _ _ w2 Now_quiet H2) as H3.
  destruct (Verify.Now w2) as [now w3]. cbn [fst snd] in H3 |- *.
  unfold mbind at 1 in H. pose proof (Hq _ _ w3 ContainerList_quiet H3) as H4.
  destruct (ContainerList api w3) as [[cs|e] w4] eqn:El; cbn [snd] in H4; [|by injection H as _ <-].
  destruct (decide (Exists (fun c => c_ID c = id /\ reapable now c) cs)) as [Hex|Hno].
  { apply Exists_exists in Hex as (c & Hc & Hid & Hr). exists cs, c.
    repeat split; try done; [by apply list_elem_of_In|apply Hr..]. }
  exfalso. apply Hout. unfold mbind at 1 in H.
  assert (Hs : keeps (fun d => id ∈ containers d) (mfold (sweep_container api o now) empty_result cs)).
  { apply keeps_mfold. intros acc c Hc. apply sweep_container_spares. intros Hid Hr. apply Hno.
    apply Exists_exists. exists c. split; [by apply list_elem_of_In|done]. }
  specialize (Hs w4 H4). destruct (mfold _ empty_result cs w4) as [res w5]. cbn [snd] in Hs.
  unfold mbind at 1 in H. pose proof (Hq _ _ w5 NetworkList_quiet Hs) as H6.
  destruct (NetworkList api w5) as [[ns|e] w6]; cbn [snd] in H6; [|by injection H as _ <-].
  unfold mbind in H.
  assert (Hn : keeps (fun d => id ∈ containers d) (mfold (sweep_network api o now) res ns))
    by (apply keeps_mfold; intros; apply sweep_network_containers).
  specialize (Hn w6 H6). destruct (mfold _ res ns w6) as [res' w7]. by injection H as _ <-.
Qed.
End Docker.

(** ** Kubernetes *)

Section Kubernetes.
Context {D : Type} {CK : Verify.Clock D} (api : Cluster.ClusterAPI D) {KL : ClusterLaws api}
  {VL : VeleroLaws api} (o : Options).

Definition pod_reapable (now : Time) (p : Cluster.PodMeta) : Prop :=
  DryRun o = false /\
  expired o (label (Cluster.p_Annotations p) ExpiresAtLabel) (Cluster.p_Created p) now = true.

Definition namespace_reapable (now : Time) (n : Cluster.NamespaceMeta) : Prop :=
  DryRun o = false /\ Cluster.ns_Phase n <> "Terminating" /\
  expired o (label (Cluster.ns_Annotations n) ExpiresAtLabel) (Cluster.ns_Created n) now = true.

Lemma sweep_pod_spares now res q (P : D -> Prop) :
  (pod_reapable now q -> keeps P (Cluster.DeletePod api Inherited (Cluster.p_Namespace q) (Cluster.p_Name q))) ->
  keeps P (sweep_pod api o now res q).
Proof.
  intros Hp. unfold sweep_pod. cbv zeta. destruct (expired _ _ _ _) eqn:Ee; [|apply keeps_ret].
  cbn [negb]. destruct (DryRun o) eqn:Ed; [apply keeps_ret|].
  apply keeps_bind; [by apply Hp|intros; apply keeps_ret].
Qed.

Lemma sweep_namespace_spares now res q (P : D -> Prop) :
  (namespace_reapable now q -> keeps P (Cluster.DeleteNamespace api Inherited (Cluster.ns_Name q))) ->
  keeps P (sweep_namespace api o now res q).
Proof.
  intros Hp. unfold sweep_namespace. cbv zeta.
  destruct (String.eqb_spec (Cluster.ns_Phase q) "Terminating"); [apply keeps_ret|].
  destruct (expired _ _ _ _) eqn:Ee; [|apply keeps_ret].
  cbn [negb]. destruct (DryRun o) eqn:Ed; [apply keeps_ret|].
  apply keeps_bind; [by apply Hp|intros; apply keeps_ret].
Qed.

Lemma sweep_restores_silent now res : silent objects (sweep_restores api o now res).
Proof.
  unfold sweep_restores. intros x. apply keeps_bind; [apply quiet_velero|].
  intros [e|]; [apply keeps_ret|]. apply keeps_bind; [apply quiet_lists|].
  intros [rs|e]; [|apply keeps_ret]. apply keeps_mfold. intros acc r _. unfold sweep_restore.
  cbv zeta. destruct (_ && _); [apply keeps_ret|]. destruct (DryRun o); [apply keeps_ret|].
  apply keeps_bind; [apply quiet_velero|intros; apply keeps_ret].
Qed.

(** The state in which a sweep reads the clock. *)
Definition cluster_sweep_start (d : D) : D :=
  snd (Cluster.NewForConfig api (snd (Cluster.LoadConfig api d))).

(** The state in which it lists the namespaces. *)
Definition pods_swept (d : D) : D :=
  let '(now, d1) := Verify.Now (cluster_sweep_start d) in
  match Cluster.ListPods api "firedrill/sandbox=true" d1 with
  | (Ok ps, d2) => snd (mfold (sweep_pod api o now) empty_result ps d2)
  | (Err _, d2) => d2
  end.

(** What the sweep's deletions keep, for every pod and namespace it may delete,
    the sweep keeps: whatever it loses was listed and had expired. *)
Lemma SweepKubernetes_keeps (P : D -> Prop) d :
  let now := fst (Verify.Now (cluster_sweep_start d)) in
  (forall d d', objects d' = objects d -> P d -> P d') ->
  (forall ps q, fst (Cluster.ListPods api "firedrill/sandbox=true"
                       (snd (Verify.Now (cluster_sweep_start d)))) = Ok ps -> In q ps ->
     pod_reapable now q ->
     keeps P (Cluster.DeletePod api Inherited (Cluster.p_Namespace q) (Cluster.p_Name q))) ->
  (forall ns q, fst (Cluster.ListNamespaces api "firedrill/sandbox=true" (pods_swept d)) = Ok ns ->
     In q ns -> namespace_reapable now q ->
     keeps P (Cluster.DeleteNamespace api Inherited (Cluster.ns_Name q))) ->
  P d -> P (snd (SweepKubernetes api o d)).
Proof.
  intros now HP Hpods Hns Hd. unfold SweepKubernetes.
  assert (Hq : forall {A} (c : M D A), silent objects c -> keeps P c)
    by (intros A c Hc; by apply (quiet_on api P)).
  subst now. unfold pods_swept, cluster_sweep_start in *. unfold mbind at 1.
  pose proof (LoadConfig_keeps api P HP d Hd) as H0.
  destruct (Cluster.LoadConfig api d) as [[b|e] d0]; cbn [snd] in *; [|done].
  unfold mbind at 1. pose proof (Hq _ (Cluster.NewForConfig api) ltac:(apply quiet_api) d0 H0) as Hc.
  destruct (Cluster.NewForConfig api d0) as [[e|] dc]; cbn [snd] in *; [done|].
  unfold mbind at 1. pose proof (Hq _ Verify.Now ltac:(apply quiet_api) dc Hc) as H1.
  destruct (Verify.Now dc) as [now d1]. cbn [fst snd] in *.
  unfold mbind at 1.
  pose proof (Hq _ (Cluster.ListPods api "firedrill/sandbox=true") ltac:(apply quiet_lists) d1 H1) as H2.
  destruct (Cluster.ListPods api _ d1) as [[ps|e] d2] eqn:Ep; cbn [snd] in H2; [|done].
  assert (Hsp : keeps P (mfold (sweep_pod api o now) empty_result ps)).
  { apply keeps_mfold. intros acc q Hin. apply sweep_pod_spares.
    by apply (Hpods ps). }
  unfold mbind at 1. specialize (Hsp d2 H2). destruct (mfold _ empty_result ps d2) as [res d3].
  cbn [snd] in Hsp, Hns. unfold mbind at 1.
  pose proof (Hq _ (Cluster.ListNamespaces api "firedrill/sandbox=true") ltac:(apply quiet_lists) d3 Hsp) as H4.
  destruct (Cluster.ListNamespaces api _ d3) as [[ns|e] d4] eqn:Es; cbn [snd] in H4; [|done].
  assert (Hsn : keeps P (mfold (sweep_namespace api o now) res ns)).
  { apply keeps_mfold. intros acc q Hin. apply sweep_namespace_spares.
    by apply (Hns ns). }
  unfold mbind at 1. specialize (Hsn d4 H4). destruct (mfold _ res ns d4) as [res' d5].
  cbn [snd] in Hsn. unfold mbind, mret.
  pose proof (Hq _ _ (sweep_restores_silent now res') d5 Hsn) as H6.
  by destruct (sweep_restores api o now res' d5).
Qed.

(** A pod survives a sweep unless it was listed as a sandbox and had expired, or
    its namespace was and had. *)
Lemma SweepKubernetes_spares d ns n :
  let now := fst (Verify.Now (cluster_sweep_start d)) in
  (forall ps q, fst (Cluster.ListPods api "firedrill/sandbox=true"
                       (snd (Verify.Now (cluster_sweep_start d)))) = Ok ps -> In q ps ->
     pod_reapable now q -> (Cluster.p_Namespace q, Cluster.p_Name q) <> (ns, n)) ->
  (forall nss q, fst (Cluster.ListNamespaces api "firedrill/sandbox=true" (pods_swept d)) = Ok nss ->
     In q nss -> namespace_reapable now q -> Cluster.ns_Name q <> ns) ->
  (ns, n) ∈ pods d -> (ns, n) ∈ pods (snd (SweepKubernetes api o d)).
Proof.
  intros now Hp Hn Hin. apply (SweepKubernetes_keeps (fun d => (ns, n) ∈ pods d)); [| | |done].
  - by intros d0 d' [= -> _ _].
  - intros ps q Hps Hq Hr d0 Hd. destruct (Cluster.DeletePod api _ _ _ d0) as [r d'] eqn:E.
    apply DeletePod_spec in E. destruct E as (_ & _ & E). cbn [snd].
    pose proof (Hp ps q Hps Hq Hr) as Hne. destruct r; [by destruct E as [-> _]|set_solver].
  - intros nss q Hps Hq Hr d0 Hd. apply DeleteNamespace_pods; [done|].
    apply not_eq_sym. exact (Hn nss q Hps Hq Hr).
Qed.
End Kubernetes.
