(* ===== verification/Restoring.v ===== *)
(** What the engine drivers share: the tail of a tool's output kept for
    diagnostics, and the timed restore command. Each driver package has its own
    copy of [tail]. *)

From Stdlib Require Import ZArith Lia Ascii String.
From stdpp Require Import base option list gmap strings.
From S2P Require Import Prelude GoStrings Spec Interfaces.
From S2P Require Verify Source.

Definition tail (s : string) (n : Z) : string :=
  if len s <=? n then s
  else "…" +:+ drop_bytes (Z.to_nat (len s - n)) s.

(** What a driver needs of the operating system: opening the fetched backup. *)
Class Files (W : Type) : Type := {
  os_Open : string -> M W (result Source.Reader);
  f_Seek : M W (option error)     (* back to the start of the open file *)
}.

Section Restoring.
Context {W : Type} {CK : Verify.Clock W}.

(** The restore command with the backup on its standard input, timed. *)
Definition timed_restore (sb : SandboxI W) (cmd : list string) (f : Source.Reader)
  (format : string) : M W RestoreOut :=
  let! start := Verify.Now in
  let! r := Exec sb cmd (Some f) in
  let! now := Verify.Now in
  let '(code, out, err) := r in
  mret match err with
       | Some e => RestoreFailed None (EWrap "restore exec: " e "")
       | None =>
           let res := {| res_Duration := Sub now start; res_Output := tail out 4000;
                         res_Format := format; DSN := EmptyString |} in
           if negb (code =? 0) then
             RestoreFailed (Some res)
               (ENew ("restore failed (exit " +:+ itoa code +:+ "): " +:+ res_Output res))
           else Restored res
       end.

(** The same sandbox with another password. *)
Definition with_password (pw : string) (sb : SandboxI W) : SandboxI W := {|
  Exec := Exec sb; Host := Host sb; HostPort := HostPort sb; User := User sb;
  Password := pw; DB := DB sb; Destroy := Destroy sb; WasDestroyed := WasDestroyed sb |}.

(** A restore is reported done exactly when its command ran and exited 0. *)
Lemma timed_restore_ok sb cmd f format w r w' :
  timed_restore sb cmd f format w = (Restored r, w') ->
  exists w1 out, fst (Exec sb cmd (Some f) w1) = (0, out, None) /\
    res_Format r = format /\ res_Output r = tail out 4000 /\ DSN r = "".
Proof.
  unfold timed_restore, mbind, mret. destruct (Verify.Now w) as [start w1].
  destruct (Exec sb cmd (Some f) w1) as [[[code out] err] w2] eqn:E.
  destruct (Verify.Now w2) as [now w3]. destruct err as [e|]; [done|].
  destruct (Z.eqb_spec code 0) as [->|]; cbn [negb]; [|done]. intros [= <- _].
  exists w1, out. by rewrite E.
Qed.
End Restoring.

(** The kept tail is the end of the output and at most [n] bytes of it. *)
Lemma tail_short s n : len s <= n -> tail s n = s.
Proof. intros H. unfold tail. by rewrite (proj2 (Z.leb_le _ _) H). Qed.

Lemma drop_bytes_app a b : drop_bytes (String.length a) (a +:+ b) = b.
Proof. induction a as [|c a IH]; [by destruct b|exact IH]. Qed.

Lemma tail_long a b n : len b = n -> 0 < len a -> tail (a +:+ b) n = "…" +:+ b.
Proof.
  unfold tail, len. rewrite slen_app. intros <- Ha. rewrite Nat2Z.inj_add.
  rewrite (proj2 (Z.leb_gt _ _)) by lia. f_equal.
  replace (Z.to_nat _) with (String.length a) by lia. apply drop_bytes_app.
Qed.
