(* ===== verification/Postgres.v ===== *)
(** The Postgres driver (pkg/drivers/postgres/postgres.go). *)

From Stdlib Require Import ZArith Lia Ascii String.
From stdpp Require Import base option list gmap strings.
From S2P Require Import Prelude GoStrings Spec Interfaces Poll Restoring.
From S2P Require Verify Source.

Definition pgdata : string := "/var/lib/postgresql/data".

Definition transientStartup : list string :=
  [ "the database system is not yet accepting connections";
    "the database system is starting up";
    "the database system is in recovery mode";
    "the database system is shutting down";
    "consistent recovery state has not been yet reached" ].

(** A trimmed log line that makes [fatalStartupLine] return. *)
Definition fatal (line : string) : bool :=
  negb (is_empty line || (negb (Contains line "FATAL") && negb (Contains line "PANIC"))) &&
  negb (existsb (fun t => Contains line t) transientStartup).

Definition fatalStartupLine (log : string) : string :=
  match List.find fatal (List.map TrimSpace (Split log newline)) with
  | Some line => line
  | None => EmptyString
  end.

Definition ContainerEnv (user password db : string) : list string :=
  [ "POSTGRES_DB=" +:+ db; "POSTGRES_USER=" +:+ user; "POSTGRES_PASSWORD=" +:+ password ].

Definition ReadyCmds (user _password db : string) : list (list string) :=
  [ ["pg_isready"; "-U"; user; "-d"; db];
    ["psql"; "-U"; user; "-d"; db; "-c"; "select 1"] ].

Definition ChecksumQuery (table column : string) : string :=
  "select coalesce(md5(string_agg(" +:+ column +:+ "::text, ',' order by " +:+ column +:+
  ")), 'empty') from " +:+ table.

Section Postgres.
Context {W : Type} {CK : Verify.Clock W} {FS : Files W}.

Definition PgDSN (sb : SandboxI W) : string :=
  "postgres://" +:+ User sb +:+ ":" +:+ Password sb +:+ "@" +:+ Host sb +:+ ":" +:+ HostPort sb +:+
  "/" +:+ DB sb +:+ "?sslmode=disable".

(** The read of the five magic bytes; the file is regular, so the read is short
    only at its end. *)
Definition detectFormat (f : Source.Reader) : M W (result string) :=
  let magic := Source.Peek f 5 in
  match is_empty magic, Source.rerr f with
  | true, Some e => mret (Err (EWrap "reading backup header: " e ""))
  | _, _ =>
      let! e := f_Seek in
      mret match e with
           | Some err => Err err
           | None => if String.eqb magic "PGDMP" then Ok "custom" else Ok "plain"
           end
  end.

(** ** Physical restores *)

(** The [fail] closure. *)
Definition fail (start : Time) (step : string) (code : Z) (out : string) (err : option error)
  : M W RestoreOut :=
  let! now := Verify.Now in
  let res := {| res_Duration := Sub now start; res_Output := tail out 4000;
                res_Format := "basebackup"; DSN := EmptyString |} in
  mret match err with
       | Some e => RestoreFailed None (EWrap (step +:+ ": ") e "")
       | None => RestoreFailed (Some res)
                   (ENew (step +:+ " failed (exit " +:+ itoa code +:+ "): " +:+ res_Output res))
       end.

(** One command of the preparation, and what follows when it exits 0. *)
Definition step (sb : SandboxI W) (start : Time) (what script : string)
  (stdin : option Source.Reader) (next : M W RestoreOut) : M W RestoreOut :=
  let! r := Exec sb ["sh"; "-c"; script] stdin in
  let '(code, out, err) := r in
  if isSome err || negb (code =? 0) then fail start what code out err else next.

Definition untar_script : string :=
  "mkdir -p " +:+ pgdata +:+ " && tar -xf - -C " +:+ pgdata.
Definition hba_script : string :=
  "chown -R postgres:postgres " +:+ pgdata +:+ " && chmod 700 " +:+ pgdata +:+
  " && printf 'local all all trust\nhost all all all trust\n' > " +:+ pgdata +:+ "/pg_hba.conf".
Definition start_script : string :=
  "nohup docker-entrypoint.sh postgres >/tmp/firedrill-pg.log 2>&1 & echo started".
Definition log_script : string := "tail -c 2000 /tmp/firedrill-pg.log".
Definition grep_script : string :=
  "grep -E 'FATAL|PANIC' /tmp/firedrill-pg.log 2>/dev/null || true".
Definition ping (db : string) : list string :=
  ["psql"; "-U"; "postgres"; "-d"; db; "-c"; "select 1"].

(** One round of the wait: [Some None] is the loop's [break]. *)
Definition cluster_round (sb : SandboxI W) (start deadline : Time) (db : string)
  : M W (option (option RestoreOut)) :=
  let! now := Verify.Now in
  if After now deadline then
    let! r := Exec sb ["sh"; "-c"; log_script] None in
    let '(_, logOut, _) := r in
    let! out := fail start "waiting for restored cluster" (-1) logOut
                  (Some (ENew "not ready after 3m")) in
    mret (Some (Some out))
  else
    let! e := Verify.ctx_Err in
    match e with
    | Some err => mret (Some (Some (RestoreFailed None err)))
    | None =>
        let! r := Exec sb (ping db) None in
        let '(code, _, err) := r in
        if negb (isSome err) && (code =? 0) then mret (Some None)
        else
          let! r := Exec sb ["sh"; "-c"; grep_script] None in
          let '(code2, logOut, err2) := r in
          let bad := fatalStartupLine logOut in
          if negb (isSome err2) && (code2 =? 0) && negb (is_empty bad) then
            let! out := fail start "restored cluster startup" (-1) bad None in
            mret (Some (Some out))
          else
            let! _ := Verify.Sleep Second in mret None
    end.

Definition cluster_fuel : nat := fuel_for (3 * Minute) Second.

Definition trust_dsn (sb : SandboxI W) (db : string) : string :=
  "postgres://postgres@" +:+ Host sb +:+ ":" +:+ HostPort sb +:+ "/" +:+ db +:+ "?sslmode=disable".

Definition wait_cluster (sb : SandboxI W) (start : Time) (db : string) : M W RestoreOut :=
  let! now := Verify.Now in
  let! r := poll cluster_fuel (cluster_round sb start (Add now (3 * Minute)) db) in
  match r with
  | Some (Some out) => mret out
  | Some None =>
      let! now := Verify.Now in
      mret (Restored {| res_Duration := Sub now start; res_Output := EmptyString;
                        res_Format := "basebackup"; DSN := trust_dsn sb db |})
  | None => mret (RestoreFailed None (ENew "out of fuel"))
  end.

Definition restoreBasebackup (sb : SandboxI W) (path : string) (src : Source) : M W RestoreOut :=
  let! f := os_Open path in
  match f with
  | Err e => mret (RestoreFailed None (EWrap "opening backup: " e ""))
  | Ok f =>
      let! start := Verify.Now in
      step sb start "untar basebackup" untar_script (Some f)
        (step sb start "preparing data directory" hba_script None
          (step sb start "starting postgres" start_script None
            (wait_cluster sb start (if is_empty (Database src) then "postgres" else Database src))))
  end.

(** ** [Restore] *)

Definition restore_cmd (sb : SandboxI W) (format : string) : list string :=
  if String.eqb format "custom" then
    ["pg_restore"; "-U"; User sb; "-d"; DB sb; "--no-owner"; "--no-privileges"; "--exit-on-error"]
  else ["psql"; "-U"; User sb; "-d"; DB sb; "-v"; "ON_ERROR_STOP=1"; "-f"; "-"].

Definition PgRestore (sb : SandboxI W) (path : string) (src : Source) : M W RestoreOut :=
  if String.eqb (Format src) "basebackup" then restoreBasebackup sb path src
  else
    let! f := os_Open path in
    match f with
    | Err e => mret (RestoreFailed None (EWrap "opening backup: " e ""))
    | Ok f =>
        let! format := detectFormat f in
        match format with
        | Err e => mret (RestoreFailed None e)
        | Ok format => timed_restore sb (restore_cmd sb format) f format
        end
    end.

Definition PostgresDriver : Driver W := {|
  drv_Name := "postgres";
  Interfaces.ContainerEnv := ContainerEnv;
  Port := "5432/tcp";
  Interfaces.ReadyCmds := ReadyCmds;
  Restore := PgRestore;
  verification := SQLCapable "pgx" PgDSN ChecksumQuery |}.
End Postgres.
