(* ===== verification/PostgresFacts.v ===== *)
(** Facts about the Postgres driver: which log lines condemn a cluster, when a
    physical restore counts as done, and that its wait ends. *)

From Stdlib Require Import ZArith Lia Ascii String.
From stdpp Require Import base option list gmap strings.
From S2P Require Import Prelude GoStrings Spec Interfaces Poll Restoring Postgres.
From S2P Require Verify Source.

Lemma find_first {A} (f : A -> bool) l x :
  List.find f l = Some x <->
  exists pre post, l = pre ++ x :: post /\ f x = true /\ forall y, In y pre -> f y = false.
Proof.
  induction l as [|a l IH]; cbn [List.find].
  - split; [done|]. by intros (pre & post & H & _); destruct pre.
  - destruct (f a) eqn:E.
    + split.
      * intros [= ->]. by exists [], l.
      * intros (pre & post & H & Hx & Hpre). destruct pre as [|b pre]; [by injection H as ->|].
        injection H as -> _. rewrite (Hpre b) in E by (by left). done.
    + rewrite IH. split.
      * intros (pre & post & -> & Hx & Hpre). exists (a :: pre), post. split; [done|].
        split; [done|]. intros y [<-|Hy]; auto.
      * intros (pre & post & H & Hx & Hpre). destruct pre as [|b pre].
        -- injection H as <- _. congruence.
        -- injection H as <- ->. exists pre, post. split; [done|]. split; [done|].
           intros y Hy. apply Hpre. by right.
Qed.

Lemma fatal_spec x : fatal x = true <->
  (Contains x "FATAL" = true \/ Contains x "PANIC" = true) /\
  (forall t, In t transientStartup -> Contains x t = false).
Proof.
  unfold fatal. rewrite andb_true_iff, !negb_true_iff. split.
  - intros [H1 H2]. split.
    + destruct (Contains x "FATAL"), (Contains x "PANIC"); auto. by rewrite orb_true_r in H1.
    + intros t Ht. apply not_true_iff_false. intros Hc. apply not_true_iff_false in H2.
      apply H2, existsb_exists. eauto.
  - intros [H Hn]. split.
    + apply orb_false_iff. split; [destruct x; [by destruct H|done]|].
      destruct H as [->| ->]; [done|apply andb_false_r].
    + apply not_true_iff_false. intros (t & Ht & Hc)%existsb_exists. by rewrite (Hn t Ht) in Hc.
Qed.

Lemma fatal_nonempty l : fatal l = true -> l <> EmptyString.
Proof. by intros H ->. Qed.

Section Facts.
Context {W : Type} {CK : Verify.Clock W} {FS : Files W}.
Implicit Types sb : SandboxI W.

Lemma fail_fails start what code out err w r w' :
  fail start what code out err w = (Restored r, w') -> False.
Proof.
  unfold fail, mbind, mret. destruct (Verify.Now w) as [now w1]. by destruct err.
Qed.

(** A step that did not end the restore exited 0. *)
Lemma step_ok sb start what script stdin next w r w' :
  step sb start what script stdin next w = (Restored r, w') ->
  exists out w1, Exec sb ["sh"; "-c"; script] stdin w = ((0, out, None), w1) /\
    next w1 = (Restored r, w').
Proof.
  unfold step, mbind. destruct (Exec sb _ stdin w) as [[[code out] [e|]] w1]; cbn [isSome orb].
  - by intros H%fail_fails.
  - destruct (Z.eqb_spec code 0) as [->|]; cbn [negb]; [eauto|by intros H%fail_fails].
Qed.

(** A round that ends the wait with success saw the cluster answer a query. *)
Lemma cluster_round_ready sb start deadline db w w' :
  cluster_round sb start deadline db w = (Some None, w') ->
  exists out w1, Exec sb (ping db) None w1 = ((0, out, None), w').
Proof.
  unfold cluster_round, mbind, mret. destruct (Verify.Now w) as [now w1].
  destruct (After now deadline).
  - destruct (Exec sb _ None w1) as [[[? ?] ?] w2]. by destruct (fail _ _ _ _ _ w2).
  - destruct (Verify.ctx_Err w1) as [[e|] w2]; [done|].
    destruct (Exec sb (ping db) None w2) as [[[code out] [e|]] w3] eqn:E; cbn [isSome negb andb].
    2: destruct (Z.eqb_spec code 0) as [->|]; [intros [= <-]; eauto|].
    all: destruct (Exec sb _ None w3) as [[[? ?] ?] w4];
      (destruct (negb _ && _ && negb _); [by destruct (fail _ _ _ _ _ w4)|]);
      by destruct (Verify.Sleep _ w4).
Qed.

(** No round reports success of its own: success is the [break]. *)
Lemma cluster_round_failed sb start deadline db w r w' :
  cluster_round sb start deadline db w = (Some (Some (Restored r)), w') -> False.
Proof.
  unfold cluster_round, mbind, mret. destruct (Verify.Now w) as [now w1].
  destruct (After now deadline).
  - destruct (Exec sb _ None w1) as [[[c0 o0] e0] w2].
    destruct (fail _ _ _ _ _ w2) as [out w3] eqn:F. intros [= -> ->]. by apply fail_fails in F.
  - destruct (Verify.ctx_Err w1) as [[e|] w2]; [done|].
    destruct (Exec sb (ping db) None w2) as [[[code out] err] w3].
    destruct (negb _ && _); [done|]. destruct (Exec sb _ None w3) as [[[c0 o0] e0] w4].
    destruct (negb _ && _ && negb _); [|by destruct (Verify.Sleep _ w4)].
    destruct (fail _ _ _ _ _ w4) as [o5 w5] eqn:F. intros [= -> ->]. by apply fail_fails in F.
Qed.

Lemma wait_cluster_ready sb start db w r w' :
  wait_cluster sb start db w = (Restored r, w') ->
  (exists out w1 w2, Exec sb (ping db) None w1 = ((0, out, None), w2)) /\
  res_Format r = "basebackup" /\ DSN r = trust_dsn sb db.
Proof.
  unfold wait_cluster, mbind, mret. destruct (Verify.Now w) as [now w1].
  destruct (poll _ _ w1) as [[[o|]|] w2] eqn:P; [| |done].
  - intros [= -> _]. apply poll_decided in P as (w3 & _ & P). by apply cluster_round_failed in P.
  - apply poll_decided in P as (w3 & _ & (out & w4 & E)%cluster_round_ready).
    destruct (Verify.Now w2) as [now2 w5]. intros [= <- _]. eauto 10.
Qed.

(** A physical restore is done only when its three steps exited 0, in order, and
    the cluster then answered. *)
Lemma restoreBasebackup_ok sb path src w r w' :
  restoreBasebackup sb path src w = (Restored r, w') ->
  let db := if is_empty (Database src) then "postgres" else Database src in
  exists f start w1 w2 w3 w4 w5 w6 w7 o1 o2 o3 o4,
    os_Open path w = (Ok f, w1) /\ Verify.Now w1 = (start, w2) /\
    Exec sb ["sh"; "-c"; untar_script] (Some f) w2 = ((0, o1, None), w3) /\
    Exec sb ["sh"; "-c"; hba_script] None w3 = ((0, o2, None), w4) /\
    Exec sb ["sh"; "-c"; start_script] None w4 = ((0, o3, None), w5) /\
    Exec sb (ping db) None w6 = ((0, o4, None), w7) /\
    res_Format r = "basebackup" /\ DSN r = trust_dsn sb db.
Proof.
  intros H db. unfold restoreBasebackup, mbind in H. destruct (os_Open path w) as [[f|e] w1] eqn:EO; [|done].
  destruct (Verify.Now w1) as [start w2] eqn:EN.
  apply step_ok in H as (o1 & w3 & E1 & H). apply step_ok in H as (o2 & w4 & E2 & H).
  apply step_ok in H as (o3 & w5 & E3 & H).
  apply wait_cluster_ready in H as ((o4 & w6 & w7 & E4) & Hf & Hd).
  exists f, start, w1, w2, w3, w4, w5, w6, w7, o1, o2, o3, o4. by rewrite EN.
Qed.

Context {CL : Verify.ClockLaws W}.

(** The sandbox's commands take time, never give it back. *)
Definition forward (sb : SandboxI W) : Prop :=
  forall cmd stdin w, Verify.time_of w <= Verify.time_of (snd (Exec sb cmd stdin w)).

Lemma cluster_round_takes sb start deadline db w :
  forward sb -> fst (cluster_round sb start deadline db w) = None ->
  Verify.time_of w <= deadline /\
  Verify.time_of w + Second <= Verify.time_of (snd (cluster_round sb start deadline db w)).
Proof.
  intros Hf. unfold cluster_round, mbind, mret.
  pose proof (Verify.Now_reads w) as HN. destruct (Verify.Now w) as [now w1]. cbn [fst snd] in HN.
  unfold After. destruct (Z.ltb_spec deadline now).
  { destruct (Exec sb _ None w1) as [[[? ?] ?] w2]. by destruct (fail _ _ _ _ _ w2). }
  pose proof (Verify.ctx_Err_takes w1) as HC.
  destruct (Verify.ctx_Err w1) as [[e|] w2]; [done|]. cbn [snd] in HC.
  pose proof (Hf (ping db) None w2) as HE.
  destruct (Exec sb (ping db) None w2) as [[[code out] err] w3]. cbn [snd] in HE.
  destruct (negb _ && _); [done|].
  pose proof (Hf ["sh"; "-c"; grep_script] None w3) as HG.
  destruct (Exec sb _ None w3) as [[[? ?] ?] w4]. cbn [snd] in HG.
  destruct (negb _ && _ && negb _); [by destruct (fail _ _ _ _ _ w4)|].
  pose proof (Verify.Sleep_takes Second w4) as HS.
  destruct (Verify.Sleep Second w4) as [? w5]. cbn [fst snd] in *. unfold Second in *. lia.
Qed.

(** The wait for the restored cluster ends within its fuel. *)
Lemma wait_cluster_ends sb start db w :
  forward sb ->
  let w1 := snd (Verify.Now w) in
  let round := cluster_round sb start (Add (fst (Verify.Now w)) (3 * Minute)) db in
  fst (poll cluster_fuel round w1) <> None.
Proof.
  intros Hf w1 round. apply (poll_total round Second (Add (fst (Verify.Now w)) (3 * Minute))).
  - intros w2. apply cluster_round_takes, Hf.
  - apply fuel_for_enough; [done|done|]. subst w1. pose proof (Verify.Now_reads w).
    unfold Add. lia.
  - done.
  - unfold cluster_fuel, fuel_for. lia.
Qed.
End Facts.
