(* ===== verification/Mysql.v ===== *)
(** The MySQL driver (pkg/drivers/mysql/mysql.go). *)

From Stdlib Require Import ZArith Ascii String.
From stdpp Require Import base option list gmap strings.
From S2P Require Import Prelude GoStrings Spec Interfaces Restoring.
From S2P Require Verify Source.

Definition ContainerEnv (user password db : string) : list string :=
  [ "MYSQL_DATABASE=" +:+ db; "MYSQL_USER=" +:+ user; "MYSQL_PASSWORD=" +:+ password;
    "MYSQL_RANDOM_ROOT_PASSWORD=yes" ].

(** The password comes from the container's environment. *)
Definition shellWithPwd (cmd : string) : list string :=
  [ "sh"; "-c";
    "export MYSQL_PWD=" +:+ String dquote "$MYSQL_PASSWORD" +:+ String dquote "; exec " +:+ cmd ].

Definition ReadyCmds (user _password db : string) : list (list string) :=
  [ shellWithPwd ("mysqladmin ping --silent -u" +:+ user);
    shellWithPwd ("mysql -u" +:+ user +:+ " " +:+ db +:+ " -e 'select 1'") ].

Definition ChecksumQuery (table column : string) : string :=
  "select coalesce(conv(bit_xor(crc32(" +:+ column +:+ ")), 10, 16), 'empty') from " +:+ table.

Section Mysql.
Context {W : Type} {CK : Verify.Clock W} {FS : Files W}.

Definition MyDSN (sb : SandboxI W) : string :=
  User sb +:+ ":" +:+ Password sb +:+ "@tcp(" +:+ Host sb +:+ ":" +:+ HostPort sb +:+ ")/" +:+ DB sb.

Definition MyRestore (sb : SandboxI W) (path : string) (_ : Source) : M W RestoreOut :=
  let! f := os_Open path in
  match f with
  | Err e => mret (RestoreFailed None (EWrap "opening backup: " e ""))
  | Ok f => timed_restore sb (shellWithPwd ("mysql -u" +:+ User sb +:+ " " +:+ DB sb)) f "plain"
  end.

Definition MysqlDriver : Driver W := {|
  drv_Name := "mysql";
  Interfaces.ContainerEnv := ContainerEnv;
  Port := "3306/tcp";
  Interfaces.ReadyCmds := ReadyCmds;
  Restore := MyRestore;
  verification := SQLCapable "mysql" MyDSN ChecksumQuery |}.
End Mysql.
