(* ===== verification/Mongodb.v ===== *)
(** The MongoDB driver (pkg/drivers/mongodb/mongodb.go, engine.go). *)

From Stdlib Require Import ZArith Ascii String.
From stdpp Require Import base option list gmap strings.
From S2P Require Import Prelude GoStrings Spec Interfaces Restoring.
From S2P Require Verify Source.

(** A Go raw string holds double quotes; they are written [~] here. *)
Definition dq (s : string) : string :=
  map_bytes (fun c => if Ascii.eqb c "~" then dquote else c) s.

Definition ContainerEnv (user password db : string) : list string :=
  [ "MONGO_INITDB_ROOT_USERNAME=" +:+ user; "MONGO_INITDB_ROOT_PASSWORD=" +:+ password;
    "MONGO_INITDB_DATABASE=" +:+ db ].

Definition authJS : string := Eval vm_compute in
  dq "db.getSiblingDB(~admin~).auth(process.env.MONGO_INITDB_ROOT_USERNAME, process.env.MONGO_INITDB_ROOT_PASSWORD);".

Definition ReadyCmds (_user _password _db : string) : list (list string) :=
  [ ["mongosh"; "--quiet"; "--eval"; authJS +:+ "db.adminCommand({ping: 1});"] ].

Definition toolsConfigPath : string := "/tmp/.firedrill-mongo.conf".

Definition writePasswordConfig : list string :=
  [ "sh"; "-c";
    dq "umask 077 && printf 'password: %s\n' ~$MONGO_INITDB_ROOT_PASSWORD~ > " +:+ toolsConfigPath ].

(** * Quoting *)

Definition cr : ascii := "013"%char.

Definition js_byte (c : ascii) : string :=
  if Ascii.eqb c backslash then String backslash (String backslash EmptyString)
  else if Ascii.eqb c dquote then String backslash (String dquote EmptyString)
  else if Ascii.eqb c newline then String backslash "n"
  else if Ascii.eqb c cr then String backslash "r"
  else String c EmptyString.

Definition quoteJS (s : string) : string :=
  String dquote (flat_map_bytes js_byte s) +:+ String dquote EmptyString.

Definition sh_byte (c : ascii) : string :=
  if Ascii.eqb c squote then "'\''" else String c EmptyString.

Definition shellQuote (s : string) : string := "'" +:+ flat_map_bytes sh_byte s +:+ "'".

(** The last line of what the shell printed. *)
Definition lastLine (s : string) : string :=
  TrimSpace (List.last (Split (TrimSpace s) newline) EmptyString).

(** * The verification engine *)

(** [db] is bound to the database under test before the script runs. *)
Definition eval_js (db script : string) : string :=
  authJS +:+ "db = db.getSiblingDB(" +:+ quoteJS db +:+ ");" +:+ script.

Definition rows_script (query : string) : string :=
  nl +:+ "const _r = (" +:+ query +:+ ");" +:+ nl +:+
  "if (_r === null || _r === undefined) { print(0); }" +:+ nl +:+
  "else if (Array.isArray(_r)) { print(_r.length); }" +:+ nl +:+
  dq "else if (typeof _r.itcount === ~function~) { print(_r.itcount()); }" +:+ nl +:+
  dq "else if (typeof _r.toArray === ~function~) { print(_r.toArray().length); }" +:+ nl +:+
  dq "else if (typeof _r === ~number~) { print(_r); }" +:+ nl +:+
  "else { print(1); }".

Definition checksum_js (db collection field : string) : string :=
  eval_js db ("db.getCollection(" +:+ quoteJS collection +:+ ").find({}, {_id: 0, " +:+
    quoteJS field +:+ ": 1})" +:+ ".sort({" +:+ quoteJS field +:+ ": 1})" +:+
    ".forEach(d => print(String(d[" +:+ quoteJS field +:+ "])));").

Definition checksum_script : string :=
  dq "out=$(mongosh --quiet --eval ~$FIREDRILL_JS~) || { echo ~$out~; exit 1; }" +:+ nl +:+
  dq "if [ -z ~$out~ ]; then echo empty; else printf '%s' ~$out~ | md5sum | cut -d' ' -f1; fi".

Definition checksum_cmd (db collection field : string) : string :=
  "FIREDRILL_JS=" +:+ shellQuote (checksum_js db collection field) +:+ "; " +:+ checksum_script.

Section Mongodb.
Context {W : Type} {CK : Verify.Clock W} {FS : Files W}.

Record engine := { sb : SandboxI W; db : string }.

(** The shell's output, trimmed, and an error when it exits non-zero. *)
Definition run_shell (s : SandboxI W) (cmd : list string) (what : Z -> string)
  : M W (result string) :=
  let! r := Exec s cmd None in
  let '(code, out, err) := r in
  mret match err with
       | Some e => Err e
       | None =>
           let out := TrimSpace out in
           if negb (code =? 0) then Err (ENew (what code +:+ tail out 500)) else Ok out
       end.

Definition eval (e : engine) (script : string) : M W (result string) :=
  run_shell (sb e) ["mongosh"; "--quiet"; "--eval"; eval_js (db e) script]
    (fun code => "mongosh exited " +:+ itoa code +:+ ": ").

(** [strconv.ParseInt] and [strconv.Atoi] agree on a 64-bit platform. *)
Definition number (what query out : string) : result Z :=
  match ParseInt (lastLine out) with
  | (n, None) => Ok n
  | (_, Some _) =>
      Err (ENew ("expected a " +:+ what +:+ " from " +:+ quote query +:+ ", got " +:+ quote (tail out 200)))
  end.

Definition Count (e : engine) (query : string) : M W (result Z) :=
  let! r := eval e ("print(" +:+ query +:+ ");") in
  mret match r with Err err => Err err | Ok out => number "number" query out end.

Definition Rows (e : engine) (query : string) : M W (result Z) :=
  let! r := eval e (rows_script query) in
  mret match r with Err err => Err err | Ok out => number "row count" query out end.

Definition Scalar (e : engine) (query : string) : M W (result string) :=
  let! r := eval e ("print(" +:+ query +:+ ");") in
  mret match r with Err err => Err err | Ok out => Ok (lastLine out) end.

Definition Checksum (e : engine) (collection field : string) : M W (result string) :=
  let! r := run_shell (sb e) ["sh"; "-c"; checksum_cmd (db e) collection field]
              (fun code => "checksum failed (exit " +:+ itoa code +:+ "): ") in
  mret match r with Err err => Err err | Ok out => Ok (lastLine out) end.

Definition as_engine (e : engine) : Verify.Engine W := {|
  Verify.Count := Count e; Verify.Rows := Rows e; Verify.Scalar := Scalar e;
  Verify.eng_Checksum := Checksum e |}.

(** [Driver.Engine] *)
Definition mongo_Engine (s : SandboxI W) (src : Source) : Verify.Engine W :=
  as_engine {| sb := s; db := if is_empty (Database src) then DB s else Database src |}.

(** * [Restore] *)

Definition preflight (s : SandboxI W) : M W (option error) :=
  let! r := Exec s ["sh"; "-c"; "command -v mongorestore >/dev/null"] None in
  let '(code, _, err) := r in
  mret match err with
       | Some e => Some (EWrap "checking sandbox tooling: " e "")
       | None =>
           if negb (code =? 0) then
             Some (ENew ("sandbox image has no mongorestore — use an image that ships the " +:+
                         "MongoDB Database Tools (the official mongo:8 image does)"))
           else None
       end.

Definition mongorestore (s : SandboxI W) : list string :=
  [ "mongorestore"; "--username"; User s; "--config"; toolsConfigPath;
    "--authenticationDatabase"; "admin"; "--nsExclude"; "admin.*"; "--nsExclude"; "config.*";
    "--archive" ].

Definition MongoRestore (s : SandboxI W) (path : string) (_ : Source) : M W RestoreOut :=
  let! e := preflight s in
  match e with
  | Some err => mret (RestoreFailed None err)
  | None =>
      let! f := os_Open path in
      match f with
      | Err e => mret (RestoreFailed None (EWrap "opening backup: " e ""))
      | Ok f =>
          let! r := Exec s writePasswordConfig None in
          let '(code, out, err) := r in
          let pre := "preparing restore credentials (exit " +:+ itoa code +:+ "): " +:+
                     tail out 500 +:+ " " in
          match err with
          | Some e => mret (RestoreFailed None (EWrap pre e ""))
          | None =>
              if negb (code =? 0) then mret (RestoreFailed None (ENew (pre +:+ "%!w(<nil>)")))
              else timed_restore s (mongorestore s) f "archive"
          end
      end
  end.

Definition MongodbDriver : Driver W := {|
  drv_Name := "mongodb";
  Interfaces.ContainerEnv := ContainerEnv;
  Port := "27017/tcp";
  Interfaces.ReadyCmds := ReadyCmds;
  Restore := MongoRestore;
  verification := Verifier mongo_Engine |}.
End Mongodb.
Arguments engine : clear implicits.
