(* ===== verification/DriverFacts.v ===== *)
(** Facts about the engine drivers: what the quoting protects, when a restore
    counts as done, and that no command depends on the password. *)

From Stdlib Require Import ZArith Lia Ascii String.
From stdpp Require Import base option list gmap strings.
From S2P Require Import Prelude GoStrings Spec Interfaces Restoring Mongodb.
From S2P Require Verify Source Postgres PostgresFacts Mysql.

(** * Readers of the quoted text *)

Definition cons_byte (c : ascii) (r : option (string * string)) : option (string * string) :=
  match r with Some (s, rest) => Some (String c s, rest) | None => None end.

(** The body of a JavaScript string literal (ECMA-262 §12.9.4) up to its closing
    quote, and what follows; a raw line break ends no literal. *)
Fixpoint js_body (s : string) : option (string * string) :=
  match s with
  | EmptyString => None
  | String c r =>
      if Ascii.eqb c dquote then Some (EmptyString, r)
      else if Ascii.eqb c newline || Ascii.eqb c cr then None
      else if Ascii.eqb c backslash then
        match r with
        | EmptyString => None
        | String d r' =>
            if Ascii.eqb d "n" then cons_byte newline (js_body r')
            else if Ascii.eqb d "r" then cons_byte cr (js_body r')
            else if Ascii.eqb d backslash || Ascii.eqb d dquote then cons_byte d (js_body r')
            else None
        end
      else cons_byte c (js_body r)
  end.

Definition js_literal (s : string) : option (string * string) :=
  match s with
  | String c r => if Ascii.eqb c dquote then js_body r else None
  | EmptyString => None
  end.

(** A POSIX shell word: single-quoted runs, backslash escapes and plain bytes up
    to an operator ([quoted]: inside single quotes). *)
Definition word_end (c : ascii) : bool :=
  existsb (Ascii.eqb c) [";"; " "; "&"; "|"; "<"; ">"; "("; ")"; newline]%char.

Fixpoint sh_word (quoted : bool) (s : string) : option (string * string) :=
  match s with
  | EmptyString => if quoted then None else Some (EmptyString, EmptyString)
  | String c r =>
      if quoted then
        if Ascii.eqb c squote then sh_word false r else cons_byte c (sh_word true r)
      else if Ascii.eqb c squote then sh_word true r
      else if word_end c then Some (EmptyString, s)
      else if Ascii.eqb c backslash then
        match r with EmptyString => None | String d r' => cons_byte d (sh_word false r') end
      else if existsb (Ascii.eqb c) ["$"; "`"; dquote]%char then None
      else cons_byte c (sh_word false r)
  end.

Lemma js_body_quoted s rest :
  js_body (flat_map_bytes js_byte s +:+ String dquote rest) = Some (s, rest).
Proof.
  induction s as [|c s IH]; [done|]. cbn [flat_map_bytes]. rewrite sapp_assoc.
  transitivity (cons_byte c (js_body (flat_map_bytes js_byte s +:+ String dquote rest)));
    [|by rewrite IH].
  unfold js_byte. destruct (Ascii.eqb_spec c backslash) as [->|H1]; [done|].
  destruct (Ascii.eqb_spec c dquote) as [->|H2]; [done|].
  destruct (Ascii.eqb_spec c newline) as [->|H3]; [done|].
  destruct (Ascii.eqb_spec c cr) as [->|H4]; [done|].
  cbn [String.append js_body]. apply Ascii.eqb_neq in H1, H2, H3, H4. by rewrite H1, H2, H3, H4.
Qed.

Lemma js_literal_quoteJS s rest : js_literal (quoteJS s +:+ rest) = Some (s, rest).
Proof. unfold quoteJS. cbn. rewrite sapp_assoc. apply js_body_quoted. Qed.

Lemma sh_word_quoted s rest :
  sh_word true (flat_map_bytes sh_byte s +:+ rest) =
  match sh_word true rest with Some (w, r) => Some (s +:+ w, r) | None => None end.
Proof.
  induction s as [|c s IH]; cbn [flat_map_bytes String.append].
  { by destruct (sh_word true rest) as [[? ?]|]. }
  rewrite sapp_assoc.
  transitivity (cons_byte c (sh_word true (flat_map_bytes sh_byte s +:+ rest)));
    [|rewrite IH; by destruct (sh_word true rest) as [[? ?]|]].
  unfold sh_byte. destruct (Ascii.eqb_spec c squote) as [->|H]; [done|].
  cbn [String.append sh_word]. apply Ascii.eqb_neq in H. by rewrite H.
Qed.

(** A quoted string is one word, whatever it holds. *)
Lemma sh_word_shellQuote s c rest :
  word_end c = true -> sh_word false (shellQuote s +:+ String c rest) = Some (s, String c rest).
Proof.
  intros Hc.
  transitivity (sh_word true (flat_map_bytes sh_byte s +:+ "'" +:+ String c rest)).
  { unfold shellQuote. by rewrite !sapp_assoc. }
  rewrite sh_word_quoted.
  assert (Hw : sh_word true ("'" +:+ String c rest) = Some (EmptyString, String c rest)).
  { cbn [String.append sh_word Ascii.eqb squote]. cbn [sh_word]. rewrite Hc.
    destruct (Ascii.eqb_spec c squote) as [->|]; [by vm_compute in Hc|done]. }
  by rewrite Hw, sapp_nil_r.
Qed.

(** * Restores *)

Section Facts.
Context {W : Type} {CK : Verify.Clock W} {FS : Files W}.
Implicit Types sb : SandboxI W.

Definition exit0 sb cmd stdin w (out : string) w' : Prop :=
  Exec sb cmd stdin w = ((0, out, None), w').

(** A MongoDB restore is reported done only when the sandbox ships the tools,
    its credentials were written, and [mongorestore], run on the opened backup,
    exited 0. *)
Lemma MongoRestore_ok sb path src w r w' :
  MongoRestore sb path src w = (Restored r, w') ->
  exists o1 o2 o3 f w1 w2 w3 w4 start w6,
    exit0 sb ["sh"; "-c"; "command -v mongorestore >/dev/null"] None w o1 w1 /\
    os_Open path w1 = (Ok f, w2) /\
    exit0 sb writePasswordConfig None w2 o2 w3 /\
    Verify.Now w3 = (start, w4) /\
    exit0 sb (mongorestore sb) (Some f) w4 o3 w6 /\
    res_Format r = "archive".
Proof.
  unfold MongoRestore, preflight, exit0, mbind, mret.
  destruct (Exec sb _ None w) as [[[c1 o1] [e1|]] w1] eqn:E1; [done|].
  destruct (Z.eqb_spec c1 0) as [->|]; cbn [negb]; [|done].
  destruct (os_Open path w1) as [[f|e] w2] eqn:EO; [|done].
  destruct (Exec sb writePasswordConfig None w2) as [[[c2 o2] [e2|]] w3] eqn:E2; [done|].
  destruct (Z.eqb_spec c2 0) as [->|]; cbn [negb]; [|done].
  unfold timed_restore, mbind, mret. destruct (Verify.Now w3) as [start w4] eqn:EN.
  destruct (Exec sb (mongorestore sb) (Some f) w4) as [[[c3 o3] [e3|]] w6] eqn:E3;
    destruct (Verify.Now w6) as [now w7]; [done|].
  destruct (Z.eqb_spec c3 0) as [->|]; cbn [negb]; [|done]. intros [= <- _].
  exists o1, o2, o3, f, w1, w2, w3, w4, start, w6. by rewrite EN.
Qed.

(** Whatever the password, every driver runs the same commands. *)
Lemma restores_ignore_password pw sb path src :
  Postgres.PgRestore (with_password pw sb) path src = Postgres.PgRestore sb path src /\
  Mysql.MyRestore (with_password pw sb) path src = Mysql.MyRestore sb path src /\
  MongoRestore (with_password pw sb) path src = MongoRestore sb path src.
Proof. done. Qed.

Lemma engine_ignores_password pw sb src :
  Verify.Count (mongo_Engine (with_password pw sb) src) = Verify.Count (mongo_Engine sb src) /\
  Verify.Rows (mongo_Engine (with_password pw sb) src) = Verify.Rows (mongo_Engine sb src) /\
  Verify.Scalar (mongo_Engine (with_password pw sb) src) = Verify.Scalar (mongo_Engine sb src) /\
  Verify.eng_Checksum (mongo_Engine (with_password pw sb) src) =
    Verify.eng_Checksum (mongo_Engine sb src).
Proof. done. Qed.

(** A shell that exits non-zero never yields a value. *)
Lemma run_shell_ok sb cmd what w out w' :
  run_shell sb cmd what w = (Ok out, w') ->
  exists o, Exec sb cmd None w = ((0, o, None), w') /\ out = TrimSpace o.
Proof.
  unfold run_shell, mbind, mret. destruct (Exec sb cmd None w) as [[[c o] [e|]] w1] eqn:E; [done|].
  destruct (Z.eqb_spec c 0) as [->|]; cbn [negb]; [|done]. intros [= <- <-]. eauto.
Qed.
End Facts.
