(* ===== verification/DrillKeeps.v ===== *)
(** Invariants of a whole drill: a predicate on the world that every call of the
    environment keeps is kept by each part of the drill, and the teardown's effect
    survives what follows it. The predicate is abstract, so one pass over the code
    serves every claim of this kind. *)

From Stdlib Require Import ZArith Ascii String.
From stdpp Require Import base option list gmap strings.
From S2P Require Import Prelude GoStrings Float64 Spec Disk Evidence World Interfaces Keeps Print Restoring Drill.
From S2P Require Verify Source Sign Metrics Notify Postgres Mysql Mongodb.

(** * Checks *)

Section Checks.
Context {W : Type} {CK : Verify.Clock W} (P : W -> Prop).

Class CalmClock : Prop := {
  calm_Now : keeps P Verify.Now;
  calm_Sleep d : keeps P (Verify.Sleep d);
  calm_ctx_Err : keeps P Verify.ctx_Err }.

Record calm_engine (e : Verify.Engine W) : Prop := {
  calm_Count q : keeps P (Verify.Count e q);
  calm_Rows q : keeps P (Verify.Rows e q);
  calm_Scalar q : keeps P (Verify.Scalar e q);
  calm_Checksum t c : keeps P (Verify.eng_Checksum e t c) }.

Record calm_client (c : Verify.K8sClient W) : Prop := {
  calm_list_pods ns : keeps P (Verify.list_pods c ns);
  calm_list_len r ns : keeps P (Verify.list_len c r ns) }.

Record calm_db (db : Verify.sqlDB W) : Prop := {
  calm_row_int q : keeps P (Verify.query_row_int db q);
  calm_row_string q : keeps P (Verify.query_row_string db q);
  calm_query q : keeps P (Verify.query db q) }.

Context {CC : CalmClock}.

Lemma NewSQL_calm db cq e :
  calm_db db -> Verify.NewSQL (Some db) cq = Some e -> calm_engine e.
Proof.
  intros [H1 H2 H3] [= <-]. split; intros; cbn.
  - apply H1.
  - unfold Verify.sql_Rows. cbn. apply keeps_bind; [apply H3|]. intros; apply keeps_ret.
  - apply H2.
  - unfold Verify.sql_Checksum. cbn. destruct cq; [apply H2|apply keeps_ret].
Qed.

Lemma pods_loop_calm cl ns c dl fuel stable detail :
  calm_client cl -> keeps P (Verify.pods_loop fuel cl ns c dl stable detail).
Proof.
  intros [Hp _]. revert stable detail. induction fuel as [|k IH]; intros stable detail;
    cbn [Verify.pods_loop]; [apply keeps_ret|].
  apply keeps_bind; [apply calm_Now|]. intros t. destruct (negb _); [apply keeps_ret|].
  apply keeps_bind; [apply calm_ctx_Err|]. intros [err|]; [apply keeps_ret|].
  apply keeps_bind; [apply Hp|]. intros r. destruct (Verify.pods_sample _ _ _) as [st d].
  destruct (_ <=? _)%nat; [apply keeps_ret|].
  apply keeps_bind; [apply calm_Sleep|]. intros _. apply IH.
Qed.

Lemma runOne_calm eng c dc :
  (forall e, eng = Some e -> calm_engine e) ->
  (forall cl, Verify.K8s dc = Some cl -> calm_client cl) ->
  keeps P (Verify.runOne eng c dc).
Proof.
  intros He Hc. assert (Hret : forall {A} (a : A), keeps P (mret a)) by (intros; apply keeps_ret).
  assert (Hreq : forall n (f : Verify.Engine W -> M W Verify.Result),
    (forall e, calm_engine e -> keeps P (f e)) -> keeps P (Verify.requireEngine eng n f)).
  { intros n f Hf. unfold Verify.requireEngine. destruct eng as [e|]; [|apply Hret].
    by apply Hf, He. }
  assert (Hdata : forall n m, keeps P m -> keeps P (Verify.dataCheck dc n m)).
  { intros n m Hm. unfold Verify.dataCheck. destruct (Verify.RestoreErr dc); [apply Hret|done]. }
  unfold Verify.runOne. repeat case_match; try apply Hret; apply Hdata; try apply Hreq.
  - intros e Hcalm. apply keeps_bind; [by apply calm_Count|intros; apply Hret].
  - intros e Hcalm. unfold Verify.checksum. destruct (_ || _); [apply Hret|].
    apply keeps_bind; [by apply calm_Checksum|intros; apply Hret].
  - intros e Hcalm. apply keeps_bind; [by apply calm_Rows|intros; apply Hret].
  - intros e Hcalm. apply keeps_bind; [by apply calm_Scalar|intros; apply Hret].
  - unfold Verify.podsReady. destruct (Verify.K8s dc) as [cl|]; [|apply Hret].
    apply keeps_bind; [apply calm_Now|]. intros t.
    apply keeps_bind; [apply pods_loop_calm, Hc; done|intros; apply Hret].
  - unfold Verify.resourceCount. destruct (Verify.K8s dc) as [cl|]; [|apply Hret].
    destruct (Verify.resource_of _); [|apply Hret].
    apply keeps_bind; [apply calm_list_len, Hc; done|intros; apply Hret].
Qed.

Lemma Verify_Run_calm eng cs dc :
  (forall e, eng = Some e -> calm_engine e) ->
  (forall cl, Verify.K8s dc = Some cl -> calm_client cl) ->
  keeps P (Verify.Run eng cs dc).
Proof.
  intros He Hc. induction cs as [|c cs IH]; cbn [Verify.Run]; [apply keeps_ret|].
  apply keeps_bind; [by apply runOne_calm|]. intros x.
  apply keeps_bind; [done|]. intros; apply keeps_ret.
Qed.
End Checks.
Arguments CalmClock {W CK} P.
#[export] Hint Resolve calm_Now calm_Sleep calm_ctx_Err : keeps.

(** * Drivers

    A restore touches the world through the sandbox's [Exec], the clock and the
    backup file only. *)

Section Drivers.
Context {W : Type} {CK : Verify.Clock W} {FS : Files W} (P : W -> Prop) {CC : CalmClock P}
  (Hopen : forall p, keeps P (os_Open p)) (Hseek : keeps P f_Seek)
  (sb : SandboxI W) (Hexec : forall cmd stdin, keeps P (Exec sb cmd stdin)).

#[local] Hint Resolve Hopen Hseek Hexec : keeps.

Lemma timed_restore_calm cmd f format : keeps P (timed_restore sb cmd f format).
Proof. unfold timed_restore. keeps_auto. Qed.

#[local] Hint Resolve timed_restore_calm : keeps.

Lemma pg_fail_calm start what code out err : keeps P (Postgres.fail start what code out err).
Proof. unfold Postgres.fail. keeps_auto. Qed.

#[local] Hint Resolve pg_fail_calm : keeps.

Lemma pg_step_calm start what script stdin next :
  keeps P next -> keeps P (Postgres.step sb start what script stdin next).
Proof. intros Hn. unfold Postgres.step. keeps_auto. Qed.

Lemma wait_cluster_calm start db : keeps P (Postgres.wait_cluster sb start db).
Proof.
  unfold Postgres.wait_cluster. apply keeps_bind; [auto with keeps|]. intros t.
  apply keeps_bind; [|keeps_auto]. apply keeps_poll. unfold Postgres.cluster_round. keeps_auto.
Qed.

Lemma PgRestore_calm path src : keeps P (Postgres.PgRestore sb path src).
Proof.
  unfold Postgres.PgRestore. destruct (String.eqb _ _).
  - unfold Postgres.restoreBasebackup. apply keeps_bind; [auto with keeps|]. intros [f|e]; [|auto with keeps].
    apply keeps_bind; [auto with keeps|]. intros start.
    repeat apply pg_step_calm. apply wait_cluster_calm.
  - unfold Postgres.detectFormat. keeps_auto.
Qed.

Lemma MyRestore_calm path src : keeps P (Mysql.MyRestore sb path src).
Proof. unfold Mysql.MyRestore. keeps_auto. Qed.

Lemma MongoRestore_calm path src : keeps P (Mongodb.MongoRestore sb path src).
Proof. unfold Mongodb.MongoRestore, Mongodb.preflight. keeps_auto. Qed.

Lemma mongo_Engine_calm src : calm_engine P (Mongodb.mongo_Engine sb src).
Proof.
  assert (Hs : forall cmd what, keeps P (Mongodb.run_shell sb cmd what)).
  { intros. unfold Mongodb.run_shell. keeps_auto. }
  split; intros; cbn.
  - unfold Mongodb.Count, Mongodb.eval. keeps_auto.
  - unfold Mongodb.Rows, Mongodb.eval. keeps_auto.
  - unfold Mongodb.Scalar, Mongodb.eval. keeps_auto.
  - unfold Mongodb.Checksum. keeps_auto.
Qed.

(** A driver that works through the sandbox only. *)
Record calm_driver (drv : Driver W) : Prop := {
  calm_Restore path src : keeps P (Restore drv sb path src);
  calm_verification engine src :
    verification drv = Verifier engine -> calm_engine P (engine sb src) }.

Lemma calm_drivers drv :
  In drv [Postgres.PostgresDriver; Mysql.MysqlDriver; Mongodb.MongodbDriver] -> calm_driver drv.
Proof.
  intros [<-|[<-|[<-|[]]]]; split; cbn; try done; intros.
  - apply PgRestore_calm.
  - apply MyRestore_calm.
  - apply MongoRestore_calm.
  - injection H as <-. apply mongo_Engine_calm.
Qed.
End Drivers.

(** * The drill *)

Section Drill.
Context {X : Type} {CK : Verify.Clock (World X)} {EC : EvidenceCodec} {CR : Sign.Crypto}
  {VC : Sign.EnvelopeCodec}.
Abbreviation W := (World X).
Context (dp : Deps X) (o : Options X) (P : W -> Prop).

(** What the drill calls outside the sandbox keeps [P]: the clock, the terminal,
    the sinks and the database handle. *)
Class CalmEnv : Prop := {
  calm_clock : CalmClock P;
  calm_print dst color s : Printer o = Some (dst, color) -> keeps P (on_ext (dst s));
  calm_http r : keeps P (on_ext (http_Do dp r));
  calm_push u j g fs : keeps P (on_ext (push dp u j g fs));
  calm_open drv dsn : keeps P (sql_Open dp drv dsn);
  calm_opened drv dsn w db : fst (sql_Open dp drv dsn w) = Ok db -> calm_db P db;
  calm_close db : keeps P (sql_Close dp db) }.

Context {CE : CalmEnv}.

#[local] Instance env_clock : CalmClock P := calm_clock.
#[local] Hint Resolve env_clock : keeps.

Lemma printing_calm f :
  (forall dst color, Printer o = Some (dst, color) -> keeps P (on_ext (f dst color))) ->
  keeps P (printing o f).
Proof.
  intros Hf. unfold printing. destruct (Printer o) as [[dst color]|]; [by apply Hf|apply keeps_ret].
Qed.

Lemma info_calm text : keeps P (info o text).
Proof. apply printing_calm. intros dst color H. exact (calm_print dst color _ H). Qed.

Lemma step_calm text res ok : keeps P (step o text res ok).
Proof. apply printing_calm. intros dst color H. exact (calm_print dst color _ H). Qed.

Lemma warn_calm what e : keeps P (warn o what e).
Proof. unfold warn. destruct e; [apply info_calm|apply keeps_ret]. Qed.

#[local] Hint Resolve info_calm step_calm warn_calm : keeps.

Lemma print_checks_calm cs : keeps P (print_checks o cs).
Proof.
  unfold print_checks. induction cs as [|c cs IH]; cbn [List.fold_right]; [apply keeps_ret|].
  apply keeps_bind; [apply step_calm|]. by intros _.
Qed.

Lemma print_provision_calm what t0 : keeps P (print_provision o what t0).
Proof. unfold print_provision. keeps_auto. Qed.

Lemma teardown_of_calm what destroy was : keeps P destroy -> keeps P (teardown_of o what destroy was).
Proof.
  intros Hd. unfold teardown_of. apply keeps_bind; [done|]. intros e.
  apply keeps_bind; [auto with keeps|]. by intros _ w.
Qed.

#[local] Hint Resolve print_checks_calm print_provision_calm : keeps.

(** ** Files: what is on disk is another matter than [P]. *)

Section Files.
Context (Hdisk : forall A (c : M Disk A), keeps P (on_disk c)).

Lemma sign_evidence_calm path : keeps P (sign_evidence dp o path).
Proof. unfold sign_evidence. keeps_auto; apply Hdisk. Qed.

Lemma html_report_calm e path : keeps P (html_report dp o e path).
Proof.
  unfold html_report. apply keeps_bind; [apply Hdisk|]. intros [p|err]; [|apply keeps_ret].
  apply keeps_bind; [apply info_calm|intros; apply keeps_ret].
Qed.

Lemma on_ext_ret {A} (a : A) : keeps P (on_ext (mret a)).
Proof. intros w Hw. by destruct w. Qed.

(** A notification makes at most one request. *)
Lemma on_ext_bind {A B} (c : M X A) (k : A -> B) :
  keeps P (on_ext c) -> keeps P (on_ext (let! a := c in mret (k a))).
Proof.
  intros Hc w Hw. specialize (Hc w Hw). unfold on_ext, mbind, mret in *.
  by destruct (c (w_ext w)).
Qed.

Lemma notify_sinks_calm e ss : keeps P (notify_sinks dp o e ss).
Proof.
  assert (Hs : forall s, keeps P (on_ext (Notify.Slack (Source.Getenv (os dp)) (NewRequestErr dp)
                 (http_Do dp) e s))).
  { intros s. unfold Notify.Slack. repeat case_match; try apply on_ext_ret.
    apply on_ext_bind, calm_http. }
  assert (Hw : forall s, keeps P (on_ext (Notify.Webhook (Source.Getenv (os dp)) (NewRequestErr dp)
                 (http_Do dp) e s))).
  { intros s. unfold Notify.Webhook. repeat case_match; try apply on_ext_ret.
    apply on_ext_bind, calm_http. }
  induction ss as [|s ss IH]; cbn [notify_sinks]; [apply keeps_ret|].
  destruct (String.eqb _ "slack"); [|destruct (String.eqb _ "webhook")].
  - apply keeps_bind; [done|]. intros x. apply keeps_bind; [apply warn_calm|]. by intros _.
  - apply keeps_bind; [done|]. intros x. apply keeps_bind; [apply warn_calm|]. by intros _.
  - apply keeps_bind; [done|]. intros; apply keeps_ret.
Qed.

Lemma export_sinks_calm e sinks : keeps P (export_sinks dp o e sinks).
Proof.
  unfold export_sinks. apply keeps_bind; [apply notify_sinks_calm|]. intros ms.
  apply keeps_bind.
  - induction ms as [|s ms IH]; cbn [Metrics.Export]; [apply keeps_ret|].
    apply keeps_bind; [|intros; apply keeps_bind; [done|intros; apply keeps_ret]].
    unfold Metrics.export_one. destruct (String.eqb _ "prometheus"); [apply Hdisk|].
    destruct (String.eqb _ "pushgateway"); [apply calm_push|apply keeps_ret].
  - intros errs. induction errs as [|err errs IH]; cbn [warn_all]; [apply keeps_ret|].
    apply keeps_bind; [apply warn_calm|]. by intros _.
Qed.

Lemma finalize_calm d e re dur age : keeps P (finalize dp d o e re dur age).
Proof.
  unfold finalize. cbv zeta. apply keeps_bind; [auto with keeps|]. intros now.
  apply keeps_bind; [apply Hdisk|]. intros [path|err]; [|apply keeps_ret].
  apply keeps_bind; [destruct (Spec.Sign _); [apply sign_evidence_calm|apply keeps_ret]|].
  intros [err|]; [apply keeps_ret|].
  apply keeps_bind; [destruct (HTML _); [apply html_report_calm|apply keeps_ret]|].
  intros [err|]; [apply keeps_ret|].
  apply keeps_bind; [apply export_sinks_calm|]. intros; apply keeps_ret.
Qed.

Lemma verify_and_report_calm d e td eng dc r :
  (forall en, eng = Some en -> calm_engine P en) ->
  (forall cl, Verify.K8s dc = Some cl -> calm_client P cl) ->
  keeps P td -> keeps P (verify_and_report dp d o e td eng dc r).
Proof.
  intros He Hc Ht. unfold verify_and_report.
  apply keeps_bind; [apply Verify_Run_calm; [apply env_clock|done|done]|]. intros cs.
  apply keeps_bind; [apply print_checks_calm|]. intros _.
  apply keeps_bind; [done|]. intros b. apply finalize_calm.
Qed.

(** The engine opened on the restored data works through calm calls. *)
Lemma open_engine_calm drv sb src r w :
  calm_driver P sb drv -> P w ->
  P (snd (open_engine dp drv sb src r w)) /\
  match fst (open_engine dp drv sb src r w) with
  | Ok (eng, close) => (forall en, eng = Some en -> calm_engine P en) /\ keeps P close
  | Err _ => True
  end.
Proof.
  intros [_ Hv] Hw. unfold open_engine. destruct r as [res|r err].
  - destruct (verification drv) as [engine|q dsn cq|] eqn:Ev.
    + split; [done|]. split; [|apply keeps_ret]. intros en [= <-]. by apply Hv.
    + unfold mbind, mret. set (d0 := if is_empty (DSN res) then _ else _).
      pose proof (calm_open q d0 w Hw) as Ho. pose proof (calm_opened q d0 w) as Hdb.
      destruct (sql_Open dp q d0 w) as [[db|err] w1]; [|done]. split; [done|].
      split; [|apply calm_close]. intros en Hen. eapply NewSQL_calm; [by apply Hdb|done].
    + done.
  - split; [done|]. split; [done|apply keeps_ret].
Qed.

(** From the running sandbox on, its [Destroy] included. *)
Lemma in_sandbox_calm d drv b age e t0 sb :
  calm_driver P sb drv -> keeps P (Destroy sb Background) -> keeps P (in_sandbox dp d o drv b age e t0 sb).
Proof.
  intros Hdrv Hd. unfold in_sandbox. cbv zeta.
  apply keeps_bind; [apply print_provision_calm|]. intros _.
  apply keeps_bind; [apply Hdrv|]. intros r.
  apply keeps_bind; [unfold print_restore; destruct r; apply step_calm|]. intros _ w Hw.
  pose proof (teardown_of_calm "sandbox" _ (WasDestroyed sb) Hd) as Ht.
  destruct (open_engine_calm drv sb (spec_Source (drill_Spec d)) r w Hdrv Hw) as [Ho He].
  unfold mbind at 1. destruct (open_engine _ _ _ _ _ w) as [[[eng close]|err] w1]; [|done].
  cbn [fst snd] in *. destruct He as [He Hcl].
  apply keeps_bind; [by apply verify_and_report_calm| |exact Ho]. intros out.
  apply keeps_bind; [done|]. intros; apply keeps_ret.
Qed.

(** The same for a Velero drill. *)
Lemma in_namespace_calm d e t0 vd :
  keeps P (vd_Restore vd) -> calm_client P (Clients vd) -> keeps P (vd_Destroy vd Background) ->
  keeps P (in_namespace dp d o e t0 vd).
Proof.
  intros Hr Hc Hd. unfold in_namespace. cbv zeta.
  apply keeps_bind; [auto with keeps|]. intros now.
  apply keeps_bind; [apply print_provision_calm|]. intros _.
  apply keeps_bind; [done|]. intros r.
  apply keeps_bind; [unfold print_velero; destruct r; apply step_calm|]. intros _.
  apply verify_and_report_calm; [done|by intros cl [= <-]|]. by apply teardown_of_calm.
Qed.

(** A whole drill in a sandbox. *)
Lemma sandbox_Run_calm d :
  (forall A (c : M Source.Tmp A), keeps P (on_tmp c)) ->
  (forall drv w, Get (registry dp) (src_Driver (spec_Source (drill_Spec d))) = Ok drv -> P w ->
     P (snd (provision dp d drv w)) /\
     forall sb, fst (provision dp d drv w) = Ok sb -> calm_driver P sb drv /\ keeps P (Destroy sb Background)) ->
  src_Driver (spec_Source (drill_Spec d)) <> "velero" -> keeps P (Run dp d o).
Proof.
  intros Htmp Hp Hd. unfold Run. apply keeps_bind; [auto with keeps|]. intros now. cbv zeta.
  rewrite (proj2 (String.eqb_neq _ _) Hd). unfold run_engine.
  destruct (Get _ _) as [drv|err] eqn:Eg; [|apply keeps_ret].
  apply keeps_bind; [apply Htmp|]. intros [b|err|]; [|apply keeps_ret|apply keeps_ret].
  apply keeps_bind; [|intros; apply keeps_bind; [apply Htmp|intros; apply keeps_ret]].
  unfold with_backup. apply keeps_bind; [auto with keeps|]. intros t. cbv zeta.
  apply keeps_bind; [auto with keeps|]. intros t0 w Hw. unfold mbind at 1.
  destruct (Hp drv w eq_refl Hw) as [Hw1 Hsb].
  destruct (provision dp d drv w) as [[sb|err] w1]; cbn [fst snd] in *; [|done].
  destruct (Hsb sb eq_refl) as [Hdrv Hdes]. unfold with_teardown.
  apply keeps_bind; [by apply in_sandbox_calm| |exact Hw1]. intros out.
  apply keeps_bind; [by apply teardown_of_calm|]. intros; apply keeps_ret.
Qed.
End Files.
End Drill.
