(* ===== verification/Tenancy.v ===== *)
(** What a drill relies on from whoever gives it a place to restore into. A
    tenant (a sandbox, a Velero namespace) is an object with a [Destroy], which the
    drill calls under the background context, and a [WasDestroyed]; [Tenancy] is
    the contract the providers promise and the drill uses, [lift_sandbox] places a
    provider's sandbox in the drill's world. *)

From Stdlib Require Import ZArith Ascii String.
From stdpp Require Import base option list gmap strings.
From S2P Require Import Prelude GoStrings Spec World Interfaces Keeps Restoring.
From S2P Require Verify Source.

(** * The contract *)

(** [left v x]: of what the provider manages, [x] holds what [v] names and no
    more. [held t v x]: [x] may hold [t]'s resources besides, as long as [t] was
    not torn down; [gone t v x]: [t] was torn down. A teardown may fail: then
    [was] says so. [works] is the case where the provider's removals succeed. *)
Class Tenancy (X V T : Type) : Type := {
  destroy : T -> M X (option error);
  was : T -> X -> bool;
  left : V -> X -> Prop;
  held : T -> V -> X -> Prop;
  gone : T -> V -> X -> Prop;
  works : Prop;
  destroy_held t v x : held t v x -> gone t v (snd (destroy t x));
  gone_held t v x : gone t v x -> held t v x;
  gone_left t v x : gone t v x -> was t x = true -> left v x;
  gone_works t v x : works -> gone t v x -> was t x = true
}.

(** The calls a tenancy goes on through. *)
Definition during {X V T} `{Tenancy X V T} (P : X -> Prop) : Prop :=
  exists v, P = left v \/ exists t, P = held t v \/ P = gone t v.

(** A provider of sandboxes for the drills of a world. *)
Class SandboxProvider {X V} {TN : Tenancy X V (SandboxI X)}
  (prov : Config (World X) -> M X (result (SandboxI X))) : Prop := {
  destroy_is sb : destroy sb = Destroy sb Background;
  was_is sb : was sb = WasDestroyed sb;
  prov_ok cfg x sb x' v : prov cfg x = (Ok sb, x') -> left v x -> held sb v x';
  prov_err cfg x e x' v : works -> prov cfg x = (Err e, x') -> left v x -> left v x';
  exec_held sb v cmd stdin : keeps (held sb v) (Exec sb cmd stdin)
}.

(** The same of Velero: the restored namespace and the clients that look at it. *)
Class NamespaceProvider {X V} {TN : Tenancy X V (VeleroDrill X)}
  (prep : string -> string -> string -> Duration -> M X (result (VeleroDrill X))) : Prop := {
  vd_destroy_is vd : destroy vd = vd_Destroy vd Background;
  vd_was_is vd : was vd = vd_WasDestroyed vd;
  prep_ok n b s ttl x vd x' v : prep n b s ttl x = (Ok vd, x') -> left v x -> held vd v x';
  prep_err n b s ttl x e x' v :
    works -> prep n b s ttl x = (Err e, x') -> left v x -> left v x';
  restore_held vd v : keeps (held vd v) (vd_Restore vd);
  pods_held vd v ns : keeps (held vd v) (Verify.list_pods (Clients vd) ns);
  count_held vd v r ns : keeps (held vd v) (Verify.list_len (Clients vd) r ns)
}.

(** * In the drill's world *)

Section Lift.
Context {X : Type}.

Definition lift_sandbox (sb : SandboxI X) : SandboxI (World X) := {|
  Exec cmd stdin := on_ext (Exec sb cmd stdin);
  Host := Host sb; HostPort := HostPort sb; User := User sb; Password := Password sb; DB := DB sb;
  Destroy c := on_ext (Destroy sb c);
  WasDestroyed w := WasDestroyed sb (w_ext w) |}.

Definition lift_provision (prov : Config (World X) -> M X (result (SandboxI X)))
  (cfg : Config (World X)) : M (World X) (result (SandboxI (World X))) :=
  let? sb := on_ext (prov cfg) on_err (fun e => e) in mret (Ok (lift_sandbox sb)).

Definition lift_client (c : Verify.K8sClient X) : Verify.K8sClient (World X) := {|
  Verify.list_pods ns := on_ext (Verify.list_pods c ns);
  Verify.list_len r ns := on_ext (Verify.list_len c r ns) |}.

Definition lift_velero (vd : VeleroDrill X) : VeleroDrill (World X) := {|
  TargetNS := TargetNS vd; vd_BackupAge := vd_BackupAge vd;
  vd_Restore := on_ext (vd_Restore vd); Clients := lift_client (Clients vd);
  vd_Destroy c := on_ext (vd_Destroy vd c); vd_WasDestroyed w := vd_WasDestroyed vd (w_ext w) |}.

Definition lift_prepare (prep : string -> string -> string -> Duration -> M X (result (VeleroDrill X)))
  (n b s : string) (ttl : Duration) : M (World X) (result (VeleroDrill (World X))) :=
  let? vd := on_ext (prep n b s ttl) on_err (fun e => e) in mret (Ok (lift_velero vd)).

(** The process reads one clock. *)
Definition World_Clock `{Verify.Clock X} : Verify.Clock (World X) := {|
  Verify.Now := on_ext Verify.Now;
  Verify.Sleep d := on_ext (Verify.Sleep d);
  Verify.ctx_Err := on_ext Verify.ctx_Err |}.

(** A driver opens what the fetch left: a temporary file, or the artifact where
    it is. *)
Definition World_Files (os : Source.OS) (seek : M X (option error)) : Files (World X) := {|
  os_Open p := fun w =>
    (match w_tmp w !! p with
     | Some content => Ok (Source.string_reader content)
     | None => Source.Open os p
     end, w);
  f_Seek := on_ext seek |}.

(** The temporary files are [t], and outside [Q] holds. *)
Definition around (t : Source.Tmp) (Q : X -> Prop) (w : World X) : Prop :=
  w_tmp w = t /\ Q (w_ext w).

Lemma on_ext_around {A} (c : M X A) t Q : keeps Q c -> keeps (around t Q) (on_ext c).
Proof.
  intros Hc w [Ht Hw]. unfold on_ext. specialize (Hc _ Hw).
  by destruct (c (w_ext w)) as [a x].
Qed.

Lemma on_disk_around {A} (c : M Disk.Disk A) t Q : keeps (around t Q) (on_disk c).
Proof. intros w [Ht Hw]. unfold on_disk. by destruct (c (w_disk w)). Qed.

Lemma open_around os seek p t Q : keeps (around t Q) (@os_Open _ (World_Files os seek) p).
Proof. by intros w Hw. Qed.
End Lift.
