(* ===== verification/System.v ===== *)
(** The drill composed with a sandbox provider and the drivers: what a whole
    drill leaves behind, proved against the provider's contract ([Tenancy]). *)

From Stdlib Require Import ZArith Ascii String.
From stdpp Require Import base option list gmap strings.
From S2P Require Import Prelude GoStrings Spec Disk Evidence World Interfaces Keeps Print Restoring Drill DrillKeeps Tenancy.
From S2P Require Verify Source SourceFacts Sign Metrics Notify Postgres Mysql Mongodb.

(** * The drivers of the program

    Each driver package registers its driver when the program starts. *)

Section Registered.
Context {W : Type} {CK : Verify.Clock W} {FS : Files W}.

Definition init_postgres (reg : gmap string (Driver W)) : gmap string (Driver W) :=
  Register Postgres.PostgresDriver reg.

Definition init_mysql (reg : gmap string (Driver W)) : gmap string (Driver W) :=
  Register Mysql.MysqlDriver reg.

Definition init_mongodb (reg : gmap string (Driver W)) : gmap string (Driver W) :=
  Register Mongodb.MongodbDriver reg.

Definition drivers : gmap string (Driver W) := init_postgres (init_mysql (init_mongodb ∅)).

Lemma drivers_are n drv : Get drivers n = Ok drv ->
  In drv [Postgres.PostgresDriver; Mysql.MysqlDriver; Mongodb.MongodbDriver].
Proof.
  unfold drivers, init_postgres, init_mysql, init_mongodb. rewrite !Get_Register.
  repeat (destruct (decide _); [intros [= <-]; cbn; tauto|]). done.
Qed.

(** A driver is found under its own name. *)
Lemma drivers_named n drv : Get drivers n = Ok drv -> drv_Name drv = n.
Proof.
  unfold drivers, init_postgres, init_mysql, init_mongodb. rewrite !Get_Register.
  repeat (destruct (decide _) as [->|]; [intros [= <-]; done|]). done.
Qed.
End Registered.

(** * Teardown

    Of any tenant: a sandbox or a namespace. *)

Section Teardown.
Context {X V T : Type} {TN : Tenancy X V T} {CK : Verify.Clock (World X)} {EC : EvidenceCodec}
  {CR : Sign.Crypto} {VC : Sign.EnvelopeCodec}.
Abbreviation W := (World X).
Context (dp : Deps X) (o : Options X).

(** What the drill calls outside its tenant leaves tenants alone. *)
Context (Henv : forall P t, during P -> CalmEnv dp o (around t P)).

Definition td_of (what : string) (t : T) : M W bool :=
  teardown_of o what (on_ext (destroy t)) (fun w => was t (w_ext w)).

Lemma teardown_gone what t tmp v w b w' :
  td_of what t w = (b, w') -> around tmp (held t v) w ->
  around tmp (gone t v) w' /\ b = was t (w_ext w').
Proof.
  unfold td_of, teardown_of, mbind, on_ext.
  intros H [Ht Hw]. apply destroy_held in Hw.
  destruct (destroy t (w_ext w)) as [derr x]. cbn [snd] in Hw.
  set (w1 := {| w_tmp := _ |}) in H.
  assert (Hg : around tmp (gone t v) w1) by done.
  assert (HE : CalmEnv dp o (around tmp (gone t v))) by (apply Henv; unfold during; eauto).
  pose proof (warn_calm dp o _ (CE := HE) ("warning: " +:+ what +:+ " teardown: ") derr w1 Hg) as Hwn.
  destruct (warn o _ derr w1) as [u w2]. injection H as <- <-. done.
Qed.

(** The deferred teardown, whatever the body did with the tenant. *)
Lemma with_teardown_gone what t body tmp v w out w' :
  keeps (around tmp (held t v)) body ->
  with_teardown (td_of what t) body w = (out, w') ->
  around tmp (held t v) w ->
  around tmp (gone t v) w' /\
  forall e p err, out = Ran (Some e) p err ->
    sbx_Destroyed (ev_Sandbox e) = was t (w_ext w').
Proof.
  intros Hb H Hw. unfold with_teardown, mbind, mret in H. specialize (Hb w Hw).
  destruct (body w) as [out1 w1]. cbn [snd] in Hb.
  destruct (td_of what t w1) as [b w2] eqn:Et.
  destruct (teardown_gone _ _ _ _ _ _ _ Et Hb) as [Hg ->]. injection H as <- <-.
  split; [done|]. intros e p err He.
  destruct out1 as [[e0|] p0 err0|]; cbn in He; try done. by injection He as <- _ _.
Qed.

(** No resource of the drill is left when removals work, and whatever works,
    none is left when the record says that the sandbox was destroyed. *)
Definition tidy (v : V) (out : outcome) (x : X) : Prop :=
  (works -> left v x) /\
  forall e p err, out = Ran (Some e) p err ->
    (sbx_Destroyed (ev_Sandbox e) = true -> left v x) /\
    (works -> sbx_Destroyed (ev_Sandbox e) = true).

Lemma gone_tidy t v out w :
  gone t v (w_ext w) ->
  (forall e p err, out = Ran (Some e) p err ->
     sbx_Destroyed (ev_Sandbox e) = was t (w_ext w)) ->
  tidy v out (w_ext w).
Proof.
  intros Hg Hout. split.
  - intros Hk. apply (gone_left _ _ _ Hg). by eapply gone_works.
  - intros e p err ->. rewrite (Hout _ _ _ eq_refl). split.
    + by apply gone_left.
    + intros Hk. by eapply gone_works.
Qed.

Lemma Now_left tmp v : keeps (around tmp (left v)) Verify.Now.
Proof.
  assert (Hl : during (left v)) by (unfold during; eauto).
  exact (calm_Now _ (CalmClock := calm_clock _ _ _ (CalmEnv := Henv _ tmp Hl))).
Qed.
End Teardown.

(** * What a drill leaves *)

Section Leaves.
Context {X V : Type} {TN : Tenancy X V (SandboxI X)}
  (prov : Config (World X) -> M X (result (SandboxI X))) {PV : SandboxProvider prov}
  {CK : Verify.Clock (World X)} {EC : EvidenceCodec} {CR : Sign.Crypto} {VC : Sign.EnvelopeCodec}.
Abbreviation W := (World X).
Context (dp : Deps X) (o : Options X) (seek : M X (option error)).

#[local] Instance FS : Files W := World_Files (os dp) seek.

(** The program's drivers; everything else it calls leaves tenants alone. *)
Context (Hreg : registry dp = drivers) (Htemp : SourceFacts.fresh_temp (os dp))
  (Hseek : forall P, during P -> keeps P seek)
  (Henv : forall P t, during P -> CalmEnv dp o (around t P)).

Lemma calm_lifted sb v tmp drv :
  In drv [Postgres.PostgresDriver; Mysql.MysqlDriver; Mongodb.MongodbDriver] ->
  calm_driver (around tmp (held sb v)) (lift_sandbox sb) drv.
Proof.
  assert (Hd : during (held sb v)) by (unfold during; eauto).
  pose proof (Henv _ tmp Hd) as HE. apply calm_drivers.
  - exact (calm_clock _ _ _ (CalmEnv := HE)).
  - intros p. apply open_around.
  - by apply on_ext_around, Hseek.
  - intros cmd stdin. cbn. apply on_ext_around, exec_held.
Qed.

Lemma with_backup_tidy d drv e b tmp v w out w' :
  (forall drv, provision dp d drv = lift_provision prov (sandbox_config d drv)) ->
  In drv [Postgres.PostgresDriver; Mysql.MysqlDriver; Mongodb.MongodbDriver] ->
  with_backup dp d o drv e b w = (out, w') ->
  around tmp (left v) w ->
  w_tmp w' = tmp /\ tidy v out (w_ext w').
Proof.
  intros Hp Hdrv H Hw. unfold with_backup in H.
  unfold mbind at 1 in H. pose proof (Now_left dp o Henv tmp v w Hw) as Hw1.
  destruct (Verify.Now w) as [now w1]. cbn [snd] in Hw1. cbv zeta in H.
  unfold mbind at 1 in H. pose proof (Now_left dp o Henv tmp v w1 Hw1) as Hw2.
  destruct (Verify.Now w1) as [t0 w2]. cbn [snd] in Hw2. destruct Hw2 as [Ht Hv].
  unfold mbind at 1 in H. rewrite Hp in H. unfold lift_provision, mbind, mret, on_ext in H.
  destruct (prov (sandbox_config d drv) (w_ext w2)) as [[sb|err] x] eqn:Ep.
  - change (teardown o (lift_sandbox sb)) with
      (teardown_of o "sandbox" (on_ext (Destroy sb Background)) (fun w => WasDestroyed sb (w_ext w))) in H.
    rewrite <- destroy_is, <- was_is in H. fold (td_of o "sandbox" sb) in H.
    apply (with_teardown_gone dp o Henv) with (tmp := tmp) (v := v) in H.
    + destruct H as [[Ht' Hg] Hout]. split; [done|]. by eapply gone_tidy.
    + assert (Hd : during (held sb v)) by (unfold during; eauto).
      pose proof (Henv _ tmp Hd) as HE.
      apply (in_sandbox_calm dp o _ (CE := HE)); [intros; apply on_disk_around|by apply calm_lifted|].
      cbn. apply on_ext_around. intros y Hy. rewrite <- destroy_is. by apply gone_held, destroy_held.
    + split; [done|]. by eapply prov_ok.
  - injection H as <- <-. split; [done|]. split; [|done]. intros Hk. by eapply prov_err.
Qed.

(** The drill of an engine: the temporary files are those there were, and the
    provider's resources too. *)
Lemma run_engine_tidy d e v w out w' :
  (forall drv, provision dp d drv = lift_provision prov (sandbox_config d drv)) ->
  run_engine dp d o e w = (out, w') -> left v (w_ext w) ->
  w_tmp w' = w_tmp w /\ tidy v out (w_ext w').
Proof.
  intros Hp H Hv. unfold run_engine in H.
  assert (Hnone : forall p err, tidy v (Ran None p err) (w_ext w)) by (intros; by split).
  destruct (Get (registry dp) _) as [drv|err] eqn:Eg; [|by injection H as <- <-].
  rewrite Hreg in Eg. apply drivers_are in Eg.
  unfold mbind at 1, fetch, on_tmp in H.
  destruct (Source.Fetch _ _ _ _ (w_tmp w)) as [f tmp] eqn:Ef.
  apply SourceFacts.Fetch_fs in Ef; [|done]. destruct f as [b|err|].
  - unfold mbind at 1 in H. set (w1 := {| w_tmp := tmp |}) in H.
    destruct (with_backup dp d o drv e b w1) as [out1 w2] eqn:Eb.
    apply with_backup_tidy with (tmp := tmp) (v := v) in Eb; [|done|done|done].
    destruct Eb as [Ht Htidy]. unfold mbind, mret in H.
    rewrite Ht in H. destruct (Source.Cleanup (Some b) tmp) as [u t2]. cbn [snd] in Ef. subst t2.
    by injection H as <- <-.
  - injection H as <- <-. by rewrite Ef.
  - injection H as <- <-. split; [done|]. by split.
Qed.

Lemma sandbox_Run_tidy d v w out w' :
  (forall drv, provision dp d drv = lift_provision prov (sandbox_config d drv)) ->
  src_Driver (spec_Source (drill_Spec d)) <> "velero" ->
  Run dp d o w = (out, w') -> left v (w_ext w) ->
  w_tmp w' = w_tmp w /\ tidy v out (w_ext w').
Proof.
  intros Hp Hd H Hv. unfold Run, mbind in H.
  pose proof (Now_left dp o Henv (w_tmp w) v w (conj eq_refl Hv)) as [Ht Hv1].
  destruct (Verify.Now w) as [now w1]. cbn [snd] in *. cbv zeta in H.
  rewrite (proj2 (String.eqb_neq _ _) Hd) in H.
  apply run_engine_tidy with (v := v) in H; [|done|done]. by rewrite Ht in H.
Qed.
End Leaves.

(** * What a Velero drill leaves *)

Section VeleroLeaves.
Context {X V : Type} {TN : Tenancy X V (VeleroDrill X)}
  (prep : string -> string -> string -> Duration -> M X (result (VeleroDrill X)))
  {PV : NamespaceProvider prep}
  {CK : Verify.Clock (World X)} {EC : EvidenceCodec} {CR : Sign.Crypto} {VC : Sign.EnvelopeCodec}.
Abbreviation W := (World X).
Context (dp : Deps X) (o : Options X)
  (Henv : forall P t, during P -> CalmEnv dp o (around t P))
  (Hprep : forall n b s ttl, velero_Prepare dp n b s ttl = lift_prepare prep n b s ttl).

Lemma velero_Run_tidy d v w out w' :
  src_Driver (spec_Source (drill_Spec d)) = "velero" ->
  Run dp d o w = (out, w') -> left v (w_ext w) ->
  w_tmp w' = w_tmp w /\ tidy v out (w_ext w').
Proof.
  intros Hd H Hv. unfold Run, mbind in H.
  pose proof (Now_left dp o Henv (w_tmp w) v w (conj eq_refl Hv)) as Hw1.
  destruct (Verify.Now w) as [now w1]. cbn [snd] in *. cbv zeta in H.
  rewrite (proj2 (String.eqb_eq _ _) Hd) in H. unfold runVelero, mbind at 1 in H.
  pose proof (Now_left dp o Henv (w_tmp w) v w1 Hw1) as Hw2.
  destruct (Verify.Now w1) as [t0 w2]. cbn [snd] in Hw2. destruct Hw2 as [Ht Hv2].
  unfold mbind at 1 in H. rewrite Hprep in H. unfold lift_prepare, mbind at 1, mret, on_ext at 1 in H.
  destruct (prep _ _ _ _ (w_ext w2)) as [[vd|err] x] eqn:Ep.
  - change (velero_teardown o (lift_velero vd)) with
      (teardown_of o "namespace" (on_ext (vd_Destroy vd Background)) (fun w => vd_WasDestroyed vd (w_ext w))) in H.
    rewrite <- vd_destroy_is, <- vd_was_is in H. fold (td_of o "namespace" vd) in H.
    apply (with_teardown_gone dp o Henv) with (tmp := w_tmp w) (v := v) in H.
    + destruct H as [[Ht' Hg] Hout]. split; [done|]. by eapply gone_tidy.
    + assert (Hh : during (held vd v)) by (unfold during; eauto).
      pose proof (Henv _ (w_tmp w) Hh) as HE.
      apply (in_namespace_calm dp o _ (CE := HE)); [intros; apply on_disk_around| | |].
      * apply on_ext_around, restore_held.
      * split; intros; apply on_ext_around; [apply pods_held|apply count_held].
      * apply on_ext_around. intros y Hy. rewrite <- vd_destroy_is. by apply gone_held, destroy_held.
    + split; [done|]. by eapply prep_ok.
  - injection H as <- <-. split; [done|]. split; [|done]. intros Hk. by eapply prep_err.
Qed.
End VeleroLeaves.
