(* ===== verification/OwnerTenancy.v ===== *)
(** The contract of [Tenancy] from a sandbox's lifecycle. Containers, pods and
    Velero namespaces are objects of the process torn down by the same code
    ([Lifecycle]), so what they owe the drill is proved once, from what removing
    one object does to the world outside. *)

From Stdlib Require Import ZArith String.
From stdpp Require Import base option list gmap strings.
From S2P Require Import Prelude Interfaces Keeps Lifecycle Tenancy.
From S2P Require Verify.

(** The outside of a kind of object: [clean v d] when [d] holds what [v] names
    and no more, [holds s v d] when it may hold what [s] names besides. Only
    removals under the background context are counted on to succeed. *)
Class Managed (S D V : Type) {OW : Owner S D} : Type := {
  clean : V -> D -> Prop;
  holds : S -> V -> D -> Prop;
  removals : Prop;
  remove_ok c s v d d' : holds s v d -> remove c s d = (None, d') -> clean v d';
  remove_works s v d : removals -> holds s v d -> fst (remove Background s d) = None
}.

(** A call that changes nothing of it. *)
Record quiet {S D V A} {OW : Owner S D} {MG : Managed S D V} (c : M D A) : Prop := {
  quiet_clean (v : V) : keeps (clean v) c;
  quiet_holds s (v : V) : keeps (holds s v) c }.

Section OwnerTenancy.
Context {S D V : Type} {CK : Verify.Clock D} {OW : Owner S D} {MG : Managed S D V}.

Abbreviation St := (Proc S D).

(** ** Objects

    Those of earlier drills are torn down, or were never armed: their watchdogs
    have nothing to do. *)
Definition spent (q : positive) (w : St) : Prop :=
  forall s, load q w = Some s -> once (life s) = true \/ timer (life s) = None.

Definition others_spent (p : positive) (w : St) : Prop := forall q, q <> p -> spent q w.

Lemma spent_load q w w' : load q w' = load q w -> spent q w -> spent q w'.
Proof. unfold spent. by intros ->. Qed.

Definition same_cell {A} (q : positive) (c : M St A) : Prop := forall w, load q (snd (c w)) = load q w.

Lemma Destroy_cell c p q : q <> p -> same_cell q (Destroy c p).
Proof.
  intros Hq w. unfold Destroy. destruct (load p w) as [s|]; [|done].
  destruct (once (life s)); [done|]. destruct (remove c s (ext w)) as [err d]. cbn [snd].
  unfold load, store. cbn. by rewrite lookup_insert_ne.
Qed.

Lemma modify_cell p q f : q <> p -> same_cell q (modify p f).
Proof.
  intros Hq w. unfold modify. destruct (load p w); [|done]. unfold load, store. cbn.
  by rewrite lookup_insert_ne.
Qed.

Lemma watchdog_spent q w : spent q w ->
  snd (watchdog q w) = w \/ snd (watchdog q w) = snd (on_world Verify.Now w).
Proof.
  intros Hq. destruct (load q w) as [s|] eqn:Hs; [|left; unfold watchdog; by rewrite Hs].
  destruct (Hq s Hs) as [Ho|Ht]; [|left; unfold watchdog; by rewrite Hs, Ht].
  destruct (watchdog_moves q w) as [->|[->| ->]]; [by left|by right|right].
  assert (Hs' : load q (snd (Verify.Now w)) = Some s) by (rewrite <- Hs; apply load_on_world).
  by rewrite (Destroy_again _ _ _ _ Hs' Ho).
Qed.

(** [Destroy] uses the object up, whatever it was. *)
Lemma spent_Destroy c p w : spent p (snd (Destroy c p w)).
Proof.
  destruct (load p w) as [s|] eqn:E.
  - destruct (Destroy_ends c p w s E) as (s' & Hs' & Ho & _). intros s2 H2.
    rewrite Hs' in H2. left. by injection H2 as <-.
  - intros s2 H2. unfold Destroy in H2. rewrite E in H2. cbn in H2. congruence.
Qed.

(** ** The states of a drill *)

Definition up (p : positive) (v : V) (w : St) : Prop :=
  others_spent p w /\ exists s, load p w = Some s /\ once (life s) = false /\ holds s v (ext w).

(** [p] was torn down: nothing of it is left unless its [Destroy] failed. *)
Definition ended_of (p : positive) (v : V) (w : St) : Prop :=
  others_spent p w /\
  exists s, load p w = Some s /\ once (life s) = true /\
    (destroyed (life s) = true -> clean v (ext w)) /\
    (removals -> destroyed (life s) = true).

Definition up_or_ended (p : positive) (v : V) (w : St) : Prop := up p v w \/ ended_of p v w.

Definition all_gone (v : V) (w : St) : Prop := clean v (ext w) /\ forall q, spent q w.

Lemma Destroy_up p v w : up_or_ended p v w -> ended_of p v (snd (Destroy Background p w)).
Proof.
  intros [[Hot (s & Hs & Ho & Hh)]|He].
  - split; [intros q Hq; eapply spent_load; [by apply Destroy_cell|by apply Hot]|].
    unfold Destroy. rewrite Hs, Ho. pose proof (remove_ok Background s v (ext w)) as Hok.
    pose proof (remove_works s v (ext w)) as Hwk.
    destruct (remove Background s (ext w)) as [err d] eqn:E. cbn [snd fst] in *.
    eexists. rewrite load_store. split; [done|]. rewrite life_set.
    cbn [once destroyed ended ext store]. split; [done|]. split.
    + intros Hd. destruct err; [done|]. by eapply Hok.
    + intros Hk. by rewrite Hwk.
  - pose proof He as (_ & s & Hs & Ho & _). by rewrite (Destroy_again _ _ _ _ Hs Ho).
Qed.

Lemma ended_spent p v w : ended_of p v w -> forall q, spent q w.
Proof.
  intros (Hot & s & Hs & Ho & _) q. destruct (decide (q = p)) as [->|Hq]; [|by apply Hot].
  intros s' Hs'. left. congruence.
Qed.

Lemma quiet_states {A} (c : M D A) : quiet (V := V) c ->
  forall p v, keeps (up_or_ended p v) (on_world c) /\ keeps (ended_of p v) (on_world c) /\
              keeps (all_gone v) (on_world c).
Proof.
  intros [Hc Hh] p v. assert (Hsp : forall q w, spent q w -> spent q (snd (on_world c w))).
  { intros q w. apply spent_load, load_on_world. }
  assert (He : keeps (ended_of p v) (on_world c)).
  { intros w (Hot & s & Hs & Ho & Hr & Hk). split; [intros q Hq; by apply Hsp, Hot|].
    exists s. rewrite load_on_world.
    repeat (split; [done|]). split; [|done]. intros Hd. rewrite on_world_run. cbn.
    by apply Hc, Hr. }
  split; [|split; [done|]].
  - intros w [[Hot (s & Hs & Ho & Hw)]|Hw]; [left|right; by apply He].
    split; [intros q Hq; by apply Hsp, Hot|]. exists s. rewrite load_on_world.
    repeat (split; [done|]). rewrite on_world_run. by apply Hh.
  - intros w [Hr Hs]. split; [rewrite on_world_run; by apply Hc|]. intros q. by apply Hsp.
Qed.

(** A watchdog may fire at any moment of the drill: it takes the sandbox down, or
    finds it down. *)
Lemma watchdog_states q p v : quiet (V := V) Verify.Now ->
  keeps (up_or_ended p v) (watchdog q) /\ keeps (ended_of p v) (watchdog q) /\
  keeps (all_gone v) (watchdog q).
Proof.
  intros Hn. destruct (quiet_states Verify.Now Hn p v) as (N1 & N2 & N3).
  assert (Hf : forall P : St -> Prop, keeps P (on_world Verify.Now) ->
    forall w, P w -> spent q w -> P (snd (watchdog q w))).
  { intros P HN w Hw Hq. destruct (watchdog_spent q w Hq) as [->| ->]; [done|by apply HN]. }
  split; [|split]; intros w Hw.
  - destruct (decide (q = p)) as [->|Hq].
    + destruct (watchdog_moves p w) as [->|[->| ->]]; [done|by apply N1|].
      right. apply Destroy_up. by apply N1.
    + apply (Hf (up_or_ended p v)); [done|done|].
      destruct Hw as [[Hot _]|He]; [by apply Hot|by eapply ended_spent].
  - apply (Hf (ended_of p v)); [done|done|by eapply ended_spent].
  - apply (Hf (all_gone v)); [done|done|by apply Hw].
Qed.

(** ** The contract *)

Section Contract.
Context {T : Type} (t_destroy : T -> M St (option error)) (t_was : T -> St -> bool)
  (stands : T -> positive -> Prop)   (* the object behind the interface value *)
  (Hdestroy : forall t p, stands t p -> t_destroy t = Destroy Background p)
  (Hwas : forall t p, stands t p -> t_was t = WasDestroyed p).

Program Definition owner_tenancy : Tenancy St V T := {|
  destroy := t_destroy; was := t_was; left := all_gone;
  held t v w := exists p, stands t p /\ up_or_ended p v w;
  gone t v w := exists p, stands t p /\ ended_of p v w;
  works := removals |}.
Next Obligation.
  intros t v x (p & Ht & Hw). exists p. split; [done|]. rewrite (Hdestroy _ _ Ht). by apply Destroy_up.
Qed.
Next Obligation. intros t v x (p & Ht & Hw). exists p. split; [done|]. by right. Qed.
Next Obligation.
  intros t v x (p & Ht & He) Hd. pose proof He as (_ & s & Hs & _ & Hr & _).
  split; [|by eapply ended_spent]. apply Hr. rewrite (Hwas _ _ Ht) in Hd.
  unfold WasDestroyed in Hd. by rewrite Hs in Hd.
Qed.
Next Obligation.
  intros t v x Hk (p & Ht & _ & s & Hs & _ & _ & Hw). rewrite (Hwas _ _ Ht). unfold WasDestroyed.
  rewrite Hs. by apply Hw.
Qed.

(** A call that keeps the states of one object keeps the tenant's. *)
Lemma held_keeps {A} (c : M St A) t v :
  (forall p, stands t p -> keeps (up_or_ended p v) c) -> keeps (held (Tenancy := owner_tenancy) t v) c.
Proof. intros Hc w (p & Ht & Hw). exists p. split; [done|]. by apply Hc. Qed.

(** What keeps going while a drill runs: quiet calls, and the watchdogs. *)
Lemma quiet_during {A} (c : M D A) P :
  quiet (V := V) c -> during (H := owner_tenancy) P -> keeps P (on_world c).
Proof.
  intros Hc (v & [->|(t & [->| ->])]); cbn.
  - by apply (quiet_states c Hc 1).
  - intros w (p & Ht & Hw). exists p. split; [done|]. by apply (quiet_states c Hc).
  - intros w (p & Ht & Hw). exists p. split; [done|]. by apply (quiet_states c Hc).
Qed.

Lemma watchdog_during q P :
  quiet (V := V) Verify.Now -> during (H := owner_tenancy) P -> keeps P (watchdog q).
Proof.
  intros Hn (v & [->|(t & [->| ->])]); cbn.
  - by apply (watchdog_states q 1).
  - intros w (p & Ht & Hw). exists p. split; [done|]. by apply watchdog_states.
  - intros w (p & Ht & Hw). exists p. split; [done|]. by apply watchdog_states.
Qed.
End Contract.
End OwnerTenancy.
