(* ===== verification/DockerTenancy.v ===== *)
(** The Docker provider keeps the contract of [Tenancy]: what it manages are the
    daemon's containers and networks. *)

From Stdlib Require Import ZArith Ascii String.
From stdpp Require Import base option list gmap strings.
From S2P Require Import Prelude GoStrings Spec World Interfaces Poll Keeps Sandboxes Lifecycle Docker DockerFacts Tenancy OwnerTenancy.
From S2P Require Verify Source.

Section DockerTenancy.
Context {D : Type} {CK : Verify.Clock D} (api : DockerAPI D) {DL : DockerLaws api}.

#[local] Instance Own : Owner Sandbox D := Docker_Owner api.

Abbreviation St := (Proc Sandbox D).
Abbreviation V := (gset string * gset string)%type.

(** [Provision], with the sandbox as the drill sees it. *)
Definition docker_provider {W} (cfg : Config W) : M St (result (SandboxI St)) :=
  let? p := Provision api cfg on_err (fun e => e) in fun w => (Ok (as_sandbox api p w), w).

#[export] Program Instance docker_managed : Managed Sandbox D V (OW := Own) := {|
  clean v d := resources d = v;
  holds s v d := owned api s v.1 v.2 d;
  removals := removals_work api |}.
Next Obligation. intros c s [C N] d d' H Hr. exact (remove_sandbox_ok api c s d d' C N Hr H). Qed.
Next Obligation. intros s v d H _. exact (remove_sandbox_works api s d H). Qed.

Lemma docker_quiet {A} (c : M D A) :
  (forall r, keeps (fun d => resources d = r) c) -> quiet (V := V) c.
Proof. intros Hc. split; [exact Hc|]. intros s v d. by apply (owned_quiet api). Qed.

Lemma Now_still : quiet (V := V) Verify.Now.
Proof. apply docker_quiet. intros r. apply Now_quiet. Qed.

#[export] Instance docker_tenancy : Tenancy St V (SandboxI St) :=
  owner_tenancy (fun sb => Interfaces.Destroy sb Background) Interfaces.WasDestroyed
    (fun sb p => exists w0, sb = as_sandbox api p w0) (fun _ _ '(ex_intro _ _ H) => f_equal (fun s => Interfaces.Destroy s Background) H)
    (fun _ _ '(ex_intro _ _ H) => f_equal _ H).

(** What may go on while a drill runs. *)
Lemma docker_during {A} (c : M D A) P :
  (forall r, keeps (fun d => resources d = r) c) -> during P -> keeps P (on_world c).
Proof. intros Hc HP. eapply quiet_during; [by apply docker_quiet|exact HP]. Qed.

Lemma docker_watchdog q P : during P -> keeps P (watchdog q).
Proof. intros HP. eapply watchdog_during; [apply Now_still|exact HP]. Qed.

Lemma start_cell {W} (cfg : Config W) name pw nid p q :
  q <> p -> same_cell q (start_sandbox api cfg name pw nid p).
Proof.
  intros Hq. assert (H : forall x, keeps (fun w : St => load q w = x)
                           (start_sandbox api cfg name pw nid p)).
  { intros x. assert (Hw : forall A (c : M D A), keeps (fun w : St => load q w = x) (on_world c)).
    { intros A c w Hw. by rewrite load_on_world. }
    assert (Hn : keeps (fun w : St => load q w = x) Verify.Now) by apply Hw.
    assert (Hm : forall f, keeps (fun w : St => load q w = x) (modify p f)).
    { intros f w Hw0. by rewrite modify_cell. }
    unfold start_sandbox. keeps_auto. }
  intros w. by apply H.
Qed.

Lemma Provision_up_only {W} (cfg : Config W) w p w' v :
  Provision api cfg w = (Ok p, w') -> all_gone v w -> up_or_ended p v w'.
Proof.
  intros H [Hr Hs]. pose proof (Provision_owns api cfg w w' p H) as Ho.
  left. split; [|by rewrite <- Hr].
  apply (Provision_split api cfg) in H as [(e & ? & _)|(p' & name & pw & nid & w1 & r1 & w2 & Hc & _ & _ & Hst & Hres)];
    [done|]. destruct r1; [|by destruct Hres]. destruct Hres as [[= <-] ->]. intros q Hq.
  eapply spent_load; [|apply Hs]. rewrite <- (Hc q Hq).
  pose proof (start_cell cfg name pw nid p q Hq w1) as H1. by rewrite Hst in H1.
Qed.

Lemma Provision_nothing {W} (cfg : Config W) w e w' v :
  removals_work api -> Provision api cfg w = (Err e, w') -> all_gone v w -> all_gone v w'.
Proof.
  intros Hk H [Hr Hs]. split; [cbn; rewrite <- Hr; by eapply docker_Provision_failed|].
  apply (Provision_split api cfg) in H as [(e' & _ & _ & Hh)|(p & name & pw & nid & w1 & r1 & w2 & Hc & _ & Hl & Hst & Hres)].
  - intros q. eapply spent_load; [|apply Hs]. unfold load. by rewrite Hh.
  - destruct r1; [by destruct Hres|]. destruct Hres as [_ ->]. intros q.
    destruct (decide (q = p)) as [->|Hq]; [by apply (spent_Destroy (OW := Own))|].
    eapply spent_load; [|apply Hs]. etransitivity; [by apply (Destroy_cell (OW := Own) Background p q)|].
    rewrite <- (Hc q Hq).
    pose proof (start_cell cfg name pw nid p q Hq w1) as H1. by rewrite Hst in H1.
Qed.

#[export] Instance docker_Provider : SandboxProvider (docker_provider (W := World St)).
Proof.
  split; [done|done| | |].
  - intros cfg x sb x' v H Hl. unfold docker_provider in H. apply bind_ok in H as (p & w1 & Hp & H).
    injection H as <- <-. exists p. split; [by exists w1|]. by eapply Provision_up_only.
  - intros cfg x e x' v Hk H Hl. unfold docker_provider, mbind, mret in H.
    destruct (Provision api cfg x) as [[p|e1] w1] eqn:Hp; [done|]. injection H as <- <-.
    by eapply Provision_nothing.
  - intros sb v cmd stdin. apply held_keeps. intros p (w0 & ->) w Hw.
    cbn [Interfaces.Exec as_sandbox]. unfold sandbox_exec. destruct (load p w) as [s|]; [|done].
    apply (quiet_states (Exec api (ContainerID s) cmd stdin)); [|done].
    apply docker_quiet. intros r. by apply Exec_quiet.
Qed.
End DockerTenancy.
