(* ===== verification/KubernetesTenancy.v ===== *)
(** The Kubernetes provider keeps the contract of [Tenancy]: what it manages are
    the cluster's pods (the drill namespace and its policy stay, by design). *)

From Stdlib Require Import ZArith Ascii String.
From stdpp Require Import base option list gmap strings.
From S2P Require Import Prelude GoStrings Spec World Interfaces Poll Keeps Sandboxes Lifecycle Cluster Kubernetes KubernetesFacts Tenancy OwnerTenancy.
From S2P Require Verify Source.

Section KubernetesTenancy.
Context {D : Type} {CK : Verify.Clock D} (api : ClusterAPI D) {KL : ClusterLaws api}.

#[local] Instance Own : Owner Sandbox D := Pod_Owner api.

Abbreviation St := (Proc Sandbox D).
Abbreviation V := (gset (string * string)).

(** [Provision], with the sandbox as the drill sees it. *)
Definition k8s_provider {W} (cfg : Config W) : M St (result (SandboxI St)) :=
  let? p := Provision api cfg on_err (fun e => e) in fun w => (Ok (as_sandbox api p w), w).

#[export] Program Instance k8s_managed : Managed Sandbox D V (OW := Own) := {|
  clean v d := pods d ⊆ v;
  holds s v d := at_most api (namespace s, podName s) v d;
  removals := deletions_work api |}.
Next Obligation. intros c s v d d' H Hr. exact (remove_pod_ok api c s d d' v H Hr). Qed.
Next Obligation. intros s v d H _. exact (remove_pod_works api s d H). Qed.

Lemma k8s_quiet {A} (c : M D A) : silent objects c -> quiet (V := V) c.
Proof.
  intros Hc. assert (Hp : forall d, pods (snd (c d)) = pods d).
  { intros d. specialize (Hc _ d eq_refl). by injection Hc as -> _ _. }
  split.
  - intros v d Hd. cbn. by rewrite Hp.
  - intros s v d Hd. cbn. unfold at_most. by rewrite Hp.
Qed.

#[export] Instance k8s_tenancy : Tenancy St V (SandboxI St) :=
  owner_tenancy (fun sb => Interfaces.Destroy sb Background) Interfaces.WasDestroyed
    (fun sb p => exists w0, sb = as_sandbox api p w0) (fun _ _ '(ex_intro _ _ H) => f_equal (fun s => Interfaces.Destroy s Background) H)
    (fun _ _ '(ex_intro _ _ H) => f_equal _ H).

(** What may go on while a drill runs. *)
Lemma k8s_during {A} (c : M D A) P : silent objects c -> during P -> keeps P (on_world c).
Proof. intros Hc HP. eapply quiet_during; [by apply k8s_quiet|exact HP]. Qed.

Lemma k8s_watchdog q P : during P -> keeps P (watchdog q).
Proof. intros HP. eapply watchdog_during; [apply k8s_quiet, quiet_api|exact HP]. Qed.

Lemma start_pod_cell {W} (cfg : Config W) inC ns name pw p q :
  q <> p -> same_cell q (start_sandbox api cfg inC ns name pw p).
Proof.
  intros Hq. assert (H : forall x, keeps (fun w : St => load q w = x)
                           (start_sandbox api cfg inC ns name pw p)).
  { intros x. assert (Hw : forall A (c : M D A), keeps (fun w : St => load q w = x) (on_world c)).
    { intros A c w Hw. by rewrite load_on_world. }
    assert (Hn : keeps (fun w : St => load q w = x) Verify.Now) by apply Hw.
    assert (Hm : forall f, keeps (fun w : St => load q w = x) (modify p f)).
    { intros f w Hw0. by rewrite modify_cell. }
    unfold start_sandbox, run_pod, connect. keeps_auto. }
  intros w. by apply H.
Qed.

Lemma pod_up_only {W} (cfg : Config W) w p w' v :
  Provision api cfg w = (Ok p, w') -> all_gone v w -> up_or_ended p v w'.
Proof.
  intros H [Hr Hs]. left. split.
  - apply (pod_Provision_split api cfg) in H as [(e & ? & _)|(p' & inC & ns & name & pw & w1 & r1 & w2 & Hc & _ & _ & Hst & Hres)];
      [done|]. destruct r1; [|by destruct Hres]. destruct Hres as [[= <-] ->]. intros q Hq.
    eapply spent_load; [|apply Hs]. rewrite <- (Hc q Hq).
    pose proof (start_pod_cell cfg inC ns name pw p q Hq w1) as H1. by rewrite Hst in H1.
  - destruct (pod_Provision_stands api cfg w w' p H) as (k & (s & Hs' & <- & Ho) & Hm).
    exists s. split; [done|]. split; [done|]. cbn in *. unfold at_most in *. set_solver.
Qed.

Lemma pod_nothing {W} (cfg : Config W) w e w' v :
  deletions_work api -> Provision api cfg w = (Err e, w') -> all_gone v w -> all_gone v w'.
Proof.
  intros Hk H [Hr Hs]. split.
  { pose proof (pod_Provision_failed api cfg w w' e Hk H). cbn in *. set_solver. }
  apply (pod_Provision_split api cfg) in H as [(e' & _ & _ & Hh)|(p & inC & ns & name & pw & w1 & r1 & w2 & Hc & _ & _ & Hst & Hres)].
  - intros q. eapply spent_load; [|apply Hs]. unfold load. by rewrite Hh.
  - destruct r1; [by destruct Hres|]. destruct Hres as [_ ->]. intros q.
    destruct (decide (q = p)) as [->|Hq]; [by apply (spent_Destroy (OW := Own))|].
    eapply spent_load; [|apply Hs]. etransitivity; [by apply (Destroy_cell (OW := Own) Background p q)|].
    rewrite <- (Hc q Hq).
    pose proof (start_pod_cell cfg inC ns name pw p q Hq w1) as H1. by rewrite Hst in H1.
Qed.

#[export] Instance k8s_Provider : SandboxProvider (k8s_provider (W := World St)).
Proof.
  split; [done|done| | |].
  - intros cfg x sb x' v H Hl. unfold k8s_provider in H. apply bind_ok in H as (p & w1 & Hp & H).
    injection H as <- <-. exists p. split; [by exists w1|]. by eapply pod_up_only.
  - intros cfg x e x' v Hk H Hl. unfold k8s_provider, mbind, mret in H.
    destruct (Provision api cfg x) as [[p|e1] w1] eqn:Hp; [done|]. injection H as <- <-.
    by eapply pod_nothing.
  - intros sb v cmd stdin. apply held_keeps. intros p (w0 & ->) w Hw.
    cbn [Interfaces.Exec as_sandbox]. unfold sandbox_exec. destruct (load p w) as [s|]; [|done].
    apply (quiet_states (Exec api (namespace s) (podName s) cmd stdin)); [|done].
    apply k8s_quiet. intros x. apply (Exec_keeps api). by intros d d' ->.
Qed.
End KubernetesTenancy.
