(* ===== verification/VeleroTenancy.v ===== *)
(** Velero drills keep the contract of [Tenancy]: what they manage are the
    cluster's namespaces that are up; one whose deletion the server accepted is
    on its way out and no longer among them. *)

From Stdlib Require Import ZArith Ascii String.
From stdpp Require Import base option list gmap strings.
From S2P Require Import Prelude GoStrings Spec World Interfaces Poll Keeps Sandboxes Lifecycle Cluster KubernetesFacts Velero VeleroFacts Tenancy OwnerTenancy.
From S2P Require Verify Kubernetes.

Section VeleroTenancy.
Context {D : Type} {CK : Verify.Clock D} (api : ClusterAPI D) {KL : ClusterLaws api}
  {VL : VeleroLaws api}.

#[local] Instance Own : Owner Drill D := Namespace_Owner api.

Abbreviation St := (Proc Drill D).
Abbreviation V := (gset string).

(** The API server accepts deletions, or finds nothing to delete, when nobody
    cancels them. *)
Definition deletes_work : Prop :=
  (forall n d, unless (IsNotFound api) (fst (DeleteNamespace api Background n d)) = None) /\
  (forall n d, unless (IsNotFound api) (fst (DeleteRestore api Background n d)) = None).

Lemma remove_namespace_ok c s d d' v :
  spaces d ⊆ {[TargetNS s]} ∪ v -> remove_namespace api c s d = (None, d') -> spaces d' ⊆ v.
Proof.
  unfold remove_namespace, mbind, mret. intros Hv.
  destruct (DeleteNamespace api c (TargetNS s) d) as [e d1] eqn:E. apply DeleteNamespace_spec in E.
  assert (Hgo : unless (IsNotFound api) e = None -> spaces d1 ⊆ v).
  { destruct e as [e|]; cbn [unless]; [|destruct E as [E _]; rewrite E; set_solver].
    destruct E as (E & _ & Hnf). destruct (IsNotFound api e); [|done]. specialize (Hnf eq_refl).
    rewrite E. set_solver. }
  destruct (negb _).
  - assert (Hs : silent objects (DeleteRestore api c (restoreName s))) by apply quiet_velero.
    specialize (Hs _ d1 eq_refl). destruct (DeleteRestore api c (restoreName s) d1) as [e2 d2].
    cbn [snd] in Hs. injection Hs as _ _ Hs.
    destruct (unless _ e) as [err|]; [done|]. destruct (unless _ e2); [done|].
    intros [= <-]. rewrite Hs. by apply Hgo.
  - destruct (unless _ e) as [err|]; [done|]. intros [= <-]. by apply Hgo.
Qed.

Lemma remove_namespace_works s d : deletes_work -> fst (remove_namespace api Background s d) = None.
Proof.
  intros [Hn Hr]. unfold remove_namespace, mbind, mret. specialize (Hn (TargetNS s) d).
  destruct (DeleteNamespace api Background (TargetNS s) d) as [e d1]. cbn [fst] in Hn. rewrite Hn.
  destruct (negb _); [|done]. specialize (Hr (restoreName s) d1).
  destruct (DeleteRestore api Background (restoreName s) d1) as [e2 d2]. cbn [fst] in Hr. by rewrite Hr.
Qed.

#[export] Program Instance velero_managed : Managed Drill D V (OW := Own) := {|
  clean v d := spaces d ⊆ v;
  holds s v d := spaces d ⊆ {[TargetNS s]} ∪ v;
  removals := deletes_work |}.
Next Obligation. intros c s v d d' H Hr. exact (remove_namespace_ok c s d d' v H Hr). Qed.
Next Obligation. intros s v d H _. exact (remove_namespace_works s d H). Qed.

Lemma velero_quiet {A} (c : M D A) : silent objects c -> quiet (V := V) c.
Proof.
  intros Hc. assert (Hp : forall d, spaces (snd (c d)) = spaces d).
  { intros d. specialize (Hc _ d eq_refl). by injection Hc as _ _ ->. }
  split; [intros v d Hd|intros s v d Hd]; cbn; by rewrite Hp.
Qed.

(** ** [Prepare] and [Restore] *)

Lemma spent_heap q (w w' : St) : heap w' = heap w -> spent q w -> spent q w'.
Proof. intros Hh. apply spent_load. unfold load. by rewrite Hh. Qed.

Lemma spent_newborn q (w w' : St) : one_newborn w w' -> spent q w -> spent q w'.
Proof.
  intros (p & d & Hd & Hh) Hq s Hs. unfold load in Hs. rewrite Hh in Hs. cbn in Hs.
  destruct (decide (p = q)) as [->|Hne].
  - rewrite lookup_insert_eq in Hs. injection Hs as <-. right. cbn. by rewrite Hd.
  - rewrite lookup_insert_ne in Hs by done. by apply Hq.
Qed.

Lemma governed_cells ttl p d r (w w1 w2 w' : St) r1 :
  (forall q, q <> p -> load q w1 = load q w) -> heap w2 = heap w1 ->
  governed api ttl p d r w' r1 w2 ->
  forall q, q <> p -> load q w' = load q w.
Proof.
  intros Hc Hh Hg q Hq. rewrite <- (Hc q Hq).
  assert (H2 : load q w2 = load q w1) by (unfold load; by rewrite Hh).
  unfold governed in Hg. destruct r1 as [u|e].
  - destruct Hg as (_ & t & w3 & Hn & ->). unfold load, store in *. cbn.
    rewrite lookup_insert_ne by done. rewrite <- H2.
    by apply (silent_world api Verify.Now) in Hn as [_ ->]; [|apply quiet_api].
  - destruct Hg as [_ ->]. etransitivity; [by apply (Destroy_cell (OW := Own) Background p q)|done].
Qed.

Lemma Prepare_up drill backup source ttl w p w' v :
  Prepare api drill backup source ttl w = (Ok p, w') -> all_gone v w -> up_or_ended p v w'.
Proof.
  intros [(e & ? & _)|(b & d0 & p' & d & w1 & r1 & w2 & Hc & _ & _ & Hl & _ & _ & Hlife & _ &
    _ & Hsp & _ & _ & He & Hg)]%(Prepare_split api) [Hr Hs]; [done|].
  rewrite on_world_run in He. injection He as Hr1 Hw2.
  assert (Hh2 : heap w2 = heap w1) by by rewrite <- Hw2.
  assert (Hp : p' = p) by (unfold governed in Hg; destruct r1; destruct Hg as [[=] _]; done). subst p'.
  left. split.
  { intros q Hq. eapply spent_load; [|apply Hs].
    exact (governed_cells ttl p d _ w w1 w2 w' r1 Hc Hh2 Hg q Hq). }
  unfold governed in Hg. destruct r1 as [u|e]; [|by destruct Hg]. destruct Hg as (_ & t & w3 & Hn & ->).
  exists (set_v_life (arm (Add t ttl) (v_life d)) d). rewrite load_store. split; [done|].
  cbn [life Own Namespace_Owner set_v_life v_life arm once]. rewrite Hlife. split; [done|].
  apply (silent_world api Verify.Now) in Hn as [O _]; [|apply quiet_api]. injection O as _ _ O.
  cbn [holds velero_managed set_v_life TargetNS]. change (ext (store p _ w3)) with (ext w3). rewrite O.
  rewrite <- Hw2. cbn [ext]. rewrite errs_run. cbn [snd].
  rewrite (EnsureDenyEgressPolicy_spaces api), Hsp. cbn in Hr. set_solver.
Qed.

Lemma Prepare_nothing drill backup source ttl w e w' v :
  deletes_work -> Prepare api drill backup source ttl w = (Err e, w') ->
  all_gone v w -> all_gone v w'.
Proof.
  intros Hk H [Hr Hs]. split.
  { pose proof (Prepare_failed api drill backup source ttl w w' e (proj1 Hk) H). cbn in *. set_solver. }
  apply (Prepare_split api) in H as [(e' & _ & _ & [Hh|Hn])|(b & d0 & p & d & w1 & r1 & w2 & Hc & _ & _ &
    _ & _ & _ & _ & _ & _ & _ & _ & _ & He & Hg)]; intros q.
  - by eapply spent_heap.
  - by eapply spent_newborn.
  - rewrite on_world_run in He. injection He as Hr1 Hw2.
    assert (Hh2 : heap w2 = heap w1) by by rewrite <- Hw2.
    destruct (decide (q = p)) as [->|Hq].
    + unfold governed in Hg. destruct r1; [by destruct Hg|]. destruct Hg as [_ ->].
      apply (spent_Destroy (OW := Own)).
    + eapply spent_load; [|apply Hs].
      exact (governed_cells ttl p d _ w w1 w2 w' r1 Hc Hh2 Hg q Hq).
Qed.

(** Naming the restore object changes neither the namespace nor the lifecycle. *)
Lemma modify_up p v f :
  (forall s, life (f s) = life s /\ TargetNS (f s) = TargetNS s) ->
  keeps (up_or_ended p v) (modify p f).
Proof.
  intros Hf w Hw. assert (Hot : others_spent p w -> others_spent p (snd (modify p f w))).
  { intros H q Hq. eapply spent_load; [by apply modify_cell|by apply H]. }
  destruct Hw as [[Ho (s & Hs & H1 & H2)]|[Ho (s & Hs & H1)]].
  - left. split; [by apply Hot|]. unfold modify. rewrite Hs. cbn [snd]. exists (f s).
    rewrite load_store. destruct (Hf s) as [-> Ht]. split; [done|]. split; [done|].
    cbn in *. by rewrite Ht.
  - right. split; [by apply Hot|]. unfold modify. rewrite Hs. cbn [snd]. exists (f s).
    rewrite load_store. by destruct (Hf s) as [-> _].
Qed.

Lemma restore_round_silent start name : silent objects (restore_round api start name).
Proof.
  intros x. unfold restore_round, wait_or_done. apply keeps_bind.
  - apply keeps_bind; [apply quiet_api|]. intros [e|]; [apply keeps_ret|].
    apply keeps_bind; [apply quiet_api|]. intros _. apply quiet_api.
  - intros [e|]; [apply keeps_ret|]. apply keeps_bind; [apply quiet_velero|].
    intros [st|e]; [|apply keeps_ret]. destruct (terminal _); [|apply keeps_ret].
    apply keeps_bind; [apply quiet_api|]. intros now. destruct (conclude _ _ _). apply keeps_ret.
Qed.

Lemma Restore_up ttl p v : keeps (up_or_ended p v) (Restore api ttl p).
Proof.
  assert (Hq : forall A (c : M D A), silent objects c -> keeps (up_or_ended p v) (on_world c)).
  { intros A c Hc. by apply (quiet_states c (velero_quiet c Hc)). }
  unfold Restore. apply keeps_bind; [apply Hq, quiet_api|]. intros suffix w Hw.
  destruct (load p w) as [d|]; [|done].
  set (name := TargetNS d +:+ "-" +:+ randomHex suffix). revert w Hw.
  apply keeps_bind; [by apply modify_up|]. intros _.
  apply keeps_bind; [apply Hq, quiet_api|]. intros start.
  apply keeps_bind; [apply Hq, quiet_velero|]. intros [err|]; [apply keeps_ret|].
  apply keeps_bind; [|intros; apply keeps_ret]. apply Hq. intros x. apply keeps_poll.
  apply restore_round_silent.
Qed.

(** ** The contract *)

Context (clients : Verify.K8sClient St).

(** [Prepare], with the drill as the orchestrator sees it. *)
Definition velero_provider (n b s : string) (ttl : Duration) : M St (result (VeleroDrill St)) :=
  let? p := Prepare api n b s ttl on_err (fun e => e) in
  fun w => (Ok (as_velero api ttl clients p w), w).

#[export] Instance velero_tenancy : Tenancy St V (VeleroDrill St) :=
  owner_tenancy (fun vd => vd_Destroy vd Background) vd_WasDestroyed
    (fun vd p => exists ttl w0, vd = as_velero api ttl clients p w0)
    (fun _ _ '(ex_intro _ _ (ex_intro _ _ H)) => f_equal (fun v => vd_Destroy v Background) H)
    (fun _ _ '(ex_intro _ _ (ex_intro _ _ H)) => f_equal _ H).

(** What may go on while a drill runs. *)
Lemma velero_during {A} (c : M D A) P : silent objects c -> during P -> keeps P (on_world c).
Proof. intros Hc HP. eapply quiet_during; [by apply velero_quiet|exact HP]. Qed.

Lemma velero_watchdog q P : during P -> keeps P (watchdog q).
Proof. intros HP. eapply watchdog_during; [apply velero_quiet, quiet_api|exact HP]. Qed.

(** Listing what was restored creates no namespace. *)
Context (Hpods : forall P ns, during P -> keeps P (Verify.list_pods clients ns))
  (Hlen : forall P r ns, during P -> keeps P (Verify.list_len clients r ns)).

Lemma velero_Provider : NamespaceProvider velero_provider.
Proof.
  split; [done|done| | | | |].
  - intros n b s ttl x vd x' v H Hl. unfold velero_provider in H.
    apply bind_ok in H as (p & w1 & Hp & H). injection H as <- <-. exists p.
    split; [by exists ttl, w1|]. by eapply Prepare_up.
  - intros n b s ttl x e x' v Hk H Hl. unfold velero_provider, mbind, mret in H.
    destruct (Prepare api n b s ttl x) as [[p|e1] w1] eqn:Hp; [done|]. injection H as <- <-.
    by eapply Prepare_nothing.
  - intros vd v. apply held_keeps. intros p (ttl & w0 & ->). cbn [vd_Restore as_velero].
    apply keeps_bind; [apply Restore_up|intros; apply keeps_ret].
  - intros vd v ns w Hw. pose proof Hw as (p & (ttl & w0 & ->) & _). cbn [Clients as_velero].
    apply Hpods; [|done]. exists v. right. eauto.
  - intros vd v r ns w Hw. pose proof Hw as (p & (ttl & w0 & ->) & _). cbn [Clients as_velero].
    apply Hlen; [|done]. exists v. right. eauto.
Qed.
End VeleroTenancy.
