(* ===== verification/Feeding.v ===== *)
(** What reaches the restore command. The fetched backup is opened by the driver
    and piped into a command of the sandbox: composed with the fetch, the bytes a
    verified drill restored are the whole decoded artifact. *)

From Stdlib Require Import ZArith Lia Ascii String.
From stdpp Require Import base option list gmap strings.
From S2P Require Import Prelude GoStrings Spec Disk Evidence World Interfaces Keeps Print Restoring PostgresFacts Drill DrillFacts DrillKeeps Tenancy System.
From S2P Require Verify Source SourceFacts Sign Postgres Mysql Mongodb.

(** * Drivers *)

Section Drivers.
Context {W : Type} {CK : Verify.Clock W} {FS : Files W} (P : W -> Prop) {CC : CalmClock P}
  (Hopen : forall p, keeps P (os_Open p)) (Hseek : keeps P f_Seek)
  (sb : SandboxI W) (Hexec : forall cmd stdin, keeps P (Exec sb cmd stdin)).

(** In a world where [P] holds the file is opened, and in one where it holds a
    command of the sandbox reads it from its standard input and exits 0. *)
Definition fed (path : string) : Prop :=
  exists f wf cmd out w1, P wf /\ fst (os_Open path wf) = Ok f /\
    P w1 /\ fst (Exec sb cmd (Some f) w1) = (0, out, None).

Lemma timed_restore_feeds cmd f format w r w' :
  timed_restore sb cmd f format w = (Restored r, w') -> P w ->
  exists out w1, P w1 /\ fst (Exec sb cmd (Some f) w1) = (0, out, None).
Proof.
  unfold timed_restore, mbind, mret. intros H Hw. pose proof (calm_Now P w Hw) as Hn.
  destruct (Verify.Now w) as [start w1]. cbn [snd] in Hn.
  destruct (Exec sb cmd (Some f) w1) as [[[code out] err] w2] eqn:E.
  destruct (Verify.Now w2) as [now w3]. destruct err as [e|]; [done|].
  destruct (Z.eqb_spec code 0) as [->|]; cbn [negb] in H; [|done].
  exists out, w1. by rewrite E.
Qed.

Lemma open_then {A} path (k : result Source.Reader -> M W A) w a w' :
  mbind (os_Open path) k w = (a, w') -> P w ->
  exists r w1, os_Open path w = (r, w1) /\ P w1 /\ k r w1 = (a, w').
Proof using Hopen.
  unfold mbind. intros H Hw. pose proof (Hopen path w Hw) as Ho.
  destruct (os_Open path w) as [r w1]. eauto.
Qed.

Lemma PgRestore_feeds path src w res w' :
  Postgres.PgRestore sb path src w = (Restored res, w') -> P w -> fed path.
Proof using CC Hopen Hseek.
  unfold Postgres.PgRestore. intros H Hw. destruct (String.eqb _ _).
  - apply restoreBasebackup_ok in H as (f & start & w1 & w2 & w3 & w4 & w5 & w6 & w7 & o1 & o2 & o3 & o4 &
      Ho & Hn & He & _).
    pose proof (Hopen path w Hw) as H1. rewrite Ho in H1. cbn [snd] in H1.
    pose proof (calm_Now P w1 H1) as H2. rewrite Hn in H2. cbn [snd] in H2.
    exists f, w. do 3 eexists. split; [done|]. split; [by rewrite Ho|]. split; [exact H2|by rewrite He].
  - apply open_then in H as (r & w1 & Ho & H1 & H); [|done]. destruct r as [f|e]; [|done].
    assert (Hd : keeps P (Postgres.detectFormat f)).
    { unfold Postgres.detectFormat. destruct (is_empty _), (Source.rerr f);
        try apply keeps_ret; (apply keeps_bind; [exact Hseek|intros; apply keeps_ret]). }
    unfold mbind in H. specialize (Hd w1 H1).
    destruct (Postgres.detectFormat f w1) as [[format|e] w2]; [|done]. cbn [snd] in Hd.
    apply timed_restore_feeds in H as (out & w3 & H3 & He); [|done].
    exists f, w. do 3 eexists. split; [done|]. split; [by rewrite Ho|]. eauto.
Qed.

Lemma MyRestore_feeds path src w res w' :
  Mysql.MyRestore sb path src w = (Restored res, w') -> P w -> fed path.
Proof using CC Hopen.
  intros H Hw. apply open_then in H as (r & w1 & Ho & H1 & H); [|done]. destruct r as [f|e]; [|done].
  apply timed_restore_feeds in H as (out & w3 & H3 & He); [|done].
  exists f, w. do 3 eexists. split; [done|]. split; [by rewrite Ho|]. eauto.
Qed.

Lemma MongoRestore_feeds path src w res w' :
  Mongodb.MongoRestore sb path src w = (Restored res, w') -> P w -> fed path.
Proof using CC Hopen Hexec.
  intros H Hw. unfold Mongodb.MongoRestore in H.
  assert (Hp : keeps P (Mongodb.preflight sb)).
  { unfold Mongodb.preflight. apply keeps_bind; [apply Hexec|]. intros [[code out] err]. apply keeps_ret. }
  unfold mbind at 1 in H. specialize (Hp w Hw).
  destruct (Mongodb.preflight sb w) as [[e|] w0]; [done|]. cbn [snd] in Hp.
  apply open_then in H as (r & w1 & Ho & H1 & H); [|done]. destruct r as [f|e]; [|done].
  unfold mbind at 1 in H. pose proof (Hexec Mongodb.writePasswordConfig None w1 H1) as H2.
  destruct (Exec sb Mongodb.writePasswordConfig None w1) as [[[code out] err] w2]. cbn [snd] in H2.
  destruct err; [done|]. cbv zeta in H. destruct (negb _); [done|].
  apply timed_restore_feeds in H as (out' & w3 & H3 & He); [|done].
  exists f, w0. do 3 eexists. split; [done|]. split; [by rewrite Ho|]. eauto.
Qed.

Lemma drivers_feed drv path src w res w' :
  In drv [Postgres.PostgresDriver; Mysql.MysqlDriver; Mongodb.MongodbDriver] ->
  Restore drv sb path src w = (Restored res, w') -> P w -> fed path.
Proof.
  intros [<-|[<-|[<-|[]]]] H Hw.
  - exact (PgRestore_feeds path src w res w' H Hw).
  - exact (MyRestore_feeds path src w res w' H Hw).
  - exact (MongoRestore_feeds path src w res w' H Hw).
Qed.
End Drivers.

(** * The drill *)

Section Drill.
Context {X V : Type} {TN : Tenancy X V (SandboxI X)}
  (prov : Config (World X) -> M X (result (SandboxI X))) {PV : SandboxProvider prov}
  {CK : Verify.Clock (World X)} {EC : EvidenceCodec} {CR : Sign.Crypto} {VC : Sign.EnvelopeCodec}.
Abbreviation W := (World X).
Context (dp : Deps X) (o : Options X) (seek : M X (option error)).

#[local] Instance FS : Files W := World_Files (os dp) seek.

Context (Hreg : registry dp = drivers)
  (Hseek : forall P, during P -> keeps P seek)
  (Henv : forall P t, during P -> CalmEnv dp o (around t P)).

(** A verified record of a sandbox names the backup it was made for, and its
    restore succeeded. *)
Lemma in_sandbox_verified d drv b age e0 t0 sb w e p err w' (P : W -> Prop) {CE : CalmEnv dp o P} :
  in_sandbox dp d o drv b age e0 t0 sb w = (Ran (Some e) p err, w') -> ev_Verified e = true -> P w ->
  ev_Backup e = ev_Backup e0 /\
  exists w1 res w2, P w1 /\ Restore drv sb (Source.Path b) (spec_Source (drill_Spec d)) w1 = (Restored res, w2).
Proof.
  unfold in_sandbox. cbv zeta. unfold mbind, mret. intros H Hv Hw.
  match type of H with context [print_provision o ?what t0] =>
    pose proof (print_provision_calm dp o P what t0 w Hw) as Hw1;
    destruct (print_provision o what t0 w) as [u w1] end. cbn [snd] in Hw1.
  destruct (Restore drv sb _ _ w1) as [r w2] eqn:Er. destruct (print_restore o b r w2) as [u2 w3].
  destruct (open_engine dp drv sb _ r w3) as [[[eng close]|er] w4]; [|done].
  destruct (verify_and_report_record dp d o (set_restore (restore_result r) e0) (teardown o sb) eng
    (engine_context d r age) r w4) as (wv & bd & now & p' & er & Hrec).
  destruct (verify_and_report dp d o _ _ eng _ r w4) as [out w5]. cbn [fst] in Hrec. subst out.
  destruct (close w5) as [u3 w6]. injection H as <- _ _ _. split.
  - cbn. by destruct (restore_result r).
  - apply finalized_verified in Hv as (Hr & _). destruct r as [res|r er']; [|done].
    exists w1, res, w2. by rewrite Er.
Qed.

(** The reader the restore command was given. *)
Definition opened (fs : Source.Tmp) (path : string) : result Source.Reader :=
  match fs !! path with
  | Some text => Ok (Source.string_reader text)
  | None => Source.Open (os dp) path
  end.

(** The record was earned by feeding the fetched backup to the sandbox. *)
Definition restored_from (d : Drill) (e : Evidence) (b : Source.Backup) (fs : Source.Tmp) (v : V)
  : Prop :=
  (exists age, ev_Backup e = backup_record d b age) /\
  exists rd drv sb cmd out x0 x1,
    opened fs (Source.Path b) = Ok rd /\ fst (prov (sandbox_config d drv) x0) = Ok sb /\
    held sb v x1 /\ fst (Exec sb cmd (Some rd) x1) = (0, out, None).

Lemma lifted_feeds sb v fs path :
  fed (around fs (held sb v)) (lift_sandbox sb) path ->
  exists rd cmd out x, opened fs path = Ok rd /\ held sb v x /\
    fst (Exec sb cmd (Some rd) x) = (0, out, None).
Proof.
  intros (f & wf & cmd & out & w1 & [Ht _] & Ho & [_ Hh] & He).
  exists f, cmd, out, (w_ext w1). split; [unfold opened; by rewrite <- Ht|]. split; [done|].
  cbn in He. unfold on_ext in He. by destruct (Exec sb cmd (Some f) (w_ext w1)).
Qed.

Lemma with_backup_feeds d drv e0 b fs v w e p err w' :
  (forall drv, provision dp d drv = lift_provision prov (sandbox_config d drv)) ->
  In drv [Postgres.PostgresDriver; Mysql.MysqlDriver; Mongodb.MongodbDriver] ->
  with_backup dp d o drv e0 b w = (Ran (Some e) p err, w') -> ev_Verified e = true ->
  around fs (left v) w -> restored_from d e b fs v.
Proof.
  intros Hp Hdrv H Hv Hw. unfold with_backup, mbind in H.
  pose proof (Now_left dp o Henv fs v w Hw) as Hw2.
  destruct (Verify.Now w) as [now w3]. cbn [snd] in Hw2.
  pose proof (Now_left dp o Henv fs v w3 Hw2) as [Ht4 Hl4].
  destruct (Verify.Now w3) as [t0 w4]. cbn [snd] in Ht4, Hl4. rewrite Hp in H.
  unfold lift_provision, mbind, mret, on_ext in H.
  destruct (prov (sandbox_config d drv) (w_ext w4)) as [[sb|er] x] eqn:Ep; [|done].
  apply (f_equal fst) in H. apply with_teardown_record in H as (e1 & bd & Hin & ->).
  set (w5 := {| w_tmp := w_tmp w4 |}) in Hin.
  assert (Hd : during (held sb v)) by (unfold during; eauto). pose proof (Henv _ fs Hd) as HE.
  assert (Hw5 : around fs (held sb v) w5) by (split; [done|by eapply prov_ok]).
  match type of Hin with fst (in_sandbox ?a ?b ?c ?dr ?f ?g ?h ?i ?j w5) = _ =>
    destruct (in_sandbox a b c dr f g h i j w5) as [out w6] eqn:Ei end.
  cbn [fst] in Hin. subst out.
  destruct (in_sandbox_verified _ _ _ _ _ _ _ _ _ _ _ _ _ (CE := HE) Ei Hv Hw5)
    as (Hbk & w7 & res & w8 & H7 & Hr).
  apply (drivers_feed (around fs (held sb v)) (CC := calm_clock _ _ _ (CalmEnv := HE))) in Hr;
    [|intros; apply open_around|by apply on_ext_around, Hseek
     |intros cmd stdin; apply on_ext_around, exec_held|done|done].
  apply lifted_feeds in Hr as (rd & cmd & out & y & Ho & Hh & He).
  split; [eexists; exact Hbk|]. exists rd, drv, sb, cmd, out, (w_ext w4), y.
  by rewrite Ep.
Qed.

Lemma Run_feeds d v w e p err w' :
  (forall drv, provision dp d drv = lift_provision prov (sandbox_config d drv)) ->
  src_Driver (spec_Source (drill_Spec d)) <> "velero" ->
  Run dp d o w = (Ran (Some e) p err, w') -> ev_Verified e = true -> left v (w_ext w) ->
  exists b fs, Source.Fetch (codecs dp) (os dp) (connect dp) (src_From (spec_Source (drill_Spec d)))
      (w_tmp w) = (Source.LOk b, fs) /\ restored_from d e b fs v.
Proof.
  intros Hp Hd H Hv Hl. unfold Run, mbind in H.
  pose proof (Now_left dp o Henv (w_tmp w) v w (conj eq_refl Hl)) as [Ht Hl1].
  destruct (Verify.Now w) as [now w1]. cbn [snd] in *. cbv zeta in H.
  rewrite (proj2 (String.eqb_neq _ _) Hd) in H. unfold run_engine in H.
  destruct (Get (registry dp) _) as [drv|er] eqn:Eg; [|done].
  rewrite Hreg in Eg. apply drivers_are in Eg. unfold mbind at 1, fetch, on_tmp in H.
  rewrite Ht in H.
  destruct (Source.Fetch _ _ _ _ (w_tmp w)) as [[b|er|] fs] eqn:Ef; [|done|done].
  exists b, fs. split; [done|]. unfold mbind, mret in H. set (w2 := {| w_tmp := fs |}) in H.
  destruct (with_backup dp d o drv _ b w2) as [out w3] eqn:Eb.
  assert (out = Ran (Some e) p err) as ->.
  { destruct (Source.Cleanup (Some b) (w_tmp w3)). by injection H. }
  by eapply with_backup_feeds.
Qed.
End Drill.

(** * The artifact *)

(** [raw] is the stored artifact a fetch selected: the file, or the body of the
    object read through the transfer cap. *)
Inductive artifact (os : Source.OS) (connect : Source.S3Options -> result Source.S3Client)
  (from : From) (uri : string) : Source.Reader -> Prop :=
| art_file f :
    Source.file_path os from = Ok uri -> Source.Open os uri = Ok f -> artifact os connect from uri f
| art_object cli bucket prefix key obj :
    Source.parseS3URI (URI from) (Source.non_empty (Select from)) = Ok (bucket, prefix) ->
    connect (Source.s3_options from) = Ok cli ->
    Source.s3_key cli from bucket prefix = Source.LOk key ->
    Source.GetObject cli bucket key = Ok obj -> uri = "s3://" +:+ bucket +:+ "/" +:+ key ->
    artifact os connect from uri (Source.capReader (Source.Body obj) (MaxBytes from) "backup").

(** What a successful fetch leaves to open: the artifact in place when it has no
    layer to remove, or all of the plaintext of both layers. *)
Lemma Fetch_plaintext cx os connect from fs b fs' :
  SourceFacts.fresh_temp os ->
  Source.uncompressedLimit (MaxBytes from) (MaxUncompressedBytes from) < MaxInt64 ->
  Source.Fetch cx os connect from fs = (Source.LOk b, fs') ->
  exists raw r, artifact os connect from (Source.ResolvedURI b) raw /\
    Source.unwrap cx os (Source.ResolvedURI b) raw (from_Decrypt from) =
      Ok (r, Source.Encryption b, Source.Compression b) /\
    ((Source.Encryption b = "" /\ Source.Compression b = "" /\
      Source.Path b = Source.ResolvedURI b /\ Source.Open os (Source.Path b) = Ok raw /\ fs' = fs) \/
     (Source.rerr r = None /\ fs' = <[Source.Path b := Source.contents r]> fs)).
Proof.
  intros Hf Hlim. unfold Source.Fetch. destruct (String.eqb _ "file"); [|destruct (String.eqb _ "s3"); [|done]].
  - unfold mbind, mret. destruct (Source.fetchFile cx os from fs) as [[b0|e] fs1] eqn:E; [|done].
    intros [= <- <-]. apply SourceFacts.fetchFile_ok in E as
      (p & fi & f & r & Hp & _ & _ & Ho & Hu & Hr & _ & _ & _ & Hc); [|done|done].
    exists f, r. rewrite Hr. split; [by apply art_file|]. split; [done|].
    destruct Hc as [(H1 & H2 & H3 & _ & H5)|(H1 & _ & _ & H2 & _)]; [left|by right].
    rewrite H3. done.
  - intros H. apply SourceFacts.fetchS3_ok in H as
      (cli & bucket & prefix & key & obj & r & H1 & H2 & H3 & H4 & H5 & H6 & H7 & H8 & _); [|done|done].
    eexists _, r. split; [by eapply art_object|]. split; [exact H6|]. by right.
Qed.
