(* ===== verification/Crash.v ===== *)
(** A drill whose process dies or is interrupted, and the sweep that collects what
    it left. The process can be gone before any of its requests to the daemon, and
    its context can be cancelled between any two of them or in the middle of one;
    whatever it had created by then carries the mark and the lease by which garbage
    collection (pkg/gc/gc.go) finds it. *)

From Stdlib Require Import ZArith Lia Ascii String.
From stdpp Require Import base option list gmap strings.
From S2P Require Import Prelude GoStrings Calendar Rfc3339 Spec World Interfaces Poll Keeps Sandboxes Lifecycle Docker DockerFacts Restoring Drill DrillKeeps Tenancy System DockerTenancy.
From S2P Require Verify Source Sign Gc GcFacts Postgres Mysql Mongodb Disk Evidence.

(** * The daemon's ledger

    What is on the daemon: the containers with their labels, the networks with
    their names. A creation or a removal whose answer is an error may have
    happened all the same. *)

Class Ledger {D} {CK : Verify.Clock D} (api : DockerAPI D) : Type := {
  ctrs : D -> gmap string (gmap string string);
  nets : D -> gmap string string;
  ContainerCreate_ledger s d : let d' := snd (ContainerCreate api s d) in nets d' = nets d /\
    (ctrs d' = ctrs d \/ exists id, ctrs d' = <[id := Labels s]> (ctrs d));
  NetworkCreate_ledger n d : let d' := snd (NetworkCreate api n d) in ctrs d' = ctrs d /\
    (nets d' = nets d \/ exists id, nets d' = <[id := n]> (nets d));
  ContainerRemove_ledger c id d : let d' := snd (ContainerRemove api c id d) in nets d' = nets d /\
    ctrs d' ⊆ ctrs d /\ (fst (ContainerRemove api c id d) = None -> ctrs d' !! id = None);
  NetworkRemove_ledger c id d : let d' := snd (NetworkRemove api c id d) in ctrs d' = ctrs d /\
    nets d' ⊆ nets d /\ (fst (NetworkRemove api c id d) = None -> nets d' !! id = None);
  ContainerList_all d cs id l : fst (ContainerList api d) = Ok cs -> ctrs d !! id = Some l ->
    exists c, In c cs /\ c_ID c = id /\ c_Labels c = l;
  NetworkList_all d ns id n : fst (NetworkList api d) = Ok ns -> nets d !! id = Some n ->
    exists c, In c ns /\ n_ID c = id /\ n_Name c = n;
  view d := (ctrs d, nets d);
  ContainerList_reads : silent view (ContainerList api);
  NetworkList_reads : silent view (NetworkList api);
  client_New_reads : silent view (client_New api);
  Ping_reads : silent view (Ping api);
  rand_Read_reads n : silent view (rand_Read api n);
  ImagePull_reads i : silent view (ImagePull api i);
  PullWait_reads i : silent view (PullWait api i);
  ContainerStart_reads i : silent view (ContainerStart api i);
  ContainerInspect_reads i : silent view (ContainerInspect api i);
  ExecCreate_reads i c b : silent view (ExecCreate api i c b);
  ExecAttach_reads i : silent view (ExecAttach api i);
  ExecStream_reads i s : silent view (ExecStream api i s);
  ExecInspect_reads i : silent view (ExecInspect api i);
  Now_reads : silent view Verify.Now;
  Sleep_reads x : silent view (Verify.Sleep x);
  ctx_Err_reads : silent view Verify.ctx_Err
}.

Create HintDb ledger.
#[local] Hint Resolve ContainerList_reads NetworkList_reads client_New_reads Ping_reads rand_Read_reads
  ImagePull_reads PullWait_reads ContainerStart_reads ContainerInspect_reads ExecCreate_reads
  ExecAttach_reads ExecStream_reads ExecInspect_reads Now_reads Sleep_reads ctx_Err_reads : ledger.

(** * Dying

    The daemon hears [k] more requests of the process, and none after that. What
    the code does with the errors from then on happens to nobody. *)

Section Dying.
Context {D : Type} {CK : Verify.Clock D} (api : DockerAPI D).

Definition gone_ : error := ENew "the process is gone".

Definition heard {A} (c : M D A) (silence : A) : M (nat * D) A := fun w =>
  match w with
  | (O, d) => (silence, (O, d))
  | (S k, d) => let '(a, d') := c d in (a, (k, d'))
  end.

Definition aside {N A} (c : M D A) : M (N * D) A := fun w =>
  let '(a, d) := c (snd w) in (a, (fst w, d)).

#[export] Instance dying_clock : Verify.Clock (nat * D) := {|
  Verify.Now := aside Verify.Now; Verify.Sleep x := aside (Verify.Sleep x);
  Verify.ctx_Err := aside Verify.ctx_Err |}.

Definition dying : DockerAPI (nat * D) := {|
  client_New := heard (client_New api) (Some gone_);
  Ping := heard (Ping api) (Some gone_);
  rand_Read n := aside (rand_Read api n);
  NetworkCreate n := heard (NetworkCreate api n) (Err gone_);
  ImagePull i := heard (ImagePull api i) (Some gone_);
  PullWait i := heard (PullWait api i) (Some gone_);
  ParsePort := ParsePort api;
  ContainerCreate s := heard (ContainerCreate api s) (Err gone_);
  ContainerStart i := heard (ContainerStart api i) (Some gone_);
  ContainerInspect i := heard (ContainerInspect api i) (Err gone_);
  ContainerRemove c i := heard (ContainerRemove api c i) (Some gone_);
  NetworkRemove c i := heard (NetworkRemove api c i) (Some gone_);
  ContainerList := heard (ContainerList api) (Err gone_);
  NetworkList := heard (NetworkList api) (Err gone_);
  ExecCreate i c b := heard (ExecCreate api i c b) (Err gone_);
  ExecAttach i := heard (ExecAttach api i) (Err gone_);
  ExecStream i s := heard (ExecStream api i s) ([], Some gone_);
  ExecInspect i := heard (ExecInspect api i) (Err gone_) |}.

Context {LG : Ledger api}.

Lemma heard_silent {A} (c : M D A) x : silent view c -> silent (fun w => view (snd w)) (heard c x).
Proof.
  intros Hc v [[|k] d] Hd; [done|]. cbn. specialize (Hc v d Hd). by destruct (c d).
Qed.

Lemma aside_silent {N A} (c : M D A) :
  silent view c -> silent (fun w : N * D => view (snd w)) (aside c).
Proof. intros Hc v [k d] Hd. unfold aside. cbn in *. specialize (Hc v d Hd). by destruct (c d). Qed.

#[local] Hint Resolve heard_silent aside_silent : ledger.

#[local] Obligation Tactic := idtac.

#[export] Program Instance dying_ledger : Ledger dying := {|
  ctrs w := ctrs (snd w); nets w := nets (snd w) |}.
Next Obligation.
  intros s [[|k] d]; cbn; [by split; [|left]|]. pose proof (ContainerCreate_ledger s d) as H.
  by destruct (ContainerCreate api s d).
Qed.
Next Obligation.
  intros s [[|k] d]; cbn; [by split; [|left]|]. pose proof (NetworkCreate_ledger s d) as H.
  by destruct (NetworkCreate api s d).
Qed.
Next Obligation.
  intros c s [[|k] d]; cbn; [by split|]. pose proof (ContainerRemove_ledger c s d) as H.
  by destruct (ContainerRemove api c s d).
Qed.
Next Obligation.
  intros c s [[|k] d]; cbn; [by split|]. pose proof (NetworkRemove_ledger c s d) as H.
  by destruct (NetworkRemove api c s d).
Qed.
Next Obligation.
  intros [[|k] d] cs id l; cbn; [done|]. pose proof (ContainerList_all d cs id l) as H.
  by destruct (ContainerList api d).
Qed.
Next Obligation.
  intros [[|k] d] ns id n; cbn; [done|]. pose proof (NetworkList_all d ns id n) as H.
  by destruct (NetworkList api d).
Qed.
Solve All Obligations with (intros; cbn; auto with ledger).
End Dying.

(** * Being interrupted

    The context the command was started with is cancelled when [k] more requests
    were made under it ([None]: never). A request after that fails without being
    sent; the last one before may be in flight, and then ([lost]) it reaches the
    daemon but its answer is the cancellation all the same. Requests under the
    background context are not touched. *)

Section Interrupted.
Context {D : Type} {CK : Verify.Clock D} (api : DockerAPI D) (lost : bool).

Abbreviation Fused := (option nat * D)%type.

Definition canceled : error := ESentinel "context.Canceled" "context canceled".

Definition asked {A} (call : M D A) (refusal : A) : M Fused A := fun w =>
  match w with
  | (Some O, d) => (refusal, (Some O, d))
  | (Some (S k), d) =>
      let '(a, d') := call d in
      (match k with O => if lost then refusal else a | S _ => a end, (Some k, d'))
  | (None, d) => let '(a, d') := call d in (a, (None, d'))
  end.

(** A call that is given its context. *)
Definition under {A} (c : Ctx) (call : M D A) (refusal : A) : M Fused A :=
  match c with Background => aside call | Inherited => asked call refusal end.

#[export] Instance interruptible_clock : Verify.Clock Fused := {|
  Verify.Now := aside Verify.Now; Verify.Sleep x := aside (Verify.Sleep x);
  Verify.ctx_Err w := match fst w with
                      | Some O => (Some canceled, w)
                      | _ => aside Verify.ctx_Err w
                      end |}.

Definition interruptible : DockerAPI Fused := {|
  client_New := aside (client_New api);
  Ping := asked (Ping api) (Some canceled);
  rand_Read n := aside (rand_Read api n);
  NetworkCreate n := asked (NetworkCreate api n) (Err canceled);
  ImagePull i := asked (ImagePull api i) (Some canceled);
  PullWait i := asked (PullWait api i) (Some canceled);
  ParsePort := ParsePort api;
  ContainerCreate s := asked (ContainerCreate api s) (Err canceled);
  ContainerStart i := asked (ContainerStart api i) (Some canceled);
  ContainerInspect i := asked (ContainerInspect api i) (Err canceled);
  ContainerRemove c i := under c (ContainerRemove api c i) (Some canceled);
  NetworkRemove c i := under c (NetworkRemove api c i) (Some canceled);
  ContainerList := asked (ContainerList api) (Err canceled);
  NetworkList := asked (NetworkList api) (Err canceled);
  ExecCreate i c b := asked (ExecCreate api i c b) (Err canceled);
  ExecAttach i := asked (ExecAttach api i) (Err canceled);
  ExecStream i s := asked (ExecStream api i s) ([], Some canceled);
  ExecInspect i := asked (ExecInspect api i) (Err canceled) |}.

(** What becomes of a request: refused, answered, or carried out unheard. *)
Lemma asked_cases {A} (call : M D A) x w a w' :
  asked call x w = (a, w') ->
  (a = x /\ snd w' = snd w) \/
  (exists d', call (snd w) = (a, d') /\ snd w' = d') \/
  (lost = true /\ a = x /\ snd w' = snd (call (snd w))).
Proof.
  destruct w as [[[|k]|] d]; cbn; [intros [= <- <-]; by left| |].
  - destruct (call d) as [b d'] eqn:E. intros [= <- <-]. cbn.
    destruct k; [|right; left; eauto]. destruct lost; [by right; right|right; left; eauto].
  - destruct (call d) as [b d'] eqn:E. intros [= <- <-]. right. left. eauto.
Qed.

Lemma under_cases {A} c (call : M D A) x w a w' :
  under c call x w = (a, w') ->
  (a = x /\ snd w' = snd w) \/
  (exists d', call (snd w) = (a, d') /\ snd w' = d') \/
  (lost = true /\ a = x /\ snd w' = snd (call (snd w))).
Proof.
  destruct c; [|apply asked_cases]. cbn. unfold aside. destruct (call (snd w)) as [b d'] eqn:E.
  intros [= <- <-]. right. left. eauto.
Qed.

Section Silent.
Context {V : Type} (f : D -> V).

Lemma asked_silent {A} (call : M D A) x : silent f call -> silent (fun w => f (snd w)) (asked call x).
Proof.
  intros Hc v w Hw. destruct (asked call x w) as [a w'] eqn:E. cbn.
  apply asked_cases in E as [[_ ->]|[(d' & H & ->)|(_ & _ & ->)]]; [done| |by apply Hc].
  specialize (Hc v _ Hw). by rewrite H in Hc.
Qed.

Lemma passed_silent {A} (call : M D A) : silent f call -> silent (fun w : Fused => f (snd w)) (aside call).
Proof. intros Hc v [k d] Hd. unfold aside. cbn in *. specialize (Hc v d Hd). by destruct (call d). Qed.

Lemma ctx_Err_silent : silent f Verify.ctx_Err -> silent (fun w : Fused => f (snd w)) Verify.ctx_Err.
Proof.
  intros Hc v w Hw. cbn. destruct (fst w) as [[|k]|]; [done|by apply passed_silent..].
Qed.
End Silent.

(** Requests whose answers may be lost still leave only what the ledger says. *)
#[local] Obligation Tactic := idtac.

Context {LG : Ledger api}.

Lemma asked_reads {A} (call : M D A) x :
  silent view call -> silent (fun w => view (snd w)) (asked call x).
Proof. apply (asked_silent view). Qed.

Lemma passed_reads {A} (call : M D A) :
  silent view call -> silent (fun w : Fused => view (snd w)) (aside call).
Proof. apply (passed_silent view). Qed.

Lemma ctx_Err_view :
  silent view Verify.ctx_Err -> silent (fun w : Fused => view (snd w)) Verify.ctx_Err.
Proof. apply (ctx_Err_silent view). Qed.

#[local] Hint Resolve asked_reads passed_reads ctx_Err_view : ledger.

#[export] Program Instance interruptible_ledger : Ledger interruptible := {|
  ctrs w := ctrs (snd w); nets w := nets (snd w) |}.
Next Obligation.
  intros s w. cbn. destruct (asked _ _ w) as [a w'] eqn:E. cbn. pose proof (ContainerCreate_ledger s (snd w)) as H.
  apply asked_cases in E as [[_ ->]|[(d' & Hd & ->)|(_ & _ & ->)]]; [by split; [|left]| |done].
  by rewrite Hd in H.
Qed.
Next Obligation.
  intros s w. cbn. destruct (asked _ _ w) as [a w'] eqn:E. cbn. pose proof (NetworkCreate_ledger s (snd w)) as H.
  apply asked_cases in E as [[_ ->]|[(d' & Hd & ->)|(_ & _ & ->)]]; [by split; [|left]| |done].
  by rewrite Hd in H.
Qed.
Next Obligation.
  intros c s w. cbn. destruct (under c _ _ w) as [a w'] eqn:E. cbn.
  pose proof (ContainerRemove_ledger c s (snd w)) as (H1 & H2 & H3).
  apply under_cases in E as [[-> ->]|[(d' & Hd & ->)|(_ & -> & ->)]]; [done| |done]. by rewrite Hd in H1, H2, H3.
Qed.
Next Obligation.
  intros c s w. cbn. destruct (under c _ _ w) as [a w'] eqn:E. cbn.
  pose proof (NetworkRemove_ledger c s (snd w)) as (H1 & H2 & H3).
  apply under_cases in E as [[-> ->]|[(d' & Hd & ->)|(_ & -> & ->)]]; [done| |done]. by rewrite Hd in H1, H2, H3.
Qed.
Next Obligation.
  intros w cs id l. cbn. destruct (asked _ _ w) as [a w'] eqn:E. cbn. intros ->.
  apply asked_cases in E as [[? _]|[(d' & Hd & _)|(_ & ? & _)]]; [done| |done].
  apply ContainerList_all. by rewrite Hd.
Qed.
Next Obligation.
  intros w cs id l. cbn. destruct (asked _ _ w) as [a w'] eqn:E. cbn. intros ->.
  apply asked_cases in E as [[? _]|[(d' & Hd & _)|(_ & ? & _)]]; [done| |done].
  apply NetworkList_all. by rewrite Hd.
Qed.
Solve All Obligations with (intros; cbn; auto with ledger).
End Interrupted.

(** When no answer is lost, the daemon's contract carries over: a refused request
    is one that failed without effect. *)
Section InterruptedLaws.
Context {D : Type} {CK : Verify.Clock D} (api : DockerAPI D) {DL : DockerLaws api}.

Lemma asked_answered {A} (call : M D A) x w a w' :
  asked false call x w = (a, w') ->
  (a = x /\ snd w' = snd w) \/ call (snd w) = (a, snd w').
Proof.
  intros [?|[(d' & ? & ->)|(? & _)]]%asked_cases; [by left|by right|done].
Qed.

Lemma under_answered {A} c (call : M D A) x w a w' :
  under false c call x w = (a, w') ->
  (a = x /\ snd w' = snd w) \/ call (snd w) = (a, snd w').
Proof.
  intros [?|[(d' & ? & ->)|(? & _)]]%under_cases; [by left|by right|done].
Qed.

(** Removals under the background context still work. *)
Lemma interruptible_removals lost : removals_work api -> removals_work (interruptible api lost).
Proof.
  intros [HC HN]. split; intros id [f d]; cbn; unfold aside; cbn.
  - specialize (HC id d). by destruct (ContainerRemove api Background id d).
  - specialize (HN id d). by destruct (NetworkRemove api Background id d).
Qed.

(** The calls that change nothing still change nothing. *)
Definition quietly {W A} (f : W -> gset string * gset string) (call : M W A) : Prop :=
  forall r, keeps (fun w => f w = r) call.

Lemma quiet_asked {A} (call : M D A) x :
  quietly resources call -> quietly (fun w => resources (snd w)) (asked false call x).
Proof. apply (asked_silent false resources). Qed.

Lemma quiet_passed {A} (call : M D A) :
  quietly resources call -> quietly (fun w : option nat * D => resources (snd w)) (aside call).
Proof. apply (passed_silent resources). Qed.

Lemma quiet_ctx_Err :
  quietly (fun w : option nat * D => resources (snd w)) (Verify.ctx_Err (Clock := interruptible_clock)).
Proof. apply (ctx_Err_silent resources). intros r. apply ctx_Err_quiet. Qed.

#[local] Obligation Tactic := idtac.

#[export] Program Instance interruptible_laws : DockerLaws (interruptible api false) := {|
  containers w := containers (snd w); networks w := networks (snd w) |}.
Next Obligation.
  intros n w r w' [[-> E]|E]%asked_answered; [cbn; by rewrite E|by apply NetworkCreate_spec in E].
Qed.
Next Obligation.
  intros s w r w' [[-> E]|E]%asked_answered; [cbn; by rewrite E|by apply ContainerCreate_spec in E].
Qed.
Next Obligation. intros c id w w' [[? _]|E]%under_answered; [done|by apply ContainerRemove_spec in E]. Qed.
Next Obligation. intros c id w w' [[? _]|E]%under_answered; [done|by apply NetworkRemove_spec in E]. Qed.
Next Obligation.
  intros c id w r w' [[_ E]|E]%under_answered; [cbn; rewrite E; set_solver|by apply ContainerRemove_only in E].
Qed.
Next Obligation.
  intros c id w r w' [[_ E]|E]%under_answered; [cbn; rewrite E; set_solver|by apply NetworkRemove_only in E].
Qed.
Solve All Obligations with
  (intros; match goal with r : _ |- _ => revert r end;
   first [exact quiet_ctx_Err|apply quiet_asked|apply quiet_passed]; intros r; auto with keeps).
End InterruptedLaws.

(** * What a drill leaves on the ledger *)

Section Traces.
Context {D : Type} {CK : Verify.Clock D} (api : DockerAPI D) {LG : Ledger api}.

#[local] Instance Own_crash : Owner Sandbox D := Docker_Owner api.

Abbreviation St := (Proc Sandbox D).

(** The marks by which a sweep knows a sandbox, and when it may go: a TTL after
    its creation. *)
Definition leased (ttl : Duration) (l : gmap string string) : Prop :=
  Gc.label l "firedrill" = "sandbox" /\
  exists t, Gc.label l Gc.ExpiresAtLabel = fmt_RFC3339 (Add t ttl).

(** Since [d0] nothing was added but leased containers and networks of drills. *)
Definition traces (ttl : Duration) (d0 d : D) : Prop :=
  (forall id l, ctrs d !! id = Some l -> ctrs d0 !! id = Some l \/ leased ttl l) /\
  (forall id n, nets d !! id = Some n -> nets d0 !! id = Some n \/ HasPrefix n "firedrill-" = true).

Lemma traces_refl ttl d : traces ttl d d.
Proof. split; auto. Qed.

(** A lease is a time, whatever TTL it was reckoned from. *)
Lemma leased_any ttl ttl' l : leased ttl l -> leased ttl' l.
Proof.
  intros (Hs & t & Ht). split; [done|]. exists (t + ttl - ttl'). rewrite Ht. f_equal. unfold Add. lia.
Qed.

Lemma traces_any ttl ttl' d0 d : traces ttl d0 d -> traces ttl' d0 d.
Proof.
  intros [Hc Hn]. split; [|done]. intros id l Hl. destruct (Hc id l Hl); [by left|right].
  by eapply leased_any.
Qed.

Context (ttl : Duration) (d0 : D).

Lemma traces_silent {A} (c : M D A) : silent view c -> keeps (traces ttl d0) c.
Proof.
  intros Hc d Hd. pose proof (Hc (view d) d eq_refl) as Hv. injection Hv as H1 H2.
  unfold traces. by rewrite H1, H2.
Qed.

Lemma create_traces s : leased ttl (Labels s) -> keeps (traces ttl d0) (ContainerCreate api s).
Proof.
  intros Hs d [Hc Hn]. destruct (ContainerCreate_ledger s d) as [H1 H2]. unfold traces. rewrite H1.
  split; [|done]. destruct H2 as [->|(i & ->)]; [done|]. intros id l.
  destruct (decide (id = i)) as [->|Hi]; [rewrite lookup_insert_eq; intros [= <-]; by right|].
  rewrite lookup_insert_ne by done. apply Hc.
Qed.

Lemma network_traces n : HasPrefix n "firedrill-" = true -> keeps (traces ttl d0) (NetworkCreate api n).
Proof.
  intros Hs d [Hc Hn]. destruct (NetworkCreate_ledger n d) as [H1 H2]. unfold traces. rewrite H1.
  split; [done|]. destruct H2 as [->|(i & ->)]; [done|]. intros id m.
  destruct (decide (id = i)) as [->|Hi]; [rewrite lookup_insert_eq; intros [= <-]; by right|].
  rewrite lookup_insert_ne by done. apply Hn.
Qed.

Lemma remove_container_traces c id : keeps (traces ttl d0) (ContainerRemove api c id).
Proof.
  intros d [Hc Hn]. destruct (ContainerRemove_ledger c id d) as (H1 & H2 & _). unfold traces. rewrite H1.
  split; [|done]. intros i l Hi. apply Hc. by eapply lookup_weaken.
Qed.

Lemma remove_network_traces c id : keeps (traces ttl d0) (NetworkRemove api c id).
Proof.
  intros d [Hc Hn]. destruct (NetworkRemove_ledger c id d) as (H1 & H2 & _). unfold traces. rewrite H1.
  split; [done|]. intros i n Hi. apply Hn. by eapply lookup_weaken.
Qed.

(** ** The provider *)

Definition marks (w : St) : Prop := traces ttl d0 (ext w).

Lemma marks_on_world {A} (c : M D A) : keeps (traces ttl d0) c -> keeps marks (on_world c).
Proof. intros Hc w Hw. unfold marks. rewrite on_world_run. by apply Hc. Qed.

Lemma marks_modify p f : keeps marks (modify p f).
Proof. intros w Hw. unfold modify. by destruct (load p w). Qed.

Lemma marks_alloc s : keeps marks (alloc s).
Proof. by intros w Hw. Qed.

Lemma traces_remove c s : keeps (traces ttl d0) (remove_sandbox api c s).
Proof.
  unfold remove_sandbox, remove_container, remove_network. apply keeps_bind.
  - destruct (negb _); [|apply keeps_ret]. apply keeps_bind; [apply remove_container_traces|].
    intros; apply keeps_ret.
  - intros e. destruct (negb _); [|apply keeps_ret].
    apply keeps_bind; [apply remove_network_traces|]. intros; apply keeps_ret.
Qed.

Lemma marks_Destroy c p : keeps marks (Destroy c p).
Proof.
  intros w Hw. unfold Destroy. destruct (load p w) as [s|]; [|done]. destruct (once _); [done|].
  pose proof (traces_remove c s (ext w) Hw) as H. change (remove_sandbox api c s) with (remove c s) in H.
  by destruct (remove c s (ext w)).
Qed.

Lemma traces_failing pre c : keeps (traces ttl d0) c -> keeps (traces ttl d0) (failing pre c).
Proof. intros Hc. unfold failing. keeps_auto. Qed.

#[local] Hint Resolve traces_silent marks_on_world marks_modify marks_alloc marks_Destroy
  traces_failing : keeps.
#[local] Hint Extern 3 (silent view _) => solve [auto with ledger] : keeps.

Lemma traces_Exec id cmd stdin : keeps (traces ttl d0) (Exec api id cmd stdin).
Proof. unfold Exec. keeps_auto. Qed.

#[local] Hint Resolve traces_Exec : keeps.

Lemma traces_waitReady id cmds : keeps (traces ttl d0) (waitReady api id cmds).
Proof.
  unfold waitReady. apply keeps_bind; [auto with keeps|]. intros t. apply keeps_bind; [|keeps_auto].
  apply keeps_poll. unfold ready_round.
  apply keeps_bind; [auto with keeps|]. intros now. destruct (negb _); [apply keeps_ret|].
  apply keeps_bind; [auto with keeps|]. intros [e|]; [apply keeps_ret|].
  apply keeps_bind; [|intros []; keeps_auto].
  induction cmds as [|c cmds IH]; cbn [all_ready]; keeps_auto.
Qed.

#[local] Hint Resolve traces_waitReady : keeps.

Lemma container_leased {W} (cfg : Config W) name pw nid port t :
  cfg_TTL cfg = ttl -> leased ttl (Labels (container_spec cfg name pw nid port t)).
Proof. intros <-. split; [done|]. by exists t. Qed.

Lemma sandbox_named drill suffix : HasPrefix (sandbox_name drill suffix) "firedrill-" = true.
Proof. done. Qed.

Lemma marks_start {W} (cfg : Config W) name pw nid p :
  cfg_TTL cfg = ttl -> keeps marks (start_sandbox api cfg name pw nid p).
Proof.
  intros Ht. assert (Hw : forall {A} (c : M D A), silent view c -> keeps marks (on_world c))
    by auto with keeps.
  assert (HN : keeps marks (Verify.Now (W := St))) by (apply Hw; auto with ledger).
  unfold start_sandbox. apply keeps_bind; [auto with keeps|]. intros [u|e]; [|apply keeps_ret].
  apply keeps_bind; [auto with keeps|]. intros [u1|e]; [|apply keeps_ret].
  apply keeps_bind; [apply keeps_ret|]. intros [port|e]; [|apply keeps_ret].
  apply keeps_bind; [done|]. intros now. apply keeps_bind.
  - apply marks_on_world, create_traces. by apply container_leased.
  - keeps_auto.
Qed.

Lemma marks_Provision {W} (cfg : Config W) : cfg_TTL cfg = ttl -> keeps marks (Provision api cfg).
Proof.
  intros Hy. unfold Provision. apply keeps_bind; [auto with keeps|]. intros [u|e]; [|apply keeps_ret].
  apply keeps_bind; [auto with keeps|]. intros [e|]; [apply keeps_ret|].
  apply keeps_bind; [auto with keeps|]. intros suffix. cbv zeta.
  apply keeps_bind; [auto with keeps|]. intros secret.
  apply keeps_bind; [apply marks_on_world, network_traces, sandbox_named|].
  intros [nid|e]; [|apply keeps_ret]. apply keeps_bind; [apply marks_alloc|]. intros p.
  apply keeps_bind; [by apply marks_start|]. intros [u1|e]; [apply keeps_ret|].
  apply keeps_bind; [apply marks_Destroy|intros; apply keeps_ret].
Qed.
End Traces.

(** ** The drill *)

Section KilledDrill.
Context {D : Type} {CD : Verify.Clock D} (api : DockerAPI D) {LG : Ledger api}.

#[local] Instance Own_killed : Owner Sandbox D := Docker_Owner api.

Abbreviation St := (Proc Sandbox D).
Context {CK : Verify.Clock (World St)} {EC : Evidence.EvidenceCodec} {CR : Sign.Crypto}
  {VC : Sign.EnvelopeCodec} (dp : Deps St) (o : Options St) (seek : M St (option error)) (ttl : Duration) (d0 : D).

#[local] Instance FS_killed : Files (World St) := World_Files (os dp) seek.

Definition marked (w : World St) : Prop := marks api ttl d0 (w_ext w).

Lemma marked_on_ext {A} (c : M St A) : keeps (marks api ttl d0) c -> keeps marked (on_ext c).
Proof.
  intros Hc w Hw. unfold marked, on_ext. specialize (Hc (w_ext w) Hw). by destruct (c (w_ext w)).
Qed.

Lemma marked_on_disk {A} (c : M Disk.Disk A) : keeps marked (on_disk c).
Proof. intros w Hw. unfold on_disk. by destruct (c (w_disk w)). Qed.

Lemma marked_on_tmp {A} (c : M Source.Tmp A) : keeps marked (on_tmp c).
Proof. intros w Hw. unfold on_tmp. by destruct (c (w_tmp w)). Qed.

(** A drill in Docker leaves marked things only, whatever the daemon answers. *)
Lemma Run_marked d :
  registry dp = drivers -> docker_Provision dp = lift_provision (docker_provider api) ->
  keeps (marks api ttl d0) seek -> CalmEnv dp o marked ->
  Provider (spec_Sandbox (drill_Spec d)) = "docker" ->
  src_Driver (spec_Source (drill_Spec d)) <> "velero" ->
  TTL (spec_Sandbox (drill_Spec d)) = ttl ->
  keeps marked (Drill.Run dp d o).
Proof.
  intros Hreg Hprov Hseek HE Hd Hv Hy.
  apply (sandbox_Run_calm dp o marked (CE := HE)); [|intros; apply marked_on_tmp| |done].
  { intros A c. apply marked_on_disk. }
  intros drv w Hg Hw. rewrite Hreg in Hg. apply drivers_are in Hg.
  unfold provision. rewrite Hd, Hprov. cbn [String.eqb Ascii.eqb Bool.eqb].
  assert (HP : keeps marked (on_ext (docker_provider api (W := World St) (sandbox_config d drv)))).
  { apply marked_on_ext. unfold docker_provider.
    apply keeps_bind; [by apply marks_Provision|]. intros [p|e]; [by intros u Hu|apply keeps_ret]. }
  unfold lift_provision, mbind, mret. specialize (HP w Hw).
  destruct (on_ext (docker_provider api (sandbox_config d drv)) w) as [[sb|e] w1] eqn:E;
    cbn [fst snd] in *; [|done].
  split; [done|]. intros sb' [= <-].
  assert (Hsb : exists p v, sb = as_sandbox api p v).
  { revert E. unfold on_ext, docker_provider, mbind, mret.
    destruct (Provision api (sandbox_config d drv) (w_ext w)) as [[p|e] v]; [|done].
    intros [= <- _]. eauto. }
  destruct Hsb as (p & v & ->). split; [|apply marked_on_ext, marks_Destroy].
  apply calm_drivers.
  - exact (calm_clock _ _ _ (CalmEnv := HE)).
  - intros path u Hu. exact Hu.
  - by apply marked_on_ext.
  - intros cmd stdin. cbn. apply marked_on_ext. intros u Hu. unfold sandbox_exec.
    destruct (load p u) as [s|]; [|done]. apply marks_on_world; [|done].
    apply traces_Exec.
  - exact Hg.
Qed.
End KilledDrill.

(** * The sweep *)

Section Swept.
Context {D : Type} {CK : Verify.Clock D} (api : DockerAPI D) {LG : Ledger api} (o : Gc.Options).

(** The daemon's removals succeed (under the sweep's own context), and the sweep is a
    real one. *)
Context (Hctr : forall id d, fst (ContainerRemove api Inherited id d) = None)
  (Hnet : forall id d, fst (NetworkRemove api Inherited id d) = None) (Hdry : Gc.DryRun o = false).

(** Removals only take away. *)
Definition within (C : gmap string (gmap string string)) (N : gmap string string) (d : D) : Prop :=
  ctrs d ⊆ C /\ nets d ⊆ N.

Lemma within_silent {A} C N (c : M D A) : silent view c -> keeps (within C N) c.
Proof.
  intros Hc d Hd. pose proof (Hc (view d) d eq_refl) as Hv. injection Hv as H1 H2.
  unfold within. by rewrite H1, H2.
Qed.

Lemma remove_within c C N id : keeps (within C N) (ContainerRemove api c id).
Proof.
  intros d [H1 H2]. destruct (ContainerRemove_ledger c id d) as (E1 & E2 & _). split; [|by rewrite E1].
  by etransitivity.
Qed.

Lemma remove_net_within c C N id : keeps (within C N) (NetworkRemove api c id).
Proof.
  intros d [H1 H2]. destruct (NetworkRemove_ledger c id d) as (E1 & E2 & _). split; [by rewrite E1|].
  by etransitivity.
Qed.

Lemma sweep_container_within C N now res c : keeps (within C N) (Gc.sweep_container api o now res c).
Proof.
  unfold Gc.sweep_container. destruct (negb (String.eqb _ _)); [apply keeps_ret|]. cbv zeta.
  destruct (negb _); [apply keeps_ret|]. destruct (Gc.DryRun o); [apply keeps_ret|].
  apply keeps_bind; [apply remove_within|]. intros; apply keeps_ret.
Qed.

Lemma sweep_network_within C N now res nw : keeps (within C N) (Gc.sweep_network api o now res nw).
Proof.
  unfold Gc.sweep_network. destruct (negb _); [apply keeps_ret|].
  destruct (_ && _); [apply keeps_ret|]. destruct (Gc.DryRun o); [apply keeps_ret|].
  apply keeps_bind; [apply remove_net_within|]. intros; apply keeps_ret.
Qed.

(** A lease that can be read and is over. *)
Definition over (now : Time) (l : gmap string string) : Prop :=
  exists t, Parse_RFC3339 (Gc.label l Gc.ExpiresAtLabel) = Some t /\ t < now.

(** What is listed and expired goes. *)
Lemma sweep_container_takes now res c d :
  Gc.label (c_Labels c) "firedrill" = "sandbox" -> over now (c_Labels c) -> Gc.Force o = false ->
  ctrs (snd (Gc.sweep_container api o now res c d)) !! c_ID c = None.
Proof.
  intros Hl (t & Ht & Hnow) Hf. unfold Gc.sweep_container. rewrite Hl. cbn [String.eqb Ascii.eqb Bool.eqb negb].
  cbv zeta. assert (He : Gc.expired o (Gc.label (c_Labels c) Gc.ExpiresAtLabel)
                           (c_Created c * Prelude.Second) now = true).
  { unfold Gc.expired. rewrite Hf. destruct (Gc.label _ Gc.ExpiresAtLabel) as [|a s]; [done|].
    rewrite Ht. cbn [is_empty negb andb]. by apply Z.ltb_lt. }
  rewrite He, Hdry. cbn [negb]. unfold mbind, mret. destruct (ContainerRemove_ledger Inherited (c_ID c) d) as (_ & _ & Hgone).
  specialize (Hgone (Hctr _ _)). by destruct (ContainerRemove api Inherited (c_ID c) d).
Qed.

Lemma sweep_network_takes now res nw d :
  HasPrefix (n_Name nw) "firedrill-" = true -> Gc.OlderThan o < Sub now (n_Created nw) ->
  nets (snd (Gc.sweep_network api o now res nw d)) !! n_ID nw = None.
Proof.
  intros Hp Hold. unfold Gc.sweep_network. rewrite Hp, Hdry. cbn [negb].
  rewrite (proj2 (Z.leb_gt _ _) Hold). cbn [andb]. unfold mbind, mret.
  destruct (NetworkRemove_ledger Inherited (n_ID nw) d) as (_ & _ & Hgone).
  specialize (Hgone (Hnet _ _)). by destruct (NetworkRemove api Inherited (n_ID nw) d).
Qed.

(** An item of the fold that brings about what the others keep. *)
Lemma mfold_reaches {W A B} (P : W -> Prop) (f : B -> A -> M W B) acc xs x w :
  (forall acc y, keeps P (f acc y)) -> In x xs -> (forall acc w, P (snd (f acc x w))) ->
  P (snd (mfold f acc xs w)).
Proof.
  intros Hk Hin Hx. revert acc w. induction xs as [|y xs IH]; intros acc w; [done|].
  cbn [mfold]. unfold mbind. destruct Hin as [->|Hin].
  - specialize (Hx acc w). destruct (f acc x w) as [acc' w']. cbn [snd] in Hx.
    apply (keeps_mfold P f acc' xs); [intros; apply Hk|done].
  - destruct (f acc y w) as [acc' w']. by apply IH.
Qed.

Lemma missing_kept id {A} (c : M D A) :
  (forall C N, keeps (within C N) c) ->
  keeps (fun d => ctrs d !! id = None) c /\ keeps (fun d => nets d !! id = None) c.
Proof.
  intros Hc. split; intros d Hd; destruct (Hc (ctrs d) (nets d) d) as [H1 H2]; try done;
    by eapply lookup_weaken_None.
Qed.

(** The networks the sweep is shown, once it has removed containers. *)
Definition networks_seen (d : D) : list NetworkSummary :=
  let '(now, d1) := Verify.Now (GcFacts.sweep_start api d) in
  match ContainerList api d1 with
  | (Err _, _) => []
  | (Ok cs, d2) =>
      match fst (NetworkList api (snd (mfold (Gc.sweep_container api o now) Gc.empty_result cs d2))) with
      | Ok ns => ns
      | Err _ => []
      end
  end.

(** The two passes: what is listed, marked and old enough is gone after it. *)
Lemma containers_pass now cs d d1 :
  ContainerList api d = (Ok cs, d1) -> Gc.Force o = false ->
  (forall id l, ctrs d !! id = Some l -> Gc.label l "firedrill" = "sandbox" -> over now l) ->
  let d2 := snd (mfold (Gc.sweep_container api o now) Gc.empty_result cs d1) in
  within (ctrs d) (nets d) d2 /\
  forall id l, ctrs d !! id = Some l -> Gc.label l "firedrill" = "sandbox" -> ctrs d2 !! id = None.
Proof.
  intros Hlist Hf Hover d2. pose proof (ContainerList_reads (view d) d eq_refl) as V.
  pose proof (ContainerList_all d cs) as Hall. rewrite Hlist in V, Hall. injection V as E1 E2. split.
  - apply keeps_mfold; [intros; apply sweep_container_within|]. unfold within. by rewrite E1, E2.
  - intros id l Hid Hl. destruct (Hall id l eq_refl Hid) as (c & Hin & <- & <-).
    apply (mfold_reaches (fun d => ctrs d !! c_ID c = None) _ _ _ c); [|done|].
    + intros acc y. apply missing_kept. intros; apply sweep_container_within.
    + intros acc w. apply sweep_container_takes; [done| |done]. by eapply Hover.
Qed.

Lemma networks_pass now res ns d d1 :
  NetworkList api d = (Ok ns, d1) ->
  (forall nw, In nw ns -> Gc.OlderThan o < Sub now (n_Created nw)) ->
  let d2 := snd (mfold (Gc.sweep_network api o now) res ns d1) in
  within (ctrs d) (nets d) d2 /\
  forall id n, nets d !! id = Some n -> HasPrefix n "firedrill-" = true -> nets d2 !! id = None.
Proof.
  intros Hlist Hold d2. pose proof (NetworkList_reads (view d) d eq_refl) as V.
  pose proof (NetworkList_all d ns) as Hall. rewrite Hlist in V, Hall. injection V as E1 E2. split.
  - apply keeps_mfold; [intros; apply sweep_network_within|]. unfold within. by rewrite E1, E2.
  - intros id n Hid Hl. destruct (Hall id n eq_refl Hid) as (c & Hin & <- & <-).
    apply (mfold_reaches (fun d => nets d !! n_ID c = None) _ _ _ c); [|done|].
    + intros acc y. apply missing_kept. intros; apply sweep_network_within.
    + intros acc w. apply sweep_network_takes; [done|]. by apply Hold.
Qed.

(** A sweep without an error, after the leases and the networks' age: of what
    came after [d0], nothing is left. *)
Lemma SweepDocker_collects ttl d0 d res d' :
  traces api ttl d0 d -> Gc.SweepDocker api o d = ((Some res, None), d') -> Gc.Force o = false ->
  let now := fst (Verify.Now (GcFacts.sweep_start api d)) in
  (forall id l, ctrs d !! id = Some l -> Gc.label l "firedrill" = "sandbox" -> over now l) ->
  (forall nw, In nw (networks_seen d) -> Gc.OlderThan o < Sub now (n_Created nw)) ->
  within (ctrs d0) (nets d0) d'.
Proof.
  intros [Hc0 Hn0] H Hf now Hover Hold. subst now. unfold Gc.SweepDocker in H.
  unfold networks_seen, GcFacts.sweep_start in *.
  assert (Hv : forall {A} (c : M D A) d, silent view c -> view (snd (c d)) = view d)
    by (intros A c d1 Hc; by apply (Hc (view d1) d1)).
  unfold mbind at 1 in H. pose proof (Hv _ _ d client_New_reads) as V1.
  destruct (client_New api d) as [[e|] d1]; cbn [snd] in *; [done|].
  unfold mbind at 1 in H. pose proof (Hv _ _ d1 Ping_reads) as V2.
  destruct (Ping api d1) as [[e|] d2]; cbn [snd] in *; [done|].
  unfold mbind at 1 in H. pose proof (Hv _ _ d2 Now_reads) as V3.
  destruct (Verify.Now d2) as [now d3]; cbn [fst snd] in *.
  assert (V : view d3 = view d) by congruence. injection V as E1 E2. rewrite <- E1 in Hover.
  unfold mbind at 1 in H. destruct (ContainerList api d3) as [[cs|e] d4] eqn:El; [|done].
  destruct (containers_pass now cs d3 d4 El Hf Hover) as [[C5 N5] Hgone].
  unfold mbind at 1 in H. destruct (mfold _ Gc.empty_result cs d4) as [res1 d5]. cbn [snd] in *.
  unfold mbind at 1 in H. destruct (NetworkList api d5) as [[ns|e] d6] eqn:En; [|done]. cbn [fst] in Hold.
  destruct (networks_pass now res1 ns d5 d6 En Hold) as [[C7 N7] Hgone2]. unfold mbind, mret in H.
  destruct (mfold _ res1 ns d6) as [res2 d7]. injection H as _ <-. cbn [snd] in *. rewrite E1 in *. rewrite E2 in *.
  split; apply map_subseteq_spec; intros id x Hx.
  - pose proof (lookup_weaken _ _ _ _ Hx C7) as Hx5. pose proof (lookup_weaken _ _ _ _ Hx5 C5) as Hxd.
    destruct (Hc0 id x Hxd) as [|[Hl _]]; [done|]. rewrite (Hgone id x Hxd Hl) in Hx5. done.
  - pose proof (lookup_weaken _ _ _ _ Hx N7) as Hx5. pose proof (lookup_weaken _ _ _ _ Hx5 N5) as Hxd.
    destruct (Hn0 id x Hxd) as [|Hl]; [done|]. rewrite (Hgone2 id x Hx5 Hl) in Hx. done.
Qed.
End Swept.
