(* ===== verification/Instances.v ===== *)
(** Concrete instances of the interfaces, small enough to compute with: they
    show that the laws the theorems assume can hold together, and give the
    concrete inputs the properties are checked on. *)

From Stdlib Require Import ZArith Lia Ascii String SpecFloat.
From stdpp Require Import base option list gmap countable strings.
From S2P Require Import Prelude GoStrings Paths Float64 Calendar Encoding Spec Disk Evidence World Interfaces Drill.
From S2P Require Verify Source Sign SignFacts Metrics Notify.

(** * Cryptography

    A "signature" is the public key followed by the message. *)

Definition pad32 (s : string) : string := take_bytes 32 (s +:+ repeat_string "0" 32).

Lemma pad32_length s : String.length (pad32 s) = 32%nat.
Proof.
  unfold pad32. rewrite take_bytes_length, slen_app, repeat_string_length.
  cbn [String.length]. lia.
Qed.

#[export] Instance toy_crypto : Sign.Crypto := {|
  Sign.ed_Public k := pad32 k;
  Sign.ed_Sign k m := pad32 k +:+ m;
  Sign.ed_Verify p m s := String.eqb s (p +:+ m);
  Sign.sha256 m := pad32 m;
  Sign.ed_Public_size k _ := pad32_length k;
  Sign.ed_Verify_Sign k m _ := String.eqb_refl (pad32 k +:+ m);
  Sign.sha256_size m := pad32_length m
|}.

(** * Codecs

    Fields in hexadecimal, separated by commas. *)

Definition comma : ascii := ","%char.

Fixpoint fields (xs : list string) : string :=
  match xs with
  | [] => EmptyString
  | x :: r => hex_Encode x +:+ String comma (fields r)
  end.

#[global] Arguments fields : simpl never.

Fixpoint unfields (fuel : nat) (s : string) : list string :=
  match fuel, s with
  | O, _ | _, EmptyString => []
  | S k, _ =>
      let '(x, r, _) := Cut s comma in default EmptyString (hex_Decode x) :: unfields k r
  end.

Lemma hex_no_comma s : IndexByte comma (hex_Encode s) = false.
Proof.
  induction s as [|c s IH]; [done|]. cbn [hex_Encode IndexByte].
  pose proof (byte_val_range c) as Hr. rewrite IH.
  assert (Hc : forall v, 0 <= v < 16 -> Ascii.eqb (hex_char true v) comma = false).
  { intros v Hv. assert (Hn : exists n, (n < 16)%nat /\ v = Z.of_nat n) by (exists (Z.to_nat v); lia).
    destruct Hn as (n & Hn & ->). do 16 (destruct n as [|n]; [reflexivity|]). lia. }
  rewrite !Hc; [done| |]; sextet.
Qed.

Lemma unfields_fields xs : unfields (List.length xs) (fields xs) = xs.
Proof.
  induction xs as [|x xs IH]; [done|]. cbn [List.length].
  change (fields (x :: xs)) with (hex_Encode x +:+ String comma (fields xs)).
  assert (Hu : unfields (S (List.length xs)) (hex_Encode x +:+ String comma (fields xs)) =
    default EmptyString (hex_Decode (hex_Encode x)) :: unfields (List.length xs) (fields xs)).
  { cbn [unfields]. destruct (hex_Encode x +:+ String comma (fields xs)) eqn:E.
    - apply (f_equal String.length) in E. rewrite slen_app in E. simpl in E. lia.
    - rewrite <- E, Cut_app by apply hex_no_comma. done. }
  rewrite Hu, IH, hex_roundtrip. done.
Qed.

Lemma unfields_n n xs : n = List.length xs -> unfields n (fields xs) = xs.
Proof. intros ->. apply unfields_fields. Qed.

Definition toy_marshal_sig (s : Sign.Signature) : result string :=
  Ok (fields [Sign.Algorithm s; Sign.PublicKey s; Sign.KeyFingerprint s; Sign.sig_Signature s]).

Definition toy_unmarshal_sig (t : string) : result Sign.Signature :=
  match unfields 4 t with
  | [a; p; k; s] => Ok {| Sign.Algorithm := a; Sign.PublicKey := p; Sign.KeyFingerprint := k;
                          Sign.sig_Signature := s |}
  | _ => Err (ENew "not a signature")
  end.

Lemma Ok_inj {A} (a b : A) : Ok a = Ok b -> a = b.
Proof. congruence. Qed.

(** Statements with one subject and a SHA-256 digest; others are refused. *)
Definition one_subject (n h : string) : list Sign.subject :=
  [{| Sign.sub_Name := n; Sign.Digest := {["sha256" := h]} |}].

Definition toy_marshal_statement (s : Sign.statement) : result string :=
  match Sign.Subject s with
  | [sub] =>
      let h := default EmptyString (Sign.Digest sub !! "sha256") in
      if decide (Sign.Digest sub = {["sha256" := h]})
      then Ok (fields [Sign.st_Type s; Sign.sub_Name sub; h; Sign.st_PredicateType s;
                       Sign.Predicate s])
      else Err (ENew "unsupported statement")
  | _ => Err (ENew "unsupported statement")
  end.

Definition toy_unmarshal_statement (t : string) : result Sign.statement :=
  match unfields 5 t with
  | [ty; n; h; pt; p] =>
      Ok {| Sign.st_Type := ty; Sign.Subject := one_subject n h; Sign.st_PredicateType := pt;
            Sign.Predicate := p |}
  | _ => Err (ENew "not a statement")
  end.

Definition toy_marshal_envelope (e : Sign.envelope) : result string :=
  match Sign.Signatures e with
  | [s] => Ok (fields [Sign.PayloadType e; Sign.Payload e; Sign.KeyID s; Sign.Sig s])
  | _ => Err (ENew "unsupported envelope")
  end.

Definition toy_unmarshal_envelope (t : string) : result Sign.envelope :=
  match unfields 4 t with
  | [ty; p; k; s] =>
      Ok {| Sign.PayloadType := ty; Sign.Payload := p;
            Sign.Signatures := [{| Sign.KeyID := k; Sign.Sig := s |}] |}
  | _ => Err (ENew "not an envelope")
  end.

Lemma toy_statement_roundtrip s t :
  toy_marshal_statement s = Ok t ->
  exists s', toy_unmarshal_statement t = Ok s' /\ Sign.same_statement s' s.
Proof.
  unfold toy_marshal_statement. destruct s as [ty subs pt p]. cbn [Sign.Subject].
  destruct subs as [|[n dg] [|]]; try done.
  cbn [Sign.Digest Sign.sub_Name Sign.st_Type Sign.st_PredicateType Sign.Predicate]. cbv zeta.
  destruct (decide _) as [He|]; [|done].
  intros Ht; apply Ok_inj in Ht; subst t.
  unfold toy_unmarshal_statement. rewrite unfields_n by reflexivity.
  eexists. split; [reflexivity|]. unfold Sign.same_statement, one_subject. cbn [Sign.st_Type Sign.Subject Sign.st_PredicateType]. by rewrite <- He.
Qed.

(** A trailing newline is not looked at. *)
Lemma unfields_trailing xs z : unfields (List.length xs) (fields xs +:+ z) = xs.
Proof.
  induction xs as [|x xs IH]; [by destruct z|]. cbn [List.length].
  change (fields (x :: xs)) with (hex_Encode x +:+ String comma (fields xs)).
  rewrite sapp_assoc. change (String comma (fields xs) +:+ z) with (String comma (fields xs +:+ z)).
  assert (Hu : unfields (S (List.length xs)) (hex_Encode x +:+ String comma (fields xs +:+ z)) =
    default EmptyString (hex_Decode (hex_Encode x)) :: unfields (List.length xs) (fields xs +:+ z)).
  { cbn [unfields]. destruct (hex_Encode x +:+ String comma (fields xs +:+ z)) eqn:E.
    - apply (f_equal String.length) in E. rewrite slen_app in E. simpl in E. lia.
    - rewrite <- E, Cut_app by apply hex_no_comma. done. }
  rewrite Hu, IH, hex_roundtrip. done.
Qed.

Lemma unfields_trailing_n n xs z : n = List.length xs -> unfields n (fields xs +:+ z) = xs.
Proof. intros ->. apply unfields_trailing. Qed.

Lemma toy_envelope_roundtrip e t :
  toy_marshal_envelope e = Ok t -> toy_unmarshal_envelope (t +:+ nl) = Ok e.
Proof.
  unfold toy_marshal_envelope. destruct e as [ty p [|[k s] [|]]]; try done.
  cbn [Sign.Signatures Sign.KeyID Sign.Sig Sign.PayloadType Sign.Payload].
  intros Ht; apply Ok_inj in Ht; subst t. unfold toy_unmarshal_envelope. by rewrite unfields_trailing_n by reflexivity.
Qed.

Definition toy_pem_Decode (s : string) : option (string * string) :=
  match unfields 2 s with [t; b] => Some (t, b) | _ => None end.

#[local] Obligation Tactic := idtac.

#[export] Program Instance toy_envelopes : Sign.EnvelopeCodec := {|
  Sign.pem_Encode t b := fields [t; b];
  Sign.pem_Decode := toy_pem_Decode;
  Sign.Marshal_sig := toy_marshal_sig;
  Sign.Unmarshal_sig := toy_unmarshal_sig;
  Sign.Marshal_statement := toy_marshal_statement;
  Sign.Unmarshal_statement := toy_unmarshal_statement;
  Sign.Marshal_envelope := toy_marshal_envelope;
  Sign.Unmarshal_envelope := toy_unmarshal_envelope
|}.
Next Obligation. intros t b _. unfold toy_pem_Decode. by rewrite unfields_n by reflexivity. Qed.
Next Obligation.
  intros s _ _ _ _. eexists. split; [reflexivity|]. unfold toy_unmarshal_sig.
  rewrite unfields_n by reflexivity. by destruct s.
Qed.
Next Obligation. intros s t _ _ _. apply toy_statement_roundtrip. Qed.
Next Obligation. intros e t _ _ _. apply toy_envelope_roundtrip. Qed.

(** * Evidence *)

Definition no_backup : EvBackup := {|
  bk_URI := ""; bk_ModTime := 0; bk_AgeSecs := of_int 0; bk_Bytes := 0; bk_ResolvedURI := "";
  bk_Encryption := ""; bk_Compression := ""; bk_UncompressedBytes := 0 |}.

(** A record of a drill, its end and its verdict. *)
Definition record (drill : string) (t : Time) (ok : bool) : Evidence := {|
  ev_Drill := drill; ev_Tool := "firedrill"; StartedAt := t; FinishedAt := t;
  ev_Backup := no_backup; ev_Objectives := {| obj_RTO := "1m0s"; obj_RPO := "1h0m0s" |};
  ev_Measured := {| RestoreSeconds := of_int 1; RTOMet := ok; RPOMet := ok |};
  ev_Sandbox := {| sbx_Provider := "docker"; sbx_Image := "postgres:16"; sbx_Destroyed := true |};
  ev_Checks := if ok then [Verify.mkResult "rowCount" true "7 >= 1"] else [];
  ev_Controls := []; ev_Verified := ok; ev_Error := "" |}.

(** The toy codec keeps the drill, the time and the verdict. *)
Definition toy_canonical (e : Evidence) : result string :=
  Ok (fields [ev_Drill e; itoa (FinishedAt e); if ev_Verified e then "1" else "0"]).

Definition toy_unmarshal (s : string) : result Evidence :=
  match unfields 3 s with
  | [d; t; v] => match parse_digits t with
                 | Some n => Ok (record d n (String.eqb v "1"))
                 | None => Err (ENew "bad time")
                 end
  | _ => Err (ENew "not evidence")
  end.

#[export] Program Instance toy_evidence : EvidenceCodec := {|
  Canonical := toy_canonical;
  Unmarshal_evidence := toy_unmarshal;
  encodable e := 0 <= FinishedAt e /\ e = record (ev_Drill e) (FinishedAt e) (ev_Verified e)
|}.
Next Obligation.
  intros e [Ht He]. eexists. split; [reflexivity|]. unfold toy_unmarshal.
  rewrite unfields_n by reflexivity.
  assert (Hp : parse_digits (itoa (FinishedAt e)) = Some (FinishedAt e)).
  { unfold parse_digits. pose proof (digits_val_itoa _ Ht) as Hd.
    pose proof (itoa_nonempty _ Ht). by destruct (itoa (FinishedAt e)). }
  rewrite Hp, He. cbn. by destruct (ev_Verified e).
Qed.

(** * A codec for whole records

    In which every record survives: each field in a text of its own. *)
Module Full.

(** ** Values as texts *)

Fixpoint bits (p : positive) : string :=
  match p with
  | xH => EmptyString
  | xO p => String "0" (bits p)
  | xI p => String "1" (bits p)
  end.

Fixpoint unbits (s : string) : positive :=
  match s with
  | EmptyString => xH
  | String c s => if Ascii.eqb c "1" then xI (unbits s) else xO (unbits s)
  end.

Lemma unbits_bits p : unbits (bits p) = p.
Proof. induction p as [p IH|p IH|]; cbn; by rewrite ?IH. Qed.

Definition put {A} `{Countable A} (a : A) : string := bits (encode a).
Definition get {A} `{Countable A} (s : string) : option A := decode (unbits s).

Lemma get_put {A} `{Countable A} (a : A) : get (put a) = Some a.
Proof. unfold get, put. by rewrite unbits_bits, decode_encode. Qed.

(** A float is a sign, a mantissa and an exponent, or one of the others. *)
Definition float_parts (x : float64) : option (bool * positive * Z) + bool * bool :=
  match x with
  | S754_finite s m e => inl (Some (s, m, e))
  | S754_nan => inl None
  | S754_zero s => inr (true, s)
  | S754_infinity s => inr (false, s)
  end.

Definition of_parts (p : option (bool * positive * Z) + bool * bool) : float64 :=
  match p with
  | inl (Some (s, m, e)) => S754_finite s m e
  | inl None => S754_nan
  | inr (true, s) => S754_zero s
  | inr (false, s) => S754_infinity s
  end.

Lemma of_float_parts x : of_parts (float_parts x) = x.
Proof. by destruct x. Qed.

Definition put_float (x : float64) : string := put (float_parts x).
Definition get_float (s : string) : option float64 := option_map of_parts (get s).

Lemma get_put_float x : get_float (put_float x) = Some x.
Proof. unfold get_float, put_float. rewrite get_put. cbn. by rewrite of_float_parts. Qed.

Definition check_parts (r : Verify.Result) : string * bool * string * bool :=
  (Verify.res_Name r, Verify.Passed r, Verify.Detail r, Verify.Skipped r).

Definition of_check (p : string * bool * string * bool) : Verify.Result :=
  let '(n, b, d, k) := p in
  {| Verify.res_Name := n; Verify.Passed := b; Verify.Detail := d; Verify.Skipped := k |}.

Definition put_checks (rs : list Verify.Result) : string := put (List.map check_parts rs).
Definition get_checks (s : string) : option (list Verify.Result) :=
  option_map (List.map of_check) (get s).

Lemma get_put_checks rs : get_checks (put_checks rs) = Some rs.
Proof.
  unfold get_checks, put_checks. rewrite get_put. cbn. f_equal.
  induction rs as [|[] rs IH]; [done|]. cbn. by rewrite IH.
Qed.

(** ** Records *)

Definition backup_fields (b : EvBackup) : list string :=
  [bk_URI b; put (bk_ModTime b); put_float (bk_AgeSecs b); put (bk_Bytes b); bk_ResolvedURI b;
   bk_Encryption b; bk_Compression b; put (bk_UncompressedBytes b)].

Definition evidence_fields (e : Evidence) : list string :=
  [ev_Drill e; ev_Tool e; put (StartedAt e); put (FinishedAt e); fields (backup_fields (ev_Backup e));
   obj_RTO (ev_Objectives e); obj_RPO (ev_Objectives e);
   put_float (RestoreSeconds (ev_Measured e)); put (RTOMet (ev_Measured e));
   put (RPOMet (ev_Measured e)); sbx_Provider (ev_Sandbox e); sbx_Image (ev_Sandbox e);
   put (sbx_Destroyed (ev_Sandbox e)); put_checks (ev_Checks e); put (ev_Controls e);
   put (ev_Verified e); ev_Error e].

Definition get_backup (s : string) : option EvBackup :=
  match unfields 8 s with
  | [uri; mt; age; n; ru; enc; comp; un] =>
      mt ← get mt; age ← get_float age; n ← get n; un ← get un;
      Some {| bk_URI := uri; bk_ModTime := mt; bk_AgeSecs := age; bk_Bytes := n;
              bk_ResolvedURI := ru; bk_Encryption := enc; bk_Compression := comp;
              bk_UncompressedBytes := un |}
  | _ => None
  end.

Definition get_evidence (s : string) : option Evidence :=
  match unfields 17 s with
  | [d; tool; st; fin; bk; rto; rpo; secs; rtoMet; rpoMet; prov; img; gone; cs; ctl; ok; err] =>
      st ← get st; fin ← get fin; bk ← get_backup bk; secs ← get_float secs;
      rtoMet ← get rtoMet; rpoMet ← get rpoMet; gone ← get gone; cs ← get_checks cs;
      ctl ← get ctl; ok ← get ok;
      Some {| ev_Drill := d; ev_Tool := tool; StartedAt := st; FinishedAt := fin; ev_Backup := bk;
              ev_Objectives := {| obj_RTO := rto; obj_RPO := rpo |};
              ev_Measured := {| RestoreSeconds := secs; RTOMet := rtoMet; RPOMet := rpoMet |};
              ev_Sandbox := {| sbx_Provider := prov; sbx_Image := img; sbx_Destroyed := gone |};
              ev_Checks := cs; ev_Controls := ctl; ev_Verified := ok; ev_Error := err |}
  | _ => None
  end.

Lemma get_backup_fields b : get_backup (fields (backup_fields b)) = Some b.
Proof.
  unfold get_backup. rewrite unfields_n by reflexivity. unfold backup_fields.
  rewrite !get_put, get_put_float. by destruct b.
Qed.

Lemma get_evidence_fields e : get_evidence (fields (evidence_fields e)) = Some e.
Proof.
  unfold get_evidence. rewrite unfields_n by reflexivity. unfold evidence_fields.
  rewrite !get_put, get_backup_fields, get_put_float, get_put_checks.
  by destruct e as [? ? ? ? ? [] [] []].
Qed.

#[local] Obligation Tactic := idtac.

Program Definition full_evidence : EvidenceCodec := {|
  Canonical e := Ok (fields (evidence_fields e));
  Unmarshal_evidence s := match get_evidence s with
                          | Some e => Ok e
                          | None => Err (ENew "not evidence")
                          end;
  encodable _ := True
|}.
Next Obligation. intros e _. eexists. split; [done|]. by rewrite get_evidence_fields. Qed.
End Full.
