(* ===== verification/Scenario.v ===== *)
(** A concrete drill: one PostgreSQL dump restored into a container by fakes of
    the daemon, the database and the clock. The properties that have hypotheses
    are applied to it. *)

From Stdlib Require Import ZArith Lia Ascii String SpecFloat.
From stdpp Require Import base option list gmap strings.
From S2P Require Import Prelude GoStrings Float64 Calendar Spec Disk Evidence World Interfaces Instances Drill.
From S2P Require Verify Source SourceFacts Sign Metrics Notify.

(** The clock, whether the container is up, and the terminal. *)
Record Ext := { clock : Time; up : bool; terminal : string }.

Abbreviation W := (World Ext).

Definition tick (d : Duration) : M Ext Time := fun x =>
  (clock x, {| clock := clock x + d; up := up x; terminal := terminal x |}).

Definition set_up (b : bool) : M Ext unit := fun x =>
  (tt, {| clock := clock x; up := b; terminal := terminal x |}).

#[export] Instance scenario_clock : Verify.Clock W := {|
  Verify.Now := on_ext (tick Second);
  Verify.Sleep d := let! _ := on_ext (tick (Z.max 0 d)) in mret tt;
  Verify.ctx_Err := mret None
|}.

#[export] Program Instance scenario_clock_laws : Verify.ClockLaws W := {|
  Verify.time_of w := clock (w_ext w)
|}.
Next Obligation. intros w. cbn. unfold Second. lia. Qed.
Next Obligation. intros d w. cbn. lia. Qed.
Next Obligation. intros w. cbn. lia. Qed.

Definition T0 : Time := 1700000000 * Second.

Definition drill1 : Drill := {|
  drill_APIVersion := "firedrill.dev/v1"; drill_Kind := "RecoveryDrill";
  drill_Metadata := {| meta_Name := "payments" |};
  drill_Spec := {|
    Schedule := "";
    spec_Objectives := {| RTO := 15 * Minute; RPO := 24 * Hour |};
    spec_Source := {| src_Driver := "postgres";
      src_From := {| from_Type := "file"; URI := "/backups/p.dump"; CredentialsRef := "";
        Region := ""; Endpoint := ""; MaxBytes := 1000; MaxUncompressedBytes := 0;
        from_Decrypt := None; Select := ""; Match := ""; Backup := ""; from_Namespace := "" |};
      Format := ""; Database := "" |};
    spec_Sandbox := {| Provider := "docker"; Image := "postgres:16"; TTL := Hour;
                       sb_Namespace := "" |};
    Verify := [ {| RestoreSucceeded := Some tt; Freshness := None; RowCount := None;
                   Checksum := None; Smoke := None; Canary := None; PodsReady := None;
                   ResourceCount := None |};
                {| RestoreSucceeded := None; Freshness := None;
                   RowCount := Some {| row_Query := "select count(*) from t"; row_Min := 1 |};
                   Checksum := None; Smoke := None; Canary := None; PodsReady := None;
                   ResourceCount := None |} ];
    spec_Report := {| Spec.Sign := true; HTML := false; Controls := []; Dir := ""; Sinks := [] |}
  |} |}.

Definition sandbox1 : SandboxI W := {|
  Exec _ _ := mret (0, "", None); Host := "127.0.0.1"; HostPort := "5432"; User := "u";
  Password := "p"; DB := "d";
  Destroy _ := let! _ := on_ext (set_up false) in mret None;
  WasDestroyed w := negb (up (w_ext w)) |}.

Definition engine1 : Verify.Engine W := {|
  Verify.Count _ := mret (Ok 7); Verify.Rows _ := mret (Ok 7); Verify.Scalar _ := mret (Ok "token");
  Verify.eng_Checksum _ _ := mret (Ok "sum") |}.

Definition postgres1 : Driver W := {|
  drv_Name := "postgres"; ContainerEnv _ _ _ := []; Port := "5432/tcp"; ReadyCmds _ _ _ := [];
  Restore _ _ _ :=
    let! _ := on_ext (tick (5 * Second)) in
    mret (Restored {| res_Duration := 5 * Second; res_Output := ""; res_Format := "custom";
                      DSN := "" |});
  verification := Verifier (fun _ _ => engine1) |}.

Definition os1 : Source.OS := {|
  Source.Stat p := if String.eqb p "/backups/p.dump"
                   then Ok {| Source.fi_ModTime := T0 - Hour; Source.fi_Size := 3; Source.IsDir := false |}
                   else Err (ErrNotExist p);
  Source.Open p := if String.eqb p "/backups/p.dump" then Ok (Source.string_reader "SQL")
                   else Err (ErrNotExist p);
  Source.ReadDir p := Ok [
    {| Source.de_Name := "old.dump"; Source.de_IsDir := false;
       Source.Info := Ok {| Source.fi_ModTime := 1; Source.fi_Size := 3; Source.IsDir := false |} |};
    {| Source.de_Name := "new.dump"; Source.de_IsDir := false;
       Source.Info := Ok {| Source.fi_ModTime := 2; Source.fi_Size := 3; Source.IsDir := false |} |} ];
  Source.Getenv _ := ""; Source.LookPath _ := Ok "gpg"; Source.Pipe := Ok tt;
  Source.CreateTemp fs _ := match fs !! "/tmp/x" with None => Ok "/tmp/x"
                            | Some _ => Err (ENew "busy") end;
  Source.WriteFault _ := None; Source.CloseFault _ := None; Source.TimeNow := T0 |}.

Lemma os1_fresh : SourceFacts.fresh_temp os1.
Proof.
  intros fs pat name. cbn. destruct (fs !! "/tmp/x") eqn:E; [done|]. by intros [= <-].
Qed.

Definition codecs1 : Source.Codecs := {|
  Source.gzip_NewReader r := Ok r; Source.zstd_NewReader r := Ok r; Source.bzip2_NewReader r := r;
  Source.Identity := unit; Source.ParseIdentities _ := Ok [tt];
  Source.NewScryptIdentity _ := Ok tt;
  Source.armor_Header := "-----BEGIN AGE ENCRYPTED FILE-----"; Source.armor_NewReader r := r;
  Source.age_Decrypt r _ := Ok r; Source.gpg_start _ _ _ r := Ok (r, None);
  Source.Reads _ _ r := List.length (Source.chunks r) |}.

Definition deps1 : Deps Ext := {|
  disk := healthy; codecs := codecs1; os := os1; connect _ := Err (ENew "no network");
  registry := {["postgres" := postgres1]};
  docker_Provision _ := let! _ := on_ext (set_up true) in mret (Ok sandbox1);
  k8s_Provision _ := mret (Err (ENew "no cluster"));
  velero_Prepare _ _ _ _ := mret (Err (ENew "no cluster"));
  sql_Open _ _ := mret (Err (ENew "no driver")); sql_Close _ := mret tt;
  UserHomeDir := Ok "/root"; render_html _ := Ok ""; expose _ := Ok "";
  push _ _ _ _ := mret None; NewRequestErr _ := None;
  http_Do _ := mret (Err (ENew "no network")) |}.

Definition key1 : string := repeat_string "k" 64.

Definition opts1 : Options Ext := {|
  Printer := None; opt_EvidenceDir := "/ev"; opt_KeyDir := "/keys"; opt_Version := "v1" |}.

Definition world1 : W := {|
  w_tmp := ∅;
  w_disk := {[ Sign.privPath "/keys" := Sign.pem_Encode Sign.privPEMType key1 ]};
  w_ext := {| clock := T0; up := false; terminal := "" |} |}.

(** The record the drill returns, and the world it leaves. *)
Definition evidence1 : option Evidence :=
  match fst (Run deps1 drill1 opts1 world1) with Ran e _ _ => e | Panicked => None end.

Definition path1 : string := "/ev/payments-2023-11-14T22-13-28Z-000000000.json".

Example drill1_verified : option_map ev_Verified evidence1 = Some true.
Proof. vm_compute. reflexivity. Qed.

Example drill1_path : match fst (Run deps1 drill1 opts1 world1) with
                      | Ran _ p err => (p, err) | Panicked => ("", None) end = (path1, None).
Proof. vm_compute. reflexivity. Qed.
