(* ===== verification/Fakes.v ===== *)
(** A Docker daemon and a Kubernetes cluster small enough to compute with. They
    satisfy the laws the facts assume, and the properties that have hypotheses
    are applied to them. *)

From Stdlib Require Import ZArith Lia Ascii String.
From stdpp Require Import base option list gmap strings.
From S2P Require Import Prelude GoStrings Calendar Spec Interfaces Poll Keeps Sandboxes Lifecycle Docker DockerFacts Cluster KubernetesFacts VeleroFacts Crash.
From S2P Require Verify Source.

(** * The daemon *)

(** Containers with their labels, networks with their names, and whether
    containers start. *)
Record Daemon := {
  dm_time : Time; dm_containers : gmap string (gmap string string);
  dm_networks : gmap string string;
  dm_starts : bool }.

Definition daemon_at (t : Time) (d : Daemon) : Daemon := {|
  dm_time := t; dm_containers := dm_containers d; dm_networks := dm_networks d;
  dm_starts := dm_starts d |}.

Definition set_containers (c : gmap string (gmap string string)) (d : Daemon) : Daemon := {|
  dm_time := dm_time d; dm_containers := c; dm_networks := dm_networks d;
  dm_starts := dm_starts d |}.

Definition set_networks (n : gmap string string) (d : Daemon) : Daemon := {|
  dm_time := dm_time d; dm_containers := dm_containers d; dm_networks := n;
  dm_starts := dm_starts d |}.

#[export] Instance daemon_clock : Verify.Clock Daemon := {|
  Verify.Now d := (dm_time d, daemon_at (dm_time d + Second) d);
  Verify.Sleep x d := (tt, daemon_at (dm_time d + Z.max 0 x) d);
  Verify.ctx_Err := mret None |}.

#[export] Program Instance daemon_clock_laws : Verify.ClockLaws Daemon := {|
  Verify.time_of := dm_time |}.
Next Obligation. intros d. cbn. unfold Second. lia. Qed.
Next Obligation. intros x d. cbn. lia. Qed.
Next Obligation. intros d. cbn. lia. Qed.

Definition dm_list (cs : gmap string (gmap string string)) : list ContainerSummary :=
  List.map (fun x => {| c_ID := fst x; Names := ["/" +:+ fst x]; c_Labels := snd x; c_Created := 0 |})
    (map_to_list cs).

Lemma dm_list_one id labels c :
  In c (dm_list {[id := labels]}) -> c_ID c = id /\ c_Labels c = labels.
Proof. unfold dm_list. rewrite map_to_list_singleton. by intros [<-|[]]. Qed.

Definition daemon_api : DockerAPI Daemon := {|
  Docker.client_New := mret None;
  Docker.Ping := mret None;
  Docker.rand_Read n := mret (repeat_string "x" n);
  Docker.NetworkCreate n d :=
    if bool_decide (("net-" +:+ n) ∈ dom (dm_networks d)) then (Err (ENew "network exists"), d)
    else (Ok ("net-" +:+ n), set_networks (<["net-" +:+ n := n]> (dm_networks d)) d);
  Docker.ImagePull _ := mret None;
  Docker.PullWait _ := mret None;
  Docker.ParsePort p := Ok p;
  Docker.ContainerCreate s d :=
    if bool_decide (("ctr-" +:+ cs_Name s) ∈ dom (dm_containers d))
    then (Err (ENew "name in use"), d)
    else (Ok ("ctr-" +:+ cs_Name s),
          set_containers (<["ctr-" +:+ cs_Name s := Labels s]> (dm_containers d)) d);
  Docker.ContainerStart _ d :=
    (if dm_starts d then None else Some (ENew "cannot start"), d);
  Docker.ContainerInspect _ := mret (Ok (Some {["5432/tcp" := ["49153"]]}));
  Docker.ContainerRemove _ id d := (None, set_containers (delete id (dm_containers d)) d);
  Docker.NetworkRemove _ id d := (None, set_networks (delete id (dm_networks d)) d);
  Docker.ContainerList d := (Ok (dm_list (dm_containers d)), d);
  Docker.NetworkList d :=
    (Ok (List.map (fun x => {| n_ID := fst x; n_Name := snd x; n_Created := 0 |})
           (map_to_list (dm_networks d))), d);
  Docker.ExecCreate _ _ _ := mret (Ok "exec");
  Docker.ExecAttach _ := mret (Ok tt);
  Docker.ExecStream _ _ := mret ([], None);
  Docker.ExecInspect _ := mret (Ok 0)
|}.

Lemma dm_list_only d cs : fst (ContainerList daemon_api d) = Ok cs -> cs = dm_list (dm_containers d).
Proof. cbn. by intros [= <-]. Qed.

#[export] Program Instance daemon_laws : DockerLaws daemon_api := {|
  containers d := dom (dm_containers d);
  networks d := dom (dm_networks d) |}.
Next Obligation.
  cbn. intros n d r d'. case_bool_decide; intros [= <- <-]; [done|].
  split; [done|]. split; [done|]. split; [|done]. cbn. by rewrite dom_insert_L.
Qed.
Next Obligation.
  cbn. intros s d r d'. case_bool_decide; intros [= <- <-]; [done|].
  split; [done|]. split; [done|]. split; [|done]. cbn. by rewrite dom_insert_L.
Qed.
Next Obligation. cbn. intros _ id d d' [= <-]. cbn. by rewrite dom_delete_L. Qed.
Next Obligation. cbn. intros _ id d d' [= <-]. cbn. by rewrite dom_delete_L. Qed.
Next Obligation. cbn. intros _ id d r d' [= _ <-]. cbn. by rewrite dom_delete_L. Qed.
Next Obligation. cbn. intros _ id d r d' [= _ <-]. cbn. by rewrite dom_delete_L. Qed.
Solve All Obligations with (intros; intros d Hd; exact Hd).

#[export] Program Instance daemon_ledger : Ledger daemon_api := {|
  ctrs := dm_containers; nets := dm_networks |}.
Next Obligation. cbn. intros s d. case_bool_decide; cbn; eauto. Qed.
Next Obligation. cbn. intros n d. case_bool_decide; cbn; eauto. Qed.
Next Obligation.
  cbn. intros _ id d. split; [done|]. split; [apply delete_subseteq|]. intros _. apply lookup_delete_eq.
Qed.
Next Obligation.
  cbn. intros _ id d. split; [done|]. split; [apply delete_subseteq|]. intros _. apply lookup_delete_eq.
Qed.
Next Obligation.
  cbn. intros d cs id l [= <-] Hl. apply elem_of_map_to_list, list_elem_of_In in Hl.
  eexists. split; [by apply (in_map _ _ (id, l))|]. by split.
Qed.
Next Obligation.
  cbn. intros d ns id n [= <-] Hn. apply elem_of_map_to_list, list_elem_of_In in Hn.
  eexists. split; [by apply (in_map _ _ (id, n))|]. by split.
Qed.
Solve All Obligations with (intros; intros v d Hd; exact Hd).

Definition daemon0 (starts : bool) : Daemon := {|
  dm_time := 1700000000 * Second; dm_containers := {["other" := ∅]}; dm_networks := {["bridge" := "bridge"]};
  dm_starts := starts |}.

(** * The cluster *)

(** Pods with their annotations, policies, the namespaces that are up and those
    being deleted, each as it was created, and the phase Velero reports. A
    namespace whose deletion was accepted stays [Terminating] until the clock
    next passes a wait. *)
Record K8s := {
  k_time : Time; k_pods : gmap (string * string) (gmap string string);
  k_policies : gmap (string * string) PolicySpec; k_spaces : gmap string NamespaceSpec;
  k_terminating : gmap string NamespaceSpec; k_phase : string; k_pod_phase : string }.

Definition k_set (t : Time) (p : gmap (string * string) (gmap string string))
  (q : gmap (string * string) PolicySpec) (n : gmap string NamespaceSpec) (k : K8s) : K8s := {|
  k_time := t; k_pods := p; k_policies := q; k_spaces := n; k_terminating := k_terminating k;
  k_phase := k_phase k; k_pod_phase := k_pod_phase k |}.

Definition k_closing (n : gmap string NamespaceSpec) (k : K8s) : K8s := {|
  k_time := k_time k; k_pods := k_pods k; k_policies := k_policies k; k_spaces := k_spaces k;
  k_terminating := n; k_phase := k_phase k; k_pod_phase := k_pod_phase k |}.

Definition k_list (phase : string) (ns : gmap string NamespaceSpec) (created : Time) : list NamespaceMeta :=
  List.map (fun x => {| ns_Name := fst x; ns_Phase := phase; ns_Annotations := nss_Annotations (snd x);
                        ns_Created := created |}) (map_to_list ns).

Lemma k_list_In phase ns t m : In m (k_list phase ns t) -> ns_Phase m = phase /\ ns_Name m ∈ dom ns.
Proof.
  unfold k_list. intros (x & <- & Hx)%in_map_iff. split; [done|].
  apply list_elem_of_In in Hx. destruct x as [n s]. apply elem_of_map_to_list in Hx.
  by apply elem_of_dom_2 in Hx.
Qed.

Definition k_at (t : Time) (k : K8s) : K8s := k_set t (k_pods k) (k_policies k) (k_spaces k) k.

(** The drill's context ends an hour after the epoch of [k8s0]. *)
Definition k_epoch : Time := 1700000000 * Second.

#[export] Instance k8s_clock : Verify.Clock K8s := {|
  Verify.Now k := (k_time k, k_at (k_time k + Second) k);
  Verify.Sleep x k := (tt, k_closing ∅ (k_at (k_time k + Z.max 0 x) k));
  Verify.ctx_Err k :=
    (if k_epoch + Hour <=? k_time k then Some (ENew "context deadline exceeded") else None, k) |}.

#[export] Program Instance k8s_clock_laws : Verify.ClockLaws K8s := {| Verify.time_of := k_time |}.
Next Obligation. intros k. cbn. unfold Second. lia. Qed.
Next Obligation. intros x k. cbn. lia. Qed.
Next Obligation. intros k. cbn. lia. Qed.

Definition exists_err : error := ESentinel "AlreadyExists" "already exists".
Definition missing_err : error := ESentinel "NotFound" "not found".

Definition k_pod_list (ps : gmap (string * string) (gmap string string)) : list PodMeta :=
  List.map (fun x => {| p_Namespace := fst (fst x); p_Name := snd (fst x); p_Annotations := snd x;
                        p_Created := k_epoch |}) (map_to_list ps).

Lemma k_pod_list_one k ann q : In q (k_pod_list {[k := ann]}) -> p_Annotations q = ann.
Proof. unfold k_pod_list. rewrite map_to_list_singleton. by intros [<-|[]]. Qed.

Definition k8s_api : ClusterAPI K8s := {|
  InClusterConfig := mret None;
  ClientConfig := mret None;
  NewForConfig := mret None;
  NewDynamic := mret None;
  Cluster.rand_Read n := mret (repeat_string "x" n);
  IsNotFound := errors_Is "NotFound";
  IsAlreadyExists := errors_Is "AlreadyExists";
  CreateNamespace s k :=
    if bool_decide (nss_Name s ∈ dom (k_spaces k) ∪ dom (k_terminating k)) then (Some exists_err, k)
    else (None, k_set (k_time k) (k_pods k) (k_policies k) (<[nss_Name s := s]> (k_spaces k)) k);
  DeleteNamespace _ n k :=
    match k_spaces k !! n with
    | Some s => (None, k_closing (<[n := s]> (k_terminating k))
                  (k_set (k_time k) (filter (fun x => fst (fst x) <> n) (k_pods k)) (k_policies k)
                         (delete n (k_spaces k)) k))
    | None => (Some missing_err, k)
    end;
  ListNamespaces _ k :=
    (Ok (k_list "Active" (k_spaces k) k_epoch ++ k_list "Terminating" (k_terminating k) k_epoch), k);
  CreatePolicy s k :=
    match k_policies k !! (np_Namespace s, np_Name s) with
    | Some _ => (Some exists_err, k)
    | None => (None, k_set (k_time k) (k_pods k) (<[(np_Namespace s, np_Name s) := s]> (k_policies k))
                       (k_spaces k) k)
    end;
  CreatePod s k := (None, k_set (k_time k)
    (<[(pod_Namespace s, pod_Name s) := pod_Annotations s]> (k_pods k)) (k_policies k) (k_spaces k) k);
  GetPod _ _ k := (Ok {| st_Phase := k_pod_phase k; PodIP := "10.0.0.7" |}, k);
  DeletePod _ ns n k :=
    if bool_decide ((ns, n) ∈ dom (k_pods k))
    then (None, k_set (k_time k) (delete (ns, n) (k_pods k)) (k_policies k) (k_spaces k) k)
    else (Some missing_err, k);
  ListPods _ k := (Ok (k_pod_list (k_pods k)), k);
  NewExecutor _ _ _ _ := mret None;
  StreamExec _ _ _ _ := mret ([], None);
  ExitStatus _ := None;
  IntValue _ := 5432;
  IntString s := s;
  RoundTripper := mret None;
  ForwardNew _ _ _ := mret None;
  ForwardWait := mret FwdReady;
  GetPorts := mret (Ok [40000]);
  StopForward := mret tt;
  GetBackup _ := mret (Ok {| b_Created := k_epoch - Hour; b_Phase := "Completed";
                             b_Completion := None |});
  CreateRestore _ := mret None;
  GetRestore _ k := (Ok {| rt_Phase := k_phase k; rt_Warnings := 0; rt_Errors := 0;
                           validationErrors := [] |}, k);
  DeleteRestore _ _ := mret None;
  ListRestores _ := mret (Ok [])
|}.

Lemma k_pod_list_only sel k ps : fst (ListPods k8s_api sel k) = Ok ps -> ps = k_pod_list (k_pods k).
Proof. cbn. by intros [= <-]. Qed.

#[export] Program Instance k8s_laws : ClusterLaws k8s_api := {|
  pods k := dom (k_pods k);
  policies := k_policies;
  spaces k := dom (k_spaces k) |}.
Next Obligation.
  cbn. intros s k r k'. destruct (k_policies k !! _) eqn:E; intros [= <- <-]; cbn.
  - split; [done|]. split; [done|]. split; [done|]. intros _. by eexists.
  - done.
Qed.
Next Obligation. cbn. intros s k r k' [= <- <-]. cbn. by rewrite dom_insert_L. Qed.
Next Obligation.
  cbn. intros _ ns n k r k'. case_bool_decide; intros [= <- <-]; cbn; [by rewrite dom_delete_L|done].
Qed.
Next Obligation.
  cbn. intros s k r k'. case_bool_decide as Hd; intros [= <- <-]; cbn; [done|].
  split; [done|]. split; [done|]. split; [|by rewrite dom_insert_L].
  intros Hn. apply Hd, elem_of_union. by left.
Qed.
Next Obligation. repeat split; repeat intro; assumption. Qed.

#[export] Program Instance k8s_velero : VeleroLaws k8s_api := {|
  terminating k := dom (k_terminating k);
  made := k_spaces |}.
Next Obligation.
  cbn. intros _ n k r k'. destruct (k_spaces k !! n) as [s|] eqn:E; intros [= <- <-]; cbn.
  - by rewrite dom_delete_L, dom_insert_L.
  - split; [done|]. split; [done|]. intros _. by apply not_elem_of_dom.
Qed.
Next Obligation.
  cbn. intros _ n k ns m Hin Hne. destruct (k_spaces k !! n); [|exact Hin]. cbn.
  apply elem_of_dom in Hin as [x Hx]. apply elem_of_dom. exists x.
  by apply map_lookup_filter_Some_2.
Qed.
Next Obligation.
  cbn. intros _ k l k' [= <- <-] m [Hm|Hm]%in_app_iff; apply k_list_In in Hm as [Hp Hn]; auto.
Qed.
Next Obligation.
  cbn. intros s k k'. case_bool_decide as Hd; intros [= <-]. split; [|done].
  intros Hn. apply Hd, elem_of_union. by right.
Qed.
Next Obligation.
  split; [|by intros x k]. intros s x k Hk. cbn. by destruct (k_policies k !! _).
Qed.
Next Obligation. repeat split; repeat intro; assumption. Qed.
Next Obligation. repeat split; repeat intro; assumption. Qed.

Definition k8s0 (velero pod : string) : K8s := {|
  k_time := k_epoch; k_pods := ∅; k_policies := ∅;
  k_spaces := {["shop" := {| nss_Name := "shop"; nss_Labels := ∅; nss_Annotations := ∅ |}]};
  k_terminating := ∅; k_phase := velero; k_pod_phase := pod |}.

(** * A sandbox configuration *)

Definition driver1 {W} : Driver W := {|
  drv_Name := "postgres"; ContainerEnv u p d := ["POSTGRES_PASSWORD=" +:+ p]; Port := "5432/tcp";
  ReadyCmds u _ d := [["psql"; "-U"; u; "-d"; d; "-c"; "select 1"]];
  Restore _ _ _ := mret (RestoreFailed None (ENew "unused")); verification := NoPath |}.

Definition cfg1 {W} : Config W := {|
  cfg_Image := "postgres:16"; cfg_TTL := Hour; cfg_Name := "payments"; cfg_Driver := driver1;
  cfg_Namespace := "drills"; ColdStart := false |}.

Lemma k8s0_confined velero pod : confined k8s_api (k8s0 velero pod).
Proof.
  split; cbn; [intros ns s H; by rewrite lookup_empty in H|].
  intros ns n H. by rewrite dom_empty_L in H.
Qed.
