(* ===== verification/Reports.v ===== *)
(** The reports over past runs: the history table (pkg/report/history.go), the
    compliance report by control (pkg/report/controls.go) and the fleet scorecard
    (pkg/report/scorecard.go). Times are written by the program in UTC, and the
    texts are exact for drill names of printable ASCII. *)

From Stdlib Require Import ZArith Lia Ascii String SpecFloat.
From stdpp Require Import base option list gmap strings sorting.
From S2P Require Import Prelude GoStrings Encoding Paths Float64 Calendar Spec Disk Evidence Sign Gate.
From S2P Require Drill.

(** [%-ns] *)
Definition pad (n : nat) (s : string) : string := s +:+ repeat_string " " (n - runes s).

(** [time.Duration(secs * float64(time.Second)).Round(time.Second)], printed. *)
Definition secs_text (secs : float64) : string :=
  Duration_String (Round (of_seconds secs) Second).

Definition mark (ok : bool) : string := if ok then "✓" else "✗".

(** * History *)

Record HistoryEntry := {
  h_Drill : string; h_FinishedAt : Time; h_Verified : bool; h_RestoreSecs : float64;
  h_BackupAge : float64; h_RTOMet : bool; h_RPOMet : bool; File : string }.

Definition history_entry (f : evidenceFile) : HistoryEntry :=
  let e := E f in {|
  h_Drill := ev_Drill e; h_FinishedAt := FinishedAt e; h_Verified := ev_Verified e;
  h_RestoreSecs := RestoreSeconds (ev_Measured e); h_BackupAge := bk_AgeSecs (ev_Backup e);
  h_RTOMet := RTOMet (ev_Measured e); h_RPOMet := RPOMet (ev_Measured e);
  File := Base (ef_Path f) |}.

Definition oldest_first (a b : HistoryEntry) : bool := Before (h_FinishedAt a) (h_FinishedAt b).

(** Whether the filter keeps a file. *)
Definition wanted (drill : string) (f : evidenceFile) : bool :=
  is_empty drill || String.eqb (ev_Drill (E f)) drill.

(** [bar]: [None] when [strings.Repeat] panics on a negative count. *)
Definition bar (v max : float64) (width : Z) : option string :=
  if SFleb max (of_int 0) then Some EmptyString
  else
    let n := to_int64 (fmul (fdiv v max) (of_int width)) in
    let n := if (n <? 1) && flt (of_int 0) v then 1 else n in
    if n <? 0 then None else Some (repeat_string "▇" (Z.to_nat n)).

Definition max_restore (es : list HistoryEntry) : float64 :=
  List.fold_left (fun m e => if flt m (h_RestoreSecs e) then h_RestoreSecs e else m) es (of_int 0).

Definition history_line (a b c d e f g : string) : string :=
  pad 19 a +:+ "  " +:+ pad 16 b +:+ "  " +:+ pad 8 c +:+ "  " +:+ pad 10 d +:+ "  " +:+
  pad 4 e +:+ " " +:+ pad 4 f +:+ "  " +:+ g +:+ nl.

Definition history_row (maxRTO : float64) (e : HistoryEntry) : option string :=
  option_map (fun trend =>
    history_line (fmt_minute (h_FinishedAt e)) (trunc (h_Drill e) 16)
      (if h_Verified e then "ok" else "FAILED") (secs_text (h_RestoreSecs e))
      (mark (h_RTOMet e)) (mark (h_RPOMet e)) trend)
    (bar (h_RestoreSecs e) maxRTO 20).

Fixpoint all_rows (rows : list (option string)) : option string :=
  match rows with
  | [] => Some EmptyString
  | None :: _ => None
  | Some r :: rest => option_map (append r) (all_rows rest)
  end.

Definition count_where {A} (p : A -> bool) (l : list A) : Z := Z.of_nat (List.length (List.filter p l)).

Definition WriteHistory (es : list HistoryEntry) : option string :=
  match es with
  | [] => Some ("no drill evidence found" +:+ nl)
  | _ =>
      let n := Z.of_nat (List.length es) in
      let pass := count_where h_Verified es in
      option_map (fun rows =>
        history_line "WHEN (UTC)" "DRILL" "RESULT" "RESTORE" "RTO" "RPO" "TREND" +:+ rows +:+
        nl +:+ itoa n +:+ " run(s), " +:+ itoa pass +:+ " verified (" +:+
        format_fixed 0 (fdiv (fmul (of_int 100) (of_int pass)) (of_int n)) +:+ "%)" +:+ nl)
        (all_rows (List.map (history_row (max_restore es)) es))
  end.

(** * Controls *)

Record ControlEntry := {
  ce_Drill : string; ce_FinishedAt : Time; ce_Verified : bool; ce_RestoreSecs : float64;
  ce_RTOMet : bool; ce_RPOMet : bool; EvidenceFile : string; ce_Signed : bool }.

Record ControlReport := {
  GeneratedAt : Time; EvidenceDir : string; rep_Controls : gmap string (list ControlEntry);
  Unattributed : Z }.

Definition latest_first (a b : ControlEntry) : bool := After (ce_FinishedAt a) (ce_FinishedAt b).

Definition met (ok : bool) : string := if ok then "met" else "missed".

Definition control_row (e : ControlEntry) : string :=
  "| " +:+ fmt_minute (ce_FinishedAt e) +:+ " | " +:+ ce_Drill e +:+ " | " +:+
  (if ce_Verified e then "✅ verified" else "❌ failed") +:+ " | " +:+
  secs_text (ce_RestoreSecs e) +:+ " | " +:+ met (ce_RTOMet e) +:+ " | " +:+
  met (ce_RPOMet e) +:+ " | " +:+ yes (ce_Signed e) +:+ " | `" +:+ EvidenceFile e +:+ "` |" +:+ nl.

(** One control's section: its entries are never empty. *)
Definition control_section (c : string) (es : list ControlEntry) : string :=
  "## " +:+ c +:+ nl +:+ nl +:+
  itoa (Z.of_nat (List.length es)) +:+ " drill run(s), " +:+ itoa (count_where ce_Verified es) +:+
  " verified. Latest run " +:+
  match es with e :: _ => fmt_date (ce_FinishedAt e) | [] => EmptyString end +:+ "." +:+ nl +:+ nl +:+
  "| Date (UTC) | Drill | Result | Restore time | RTO | RPO | Signed | Evidence |" +:+ nl +:+
  "|---|---|---|---|---|---|---|---|" +:+ nl +:+
  String.concat EmptyString (List.map control_row es) +:+ nl.

Definition WriteMarkdown (r : ControlReport) : string :=
  "# Recovery-testing evidence by control" +:+ nl +:+ nl +:+
  "Generated " +:+ fmt_minute (GeneratedAt r) +:+ " UTC from `" +:+ EvidenceDir r +:+ "`." +:+ nl +:+ nl +:+
  match (map_to_list (rep_Controls r)).*1 with
  | [] => "_No evidence with declared controls found._" +:+ nl
  | controls =>
      String.concat EmptyString (List.map (fun c =>
        control_section c (default [] (rep_Controls r !! c))) (sort_Strings controls)) +:+
      (if 0 <? Unattributed r then
         "_" +:+ itoa (Unattributed r) +:+
         " evidence file(s) declare no controls and are not attributed._" +:+ nl
       else EmptyString)
  end.

(** Attribution of one file: the entry goes to each declared control. *)
Definition attribute (entry : ControlEntry) (m : gmap string (list ControlEntry)) (c : string)
  : gmap string (list ControlEntry) := <[c := default [] (m !! c) ++ [entry]]> m.

Section Reading.
Context {SS : SliceSort} {EC : EvidenceCodec} {CR : Crypto} {VC : EnvelopeCodec} (env : DiskEnv)
  (d : Disk).

Definition LoadHistory (dir drill : string) : result (list HistoryEntry) :=
  match scanEvidence env d dir with
  | Err e => Err e
  | Ok files =>
      Ok (sort_Slice oldest_first (List.map history_entry (List.filter (wanted drill) files)))
  end.

Definition control_entry (f : evidenceFile) : ControlEntry :=
  let e := E f in {|
  ce_Drill := ev_Drill e; ce_FinishedAt := FinishedAt e; ce_Verified := ev_Verified e;
  ce_RestoreSecs := RestoreSeconds (ev_Measured e); ce_RTOMet := RTOMet (ev_Measured e);
  ce_RPOMet := RPOMet (ev_Measured e); EvidenceFile := Base (ef_Path f);
  ce_Signed := negb (isSome (Verify env (ef_Path f) None d)) |}.

Definition control_step (st : gmap string (list ControlEntry) * Z) (f : evidenceFile)
  : gmap string (list ControlEntry) * Z :=
  let '(m, unattributed) := st in
  match ev_Controls (E f) with
  | [] => (m, unattributed + 1)
  | cs => (List.fold_left (attribute (control_entry f)) cs m, unattributed)
  end.

Definition BuildControlReport (dir : string) (now : Time) : result ControlReport :=
  match scanEvidence env d dir with
  | Err e => Err e
  | Ok files =>
      let '(m, unattributed) := List.fold_left control_step files (∅, 0) in
      Ok {| GeneratedAt := now; EvidenceDir := dir;
            rep_Controls := sort_Slice latest_first <$> m; Unattributed := unattributed |}
  end.
End Reading.

(** * Scorecard *)

Record tally := { verified : Z; failed : Z; errored : Z }.

Definition truncErr (e : error) (n : Z) : string :=
  let s := Error e in
  if n <? len s then take_bytes (Z.to_nat n) s +:+ "…" else s.

Definition rtoStr (e : Evidence) : string := secs_text (RestoreSeconds (ev_Measured e)).

Definition score_line (a b c d e f : string) : string :=
  pad 20 a +:+ "  " +:+ pad 10 b +:+ "  " +:+ pad 10 c +:+ "  " +:+ pad 4 d +:+ " " +:+ pad 4 e +:+
  "  " +:+ f +:+ nl.

(** The row of an outcome and the counter it adds to; [None] is the nil
    dereference of an outcome with neither evidence nor error. *)
Definition score_row (o : Drill.Outcome) : option (string * (tally -> tally)) :=
  let row (result : string) (e : Evidence) :=
    score_line (Drill.out_Drill o) result (rtoStr e) (mark (RTOMet (ev_Measured e)))
      (mark (RPOMet (ev_Measured e))) (Drill.out_Path o) in
  match Drill.out_Err o, Drill.out_Evidence o with
  | Some err, _ =>
      Some (score_line (Drill.out_Drill o) "ERROR" "-" "-" "-" (truncErr err 60),
            fun t => {| verified := verified t; failed := failed t; errored := errored t + 1 |})
  | None, None => None
  | None, Some e =>
      if ev_Verified e then
        Some (row "verified" e,
              fun t => {| verified := verified t + 1; failed := failed t; errored := errored t |})
      else
        Some (row "FAILED" e,
              fun t => {| verified := verified t; failed := failed t + 1; errored := errored t |})
  end.

Fixpoint score_rows (os : list Drill.Outcome) (t : tally) : option (string * tally) :=
  match os with
  | [] => Some (EmptyString, t)
  | o :: r =>
      match score_row o with
      | None => None
      | Some (line, f) =>
          match score_rows r (f t) with
          | None => None
          | Some (lines, t) => Some (line +:+ lines, t)
          end
      end
  end.

Definition WriteScorecard (os : list Drill.Outcome) : option (string * tally) :=
  match score_rows os {| verified := 0; failed := 0; errored := 0 |} with
  | None => None
  | Some (rows, t) =>
      Some (nl +:+ score_line "DRILL" "RESULT" "RESTORE" "RTO" "RPO" "EVIDENCE" +:+ rows +:+
            nl +:+ itoa (Z.of_nat (List.length os)) +:+ " drill(s): " +:+ itoa (verified t) +:+
            " verified, " +:+ itoa (failed t) +:+ " failed, " +:+ itoa (errored t) +:+ " errored" +:+ nl, t)
  end.
