(* ===== verification/ReportsFacts.v ===== *)
(** The reports over past runs: nothing is lost, invented or misattributed, and
    the orders are the ones the reader is shown. *)

From Stdlib Require Import ZArith Lia Ascii String SpecFloat.
From stdpp Require Import base option list gmap strings sorting.
From S2P Require Import Prelude GoStrings Encoding Paths Float64 Calendar Spec Disk Evidence Sign Gate GateFacts Reports.
From S2P Require Drill.

Section ReportsFacts.
Context {SS : SliceSort} {EC : EvidenceCodec} {CR : Crypto} {VC : EnvelopeCodec} (env : DiskEnv)
  (d : Disk).

(** ** History *)

Lemma LoadHistory_sorted dir drill es :
  LoadHistory env d dir drill = Ok es ->
  exists files, scanEvidence env d dir = Ok files /\
    Permutation es (List.map history_entry (List.filter (wanted drill) files)) /\
    StronglySorted (fun a b => h_FinishedAt a <= h_FinishedAt b) es.
Proof.
  unfold LoadHistory. destruct (scanEvidence env d dir) as [files|e]; [|done]. intros [= <-].
  exists files. split; [done|]. split; [apply sort_Slice_perm|].
  eapply StronglySorted_impl; [|apply sort_Slice_sorted]; unfold oldest_first, Before; intros; lia.
Qed.

(** ** Controls *)

Definition entries (m : gmap string (list ControlEntry)) (c : string) : list ControlEntry :=
  default [] (m !! c).

Lemma entries_attribute e cs m c :
  entries (List.fold_left (attribute e) cs m) c =
  entries m c ++ List.map (fun _ => e) (List.filter (String.eqb c) cs).
Proof.
  revert m. induction cs as [|x cs IH]; intros m; simpl; [by rewrite app_nil_r|].
  rewrite IH. unfold entries, attribute. destruct (String.eqb_spec c x) as [->|Hne].
  - rewrite lookup_insert_eq. simpl. by rewrite <- app_assoc.
  - by rewrite lookup_insert_ne.
Qed.

Lemma dom_attribute e cs m :
  dom (List.fold_left (attribute e) cs m) = dom m ∪ list_to_set cs.
Proof.
  revert m. induction cs as [|x cs IH]; intros m; simpl; [set_solver|].
  rewrite IH. unfold attribute. rewrite dom_insert_L. set_solver.
Qed.

Definition undeclared (f : evidenceFile) : bool :=
  match ev_Controls (E f) with [] => true | _ => false end.

Lemma count_where_cons {A} (p : A -> bool) x l :
  count_where p (x :: l) = (if p x then 1 else 0) + count_where p l.
Proof. unfold count_where. cbn [List.filter]. destruct (p x); cbn [List.length]; lia. Qed.

Lemma control_fold files m u :
  let r := List.fold_left (control_step env d) files (m, u) in
  (forall c, entries (fst r) c =
     entries m c ++ List.map (control_entry env d) (runs_of "control" c files)) /\
  dom (fst r) = dom m ∪ list_to_set (List.concat (List.map (fun f => ev_Controls (E f)) files)) /\
  snd r = u + count_where undeclared files.
Proof.
  revert m u. induction files as [|f files IH]; intros m u; cbn [List.fold_left].
  { cbn. split; [intros c; by rewrite app_nil_r|]. split; [set_solver|unfold count_where; cbn; lia]. }
  cbv zeta in IH |- *. rewrite count_where_cons. cbn [List.map List.concat].
  unfold control_step at 2 4 6. unfold undeclared at 1.
  destruct (ev_Controls (E f)) as [|c0 cs] eqn:Ec.
  - destruct (IH m (u + 1)) as (H1 & H2 & H3). rewrite H2, H3. split; [|split].
    + intros c. rewrite H1. unfold runs_of. cbn [List.map List.concat].
      by replace (subjectsOf (E f) "control") with (@nil string) by (by rewrite <- Ec).
    + done.
    + lia.
  - rewrite <- Ec in *. destruct (IH (List.fold_left (attribute (control_entry env d f)) (ev_Controls (E f)) m) u)
      as (H1 & H2 & H3). split; [|split].
    + intros c. rewrite H1, entries_attribute, <- app_assoc. f_equal. unfold runs_of.
      cbn [List.map List.concat]. rewrite List.map_app, List.map_map. done.
    + rewrite H2, dom_attribute, list_to_set_app_L. set_solver.
    + rewrite H3. lia.
Qed.

(** The report of a directory: each control has the runs the gate counts for it,
    newest first, and the rest is counted. *)
Lemma BuildControlReport_spec dir now rep :
  BuildControlReport env d dir now = Ok rep ->
  exists files, scanEvidence env d dir = Ok files /\
    (forall c, Permutation (entries (rep_Controls rep) c)
       (List.map (control_entry env d) (runs_of "control" c files))) /\
    (forall c, StronglySorted (fun a b => ce_FinishedAt b <= ce_FinishedAt a)
       (entries (rep_Controls rep) c)) /\
    (forall c, c ∈ dom (rep_Controls rep) <-> exists f, In f files /\ In c (ev_Controls (E f))) /\
    Unattributed rep = count_where undeclared files.
Proof.
  unfold BuildControlReport. destruct (scanEvidence env d dir) as [files|e]; [|done].
  destruct (control_fold files ∅ 0) as (H1 & H2 & H3).
  destruct (List.fold_left _ files _) as [m u]. cbn [fst snd] in *. intros [= <-].
  exists files. split; [done|]. cbn [rep_Controls Unattributed].
  assert (He : forall c, entries (sort_Slice latest_first <$> m) c = [] /\ entries m c = [] \/
    entries (sort_Slice latest_first <$> m) c = sort_Slice latest_first (entries m c)).
  { intros c. unfold entries. rewrite lookup_fmap. destruct (m !! c); [by right|by left]. }
  assert (H1' : forall c, entries m c = List.map (control_entry env d) (runs_of "control" c files)).
  { intros c. rewrite H1. unfold entries at 1. by rewrite lookup_empty. }
  split; [|split; [|split]].
  - intros c. rewrite <- H1'. destruct (He c) as [[-> ->]| ->]; [done|apply sort_Slice_perm].
  - intros c. destruct (He c) as [[-> _]| ->]; [constructor|].
    eapply StronglySorted_impl; [|apply sort_Slice_sorted]; unfold latest_first, After; intros; lia.
  - intros c. rewrite dom_fmap_L, H2, elem_of_union, elem_of_list_to_set, list_elem_of_In, in_concat.
    setoid_rewrite in_map_iff. split.
    + intros [Hc|(l & (f & <- & Hf) & Hc)]; [|eauto].
      apply elem_of_dom in Hc as [x Hc]. by rewrite lookup_empty in Hc.
    + intros (f & Hf & Hc). right. eauto.
  - rewrite H3. lia.
Qed.

End ReportsFacts.

(** ** Scorecard *)

Definition out_verified (o : Drill.Outcome) : bool :=
  match Drill.out_Err o, Drill.out_Evidence o with None, Some e => ev_Verified e | _, _ => false end.

Definition out_errored (o : Drill.Outcome) : bool := isSome (Drill.out_Err o).

Lemma score_rows_counts os t txt t' :
  score_rows os t = Some (txt, t') ->
  verified t' = verified t + count_where out_verified os /\
  errored t' = errored t + count_where out_errored os /\
  failed t' = failed t + (Z.of_nat (List.length os) - count_where out_verified os -
                          count_where out_errored os).
Proof.
  revert t txt t'. induction os as [|o os IH]; intros t txt t'; cbn [score_rows].
  { intros [= <- <-]. unfold count_where. cbn. lia. }
  rewrite !count_where_cons. cbn [List.length]. unfold score_row, out_verified at 1 3, out_errored at 1 3.
  destruct (Drill.out_Err o) as [err|]; [|destruct (Drill.out_Evidence o) as [e|]; [|done];
    destruct (ev_Verified e)];
    (destruct (score_rows os _) as [[lines t2]|] eqn:Er; [|done]); intros [= _ <-];
    apply IH in Er; cbn [verified failed errored isSome] in *; lia.
Qed.

Lemma count_where_bounds {A} (p : A -> bool) l : 0 <= count_where p l <= Z.of_nat (List.length l).
Proof.
  induction l as [|x l IH]; [done|]. rewrite count_where_cons. cbn [List.length]. destruct (p x); lia.
Qed.

Lemma count_where_all {A} (p : A -> bool) l :
  count_where p l = Z.of_nat (List.length l) -> forall x, In x l -> p x = true.
Proof.
  induction l as [|y l IH]; [done|]. rewrite count_where_cons. cbn [List.length].
  pose proof (count_where_bounds p l). destruct (p y) eqn:E; intros Hc x; [|lia].
  intros [<-|Hx]; [done|]. apply IH; [lia|done].
Qed.

(** The tally is a partition of the fleet. *)
Lemma WriteScorecard_tally os txt t :
  WriteScorecard os = Some (txt, t) ->
  verified t = count_where out_verified os /\ errored t = count_where out_errored os /\
  verified t + failed t + errored t = Z.of_nat (List.length os).
Proof.
  unfold WriteScorecard. destruct (score_rows os _) as [[rows t']|] eqn:E; [|done].
  intros [= _ <-]. apply score_rows_counts in E. cbn in E. lia.
Qed.

(** Only an outcome with neither evidence nor error stops the printing. *)
Lemma score_rows_total os t :
  (forall o, In o os -> Drill.out_Err o <> None \/ Drill.out_Evidence o <> None) ->
  score_rows os t <> None.
Proof.
  revert t. induction os as [|o os IH]; intros t Ho; cbn [score_rows]; [done|].
  assert (Hr : score_row o <> None).
  { unfold score_row. destruct (Ho o (or_introl eq_refl)) as [H|H];
      destruct (Drill.out_Err o); try done; destruct (Drill.out_Evidence o) as [e|]; try done.
    all: by destruct (ev_Verified e). }
  destruct (score_row o) as [[line f]|]; [|done].
  pose proof (IH (f t) (fun o' Hi => Ho o' (or_intror Hi))) as H.
  by destruct (score_rows os (f t)) as [[lines t']|].
Qed.

(** ** The trend bar *)

(** The longest restore time is a number. *)
Lemma max_restore_number es : max_restore es <> S754_nan.
Proof.
  unfold max_restore. assert (H : of_int 0 <> S754_nan) by discriminate. revert H.
  generalize (of_int 0) as m. induction es as [|e es IH]; intros m Hm; [done|]. cbn [List.fold_left].
  apply IH. destruct (flt m (h_RestoreSecs e)) eqn:E; [|done]. intros Hn. rewrite Hn in E.
  by destruct m as [?|[]| |[] ? ?].
Qed.

(** A restore time that is zero or positive always has a bar. *)
Lemma bar_total v max :
  max <> S754_nan -> flt (of_int 0) v = true \/ (exists s, v = S754_zero s) -> bar v max 20 <> None.
Proof.
  unfold bar. destruct (SFleb max (of_int 0)) eqn:Em; [done|]. intros Hnan [Hv|[s ->]].
  - rewrite Hv, andb_true_r. destruct (Z.ltb_spec (to_int64 (fmul (fdiv v max) (of_int 20))) 1); [done|].
    by rewrite (proj2 (Z.ltb_ge _ _)) by lia.
  - destruct max as [sm|[]| |[] mm em]; try done; destruct s; vm_compute; done.
Qed.

(** A history of sane restore times is always printed. *)
Lemma WriteHistory_total es :
  (forall e, In e es -> flt (of_int 0) (h_RestoreSecs e) = true \/
     exists s, h_RestoreSecs e = S754_zero s) ->
  WriteHistory es <> None.
Proof.
  intros Hall. assert (Hr : forall m l, m <> S754_nan -> (forall e, In e l -> In e es) ->
    all_rows (List.map (history_row m) l) <> None).
  { intros m l Hm. induction l as [|e l IH]; intros Hin; [done|]. cbn [List.map all_rows].
    unfold history_row at 1.
    pose proof (bar_total _ m Hm (Hall e (Hin e (or_introl eq_refl)))) as Hb.
    destruct (bar (h_RestoreSecs e) m 20) as [s|]; [|done]. cbn [option_map].
    specialize (IH (fun x Hx => Hin x (or_intror Hx))). by destruct (all_rows _). }
  unfold WriteHistory. destruct es as [|e es]; [done|].
  specialize (Hr (max_restore (e :: es)) (e :: es) (max_restore_number _) (fun x Hx => Hx)).
  by destruct (all_rows _).
Qed.

(** A negative one among others makes [strings.Repeat] panic. *)
Example bar_negative : bar (of_int (-5)) (of_int 10) 20 = None.
Proof. vm_compute. reflexivity. Qed.
