(* ===== verification/Cli.v ===== *)
(** The command line (cmd/firedrill/main.go) and the embedded templates
    (pkg/spec/assets.go): each command on its parsed flags, and the exit code the
    process ends with. The flag parser is third-party. *)

From Stdlib Require Import ZArith Lia Ascii String SpecFloat.
From stdpp Require Import base option list gmap strings sorting.
From S2P Require Import Prelude GoStrings Float64 Spec Disk Evidence World Interfaces Print Drill.
From S2P Require Verify Sign Gate Reports Gc.

Definition exitFailed : Z := 1.
Definition exitError : Z := 2.

(** How a command ends: it returns nil, calls [os.Exit], returns an error, or
    panics. *)
Inductive exit : Type :=
| Done
| Exit (code : Z)
| Fails (e : error)
| Panics.

(** What [main] makes of it: the exit code, and the message on stderr. *)
Definition main_exit (r : exit) : Z * string :=
  match r with
  | Done => (0, EmptyString)
  | Exit c => (c, EmptyString)
  | Fails e => (exitError, "error: " +:+ Error e +:+ nl)
  | Panics => (2, EmptyString)
  end.

Definition exit_code (r : exit) : Z := fst (main_exit r).

(** * Templates *)

Section Templates.
Context (templates : gmap string string).    (* the embedded files, by name *)

Definition TemplateDrivers : list string :=
  sort_Strings (List.map (fun n => TrimSuffix n ".yaml") ((map_to_list templates).*1)).

Definition Template (driver : string) : result string :=
  match templates !! (driver +:+ ".yaml") with
  | Some doc => Ok doc
  | None => Err (ENew ("no template for driver " +:+ quote driver +:+ " (available: " +:+
                       Join TemplateDrivers ", " +:+ ")"))
  end.
End Templates.

(** * Flags *)

Record RunFlags := {
  run_All : bool; run_File : string; run_EvidenceDir : string; run_KeyDir : string; run_DryRun : bool }.

Record GateFlags := {
  gf_EvidenceDir : string; gf_Format : string; gf_FromSpec : string; gf_By : string;
  gf_PubPath : string; gf_DrillNames : list string; gf_ControlNames : list string;
  gf_MaxAge : Duration; gf_RequireSigned : bool; gf_AllowUnverified : bool }.

Section Cli.
Context {X : Type} {CK : Verify.Clock (World X)} {EC : EvidenceCodec} {CR : Sign.Crypto}
  {VC : Sign.EnvelopeCodec} {SS : SliceSort}.

Abbreviation W := (World X).

(** The terminal, the YAML documents of a spec file, and the JSON encoders. *)
Context (dp : Deps X) (stdout : string -> M X unit) (color : bool) (version : string)
  (spec_file : string -> result (list (result Drill)))
  (gate_json : Gate.GateReport -> result string) (controls_json : Reports.ControlReport -> result string).

Definition say (s : string) : M W unit := on_ext (stdout s).
Definition say_each {A} (line : A -> string) (xs : list A) : M W unit :=
  mfold (fun _ x => say (line x)) tt xs.

Definition reading {A} (f : Disk -> A) : M W A := fun w => (f (w_disk w), w).

(** ** [init], [schema], [validate] *)

Definition init_cmd (templates : gmap string string) (driver out : string) (force : bool) : M W exit :=
  match Template templates driver with
  | Err e => mret (Fails e)
  | Ok doc =>
      let! exists_ := reading (Exists out) in
      if exists_ && negb force then
        mret (Fails (ENew (out +:+ " already exists (use --force to overwrite)")))
      else
        let! e := on_disk (WriteFile (disk dp) out doc) in
        match e with
        | Some err => mret (Fails err)
        | None =>
            let! _ := say ("✓ wrote " +:+ out +:+ " (driver " +:+ driver +:+ ")" +:+ nl +:+
              "  edit the source and checks, then: firedrill validate -f " +:+ out +:+ nl) in
            mret Done
        end
  end.

Definition schema_cmd (schema outPath : string) : M W exit :=
  if negb (is_empty outPath) then
    let! e := on_disk (WriteFile (disk dp) outPath schema) in
    mret match e with Some err => Fails err | None => Done end
  else let! _ := say schema in mret Done.

Definition validate_line (d : Drill) : string :=
  let sp := drill_Spec d in
  "✓ drill " +:+ quote (drill_Name d) +:+ " — " +:+ itoa (Z.of_nat (List.length (Spec.Verify sp))) +:+
  " checks, driver " +:+ src_Driver (spec_Source sp) +:+ ", sandbox " +:+ Provider (spec_Sandbox sp) +:+
  " (ttl " +:+ Duration_String (TTL (spec_Sandbox sp)) +:+ ")" +:+ nl.

Definition validate_cmd (file : string) : M W exit :=
  match LoadAll (spec_file file) with
  | Err e => mret (Fails e)
  | Ok drills =>
      let! _ := say_each validate_line drills in
      let! _ := say ("✓ " +:+ file +:+ " is valid — " +:+ itoa (Z.of_nat (List.length drills)) +:+
                     " drill(s)" +:+ nl) in
      mret Done
  end.

(** ** [run] *)

Definition run_options (fl : RunFlags) : Options X := {|
  Printer := Some (stdout, color); opt_EvidenceDir := run_EvidenceDir fl;
  opt_KeyDir := run_KeyDir fl; opt_Version := version |}.

Definition run_all (fl : RunFlags) (drills : list Drill) : M W exit :=
  let! outs := RunAll dp drills (run_options fl) in
  match outs with
  | None => mret Panics
  | Some outs =>
      match Reports.WriteScorecard outs with
      | None => mret Panics
      | Some (text, t) =>
          let! _ := say text in
          mret (if 0 <? Reports.errored t then Exit exitError
                else if 0 <? Reports.failed t then Exit exitFailed else Done)
      end
  end.

Definition run_one (fl : RunFlags) (d : Drill) : M W exit :=
  let! out := Run dp d (run_options fl) in
  match out with
  | Panicked => mret Panics
  | Ran _ _ (Some err) => mret (Fails err)
  | Ran None _ None => mret Panics
  | Ran (Some e) path None =>
      let! _ := on_ext (Summary stdout color e path (Spec.Sign (spec_Report (drill_Spec d)))) in
      mret (if negb (ev_Verified e) then Exit exitFailed else Done)
  end.

Definition dry_run_text (d : Drill) : string :=
  let sp := drill_Spec d in
  "dry run — would provision " +:+ Provider (spec_Sandbox sp) +:+ " sandbox " +:+
  Image (spec_Sandbox sp) +:+ " (ttl " +:+ Duration_String (TTL (spec_Sandbox sp)) +:+ "), restore " +:+
  URI (src_From (spec_Source sp)) +:+ ", run " +:+ itoa (Z.of_nat (List.length (Spec.Verify sp))) +:+
  " checks".

(** At most one argument reaches the command. *)
Definition run_cmd (fl : RunFlags) (args : list string) : M W exit :=
  match LoadAll (spec_file (run_File fl)) with
  | Err e => mret (Fails e)
  | Ok drills =>
      let n := itoa (Z.of_nat (List.length drills)) in
      let p text := on_ext (Info stdout text) in
      if run_All fl then
        match args with
        | _ :: _ => mret (Fails (ENew "--all and a drill name are mutually exclusive"))
        | [] =>
            if run_DryRun fl then
              let! _ := p ("dry run — would run " +:+ n +:+ " drill(s) from " +:+ run_File fl) in mret Done
            else run_all fl drills
        end
      else
        match args with
        | [] => mret (Fails (ENew ("provide a drill name or --all (file contains " +:+ n +:+ " drills)")))
        | name :: _ =>
            match FindDrill drills name with
            | Err e => mret (Fails e)
            | Ok d =>
                if run_DryRun fl then let! _ := p (dry_run_text d) in mret Done
                else run_one fl d
            end
        end
  end.

(** ** [gate] *)

Definition trusted_key (pubPath : string) (d : Disk) : result (option string) :=
  if is_empty pubPath then Ok None
  else match ReadFile (disk dp) pubPath d with
       | Err e => Err e
       | Ok data =>
           match Sign.ParsePublicKeyPEM data with
           | Err e => Err (EWrap "" e (": " +:+ pubPath))
           | Ok k => Ok (Some k)
           end
       end.

(** The subjects the flags name. *)
Definition gate_subjects (fl : GateFlags) : result (list string) :=
  let subjects := if String.eqb (gf_By fl) "control" then gf_ControlNames fl else gf_DrillNames fl in
  if negb (is_empty (gf_FromSpec fl)) then
    if String.eqb (gf_By fl) "control" then
      Err (ENew "--from-spec lists drills; it cannot be combined with --by control")
    else match LoadAll (spec_file (gf_FromSpec fl)) with
         | Err e => Err e
         | Ok drills => Ok (subjects ++ List.map drill_Name drills)
         end
  else Ok subjects.

Definition gate_options (fl : GateFlags) (subjects : list string) (trusted : option string)
  : Gate.GateOptions := {|
  Gate.gate_Dir := gf_EvidenceDir fl; Gate.gate_MaxAge := gf_MaxAge fl; Gate.By := gf_By fl;
  Gate.Subjects := subjects; Gate.RequireSigned := isSome trusted || gf_RequireSigned fl;
  Gate.gate_PublicKey := trusted; Gate.AllowUnverified := gf_AllowUnverified fl;
  Gate.gate_Now := zero_time |}.

Definition gate_cmd (fl : GateFlags) : M W exit :=
  match gate_subjects fl with
  | Err e => mret (Fails e)
  | Ok subjects =>
      let! k := reading (trusted_key (gf_PubPath fl)) in
      match k with
      | Err e => mret (Fails e)
      | Ok trusted =>
          let! now := Verify.Now in
          let! r := reading (fun d => Gate.Gate (disk dp) d (gate_options fl subjects trusted) now) in
          match r with
          | Err e => mret (Fails e)
          | Ok rep =>
              let text := if String.eqb (gf_Format fl) "text" then Ok (Gate.WriteText rep)
                          else if String.eqb (gf_Format fl) "json" then gate_json rep
                          else Err (ENew ("unsupported format " +:+ quote (gf_Format fl) +:+
                                          " (text|json)")) in
              match text with
              | Err e => mret (Fails e)
              | Ok t =>
                  let! _ := say t in
                  mret (if 0 <? Gate.rep_Violations rep then Exit exitFailed else Done)
              end
          end
      end
  end.

(** ** [history], [controls] *)

Definition history_cmd (dir drill : string) : M W exit :=
  let! r := reading (fun d => Reports.LoadHistory (disk dp) d dir drill) in
  match r with
  | Err e => mret (Fails e)
  | Ok es =>
      match Reports.WriteHistory es with
      | None => mret Panics
      | Some t => let! _ := say t in mret Done
      end
  end.

(** The output file is created before the format is looked at. Writes to it are
    not checked by the Markdown writer. *)
Definition controls_cmd (dir format outPath : string) : M W exit :=
  let! now := Verify.Now in
  let! r := reading (fun d => Reports.BuildControlReport (disk dp) d dir now) in
  match r with
  | Err e => mret (Fails e)
  | Ok rep =>
      let! created := if negb (is_empty outPath) then on_disk (WriteFile (disk dp) outPath EmptyString)
                      else mret None in
      match created with
      | Some e => mret (Fails e)
      | None =>
          let put t := if negb (is_empty outPath) then on_disk (WriteFile (disk dp) outPath t)
                       else let! _ := say t in mret None in
          if String.eqb format "markdown" || String.eqb format "md" then
            let! _ := put (Reports.WriteMarkdown rep) in mret Done
          else if String.eqb format "json" then
            match controls_json rep with
            | Err e => mret (Fails e)
            | Ok t => let! e := put t in mret match e with Some err => Fails err | None => Done end
            end
          else mret (Fails (ENew ("unsupported format " +:+ quote format +:+ " (markdown|json)")))
      end
  end.

(** ** [keygen], [verify-evidence] *)

Definition keygen_cmd (generated : result (string * string)) (pkix : string -> result string)
  (dir : string) : M W exit :=
  match (if is_empty dir then Sign.DefaultKeyDir (UserHomeDir dp) else Ok dir) with
  | Err e => mret (Fails e)
  | Ok dir =>
      let! r := on_disk (Sign.GenerateKeypair (disk dp) generated pkix dir) in
      match r with
      | Err e => mret (Fails e)
      | Ok (priv, pub) =>
          let! _ := say ("private key: " +:+ priv +:+ nl +:+ "public key:  " +:+ pub +:+ nl) in
          mret Done
      end
  end.

Definition bundle_text (b : Sign.BundleResult) : string :=
  (if negb (is_empty (Sign.SignerFingerprint b)) then
     "✓ signature valid — evidence is intact (signer " +:+ Sign.SignerFingerprint b +:+ ")" +:+ nl
   else "✓ signature valid — evidence is intact" +:+ nl) +:+
  (if Sign.AttestationChecked b then
     "✓ attestation valid (in-toto/DSSE, key from " +:+ Sign.KeySource b +:+ ")" +:+ nl
   else EmptyString) +:+
  String.concat EmptyString (List.map (fun n => "– " +:+ n +:+ nl) (Sign.Notes b)).

(** Exactly one argument reaches the command. *)
Definition verify_evidence_cmd (pubPath keyDir path : string) : M W exit :=
  let! k := reading (trusted_key pubPath) in
  match k with
  | Err e => mret (Fails e)
  | Ok trusted =>
      let dir := if is_empty keyDir && is_empty pubPath then
                   match Sign.DefaultKeyDir (UserHomeDir dp) with Ok d => d | Err _ => keyDir end
                 else keyDir in
      let! r := reading (Sign.VerifyBundle (disk dp) path trusted dir) in
      match r with
      | Err e => mret (Fails e)
      | Ok b => let! _ := say (bundle_text b) in mret Done
      end
  end.

(** ** [gc] *)

(** [None] is the nil dereference of a sweep with neither result nor error. *)
Definition printRes (kind : string) (r : option Gc.Result * option error) : option string :=
  match r with
  | (_, Some err) => Some ("– " +:+ kind +:+ " sweep unavailable: " +:+ Error err +:+ nl)
  | (None, None) => None
  | (Some res, None) => Some (
      String.concat EmptyString
        (List.map (fun x => "✗ reaped " +:+ x +:+ nl) (Gc.Reaped res) ++
         List.map (fun x => "· kept   " +:+ x +:+ nl) (Gc.gc_Skipped res) ++
         List.map (fun x => "! error  " +:+ x +:+ nl) (Gc.Errors res)) +:+
      (if (List.length (Gc.Reaped res) + List.length (Gc.gc_Skipped res) +
           List.length (Gc.Errors res) =? 0)%nat
       then "· no " +:+ kind +:+ " sandboxes found" +:+ nl else EmptyString))
  end.

(** Every failure is printed; the command succeeds. *)
Definition gc_cmd (sweep_docker sweep_k8s : Gc.Options -> M W (option Gc.Result * option error))
  (o : Gc.Options) (dockerOnly k8sOnly : bool) : M W exit :=
  let sweep (skip : bool) kind (f : Gc.Options -> M W (option Gc.Result * option error)) :=
    if skip then mret true
    else let! r := f o in
         match printRes kind r with
         | None => mret false
         | Some text => let! _ := say text in mret true
         end in
  let! ok := sweep k8sOnly "docker" sweep_docker in
  if negb ok then mret Panics else
  let! ok := sweep dockerOnly "kubernetes" sweep_k8s in
  if negb ok then mret Panics else
  mret Done.
End Cli.
