(* ===== verification/CliFacts.v ===== *)
(** Facts about the commands: what an exit code of 0 rests on. *)

From Stdlib Require Import ZArith Lia Ascii String SpecFloat.
From stdpp Require Import base option list gmap strings sorting.
From S2P Require Import Prelude GoStrings Float64 Spec SpecFacts Disk Evidence World Interfaces Print Drill DrillFacts DrillRecord Keeps DrillGate Gate GateFacts Reports ReportsFacts Cli.
From S2P Require Verify Sign Gc.

Section CliFacts.
Context {X : Type} {CK : Verify.Clock (World X)} {EC : EvidenceCodec} {CR : Sign.Crypto}
  {VC : Sign.EnvelopeCodec} {SS : SliceSort}.
Context (dp : Deps X) (stdout : string -> M X unit) (color : bool) (version : string)
  (spec_file : string -> result (list (result Drill))) (gate_json : GateReport -> result string).

Abbreviation W := (World X).

(** The drills an invocation asks for. *)
Definition targets (fl : RunFlags) (args : list string) (drills : list Drill) : list Drill :=
  if run_All fl then drills
  else match args with
       | [] => []
       | name :: _ => match FindDrill drills name with Ok d => [d] | Err _ => [] end
       end.

(** The drills an invocation of [run] asks for, of a loaded file: all of them, or
    the one of the given name. *)
Definition asked (fl : RunFlags) (args : list string) (drills : list Drill) (d : Drill) : Prop :=
  In d drills /\ (run_All fl = true \/ head args = Some (drill_Name d)).

Lemma targets_asked fl args drills d :
  NoDup (List.map drill_Name drills) -> asked fl args drills d -> In d (targets fl args drills).
Proof.
  intros Hnd [Hin Hd]. unfold targets. destruct (run_All fl); [done|]. destruct Hd as [|Hd]; [done|].
  destruct args as [|name r]; [done|]. injection Hd as ->.
  rewrite (proj2 (FindDrill_iff drills (drill_Name d) d Hnd)) by done. by left.
Qed.

Lemma asked_targets fl args drills d : In d (targets fl args drills) -> asked fl args drills d.
Proof.
  unfold targets, asked. destruct (run_All fl); [auto|]. destruct args as [|name r]; [done|].
  destruct (FindDrill drills name) as [d'|e] eqn:E; [|done]. apply FindDrill_ok in E as [Hin <-].
  intros [<-|[]]. auto.
Qed.

(** The subjects an invocation of [gate] names. *)
Definition demanded (fl : GateFlags) (n : string) : Prop :=
  if String.eqb (gf_By fl) "control" then In n (gf_ControlNames fl)
  else In n (gf_DrillNames fl) \/
       (gf_FromSpec fl <> EmptyString /\ exists drills, LoadAll (spec_file (gf_FromSpec fl)) = Ok drills /\
          In n (List.map drill_Name drills)).

Lemma gate_subjects_demanded fl subjects n :
  gate_subjects spec_file fl = Ok subjects -> In n subjects <-> demanded fl n.
Proof.
  unfold gate_subjects, demanded. destruct (String.eqb (gf_By fl) "control").
  - destruct (negb (is_empty (gf_FromSpec fl))); [done|]. by intros [= <-].
  - destruct (gf_FromSpec fl) as [|c s]; cbn [is_empty negb].
    + intros [= <-]. split; [auto|]. by intros [?|[? _]].
    + destruct (LoadAll _) as [drills|e]; [|done]. intros [= <-]. rewrite in_app_iff. split.
      * intros [?|?]; [by left|right]. eauto.
      * intros [?|(_ & ds & [= <-] & ?)]; auto.
Qed.

(** A run of the drill that ended without error on a verified record. *)
Definition ran_verified (o : Options X) (d : Drill) : Prop :=
  exists e path w, fst (Run dp d o w) = Ran (Some e) path None /\ ev_Verified e = true.

Lemma run_one_zero fl d w :
  exit_code (fst (run_one dp stdout color version fl d w)) = 0 ->
  ran_verified (run_options stdout color version fl) d.
Proof.
  unfold run_one, mbind, mret. destruct (Run dp d _ w) as [[[e|] path [err|]|] w1] eqn:E; try done.
  destruct (on_ext _ w1) as [u w2]. destruct (ev_Verified e) eqn:Ev; [|done]. intros _.
  exists e, path, w. by rewrite E.
Qed.

Lemma run_all_zero fl drills w :
  exit_code (fst (run_all dp stdout color version fl drills w)) = 0 ->
  forall d, In d drills -> ran_verified (run_options stdout color version fl) d.
Proof.
  unfold run_all, mbind, mret. destruct (RunAll dp drills _ w) as [[outs|] w1] eqn:E; [|done].
  destruct (WriteScorecard outs) as [[text t]|] eqn:Es; [|done].
  destruct (say stdout text w1) as [u w2]. cbn [fst].
  apply WriteScorecard_tally in Es as (Hv & He & Ht).
  pose proof (count_where_bounds out_errored outs) as Hb1.
  pose proof (count_where_bounds out_verified outs) as Hb2.
  destruct (Z.ltb_spec 0 (errored t)) as [|H1]; [done|].
  destruct (Z.ltb_spec 0 (failed t)) as [|H2]; [done|]. intros _.
  assert (H0 : failed t >= 0).
  { destruct (Z.le_gt_cases 0 (failed t)); [lia|]. exfalso.
    assert (count_where out_verified outs + count_where out_errored outs <=
            Z.of_nat (List.length outs)); [|lia].
    clear. induction outs as [|o outs IH]; [done|]. rewrite !count_where_cons. cbn [List.length].
    unfold out_verified at 1, out_errored at 1. destruct (Drill.out_Err o); cbn [isSome]; [lia|].
    destruct (out_Evidence o) as [e|]; [destruct (ev_Verified e)|]; lia. }
  assert (Hall : forall o, In o outs -> out_verified o = true) by (apply count_where_all; lia).
  apply run_each_drills in E as [_ HF]. clear -Hall HF.
  induction HF as [|d out ds outs (w1 & Hr) _ IH]; [done|]. intros d' [<-|Hin].
  - specialize (Hall out (or_introl eq_refl)). unfold out_verified in Hall.
    destruct (Drill.out_Err out); [done|]. destruct (out_Evidence out) as [e|]; [|done].
    exists e, (out_Path out), w1. done.
  - apply IH; [|done]. intros o Ho. apply Hall. by right.
Qed.

(** Exit code 0 of a real run: every drill asked for ran and was verified, and
    there was one. *)
Lemma run_cmd_zero fl args w :
  run_DryRun fl = false ->
  exit_code (fst (run_cmd dp stdout color version spec_file fl args w)) = 0 ->
  exists drills, LoadAll (spec_file (run_File fl)) = Ok drills /\
    (run_All fl = false -> targets fl args drills <> []) /\
    forall d, In d (targets fl args drills) ->
      ran_verified (run_options stdout color version fl) d.
Proof.
  intros Hdry. unfold run_cmd, targets. destruct (LoadAll _) as [drills|e]; [|done].
  rewrite Hdry. intros H. exists drills. split; [done|]. destruct (run_All fl).
  - split; [done|]. destruct args; [|done]. by eapply run_all_zero.
  - destruct args as [|name r]; [done|]. destruct (FindDrill drills name) as [d|e]; [|done].
    split; [done|]. intros d' [<-|[]]. by eapply run_one_zero.
Qed.

(** Exit code 0 of the gate: the directory could be read, and no subject is in
    violation. *)
Lemma gate_cmd_zero fl w :
  exit_code (fst (gate_cmd dp stdout spec_file gate_json fl w)) = 0 ->
  exists subjects trusted w1 now rep,
    gate_subjects spec_file fl = Ok subjects /\ trusted_key dp (gf_PubPath fl) (w_disk w) = Ok trusted /\
    Verify.Now w = (now, w1) /\
    Gate (disk dp) (w_disk w1) (gate_options fl subjects trusted) now = Ok rep /\
    rep_Violations rep = 0.
Proof.
  unfold gate_cmd, mbind, mret, reading. destruct (gate_subjects spec_file fl) as [subjects|e]; [|done].
  destruct (trusted_key dp (gf_PubPath fl) (w_disk w)) as [trusted|e]; [|done].
  destruct (Verify.Now w) as [now w1] eqn:En.
  destruct (Gate _ (w_disk w1) _ now) as [rep|e] eqn:Eg; [|done].
  match goal with |- context [match ?t with Ok _ => _ | Err _ => _ end w1] => destruct t as [text|e] end;
    [|done].
  destruct (say stdout text w1) as [u w2]. cbn [fst].
  destruct (Z.ltb_spec 0 (rep_Violations rep)) as [|Hv]; [done|]. intros _.
  exists subjects, trusted, w1, now, rep. split; [done|]. split; [done|]. split; [done|].
  split; [done|]. apply Gate_violations_nonneg in Eg. lia.
Qed.

(** A key that was asked for is read and parsed. *)
Lemma trusted_key_some pubPath d trusted :
  trusted_key dp pubPath d = Ok trusted -> pubPath <> EmptyString ->
  isSome trusted = true /\ exists data k, ReadFile (disk dp) pubPath d = Ok data /\
    Sign.ParsePublicKeyPEM data = Ok k /\ trusted = Some k.
Proof.
  unfold trusted_key. destruct pubPath as [|c s]; [done|]. cbn [is_empty].
  destruct (ReadFile _ _ d) as [data|e]; [|done]. destruct (Sign.ParsePublicKeyPEM data) as [k|e] eqn:E;
    [|done]. intros [= <-] _. split; [done|]. eauto.
Qed.

(** A gate without violations ends with exit code 0. *)
Lemma gate_cmd_passes fl subjects trusted w now w1 rep :
  gf_Format fl = "text" -> gate_subjects spec_file fl = Ok subjects ->
  trusted_key dp (gf_PubPath fl) (w_disk w) = Ok trusted -> Verify.Now w = (now, w1) ->
  Gate (disk dp) (w_disk w1) (gate_options fl subjects trusted) now = Ok rep ->
  rep_Violations rep = 0 ->
  exit_code (fst (gate_cmd dp stdout spec_file gate_json fl w)) = 0.
Proof.
  intros Hfmt Hs Hk Hn Hg Hv. unfold gate_cmd, mbind, mret, reading.
  rewrite Hs, Hk, Hn, Hg, Hfmt, Hv. cbn [String.eqb Ascii.eqb Bool.eqb].
  by destruct (say stdout _ w1).
Qed.

(** What [run NAME] with exit code 0 leaves behind. *)
Lemma run_cmd_leaves fl name w r w' :
  run_All fl = false -> run_DryRun fl = false ->
  run_cmd dp stdout color version spec_file fl [name] w = (r, w') -> exit_code r = 0 ->
  exists drills d e path w2, LoadAll (spec_file (run_File fl)) = Ok drills /\
    FindDrill drills name = Ok d /\
    Run dp d (run_options stdout color version fl) w = (Ran (Some e) path None, w2) /\
    ev_Verified e = true /\ w_disk w' = w_disk w2.
Proof.
  intros Ha Hd. unfold run_cmd. rewrite Ha, Hd. destruct (LoadAll _) as [drills|er]; [|by intros [= <- _]].
  destruct (FindDrill drills name) as [d|er] eqn:Ef; [|by intros [= <- _]].
  unfold run_one, mbind, mret. destruct (Run dp d _ w) as [[[e|] path [err|]|] w2] eqn:E; try by intros [= <- _].
  match goal with |- context [on_ext ?c w2] => pose proof (on_ext_disk c w2) as Hw end.
  destruct (on_ext _ w2) as [u w3]. cbn [snd] in Hw.
  destruct (ev_Verified e) eqn:Ev; [|by intros [= <- _]]. intros [= <- <-] _.
  by exists drills, d, e, path, w2.
Qed.
End CliFacts.
