(* ===== verification/Fleet.v ===== *)
(** What the [run] command leaves, for one drill and for a whole file: the tenancy
    of each drill, carried along the fleet and through the command. *)

From Stdlib Require Import ZArith Ascii String.
From stdpp Require Import base option list gmap strings.
From S2P Require Import Prelude GoStrings Spec Disk Evidence World Interfaces Keeps Print Restoring Drill DrillKeeps Tenancy System Reports Cli.
From S2P Require Verify Source SourceFacts SpecFacts Sign.

(** * Through the command

    What every drill of the file keeps, and writing to the terminal does, the
    command keeps, whatever it is asked for and whatever becomes of it. *)

Section Commands.
Context {X : Type} {CK : Verify.Clock (World X)} {EC : EvidenceCodec} {CR : Sign.Crypto}
  {VC : Sign.EnvelopeCodec} (dp : Deps X) (stdout : string -> M X unit) (color : bool)
  (version : string) (fl : RunFlags) (P : World X -> Prop).

Abbreviation o := (run_options stdout color version fl).

Context (Hprint : forall s, keeps P (on_ext (stdout s))).

Lemma run_each_keeps many ds :
  Forall (fun d => keeps P (Run dp d o)) ds -> keeps P (run_each dp many ds o).
Proof.
  induction 1 as [|d ds Hd _ IH]; cbn [run_each]; [apply keeps_ret|].
  apply keeps_bind; [destruct many; [apply Hprint|apply keeps_ret]|]. intros _.
  apply keeps_bind; [exact Hd|]. intros [e p err|]; [|apply keeps_ret].
  apply keeps_bind; [done|]. intros rest. apply keeps_ret.
Qed.

Lemma run_cmd_keeps spec_file args :
  (forall drills, LoadAll (spec_file (run_File fl)) = Ok drills ->
     Forall (fun d => keeps P (Run dp d o)) drills) ->
  keeps P (run_cmd dp stdout color version spec_file fl args).
Proof.
  intros Hh. unfold run_cmd, Info.
  assert (Hr : forall r, keeps P (mret r : M (World X) exit)) by (intros; apply keeps_ret).
  destruct (LoadAll _) as [drills|e]; [|apply Hr]. specialize (Hh _ eq_refl). cbv zeta.
  destruct (run_All fl).
  - destruct args; [|apply Hr]. destruct (run_DryRun fl); [by apply keeps_bind|].
    unfold run_all, say. apply keeps_bind; [by apply run_each_keeps|]. intros [outs|]; [|apply Hr].
    destruct (WriteScorecard outs) as [[text t]|]; [|apply Hr]. apply keeps_bind; auto.
  - destruct args as [|name r]; [apply Hr|].
    destruct (FindDrill drills name) as [d|e] eqn:Ef; [|apply Hr].
    destruct (run_DryRun fl); [by apply keeps_bind|].
    assert (Hd : keeps P (Run dp d o)).
    { apply SpecFacts.FindDrill_ok in Ef as [Hin _]. eapply Forall_forall in Hh; [exact Hh|].
      by apply list_elem_of_In. }
    unfold run_one, Summary. apply keeps_bind; [exact Hd|].
    intros [[e|] p [err|]|]; try apply Hr. apply keeps_bind; auto.
Qed.
End Commands.

(** * Nothing is left *)

Section Fleet.
Context {X V : Type} {TN : Tenancy X V (SandboxI X)}
  (prov : Config (World X) -> M X (result (SandboxI X))) {PV : SandboxProvider prov}
  {CK : Verify.Clock (World X)} {EC : EvidenceCodec} {CR : Sign.Crypto} {VC : Sign.EnvelopeCodec}.
Abbreviation W := (World X).
Context (dp : Deps X) (stdout : string -> M X unit) (color : bool) (version : string)
  (fl : RunFlags) (seek : M X (option error)).

Abbreviation o := (run_options stdout color version fl).

Context (Hreg : registry dp = drivers (FS := World_Files (os dp) seek))
  (Htemp : SourceFacts.fresh_temp (os dp)) (Hseek : forall P, during P -> keeps P seek)
  (Henv : forall P t, during P -> CalmEnv dp o (around t P)) (Hworks : works).

(** A drill whose sandbox comes from [prov]. *)
Definition housed (d : Spec.Drill) : Prop :=
  (forall drv, provision dp d drv = lift_provision prov (sandbox_config d drv)) /\
  src_Driver (spec_Source (drill_Spec d)) <> "velero".

Definition empty_again (tmp : Source.Tmp) (v : V) : W -> Prop := around tmp (left v).

Lemma Run_empty d tmp v : housed d -> keeps (empty_again tmp v) (Run dp d o).
Proof.
  intros [Hp Hd] w [Ht Hw]. destruct (Run dp d o w) as [out w'] eqn:E.
  destruct (sandbox_Run_tidy prov dp o seek Hreg Htemp Hseek Henv d v w out w' Hp Hd E Hw)
    as (Ht' & Hl & _). split; [by rewrite <- Ht|by apply Hl].
Qed.

Lemma print_empty s tmp v : keeps (empty_again tmp v) (on_ext (stdout s)).
Proof.
  assert (Hd : during (left v)) by (unfold during; eauto).
  exact (calm_print dp o _ (CalmEnv := Henv _ tmp Hd) stdout color s eq_refl).
Qed.

Lemma run_cmd_empty spec_file args tmp v :
  (forall drills, LoadAll (spec_file (run_File fl)) = Ok drills -> Forall housed drills) ->
  keeps (empty_again tmp v) (run_cmd dp stdout color version spec_file fl args).
Proof.
  intros Hh. apply run_cmd_keeps; [intros s; apply print_empty|]. intros drills Hl.
  specialize (Hh drills Hl). eapply Forall_impl; [exact Hh|]. intros d Hd. by apply Run_empty.
Qed.
End Fleet.
