(* ===== verification/Operator.v ===== *)
(** The operator (pkg/operator/controller.go): reconciliation of one
    RecoveryDrill object, on the drill of Drill.v and the API server behind an
    interface, and the manager's start-up sweep (manager.go). The object store, the
    cron parser and the decoder of the object's spec are third-party. *)

From Stdlib Require Import ZArith Lia Ascii String SpecFloat.
From stdpp Require Import base option list gmap strings.
From S2P Require Import Prelude GoStrings Float64 Calendar Rfc3339 Spec Disk Evidence World Interfaces Drill.
From S2P Require Verify Sign Gc.

(** * Objects *)

(** The values of a status; [VOther] is one the operator never writes, by its
    JSON text. *)
Inductive value :=
| VStr (s : string)
| VBool (b : bool)
| VFloat (f : float64)
| VOther (json : string).

Abbreviation Status := (gmap string value).

(** A RecoveryDrill as the server returns it. [J] is the decoded JSON of its
    spec, read by [NestedMap]: an error, absent, or a value. A status that is no
    object is treated as an absent one, as the code does. *)
Record CR (J : Type) := {
  cr_Namespace : string; cr_Name : string; cr_Generation : Z; cr_Created : Time;
  ResourceVersion : string; cr_Spec : result (option J); cr_Status : option Status }.
Arguments cr_Namespace {J}. Arguments cr_Name {J}. Arguments cr_Generation {J}.
Arguments cr_Created {J}. Arguments ResourceVersion {J}. Arguments cr_Spec {J}.
Arguments cr_Status {J}.

Abbreviation Key := (string * string)%type.

Definition key_of {J} (o : CR J) : Key := (cr_Namespace o, cr_Name o).

(** [SetNestedMap(o.Object, st, "status")]: a top-level field can be set. *)
Definition with_status {J} (st : Status) (o : CR J) : CR J := {|
  cr_Namespace := cr_Namespace o; cr_Name := cr_Name o; cr_Generation := cr_Generation o;
  cr_Created := cr_Created o; ResourceVersion := ResourceVersion o; cr_Spec := cr_Spec o;
  cr_Status := Some st |}.

Definition status_field {J} (o : CR J) (k : string) : option value :=
  match cr_Status o with Some m => m !! k | None => None end.

(** [str(obj, "status", k)] *)
Definition str {J} (o : CR J) (k : string) : string :=
  match status_field o k with Some (VStr s) => s | _ => EmptyString end.

(** The calls on the API server, over its state [S], and client-go's retry loop. *)
Record ObjectAPI (S J : Type) := {
  GetObject : Key -> M S (result (CR J));
  UpdateStatus : CR J -> M S (option error);
  IsNotFound : error -> bool;
  IsConflict : error -> bool;
  RetryOnConflict : M S (option error) -> M S (option error)
}.
Arguments GetObject {S J}. Arguments UpdateStatus {S J}. Arguments IsNotFound {S J}.
Arguments IsConflict {S J}. Arguments RetryOnConflict {S J}.

(** * Status updates *)

Section Patch.
Context {S J : Type} (api : ObjectAPI S J).

(** One attempt: read the object afresh, merge, update. *)
Definition patch_once (obj : CR J) (fields : Status) : M S (option error) :=
  let! r := GetObject api (key_of obj) in
  match r with
  | Err e => mret (Some e)
  | Ok fresh =>
      let existing := default ∅ (cr_Status fresh) in
      UpdateStatus api (with_status (fields ∪ existing) fresh)
  end.

Definition patchStatus (obj : CR J) (fields : Status) : M S (option error) :=
  RetryOnConflict api (patch_once obj fields).
End Patch.

(** * The drill of an object *)

Section Decode.
Context {J : Type} (Marshal : J -> result string) (yaml_Unmarshal : string -> result Spec).

Definition drill_of (name : string) (s : Spec) : Drill := {|
  drill_APIVersion := APIVersion; drill_Kind := Kind; drill_Metadata := {| meta_Name := name |};
  drill_Spec := s |}.

Definition drillFromCR (obj : CR J) : result Drill :=
  match cr_Spec obj with
  | Err e => Err (EWrap "reading spec: " e "")
  | Ok None => Err (ENew "missing spec")
  | Ok (Some raw) =>
      match Marshal raw with
      | Err e => Err e
      | Ok data =>
          match yaml_Unmarshal data with
          | Err e => Err (EWrap "parsing spec: " e "")
          | Ok s =>
              let d := drill_of (cr_Name obj) s in
              match Validate d with Some e => Err e | None => Ok d end
          end
      end
  end.
End Decode.

(** * Whether a run is due *)

Record Cron (Sched : Type) := {
  ParseStandard : string -> result Sched;
  Next : Sched -> Time -> Time
}.
Arguments ParseStandard {Sched}. Arguments Next {Sched}.

(** What is done with an object whose drill is well-formed. [RunNow] has the
    text of the missed-schedule event, if there is one. *)
Inductive decision :=
| Settled
| BadSchedule (e : error)
| Wait (d : Duration)
| RunNow (missed : option string).

Section Due.
Context {J Sched : Type} (cron : Cron Sched).

(** A timestamp that does not parse reads as the zero time. *)
Definition lastRun (obj : CR J) : Time :=
  default zero_time (Parse_RFC3339 (str obj "lastRunTime")).

Definition missed_text (now nextRun : Time) : string :=
  "running " +:+ Duration_String (Round (Sub now nextRun) Minute) +:+ " late (scheduled " +:+
  fmt_RFC3339 nextRun +:+ ")".

Definition due (obj : CR J) (schedule : string) (now : Time) : decision :=
  let lastRun := lastRun obj in
  if is_empty schedule then
    if negb (IsZero lastRun) && String.eqb (str obj "observedGeneration") (itoa (cr_Generation obj))
    then Settled else RunNow None
  else
    match ParseStandard cron schedule with
    | Err e => BadSchedule e
    | Ok sched =>
        let base := if IsZero lastRun then cr_Created obj else lastRun in
        let nextRun := Next cron sched base in
        if Before now nextRun then Wait (Sub nextRun now)
        else if (5 * Minute <? Sub now nextRun) && negb (IsZero lastRun)
        then RunNow (Some (missed_text now nextRun)) else RunNow None
    end.
End Due.

(** * The status of a run *)

Definition failureSummary (e : Evidence) : string :=
  let names :=
    List.map Verify.res_Name
      (List.filter (fun c => negb (Verify.Passed c) && negb (Verify.Skipped c)) (ev_Checks e)) ++
    (if negb (RTOMet (ev_Measured e)) then ["rto-objective"] else []) ++
    (if negb (RPOMet (ev_Measured e)) then ["rpo-objective"] else []) in
  match names with
  | [] => "recovery not verified"
  | _ => "failed: [" +:+ Join names " " +:+ "]"
  end.

Definition verified_text (e : Evidence) : string :=
  "recovery verified: restore " +:+ format_fixed 0 (RestoreSeconds (ev_Measured e)) +:+
  "s, backup age " +:+ format_fixed 0 (fdiv (bk_AgeSecs (ev_Backup e)) (of_int 60)) +:+ "m".

Definition verdict_fields (phase message : string) (ok : bool) : Status :=
  {["phase" := VStr phase]} ∪ {["message" := VStr message]} ∪ {["verified" := VBool ok]}.

(** The fields of the last patch and the event that goes with them; [None] is the
    nil dereference of a run with neither error nor evidence. *)
Definition run_status {J} (obj : CR J) (finished : Time) (e : option Evidence) (err : option error)
  : option (Status * (string * string * string)) :=
  let stamp := {["lastRunTime" := VStr (fmt_RFC3339 finished)]} in
  let gen := match err with
             | None => {["observedGeneration" := VStr (itoa (cr_Generation obj))]}
             | Some _ => ∅
             end in
  let measured :=
    match e with
    | Some e => {["measuredRestoreSeconds" := VFloat (RestoreSeconds (ev_Measured e))]} ∪
                {["backupAgeSeconds" := VFloat (bk_AgeSecs (ev_Backup e))]} ∪
                {["rtoMet" := VBool (RTOMet (ev_Measured e))]} ∪
                {["rpoMet" := VBool (RPOMet (ev_Measured e))]}
    | None => ∅
    end in
  let status verdict := stamp ∪ gen ∪ verdict ∪ measured in
  match err, e with
  | Some err, _ =>
      Some (status (verdict_fields "Error" (Error err) false), ("Warning", "DrillError", Error err))
  | None, None => None
  | None, Some e =>
      if ev_Verified e then
        Some (status (verdict_fields "Verified" "recovery verified" true),
              ("Normal", "DrillVerified", verified_text e))
      else
        Some (status (verdict_fields "Failed" (failureSummary e) false),
              ("Warning", "DrillFailed", failureSummary e))
  end.

(** * Reconciliation *)

(** What a reconciliation ends with. *)
Inductive reconciled :=
| Requeue (after : Duration) (err : option error)
| RPanics.

Section Reconcile.
Context {X S J Sched : Type} {CK : Verify.Clock (World X)} {EC : EvidenceCodec} {CR0 : Sign.Crypto}
  {VC : Sign.EnvelopeCodec}.
Context (dp : Deps X) (api : ObjectAPI S J) (cron : Cron Sched) (Marshal : J -> result string)
  (yaml_Unmarshal : string -> result Spec).

(** The process on one side, the API server on the other. *)
Abbreviation St := (World X * S)%type.

Definition local {A} (c : M (World X) A) : M St A := fun w =>
  let '(a, l) := c (fst w) in (a, (l, snd w)).

Definition remote {A} (c : M S A) : M St A := fun w =>
  let '(a, s) := c (snd w) in (a, (fst w, s)).

Record Reconciler := {
  rc_Version : string; rc_EvidenceDir : string;
  Recorder : option (CR J -> string * string * string -> M X unit);
  rc_Now : option (M (World X) Time) }.

Definition event (r : Reconciler) (obj : CR J) (ev : string * string * string) : M St unit :=
  match Recorder r with
  | Some f => local (on_ext (f obj ev))
  | None => mret tt
  end.

Definition now (r : Reconciler) : M St Time :=
  local (match rc_Now r with Some f => f | None => Verify.Now end).

Definition run_options (r : Reconciler) : Options X := {|
  Printer := None; opt_EvidenceDir := rc_EvidenceDir r; opt_KeyDir := EmptyString;
  opt_Version := rc_Version r |}.

(** When to look again after a run that was recorded. *)
Definition requeue (r : Reconciler) (d : Drill) (err : option error) : M St reconciled :=
  match err with
  | Some _ => mret (Requeue (5 * Minute) None)
  | None =>
      let schedule := Schedule (drill_Spec d) in
      if negb (is_empty schedule) then
        match ParseStandard cron schedule with
        | Err _ => mret RPanics
        | Ok sched =>
            let! t := now r in
            let! t1 := local Verify.Now in
            mret (Requeue (Sub (Next cron sched t) t1) None)
        end
      else mret (Requeue 0 None)
  end.

Definition invalid_fields (message : string) : Status :=
  {["phase" := VStr "Invalid"]} ∪ {["message" := VStr message]}.

Definition running_fields : Status :=
  {["phase" := VStr "Running"]} ∪ {["message" := VStr "drill in progress"]}.

Definition run_drill (r : Reconciler) (obj : CR J) (d : Drill) : M St reconciled :=
  let! _ := remote (patchStatus api obj running_fields) in
  let! out := local (Run dp d (run_options r)) in
  match out with
  | Panicked => mret RPanics
  | Ran e _ err =>
      let! t := now r in
      match run_status obj t e err with
      | None => mret RPanics
      | Some (status, ev) =>
          let! _ := event r obj ev in
          let! perr := remote (patchStatus api obj status) in
          match perr with
          | Some perr => mret (Requeue 0 (Some perr))
          | None => requeue r d err
          end
      end
  end.

Definition Reconcile (r : Reconciler) (k : Key) : M St reconciled :=
  let! g := remote (GetObject api k) in
  match g with
  | Err e => mret (Requeue 0 (if IsNotFound api e then None else Some e))
  | Ok obj =>
      match drillFromCR Marshal yaml_Unmarshal obj with
      | Err e =>
          let! _ := remote (patchStatus api obj (invalid_fields (Error e))) in
          let! _ := event r obj ("Warning", "InvalidSpec", Error e) in
          mret (Requeue 0 None)
      | Ok d =>
          let! t := now r in
          match due cron obj (Schedule (drill_Spec d)) t with
          | Settled => mret (Requeue 0 None)
          | BadSchedule e =>
              let! _ := remote (patchStatus api obj
                (invalid_fields ("bad schedule: " +:+ Error e))) in
              mret (Requeue 0 None)
          | Wait after => mret (Requeue after None)
          | RunNow missed =>
              let! _ := match missed with
                        | Some text => event r obj ("Warning", "MissedSchedule", text)
                        | None => mret tt
                        end in
              run_drill r obj d
          end
      end
  end.
End Reconcile.
Arguments Reconciler : clear implicits.

(** * The manager *)

(** How many drills may run at once. *)
Definition max_concurrent (maxConcurrent : Z) : Z := if maxConcurrent <? 1 then 3 else maxConcurrent.

(** The sweep at start-up (pkg/operator/manager.go): its failure is logged. *)
Definition startup_gc {W} (sweep_k8s : Gc.Options -> M W (option Gc.Result * option error))
  : M W (option error) :=
  let! _ := sweep_k8s {| Gc.OlderThan := Hour; Gc.DryRun := false; Gc.Force := false |} in
  mret None.

(** * What a write to the server promises

    The server keeps every object's versions; other clients act between the
    calls. [log] lists what was written, newest first: an object, or the removal
    of a key. *)

Inductive entry (J : Type) :=
| Own (o : CR J)
| Other (k : Key) (o : option (CR J)).
Arguments Own {J}. Arguments Other {J}.

Definition entry_key {J} (e : entry J) : Key :=
  match e with Own o => key_of o | Other k _ => k end.

Definition entry_object {J} (e : entry J) : option (CR J) :=
  match e with Own o => Some o | Other _ o => o end.

Definition others {J} (l : list (entry J)) : Prop := forall o, ~ In (Own o) l.

(** The object under a key: the newest entry for it. *)
Fixpoint current {J} (k : Key) (l : list (entry J)) : option (CR J) :=
  match l with
  | [] => None
  | e :: r => if decide (entry_key e = k) then entry_object e else current k r
  end.

(** [o] as the server stores it under a new version. *)
Definition stored_as {J} (v : string) (o : CR J) : CR J := {|
  cr_Namespace := cr_Namespace o; cr_Name := cr_Name o; cr_Generation := cr_Generation o;
  cr_Created := cr_Created o; ResourceVersion := v; cr_Spec := cr_Spec o; cr_Status := cr_Status o |}.

(** [RetryOnConflict]: attempts, others acting while it sleeps, until one does
    not end in a conflict or no attempt is left. *)
Inductive attempts {S J} (api : ObjectAPI S J) (log : S -> list (entry J))
  (f : M S (option error)) : S -> option error -> S -> Prop :=
| att_last s r s' : f s = (r, s') -> attempts api log f s r s'
| att_again s e s1 l s2 r s' :
    f s = (Some e, s1) -> IsConflict api e = true -> others l -> log s2 = l ++ log s1 ->
    attempts api log f s2 r s' -> attempts api log f s r s'.

(** Optimistic concurrency: reading returns some version of the object (it may
    be a cached one); an update of the status takes effect only on the version it
    carries, and replaces the status alone; a version is one content; a failed
    update may have been applied unless it is a conflict. *)
Class ObjectLaws {S J : Type} (api : ObjectAPI S J) : Type := {
  log : S -> list (entry J);
  versions_differ : forall s a b, entry_key a = entry_key b -> In a (log s) -> In b (log s) ->
    forall oa ob, entry_object a = Some oa -> entry_object b = Some ob ->
    ResourceVersion oa = ResourceVersion ob -> oa = ob;
  Get_grows : forall k s, exists l, others l /\ log (snd (GetObject api k s)) = l ++ log s;
  Get_returns : forall k s o s', GetObject api k s = (Ok o, s') ->
    key_of o = k /\ exists e, In e (log s') /\ entry_key e = k /\ entry_object e = Some o;
  Update_applies : forall o s s', UpdateStatus api o s = (None, s') ->
    exists l cur v, others l /\ current (key_of o) (l ++ log s) = Some cur /\
      ResourceVersion cur = ResourceVersion o /\
      log s' = Own (stored_as v (with_status (default ∅ (cr_Status o)) cur)) :: l ++ log s;
  Update_fails : forall o s e s', UpdateStatus api o s = (Some e, s') ->
    exists l, log s' = l ++ log s /\ (others l \/ IsConflict api e = false /\ exists l' cur v,
      others l' /\ current (key_of o) (l' ++ log s) = Some cur /\
      ResourceVersion cur = ResourceVersion o /\
      l = Own (stored_as v (with_status (default ∅ (cr_Status o)) cur)) :: l');
  Retry_attempts : forall f s, attempts api log f s
    (fst (RetryOnConflict api f s)) (snd (RetryOnConflict api f s))
}.
