(* ===== verification/OperatorFacts.v ===== *)
(** Facts about the operator: what it writes to the server, and when it runs a
    drill. *)

From Stdlib Require Import ZArith Lia Ascii String SpecFloat.
From stdpp Require Import base option list gmap strings.
From S2P Require Import Prelude GoStrings Float64 Calendar Rfc3339 Spec Disk Evidence World Interfaces Drill DrillFacts Operator.
From S2P Require Verify Sign.

(** * Statuses *)

Lemma field_merge (fields existing : Status) k v :
  fields !! k = Some v -> (fields ∪ existing) !! k = Some v.
Proof. intros H. by apply lookup_union_Some_l. Qed.

(** What the last patch of a run says of the verdict. *)
Lemma run_status_verified {J} (obj : CR J) t e err st ev :
  run_status obj t e err = Some (st, ev) ->
  (exists phase, st !! "phase" = Some (VStr phase) /\
    (phase = "Verified" <-> err = None /\ exists e0, e = Some e0 /\ ev_Verified e0 = true)) /\
  st !! "verified" = Some (VBool (match err, e with None, Some e0 => ev_Verified e0 | _, _ => false end)) /\
  st !! "lastRunTime" = Some (VStr (fmt_RFC3339 t)).
Proof.
  unfold run_status. destruct err as [er|]; [|destruct e as [e0|]; [|done];
    destruct (ev_Verified e0) eqn:Ev]; intros [= <- _];
    (split; [eexists; split; [apply field_merge; reflexivity|]|split; by apply field_merge]).
  - split; [done|]. by intros [? _].
  - split; [|done]. intros _. split; [done|]. by exists e0.
  - split; [done|]. intros (_ & e1 & [= <-] & ?). congruence.
Qed.

(** The verdict in full, and the error text. *)
Lemma run_status_phase {J} (obj : CR J) t e err st ev :
  run_status obj t e err = Some (st, ev) ->
  exists phase, st !! "phase" = Some (VStr phase) /\
    (phase = "Verified" <-> err = None /\ exists e0, e = Some e0 /\ ev_Verified e0 = true) /\
    (phase = "Failed" <-> err = None /\ exists e0, e = Some e0 /\ ev_Verified e0 = false) /\
    (forall er, err = Some er -> phase = "Error" /\ st !! "message" = Some (VStr (Error er))) /\
    st !! "lastRunTime" = Some (VStr (fmt_RFC3339 t)).
Proof.
  unfold run_status. destruct err as [er|]; [|destruct e as [e0|]; [|done];
    destruct (ev_Verified e0) eqn:Ev]; intros [= <- _]; eexists;
    (split; [apply field_merge; reflexivity|]);
    (split; [|split; [|split; [|by apply field_merge]]]);
    try (by intros); try (by split; [|intros []]).
  - intros ? [= <-]. split; [done|by apply field_merge].
  - split; [|done]. intros _. split; [done|]. by exists e0.
  - split; [done|]. intros (_ & e1 & [= <-] & ?). congruence.
  - split; [done|]. intros (_ & e1 & [= <-] & ?). congruence.
  - split; [|done]. intros _. split; [done|]. by exists e0.
Qed.

(** * Writes *)

Section Writes.
Context {S J : Type} (api : ObjectAPI S J) {OL : ObjectLaws api}.

(** From [s] to [s'] the operator wrote only objects that satisfy [P]. *)
Definition writes (P : CR J -> Prop) (s s' : S) : Prop :=
  exists l, log s' = l ++ log s /\ forall o, In (Own o) l -> P o.

Lemma writes_refl P s : writes P s s.
Proof. by exists []. Qed.

Lemma writes_trans P s s1 s' : writes P s s1 -> writes P s1 s' -> writes P s s'.
Proof.
  intros (l1 & H1 & P1) (l2 & H2 & P2). exists (l2 ++ l1). split.
  - by rewrite H2, H1, app_assoc.
  - intros o [?|?]%in_app_iff; auto.
Qed.

Lemma writes_impl (P Q : CR J -> Prop) s s' : (forall o, P o -> Q o) -> writes P s s' -> writes Q s s'.
Proof. intros HPQ (l & Hl & HP). exists l. auto. Qed.

Lemma writes_others P s s' l : others l -> log s' = l ++ log s -> writes P s s'.
Proof. intros Ho Hl. exists l. split; [done|]. intros o Hin. by destruct (Ho o). Qed.

Lemma writes_Get P k s : writes P s (snd (GetObject api k s)).
Proof. destruct (Get_grows k s) as (l & ? & ?). by eapply writes_others. Qed.

Lemma current_In k (l : list (entry J)) o :
  current k l = Some o -> exists e, In e l /\ entry_key e = k /\ entry_object e = Some o.
Proof.
  induction l as [|e l IH]; [done|]. cbn [current]. destruct (decide (entry_key e = k)) as [<-|Hne].
  - intros He. exists e. split; [by left|done].
  - intros (e' & ? & ?)%IH. exists e'. split; [by right|done].
Qed.

(** The fields over what was there. *)
Definition merged (fields : Status) (cur : CR J) : CR J :=
  with_status (fields ∪ default ∅ (cr_Status cur)) cur.

(** An update carrying the version of a read object replaces that very object. *)
Lemma replaced_is_read k s o s1 (l : list (entry J)) cur s' :
  GetObject api k s = (Ok o, s1) -> current k (l ++ log s1) = Some cur ->
  ResourceVersion cur = ResourceVersion o -> (exists l', log s' = l' ++ l ++ log s1) -> cur = o.
Proof.
  intros (Hk & e & Hin & Hek & Heo)%Get_returns (e' & Hin' & Hek' & Heo')%current_In Hv (l' & Hl).
  eapply (versions_differ s' e' e); try done; [by rewrite Hek, Hek'|..]; rewrite Hl, !in_app_iff.
  - right. by apply in_app_iff.
  - auto.
Qed.

Definition patched (obj : CR J) (fields : Status) (o : CR J) : Prop :=
  exists cur v, key_of cur = key_of obj /\ o = stored_as v (merged fields cur).

Lemma patch_once_writes obj fields s :
  writes (patched obj fields) s (snd (patch_once api obj fields s)).
Proof.
  unfold patch_once, mbind. pose proof (writes_Get (patched obj fields) (key_of obj) s) as Hg.
  destruct (GetObject api (key_of obj) s) as [[fresh|e] s1] eqn:Eg; [|done].
  eapply writes_trans; [exact Hg|]. cbn [snd] in *.
  destruct (Get_returns _ _ _ _ Eg) as (Hk & _).
  destruct (UpdateStatus api _ s1) as [[e|] s2] eqn:Eu; cbn [snd].
  - apply Update_fails in Eu as (l & Hl & [Ho|(_ & l' & cur & v & Ho & Hc & Hv & ->)]);
      [by eapply writes_others|].
    change (key_of (with_status _ fresh)) with (key_of fresh) in Hc.
    assert (cur = fresh) as ->.
    { rewrite Hk in Hc. eapply (replaced_is_read _ s fresh s1 l' cur s2 Eg Hc Hv). by eexists [_]. }
    exists (Own (stored_as v (merged fields fresh)) :: l'). split; [done|].
    intros o [[= <-]|Hin]; [by exists fresh, v|by destruct (Ho o)].
  - apply Update_applies in Eu as (l & cur & v & Ho & Hc & Hv & Hl).
    change (key_of (with_status _ fresh)) with (key_of fresh) in Hc.
    assert (cur = fresh) as ->.
    { rewrite Hk in Hc. eapply (replaced_is_read _ s fresh s1 l cur s2 Eg Hc Hv). by eexists [_]. }
    exists (Own (stored_as v (merged fields fresh)) :: l). split; [done|].
    intros o [[= <-]|Hin]; [by exists fresh, v|by destruct (Ho o)].
Qed.

Lemma patchStatus_writes obj fields s :
  writes (patched obj fields) s (snd (patchStatus api obj fields s)).
Proof.
  unfold patchStatus. pose proof (Retry_attempts (patch_once api obj fields) s) as Ha.
  remember (fst _) as r eqn:Er. clear Er.
  induction Ha as [s r s' E|s e s1 l s2 r s' E _ Ho Hl _ IH].
  - pose proof (patch_once_writes obj fields s) as H. by rewrite E in H.
  - pose proof (patch_once_writes obj fields s) as H. rewrite E in H. cbn [snd] in H.
    eapply writes_trans; [exact H|]. eapply writes_trans; [by eapply writes_others|done].
Qed.

(** A successful attempt writes the fields over the status that was current at
    that moment. *)
Lemma patch_once_ok obj fields s s' :
  patch_once api obj fields s = (None, s') ->
  exists l cur v, others l /\ current (key_of obj) (l ++ log s) = Some cur /\
    key_of cur = key_of obj /\ log s' = Own (stored_as v (merged fields cur)) :: l ++ log s.
Proof.
  unfold patch_once, mbind. destruct (Get_grows (key_of obj) s) as (l1 & Ho1 & Hl1).
  destruct (GetObject api (key_of obj) s) as [[fresh|e] s1] eqn:Eg; [|done]. cbn [snd] in Hl1.
  destruct (Get_returns _ _ _ _ Eg) as (Hk & _).
  intros (l & cur & v & Ho & Hc & Hv & Hl)%Update_applies.
  change (key_of (with_status _ fresh)) with (key_of fresh) in Hc. rewrite Hk in Hc.
  assert (cur = fresh) as ->.
  { eapply (replaced_is_read _ s fresh s1 l cur s' Eg Hc Hv). by eexists [_]. }
  exists (l ++ l1), fresh, v. rewrite <- app_assoc, <- Hl1. split; [|done].
  intros o [?|?]%in_app_iff; [by destruct (Ho o)|by destruct (Ho1 o)].
Qed.

Lemma patch_once_conflict obj fields s e s' :
  patch_once api obj fields s = (Some e, s') -> IsConflict api e = true ->
  exists l, others l /\ log s' = l ++ log s.
Proof.
  unfold patch_once, mbind. destruct (Get_grows (key_of obj) s) as (l1 & Ho1 & Hl1).
  destruct (GetObject api (key_of obj) s) as [[fresh|e0] s1] eqn:Eg; cbn [snd] in Hl1.
  - intros (l & Hl & [Ho|(Hc & _)])%Update_fails; [|congruence]. intros _.
    exists (l ++ l1). rewrite <- app_assoc, <- Hl1. split; [|done].
    intros o [?|?]%in_app_iff; [by destruct (Ho o)|by destruct (Ho1 o)].
  - intros [= <- <-] _. eauto.
Qed.

Lemma patchStatus_ok obj fields s s' :
  patchStatus api obj fields s = (None, s') ->
  exists l cur v, others l /\ current (key_of obj) (l ++ log s) = Some cur /\
    key_of cur = key_of obj /\ log s' = Own (stored_as v (merged fields cur)) :: l ++ log s.
Proof.
  unfold patchStatus. intros E. pose proof (Retry_attempts (patch_once api obj fields) s) as Ha.
  rewrite E in Ha. cbn [fst snd] in Ha. clear E. remember None as r eqn:Er.
  induction Ha as [s r s' E|s e s1 l s2 r s' E Hc Ho Hl _ IH]; subst r.
  - by apply patch_once_ok.
  - destruct (patch_once_conflict _ _ _ _ _ E Hc) as (l0 & Ho0 & Hl0).
    destruct (IH eq_refl) as (l' & cur & v & Ho' & Hc' & Hk' & Hl').
    exists (l' ++ l ++ l0), cur, v. rewrite <- !app_assoc, <- Hl0, <- Hl. split; [|done].
    intros o [?|[?|?]%in_app_iff]%in_app_iff; [by destruct (Ho' o)|by destruct (Ho o)|by destruct (Ho0 o)].
Qed.
End Writes.

(** * When a drill is due *)

Section DueFacts.
Context {J Sched : Type} (cron : Cron Sched).

(** Without a schedule: the generation has no recorded run. With one: it parses
    and its first time after the last run (the creation, before any) has come. *)
Inductive is_due (obj : CR J) (schedule : string) (now : Time) : Prop :=
| due_unscheduled :
    schedule = EmptyString ->
    IsZero (lastRun obj) = true \/ str obj "observedGeneration" <> itoa (cr_Generation obj) ->
    is_due obj schedule now
| due_scheduled sched :
    schedule <> EmptyString -> ParseStandard cron schedule = Ok sched ->
    Next cron sched (if IsZero (lastRun obj) then cr_Created obj else lastRun obj) <= now ->
    is_due obj schedule now.

Lemma due_runs obj schedule now :
  is_due obj schedule now <-> exists missed, due cron obj schedule now = RunNow missed.
Proof.
  unfold due. split.
  - intros [-> Hg|sched Hs Hp Hn].
    + cbn [is_empty]. destruct (IsZero _); [by eexists|]. destruct Hg as [|Hg]; [done|].
      cbn [negb andb]. rewrite (proj2 (String.eqb_neq _ _) Hg). by eexists.
    + replace (is_empty schedule) with false by (by destruct schedule). rewrite Hp. unfold Before.
      rewrite (proj2 (Z.ltb_ge now _) Hn). destruct (_ && _); by eexists.
  - intros [missed Hd]. destruct (is_empty schedule) eqn:Ee.
    + apply due_unscheduled; [by destruct schedule|]. destruct (IsZero _); [by left|].
      destruct (String.eqb_spec (str obj "observedGeneration") (itoa (cr_Generation obj))); [done|by right].
    + destruct (ParseStandard cron schedule) as [sched|e] eqn:Ep; [|done].
      unfold Before in Hd. destruct (Z.ltb_spec now
        (Next cron sched (if IsZero (lastRun obj) then cr_Created obj else lastRun obj))); [done|].
      eapply due_scheduled; [by intros ->|done|lia].
Qed.

(** A schedule with no next time is always due: its next run is the zero time. *)
Lemma unreachable_schedule_is_due obj schedule now sched :
  schedule <> EmptyString -> ParseStandard cron schedule = Ok sched ->
  (forall t, Next cron sched t = zero_time) -> zero_time <= now -> is_due obj schedule now.
Proof. intros Hs Hp Hz Hn. eapply due_scheduled; [done..|]. by rewrite Hz. Qed.

(** Once a run is recorded, whatever it ended with, the object waits for the next
    time of the schedule after it. *)
Lemma recorded_run_waits (obj obj' : CR J) schedule sched t e err st ev now :
  run_status obj t e err = Some (st, ev) -> status_field obj' "lastRunTime" = st !! "lastRunTime" ->
  four_digit_year t -> Unix t * Second <> zero_time ->
  schedule <> EmptyString -> ParseStandard cron schedule = Ok sched ->
  now < Next cron sched (Unix t * Second) ->
  due cron obj' schedule now = Wait (Sub (Next cron sched (Unix t * Second)) now).
Proof.
  intros Hst Hl Hy Hz Hs Hp Hn. destruct (run_status_verified _ _ _ _ _ _ Hst) as (_ & _ & Ht).
  assert (Hlr : lastRun obj' = Unix t * Second).
  { unfold lastRun, str. rewrite Hl, Ht, Parse_fmt by done. done. }
  unfold due. rewrite Hlr, Hp. replace (is_empty schedule) with false by (by destruct schedule).
  unfold IsZero. rewrite (proj2 (Z.eqb_neq _ _)) by done. unfold Before.
  by rewrite (proj2 (Z.ltb_lt _ _)).
Qed.
(** Without a schedule a run that ended with a verdict settles its generation:
    an execution error does not, since it leaves the generation unrecorded. *)
Lemma verdict_settles_generation (obj obj' : CR J) t e st ev now :
  run_status obj t (Some e) None = Some (st, ev) ->
  status_field obj' "lastRunTime" = st !! "lastRunTime" ->
  status_field obj' "observedGeneration" = st !! "observedGeneration" ->
  cr_Generation obj' = cr_Generation obj ->
  four_digit_year t -> Unix t * Second <> zero_time -> due cron obj' "" now = Settled.
Proof.
  intros Hst Hl Hg Hgen Hy Hz. destruct (run_status_verified _ _ _ _ _ _ Hst) as (_ & _ & Ht).
  assert (Hlr : lastRun obj' = Unix t * Second).
  { unfold lastRun, str. rewrite Hl, Ht, Parse_fmt by done. done. }
  assert (Hog : str obj' "observedGeneration" = itoa (cr_Generation obj')).
  { unfold str. rewrite Hg, Hgen. cbn in Hst.
    destruct (ev_Verified e); injection Hst as <- _; reflexivity. }
  unfold due. cbn [is_empty]. rewrite Hlr, Hog. unfold IsZero.
  by rewrite (proj2 (Z.eqb_neq _ _)), String.eqb_refl by done.
Qed.
End DueFacts.

(** * Reconciliation *)

Section ReconcileFacts.
Context {X S J Sched : Type} {CK : Verify.Clock (World X)} {EC : EvidenceCodec} {CR0 : Sign.Crypto}
  {VC : Sign.EnvelopeCodec}.
Context (dp : Deps X) (api : ObjectAPI S J) {OL : ObjectLaws api} (cron : Cron Sched)
  (Marshal : J -> result string) (yaml_Unmarshal : string -> result Spec) (r : Reconciler X J).

Abbreviation Rec := (Reconcile dp api cron Marshal yaml_Unmarshal r).

(** A step of a reconciliation that does not touch the server. *)
Lemma local_server {A} (c : M (World X) A) (w : World X * S) : snd (snd (local c w)) = snd w.
Proof. unfold local. by destruct (c (fst w)). Qed.

Lemma event_server obj ev (w : World X * S) : snd (snd (event r obj ev w)) = snd w.
Proof. unfold event. destruct (Recorder r); [apply local_server|done]. Qed.

Lemma now_server (w : World X * S) : snd (snd (now r w)) = snd w.
Proof. apply local_server. Qed.

(** What a write of this reconciliation may say. *)
Definition backed (d : Drill) (o : CR J) : Prop :=
  status_field o "phase" = Some (VStr "Verified") ->
  exists e path w1, fst (Run dp d (run_options r) w1) = Ran (Some e) path None /\
    ev_Verified e = true /\ status_field o "verified" = Some (VBool true).

Lemma patched_field (obj : CR J) fields o k v :
  patched obj fields o -> fields !! k = Some v -> status_field o k = Some v.
Proof. intros (cur & rv & _ & ->) Hk. by apply field_merge. Qed.

Lemma patched_other_phase d (obj : CR J) fields o phase :
  fields !! "phase" = Some (VStr phase) -> phase <> "Verified" -> patched obj fields o -> backed d o.
Proof. intros Hf Hne Hp Hv. rewrite (patched_field _ _ _ _ _ Hp Hf) in Hv. congruence. Qed.

Lemma remote_writes P (c : M S (option error)) (w : World X * S) :
  writes api P (snd w) (snd (c (snd w))) -> writes api P (snd w) (snd (snd (remote c w))).
Proof. unfold remote. by destruct (c (snd w)). Qed.

Lemma requeue_server d err (w : World X * S) : snd (snd (requeue cron r d err w)) = snd w.
Proof.
  unfold requeue, mbind, mret. destruct err; [done|]. destruct (negb _); [|done].
  destruct (ParseStandard _ _); [|done]. pose proof (now_server w) as H.
  destruct (now r w) as [t w1]. unfold local. by destruct (Verify.Now (fst w1)).
Qed.

Lemma run_drill_writes obj d (w : World X * S) :
  writes api (backed d) (snd w) (snd (snd (run_drill dp api cron r obj d w))).
Proof.
  unfold run_drill. set (c := patchStatus api obj running_fields). unfold mbind at 1.
  pose proof (remote_writes (backed d) c w) as H1. destruct (remote c w) as [u w1]. cbn [snd] in H1.
  eapply writes_trans; [apply H1; eapply writes_impl; [|apply patchStatus_writes]|].
  { intros o. by apply patched_other_phase with (phase := "Running"). }
  unfold mbind at 1. unfold local at 1. destruct (Run dp d (run_options r) (fst w1)) as [out l] eqn:Er.
  destruct out as [e path err|]; [|apply writes_refl]. unfold mbind at 1.
  pose proof (now_server (l, snd w1)) as H2. destruct (now r (l, snd w1)) as [t w2]. cbn [snd] in H2.
  destruct (run_status obj t e err) as [[st ev]|] eqn:Est; [|cbn; rewrite H2; apply writes_refl].
  unfold mbind at 1. pose proof (event_server obj ev w2) as H3.
  destruct (event r obj ev w2) as [u3 w3]. cbn [snd] in H3. rewrite <- H2, <- H3.
  set (c' := patchStatus api obj st). unfold mbind at 1.
  pose proof (remote_writes (backed d) c' w3) as H4. destruct (remote c' w3) as [perr w4].
  cbn [snd] in H4.
  eapply writes_trans; [apply H4; eapply writes_impl; [|apply patchStatus_writes]|].
  - intros o Hp. destruct (run_status_verified _ _ _ _ _ _ Est) as ((phase & Hph & Hiff) & Hv & _).
    intros Hpv. rewrite (patched_field _ _ _ _ _ Hp Hph) in Hpv. injection Hpv as ->.
    destruct (proj1 Hiff eq_refl) as (-> & e0 & -> & He0).
    exists e0, path, (fst w1). rewrite Er. split; [done|]. split; [done|].
    rewrite (patched_field _ _ _ _ _ Hp Hv). by rewrite He0.
  - destruct perr; [apply writes_refl|]. rewrite requeue_server. apply writes_refl.
Qed.

(** A run that is reported without an error is on record: the run itself, in the
    state the reconciliation had reached, the reading of the clock right after
    it, and the object as the last patch left it, which tells both. *)
Lemma run_drill_recorded obj d (w : World X * S) after w' :
  run_drill dp api cron r obj d w = (Requeue after None, w') ->
  exists e path err l2 t w3 st ev cur v,
    Run dp d (run_options r) (fst w) = (Ran e path err, l2) /\
    now r (l2, snd (patchStatus api obj running_fields (snd w))) = (t, w3) /\
    run_status obj t e err = Some (st, ev) /\ key_of cur = key_of obj /\
    current (key_of obj) (log (snd w')) = Some (stored_as v (merged st cur)) /\
    (err <> None -> after = 5 * Minute).
Proof.
  unfold run_drill. unfold mbind at 1. unfold remote at 1.
  destruct (patchStatus api obj running_fields (snd w)) as [u s1] eqn:Eu.
  unfold mbind at 1. unfold local at 1. cbn [fst snd].
  destruct (Run dp d (run_options r) (fst w)) as [out l] eqn:Er.
  destruct out as [e path err|]; [|done]. unfold mbind at 1.
  destruct (now r (l, s1)) as [t w2] eqn:En.
  destruct (run_status obj t e err) as [[st ev]|] eqn:Est; [|done].
  unfold mbind at 1. destruct (event r obj ev w2) as [u3 w3]. unfold mbind at 1.
  unfold remote at 1. destruct (patchStatus api obj st (snd w3)) as [perr s4] eqn:Ep.
  destruct perr as [er|]; [done|]. intros Hq.
  pose proof (requeue_server d err (fst w3, s4)) as Hs. rewrite Hq in Hs. cbn [snd] in Hs.
  destruct (patchStatus_ok api obj st (snd w3) s4 Ep) as (lo & cur & v & _ & _ & Hk & Hl).
  exists e, path, err, l, t, w2, st, ev, cur, v. rewrite Hs, Hl.
  do 4 (split; [done|]). split.
  - cbn [current entry_key]. rewrite decide_True; [done|exact Hk].
  - revert Hq. unfold requeue. destruct err; [|done]. by intros [= <- _] _.
Qed.

(** A write that claims a verified recovery, by a reconciliation that started in
    [w]: the object's drill was due and a run of it was verified. *)
Definition warranted (k : Key) (w : World X * S) (o : CR J) : Prop :=
  status_field o "phase" = Some (VStr "Verified") ->
  exists obj s1 d, GetObject api k (snd w) = (Ok obj, s1) /\
    drillFromCR Marshal yaml_Unmarshal obj = Ok d /\
    is_due cron obj (Schedule (drill_Spec d)) (fst (now r (fst w, s1))) /\ backed d o.

Lemma invalid_writes k w0 obj msg (w : World X * S) :
  writes api (warranted k w0) (snd w)
    (snd (snd (remote (patchStatus api obj (invalid_fields msg)) w))).
Proof.
  apply remote_writes. eapply writes_impl; [|apply patchStatus_writes]. intros o Hp Hv.
  by rewrite (patched_field _ (invalid_fields msg) _ _ (VStr "Invalid") Hp) in Hv.
Qed.

Lemma Reconcile_writes k (w : World X * S) :
  writes api (warranted k w) (snd w) (snd (snd (Rec k w))).
Proof.
  unfold Reconcile. unfold mbind at 1. unfold remote at 1.
  pose proof (writes_Get api (warranted k w) k (snd w)) as Hg.
  remember (warranted k w) as P eqn:HP.
  destruct (GetObject api k (snd w)) as [[obj|e] s1] eqn:Eg; [|done]. eapply writes_trans; [exact Hg|].
  clear Hg. cbn [snd].
  destruct (drillFromCR Marshal yaml_Unmarshal obj) as [d|e] eqn:Ed.
  - unfold mbind at 1. pose proof (now_server (fst w, s1)) as Hn.
    destruct (now r (fst w, s1)) as [t w2] eqn:Et. cbn [snd] in Hn. rewrite <- Hn.
    destruct (due cron obj _ t) as [|e|a|missed] eqn:Edue; try apply writes_refl.
    + unfold mbind at 1. pose proof (invalid_writes k w obj ("bad schedule: " +:+ Error e) w2) as Hi.
      rewrite <- HP in Hi. by destruct (remote _ w2).
    + unfold mbind at 1. match goal with |- context [let '(_, _) := ?c w2 in _] =>
        assert (Hm : snd (snd (c w2)) = snd w2) by (destruct missed; [apply event_server|done]);
        destruct (c w2) as [u w3] end.
      cbn [snd] in Hm. rewrite <- Hm. eapply writes_impl; [|apply run_drill_writes].
      intros o Hb. rewrite HP. intros Hv. exists obj, s1, d. split; [done|]. split; [done|].
      split; [|done]. rewrite Et. apply due_runs. eauto.
  - unfold mbind at 1. pose proof (invalid_writes k w obj (Error e) (fst w, s1)) as Hi.
    rewrite <- HP in Hi. destruct (remote _ _) as [u w2].
    unfold mbind at 1. pose proof (event_server obj ("Warning", "InvalidSpec", Error e) w2) as He.
    destruct (event r obj _ w2) as [u3 w3]. unfold mret. cbn [snd] in He |- *. by rewrite He.
Qed.

(** What a reconciliation does with a well-formed object follows [due]. *)
Lemma Reconcile_due k (w : World X * S) obj s1 d :
  GetObject api k (snd w) = (Ok obj, s1) -> drillFromCR Marshal yaml_Unmarshal obj = Ok d ->
  let '(t, w1) := now r (fst w, s1) in
  Rec k w =
  match due cron obj (Schedule (drill_Spec d)) t with
  | Settled => (Requeue 0 None, w1)
  | BadSchedule e =>
      (Requeue 0 None, snd (remote (patchStatus api obj (invalid_fields ("bad schedule: " +:+ Error e))) w1))
  | Wait after => (Requeue after None, w1)
  | RunNow None => run_drill dp api cron r obj d w1
  | RunNow (Some text) =>
      run_drill dp api cron r obj d (snd (event r obj ("Warning", "MissedSchedule", text) w1))
  end.
Proof.
  intros Hg Hd. unfold Reconcile. unfold mbind at 1. unfold remote at 1. rewrite Hg, Hd.
  unfold mbind at 1. destruct (now r (fst w, s1)) as [t w1]. unfold mret.
  destruct (due cron obj _ t) as [|e|a|[text|]]; try done; unfold mbind at 1.
  - by destruct (remote _ w1).
  - by destruct (event r obj _ w1).
Qed.
End ReconcileFacts.
