(* ===== verification/Program.v ===== *)
(** The program around the commands (main in cmd/firedrill/main.go, RunManager in
    pkg/operator/manager.go): the flags' defaults, the choice of the command, the
    operator's start-up, and the process with its two signals. The flag parser
    and the controller framework are third-party. *)

From Stdlib Require Import ZArith Lia Ascii String SpecFloat.
From stdpp Require Import base option list gmap strings.
From S2P Require Import Prelude GoStrings Spec Disk Evidence World Interfaces Drill Cli.
From S2P Require Verify Sign Gate Reports Gc Operator.

Abbreviation CR := Operator.CR.

(** * The commands and their flags

    Each with the values its flags have when they are not given. *)

Inductive command : Type :=
| Init (driver out : string) (force : bool)
| Run (fl : RunFlags) (noColor : bool)
| Validate (file : string)
| Schema (outPath : string)
| Keygen (dir : string)
| VerifyEvidence (pubPath keyDir : string)
| Controls (evidenceDir format outPath : string)
| Gate (fl : GateFlags)
| History (evidenceDir drillName : string)
| Collect (o : Gc.Options) (dockerOnly k8sOnly : bool)
| Operate (evidenceDir metricsAddr : string) (maxConcurrent : Z).

Definition init_flags : command := Init "postgres" "firedrill.yaml" false.
Definition schema_flags : command := Schema "".
Definition run_flags : command :=
  Run {| run_All := false; run_File := "firedrill.yaml"; run_EvidenceDir := ""; run_KeyDir := "";
         run_DryRun := false |} false.
Definition controls_flags : command := Controls "evidence" "markdown" "".
Definition gate_flags : command :=
  Gate {| gf_EvidenceDir := "evidence"; gf_Format := "text"; gf_FromSpec := ""; gf_By := "drill";
          gf_PubPath := ""; gf_DrillNames := []; gf_ControlNames := []; gf_MaxAge := 0;
          gf_RequireSigned := false; gf_AllowUnverified := false |}.
Definition history_flags : command := History "evidence" "".
Definition gc_flags : command :=
  Collect {| Gc.OlderThan := Hour; Gc.DryRun := false; Gc.Force := false |} false false.
Definition operator_flags : command := Operate "/evidence" ":8080" 3.
Definition validate_flags : command := Validate "firedrill.yaml".
Definition keygen_flags : command := Keygen "".
Definition verify_evidence_flags : command := VerifyEvidence "" "".

(** The commands of the root command, by name. *)
Definition commands : list (string * command) :=
  [("init", init_flags); ("run", run_flags); ("validate", validate_flags);
   ("schema", schema_flags); ("keygen", keygen_flags); ("verify-evidence", verify_evidence_flags);
   ("controls", controls_flags); ("gate", gate_flags); ("history", history_flags);
   ("gc", gc_flags); ("operator", operator_flags)].

(** How many arguments a command takes. *)
Definition takes (c : command) (n : nat) : bool :=
  match c with
  | Run _ _ => (n <=? 1)%nat
  | VerifyEvidence _ _ => (n =? 1)%nat
  | _ => true
  end.

(** * The operator *)

(** What controller-runtime offers: [GetConfigOrDie] is false when there is no
    cluster configuration, which ends the process; [mgr_Start] blocks until it is
    told to stop, running what was added. *)
Record ManagerOptions := {
  BindAddress : string; HealthProbeBindAddress : string; LeaderElection : bool;
  LeaderElectionID : string }.

Record Framework (X J W : Type) := {
  GetConfigOrDie : M W bool;
  NewManager : ManagerOptions -> M W (option error);
  GetEventRecorder : string -> CR J -> string * string * string -> M X unit;
  Complete : Operator.Reconciler X J -> Z -> M W (option error);
  AddRunnable : M W (option error) -> M W (option error);
  AddHealthzCheck : string -> M W (option error);
  AddReadyzCheck : string -> M W (option error);
  mgr_Start : M W (option error)
}.
Arguments GetConfigOrDie {X J W}. Arguments NewManager {X J W}. Arguments GetEventRecorder {X J W}.
Arguments Complete {X J W}. Arguments AddRunnable {X J W}. Arguments AddHealthzCheck {X J W}.
Arguments AddReadyzCheck {X J W}. Arguments mgr_Start {X J W}.

(** [if err := c; err != nil { return wrap(err) }; k] *)
Definition checked {W} (c : M W (option error)) (wrap : error -> error) (k : M W exit) : M W exit :=
  let! e := c in match e with Some err => mret (Fails (wrap err)) | None => k end.

Section Manager.
Context {X J W : Type} (fw : Framework X J W)
  (sweep_k8s : Gc.Options -> M W (option Gc.Result * option error)).

Definition manager_options (metricsAddr : string) : ManagerOptions := {|
  BindAddress := metricsAddr; HealthProbeBindAddress := ":8081"; LeaderElection := true;
  LeaderElectionID := "firedrill-operator.firedrill.dev" |}.

Definition new_reconciler (version evidenceDir : string) : Operator.Reconciler X J := {|
  Operator.rc_Version := version; Operator.rc_EvidenceDir := evidenceDir;
  Operator.Recorder := Some (GetEventRecorder fw "firedrill"); Operator.rc_Now := None |}.

Definition SetupWithManager (r : Operator.Reconciler X J) (maxConcurrent : Z) : M W (option error) :=
  Complete fw r (Operator.max_concurrent maxConcurrent).

Definition RunManager (version evidenceDir metricsAddr : string) (maxConcurrent : Z) : M W exit :=
  let! config := GetConfigOrDie fw in
  if negb config then mret (Exit 1) else
  let on what e := EWrap what e "" in
  checked (NewManager fw (manager_options metricsAddr)) (on "creating manager: ") (
  checked (SetupWithManager (new_reconciler version evidenceDir) maxConcurrent)
    (on "setting up controller: ") (
  checked (AddRunnable fw (Operator.startup_gc sweep_k8s)) (fun e => e) (
  checked (AddHealthzCheck fw "healthz") (fun e => e) (
  checked (AddReadyzCheck fw "readyz") (fun e => e) (
  checked (mgr_Start fw) (fun e => e) (mret Done)))))).

(** The operator serves only when every registration succeeded; an exit without
    an error is one of the framework's, told to stop. *)
Lemma RunManager_done version evidenceDir metricsAddr maxConcurrent w w' :
  RunManager version evidenceDir metricsAddr maxConcurrent w = (Done, w') ->
  exists w0, mgr_Start fw w0 = (None, w').
Proof.
  unfold RunManager, checked, mbind, mret. destruct (GetConfigOrDie fw w) as [[] w1]; [|done]. cbn [negb].
  repeat match goal with |- (let '(_, _) := ?c ?w0 in _) = _ -> _ =>
    let e := fresh "e" in destruct (c w0) as [[e|] ?] eqn:?; [done|] end.
  intros [= <-]. eauto.
Qed.
End Manager.

(** * The program *)

Section Main.
Context {X J : Type} {CK : Verify.Clock (World X)} {EC : EvidenceCodec} {CR0 : Sign.Crypto}
  {VC : Sign.EnvelopeCodec} {SS : SliceSort}.
Abbreviation W := (World X).

(** What the commands are given: the terminal ([tty] when it is one), the YAML
    documents of a spec file, the encoders, the embedded files, the key generator
    and the two sweeps. *)
Context (dp : Deps X) (stdout : string -> M X unit) (tty : bool) (version : string)
  (spec_file : string -> result (list (result Spec.Drill)))
  (gate_json : Gate.GateReport -> result string) (controls_json : Reports.ControlReport -> result string)
  (templates : gmap string string) (schema : string) (generated : result (string * string))
  (pkix : string -> result string)
  (sweep_docker sweep_k8s : Gc.Options -> M W (option Gc.Result * option error))
  (fw : Framework X J W).

Definition execute (c : command) (args : list string) : M W exit :=
  match c, args with
  | Init driver out force, _ => init_cmd dp stdout templates driver out force
  | Run fl noColor, _ => run_cmd dp stdout (negb noColor && tty) version spec_file fl args
  | Validate file, _ => validate_cmd stdout spec_file file
  | Schema outPath, _ => schema_cmd dp stdout schema outPath
  | Keygen dir, _ => keygen_cmd dp stdout generated pkix dir
  | VerifyEvidence pub dir, path :: _ => verify_evidence_cmd dp stdout pub dir path
  | VerifyEvidence _ _, [] => mret Panics    (* [args[0]]: ruled out by [takes] *)
  | Controls dir format out, _ => controls_cmd dp stdout controls_json dir format out
  | Gate fl, _ => gate_cmd dp stdout spec_file gate_json fl
  | History dir drill, _ => history_cmd dp stdout dir drill
  | Collect o dockerOnly k8sOnly, _ => gc_cmd stdout sweep_docker sweep_k8s o dockerOnly k8sOnly
  | Operate dir addr n, _ => RunManager fw sweep_k8s version dir addr n
  end.

(** The parser: the command with its flags over their defaults, and the arguments
    left; [usage] is its message on a wrong number of these. *)
Context (parse : list (string * command) -> list string -> result (command * list string))
  (usage : command -> list string -> error).

Definition ExecuteContext (argv : list string) : M W exit :=
  match parse commands argv with
  | Err e => mret (Fails e)
  | Ok (c, args) =>
      if takes c (List.length args) then execute c args else mret (Fails (usage c args))
  end.

(** ** The process

    [main] next to the goroutine that waits for signals. The channel holds one
    signal; one that finds it full is dropped. A command is one event, so where it
    has got to when its context is cancelled is chosen with the cancellation: [C]
    is the set of such moments, and [interrupt k w] the world [w] in which the
    requests made under the command's context fail from the moment [k] on. A
    command that returns before any cancellation runs in [w] itself. *)

Context {C : Type} (interrupt : C -> W -> W).

Inductive handler : Type :=
| Waiting        (* before the first receive *)
| Woken          (* a signal was received *)
| Announced      (* the message is out *)
| Listening      (* the context is cancelled; waiting for another signal *)
| Forced.        (* a second signal was received *)

Inductive status : Type :=
| Running
| Ended (code : Z) (w : W)
| Killed.        (* [os.Exit(130)] in the middle of the command *)

Record Process := {
  sigCh : bool; goroutine : handler; cancelled : option C; stderr : string; process : status;
  arrived : nat (* signals so far *) }.

Inductive event : Type := Signal | Receive | Announce | Cancel (k : C) | ForceExit | Return.

Definition start : Process := {|
  sigCh := false; goroutine := Waiting; cancelled := None; stderr := ""; process := Running;
  arrived := 0 |}.

Definition interrupted : string :=
  nl +:+ "interrupted — tearing down sandboxes (press Ctrl-C again to force quit)" +:+ nl.

(** The running process with another channel, goroutine, or context. *)
Definition running (ch : bool) (h : handler) (cancel : option C) (said : string) (n : nat) : Process := {|
  sigCh := ch; goroutine := h; cancelled := cancel; stderr := said; process := Running; arrived := n |}.

Definition over (s : status) (said : string) (p : Process) : Process := {|
  sigCh := sigCh p; goroutine := goroutine p; cancelled := cancelled p; stderr := stderr p +:+ said;
  process := s; arrived := arrived p |}.

(** The world a command runs in, once it is known whether its context is
    cancelled. *)
Definition seen_by (cancel : option C) (w : W) : W :=
  match cancel with Some k => interrupt k w | None => w end.

Definition step (argv : list string) (w : W) (ev : event) (p : Process) : option Process :=
  let '{| sigCh := ch; goroutine := h; cancelled := c; stderr := said; arrived := n |} := p in
  match process p with
  | Ended _ _ | Killed => None
  | Running =>
      match ev, h, ch with
      | Signal, _, _ => Some (running true h c said (S n))
      | Receive, Waiting, true => Some (running false Woken c said n)
      | Announce, Woken, _ => Some (running ch Announced c (said +:+ interrupted) n)
      | Cancel k, Announced, _ => Some (running ch Listening (Some k) said n)
      | Receive, Listening, true => Some (running false Forced c said n)
      | ForceExit, Forced, _ => Some (over Killed "" p)
      | Return, _, _ =>
          let '(r, w') := ExecuteContext argv (seen_by c w) in
          Some (over (Ended (exit_code r) w') (snd (main_exit r)) p)
      | _, _, _ => None
      end
  end.

(** The code the process ends with. *)
Definition exit_status (p : Process) : option Z :=
  match process p with Running => None | Ended c _ => Some c | Killed => Some 130 end.

Inductive reachable (argv : list string) (w : W) : Process -> Prop :=
| reach_start : reachable argv w start
| reach_step ev p p' : reachable argv w p -> step argv w ev p = Some p' -> reachable argv w p'.

(** ** What holds of every reachable state *)

(** The signals the goroutine has taken. *)
Definition taken (h : handler) : nat :=
  match h with Waiting => 0 | Woken | Announced | Listening => 1 | Forced => 2 end.

Record sound (argv : list string) (w : W) (p : Process) : Prop := {
  counted : (taken (goroutine p) + (if sigCh p then 1 else 0) <= arrived p)%nat;
  cancels : cancelled p <> None <-> goroutine p = Listening \/ goroutine p = Forced;
  kills : process p = Killed -> goroutine p = Forced;
  ends code w' : process p = Ended code w' ->
    exists r, ExecuteContext argv (seen_by (cancelled p) w) = (r, w') /\ code = exit_code r }.

Lemma step_sound argv w ev p p' :
  sound argv w p -> step argv w ev p = Some p' -> sound argv w p'.
Proof.
  intros [Hn Hc _ _]. unfold step. destruct p as [ch h c said [|code w0|] n]; cbn in *; try done.
  destruct ev, h, ch; try done; cbn in Hn;
    try (intros [= <-]; split; cbn; [lia|rewrite ?Hc; naive_solver|done|done]);
    destruct (ExecuteContext argv (seen_by c w)) as [r w'] eqn:Ex; intros [= <-]; split; cbn; try done; try lia;
    intros code w1 [= <- <-]; by exists r.
Qed.

Lemma reachable_sound argv w p : reachable argv w p -> sound argv w p.
Proof.
  induction 1 as [|ev p p' _ IH Hs]; [|by eapply step_sound].
  split; cbn; [lia|naive_solver|done|done].
Qed.

(** With one signal, or none, the process ends as the command does, in the world
    the signal left it; and once the goroutine listens for another signal, the
    context is cancelled. *)
Lemma one_signal_ends argv w p :
  reachable argv w p -> (arrived p <= 1)%nat -> process p <> Running ->
  exists r w', ExecuteContext argv (seen_by (cancelled p) w) = (r, w') /\
    process p = Ended (exit_code r) w' /\ (goroutine p = Listening -> cancelled p <> None).
Proof.
  intros [Hn Hc Hk He]%reachable_sound H1 Hr. destruct (process p) as [|code w'|]; [done| |].
  - destruct (He code w' eq_refl) as (r & Hx & ->). exists r, w'. do 2 (split; [done|]).
    intros Hl. apply Hc. by left.
  - rewrite (Hk eq_refl) in Hn. cbn in Hn. lia.
Qed.

(** A forced exit takes two signals, and the context was cancelled before. *)
Lemma killed_twice argv w p :
  reachable argv w p -> process p = Killed -> (2 <= arrived p)%nat /\ cancelled p <> None.
Proof.
  intros [Hn Hc Hk _]%reachable_sound Hp. specialize (Hk Hp). rewrite Hk in *. cbn in Hn.
  split; [lia|]. apply Hc. by right.
Qed.

(** ** Runs of events *)

Fixpoint steps (argv : list string) (w : W) (evs : list event) (p : Process) : option Process :=
  match evs with
  | [] => Some p
  | ev :: r => match step argv w ev p with Some p' => steps argv w r p' | None => None end
  end.

Lemma steps_reachable argv w evs p p' :
  reachable argv w p -> steps argv w evs p = Some p' -> reachable argv w p'.
Proof.
  revert p. induction evs as [|ev evs IH]; intros p Hp; cbn [steps]; [by intros [= <-]|].
  destruct (step argv w ev p) as [p1|] eqn:E; [|done]. apply IH. by eapply reach_step.
Qed.

(** A first signal reaches the context, whatever the command does meanwhile: the
    goroutine gets there by itself. *)
Lemma signal_cancels argv w ch c said n k :
  steps argv w [Signal; Receive; Announce; Cancel k] (running ch Waiting c said n) =
    Some (running false Listening (Some k) (said +:+ interrupted) (S n)).
Proof. done. Qed.

(** A signal after that ends the process, and so does one that came while the
    first was being handled. *)
Lemma second_signal_kills argv w ch c said n :
  option_map exit_status (steps argv w [Signal; Receive; ForceExit] (running ch Listening c said n)) =
    Some (Some 130) /\
  option_map exit_status (steps argv w [Receive; ForceExit] (running true Listening c said n)) =
    Some (Some 130).
Proof. done. Qed.

(** Two signals that arrive before the goroutine comes to its first receive count
    as one: the second is dropped. *)
Lemma hasty_signals_count_once argv w k :
  steps argv w [Signal; Signal; Receive; Announce; Cancel k] start =
    Some (running false Listening (Some k) interrupted 2) /\
  step argv w Receive (running false Listening (Some k) interrupted 2) = None.
Proof. done. Qed.
End Main.
