(* ===== verification/PropsSpec.v ===== *)
(** The properties of drill documents and of the checks run on restored data. *)

From Stdlib Require Import ZArith Lia Ascii String.
From stdpp Require Import base option list gmap strings.
From S2P Require Import Prelude GoStrings Regex PathMatch Paths Spec SpecFacts Disk Evidence World Interfaces Source SourceFacts Instances Scenario.
From S2P Require Verify VerifyFacts Durations DurationFacts.

(** C12: validation accepts exactly the well-formed documents: right version and
    kind, a DNS-label name, a known driver with a format and a source that suit
    it, a sandbox it can be restored in, positive limits and objectives, at
    least one check that inspects restored data, every check of exactly one
    kind and valid for the driver, and complete sinks. *)
Theorem Validate_exact d : Validate d = None <-> well_formed d.
Proof. apply Validate_iff. Qed.

(** C32: loading a file yields drills exactly when every document decodes and is
    well-formed, no two drills share a name, and there is at least one; it
    yields them all, in order. *)
Theorem ParseAll_exact docs ds :
  ParseAll docs = Ok ds <->
  ds <> [] /\ docs = List.map Ok ds /\ Forall well_formed ds /\
  NoDup (List.map drill_Name ds).
Proof. apply ParseAll_ok. Qed.

(** C25: a duration of a drill document survives being written and read back:
    decoding the text it is marshalled to gives the same count of nanoseconds,
    for every signed 64-bit duration, fractions included; and whatever text is
    decoded, what is accepted is such a count. *)
Theorem durations_round_trip {Node} (Decode : Node -> result string) node d :
  in_int64 d -> Decode node = Ok (Durations.MarshalYAML d) ->
  Durations.UnmarshalYAML Decode node = Ok d /\
  forall node' v, Durations.UnmarshalYAML Decode node' = Ok v -> in_int64 v.
Proof.
  intros Hd Hn. unfold Durations.UnmarshalYAML, Durations.MarshalYAML in *.
  rewrite Hn, DurationFacts.ParseDuration_String by done. split; [done|].
  intros node' v. destruct (Decode node'); [|done].
  destruct (Durations.ParseDuration a) eqn:E; [|done]. intros [= <-].
  by eapply DurationFacts.ParseDuration_range.
Qed.

Lemma durations_round_trip_witness :
  let d := 2 * Hour + 1500000001 in
  in_int64 d /\ Durations.UnmarshalYAML (fun s => Ok s) "2h0m1.500000001s" = Ok d /\
  forall s v, Durations.UnmarshalYAML (fun s => Ok s) s = Ok v -> in_int64 v.
Proof.
  assert (H : in_int64 (2 * Hour + 1500000001)) by (vm_compute; split; discriminate).
  split; [exact H|].
  apply (durations_round_trip (fun s => Ok s) "2h0m1.500000001s" (2 * Hour + 1500000001)).
  - exact H.
  - vm_compute. reflexivity.
Defined.

(** The per-check validation accepts exactly the eight valid shapes. *)
Theorem check_validate_exact c : check_validate c = None <-> valid_check c.
Proof. apply check_validate_iff. Qed.

(** Probing a glob once at validation time is enough: a pattern accepted on
    the probe name is never a malformed pattern on any file name. *)
Theorem validated_glob_never_fails g name :
  bad_glob g = false -> exists ok, PathMatch.Match g name = Some ok.
Proof. apply SourceFacts.accepted_glob_matches. Qed.

Lemma validated_glob_never_fails_witness :
  exists ok, PathMatch.Match "p-[0-9]*.dump" "p-7.dump" = Some ok.
Proof. apply (validated_glob_never_fails "p-[0-9]*.dump"). vm_compute. reflexivity. Defined.

Section Checks.
Context {W : Type} {CK : Verify.Clock W}.

(** C27: a passed data check is evidence: the restore had succeeded, and some
    configured check made its observation on the restored data (enough rows,
    the expected checksum, the expected row set, the exact sentinel, pods
    ready over consecutive samples, enough resources). *)
Theorem passed_check_observed_data eng cs (dc : Verify.Context W) w r :
  In r (fst (Verify.Run eng cs dc w)) -> Verify.Passed r = true ->
  str_in (Verify.res_Name r) VerifyFacts.data_names = true ->
  Verify.RestoreErr dc = None /\ exists c w1, In c cs /\ VerifyFacts.observed eng dc w1 c.
Proof. apply VerifyFacts.Run_passed_observed. Qed.

(** C28: after a failed restore no check touches the database or the cluster,
    and every check that would inspect data is reported skipped, not
    failed. *)
Theorem failed_restore_skips_data eng cs (dc : Verify.Context W) err w :
  Verify.RestoreErr dc = Some err ->
  snd (Verify.Run eng cs dc w) = w /\
  forall r, In r (fst (Verify.Run eng cs dc w)) ->
    str_in (Verify.res_Name r) VerifyFacts.data_names = true -> Verify.Skipped r = true.
Proof.
  intros He. split; [by eapply VerifyFacts.Run_restore_failed|].
  intros r (c & w1 & Hc & ->)%VerifyFacts.Run_in Hn.
  destruct (VerifyFacts.runOne_name eng c dc w1) as [Hname ->].
  rewrite Hname in Hn. by rewrite He, Hn.
Qed.

(** Every configured check is reported once, in order, under its own
    name; a validated check is never reported as unknown. *)
Theorem every_check_reported eng cs (dc : Verify.Context W) w :
  List.map Verify.res_Name (fst (Verify.Run eng cs dc w)) =
    List.map VerifyFacts.check_name cs /\
  (forall c, In c cs -> check_validate c = None -> VerifyFacts.check_name c <> "unknown").
Proof.
  split; [apply VerifyFacts.Run_names|]. intros c _ Hv.
  by apply VerifyFacts.valid_check_known, check_validate_iff.
Qed.

(** C29: pods pass only when stable: a passed check ends in three consecutive
    listings, two seconds apart and before the deadline, each with at least
    one pod and every pod ready or completed. *)
Theorem podsReady_needs_stability cli ns c (w : W) :
  Verify.Passed (fst (Verify.podsReady cli ns c w)) = true ->
  exists cl rs w1 last w2, cli = Some cl /\
    VerifyFacts.polls cl ns (Add (fst (Verify.Now w)) (Timeout c)) (snd (Verify.Now w)) rs w1 /\
    VerifyFacts.sampled cl ns (Add (fst (Verify.Now w)) (Timeout c)) w1 last w2 /\
    VerifyFacts.stable_end 0 (rs ++ [last]).
Proof. apply VerifyFacts.podsReady_passed. Qed.

(** C30: the polling loop ends: on a clock that moves with sleeps, a positive
    timeout and a listing that takes no negative time, the fuel derived from
    the timeout is never used up. *)
Theorem podsReady_terminates {CL : Verify.ClockLaws W} (cli : Verify.K8sClient W) ns c w :
  (forall w, Verify.time_of w <= Verify.time_of (snd (Verify.list_pods cli ns w))) ->
  0 < Timeout c ->
  fst (Verify.pods_loop (Verify.pods_fuel c) cli ns c (Add (fst (Verify.Now w)) (Timeout c)) 0 ""
         (snd (Verify.Now w))) <> None.
Proof.
  intros Hl Ht. apply (VerifyFacts.pods_loop_total _ _ Hl); [|unfold Verify.pods_fuel; lia].
  refine (VerifyFacts.pods_fuel_enough c _ _ _ Ht). apply (Verify.Now_reads w).
Qed.

(** An identifier that is not one never reaches the database: the check
    fails, the world is untouched and the engine is irrelevant. *)
Theorem checksum_rejects_identifiers (e e' : Verify.Engine W) c w :
  MatchString Verify.identRe (Table c) && MatchString Verify.identRe (Column c) = false ->
  Verify.checksum e c w = Verify.checksum e' c w /\ snd (Verify.checksum e c w) = w /\
  Verify.Passed (fst (Verify.checksum e c w)) = false.
Proof. apply VerifyFacts.checksum_guard. Qed.

(** A canary's report does not leak the sentinel: two expected values
    that both match, or both fail to match, what was restored give the same
    result. *)
Theorem canary_keeps_secret (e : Verify.Engine W) c c' w :
  canary_Statement c = canary_Statement c' ->
  (fst (Verify.Scalar e (canary_Statement c) w) = Ok (canary_Expect c) <->
   fst (Verify.Scalar e (canary_Statement c') w) = Ok (canary_Expect c')) ->
  Verify.canary e c w = Verify.canary e c' w.
Proof. apply VerifyFacts.canary_secret. Qed.
End Checks.

(** The hand-written submatch is the regular expression: a row expression
    is understood exactly when, white space trimmed, it matches the source's
    pattern. *)
Theorem evalRows_accepts_pattern n expr :
  is_ok (Verify.evalRows n expr) = true <->
  MatchString Verify.rowsExprRe (TrimSpace expr) = true.
Proof.
  rewrite <- VerifyFacts.rows_submatch_iff. unfold Verify.evalRows.
  destruct (Verify.rows_submatch _) as [[op ds]|]; simpl; naive_solver.
Qed.

(** ** Witnesses *)

Definition ctx1 (restoreErr : option error) : Verify.Context W := {|
  Verify.RestoreErr := restoreErr; Verify.BackupAge := Hour; Verify.ctx_RTO := Minute;
  Verify.K8s := None; Verify.ctx_Namespace := "" |}.

Lemma passed_check_observed_data_witness :
  Verify.RestoreErr (ctx1 None) = None /\ exists c w1, In c (Verify (drill_Spec drill1)) /\
    VerifyFacts.observed (Some engine1) (ctx1 None) w1 c.
Proof.
  eapply (passed_check_observed_data (Some engine1) (Verify (drill_Spec drill1)) (ctx1 None) world1);
    [right; left; reflexivity|reflexivity|reflexivity].
Defined.

Lemma failed_restore_skips_data_witness :
  snd (Verify.Run (Some engine1) (Verify (drill_Spec drill1)) (ctx1 (Some (ENew "x"))) world1)
  = world1.
Proof. apply (failed_restore_skips_data _ _ _ (ENew "x")). reflexivity. Defined.

(** A namespace whose one pod is always ready. *)
Definition ready_pod : Verify.Pod := {|
  Verify.Phase := "Running";
  Verify.Conditions := [{| Verify.cond_Type := "Ready"; Verify.cond_Status := "True" |}] |}.

Definition client1 : Verify.K8sClient W := {|
  Verify.list_pods _ := mret (Ok [ready_pod]); Verify.list_len _ _ := mret (Ok 1) |}.

Lemma podsReady_needs_stability_witness :
  exists cl rs w1 last w2, Some client1 = Some cl /\
    VerifyFacts.polls cl "ns" (Add (fst (Verify.Now world1)) Minute) (snd (Verify.Now world1)) rs w1 /\
    VerifyFacts.sampled cl "ns" (Add (fst (Verify.Now world1)) Minute) w1 last w2 /\
    VerifyFacts.stable_end 0 (rs ++ [last]).
Proof.
  apply (podsReady_needs_stability (Some client1) "ns" {| Timeout := Minute |} world1).
  vm_compute. reflexivity.
Defined.

Lemma podsReady_terminates_witness :
  fst (Verify.pods_loop (Verify.pods_fuel {| Timeout := Minute |}) client1 "ns"
         {| Timeout := Minute |} (Add (fst (Verify.Now world1)) Minute) 0 "" (snd (Verify.Now world1))) <> None.
Proof.
  apply (podsReady_terminates client1 "ns" {| Timeout := Minute |} world1).
  - intros w. apply Z.le_refl.
  - reflexivity.
Defined.

Lemma checksum_rejects_identifiers_witness :
  let c := {| Table := "t; drop table t"; Column := "id"; sum_Expect := "" |} in
  snd (Verify.checksum engine1 c world1) = world1.
Proof.
  intros c. apply (checksum_rejects_identifiers engine1 engine1 c world1).
  vm_compute. reflexivity.
Defined.

Lemma canary_keeps_secret_witness :
  Verify.canary engine1 {| canary_SQL := "q"; canary_Query := ""; canary_Expect := "a" |} world1 =
  Verify.canary engine1 {| canary_SQL := "q"; canary_Query := ""; canary_Expect := "b" |} world1.
Proof.
  apply canary_keeps_secret; [reflexivity|]. vm_compute. split; discriminate.
Defined.
