(* ===== verification/PropsSource.v ===== *)
(** The properties of fetching backups. *)

From Stdlib Require Import ZArith Lia Ascii String.
From stdpp Require Import base option list gmap strings.
From S2P Require Import Prelude GoStrings PathMatch Paths Spec Source SourceFacts Scenario.

(** C26: what fetching a file yields is the whole plaintext or nothing: either
    the plain artifact in place, or a fresh temporary file holding exactly the
    bytes of a stream that both layers decoded to its very end, within the
    expansion limit; the stored artifact respects the size limit, and the
    record names the artifact really used with its own age. *)
Theorem fetched_file_is_complete cx os from fs b fs' :
  fresh_temp os ->
  uncompressedLimit (MaxBytes from) (MaxUncompressedBytes from) < MaxInt64 ->
  fetchFile cx os from fs = (Ok b, fs') ->
  exists p fi f r,
    file_path os from = Ok p /\ Stat os p = Ok fi /\ IsDir fi = false /\ Open os p = Ok f /\
    unwrap cx os p f (from_Decrypt from) = Ok (r, Encryption b, Compression b) /\
    ResolvedURI b = p /\ ModTime b = fi_ModTime fi /\ Size b = fi_Size fi /\
    (0 < MaxBytes from -> Size b <= MaxBytes from) /\
    ((Encryption b = EmptyString /\ Compression b = EmptyString /\ Path b = p /\
      cleanup b = None /\ fs' = fs) \/
     (rerr r = None /\ cleanup b = Some (Path b) /\ fs !! Path b = None /\
      fs' = <[Path b := contents r]> fs /\
      (0 < uncompressedLimit (MaxBytes from) (MaxUncompressedBytes from) ->
       len (contents r) <= uncompressedLimit (MaxBytes from) (MaxUncompressedBytes from)))).
Proof. apply fetchFile_ok. Qed.

Definition file_from : From := src_From (spec_Source (drill_Spec drill1)).

Lemma fetched_file_is_complete_witness :
  exists b, fetchFile codecs1 os1 file_from ∅ = (Ok b, ∅) /\
    (0 < MaxBytes file_from -> Size b <= MaxBytes file_from).
Proof.
  eexists. split; [vm_compute; reflexivity|].
  edestruct (fetched_file_is_complete codecs1 os1 file_from ∅)
    as (p & fi & f & r & _ & _ & _ & _ & _ & _ & _ & _ & H & _);
    [apply os1_fresh|vm_compute; reflexivity|vm_compute; reflexivity|exact H].
Defined.

(** The same for the object store: what is handed to the restore is the
    complete plaintext of the body of the selected object, read through the
    transfer cap. *)
Theorem fetched_object_is_complete cx os connect from fs b fs' :
  fresh_temp os ->
  uncompressedLimit (MaxBytes from) (MaxUncompressedBytes from) < MaxInt64 ->
  fetchS3 cx os connect from fs = (LOk b, fs') ->
  exists cli bucket prefix key obj r,
    parseS3URI (URI from) (non_empty (Select from)) = Ok (bucket, prefix) /\
    connect (s3_options from) = Ok cli /\
    s3_key cli from bucket prefix = LOk key /\ GetObject cli bucket key = Ok obj /\
    ResolvedURI b = "s3://" +:+ bucket +:+ "/" +:+ key /\
    unwrap cx os (ResolvedURI b) (capReader (Body obj) (MaxBytes from) "backup")
      (from_Decrypt from) = Ok (r, Encryption b, Compression b) /\
    rerr r = None /\ fs' = <[Path b := contents r]> fs /\
    (0 < uncompressedLimit (MaxBytes from) (MaxUncompressedBytes from) ->
     len (contents r) <= uncompressedLimit (MaxBytes from) (MaxUncompressedBytes from)).
Proof. apply fetchS3_ok. Qed.

Definition s3_from : From := {|
  from_Type := "s3"; URI := "s3://bkt/db/"; CredentialsRef := ""; Region := "eu"; Endpoint := "";
  MaxBytes := 100; MaxUncompressedBytes := 0; from_Decrypt := None; Select := "latest";
  Match := "*.dump"; Spec.Backup := ""; from_Namespace := "" |}.

Definition object (k : string) (t : Time) : Object := {|
  Key := Some k; obj_Size := Some 3; LastModified := Some t |}.

Definition s3_client : S3Client := {|
  Pages _ _ := [Ok [object "db/a.dump" 1; object "db/c.txt" 9]; Ok [object "db/b.dump" 5]];
  GetObject _ _ := Ok {| Body := string_reader "SQL"; ContentLength := Some 3;
                         go_LastModified := Some 5 |} |}.

Lemma fetched_object_is_complete_witness :
  match fetchS3 codecs1 os1 (fun _ => Ok s3_client) s3_from ∅ with
  | (LOk b, fs') => exists r : Reader, rerr r = None /\ fs' = <[Path b := contents r]> ∅
  | _ => False
  end.
Proof.
  assert (Hok : match fetchS3 codecs1 os1 (fun _ => Ok s3_client) s3_from ∅ with
                (LOk _, _) => true | _ => false end = true) by (vm_compute; reflexivity).
  destruct (fetchS3 codecs1 os1 (fun _ => Ok s3_client) s3_from ∅) as [[b|e|] fs'] eqn:E.
  - destruct (fetched_object_is_complete codecs1 os1 _ s3_from ∅ b fs' os1_fresh eq_refl E)
      as (cli & bucket & prefix & key & obj & r & _ & _ & _ & _ & _ & _ & Hr & Hfs & _).
    exists r. split; [exact Hr|exact Hfs].
  - discriminate Hok.
  - discriminate Hok.
Defined.

(** No copy of a backup outlives its drill: a failed fetch leaves the
    temporary files as they were, and after a successful one the cleanup does. *)
Theorem no_backup_left_behind cx os connect from fs out fs' :
  fresh_temp os -> Fetch cx os connect from fs = (out, fs') ->
  match out with
  | LOk b => snd (Cleanup (Some b) fs') = fs
  | _ => fs' = fs
  end.
Proof. apply Fetch_fs. Qed.

Lemma no_backup_left_behind_witness :
  match Fetch codecs1 os1 (fun _ => Ok s3_client) s3_from ∅ with
  | (LOk b, fs') => snd (Cleanup (Some b) fs') = ∅
  | _ => False
  end.
Proof.
  assert (Hok : match Fetch codecs1 os1 (fun _ => Ok s3_client) s3_from ∅ with
                (LOk _, _) => true | _ => false end = true) by (vm_compute; reflexivity).
  destruct (Fetch codecs1 os1 (fun _ => Ok s3_client) s3_from ∅) as [[b|e|] fs'] eqn:E.
  - exact (no_backup_left_behind codecs1 os1 _ s3_from ∅ (LOk b) fs' os1_fresh E).
  - discriminate Hok.
  - discriminate Hok.
Defined.

(** Directory discovery picks the newest eligible file: regular, not empty,
    matching the glob. *)
Theorem latestFile_is_newest os from entries p :
  ReadDir os (URI from) = Ok entries ->
  (forall e, In e entries -> de_Name e <> EmptyString) ->
  latestFile os from = Ok p ->
  exists e fi, In e entries /\ eligible from e fi /\ p = Join2 (URI from) (de_Name e) /\
    forall e' fi', In e' entries -> eligible from e' fi' -> fi_ModTime fi' <= fi_ModTime fi.
Proof. apply latestFile_newest. Qed.

Definition dir_from : From := {|
  from_Type := "file"; URI := "/backups"; CredentialsRef := ""; Region := ""; Endpoint := "";
  MaxBytes := 0; MaxUncompressedBytes := 0; from_Decrypt := None; Select := "latest";
  Match := "*.dump"; Spec.Backup := ""; from_Namespace := "" |}.

Lemma latestFile_is_newest_witness :
  latestFile os1 dir_from = Ok "/backups/new.dump" /\
  exists e, "/backups/new.dump" = Join2 "/backups" (de_Name e).
Proof.
  split; [vm_compute; reflexivity|].
  edestruct (latestFile_is_newest os1 dir_from) as (e & fi & _ & _ & Hp & _);
    [reflexivity| |vm_compute; reflexivity|].
  - intros e [<-|[<-|[]]]; discriminate.
  - exists e. exact Hp.
Defined.

(** Object discovery, over any paging of the listing: the key of a newest
    matching, non-empty object among at most ten thousand; an error only when
    nothing matches or there are more. With the timestamps the service always
    sends it never panics. *)
Theorem latestObject_is_newest pages bucket prefix match_ :
  Forall complete_object (List.concat pages) ->
  match latestObject (List.map Ok pages) bucket prefix match_ with
  | LOk k => exists o t, In o (List.concat pages) /\ Key o = Some k /\
      candidate match_ o = true /\ LastModified o = Some t /\
      (forall o' u, In o' (List.concat pages) -> candidate match_ o' = true ->
                    LastModified o' = Some u -> u <= t) /\
      Z.of_nat (List.length (List.concat pages)) <= maxListKeys
  | LErr _ => (forall o, In o (List.concat pages) -> candidate match_ o = false) \/
      maxListKeys < Z.of_nat (List.length (List.concat pages))
  | LPanic => False
  end.
Proof. apply latestObject_spec. Qed.

Lemma latestObject_is_newest_witness :
  exists o t, In o [object "db/a.dump" 1; object "db/b.dump" 5] /\ Key o = Some "db/b.dump" /\
    LastModified o = Some t.
Proof.
  assert (Hc : Forall complete_object (List.concat [[object "db/a.dump" 1]; [object "db/b.dump" 5]]))
    by (repeat constructor; eexists; reflexivity).
  destruct (latestObject_is_newest [[object "db/a.dump" 1]; [object "db/b.dump" 5]] "bkt" "db/"
    "*.dump" Hc) as (o & t & Hin & Hk & _ & Ht & _).
  exists o, t. split; [exact Hin|]. split; [exact Hk|exact Ht].
Defined.

(** C33: the spool limit is exact and errors are never swallowed: a copy that
    reports success wrote the whole stream, which ended well and is within the
    limit, as long as [limit + 1] does not overflow. *)
Theorem copyLimited_exact fault r limit what w :
  limit < MaxInt64 -> copyLimited fault r limit what = (w, None) ->
  w = contents r /\ rerr r = None /\ (0 < limit -> len w <= limit).
Proof. apply copyLimited_ok. Qed.

Lemma copyLimited_exact_witness :
  copyLimited None (string_reader "SQL") 3 "x" = ("SQL", None) /\ len "SQL" <= 3.
Proof.
  split; [reflexivity|].
  apply (copyLimited_exact None (string_reader "SQL") 3 "x" "SQL"); [reflexivity|reflexivity|lia].
Defined.

(** At the largest limit [limit + 1] wraps to a negative number and the
    copy reports success having written nothing, whatever the stream holds. *)
Theorem copyLimited_largest_limit_copies_nothing r what :
  copyLimited None r MaxInt64 what = (EmptyString, None).
Proof. apply copyLimited_overflow. Qed.

(** The transfer cap: a stream within it passes unchanged, a longer one
    ends in an error. *)
Theorem capReader_exact r limit what :
  0 < limit ->
  (len (contents r) <= limit /\ capReader r limit what = r) \/
  (limit < len (contents r) /\ rerr (capReader r limit what) <> None).
Proof. apply capReader_spec. Qed.

Lemma capReader_exact_witness :
  rerr (capReader {| chunks := ["ab"; "cd"]; rerr := None |} 3 "backup") <> None.
Proof.
  destruct (capReader_exact {| chunks := ["ab"; "cd"]; rerr := None |} 3 "backup") as [[H _]|[_ H]].
  - reflexivity.
  - exfalso. revert H. vm_compute. intros H. apply H. reflexivity.
  - exact H.
Defined.

(** Without a decrypt block nothing recognised as encrypted gets through,
    and what gets through is untouched. *)
Theorem no_ciphertext_without_decrypt cx os r p :
  decrypt cx os r None = Ok p ->
  p = (r, EmptyString) /\ detectEncryption cx (Peek r (maxEncryptionMagic cx)) = EmptyString.
Proof. apply decrypt_none. Qed.

Lemma no_ciphertext_without_decrypt_witness :
  decrypt codecs1 os1 (string_reader "SQL") None = Ok (string_reader "SQL", EmptyString) /\
  detectEncryption codecs1 (Peek (string_reader "SQL") (maxEncryptionMagic codecs1)) = EmptyString.
Proof.
  split; [vm_compute; reflexivity|].
  apply (no_ciphertext_without_decrypt codecs1 os1 (string_reader "SQL")
    (string_reader "SQL", EmptyString)). vm_compute. reflexivity.
Defined.
