(* ===== verification/PropsReport.v ===== *)
(** The properties of evidence files, signatures, attestations and exported
    metrics. *)

From Stdlib Require Import ZArith Lia Ascii String SpecFloat.
From stdpp Require Import base option list gmap strings.
From S2P Require Import Prelude GoStrings Paths Float64 Calendar Encoding Disk Evidence Sign SignFacts Metrics Instances.
From S2P Require Verify.

(** C13: signed and attested evidence verifies as a bundle, with the signer's
    key pinned or unpinned and whatever the verifier's key directory is; the
    result names the key that was really used. *)
Theorem signed_bundle_verifies {CR : Crypto} {VC : EnvelopeCodec} (env : DiskEnv)
  path priv d sp d1 ap d2 trusted keyDir :
  (forall p, ReadErr env p = None) -> ascii_text (Base path) ->
  String.length priv = PrivateKeySize ->
  Sign env path priv d = (Ok sp, d1) -> Attest env path priv d1 = (Ok ap, d2) ->
  (trusted = None \/ trusted = Some (ed_Public priv)) ->
  exists b, VerifyBundle env path trusted keyDir d2 = Ok b /\ AttestationChecked b = true /\
    SignerFingerprint b = Fingerprint (ed_Public priv) /\
    KeySource b = (match trusted with Some _ => "pinned key" | None => "signature envelope" end).
Proof. apply Sign_Attest_VerifyBundle. Qed.

Definition sample_disk : Disk := {["ev/a.json" := "{}"]}.
Definition sample_key : string := repeat_string "k" 64.

Lemma signed_bundle_verifies_witness :
  match Sign healthy "ev/a.json" sample_key sample_disk with
  | (Ok _, d1) =>
      match Attest healthy "ev/a.json" sample_key d1 with
      | (Ok _, d2) => exists b,
          VerifyBundle healthy "ev/a.json" (Some (ed_Public sample_key)) "/none" d2 = Ok b
      | _ => False
      end
  | _ => False
  end.
Proof.
  assert (H1 : is_ok (fst (Sign healthy "ev/a.json" sample_key sample_disk)) = true)
    by (vm_compute; reflexivity).
  assert (H2 : is_ok (fst (Attest healthy "ev/a.json" sample_key
    (snd (Sign healthy "ev/a.json" sample_key sample_disk)))) = true) by (vm_compute; reflexivity).
  destruct (Sign healthy "ev/a.json" sample_key sample_disk) as [[sp|e] d1] eqn:Es;
    [|discriminate H1].
  cbn [snd] in H2.
  destruct (Attest healthy "ev/a.json" sample_key d1) as [[ap|e] d2] eqn:Ea; [|discriminate H2].
  destruct (signed_bundle_verifies healthy "ev/a.json" sample_key sample_disk sp d1 ap d2
    (Some (ed_Public sample_key)) "/none" (fun _ => eq_refl) eq_refl eq_refl Es Ea
    (or_intror eq_refl)) as (b & Hb & _).
  exists b. exact Hb.
Defined.

(** C14: what an accepted signature establishes, and nothing else is needed: the
    envelope next to the file names ed25519 and a key of the right size, the
    signature in it verifies under that key over the file's bytes as they are
    now, and the key is the pinned one when one is pinned. *)
Theorem Verify_exact {CR : Crypto} {VC : EnvelopeCodec} (env : DiskEnv) path trusted d :
  Verify env path trusted d = None <->
  exists data sig pub raw,
    ReadFile env path d = Ok data /\ read_sig env path d = Ok sig /\
    Algorithm sig = "ed25519" /\ public_key_of sig = Some pub /\
    hex_Decode (sig_Signature sig) = Some raw /\ ed_Verify pub data raw = true /\
    (forall k, trusted = Some k -> k = pub).
Proof. apply Verify_iff. Qed.

(** C15: an accepted attestation, exactly: the envelope beside the file has the
    in-toto payload type; one of its signatures, decoded from base64, verifies
    under the key over the DSSE pre-authentication encoding of the decoded
    payload (the literal "DSSEv1", then the length and the text of the payload
    type and of the payload); the payload is a statement of the evidence type;
    and one of its subjects records, under "sha256", hexadecimal text that
    decodes to the digest of the file's bytes as they are now. *)
Theorem VerifyAttestation_exact {CR : Crypto} {VC : EnvelopeCodec} (env : DiskEnv) path pub d :
  VerifyAttestation env path pub d = None <->
  exists envData en payload s raw st data sub h,
    ReadFile env (path +:+ ".intoto.jsonl") d = Ok envData /\
    Unmarshal_envelope envData = Ok en /\
    PayloadType en = "application/vnd.in-toto+json" /\
    b64_Decode (Payload en) = Some payload /\
    In s (Signatures en) /\ b64_Decode (Sig s) = Some raw /\
    ed_Verify pub ("DSSEv1 28 application/vnd.in-toto+json " +:+
                   itoa (len payload) +:+ " " +:+ payload) raw = true /\
    Unmarshal_statement payload = Ok st /\
    st_PredicateType st = "https://firedrill.dev/drill-evidence/v1" /\
    ReadFile env path d = Ok data /\ In sub (Subject st) /\
    Digest sub !! "sha256" = Some h /\ hex_Decode h = Some (sha256 data).
Proof.
  rewrite VerifyAttestation_iff. split.
  - intros (envData & en & payload & st & data & s & sub & He & Hu & Hp & Hb & Hs & Hv & Hst & Ht
      & Hd & Hsub & Hm).
    apply sig_verifies_iff in Hv as (raw & Hraw & Hv). apply subject_matches_iff in Hm as (h & Hh & Hx).
    exists envData, en, payload, s, raw, st, data, sub, h. by repeat (split; [done|]).
  - intros (envData & en & payload & s & raw & st & data & sub & h & He & Hu & Hp & Hb & Hs & Hraw
      & Hv & Hst & Ht & Hd & Hsub & Hh & Hx).
    exists envData, en, payload, st, data, s, sub. repeat (split; [done|]). split.
    { apply sig_verifies_iff. by exists raw. }
    repeat (split; [done|]). apply subject_matches_iff. by exists h.
Qed.

(** C16: in an accepted bundle with a checked attestation one and the same key
    made the signature and the attestation: it is the key the result's
    fingerprint names, and the pinned key when one was given. An attestation by
    another signer is never passed off as the signer's. *)
Theorem bundle_has_one_signer {CR : Crypto} {VC : EnvelopeCodec} (env : DiskEnv)
  path trusted keyDir d b :
  VerifyBundle env path trusted keyDir d = Ok b -> AttestationChecked b = true ->
  exists k, SignerKey env path d = Ok k /\ SignerFingerprint b = Fingerprint k /\
    Verify env path (Some k) d = None /\ VerifyAttestation env path k d = None /\
    (forall t, trusted = Some t -> t = k).
Proof. apply VerifyBundle_one_signer. Qed.

Definition bundle_disk : Disk :=
  snd (Attest healthy "ev/a.json" sample_key
        (snd (Sign healthy "ev/a.json" sample_key sample_disk))).

Lemma bundle_has_one_signer_witness :
  exists b k, VerifyBundle healthy "ev/a.json" None "" bundle_disk = Ok b /\
    SignerKey healthy "ev/a.json" bundle_disk = Ok k /\ SignerFingerprint b = Fingerprint k.
Proof.
  eexists. edestruct (bundle_has_one_signer healthy "ev/a.json" None "" bundle_disk)
    as (k & Hk & Hf & _); [vm_compute; reflexivity|reflexivity|].
  exists k. split; [vm_compute; reflexivity|]. split; [exact Hk|exact Hf].
Defined.

(** The key directory never decides a bundle: once the signature verifies,
    the signer's own key is at hand, so two verifiers with different key
    directories always agree. *)
Theorem bundle_ignores_keyDir {CR : Crypto} {VC : EnvelopeCodec} (env : DiskEnv)
  path trusted k1 k2 d :
  VerifyBundle env path trusted k1 d = VerifyBundle env path trusted k2 d.
Proof. apply VerifyBundle_keyDir. Qed.

(** The bytes an attestation signs determine the payload type and the
    payload: no two statements share a signature. *)
Theorem pae_injective t1 p1 t2 p2 : pae t1 p1 = pae t2 p2 -> t1 = t2 /\ p1 = p2.
Proof. apply pae_inj. Qed.

Lemma pae_injective_witness : pae "a b" "c" = pae "a b" "c" /\ "c" = "c".
Proof. split; [reflexivity|]. exact (proj2 (pae_injective "a b" "c" "a b" "c" eq_refl)). Defined.

(** Generating keys never destroys a key: with a private key in place the
    call fails and changes nothing. *)
Theorem keygen_keeps_existing {CR : Crypto} {VC : EnvelopeCodec} (env : DiskEnv) gen pkix dir d k :
  d !! privPath dir = Some k ->
  snd (GenerateKeypair env gen pkix dir d) = d /\
  is_ok (fst (GenerateKeypair env gen pkix dir d)) = false.
Proof. apply GenerateKeypair_keeps. Qed.

Lemma keygen_keeps_existing_witness :
  let d : Disk := {[privPath "/k" := "old"]} in
  snd (GenerateKeypair healthy (Ok ("p", "q")) Ok "/k" d) = d.
Proof. intros d. apply (keygen_keeps_existing healthy _ _ "/k" d "old"). reflexivity. Defined.

(** C31: the evidence file is never half-written: after a crash of the process
    anywhere in [Write], or a call that fails, the final path holds what it held before or
    one complete record. *)
Theorem evidence_write_atomic {EC : EvidenceCodec} (env : DiskEnv) e dir d d' :
  crashes env (Write_calls env e dir) d d' ->
  d' !! evidence_path e dir = d !! evidence_path e dir \/
  exists data, Canonical e = Ok data /\ d' !! evidence_path e dir = Some data.
Proof. apply Write_atomic. Qed.

Lemma evidence_write_atomic_witness :
  let e := record "payments" 5 true in
  let d' : Disk := <[evidence_path e "ev" +:+ ".tmp" := "7"]> ∅ in
  d' !! evidence_path e "ev" = (∅ : Disk) !! evidence_path e "ev" \/
  exists data, Canonical e = Ok data /\ d' !! evidence_path e "ev" = Some data.
Proof.
  intros e d'. apply (evidence_write_atomic healthy). apply crash_inside.
  exact (cut_write ∅ _ _ 1).
Defined.

(** Two records never share a file: a file name determines the drill and
    the instant it finished, to the nanosecond. *)
Theorem evidence_names_unique e1 e2 :
  four_digit_year (FinishedAt e1) -> four_digit_year (FinishedAt e2) ->
  evidence_name e1 = evidence_name e2 ->
  ev_Drill e1 = ev_Drill e2 /\ FinishedAt e1 = FinishedAt e2.
Proof. apply evidence_name_inj. Qed.

Lemma evidence_names_unique_witness :
  evidence_name (record "a" 5 true) = "a-1970-01-01T00-00-00Z-000000005.json" /\
  FinishedAt (record "a" 5 true) = FinishedAt (record "a" 5 false).
Proof.
  split; [vm_compute; reflexivity|].
  apply (evidence_names_unique (record "a" 5 true) (record "a" 5 false));
    [vm_compute; split; discriminate|vm_compute; split; discriminate|vm_compute; reflexivity].
Defined.

(** A scraper never sees half a metrics file: after a crash anywhere in
    [writeTextfile], or a call that fails, the file holds what it held before
    or the whole exposition text. *)
Theorem textfile_write_atomic (env : DiskEnv) expose reg dir drill d d' :
  crashes env (textfile_calls env expose reg dir drill) d d' ->
  d' !! prom_path dir drill = d !! prom_path dir drill \/
  exists text, expose reg = Ok text /\ d' !! prom_path dir drill = Some text.
Proof. apply textfile_atomic. Qed.

Lemma textfile_write_atomic_witness :
  let d' := snd (writeTextfile healthy (fun _ => Ok "m 1") [] "prom" "payments" ∅) in
  d' !! prom_path "prom" "payments" = (∅ : Disk) !! prom_path "prom" "payments" \/
  exists text, Ok "m 1" = Ok text /\ d' !! prom_path "prom" "payments" = Some text.
Proof. intros d'. apply (textfile_write_atomic healthy (fun _ => Ok "m 1") []), exec_crashes. Defined.

(** The exported value of [firedrill_check_passed] for a check name is the
    outcome of the last check with that name; earlier ones are overwritten. *)
Theorem check_metric_is_last base checks n :
  lookup_sample (base ++ [("check", n)]) (samples (check_family base checks)) =
  option_map (fun r => b2f (Verify.Passed r))
    (last (List.filter (fun r => String.eqb (Verify.res_Name r) n) checks)).
Proof. apply check_sample_last. Qed.

(** So a failed check is exported as passed when a later check of the same kind
    passes. *)
Example failed_check_exported_as_passed :
  lookup_sample [("check", "rowCount")]
    (samples (check_family [] [Verify.mkResult "rowCount" false "0 rows";
                               Verify.mkResult "rowCount" true "9 rows"])) = Some (b2f true).
Proof. reflexivity. Qed.
