(* ===== verification/PropsDrill.v ===== *)
(** The properties of the drill, its evidence and the recovery gate, each with
    a concrete input on which its hypotheses hold. *)

From Stdlib Require Import ZArith Lia Ascii String SpecFloat.
From stdpp Require Import base option list gmap strings.
From S2P Require Import Prelude GoStrings Paths Float64 Calendar Spec SpecFacts Disk Evidence World Interfaces Print Gate GateFacts Instances Drill DrillFacts DrillRecord DrillGate Scenario.
From S2P Require Verify VerifyFacts Source SourceFacts Sign SignFacts Metrics Notify.

(** C1: a drill whose record says "verified" restored the fetched backup in the
    provisioned sandbox (or the Velero backup in its namespace) without error
    and within the recovery-time objective, from a backup no older than the
    recovery-point objective; its checks are the configured ones, every one of
    them passed and none was skipped, and at least one of them observed the
    restored data (a row count, checksum, row set, sentinel, ready pods or
    resource count as its check demands). *)
Theorem Run_verified_is_earned {X} {CK : Verify.Clock (World X)} {EC : EvidenceCodec}
  {CR : Sign.Crypto} {VC : Sign.EnvelopeCodec} (dp : Deps X) d o w e path err :
  fst (Run dp d o w) = Ran (Some e) path err -> ev_Verified e = true -> earned dp d e.
Proof. apply verified_earned. Qed.

Lemma Run_verified_is_earned_witness :
  exists e, fst (Run deps1 drill1 opts1 world1) = Ran (Some e) path1 None /\ earned deps1 drill1 e.
Proof.
  eexists. split; [vm_compute; reflexivity|].
  eapply (Run_verified_is_earned deps1 drill1 opts1 world1 _ path1 None);
    [vm_compute; reflexivity|reflexivity].
Defined.

(** C6: once an engine drill has provisioned its sandbox, whatever happens
    next (failed restore, failed connection, failed checks, unwritable
    evidence), the last things it does are tearing that sandbox down and
    removing the fetched copy of the backup; a record it returns says
    "destroyed" exactly when that last teardown left the sandbox destroyed. *)
Theorem run_engine_always_tears_down {X} {CK : Verify.Clock (World X)} {EC : EvidenceCodec}
  {CR : Sign.Crypto} {VC : Sign.EnvelopeCodec} (dp : Deps X) d o e drv b sb w w1 w2 :
  Get (registry dp) (src_Driver (spec_Source (drill_Spec d))) = Ok drv ->
  fetch dp d w = (Source.LOk b, w1) ->
  provision dp d drv (snd (Verify.Now (snd (Verify.Now w1)))) = (Ok sb, w2) ->
  exists w3, snd (run_engine dp d o e w) =
      snd (on_tmp (Source.Cleanup (Some b)) (snd (teardown o sb w3))) /\
    forall e' p err, fst (run_engine dp d o e w) = Ran (Some e') p err ->
      sbx_Destroyed (ev_Sandbox e') = WasDestroyed sb (snd (teardown o sb w3)).
Proof. apply run_engine_teardown. Qed.

Lemma run_engine_always_tears_down_witness :
  exists b w1 w2, fetch deps1 drill1 world1 = (Source.LOk b, w1) /\
  provision deps1 drill1 postgres1 (snd (Verify.Now (snd (Verify.Now w1)))) = (Ok sandbox1, w2) /\
  exists w3, snd (run_engine deps1 drill1 opts1 (new_evidence drill1 opts1 T0) world1) =
      snd (on_tmp (Source.Cleanup (Some b)) (snd (teardown opts1 sandbox1 w3))).
Proof.
  do 3 eexists. split; [vm_compute; reflexivity|]. split; [vm_compute; reflexivity|].
  edestruct (run_engine_always_tears_down deps1 drill1 opts1 (new_evidence drill1 opts1 T0)
    postgres1) as (w3 & H & _);
    [reflexivity|vm_compute; reflexivity|vm_compute; reflexivity|].
  exists w3. exact H.
Defined.

(** The verdict itself: it is positive exactly when the restore succeeded,
    both objectives were met, every check passed without being skipped, and one
    of them is a check that inspects restored data. *)
Theorem verdict_exact d e restoreErr dur age now :
  ev_Verified (finalized d e restoreErr dur age now) = true <->
  restoreErr = None /\ dur <= RTO (spec_Objectives (drill_Spec d)) /\
  age <= RPO (spec_Objectives (drill_Spec d)) /\
  (forall r, In r (ev_Checks e) -> passing r) /\ exists r, In r (ev_Checks e) /\ is_data_check r.
Proof. apply finalized_verified. Qed.

(** C23: when a signing drill ends without an error, the evidence file, its
    signature and its attestation on disk check out together, on a machine that
    has never seen the signer and whatever its key directory holds: writing the
    report and feeding the sinks did not disturb them. *)
Theorem finalize_leaves_valid_bundle {X} {CK : Verify.Clock (World X)} {EC : EvidenceCodec}
  {CR : Sign.Crypto} {VC : Sign.EnvelopeCodec} (dp : Deps X) d o e re dur age w e' path w' keyDir :
  (forall p, ReadErr (disk dp) p = None) -> four_digit_year (fst (Verify.Now w)) ->
  forall_bytes dns_char (ev_Drill e) = true ->
  Spec.Sign (spec_Report (drill_Spec d)) = true ->
  finalize dp d o e re dur age w = (Ran (Some e') path None, w') ->
  exists b, Sign.VerifyBundle (disk dp) path None keyDir (w_disk w') = Ok b /\
    Sign.AttestationChecked b = true /\ Sign.KeySource b = "signature envelope".
Proof. apply finalize_bundle. Qed.

Definition bundle_run : outcome * World Ext :=
  finalize deps1 drill1 opts1 (record "payments" T0 true) None 0 0 world1.

Lemma finalize_leaves_valid_bundle_witness :
  match bundle_run with
  | (Ran (Some _) path None, w') => exists b,
      Sign.VerifyBundle (disk deps1) path None "/other" (w_disk w') = Ok b
  | _ => False
  end.
Proof.
  assert (Hok : match fst bundle_run with Ran (Some _) _ None => true | _ => false end = true)
    by (vm_compute; reflexivity).
  destruct bundle_run as [[[e'|] path [err|]|] w'] eqn:E; try discriminate Hok.
  destruct (finalize_leaves_valid_bundle deps1 drill1 opts1 (record "payments" T0 true) None 0 0
    world1 e' path w' "/other") as (b & Hb & _).
  - reflexivity.
  - vm_compute. split; discriminate.
  - reflexivity.
  - reflexivity.
  - exact E.
  - exists b. exact Hb.
Defined.

(** A drill that ends without an error leaves its record where the gate,
    the history and the control report look: a scan of the evidence directory
    yields exactly that record under its file. *)
Theorem finalize_record_is_found {X} {CK : Verify.Clock (World X)} {EC : EvidenceCodec}
  {CR : Sign.Crypto} {VC : Sign.EnvelopeCodec} (dp : Deps X) d o e re dur age w e' path w' files :
  (forall p, ReadErr (disk dp) p = None) -> four_digit_year (fst (Verify.Now w)) ->
  forall_bytes dns_char (ev_Drill e) = true -> ev_Drill e <> "" -> encodable e' ->
  finalize dp d o e re dur age w = (Ran (Some e') path None, w') ->
  scanEvidence (disk dp) (w_disk w') (evidence_dir
    (if is_empty (opt_EvidenceDir o) then Dir (spec_Report (drill_Spec d))
     else opt_EvidenceDir o)) = Ok files ->
  In {| ef_Path := path; E := e' |} files.
Proof. apply finalize_scanned. Qed.

Lemma finalize_record_is_found_witness :
  let e0 := record "payments" T0 false in
  let w1 := snd (finalize deps1 drill1 opts1 e0 (Some (ENew "")) 0 (25 * Hour) world1) in
  In {| ef_Path := "/ev/payments-2023-11-14T22-13-20Z-000000000.json";
        E := finalized drill1 e0 (Some (ENew "")) 0 (25 * Hour) T0 |}
    (match scanEvidence healthy (w_disk w1) "/ev" with Ok fs => fs | Err _ => [] end).
Proof.
  intros e0 w1.
  apply (finalize_record_is_found deps1 drill1 opts1 e0 (Some (ENew "")) 0 (25 * Hour) world1
           _ _ w1).
  - done.
  - vm_compute. split; discriminate.
  - reflexivity.
  - discriminate.
  - vm_compute. split; [discriminate|reflexivity].
  - vm_compute. reflexivity.
  - vm_compute. reflexivity.
Defined.

(** C17: the gate. A report without violations means every subject asked for
    (the given names, or the ones the directory holds) has the standing the
    gate promises: its newest run verified (unless that is waived), it has a
    verified run within the maximum age, and the run leaned on carries a valid
    signature, of the pinned key if there is one; a subject without evidence
    never has it. When no two runs of a named subject ended at the same instant,
    the converse holds too. *)
Theorem Gate_exact {SS : SliceSort} {EC : EvidenceCodec} {CR : Sign.Crypto}
  {VC : Sign.EnvelopeCodec} (env : DiskEnv) d opts wall rep files :
  scanEvidence env d (gate_Dir opts) = Ok files ->
  Gate env d opts wall = Ok rep ->
  let ok n := gate_ok env d opts (gate_now opts wall) (runs_of (gate_by opts) n files) in
  let names := gate_names opts (group_files (gate_by opts) files) in
  (rep_Violations rep = 0 -> forall n, In n names -> ok n) /\
  ((forall n, In n names -> no_ties (runs_of (gate_by opts) n files) /\ ok n) ->
   rep_Violations rep = 0).
Proof. apply Gate_spec. Qed.

(** A directory with one verified run of [payments], and a gate over it. *)
Definition gate_disk : Disk :=
  {[ "ev/payments-2023-11-14T22-13-20Z-000000000.json" :=
     fields ["payments"; itoa T0; "1"] ]}.

Definition gate_opts : GateOptions := {|
  gate_Dir := "ev"; gate_MaxAge := 24 * Hour; By := ""; Subjects := ["payments"];
  RequireSigned := false; gate_PublicKey := None; AllowUnverified := false;
  gate_Now := T0 + Hour |}.

Lemma Gate_exact_witness :
  exists rep files, Gate healthy gate_disk gate_opts 0 = Ok rep /\
    scanEvidence healthy gate_disk "ev" = Ok files /\
    gate_ok healthy gate_disk gate_opts (T0 + Hour) (runs_of "drill" "payments" files).
Proof.
  do 2 eexists. split; [vm_compute; reflexivity|]. split; [vm_compute; reflexivity|].
  edestruct (Gate_exact (EC := toy_evidence) (CR := toy_crypto) (VC := toy_envelopes)
    healthy gate_disk gate_opts 0) as [Hs _];
    [vm_compute; reflexivity|vm_compute; reflexivity|].
  apply Hs; [reflexivity|]. apply gate_names_in. by left.
Defined.

(** A drill and the gate agree: when a drill ends without an error on a
    verified record, a gate for it over the same directory reports no violation,
    provided no other record of the drill ended later, the record is within the
    maximum age, and the drill signs if the gate wants signatures. *)
Theorem verified_drill_passes_gate {X} {CK : Verify.Clock (World X)} {EC : EvidenceCodec}
  {CR : Sign.Crypto} {VC : Sign.EnvelopeCodec} {SS : SliceSort} (dp : Deps X) d o e re dur age w e'
  path w' opts wall files :
  (forall p, ReadErr (disk dp) p = None) -> four_digit_year (fst (Verify.Now w)) ->
  forall_bytes dns_char (ev_Drill e) = true -> ev_Drill e <> "" -> encodable e' ->
  finalize dp d o e re dur age w = (Ran (Some e') path None, w') -> ev_Verified e' = true ->
  gate_Dir opts = evidence_of d o -> gate_by opts = "drill" -> Subjects opts = [ev_Drill e] ->
  gate_PublicKey opts = None ->
  (RequireSigned opts = true -> Spec.Sign (spec_Report (drill_Spec d)) = true) ->
  (0 < gate_MaxAge opts -> Sub (gate_now opts wall) (FinishedAt e') <= gate_MaxAge opts) ->
  scanEvidence (disk dp) (w_disk w') (gate_Dir opts) = Ok files ->
  let runs := runs_of "drill" (ev_Drill e) files in
  no_ties runs -> (forall r, In r runs -> FinishedAt (E r) <= FinishedAt e') ->
  exists rep, Gate (disk dp) (w_disk w') opts wall = Ok rep /\ rep_Violations rep = 0.
Proof. apply finalize_passes_gate. Qed.

Definition signed_gate : GateOptions := {|
  gate_Dir := "/ev"; gate_MaxAge := 24 * Hour; By := "drill"; Subjects := ["payments"];
  RequireSigned := true; gate_PublicKey := None; AllowUnverified := false; gate_Now := zero_time |}.

Definition drilled : World Ext :=
  snd (finalize deps1 drill1 opts1 (record "payments" T0 true) None 0 0 world1).

Lemma verified_drill_passes_gate_witness :
  exists rep, Gate (disk deps1) (w_disk drilled) signed_gate (T0 + Hour) = Ok rep /\
    rep_Violations rep = 0.
Proof.
  eapply (verified_drill_passes_gate deps1 drill1 opts1 (record "payments" T0 true) None 0 0 world1
    (record "payments" T0 true) "/ev/payments-2023-11-14T22-13-20Z-000000000.json" drilled
    signed_gate (T0 + Hour)
    [{| ef_Path := "/ev/payments-2023-11-14T22-13-20Z-000000000.json";
        E := record "payments" T0 true |}]).
  - reflexivity.
  - vm_compute. split; discriminate.
  - reflexivity.
  - discriminate.
  - split; [vm_compute; discriminate|reflexivity].
  - vm_compute. reflexivity.
  - reflexivity.
  - reflexivity.
  - reflexivity.
  - reflexivity.
  - reflexivity.
  - reflexivity.
  - vm_compute. discriminate.
  - vm_compute. reflexivity.
  - intros x y [<-|[]] [<-|[]] _. reflexivity.
  - intros r [<-|[]]. vm_compute. discriminate.
Defined.

(** A fleet run reports every drill once, in order and with its own
    outcome; only a drill whose object listing has no timestamps can cut it
    short. *)
Theorem RunAll_reports_every_drill {X} {CK : Verify.Clock (World X)} {EC : EvidenceCodec}
  {CR : Sign.Crypto} {VC : Sign.EnvelopeCodec} (dp : Deps X) ds o w :
  (forall d w, In d ds -> fst (Run dp d o w) <> Panicked) ->
  exists outs, fst (RunAll dp ds o w) = Some outs /\
    List.map out_Drill outs = List.map drill_Name ds /\
    Forall2 (fun d out => exists w1, fst (Run dp d o w1) =
               Ran (out_Evidence out) (out_Path out) (out_Err out)) ds outs.
Proof.
  intros Hnp. unfold RunAll.
  pose proof (run_each_total dp (1 <? Z.of_nat (List.length ds)) ds o w Hnp) as Ht.
  destruct (run_each dp _ ds o w) as [[outs|] w'] eqn:E; [|done].
  exists outs. split; [done|]. by eapply run_each_drills.
Qed.

Lemma drill1_no_panic (w : World Ext) : fst (Run deps1 drill1 opts1 w) <> Panicked.
Proof.
  unfold Run, mbind. destruct (Verify.Now w) as [t w1]. cbn [src_Driver].
  change (String.eqb _ "velero") with false. cbv iota. unfold run_engine, mbind, mret.
  destruct (Get _ _) as [drv|]; [|done].
  pose proof (fetch_file_no_panic deps1 drill1 w1 ltac:(discriminate)) as Hf.
  destruct (fetch deps1 drill1 w1) as [[b|er|] w2]; [|done|done].
  destruct (with_backup deps1 drill1 opts1 drv _ b w2) as [out w3] eqn:Eb.
  destruct (on_tmp _ w3). cbn [fst]. intros ->. apply (f_equal fst) in Eb. cbn [fst] in Eb.
  eapply with_backup_no_panic. exact Eb.
Qed.

Lemma RunAll_reports_every_drill_witness :
  exists outs, fst (RunAll deps1 [drill1; drill1] opts1 world1) = Some outs /\
    List.map out_Drill outs = ["payments"; "payments"].
Proof.
  edestruct (RunAll_reports_every_drill deps1 [drill1; drill1] opts1 world1) as (outs & Ho & Hn & _).
  - intros d w [<-|[<-|[]]]; apply drill1_no_panic.
  - exists outs. split; [exact Ho|exact Hn].
Defined.
