(* ===== verification/PropsSandbox.v ===== *)
(** The properties of the sandboxes: Docker containers, pods, Velero
    namespaces, their teardown and their garbage collection. *)

From Stdlib Require Import ZArith Lia Ascii String.
From stdpp Require Import base option list gmap strings relations.
From S2P Require Import Prelude GoStrings Calendar Spec Interfaces Poll Keeps Sandboxes Lifecycle Docker DockerFacts Cluster KubernetesFacts VeleroFacts Gc GcFacts Fakes.
From S2P Require Verify Source Kubernetes Velero.

Definition proc0 {S D} (d : D) : Proc S D := {| heap := {| next := 1; cells := ∅ |}; ext := d |}.

(** * Docker *)

Section Docker.
Context {D : Type} {CK : Verify.Clock D} (api : DockerAPI D) {DL : DockerLaws api}.

#[local] Instance Own : Owner Docker.Sandbox D := Docker_Owner api.

(** No Docker resource outlives a drill. When the daemon's removals work, a
    [Provision] that fails leaves exactly the containers and networks there were
    before it, and so does the [Destroy] of a sandbox it provisioned, which then
    reports success and the sandbox as destroyed. *)
Theorem docker_resources_restored {W} (cfg : Config W) (w w' : Proc Docker.Sandbox D) r :
  (forall id d, fst (ContainerRemove api Background id d) = None) ->
  (forall id d, fst (NetworkRemove api Background id d) = None) ->
  Docker.Provision api cfg w = (r, w') ->
  match r with
  | Err _ => resources (ext w') = resources (ext w)
  | Ok p => fst (Destroy Background p w') = None /\
            resources (ext (snd (Destroy Background p w'))) = resources (ext w) /\
            WasDestroyed p (snd (Destroy Background p w')) = true
  end.
Proof.
  intros HC HN HP. destruct r as [p|e].
  - exact (Destroy_owns api p _ _ w' (conj HC HN) (Provision_owns api cfg w w' p HP)).
  - exact (docker_Provision_failed api cfg w e w' (conj HC HN) HP).
Qed.

(** C34: a Docker sandbox does not outlive its TTL. From the moment [Provision]
    returns, whatever the drill, the daemon and other sandboxes do in whatever
    order, the watchdog goroutine scheduled after the TTL leaves the sandbox with
    its one [Destroy] done. *)
Theorem docker_sandbox_ends_by_ttl {CL : Verify.ClockLaws D} {W} (cfg : Config W)
  (w w' w'' : Proc Docker.Sandbox D) p :
  Docker.Provision api cfg w = (Ok p, w') -> steps p w' w'' ->
  Verify.time_of w' + cfg_TTL cfg <= fst (Verify.Now w'') ->
  exists s, load p (snd (watchdog p w'')) = Some s /\ once (Docker.sb_life s) = true.
Proof.
  intros HP Hs Hnow. destruct (Provision_up api cfg w w' p HP) as (s & dl & _ & _ & _ & Hg & Hdl).
  apply (watchdog_ends (OW := Own) p dl); [by apply (steps_guarded (OW := Own) p dl w')|lia].
Qed.
End Docker.

Lemma docker_resources_restored_witness :
  let r := Docker.Provision daemon_api (cfg1 (W := unit)) (proc0 (daemon0 false)) in
  is_ok (fst r) = false /\
  resources (ext (snd r)) = resources (DockerLaws := daemon_laws) (daemon0 false).
Proof.
  intros r. split; [vm_compute; reflexivity|].
  destruct r as [[p|e] w'] eqn:E; [exfalso; vm_compute in E; discriminate|].
  exact (docker_resources_restored daemon_api _ _ _ _ (fun _ _ => eq_refl) (fun _ _ => eq_refl) E).
Defined.

Lemma docker_sandbox_ends_by_ttl_witness :
  let w := proc0 (daemon0 true) in
  let r := Docker.Provision daemon_api (cfg1 (W := unit)) w in
  let late := {| heap := heap (snd r); ext := daemon_at (1700003700 * Second) (ext (snd r)) |} in
  is_ok (fst r) = true /\
  exists p s, fst r = Ok p /\
    load p (snd (watchdog (OW := Docker_Owner daemon_api) p late)) = Some s /\
    once (Docker.sb_life s) = true.
Proof.
  intros w r late. split; [vm_compute; reflexivity|].
  destruct r as [[p|e] w'] eqn:E; [|exfalso; vm_compute in E; discriminate].
  exists p. destruct (docker_sandbox_ends_by_ttl daemon_api (cfg1 (W := unit)) w w' late p E) as (s & H).
  - apply rtc_once. exact (st_world p w' (daemon_at (1700003700 * Second) (ext w'))).
  - assert (Hw : Verify.time_of w' <= 1700000010 * Second)
      by (vm_compute in E; injection E as _ <-; vm_compute; discriminate).
    change (fst (Verify.Now late)) with (1700003700 * Second).
    change (cfg_TTL (cfg1 (W := unit))) with (3600 * Second). unfold Second in *. lia.
  - exists s. split; [done|exact H].
Defined.

(** * Teardown *)

(** C35: a sandbox is torn down once. After a [Destroy], in whatever order and
    under whatever context the drill and the watchdog call it again, nothing is removed a second time, every
    call reports what the first one did, and [WasDestroyed] stays what it said:
    true exactly when the first call reported no error. *)
Theorem torn_down_once {S D} {CK : Verify.Clock D} {OW : Owner S D} c (p : positive)
  (w w' : Proc S D) s :
  load p w = Some s -> steps p (snd (Destroy c p w)) w' ->
  (forall c', Destroy c' p w' = (fst (Destroy c p w), w')) /\
  load p (snd (watchdog p w')) = load p w' /\
  WasDestroyed p w' = WasDestroyed p (snd (Destroy c p w)) /\
  (once (life s) = false -> WasDestroyed p w' = negb (isSome (fst (Destroy c p w)))).
Proof.
  intros Hs Hst. destruct (Destroy_ends c p w s Hs) as (s' & Hs' & Ho & ->).
  pose proof (steps_ended p _ _ s' Hst Hs' Ho) as Hw'. split; [intros c'; by apply Destroy_again|].
  split; [rewrite Hw'; exact (step_ended p w' _ s' (st_watchdog p w') Hw' Ho)|].
  unfold WasDestroyed. rewrite Hw', Hs'. split; [done|]. intros Hb.
  rewrite (load_Destroy _ _ _ _ Hs), Hb in Hs'. injection Hs' as <-. by rewrite !life_set.
Qed.

Definition up1 : Proc Docker.Sandbox Daemon :=
  snd (Docker.Provision daemon_api (cfg1 (W := unit)) (proc0 (daemon0 true))).

Lemma torn_down_once_witness :
  let own := Docker_Owner daemon_api in
  let w := up1 in
  isSome (load 1 w) = true /\
  Destroy (OW := own) Background 1 (snd (watchdog (OW := own) 1 (snd (Destroy (OW := own) Background 1 w)))) =
    (None, snd (watchdog (OW := own) 1 (snd (Destroy (OW := own) Background 1 w)))).
Proof.
  intros own w. split; [vm_compute; reflexivity|].
  destruct (load 1 w) as [s|] eqn:E; [|exfalso; vm_compute in E; discriminate].
  destruct (torn_down_once (OW := own) Background 1 w _ s E
    (rtc_once _ _ (st_watchdog (OW := own) 1 (snd (Destroy (OW := own) Background 1 w))))) as (H & _).
  rewrite H. vm_compute. reflexivity.
Defined.

(** * Kubernetes *)

(** C36: no sandbox pod runs where egress is allowed, at no step of a
    [Provision]: every pod it leaves, its own included, is in a namespace with the
    deny-all policy; and a [Provision] that fails leaves no pod of its own, when
    the API server's deletions work. *)
Theorem pod_provision_isolated {D} {CK : Verify.Clock D} (api : ClusterAPI D)
  {KL : ClusterLaws api} {W} (cfg : Config W) (w w' : Proc Kubernetes.Sandbox D) r :
  confined api (ext w) -> Kubernetes.Provision api cfg w = (r, w') ->
  confined api (ext w') /\
  ((forall ns n d, unless (IsNotFound api) (fst (DeletePod api Background ns n d)) = None) ->
   is_ok r = false -> pods (ext w') ⊆ pods (ext w)).
Proof.
  intros Hc HP. split.
  - exact (keeps_run (fun w => confined api (ext w)) _ _ _ _ (Provision_confined api cfg) HP Hc).
  - intros Hdel Hr. destruct r as [p|e]; [done|]. exact (pod_Provision_failed api cfg w w' e Hdel HP).
Qed.

Lemma pod_provision_isolated_witness :
  let r := Kubernetes.Provision k8s_api (cfg1 (W := unit)) (proc0 (k8s0 "" "Failed")) in
  is_ok (fst r) = false /\ confined k8s_api (ext (snd r)) /\
  pods (ClusterLaws := k8s_laws) (ext (snd r)) ⊆ ∅.
Proof.
  intros r. split; [vm_compute; reflexivity|].
  destruct (pod_provision_isolated k8s_api (cfg1 (W := unit)) (proc0 (k8s0 "" "Failed")) (snd r) (fst r))
    as [H1 H2].
  - apply k8s0_confined.
  - subst r. by destruct (Kubernetes.Provision _ _ _).
  - split; [exact H1|]. apply H2; [|vm_compute; reflexivity].
    intros ns n k. cbn. by case_bool_decide.
Defined.

(** * Velero *)

(** C37: [Prepare] restores only into a namespace of its own, and a leased one. A
    prepared drill targets a completed backup and a namespace that was not up
    before (an existing source namespace is never the target) and that has the
    deny-all egress policy. That namespace was created with the label the
    collector looks for and with the time its lease ends, [ttl] after a moment
    within this call; the watchdog's deadline is no earlier and at most [ttl]
    from now. A [Prepare] that fails leaves no namespace up that was not, when the
    API server accepts deletions: a listing from there shows any other namespace
    as [Terminating]. *)
Theorem velero_prepare_isolated {D} {CK : Verify.Clock D} {CL : Verify.ClockLaws D}
  (api : ClusterAPI D) {KL : ClusterLaws api} {VL : VeleroLaws api} drill backup source ttl
  (w w' : Proc Velero.Drill D) r :
  confined api (ext w) -> timely api -> Velero.Prepare api drill backup source ttl w = (r, w') ->
  match r with
  | Ok p => exists d dl s lease, load p w' = Some d /\ Velero.SourceNS d = source /\
      Velero.v_Backup d = backup /\
      (exists b, fst (GetBackup api backup (when_backup_read api w)) = Ok b /\
                 b_Phase b = "Completed") /\
      (Velero.TargetNS d ∉ spaces (ext w)) /\
      policies (ext w') !! (Velero.TargetNS d, policy_name) = Some (deny_egress (Velero.TargetNS d)) /\
      made (ext w') !! Velero.TargetNS d = Some s /\ nss_Name s = Velero.TargetNS d /\
      nss_Labels s !! "firedrill/sandbox" = Some "true" /\
      nss_Annotations s !! "firedrill.expires-at" = Some (fmt_RFC3339 lease) /\
      guarded (OW := Velero.Namespace_Owner api) p dl w' /\
      Verify.time_of w + ttl <= lease /\ lease <= dl /\ dl <= Verify.time_of w' + ttl
  | Err _ =>
      (forall n d, unless (IsNotFound api) (fst (DeleteNamespace api Background n d)) = None) ->
      spaces (ext w') ⊆ spaces (ext w) /\
      forall sel l d', ListNamespaces api sel (ext w') = (Ok l, d') -> forall m, In m l ->
        ns_Name m ∈ spaces (ext w) \/ ns_Phase m = "Terminating"
  end.
Proof.
  intros Hc Htm HP. destruct r as [p|e].
  - destruct (Prepare_ok api _ _ _ _ _ _ _ Hc HP) as (d & _ & H1 & H2 & H3 & _ & H5 & H6 & _).
    pose proof (Prepare_backup api _ _ _ _ _ _ _ HP) as H4.
    destruct (Prepare_leased api _ _ _ _ _ _ _ Htm HP) as (d' & s & dl & t & L1 & L2 & -> & L4 & L5 & L6).
    assert (d' = d) as -> by congruence. exists d, dl, (Velero.namespace_spec (Velero.TargetNS d) (t + ttl)), (t + ttl).
    do 7 (split; [done|]). split; [done|]. split; [reflexivity|]. split; [reflexivity|].
    split; [done|]. lia.
  - intros Hdel. pose proof (Prepare_failed api _ _ _ _ _ _ _ Hdel HP) as Hs. split; [done|].
    intros sel l d' Hl m Hm.
    destruct (only_terminating api sel _ l d' _ Hs Hl m Hm) as [?|[? _]]; auto.
Qed.

Lemma k8s_timely : timely k8s_api.
Proof.
  intros t P. do 6 (split; [by intros; intros k Hk|]).
  split; intros s k Hk; cbn; [by case_bool_decide|by destruct (k_policies k !! _)].
Qed.

Lemma velero_prepare_isolated_witness :
  let r := Velero.Prepare k8s_api "shop" "nightly" "shop" Hour (proc0 (k8s0 "Completed" "")) in
  exists p d, fst r = Ok p /\ load p (snd r) = Some d /\
    (Velero.TargetNS d ∉ ({["shop"]} : gset string)).
Proof.
  intros r. pose proof (velero_prepare_isolated k8s_api "shop" "nightly" "shop" Hour
    (proc0 (k8s0 "Completed" "")) (snd r) (fst r)) as H.
  destruct (fst r) as [p|e] eqn:E; [|exfalso; vm_compute in E; discriminate].
  destruct H as (d & dl & s & lease & Hd & _ & _ & _ & Ht & _).
  - apply k8s0_confined.
  - exact k8s_timely.
  - rewrite <- E. subst r. by destruct (Velero.Prepare _ _ _ _ _ _).
  - exists p, d. split; [done|]. split; [done|]. cbn in Ht. by rewrite dom_singleton_L in Ht.
Defined.

(** C38: a Velero restore counts as done exactly when Velero reported it
    [Completed], of the very object this drill created. A result means: three
    random bytes were drawn and made into the object's name; an object of that
    name was created, from the drill's backup, for the source namespace alone and
    mapped onto the ephemeral one; the drill remembers the name; and from there
    on that same name was read, with a wait before each reading, until its phase
    was terminal. The result carries that phase, the counts and the time since
    the creation, and its error is nil exactly for [Completed]: neither
    [PartiallyFailed] nor any failure passes. *)
Theorem velero_restore_verdict {D} {CK : Verify.Clock D} (api : ClusterAPI D) ttl p
  (w w' : Proc Velero.Drill D) v err :
  Velero.Restore api ttl p w = ((Some v, err), w') ->
  exists d suffix d1 start d2 s d3 d4 d5 st d6 now,
    let name := Velero.TargetNS d +:+ "-" +:+ randomHex suffix in
    load p w = Some d /\ rand_Read api 3 (ext w) = (suffix, d1) /\
    Verify.Now d1 = (start, d2) /\
    (rs_Name s = name /\ backupName s = Velero.v_Backup d /\
     includedNamespaces s = [Velero.SourceNS d] /\
     namespaceMapping s = {[Velero.SourceNS d := Velero.TargetNS d]} /\
     existingResourcePolicy s = "none") /\
    CreateRestore api s d2 = (None, d3) /\
    undecided (Velero.restore_round api start name) d3 d4 /\
    Velero.wait_or_done (2 * Second) d4 = (None, d5) /\ GetRestore api name d5 = (Ok st, d6) /\
    Verify.Now d6 = (now, ext w') /\ load p w' = Some (Velero.set_restore_name name d) /\
    (rt_Phase st = "Completed" \/ rt_Phase st = "PartiallyFailed" \/
     HasPrefix (rt_Phase st) "Failed" = true) /\
    v = {| Velero.v_Duration := Sub now start; Velero.v_Phase := rt_Phase st;
           Velero.v_Warnings := rt_Warnings st; Velero.v_Errors := rt_Errors st |} /\
    (err = None <-> rt_Phase st = "Completed").
Proof.
  intros (d & suffix & d1 & start & d2 & s & d3 & d4 & d5 & st & d6 & now & H1 & H2 & H3 & H4 & H5 &
    H6 & H7 & H8 & H9 & H10 & Ht & Hc)%Restore_result.
  exists d, suffix, d1, start, d2, s, d3, d4, d5, st, d6, now. cbv zeta. do 10 (split; [done|]).
  split; [|split].
  - unfold Velero.terminal in Ht. apply orb_true_iff in Ht as [[Ht|Ht]%orb_true_iff|Ht];
      [left|right; left|by right; right]; by apply String.eqb_eq.
  - unfold Velero.conclude in Hc. destruct (negb _); by injection Hc as <- _.
  - rewrite <- (conclude_completed start now st), Hc. done.
Qed.

Lemma velero_restore_verdict_witness :
  let w := snd (Velero.Prepare k8s_api "shop" "nightly" "shop" Hour
                  (proc0 (k8s0 "PartiallyFailed" ""))) in
  exists v err, fst (Velero.Restore k8s_api Hour 1 w) = (Some v, Some err) /\
    Velero.v_Phase v = "PartiallyFailed".
Proof.
  intros w. destruct (Velero.Restore k8s_api Hour 1 w) as [[[v|] err] w'] eqn:E;
    [|exfalso; vm_compute in E; discriminate].
  destruct (velero_restore_verdict k8s_api Hour 1 w w' v err E) as
    (d & sf & d1 & start & d2 & s & d3 & d4 & d5 & st & d6 & now & _ & _ & _ & _ & _ & _ & _ & _ &
     _ & _ & _ & Hv & Hiff).
  assert (Hp : Velero.v_Phase v = "PartiallyFailed")
    by (vm_compute in E; injection E as <- _ _; reflexivity).
  clear E. destruct err as [e|]; [exists v, e; split; [reflexivity|exact Hp]|]. exfalso.
  pose proof (proj1 Hiff eq_refl) as Hx. rewrite Hv in Hp. cbn in Hp. rewrite Hx in Hp. discriminate Hp.
Defined.

(** The wait for a Velero restore ends. When the drill's context expires
    within the TTL and the API's reads take no time back, the polling loop decides
    within the fuel the TTL gives. *)
Theorem velero_restore_terminates {D} {CK : Verify.Clock D} {CL : Verify.ClockLaws D}
  (api : ClusterAPI D) start name ttl dl d :
  (forall d, dl <= Verify.time_of d -> fst (Verify.ctx_Err d) <> None) ->
  (forall d, Verify.time_of d <= Verify.time_of (snd (GetRestore api name d))) ->
  0 <= ttl -> dl - Verify.time_of d <= ttl ->
  fst (poll (fuel_for ttl (2 * Second)) (Velero.restore_round api start name) d) <> None.
Proof. apply Restore_ends. Qed.

Lemma velero_restore_terminates_witness :
  fst (poll (fuel_for Hour (2 * Second)) (Velero.restore_round k8s_api 0 "r")
         (k8s0 "InProgress" "")) <> None.
Proof.
  apply (velero_restore_terminates k8s_api 0 "r" Hour (k_epoch + Hour)).
  - intros k H. cbn in *. by rewrite (proj2 (Z.leb_le _ _) H).
  - intros k. cbn. lia.
  - vm_compute. discriminate.
  - vm_compute. discriminate.
Defined.

(** * Garbage collection *)

(** C39: without [--force], a sweep never removes a Docker sandbox whose lease
    runs: a container listed with the labels its [Provision] gave it is still
    there as long as the time the sweep read is a second before the end of its
    TTL, whatever else is listed. *)
Theorem gc_spares_leased_container {D} {CK : Verify.Clock D} (api : DockerAPI D)
  {DL : DockerLaws api} (o : Gc.Options) {W} (cfg : Config W) name pw nid port t id (d : D) :
  Gc.Force o = false -> four_digit_year (t + cfg_TTL cfg) ->
  (forall cs c, fst (ContainerList api (snd (Verify.Now (sweep_start api d)))) = Ok cs ->
     In c cs -> c_ID c = id ->
     c_Labels c = Docker.Labels (container_spec cfg name pw nid port t)) ->
  fst (Verify.Now (sweep_start api d)) <= t + cfg_TTL cfg - Second ->
  id ∈ containers d -> id ∈ containers (snd (Gc.SweepDocker api o d)).
Proof.
  intros Hf Hy Hl Hnow Hin. destruct (decide (id ∈ containers (snd (Gc.SweepDocker api o d)))) as [|Hout];
    [done|exfalso].
  destruct (SweepDocker_spares api o d _ _ id (surjective_pairing _) Hin Hout)
    as (cs & c & Hcs & Hc & Hid & _ & _ & He).
  rewrite (Hl cs c Hcs Hc Hid), docker_lease, (expired_label o _ _ _ Hy Hf) in He.
  apply lease_bounds in He. unfold Add in He. lia.
Qed.

(** A daemon with one sandbox, up for its first minutes. *)
Definition leased : Daemon := {|
  dm_time := 1700000200 * Second;
  dm_containers := {["ctr" := Docker.Labels
    (container_spec (cfg1 (W := unit)) "firedrill-payments" "pw" "net" "5432/tcp" (1700000000 * Second))]};
  dm_networks := ∅; dm_starts := true |}.

Lemma gc_spares_leased_container_witness :
  let o := {| Gc.OlderThan := 0; Gc.DryRun := false; Gc.Force := false |} in
  "ctr" ∈ containers (DockerLaws := daemon_laws) (snd (Gc.SweepDocker daemon_api o leased)).
Proof.
  intros o. apply (gc_spares_leased_container daemon_api o (cfg1 (W := unit)) "firedrill-payments"
    "pw" "net" "5432/tcp" (1700000000 * Second)).
  - reflexivity.
  - vm_compute. split; discriminate.
  - intros cs c ->%dm_list_only Hc _. exact (proj2 (dm_list_one _ _ c Hc)).
  - vm_compute. discriminate.
  - cbn [containers daemon_laws leased dm_containers]. rewrite dom_singleton_L. by apply elem_of_singleton.
Defined.

(** The same for Kubernetes: a sandbox pod and a Velero drill's namespace
    listed with the lease their creation wrote survive a sweep made a second
    before its end, unless somebody else's expired namespace contains the pod. *)
Theorem gc_spares_leased_pods {D} {CK : Verify.Clock D} (api : ClusterAPI D)
  {KL : ClusterLaws api} {VL : VeleroLaws api} (o : Gc.Options) (d : D) expires :
  let now := fst (Verify.Now (cluster_sweep_start api d)) in
  let listed := snd (Verify.Now (cluster_sweep_start api d)) in
  Gc.Force o = false -> four_digit_year expires -> now <= expires - Second ->
  (forall ns n,
    (forall ps q, fst (ListPods api "firedrill/sandbox=true" listed) = Ok ps -> In q ps ->
       p_Namespace q = ns -> p_Name q = n ->
       Gc.label (p_Annotations q) Gc.ExpiresAtLabel = fmt_RFC3339 expires) ->
    (forall nss q, fst (ListNamespaces api "firedrill/sandbox=true" (pods_swept api o d)) = Ok nss ->
       In q nss -> ns_Name q <> ns) ->
    (ns, n) ∈ pods d -> (ns, n) ∈ pods (snd (Gc.SweepKubernetes api o d))) /\
  (forall ns,
    (forall nss q, fst (ListNamespaces api "firedrill/sandbox=true" (pods_swept api o d)) = Ok nss ->
       In q nss -> ns_Name q = ns ->
       Gc.label (ns_Annotations q) Gc.ExpiresAtLabel = fmt_RFC3339 expires) ->
    ns ∈ spaces d -> ns ∈ spaces (snd (Gc.SweepKubernetes api o d))).
Proof.
  intros now listed Hf Hy Hnow.
  assert (Hlive : forall l created, l = fmt_RFC3339 expires -> Gc.expired o l created now = true -> False).
  { intros l created -> He. rewrite (expired_label o _ _ _ Hy Hf) in He. apply lease_bounds in He. lia. }
  split.
  - intros ns n Hp Hn Hin. apply (SweepKubernetes_spares api o); [| |done].
    + intros ps q Hps Hq [_ He] [= Hq1 Hq2]. exact (Hlive _ _ (Hp ps q Hps Hq Hq1 Hq2) He).
    + intros nss q H1 H2 _. exact (Hn nss q H1 H2).
  - intros ns Hn Hin. apply (SweepKubernetes_keeps api o (fun d => ns ∈ spaces d)); [| | |done].
    + by intros d0 d' [= _ _ ->].
    + intros ps q _ _ _ d0 Hd. destruct (DeletePod api _ _ _ d0) as [r d'] eqn:E.
      apply DeletePod_spec in E. destruct E as (_ & E & _). cbn [snd]. by rewrite E.
    + intros nss q Hl Hq (_ & _ & He) d0 Hd.
      destruct (decide (ns_Name q = ns)) as [Heq|Hne].
      { destruct (Hlive _ _ (Hn nss q Hl Hq Heq) He). }
      destruct (DeleteNamespace api _ _ d0) as [r d'] eqn:E. apply DeleteNamespace_spec in E.
      cbn [snd]. destruct r; [by destruct E as [-> _]|destruct E as [E _]; set_solver].
Qed.

(** One sandbox pod, and its namespace, up for its first minutes. *)
Definition leased_cluster : K8s := {|
  k_time := 1700000200 * Second;
  k_pods := {[("drills", "pod") := {["firedrill.expires-at" := fmt_RFC3339 (1700003600 * Second)]}]};
  k_policies := ∅; k_spaces := ∅;
  k_terminating := ∅; k_phase := ""; k_pod_phase := "Running" |}.

Lemma gc_spares_leased_pods_witness :
  let o := {| Gc.OlderThan := 0; Gc.DryRun := false; Gc.Force := false |} in
  ("drills", "pod") ∈ pods (ClusterLaws := k8s_laws) (snd (Gc.SweepKubernetes k8s_api o leased_cluster)).
Proof.
  intros o.
  destruct (gc_spares_leased_pods k8s_api o leased_cluster (1700003600 * Second)) as [H _].
  - reflexivity.
  - vm_compute. split; discriminate.
  - vm_compute. discriminate.
  - apply H; clear H.
    + intros ps q ->%k_pod_list_only Hq _ _. rewrite (k_pod_list_one _ _ q Hq). reflexivity.
    + intros nss q H Hq _. vm_compute in H. injection H as <-. destruct Hq.
    + cbn [pods k8s_laws leased_cluster k_pods]. rewrite dom_singleton_L. by apply elem_of_singleton.
Defined.
