(* ===== verification/PropsDriver.v ===== *)
(** The properties of the engine drivers and of what they run in a sandbox. *)

From Stdlib Require Import ZArith Lia Ascii String.
From stdpp Require Import base option list gmap strings.
From S2P Require Import Prelude GoStrings Spec Interfaces Poll Sandboxes Restoring Postgres PostgresFacts Mongodb DriverFacts.
From S2P Require Verify Source Mysql.

(** * A sandbox whose commands exit as scripted *)

(** The time, and whether a cluster comes up. *)
Record Engine1 := { e_time : Time; e_up : bool }.

#[export] Instance engine1_clock : Verify.Clock Engine1 := {|
  Verify.Now e := (e_time e, {| e_time := e_time e + Second; e_up := e_up e |});
  Verify.Sleep x e := (tt, {| e_time := e_time e + Z.max 0 x; e_up := e_up e |});
  Verify.ctx_Err := mret None |}.

#[export] Program Instance engine1_clock_laws : Verify.ClockLaws Engine1 := {|
  Verify.time_of := e_time |}.
Next Obligation. intros e. cbn. unfold Second. lia. Qed.
Next Obligation. intros x e. cbn. lia. Qed.
Next Obligation. intros e. cbn. lia. Qed.

#[export] Instance engine1_files : Files Engine1 := {|
  os_Open p := mret (Ok (Source.string_reader "tar"));
  f_Seek := mret None |}.

Definition sandbox_e : SandboxI Engine1 := {|
  Exec cmd _ e := (match cmd with
                   | "psql" :: _ => if e_up e then (0, "", None) else (2, "", None)
                   | _ => (0, "", None)
                   end, e);
  Host := "127.0.0.1"; HostPort := "49153"; User := "firedrill"; Password := "pw";
  DB := "firedrill"; Destroy _ := mret None; WasDestroyed _ := false |}.

Definition base_source : Source := {|
  src_Driver := "postgres";
  src_From := {| from_Type := "file"; URI := "/b.tar"; CredentialsRef := ""; Region := "";
    Endpoint := ""; MaxBytes := 1000; MaxUncompressedBytes := 0; from_Decrypt := None; Select := "";
    Match := ""; Backup := ""; from_Namespace := "" |};
  Format := "basebackup"; Database := "" |}.

(** * Postgres *)

(** C40: a physical restore is reported done only when the base backup was
    unpacked, the data directory prepared and the server started, each by a
    command that exited 0, in this order, and after that the restored cluster
    answered a query on the database under test; verification then connects to
    that cluster rather than with the sandbox's credentials. *)
Theorem basebackup_restored_answers {W} {CK : Verify.Clock W} {FS : Files W} (sb : SandboxI W)
  path src w r w' :
  Format src = "basebackup" -> PgRestore sb path src w = (Restored r, w') ->
  let db := if is_empty (Database src) then "postgres" else Database src in
  exists f start w1 w2 w3 w4 w5 w6 w7 o1 o2 o3 o4,
    os_Open path w = (Ok f, w1) /\ Verify.Now w1 = (start, w2) /\
    Exec sb ["sh"; "-c"; untar_script] (Some f) w2 = ((0, o1, None), w3) /\
    Exec sb ["sh"; "-c"; hba_script] None w3 = ((0, o2, None), w4) /\
    Exec sb ["sh"; "-c"; start_script] None w4 = ((0, o3, None), w5) /\
    Exec sb (ping db) None w6 = ((0, o4, None), w7) /\
    res_Format r = "basebackup" /\ DSN r = trust_dsn sb db.
Proof. unfold PgRestore. intros ->. apply restoreBasebackup_ok. Qed.

Lemma basebackup_restored_answers_witness :
  exists r w', PgRestore sandbox_e "/b.tar" base_source {| e_time := 0; e_up := true |} =
                 (Restored r, w') /\ DSN r = trust_dsn sandbox_e "postgres".
Proof.
  destruct (PgRestore sandbox_e "/b.tar" base_source {| e_time := 0; e_up := true |})
    as [[r|r e] w'] eqn:E; [|exfalso; vm_compute in E; discriminate].
  exists r, w'. split; [reflexivity|].
  destruct (basebackup_restored_answers sandbox_e "/b.tar" base_source _ r w' eq_refl E)
    as (f & start & w1 & w2 & w3 & w4 & w5 & w6 & w7 & o1 & o2 & o3 & o4 & H).
  apply H.
Defined.

(** The wait for a restored cluster ends: however the cluster behaves, the
    polling loop decides within the fuel its three minutes give. *)
Theorem basebackup_wait_terminates {W} {CK : Verify.Clock W} {CL : Verify.ClockLaws W}
  (sb : SandboxI W) start db w :
  forward sb ->
  fst (poll cluster_fuel
         (cluster_round sb start (Add (fst (Verify.Now w)) (3 * Minute)) db)
         (snd (Verify.Now w))) <> None.
Proof. intros Hf. exact (wait_cluster_ends sb start db w Hf). Qed.

Lemma basebackup_wait_terminates_witness :
  let w := {| e_time := 0; e_up := false |} in
  forward sandbox_e /\
  fst (poll cluster_fuel
         (cluster_round sandbox_e 0 (Add (fst (Verify.Now w)) (3 * Minute)) "postgres")
         (snd (Verify.Now w))) <> None.
Proof.
  intros w. assert (Hf : forward sandbox_e) by (intros cmd stdin e; cbn; lia).
  split; [exact Hf|]. exact (basebackup_wait_terminates sandbox_e 0 "postgres" w Hf).
Defined.

(** Which log condemns a restored cluster. [fatalStartupLine] returns a line
    exactly when it is the first, trimmed, that mentions FATAL or PANIC without
    being one of the notices of a server still replaying its log; it returns the
    empty string exactly when there is none. *)
Theorem fatalStartupLine_exact log l :
  fatalStartupLine log = l /\ l <> EmptyString <->
  exists pre post, List.map TrimSpace (Split log newline) = pre ++ l :: post /\
    (Contains l "FATAL" = true \/ Contains l "PANIC" = true) /\
    (forall t, In t transientStartup -> Contains l t = false) /\
    (forall y, In y pre -> fatal y = false).
Proof.
  unfold fatalStartupLine. split.
  - intros [H Hl]. destruct (List.find _ _) as [x|] eqn:E; [|by subst]. subst x.
    apply find_first in E as (pre & post & H1 & H2 & H3). exists pre, post.
    apply fatal_spec in H2 as [H2 H2']. done.
  - intros (pre & post & H1 & H2 & H3 & H4).
    assert (Hf : fatal l = true) by (by apply fatal_spec).
    assert (E : List.find fatal (List.map TrimSpace (Split log newline)) = Some l)
      by (apply find_first; eauto). rewrite E. split; [done|by apply fatal_nonempty].
Qed.

(** * MongoDB *)

(** No collection, field or database name escapes its place in the checksum
    command: whatever they hold, the shell reads the assignment as one word, the
    whole script, and goes on with the fixed text; and in that script the JavaScript
    engine reads each as one string literal equal to the name. *)
Theorem checksum_command_safe db collection field :
  let js := checksum_js db collection field in
  checksum_cmd db collection field = "FIREDRILL_JS=" +:+ shellQuote js +:+ "; " +:+ checksum_script /\
  sh_word false (shellQuote js +:+ "; " +:+ checksum_script) = Some (js, "; " +:+ checksum_script) /\
  exists pre1 pre2 pre3 post1 post2 post3,
    js = pre1 +:+ quoteJS db +:+ post1 /\ js_literal (quoteJS db +:+ post1) = Some (db, post1) /\
    js = pre2 +:+ quoteJS collection +:+ post2 /\
    js_literal (quoteJS collection +:+ post2) = Some (collection, post2) /\
    js = pre3 +:+ quoteJS field +:+ post3 /\
    js_literal (quoteJS field +:+ post3) = Some (field, post3).
Proof.
  intros js. split; [done|]. split; [by apply sh_word_shellQuote|].
  exists (authJS +:+ "db = db.getSiblingDB("),
    (authJS +:+ "db = db.getSiblingDB(" +:+ quoteJS db +:+ ");" +:+ "db.getCollection("),
    (authJS +:+ "db = db.getSiblingDB(" +:+ quoteJS db +:+ ");" +:+ "db.getCollection(" +:+
       quoteJS collection +:+ ").find({}, {_id: 0, ").
  do 3 eexists. rewrite !js_literal_quoteJS. unfold js, checksum_js, eval_js.
  split; [by rewrite !sapp_assoc|]. split; [done|]. split; [by rewrite !sapp_assoc|].
  split; [done|]. split; [by rewrite !sapp_assoc|done].
Qed.

(** A MongoDB check never takes a failed shell for an answer: a count, a row
    count, a value or a checksum is returned only when the command exited 0
    without an error, and is what its last line says. *)
Theorem mongo_engine_reads_success {W} (e : engine W) query w w' :
  (forall n, Count e query w = (Ok n, w') \/ Rows e query w = (Ok n, w') ->
     exists cmd o, Exec (sb e) cmd None w = ((0, o, None), w') /\
       ParseInt (lastLine (TrimSpace o)) = (n, None)) /\
  (forall s, Scalar e query w = (Ok s, w') \/
     (exists field, Checksum e query field w = (Ok s, w')) ->
     exists cmd o, Exec (sb e) cmd None w = ((0, o, None), w') /\ s = lastLine (TrimSpace o)).
Proof.
  assert (Hn : forall what q o n, number what q o = Ok n -> ParseInt (lastLine o) = (n, None)).
  { intros what q o n. unfold number. destruct (ParseInt _) as [m [x|]]; [done|]. by intros [= ->]. }
  split.
  - intros n H. unfold Count, Rows, eval, mbind, mret in H.
    destruct H as [H|H]; destruct (run_shell _ _ _ w) as [[o|x] w1] eqn:E; try done;
      injection H as H <-; apply run_shell_ok in E as (o' & E & ->); eauto.
  - intros s H. unfold Scalar, Checksum, eval, mbind, mret in H.
    destruct H as [H|[field H]]; destruct (run_shell _ _ _ w) as [[o|x] w1] eqn:E; try done;
      injection H as <- <-; apply run_shell_ok in E as (o' & E & ->); eauto.
Qed.

Definition engine_e : engine Engine1 := {| sb := {|
  Exec _ _ := mret (0, "notice" +:+ nl +:+ " 2000" +:+ nl, None); Host := ""; HostPort := ""; User := "";
  Password := ""; DB := ""; Destroy _ := mret None; WasDestroyed _ := false |}; db := "shop" |}.

Lemma mongo_engine_reads_success_witness :
  let w := {| e_time := 0; e_up := true |} in
  Count engine_e "db.ledger.countDocuments({})" w = (Ok 2000, w) /\
  exists cmd o, Exec (sb engine_e) cmd None w = ((0, o, None), w) /\
    ParseInt (lastLine (TrimSpace o)) = (2000, None).
Proof.
  intros w. assert (H : Count engine_e "db.ledger.countDocuments({})" w = (Ok 2000, w))
    by (vm_compute; reflexivity).
  split; [exact H|].
  exact (proj1 (mongo_engine_reads_success engine_e "db.ledger.countDocuments({})" w w) 2000 (or_introl H)).
Defined.

(** What a sandbox keeps of a command's output is the output's first bytes, up
    to the limit, however the stream is cut into writes; every write is accepted
    whole, so the stream keeps draining. *)
Theorem captured_output_is_prefix max chunks :
  0 <= max ->
  buf (capture max chunks) = take_bytes (Z.to_nat max) (String.concat "" chunks) /\
  (forall l p, snd (buffer_Write l p) = len p).
Proof. intros Hm. split; [by apply capture_prefix|done]. Qed.

Lemma captured_output_is_prefix_witness : buf (capture 5 ["abc"; "defg"; "h"]) = "abcde".
Proof. exact (proj1 (captured_output_is_prefix 5 ["abc"; "defg"; "h"] ltac:(discriminate))). Defined.
