(* ===== verification/PropsCli.v ===== *)
(** The properties of the command line and of the reports over past runs, each
    with a concrete input on which its hypotheses hold. *)

From Stdlib Require Import ZArith Lia Ascii String SpecFloat.
From stdpp Require Import base option list gmap strings sorting.
From S2P Require Import Prelude GoStrings Float64 Spec SpecFacts Disk Evidence World Interfaces Calendar Print Drill DrillFacts DrillRecord Keeps DrillGate Gate GateFacts Reports ReportsFacts Cli CliFacts Instances Scenario.
From S2P Require Verify Sign Gc.

(** C3: exit code 0 of a real [run] is earned: the spec file holds well-formed
    drills of distinct names, at least one of them was asked for, and each of
    those ran, without an error, to a verified record that is backed by a
    restore within the objectives and by passing checks on the restored data. *)
Theorem run_exit_zero_is_earned {X} {CK : Verify.Clock (World X)} {EC : EvidenceCodec}
  {CR : Sign.Crypto} {VC : Sign.EnvelopeCodec} (dp : Deps X) stdout color version spec_file fl args w :
  run_DryRun fl = false ->
  exit_code (fst (run_cmd dp stdout color version spec_file fl args w)) = 0 ->
  exists drills, LoadAll (spec_file (run_File fl)) = Ok drills /\
    Forall well_formed drills /\ NoDup (List.map drill_Name drills) /\
    (exists d, asked fl args drills d) /\
    forall d, asked fl args drills d ->
      exists e path w1, fst (Run dp d (run_options stdout color version fl) w1) =
          Ran (Some e) path None /\ ev_Verified e = true /\ earned dp d e.
Proof.
  intros Hdry H. destruct (run_cmd_zero dp stdout color version spec_file fl args w Hdry H)
    as (drills & Hl & Hn & Hall). exists drills. split; [done|].
  destruct (LoadAll_ok _ _ Hl) as (Hne & Hwf & Hnd). split; [done|]. split; [done|].
  split.
  - destruct (targets fl args drills) as [|d r] eqn:E.
    + destruct (run_All fl) eqn:Ea; [|by destruct (Hn eq_refl)].
      unfold targets in E. rewrite Ea in E. done.
    + exists d. apply asked_targets. rewrite E. by left.
  - intros d Hd. destruct (Hall d ltac:(by apply targets_asked)) as (e & path & w1 & Hr & Hv).
    exists e, path, w1. split; [done|]. split; [done|]. by eapply verified_earned.
Qed.

(** The file [drills.yaml] holds [drill1], and each invocation below is made in
    the world of the scenario. *)
Definition drills_yaml (file : string) : result (list (result Drill)) :=
  if String.eqb file "drills.yaml" then Ok [Ok drill1] else Err (ErrNotExist file).

Definition print1 (s : string) : M Ext unit := fun x =>
  (tt, {| clock := clock x; up := up x; terminal := terminal x +:+ s |}).

Definition run_flags : RunFlags := {|
  run_All := false; run_File := "drills.yaml"; run_EvidenceDir := "/ev"; run_KeyDir := "/keys";
  run_DryRun := false |}.

Lemma run_exit_zero_is_earned_witness :
  exists d e path w1, In d [drill1] /\
    fst (Run deps1 d (run_options print1 false "v1" run_flags) w1) = Ran (Some e) path None /\
    earned deps1 d e.
Proof.
  destruct (run_exit_zero_is_earned deps1 print1 false "v1" drills_yaml run_flags ["payments"] world1)
    as (drills & Hl & _ & _ & (d & Hd) & Hall);
    [reflexivity|vm_compute; reflexivity|].
  injection Hl as <-. destruct (Hall d Hd) as (e & path & w1 & Hr & _ & He).
  exists d, e, path, w1. split; [apply Hd|]. split; [exact Hr|exact He].
Defined.

(** C18: exit code 0 of [gate] is a guarantee about the evidence directory: it
    could be read, and every subject the flags name, and with none named every
    subject of the directory, has the standing the gate promises at the time of
    the call. A given public key is the one that signatures are checked
    against, and it makes signatures required. *)
Theorem gate_exit_zero_guarantees {X} {CK : Verify.Clock (World X)} {EC : EvidenceCodec}
  {CR : Sign.Crypto} {VC : Sign.EnvelopeCodec} {SS : SliceSort} (dp : Deps X) stdout spec_file
  gate_json fl w :
  exit_code (fst (gate_cmd dp stdout spec_file gate_json fl w)) = 0 ->
  exists opts now w1 files,
    Verify.Now w = (now, w1) /\ scanEvidence (disk dp) (w_disk w1) (gf_EvidenceDir fl) = Ok files /\
    gate_MaxAge opts = gf_MaxAge fl /\ AllowUnverified opts = gf_AllowUnverified fl /\
    (gf_RequireSigned fl = true -> RequireSigned opts = true) /\
    (gf_PubPath fl <> "" -> RequireSigned opts = true /\ exists data k,
       ReadFile (disk dp) (gf_PubPath fl) (w_disk w) = Ok data /\
       Sign.ParsePublicKeyPEM data = Ok k /\ gate_PublicKey opts = Some k) /\
    let ok n := gate_ok (disk dp) (w_disk w1) opts now (runs_of (gate_by opts) n files) in
    (forall n, demanded spec_file fl n -> ok n) /\
    ((forall n, ~ demanded spec_file fl n) -> forall n, runs_of (gate_by opts) n files <> [] -> ok n).
Proof.
  intros (subjects & trusted & w1 & now & rep & Hs & Hk & Hn & Hg & Hv)%gate_cmd_zero.
  destruct (Gate_scans _ _ _ _ _ Hg) as [files Hf].
  destruct (Gate_spec _ _ _ _ _ _ Hf Hg) as [Hok _]. specialize (Hok Hv).
  exists (gate_options fl subjects trusted), now, w1, files. split; [done|]. split; [done|].
  split; [done|]. split; [done|].
  split; [cbn; intros ->; by destruct trusted|]. split.
  - intros Hp. destruct (trusted_key_some _ _ _ _ Hk Hp) as (Ht & Hd). cbn. by rewrite Ht.
  - setoid_rewrite gate_names_in in Hok. cbn [Subjects gate_options] in Hok.
    pose proof (fun n => gate_subjects_demanded spec_file fl subjects n Hs) as Hd. split.
    + intros n Hn'. apply Hok. apply Hd in Hn'. by destruct subjects.
    + intros Hnone n Hr. apply Hok. destruct subjects as [|s l]; [|destruct (Hnone s); apply Hd; by left].
      apply isSome_true. rewrite <- group_files_lookup in Hr. unfold group in Hr.
      destruct (group_files _ _ !! n) as [v|]; [eauto|done].
Qed.

(** One verified run of [payments] in [ev], and the spec file demands it. *)
Definition gate_world : World Ext := {|
  w_tmp := ∅;
  w_disk := {[ "ev/payments-2023-11-14T22-13-20Z-000000000.json" :=
                 fields ["payments"; itoa T0; "1"] ]};
  w_ext := {| clock := T0; up := false; terminal := "" |} |}.

Definition gate_flags : GateFlags := {|
  gf_EvidenceDir := "ev"; gf_Format := "text"; gf_FromSpec := "drills.yaml"; gf_By := "drill";
  gf_PubPath := ""; gf_DrillNames := []; gf_ControlNames := []; gf_MaxAge := 24 * Hour;
  gf_RequireSigned := false; gf_AllowUnverified := false |}.

Lemma gate_exit_zero_guarantees_witness :
  exists opts now (w1 : World Ext) files,
    scanEvidence healthy (w_disk w1) "ev" = Ok files /\
    gate_ok healthy (w_disk w1) opts now (runs_of (gate_by opts) "payments" files).
Proof.
  destruct (gate_exit_zero_guarantees deps1 print1 drills_yaml (fun _ => Ok "") gate_flags gate_world)
    as (opts & now & w1 & files & _ & Hf & _ & _ & _ & _ & Hd & _); [vm_compute; reflexivity|].
  exists opts, now, w1, files. split; [exact Hf|]. apply Hd. right.
  split; [discriminate|]. eexists. split; [reflexivity|]. by left.
Defined.

(** C4: the two commands compose. When [firedrill run NAME] exits 0, the drill
    ended on a verified record, and whenever [firedrill gate --drill NAME] looks
    at the directory as that run left it, it exits 0 too: as long as the record
    is young enough for --max-age, no newer record of the drill is there, and
    --require-signed is asked only of a drill that signs. *)
Theorem gate_follows_run {X} {CK : Verify.Clock (World X)} {EC : EvidenceCodec}
  {CR : Sign.Crypto} {VC : Sign.EnvelopeCodec} {SS : SliceSort} (dp : Deps X) {EQ : EndsQuietly dp}
  stdout color version spec_file gate_json fl name w r w' :
  (forall p, ReadErr (disk dp) p = None) -> silent w_disk (Verify.Now (W := World X)) ->
  run_All fl = false -> run_DryRun fl = false ->
  run_cmd dp stdout color version spec_file fl [name] w = (r, w') -> exit_code r = 0 ->
  exists drills d e path, LoadAll (spec_file (run_File fl)) = Ok drills /\
    FindDrill drills name = Ok d /\ ev_Verified e = true /\
    fst (Run dp d (run_options stdout color version fl) w) = Ran (Some e) path None /\
    forall gfl files w2,
      four_digit_year (FinishedAt e) -> (forall b, encodable (with_destroyed b e)) ->
      w_disk w2 = w_disk w' ->
      gf_By gfl = "drill" -> gf_DrillNames gfl = [name] -> gf_FromSpec gfl = "" ->
      gf_PubPath gfl = "" -> gf_Format gfl = "text" ->
      gf_EvidenceDir gfl = evidence_of d (run_options stdout color version fl) ->
      (gf_RequireSigned gfl = true -> Spec.Sign (spec_Report (drill_Spec d)) = true) ->
      (0 < gf_MaxAge gfl -> Sub (fst (Verify.Now w2)) (FinishedAt e) <= gf_MaxAge gfl) ->
      scanEvidence (disk dp) (w_disk w') (gf_EvidenceDir gfl) = Ok files ->
      let runs := runs_of "drill" name files in
      no_ties runs -> (forall r, In r runs -> FinishedAt (E r) <= FinishedAt e) ->
      exit_code (fst (gate_cmd dp stdout spec_file gate_json gfl w2)) = 0.
Proof.
  intros Hr Hn Ha Hdry H H0.
  destruct (run_cmd_leaves dp stdout color version spec_file fl name w r w' Ha Hdry H H0)
    as (drills & d & e & path & w3 & Hl & Hfd & Hrun & Hv & Hd).
  destruct (LoadAll_ok _ _ Hl) as (_ & Hwf & _). destruct (FindDrill_ok _ _ _ Hfd) as [Hin <-].
  apply Forall_forall with (x := d) in Hwf; [|by apply list_elem_of_In].
  exists drills, d, e, path. do 3 (split; [done|]). split; [by rewrite Hrun|].
  intros gfl files w2 Hy Henc Hw2 Hby Hsub Hfs Hpk Hfmt Hdir Hsig Hage Hscan runs Ht Hnew.
  pose proof (silent_step (Verify.Now (W := World X)) w2 Hn) as Hd2.
  destruct (Verify.Now w2) as [now w4] eqn:En. cbn [fst snd] in Hd2, Hage.
  assert (Hk : trusted_key dp (gf_PubPath gfl) (w_disk w2) = Ok None) by by rewrite Hpk.
  assert (Hs : gate_subjects spec_file gfl = Ok [drill_Name d])
    by (unfold gate_subjects; by rewrite Hby, Hfs, Hsub).
  destruct (Run_passes_gate dp d _ w e path w3 (gate_options gfl [drill_Name d] None) now files
    Hr Hwf Hrun Hv Hy Henc) as (rep & Hg & Hz); try done.
  - unfold gate_by. cbn [gate_options By]. by rewrite Hby.
  - by rewrite <- Hd.
  - eapply gate_cmd_passes; try done. by rewrite Hd2, Hw2, Hd.
Qed.

(** The drill of the scenario and, an hour later, a gate that wants a signed run
    of the last day. *)
Definition gate_day : GateFlags := {|
  gf_EvidenceDir := "/ev"; gf_Format := "text"; gf_FromSpec := ""; gf_By := "drill";
  gf_PubPath := ""; gf_DrillNames := ["payments"]; gf_ControlNames := []; gf_MaxAge := 24 * Hour;
  gf_RequireSigned := true; gf_AllowUnverified := false |}.

Definition ran : exit * World Ext :=
  run_cmd (EC := Full.full_evidence) deps1 print1 false "v1" drills_yaml run_flags ["payments"] world1.

Definition an_hour_later (w : World Ext) : World Ext := {|
  w_tmp := ∅; w_disk := w_disk w; w_ext := {| clock := T0 + Hour; up := false; terminal := "" |} |}.

Lemma an_hour_later_disk w : w_disk (an_hour_later w) = w_disk w.
Proof. done. Qed.

#[local] Instance deps1_quiet : EndsQuietly deps1.
Proof. split; [intros cfg sb w w' [= <- _]; intros D v Hv; exact Hv|done|done|by intros db D v]. Qed.

Lemma gate_follows_run_witness :
  exit_code (fst ran) = 0 /\
  exit_code (fst (gate_cmd (EC := Full.full_evidence) deps1 print1 drills_yaml (fun _ => Ok "") gate_day
    (an_hour_later (snd ran)))) = 0.
Proof.
  assert (H0 : exit_code (fst ran) = 0) by (vm_compute; reflexivity). split; [exact H0|].
  destruct (gate_follows_run (EC := Full.full_evidence) deps1 print1 false "v1" drills_yaml (fun _ => Ok "")
    run_flags "payments" world1 (fst ran) (snd ran)) as (drills & d & e & path & Hl & Hd & _ & He & Hg).
  - reflexivity.
  - intros D w Hw. exact Hw.
  - reflexivity.
  - reflexivity.
  - unfold ran. apply surjective_pairing.
  - exact H0.
  - injection Hl as <-. injection Hd as <-. vm_compute in He. injection He as <- _.
    eapply Hg.
    + vm_compute. split; discriminate.
    + intros b. exact I.
    + apply an_hour_later_disk.
    + reflexivity.
    + reflexivity.
    + reflexivity.
    + reflexivity.
    + reflexivity.
    + reflexivity.
    + reflexivity.
    + intros _. vm_compute. discriminate.
    + vm_compute. reflexivity.
    + intros x y [<-|[]] [<-|[]] _. reflexivity.
    + intros r [<-|[]]. vm_compute. discriminate.
Defined.

(** C24: the report by control attributes evidence exactly: under each control
    stand precisely the runs of the directory that declare it (the runs the gate
    counts for it), newest first, each marked as signed exactly when its
    signature verifies; the controls listed are those some record declares, and
    the records that declare none are counted as unattributed. *)
Theorem controls_report_exact {SS : SliceSort} {EC : EvidenceCodec} {CR : Sign.Crypto}
  {VC : Sign.EnvelopeCodec} (env : DiskEnv) d dir now rep :
  BuildControlReport env d dir now = Ok rep ->
  exists files, scanEvidence env d dir = Ok files /\
    (forall c, Permutation (entries (rep_Controls rep) c)
       (List.map (control_entry env d) (runs_of "control" c files))) /\
    (forall c, StronglySorted (fun a b => ce_FinishedAt b <= ce_FinishedAt a)
       (entries (rep_Controls rep) c)) /\
    (forall c, c ∈ dom (rep_Controls rep) <-> exists f, In f files /\ In c (ev_Controls (E f))) /\
    (forall f, ce_Signed (control_entry env d f) = true <-> Sign.Verify env (ef_Path f) None d = None) /\
    Unattributed rep = count_where undeclared files.
Proof.
  intros (files & Hs & Hp & Ho & Hd & Hu)%BuildControlReport_spec. exists files.
  do 4 (split; [done|]). split; [|done]. intros f. cbn. destruct (Sign.Verify _ _ _ _); done.
Qed.

Lemma controls_report_exact_witness :
  exists rep files, BuildControlReport healthy (w_disk gate_world) "ev" T0 = Ok rep /\
    scanEvidence healthy (w_disk gate_world) "ev" = Ok files /\
    Unattributed rep = count_where undeclared files.
Proof.
  destruct (BuildControlReport healthy (w_disk gate_world) "ev" T0) as [rep|e] eqn:E;
    [|vm_compute in E; discriminate E].
  destruct (controls_report_exact healthy (w_disk gate_world) "ev" T0 rep E)
    as (files & Hf & _ & _ & _ & _ & Hu). exists rep, files. split; [reflexivity|]. split; [exact Hf|exact Hu].
Defined.
