(* ===== verification/PropsOperator.v ===== *)
(** The properties of the operator, each with a concrete input on which its
    hypotheses hold. *)

From Stdlib Require Import ZArith Lia Ascii String SpecFloat.
From stdpp Require Import base option list gmap strings.
From S2P Require Import Prelude GoStrings Float64 Calendar Spec Disk Evidence World Interfaces Drill DrillFacts Instances Scenario Operator OperatorFacts.
From S2P Require Verify Sign.

(** * A server

    The versions of an object are the positions of its writes; nobody else
    writes. The spec of an object is already decoded. *)

Section Server.
Context {J : Type}.

Definition stamp_entry (v : string) (e : entry J) : entry J :=
  match e with
  | Own o => Own (stored_as v o)
  | Other k o => Other k (option_map (stored_as v) o)
  end.

Fixpoint stamp (s : list (entry J)) : list (entry J) :=
  match s with
  | [] => []
  | e :: r => stamp_entry (itoa (Z.of_nat (List.length r))) e :: stamp r
  end.

Lemma stamp_version s a o :
  In a (stamp s) -> entry_object a = Some o ->
  exists n, (n < List.length s)%nat /\ ResourceVersion o = itoa (Z.of_nat n).
Proof.
  induction s as [|e s IH]; [done|]. cbn [stamp List.length]. intros [<-|Hin] Ho.
  - exists (List.length s). split; [lia|]. destruct e as [x|k [x|]]; cbn in Ho; [| |done];
      by injection Ho as <-.
  - destruct (IH Hin Ho) as (n & ? & ?). exists n. split; [lia|done].
Qed.

Lemma stamp_functional s a b oa ob :
  In a (stamp s) -> In b (stamp s) -> entry_object a = Some oa -> entry_object b = Some ob ->
  ResourceVersion oa = ResourceVersion ob -> oa = ob.
Proof.
  induction s as [|e s IH]; [done|]. cbn [stamp]. intros [<-|Ha] [<-|Hb] Hoa Hob Hv.
  - congruence.
  - destruct (stamp_version (e :: s) (stamp_entry (itoa (Z.of_nat (List.length s))) e) oa) as (m & _ & Hm);
      [by left|done|]. destruct (stamp_version s b ob Hb Hob) as (n & Hn & Hvn).
    assert (Hva : ResourceVersion oa = itoa (Z.of_nat (List.length s)))
      by (destruct e as [x|k [x|]]; cbn in Hoa; [| |done]; by injection Hoa as <-).
    rewrite Hva, Hvn in Hv. apply itoa_inj in Hv. lia.
  - destruct (stamp_version s a oa Ha Hoa) as (n & Hn & Hvn).
    assert (Hvb : ResourceVersion ob = itoa (Z.of_nat (List.length s)))
      by (destruct e as [x|k [x|]]; cbn in Hob; [| |done]; by injection Hob as <-).
    rewrite Hvb, Hvn in Hv. apply itoa_inj in Hv. lia.
  - by apply IH.
Qed.

Definition not_found : error := ENew "not found".
Definition conflict : error := ENew "the object has been modified".

Definition server_Get (k : Key) : M (list (entry J)) (result (CR J)) := fun s =>
  (match current k (stamp s) with
   | Some o => if decide (key_of o = k) then Ok o else Err not_found
   | None => Err not_found
   end, s).

Definition server_Update (o : CR J) : M (list (entry J)) (option error) := fun s =>
  match current (key_of o) (stamp s) with
  | None => (Some not_found, s)
  | Some cur =>
      if String.eqb (ResourceVersion cur) (ResourceVersion o)
      then (None, Own (with_status (default ∅ (cr_Status o)) cur) :: s)
      else (Some conflict, s)
  end.

Definition is_conflict (e : error) : bool := String.eqb (Error e) (Error conflict).

Fixpoint server_Retry (n : nat) (f : M (list (entry J)) (option error))
  : M (list (entry J)) (option error) := fun s =>
  match n, f s with
  | S n, (Some e, s1) => if is_conflict e then server_Retry n f s1 else (Some e, s1)
  | _, r => r
  end.

Definition server : ObjectAPI (list (entry J)) J := {|
  GetObject := server_Get; UpdateStatus := server_Update;
  IsNotFound e := String.eqb (Error e) (Error not_found);
  IsConflict := is_conflict; RetryOnConflict := server_Retry 4 |}.

Lemma server_Retry_attempts n f s :
  attempts server stamp f s (fst (server_Retry n f s)) (snd (server_Retry n f s)).
Proof.
  revert s. induction n as [|n IH]; intros s; cbn [server_Retry]; destruct (f s) as [[e|] s1] eqn:E;
    try (apply att_last; exact E). destruct (is_conflict e) eqn:Ec; [|apply att_last; exact E].
  eapply (att_again _ _ _ _ e s1 [] s1); [done|done|by intros ? []|done|apply IH].
Qed.

#[export] Program Instance server_laws : ObjectLaws server := {| log := stamp |}.
Next Obligation. intros s a b _ Ha Hb oa ob Hoa Hob Hv. exact (stamp_functional s a b oa ob Ha Hb Hoa Hob Hv). Qed.
Next Obligation. intros k s. exists []. split; [by intros ? []|done]. Qed.
Next Obligation.
  intros k s o s'. cbn. unfold server_Get. destruct (current k (stamp s)) as [o'|] eqn:E; [|done].
  destruct (decide (key_of o' = k)) as [Hk|]; [|done]. intros [= <- <-]. split; [done|]. by apply current_In.
Qed.
Next Obligation.
  intros o s s'. cbn. unfold server_Update. destruct (current (key_of o) (stamp s)) as [cur|] eqn:E; [|done].
  destruct (String.eqb_spec (ResourceVersion cur) (ResourceVersion o)) as [Hv|]; [|done]. intros [= <-].
  exists [], cur, (itoa (Z.of_nat (List.length s))). split; [by intros ? []|]. done.
Qed.
Next Obligation.
  intros o s e s'. cbn. unfold server_Update. intros H. exists [].
  assert (s' = s) as ->.
  { destruct (current (key_of o) (stamp s)) as [cur|]; [destruct (String.eqb _ _); [done|]|]; congruence. }
  split; [done|]. left. by intros ? [].
Qed.
Next Obligation. intros f s. apply server_Retry_attempts. Qed.
End Server.

(** * A scheduled drill

    The drill of the scenario, hourly and unsigned, as the object [db/payments]
    created an hour ago. *)

Definition hourly : Cron unit := {|
  ParseStandard s := if String.eqb s "@hourly" then Ok tt else Err (ENew ("cannot parse " +:+ s));
  Next _ t := (t / Hour + 1) * Hour |}.

Definition spec_hourly : Spec :=
  let sp := drill_Spec drill1 in {|
  Schedule := "@hourly"; spec_Objectives := spec_Objectives sp; spec_Source := spec_Source sp;
  spec_Sandbox := spec_Sandbox sp; Spec.Verify := Spec.Verify sp;
  spec_Report := {| Spec.Sign := false; HTML := false; Controls := []; Dir := ""; Sinks := [] |} |}.

Definition marshal1 (_ : unit) : result string := Ok "hourly".
Definition yaml1 (_ : string) : result Spec := Ok spec_hourly.

Definition payments (st : option Status) : CR unit := {|
  cr_Namespace := "db"; cr_Name := "payments"; cr_Generation := 1; cr_Created := T0 - Hour;
  ResourceVersion := ""; cr_Spec := Ok (Some tt); cr_Status := st |}.

Definition k1 : Key := ("db", "payments").

Definition operator1 : Reconciler Ext unit := {|
  rc_Version := "v1"; rc_EvidenceDir := "/ev"; Recorder := None; rc_Now := None |}.

Definition cluster1 : World Ext * list (entry unit) := (world1, [Other k1 (Some (payments None))]).

Abbreviation reconcile1 w := (Reconcile deps1 server hourly marshal1 yaml1 operator1 k1 w).

(** * Statements *)

(** C5: a status written by a reconciliation that says "Verified" is earned: the
    object it read was due at the time it looked, and a run of that object's drill
    ended without an error on a verified record, which is backed by a restore
    within the objectives and by passing checks on the restored data. Whatever
    else the reconciliation writes says something else. *)
Theorem verified_status_is_earned {X S J Sched} {CK : Verify.Clock (World X)} {EC : EvidenceCodec}
  {CR0 : Sign.Crypto} {VC : Sign.EnvelopeCodec} (dp : Deps X) (api : ObjectAPI S J)
  {OL : ObjectLaws api} (cron : Cron Sched) Marshal yaml_Unmarshal r k w :
  exists l, log (snd (snd (Reconcile dp api cron Marshal yaml_Unmarshal r k w))) = l ++ log (snd w) /\
    forall o, In (Own o) l -> status_field o "phase" = Some (VStr "Verified") ->
      exists obj s1 d e path w1,
        GetObject api k (snd w) = (Ok obj, s1) /\ drillFromCR Marshal yaml_Unmarshal obj = Ok d /\
        is_due cron obj (Schedule (drill_Spec d)) (fst (now r (fst w, s1))) /\
        fst (Run dp d (run_options r) w1) = Ran (Some e) path None /\ ev_Verified e = true /\
        earned dp d e.
Proof.
  destruct (Reconcile_writes dp api cron Marshal yaml_Unmarshal r k w) as (l & Hl & Ho).
  exists l. split; [done|]. intros o Hin Hv.
  destruct (Ho o Hin Hv) as (obj & s1 & d & Hg & Hd & Hdue & Hb).
  destruct (Hb Hv) as (e & path & w1 & Hr & He & _). exists obj, s1, d, e, path, w1.
  do 5 (split; [done|]). by eapply verified_earned.
Qed.

Lemma verified_status_is_earned_witness :
  exists o l, log (snd (snd (reconcile1 cluster1))) = Own o :: l /\
    status_field o "phase" = Some (VStr "Verified") /\
    exists d e, In (Own o) (Own o :: l) /\ earned deps1 d e.
Proof.
  destruct (verified_status_is_earned deps1 server hourly marshal1 yaml1 operator1 k1 cluster1)
    as (l & Hl & Ho).
  assert (Hw : match log (snd (snd (reconcile1 cluster1))) with
               | Own o :: _ :: _ => status_field o "phase" = Some (VStr "Verified")
               | _ => False
               end) by (vm_compute; reflexivity).
  destruct l as [|e l].
  - exfalso. revert Hw. rewrite Hl. exact (fun H => H).
  - revert Hw. rewrite Hl. cbn [app]. destruct e as [o|]; [|intros []].
    intros Hw. exists o, (l ++ log (snd cluster1)). split; [reflexivity|].
    assert (Hv : status_field o "phase" = Some (VStr "Verified"))
      by (destruct (l ++ log (snd cluster1)); [destruct Hw|exact Hw]).
    split; [exact Hv|].
    destruct (Ho o (or_introl eq_refl) Hv) as (obj & s1 & d & e & path & w1 & _ & _ & _ & _ & _ & He).
    exists d, e. split; [by left|exact He].
Defined.

(** C19: no update of a status is lost: a patch that reports success wrote its
    fields over the status that was current at that very moment, every other
    field of which survives, whatever other clients wrote between its reads and
    its writes and however often it had to start again. *)
Theorem patchStatus_loses_nothing {S J} (api : ObjectAPI S J) {OL : ObjectLaws api} obj fields s s' :
  patchStatus api obj fields s = (None, s') ->
  exists l cur v, others l /\ current (key_of obj) (l ++ log s) = Some cur /\
    log s' = Own (stored_as v (merged fields cur)) :: l ++ log s /\
    forall k, status_field (merged fields cur) k =
      match fields !! k with Some x => Some x | None => status_field cur k end.
Proof.
  intros H. destruct (patchStatus_ok api obj fields s s' H) as (l & cur & v & Ho & Hc & _ & Hl). exists l, cur, v.
  do 3 (split; [done|]). intros k. unfold status_field. cbn. rewrite lookup_union.
  destruct (fields !! k), (cr_Status cur) as [st|]; cbn; rewrite ?lookup_empty; try done.
  all: by destruct (st !! k).
Qed.

Lemma patchStatus_loses_nothing_witness :
  let s := [Other k1 (Some (payments (Some {["note" := VStr "kept"]})))] in
  exists cur, current k1 (log s) = Some cur /\
    status_field (merged running_fields cur) "note" = Some (VStr "kept").
Proof.
  intros s.
  destruct (patchStatus_loses_nothing server (payments None) running_fields s
    (snd (patchStatus server (payments None) running_fields s)))
    as (l & cur & v & _ & Hc & Hl & Hf); [vm_compute; reflexivity|].
  destruct l as [|e l].
  - exists cur. split; [exact Hc|]. rewrite Hf. vm_compute in Hc. injection Hc as <-. vm_compute. reflexivity.
  - exfalso. apply (f_equal (@List.length _)) in Hl. cbn [List.length app] in Hl.
    rewrite List.length_app in Hl. vm_compute in Hl. destruct l; discriminate Hl.
Defined.

(** C21: a drill is run exactly when it is due. Of an object with a well-formed
    drill, one that is due is handed to the run; one that is not leaves the
    process alone and, when its schedule parses, is looked at again when the
    schedule's next time has come. *)
Theorem Reconcile_runs_when_due {X S J Sched} {CK : Verify.Clock (World X)} {EC : EvidenceCodec}
  {CR0 : Sign.Crypto} {VC : Sign.EnvelopeCodec} (dp : Deps X) (api : ObjectAPI S J)
  (cron : Cron Sched) Marshal yaml_Unmarshal r k w obj s1 d t l1 :
  GetObject api k (snd w) = (Ok obj, s1) -> drillFromCR Marshal yaml_Unmarshal obj = Ok d ->
  now r (fst w, s1) = (t, (l1, s1)) ->
  let rec := Reconcile dp api cron Marshal yaml_Unmarshal r k w in
  (is_due cron obj (Schedule (drill_Spec d)) t ->
   exists l2, rec = run_drill dp api cron r obj d (l2, s1)) /\
  (~ is_due cron obj (Schedule (drill_Spec d)) t ->
   exists after, fst rec = Requeue after None /\ fst (snd rec) = l1 /\
     forall sched, Schedule (drill_Spec d) <> "" ->
       ParseStandard cron (Schedule (drill_Spec d)) = Ok sched ->
       snd (snd rec) = s1 /\
       after = Sub (Next cron sched (if IsZero (lastRun obj) then cr_Created obj else lastRun obj)) t).
Proof.
  intros Hg Hd Hn rec. pose proof (Reconcile_due dp api cron Marshal yaml_Unmarshal r k w obj s1 d Hg Hd)
    as Hr. rewrite Hn in Hr. subst rec. rewrite Hr. rewrite due_runs. split.
  - intros [missed ->]. destruct missed as [text|]; [|by exists l1].
    pose proof (event_server r obj ("Warning", "MissedSchedule", text) (l1, s1)) as He.
    destruct (event r obj _ (l1, s1)) as [u [l2 s2]]. cbn in He. subst s2. by exists l2.
  - unfold due. destruct (is_empty (Schedule (drill_Spec d))) eqn:Ee.
    + intros Hno. destruct (_ && _); [|by destruct Hno; eexists]. exists 0. do 2 (split; [done|]).
      intros sched Hs. by destruct (Schedule (drill_Spec d)).
    + destruct (ParseStandard cron _) as [sched|e] eqn:Ep; cbv zeta.
      * destruct (Before t _); [|by intros []; destruct (_ && _); eexists]. intros _.
        eexists. do 2 (split; [done|]). by intros sched' _ [= <-].
      * intros _. exists 0. split; [done|]. split; [|done]. unfold remote.
        by destruct (patchStatus _ _ _ _).
Qed.

Lemma Reconcile_runs_when_due_witness :
  is_due hourly (stored_as "0" (payments None)) "@hourly" T0 /\
  exists l2 s2, reconcile1 cluster1 =
    run_drill deps1 server hourly operator1 (stored_as "0" (payments None))
      (drill_of "payments" spec_hourly) (l2, s2).
Proof.
  assert (Hdue : is_due hourly (stored_as "0" (payments None)) "@hourly" T0).
  { apply (due_scheduled hourly (stored_as "0" (payments None)) "@hourly" T0 tt); [discriminate|reflexivity|].
    vm_compute. discriminate. }
  split; [exact Hdue|].
  destruct (Reconcile_runs_when_due deps1 server hourly marshal1 yaml1 operator1 k1 cluster1
    (stored_as "0" (payments None)) (snd cluster1) (drill_of "payments" spec_hourly) T0
    (snd (Verify.Now world1))) as [Hrun _];
    [vm_compute; reflexivity|vm_compute; reflexivity|vm_compute; reflexivity|].
  destruct (Hrun Hdue) as [l2 H]. exists l2, (snd cluster1). exact H.
Defined.

(** C20: a run is put on record. When a reconciliation of a due drill ends
    without an error, the drill was run from the very state the reconciliation
    had reached (an event about a missed window apart), and at the last patch the
    server's object says when the run ended, which is what the clock reads in the
    state the run left, and how: "Verified" exactly when the run ended without
    an error on a verified record, "Error" exactly when it ended in an error, with
    the error as the message, and "Failed" otherwise; after an execution error the
    object is looked at again in five minutes. *)
Theorem run_is_recorded {X S J Sched} {CK : Verify.Clock (World X)} {EC : EvidenceCodec}
  {CR0 : Sign.Crypto} {VC : Sign.EnvelopeCodec} (dp : Deps X) (api : ObjectAPI S J)
  {OL : ObjectLaws api} (cron : Cron Sched) Marshal yaml_Unmarshal r k w obj s1 d t l1 after w' :
  GetObject api k (snd w) = (Ok obj, s1) -> drillFromCR Marshal yaml_Unmarshal obj = Ok d ->
  now r (fst w, s1) = (t, (l1, s1)) -> is_due cron obj (Schedule (drill_Spec d)) t ->
  Reconcile dp api cron Marshal yaml_Unmarshal r k w = (Requeue after None, w') ->
  exists l l2 e path err ended w3 o phase,
    (l = l1 \/ exists text,
      l = fst (snd (event r obj ("Warning", "MissedSchedule", text) (l1, s1)))) /\
    Run dp d (run_options r) l = (Ran e path err, l2) /\
    now r (l2, snd (patchStatus api obj running_fields s1)) = (ended, w3) /\
    current k (log (snd w')) = Some o /\
    status_field o "lastRunTime" = Some (VStr (fmt_RFC3339 ended)) /\
    status_field o "phase" = Some (VStr phase) /\
    (phase = "Verified" <-> err = None /\ exists e0, e = Some e0 /\ ev_Verified e0 = true) /\
    (phase = "Failed" <-> err = None /\ exists e0, e = Some e0 /\ ev_Verified e0 = false) /\
    (forall er, err = Some er -> phase = "Error" /\
      status_field o "message" = Some (VStr (Error er)) /\ after = 5 * Minute).
Proof.
  intros Hg Hd Hn Hdue Hr.
  pose proof (Reconcile_due dp api cron Marshal yaml_Unmarshal r k w obj s1 d Hg Hd) as Hrd.
  rewrite Hn in Hrd. apply due_runs in Hdue as [missed Hdue]. rewrite Hdue in Hrd.
  assert (Hw : exists l,
    (l = l1 \/ exists text,
      l = fst (snd (event r obj ("Warning", "MissedSchedule", text) (l1, s1)))) /\
    run_drill dp api cron r obj d (l, s1) = (Requeue after None, w')).
  { destruct missed as [text|]; rewrite Hrd in Hr; [|exists l1; auto].
    pose proof (event_server r obj ("Warning", "MissedSchedule", text) (l1, s1)) as He.
    exists (fst (snd (event r obj ("Warning", "MissedSchedule", text) (l1, s1)))).
    split; [eauto|]. destruct (event r obj _ (l1, s1)) as [u [lx sx]]. cbn in He. by subst sx. }
  destruct Hw as (l & Hl & Hw). destruct (run_drill_recorded dp api cron r obj d (l, s1) after w' Hw)
    as (e & path & err & l2 & ended & w3 & st & ev & cur & v & Hrun & Hnow & Hst & _ & Hcur & Ha).
  destruct (run_status_phase _ _ _ _ _ _ Hst) as (phase & Hp & Hv & Hf & He & Ht).
  destruct (Get_returns _ _ _ _ Hg) as [Hk _]. rewrite Hk in Hcur.
  exists l, l2, e, path, err, ended, w3, (stored_as v (merged st cur)), phase.
  split; [done|]. split; [done|]. split; [done|]. split; [done|].
  split; [by apply field_merge|]. split; [by apply field_merge|]. split; [done|]. split; [done|].
  intros er ->. destruct (He er eq_refl) as [-> Hm]. split; [done|].
  split; [by apply field_merge|by apply Ha].
Qed.

Lemma run_is_recorded_witness :
  exists o phase, current k1 (log (snd (snd (reconcile1 cluster1)))) = Some o /\
    status_field o "phase" = Some (VStr phase).
Proof.
  destruct (run_is_recorded deps1 server hourly marshal1 yaml1 operator1 k1 cluster1
    (stored_as "0" (payments None)) (snd cluster1) (drill_of "payments" spec_hourly) T0
    (snd (Verify.Now world1)) (46 * Minute + 28 * Second) (snd (reconcile1 cluster1)))
    as (l & l2 & e & path & err & ended & w3 & o & phase & _ & _ & _ & Hc & _ & Hp & _).
  - vm_compute. reflexivity.
  - vm_compute. reflexivity.
  - vm_compute. reflexivity.
  - apply (due_scheduled hourly (stored_as "0" (payments None)) _ T0 tt);
      [discriminate|reflexivity|vm_compute; discriminate].
  - vm_compute. reflexivity.
  - exists o, phase. split; [exact Hc|exact Hp].
Defined.

(** C22: one run per window: once a run that ended with a verdict is recorded in
    the status, no reconciliation runs the drill again in the same window,
    whether the verdict was good or bad. With a schedule, each one before the
    schedule's next time after that run asks to be called at that time; without
    one, each one of the same generation is content for good. Either way it reads
    the object and the clock and changes nothing. *)
Theorem one_run_per_window {X S J Sched} {CK : Verify.Clock (World X)} {EC : EvidenceCodec}
  {CR0 : Sign.Crypto} {VC : Sign.EnvelopeCodec} (dp : Deps X) (api : ObjectAPI S J)
  (cron : Cron Sched) Marshal yaml_Unmarshal r k w (obj : CR J) finished e st ev
  (obj' : CR J) s1 d t w1 :
  run_status obj finished (Some e) None = Some (st, ev) -> four_digit_year finished ->
  Unix finished * Second <> zero_time ->
  GetObject api k (snd w) = (Ok obj', s1) ->
  status_field obj' "lastRunTime" = st !! "lastRunTime" ->
  status_field obj' "observedGeneration" = st !! "observedGeneration" ->
  drillFromCR Marshal yaml_Unmarshal obj' = Ok d ->
  now r (fst w, s1) = (t, w1) ->
  let rec := Reconcile dp api cron Marshal yaml_Unmarshal r k w in
  (forall sched, Schedule (drill_Spec d) <> "" ->
    ParseStandard cron (Schedule (drill_Spec d)) = Ok sched ->
    t < Next cron sched (Unix finished * Second) ->
    rec = (Requeue (Sub (Next cron sched (Unix finished * Second)) t) None, w1)) /\
  (Schedule (drill_Spec d) = "" -> cr_Generation obj' = cr_Generation obj ->
    rec = (Requeue 0 None, w1)).
Proof.
  intros Hst Hy Hz Hg Hl Hgen Hd Hn rec.
  pose proof (Reconcile_due dp api cron Marshal yaml_Unmarshal r k w obj' s1 d Hg Hd) as Hr.
  rewrite Hn in Hr. subst rec. rewrite Hr. split.
  - intros sched Hs Hp Ht.
    by rewrite (recorded_run_waits cron obj obj' _ sched finished (Some e) None st ev t).
  - intros -> Hsame. by rewrite (verdict_settles_generation cron obj obj' finished e st ev t).
Qed.

(** The hour's run ended with a verdict, and its status was recorded. *)
Definition verdict1 : Evidence := record "payments" T0 true.

Definition verdict_status : Status :=
  match run_status (payments None) T0 (Some verdict1) None with
  | Some (st, _) => st
  | None => ∅
  end.

(** Five minutes later. *)
Definition later_cluster (st : Status) : World Ext * list (entry unit) :=
  ({| w_tmp := ∅; w_disk := ∅; w_ext := {| clock := T0 + 5 * Minute; up := false; terminal := "" |} |},
   [Other k1 (Some (payments (Some st)))]).

Lemma payments_decodes sp (o : CR unit) :
  Validate (drill_of "payments" sp) = None -> cr_Name o = "payments" -> cr_Spec o = Ok (Some tt) ->
  drillFromCR marshal1 (fun _ => Ok sp) o = Ok (drill_of "payments" sp).
Proof. intros Hv Hn Hs. unfold drillFromCR. rewrite Hs, Hn. cbn. by rewrite Hv. Qed.

Lemma one_run_per_window_witness :
  fst (reconcile1 (later_cluster verdict_status)) = Requeue (41 * Minute + 40 * Second) None.
Proof.
  destruct (one_run_per_window deps1 server hourly marshal1 yaml1 operator1 k1
    (later_cluster verdict_status) (payments None) T0 verdict1 verdict_status
    ("Normal", "DrillVerified", verified_text verdict1)
    (stored_as "0" (payments (Some verdict_status))) (snd (later_cluster verdict_status))
    (drill_of "payments" spec_hourly) (T0 + 5 * Minute)
    (snd (Verify.Now (fst (later_cluster verdict_status))), snd (later_cluster verdict_status)))
    as [H _].
  - vm_compute. reflexivity.
  - vm_compute. split; discriminate.
  - discriminate.
  - reflexivity.
  - reflexivity.
  - reflexivity.
  - apply payments_decodes; [vm_compute; reflexivity|reflexivity|reflexivity].
  - reflexivity.
  - refine (eq_trans (f_equal fst (H tt _ _ _)) _); [discriminate|reflexivity..].
Defined.

(** A scheduled drill whose run ended in an execution error is recorded with its
    end all the same, so the retry that its reconciliation asked for in five
    minutes finds nothing due: it only waits for the schedule's next time. *)
Theorem errored_run_is_not_retried {X S J Sched} {CK : Verify.Clock (World X)} {EC : EvidenceCodec}
  {CR0 : Sign.Crypto} {VC : Sign.EnvelopeCodec} (dp : Deps X) (api : ObjectAPI S J)
  (cron : Cron Sched) Marshal yaml_Unmarshal r k w (obj : CR J) finished e er st ev
  (obj' : CR J) s1 d sched t w1 :
  run_status obj finished e (Some er) = Some (st, ev) -> four_digit_year finished ->
  Unix finished * Second <> zero_time ->
  GetObject api k (snd w) = (Ok obj', s1) ->
  status_field obj' "lastRunTime" = st !! "lastRunTime" ->
  drillFromCR Marshal yaml_Unmarshal obj' = Ok d ->
  Schedule (drill_Spec d) <> "" -> ParseStandard cron (Schedule (drill_Spec d)) = Ok sched ->
  now r (fst w, s1) = (t, w1) -> t < Next cron sched (Unix finished * Second) ->
  Reconcile dp api cron Marshal yaml_Unmarshal r k w =
    (Requeue (Sub (Next cron sched (Unix finished * Second)) t) None, w1).
Proof.
  intros Hst Hy Hz Hg Hl Hd Hs Hp Hn Ht.
  pose proof (Reconcile_due dp api cron Marshal yaml_Unmarshal r k w obj' s1 d Hg Hd) as Hr.
  rewrite Hn in Hr. rewrite Hr.
  by rewrite (recorded_run_waits cron obj obj' _ sched finished e (Some er) st ev t).
Qed.
