(* ===== verification/PropsSystem.v ===== *)
(** The properties of whole drills, composed from the parts: the drill, the real
    drivers, the sandbox provider and the store it writes to. *)

From Stdlib Require Import ZArith Lia Ascii String.
From stdpp Require Import base option list gmap strings.
From S2P Require Import Prelude GoStrings Calendar Rfc3339 Spec Disk Evidence World Interfaces Keeps Restoring Lifecycle Docker DockerFacts Drill DrillKeeps Tenancy System OwnerTenancy DockerTenancy KubernetesTenancy VeleroTenancy Feeding Fleet Crash Instances Scenario Fakes.
From S2P Require Cli Gc GcFacts Program Verify Source SourceFacts Sign Cluster Kubernetes KubernetesFacts Velero VeleroFacts.

(** C2: a verified record of a sandbox drill vouches for the stored artifact it
    names. The artifact was opened (or its object downloaded through the transfer
    cap), both layers the record names were removed, and a command of the
    provisioned sandbox read the result on its standard input and exited 0: all of
    the decoded plaintext, from a stream that ended without error, or the artifact
    itself in place when it has no layer. *)
Theorem verified_drill_restored_the_artifact {X V} {TN : Tenancy X V (SandboxI X)}
  (prov : Config (World X) -> M X (result (SandboxI X))) {PV : SandboxProvider prov}
  {CK : Verify.Clock (World X)} {EC : EvidenceCodec} {CR : Sign.Crypto} {VC : Sign.EnvelopeCodec}
  (dp : Deps X) (o : Options X) (seek : M X (option error)) d w e path err w' (v : V) :
  registry dp = drivers (FS := World_Files (os dp) seek) ->
  SourceFacts.fresh_temp (os dp) ->
  (forall P, during P -> keeps P seek) ->
  (forall P t, during P -> CalmEnv dp o (around t P)) ->
  (forall drv, provision dp d drv = lift_provision prov (sandbox_config d drv)) ->
  src_Driver (spec_Source (drill_Spec d)) <> "velero" ->
  let from := src_From (spec_Source (drill_Spec d)) in
  Source.uncompressedLimit (MaxBytes from) (MaxUncompressedBytes from) < MaxInt64 ->
  left v (w_ext w) ->
  Run dp d o w = (Ran (Some e) path err, w') -> ev_Verified e = true ->
  exists uri raw r rd drv sb cmd out x0 x1,
    bk_ResolvedURI (ev_Backup e) = (if String.eqb uri (URI from) then "" else uri) /\
    artifact (os dp) (connect dp) from uri raw /\
    Source.unwrap (codecs dp) (os dp) uri raw (from_Decrypt from) =
      Ok (r, bk_Encryption (ev_Backup e), bk_Compression (ev_Backup e)) /\
    fst (prov (sandbox_config d drv) x0) = Ok sb /\
    held sb v x1 /\ fst (Interfaces.Exec sb cmd (Some rd) x1) = (0, out, None) /\
    (Source.rerr r = None /\ rd = Source.string_reader (Source.contents r) \/
     bk_Encryption (ev_Backup e) = "" /\ bk_Compression (ev_Backup e) = "" /\
     (w_tmp w !! uri = None -> rd = raw)).
Proof.
  intros Hreg Htemp Hseek Henv Hp Hd from Hlim Hl H Hv.
  destruct (Run_feeds prov dp o seek Hreg Hseek Henv d v w e path err w' Hp Hd H Hv Hl)
    as (b & fs & Hf & (age & Hbk) & rd & drv & sb & cmd & out & x0 & x1 & Ho & Hsb & Hh & He).
  destruct (Fetch_plaintext _ _ _ _ _ _ _ Htemp Hlim Hf) as (raw & r & Hart & Hu & Hc).
  exists (Source.ResolvedURI b), raw, r, rd, drv, sb, cmd, out, x0, x1. rewrite Hbk. cbn.
  repeat (split; [done|]). unfold opened in Ho.
  destruct Hc as [(H1 & H2 & H3 & H4 & ->)|(H1 & ->)]; [right|left].
  - split; [done|]. split; [done|]. intros Hn. rewrite H3, Hn in Ho. rewrite H3 in H4. congruence.
  - split; [done|]. rewrite lookup_insert_eq in Ho. by injection Ho.
Qed.

Section DockerDrills.
Context {D : Type} {CD : Verify.Clock D} (api : DockerAPI D) {DL : DockerLaws api}.
Abbreviation St := (Proc Docker.Sandbox D).
#[local] Instance Own_api : Owner Docker.Sandbox D := Docker_Owner api.
Context {CK : Verify.Clock (World St)} {EC : EvidenceCodec} {CR : Sign.Crypto}
  {VC : Sign.EnvelopeCodec} (dp : Deps St) (o : Options St) (seek : M St (option error)).

(** C7: a Docker drill leaves nothing behind, whatever its outcome. With the
    program's own drivers and Docker provider, the temporary files at the end are
    those at the start, and so are the daemon's containers and networks: always
    when the daemon's removals work, and in any case when the record says that
    the sandbox was destroyed (which it says when removals work). The clock, the
    database handle, the terminal and the sinks only have to leave resources
    alone; a TTL watchdog may fire in the middle of any of their calls. *)
Theorem docker_drill_leaves_nothing d w out w' :
  registry dp = drivers (FS := World_Files (os dp) seek) ->
  docker_Provision dp = lift_provision (docker_provider api) ->
  SourceFacts.fresh_temp (os dp) ->
  (forall P, during P -> keeps P seek) ->
  (forall P t, during P -> CalmEnv dp o (around t P)) ->
  Provider (spec_Sandbox (drill_Spec d)) = "docker" ->
  src_Driver (spec_Source (drill_Spec d)) <> "velero" ->
  (forall q, spent q (w_ext w)) ->
  Run dp d o w = (out, w') ->
  let same := resources (ext (w_ext w')) = resources (ext (w_ext w)) in
  w_tmp w' = w_tmp w /\ (removals_work api -> same) /\
  forall e path err, out = Ran (Some e) path err ->
    (sbx_Destroyed (ev_Sandbox e) = true -> same) /\
    (removals_work api -> sbx_Destroyed (ev_Sandbox e) = true).
Proof.
  intros Hreg Hprov Htemp Hseek Henv Hp Hd Hsp H same.
  destruct (sandbox_Run_tidy (docker_provider api) dp o seek Hreg Htemp Hseek Henv d
    (resources (ext (w_ext w))) w out w') as (Ht & Hl & He); [|done|done|by split|].
  - intros drv. unfold provision. rewrite Hp, Hprov. done.
  - split; [done|]. split; [intros Hk; apply (Hl Hk)|].
    intros e path err He0. destruct (He e path err He0) as [H1 H2].
    split; [intros Hd1; apply (H1 Hd1)|done].
Qed.
End DockerDrills.

(** ** Interrupted commands

    The daemon behind a process that may be interrupted: requests made under the
    command's context fail from the moment of the cancellation on, counted in
    requests; with [lost], the one in flight is carried out and its answer lost. *)
Section DockerCommands.
Context {D : Type} {CD : Verify.Clock D} (api : DockerAPI D) {DL : DockerLaws api}
  {LG : Ledger api} (lost : bool).
Abbreviation St := (Proc Docker.Sandbox (option nat * D)).
Abbreviation api' := (interruptible api lost).
#[local] Instance Own_run : Owner Docker.Sandbox (option nat * D) := Docker_Owner (interruptible api false).
Context {CK : Verify.Clock (World St)} {EC : EvidenceCodec} {CR : Sign.Crypto}
  {VC : Sign.EnvelopeCodec} {SS : SliceSort}.

(** The daemon behind a world whose process counts its requests. *)
Definition daemon_of {N} (w : World (Proc Docker.Sandbox (N * D))) : D := snd (ext (w_ext w)).

(** The world in which the context is cancelled [k] requests from now. *)
Definition cut (k : nat) (w : World St) : World St := {|
  w_tmp := w_tmp w; w_disk := w_disk w;
  w_ext := {| heap := heap (w_ext w); ext := (Some k, daemon_of w) |} |}.

Context (dp : Deps St) (stdout : string -> M St unit) (color : bool) (version : string)
  (fl : Cli.RunFlags) (seek : M St (option error))
  (spec_file : string -> result (list (result Spec.Drill))).

(** The drills of the file are to run in Docker. *)
Definition docker_file : Prop :=
  forall drills, LoadAll (spec_file (Cli.run_File fl)) = Ok drills ->
    Forall (fun d => Provider (spec_Sandbox (drill_Spec d)) = "docker" /\
                     src_Driver (spec_Source (drill_Spec d)) <> "velero") drills.

Abbreviation opts := (Cli.run_options stdout color version fl).
Abbreviation run := (Cli.run_cmd dp stdout color version spec_file fl).

Lemma run_cmd_marked d0 args :
  registry dp = drivers (FS := World_Files (os dp) seek) ->
  docker_Provision dp = lift_provision (docker_provider api') ->
  (forall ttl, keeps (marks api' ttl d0) seek /\ CalmEnv dp opts (marked api' ttl d0)) ->
  docker_file -> keeps (marked api' 0 d0) (run args).
Proof.
  intros Hreg Hprov Henv Hfile. destruct (Henv 0) as [_ H0]. apply run_cmd_keeps.
  { intros s. exact (calm_print dp opts _ (CalmEnv := H0) stdout color s eq_refl). }
  intros drills Hl. specialize (Hfile drills Hl). eapply Forall_impl; [exact Hfile|].
  intros d [Hd Hv] w Hw. set (ttl := TTL (spec_Sandbox (drill_Spec d))).
  destruct (Henv ttl) as [Hseek HE]. apply (traces_any api' ttl 0).
  apply (Run_marked api' dp opts seek ttl d0 d Hreg Hprov Hseek HE Hd Hv eq_refl).
  by apply (traces_any api' 0 ttl).
Qed.
End DockerCommands.

Section InterruptedCommands.
Context {D : Type} {CD : Verify.Clock D} (api : DockerAPI D) {DL : DockerLaws api}
  {LG : Ledger api}.
Abbreviation St := (Proc Docker.Sandbox (option nat * D)).
#[local] Instance Own_cut : Owner Docker.Sandbox (option nat * D) := Docker_Owner (interruptible api false).
Context {CK : Verify.Clock (World St)} {EC : EvidenceCodec} {CR : Sign.Crypto}
  {VC : Sign.EnvelopeCodec} {SS : SliceSort}.

(** C8: an interrupt does not cost the teardown. Whatever [firedrill run] is asked
    to do with drills in Docker (one of them, all of them, a dry run, bad
    arguments) and whenever a signal arrives, a process that got at most one ends
    with its command's own exit code; once its goroutine listens for a second
    signal the command's context is cancelled, so that from some request on every
    request the command makes under it fails. The teardown runs under a context
    of its own: when the daemon's removals work, the temporary files, containers
    and networks at the end are those at the start, wherever the cancellation
    falls between two requests. When it falls on a request in flight, whose answer
    is lost though the daemon carries it out, whatever is there besides carries
    the label and a lease, or the name, by which garbage collection finds it. Only
    a second signal, which the message on stderr announces as a force quit, can
    end the process earlier. *)
Theorem interrupted_run_leaves_nothing {J} (lost : bool) (dp : Deps St) stdout tty version spec_file
  gate_json controls_json templates schema generated pkix sweep_docker sweep_k8s
  (fw : Program.Framework St J (World St)) parse usage argv fl noColor args seek w
  (p : Program.Process (X := St) (C := nat)) :
  let main := Program.ExecuteContext dp stdout tty version spec_file gate_json controls_json
    templates schema generated pkix sweep_docker sweep_k8s fw parse usage in
  let o := Cli.run_options stdout (negb noColor && tty) version fl in
  let api' := interruptible api lost in
  parse Program.commands argv = Ok (Program.Run fl noColor, args) ->
  registry dp = drivers (FS := World_Files (os dp) seek) ->
  docker_Provision dp = lift_provision (docker_provider api') ->
  SourceFacts.fresh_temp (os dp) ->
  (lost = false -> (forall P, during P -> keeps P seek) /\
                   (forall P t, during P -> CalmEnv dp o (around t P))) ->
  (forall ttl, keeps (marks api' ttl (ext (w_ext w))) seek /\
               CalmEnv dp o (marked api' ttl (ext (w_ext w)))) ->
  removals_work api -> docker_file fl spec_file ->
  (forall q, spent q (w_ext w)) ->
  Program.reachable dp stdout tty version spec_file gate_json controls_json templates schema
    generated pkix sweep_docker sweep_k8s fw parse usage cut argv w p ->
  Program.process p <> Program.Running -> (Program.arrived p <= 1)%nat ->
  exists r w', Program.process p = Program.Ended (Cli.exit_code r) w' /\
    main argv (match Program.cancelled p with Some k => cut k w | None => w end) = (r, w') /\
    (Program.goroutine p = Program.Listening -> Program.cancelled p <> None) /\
    (lost = false -> w_tmp w' = w_tmp w /\ resources (daemon_of w') = resources (daemon_of w)) /\
    (forall id l, ctrs (daemon_of w') !! id = Some l -> ctrs (daemon_of w) !! id = Some l \/
       Gc.label l "firedrill" = "sandbox" /\ exists t, Gc.label l Gc.ExpiresAtLabel = fmt_RFC3339 t) /\
    (forall id n, nets (daemon_of w') !! id = Some n -> nets (daemon_of w) !! id = Some n \/
       HasPrefix n "firedrill-" = true).
Proof.
  intros main o api' Hparse Hreg Hprov Htemp Hcalm Hmarks Hk Hfile Hsp Hreach Hend H1.
  destruct (Program.one_signal_ends _ _ _ _ _ _ _ _ _ _ _ _ _ _ _ _ _ _ _ _ Hreach H1 Hend)
    as (r & w' & Hx & Hp & Hl). exists r, w'. split; [exact Hp|]. split; [exact Hx|]. split; [exact Hl|].
  set (w0 := Program.seen_by cut (Program.cancelled p) w) in *.
  assert (Hw0 : w_tmp w0 = w_tmp w /\ heap (w_ext w0) = heap (w_ext w) /\ daemon_of w0 = daemon_of w)
    by (subst w0; unfold Program.seen_by; by destruct (Program.cancelled p)).
  clearbody w0. destruct Hw0 as (Et & Eh & Ed).
  unfold Program.ExecuteContext in Hx. rewrite Hparse in Hx.
  assert (Hrun : forall P, keeps P (Cli.run_cmd dp stdout (negb noColor && tty) version spec_file fl args) ->
    P w0 -> P w').
  { intros P HP HP0. destruct (Program.takes _ _); [|by injection Hx as _ <-].
    exact (keeps_run P _ _ _ _ HP Hx HP0). }
  split.
  - intros ->. destruct (Hcalm eq_refl) as [Hseek Henv].
    assert (H : empty_again (w_tmp w) (resources (daemon_of w)) w');
      [|by destruct H as (-> & Hr & _)].
    apply Hrun.
    + eapply (run_cmd_empty (docker_provider api')); [exact Hreg|exact Htemp|exact Hseek|exact Henv|
        by apply interruptible_removals|].
      intros drills Hd. specialize (Hfile drills Hd). eapply Forall_impl; [exact Hfile|].
      intros d [Hd' Hv]. split; [|exact Hv]. intros drv. unfold provision. by rewrite Hd', Hprov.
    + split; [done|]. split; [by rewrite <- Ed|]. intros q. eapply spent_load; [|apply Hsp].
      unfold load. by rewrite Eh.
  - assert (H : marked api' 0 (ext (w_ext w)) w').
    { apply Hrun; [by apply (run_cmd_marked api lost dp stdout _ version fl seek spec_file)|].
      unfold marked, marks, traces. cbn. unfold daemon_of in Ed. rewrite Ed. auto. }
    destruct H as [Hc Hn]. split; [|exact Hn]. intros id l Hid. destruct (Hc id l Hid) as [?|(? & t & ?)]; [by left|].
    right. split; [done|]. by eexists.
Qed.
End InterruptedCommands.

(** A drill whose process is killed: the daemon hears as many of its requests as
    the first component of its state says, and then no more. *)
Section KilledDrills.
Context {D : Type} {CD : Verify.Clock D} (api : DockerAPI D) {LG : Ledger api}.
Abbreviation St := (Proc Docker.Sandbox (nat * D)).
Context {CK : Verify.Clock (World St)} {EC : EvidenceCodec} {CR : Sign.Crypto}
  {VC : Sign.EnvelopeCodec} (dp : Deps St) (o : Options St) (seek : M St (option error)).

(** C9: a process killed in the middle of a Docker drill, at whatever request, is
    cleaned up after. From the moment it exists, even when the answer to its
    creation was lost, each container it made carries the label and the lease of
    its TTL, and each network the name, by which a sweep finds them; so a [gc]
    sweep that ends without an error, once the leases on the daemon are over and
    its networks older than --older-than, leaves nothing that came since the
    drill began. *)
Theorem killed_drill_is_collected d w out w' :
  let ttl := TTL (spec_Sandbox (drill_Spec d)) in
  registry dp = drivers (FS := World_Files (os dp) seek) ->
  docker_Provision dp = lift_provision (docker_provider (dying api)) ->
  keeps (marks (dying api) ttl (ext (w_ext w))) seek ->
  CalmEnv dp o (marked (dying api) ttl (ext (w_ext w))) ->
  Provider (spec_Sandbox (drill_Spec d)) = "docker" ->
  src_Driver (spec_Source (drill_Spec d)) <> "velero" ->
  Run dp d o w = (out, w') ->
  traces api ttl (daemon_of w) (daemon_of w') /\
  forall later go res d',
    ctrs later = ctrs (daemon_of w') -> nets later = nets (daemon_of w') ->
    (forall id d, fst (ContainerRemove api Inherited id d) = None) ->
    (forall id d, fst (NetworkRemove api Inherited id d) = None) ->
    Gc.DryRun go = false -> Gc.Force go = false ->
    Gc.SweepDocker api go later = ((Some res, None), d') ->
    let now := fst (Verify.Now (GcFacts.sweep_start api later)) in
    (forall id l, ctrs later !! id = Some l -> Gc.label l "firedrill" = "sandbox" -> over now l) ->
    (forall nw, In nw (networks_seen api go later) -> Gc.OlderThan go < Sub now (n_Created nw)) ->
    ctrs d' ⊆ ctrs (daemon_of w) /\ nets d' ⊆ nets (daemon_of w).
Proof.
  intros ttl Hreg Hprov Hseek HE Hp Hd H.
  assert (Ht : traces api ttl (daemon_of w) (daemon_of w')).
  { change (marked (dying api) ttl (ext (w_ext w)) w').
    eapply (keeps_run (marked (dying api) ttl (ext (w_ext w)))); [|exact H|apply traces_refl].
    by eapply (Run_marked (dying api)). }
  split; [exact Ht|]. intros later go res d' Hc Hn HC HN Hdry Hf Hs now Hover Hold.
  apply (SweepDocker_collects api go HC HN Hdry ttl (daemon_of w) later res d'); [|done..].
  unfold traces. by rewrite Hc, Hn.
Qed.
End KilledDrills.

Section PodDrills.
Context {D : Type} {CD : Verify.Clock D} (api : Cluster.ClusterAPI D)
  {KL : KubernetesFacts.ClusterLaws api}.
Abbreviation St := (Proc Kubernetes.Sandbox D).
#[local] Instance Own_pod : Owner Kubernetes.Sandbox D := Kubernetes.Pod_Owner api.
Context {CK : Verify.Clock (World St)} {EC : EvidenceCodec} {CR : Sign.Crypto}
  {VC : Sign.EnvelopeCodec} (dp : Deps St) (o : Options St) (seek : M St (option error)).

(** C10: a drill in a Kubernetes pod leaves nothing behind, whatever its outcome:
    the temporary files at the end are those at the start, and no pod exists that
    did not before, always when the API server's deletions work (a pod that is
    gone already counts as deleted), and in any case when the record says that
    the sandbox was destroyed (which it says when deletions work). *)
Theorem pod_drill_leaves_nothing d w out w' :
  registry dp = drivers (FS := World_Files (os dp) seek) ->
  k8s_Provision dp = lift_provision (k8s_provider api) ->
  SourceFacts.fresh_temp (os dp) ->
  (forall P, during P -> keeps P seek) ->
  (forall P t, during P -> CalmEnv dp o (around t P)) ->
  Provider (spec_Sandbox (drill_Spec d)) = "kubernetes" ->
  src_Driver (spec_Source (drill_Spec d)) <> "velero" ->
  (forall q, spent q (w_ext w)) ->
  Run dp d o w = (out, w') ->
  let none := KubernetesFacts.pods (ext (w_ext w')) ⊆ KubernetesFacts.pods (ext (w_ext w)) in
  w_tmp w' = w_tmp w /\ (KubernetesFacts.deletions_work api -> none) /\
  forall e path err, out = Ran (Some e) path err ->
    (sbx_Destroyed (ev_Sandbox e) = true -> none) /\
    (KubernetesFacts.deletions_work api -> sbx_Destroyed (ev_Sandbox e) = true).
Proof.
  intros Hreg Hprov Htemp Hseek Henv Hp Hd Hsp H none.
  destruct (sandbox_Run_tidy (k8s_provider api) dp o seek Hreg Htemp Hseek Henv d
    (KubernetesFacts.pods (ext (w_ext w))) w out w') as (Ht & Hl & He); [|done|done|split; [cbn; set_solver|done]|].
  - intros drv. unfold provision. rewrite Hp, Hprov. done.
  - split; [done|]. split; [intros Hk; apply (Hl Hk)|].
    intros e path err He0. destruct (He e path err He0) as [H1 H2].
    split; [intros Hd1; apply (H1 Hd1)|done].
Qed.
End PodDrills.

Section VeleroDrills.
Context {D : Type} {CD : Verify.Clock D} (api : Cluster.ClusterAPI D)
  {KL : KubernetesFacts.ClusterLaws api} {VL : VeleroFacts.VeleroLaws api}.
Abbreviation St := (Proc Velero.Drill D).
#[local] Instance Own_space : Owner Velero.Drill D := Velero.Namespace_Owner api.
Context {CK : Verify.Clock (World St)} {EC : EvidenceCodec} {CR : Sign.Crypto}
  {VC : Sign.EnvelopeCodec} (dp : Deps St) (o : Options St) (clients : Verify.K8sClient St).
#[local] Instance TN_space : Tenancy St (gset string) (VeleroDrill St) := velero_tenancy api clients.

(** C11: a Velero drill leaves no namespace behind, whatever its outcome: at the
    end no namespace is up that was not at the start, so that every other one a
    listing shows is [Terminating], with its deletion accepted and the rest left
    to the API server. Always when the API server accepts deletions, and in any
    case when the record says that the ephemeral namespace was destroyed. Where
    the restore fails, times out or a check fails makes no difference, nor does a
    watchdog that fires meanwhile. *)
Theorem velero_drill_leaves_nothing d w out w' :
  (forall n b s ttl, velero_Prepare dp n b s ttl = lift_prepare (velero_provider api clients) n b s ttl) ->
  (forall P ns, during P -> keeps P (Verify.list_pods clients ns)) ->
  (forall P r ns, during P -> keeps P (Verify.list_len clients r ns)) ->
  (forall P t, during P -> CalmEnv dp o (around t P)) ->
  src_Driver (spec_Source (drill_Spec d)) = "velero" ->
  (forall q, spent q (w_ext w)) ->
  Run dp d o w = (out, w') ->
  let before := KubernetesFacts.spaces (ext (w_ext w)) in
  let none := (KubernetesFacts.spaces (ext (w_ext w')) ⊆ before) /\
    (forall sel l d', Cluster.ListNamespaces api sel (ext (w_ext w')) = (Ok l, d') ->
      forall m, In m l -> Cluster.ns_Name m ∈ before \/ Cluster.ns_Phase m = "Terminating") in
  w_tmp w' = w_tmp w /\ (deletes_work api -> none) /\
  forall e path err, out = Ran (Some e) path err ->
    (sbx_Destroyed (ev_Sandbox e) = true -> none) /\
    (deletes_work api -> sbx_Destroyed (ev_Sandbox e) = true).
Proof.
  intros Hprep Hpods Hlen Henv Hd Hsp H before none.
  pose proof (velero_Provider api clients Hpods Hlen) as PV.
  destruct (velero_Run_tidy (velero_provider api clients) dp o Henv Hprep d
    before w out w') as (Ht & Hl & He);
    [done|done|split; [cbn; set_solver|done]|].
  assert (Hnone : KubernetesFacts.spaces (ext (w_ext w')) ⊆ before -> none).
  { intros Hs. split; [done|]. intros sel l d' Hlist m Hm.
    destruct (VeleroFacts.only_terminating api sel _ l d' _ Hs Hlist m Hm) as [?|[? _]]; auto. }
  split; [done|]. split; [intros Hk; apply Hnone, (Hl Hk)|].
  intros e path err He0. destruct (He e path err He0) as [H1 H2].
  split; [intros Hd1; apply Hnone, (H1 Hd1)|done].
Qed.
End VeleroDrills.

(** * Concrete systems

    The drill of the scenario with the program's drivers, a database that answers,
    and nothing else in the world but the given providers. *)
Section AnySystem.
Context {S D : Type} {CD : Verify.Clock D} {OW : Owner S D}.
Abbreviation X := (Proc S D).
Abbreviation Provider_of := (Config (World X) -> M (World X) (result (SandboxI (World X)))).

Definition absent : Provider_of := fun _ => mret (Err (ENew "no such provider")).

Definition no_velero (_ _ _ : string) (_ : Duration) : M (World X) (result (VeleroDrill (World X))) :=
  mret (Err (ENew "no cluster")).

Definition any_db : Verify.sqlDB (World X) := {|
  Verify.query_row_int _ := mret (Ok 7); Verify.query_row_string _ := mret (Ok "token");
  Verify.query _ := mret (Ok ([tt], None)) |}.

(** A watchdog is scheduled each time the drill looks at the clock. *)
Definition busy_clock : Verify.Clock (World X) := {|
  Verify.Now := on_ext (let! _ := watchdog 1 in Verify.Now);
  Verify.Sleep d := on_ext (Verify.Sleep d);
  Verify.ctx_Err := on_ext Verify.ctx_Err |}.

Definition system {CK : Verify.Clock (World X)} (docker k8s : Provider_of)
  (velero : string -> string -> string -> Duration -> M (World X) (result (VeleroDrill (World X))))
  : Deps X := {|
  disk := healthy; codecs := codecs1; os := os1; connect _ := Err (ENew "no network");
  registry := drivers (FS := World_Files os1 (mret None));
  docker_Provision := docker; k8s_Provision := k8s; velero_Prepare := velero;
  sql_Open _ _ := mret (Ok any_db); sql_Close _ := mret tt;
  UserHomeDir := Ok "/root"; render_html _ := Ok ""; expose _ := Ok "";
  push _ _ _ _ := mret None; NewRequestErr _ := None;
  http_Do _ := mret (Err (ENew "no network")) |}.

Definition unattended : Options X := {|
  Printer := None; opt_EvidenceDir := "/ev"; opt_KeyDir := "/keys"; opt_Version := "v1" |}.

Definition fresh_start (d : D) : World X := {|
  w_tmp := ∅; w_disk := w_disk world1;
  w_ext := {| heap := {| next := 1; cells := ∅ |}; ext := d |} |}.

Lemma calm_system {CK : Verify.Clock (World X)} docker k8s velero (P : World X -> Prop) :
  CalmClock P -> CalmEnv (system docker k8s velero) unattended P.
Proof.
  assert (Hret : forall A (a : A), keeps P (mret a)) by (intros; apply keeps_ret).
  assert (Hext : forall A (a : A), keeps P (on_ext (mret a : M X A))) by (intros A a [] Hw; exact Hw).
  intros HC. split; cbn; try done; try (intros; apply Hret); try (intros; apply Hext).
  intros drv dsn w db [= <-]. split; intros; apply Hret.
Qed.

Lemma calm_busy_clock t (P : X -> Prop) :
  keeps P (watchdog 1) -> keeps P (on_world Verify.Now) ->
  (forall d, keeps P (on_world (Verify.Sleep d))) -> keeps P (on_world Verify.ctx_Err) ->
  CalmClock (CK := busy_clock) (around t P).
Proof.
  intros Hw Hn Hs He. split; intros; apply on_ext_around; [|apply Hs|apply He].
  by apply keeps_bind.
Qed.
End AnySystem.

(** ** The scenario's drill on the fake daemon *)
Section Witness.
Abbreviation Ext := (Proc Docker.Sandbox Daemon).

#[local] Instance Own_daemon : Owner Docker.Sandbox Daemon := Docker_Owner daemon_api.

#[local] Instance clock1 : Verify.Clock (World Ext) := busy_clock.

Definition system1 : Deps Ext := system (lift_provision (docker_provider daemon_api)) absent no_velero.
Definition options1 : Options Ext := unattended.
Definition start1 : World Ext := fresh_start (daemon0 true).

Definition end1 : outcome * World Ext := Run system1 drill1 options1 start1.

Example system1_verifies : match fst end1 with
  | Ran (Some e) _ None => ev_Verified e && sbx_Destroyed (ev_Sandbox e)
  | _ => false end = true.
Proof. vm_compute. reflexivity. Qed.

Lemma calm_clock1 P t : during P -> CalmClock (around t P).
Proof.
  intros HP. assert (Hq : forall A (c : M Daemon A), (forall r, keeps (fun d => resources d = r) c) ->
    keeps P (on_world c)) by (intros; by apply (docker_during daemon_api)).
  apply calm_busy_clock; [by apply (docker_watchdog daemon_api)|intros; apply Hq; auto with keeps..].
Qed.

Lemma calm_system1 P t : during P -> CalmEnv system1 options1 (around t P).
Proof. intros HP. by apply calm_system, calm_clock1. Qed.

Lemma docker_drill_leaves_nothing_witness :
  w_tmp (snd end1) = ∅ /\
  resources (DockerLaws := daemon_laws) (ext (w_ext (snd end1))) =
  resources (DockerLaws := daemon_laws) (daemon0 true).
Proof.
  destruct end1 as [out w'] eqn:E.
  destruct (docker_drill_leaves_nothing daemon_api system1 options1 (mret None) drill1 start1 out w')
    as (Ht & Hr & _).
  - reflexivity.
  - reflexivity.
  - exact os1_fresh.
  - intros P _. apply keeps_ret.
  - intros P t. apply calm_system1.
  - reflexivity.
  - discriminate.
  - intros q s Hs. discriminate Hs.
  - exact E.
  - split; [exact Ht|]. apply Hr. split; reflexivity.
Defined.

Lemma verified_drill_restored_the_artifact_witness :
  exists uri raw sb cmd rd out x1,
    artifact os1 (connect system1) (src_From (spec_Source (drill_Spec drill1))) uri raw /\
    fst (Interfaces.Exec (W := Ext) sb cmd (Some rd) x1) = (0, out, None).
Proof.
  assert (Hv : match fst end1 with Ran (Some e) _ _ => ev_Verified e | _ => false end = true)
    by (vm_compute; reflexivity).
  destruct end1 as [[[e|] p err|] w'] eqn:E; [|discriminate Hv|discriminate Hv].
  edestruct (verified_drill_restored_the_artifact (docker_provider daemon_api) system1 options1
    (mret None) drill1 start1 e p err w' (resources (DockerLaws := daemon_laws) (daemon0 true)))
    as (uri & raw & r & rd & drv & sb & cmd & out & x0 & x1 & _ & Ha & _ & _ & _ & He & _).
  - reflexivity.
  - exact os1_fresh.
  - intros P _. apply keeps_ret.
  - intros P t. apply calm_system1.
  - intros drv. reflexivity.
  - discriminate.
  - vm_compute. reflexivity.
  - split; [reflexivity|]. intros q s Hs. discriminate Hs.
  - exact E.
  - exact Hv.
  - exists uri, raw, sb, cmd, rd, out, x1. split; [exact Ha|exact He].
Defined.
End Witness.

(** ** An interrupted command

    One signal, and the cancellation after the ninth request, while the drill waits
    for the database of its new container. *)
Section InterruptedWitness.
Abbreviation CutExt := (Proc Docker.Sandbox (option nat * Daemon)).
Abbreviation cut_api := (interruptible daemon_api false).

#[local] Instance Own_interrupted : Owner Docker.Sandbox (option nat * Daemon) := Docker_Owner cut_api.

#[local] Instance clock5 : Verify.Clock (World CutExt) := World_Clock.

Definition system5 : Deps CutExt := system (lift_provision (docker_provider cut_api)) absent no_velero.
Definition start5 : World CutExt := fresh_start (None, daemon0 true).

Definition quiet_stdout (_ : string) : M CutExt unit := mret tt.

Definition no_cluster : Program.Framework CutExt unit (World CutExt) := {|
  Program.GetConfigOrDie := mret false; Program.NewManager _ := mret None;
  Program.GetEventRecorder _ _ _ := mret tt; Program.Complete _ _ := mret None;
  Program.AddRunnable _ := mret None; Program.AddHealthzCheck _ := mret None;
  Program.AddReadyzCheck _ := mret None; Program.mgr_Start := mret None |}.

Definition run_file : Cli.RunFlags := {|
  Cli.run_All := false; Cli.run_File := "firedrill.yaml"; Cli.run_EvidenceDir := "/ev";
  Cli.run_KeyDir := "/keys"; Cli.run_DryRun := false |}.

Definition parse1 (_ : list (string * Program.command)) (_ : list string)
  : result (Program.command * list string) := Ok (Program.Run run_file false, ["payments"]).

Definition no_sweep (_ : Gc.Options) : M (World CutExt) (option Gc.Result * option error) :=
  mret (None, Some (ENew "no daemon")).

Definition interrupted1 : option (Program.Process (X := CutExt) (C := nat)) :=
  Program.steps system5 quiet_stdout true "v1" (fun _ => Ok [Ok drill1]) (fun _ => Ok "") (fun _ => Ok "")
    ∅ "" (Err (ENew "no entropy")) (fun _ => Err (ENew "no key")) no_sweep no_sweep no_cluster parse1
    (fun _ _ => ENew "usage") cut ["run"; "payments"] start5
    [Program.Signal; Program.Receive; Program.Announce; Program.Cancel 9%nat; Program.Return]
    Program.start.

(** The interrupt was felt, and the container it found there is gone. *)
Example interrupted1_fails : match interrupted1 with
  | Some p => match Program.process p with
              | Program.Ended code w => (code =? 2) && (size (dm_containers (daemon_of w)) =? 1)%nat
              | _ => false end
  | None => false end = true.
Proof. vm_compute. reflexivity. Qed.

Abbreviation options5 := (Cli.run_options quiet_stdout true "v1" run_file).

Lemma calm_system5 P : CalmClock P -> keeps P (on_ext (mret tt)) -> CalmEnv system5 options5 P.
Proof.
  intros HC Hp. destruct (calm_system (lift_provision (docker_provider cut_api)) absent no_velero P HC)
    as [H1 _ H3 H4 H5 H6 H7]. split; try assumption. intros dst color s [= <- _]. exact Hp.
Qed.

Lemma calm_during5 P t : during P -> CalmEnv system5 options5 (around t P).
Proof.
  intros HP. assert (Hq : forall A (c : M (option nat * Daemon) A),
    (forall r, keeps (fun d => resources d = r) c) -> keeps P (on_world c))
    by (intros; by apply (docker_during cut_api)).
  apply calm_system5; [|apply on_ext_around, keeps_ret].
  split; intros; apply on_ext_around, Hq; auto with keeps.
Qed.

Lemma calm_marked5 ttl d0 : CalmEnv system5 options5 (marked cut_api ttl d0).
Proof.
  apply calm_system5; [|apply marked_on_ext, keeps_ret].
  split; intros; apply marked_on_ext, marks_on_world, traces_silent.
  - apply Now_reads.
  - apply Sleep_reads.
  - apply ctx_Err_reads.
Qed.

Lemma interrupted_run_leaves_nothing_witness :
  exists p r w', interrupted1 = Some p /\ Program.process p = Program.Ended (Cli.exit_code r) w' /\
    w_tmp w' = ∅ /\
    resources (DockerLaws := daemon_laws) (daemon_of w') =
    resources (DockerLaws := daemon_laws) (daemon0 true).
Proof.
  assert (Hend : match interrupted1 with
                 | Some p => (Program.arrived p <=? 1)%nat &&
                     match Program.process p with Program.Running => false | _ => true end
                 | None => false end = true) by (vm_compute; reflexivity).
  destruct interrupted1 as [p|] eqn:E; [|discriminate Hend]. exists p.
  apply andb_true_iff in Hend as [Hn Hr].
  destruct (interrupted_run_leaves_nothing daemon_api false system5 quiet_stdout true "v1"
    (fun _ => Ok [Ok drill1]) (fun _ => Ok "") (fun _ => Ok "") ∅ "" (Err (ENew "no entropy"))
    (fun _ => Err (ENew "no key")) no_sweep no_sweep no_cluster parse1 (fun _ _ => ENew "usage")
    ["run"; "payments"] run_file false ["payments"] (mret None) start5 p)
    as (r & w' & Hp & _ & _ & Ht & _).
  - reflexivity.
  - reflexivity.
  - reflexivity.
  - exact os1_fresh.
  - intros _. split; [intros P _; apply keeps_ret|exact calm_during5].
  - intros ttl. split; [apply keeps_ret|apply calm_marked5].
  - split; reflexivity.
  - intros drills Hl. injection Hl as <-. constructor; [split; [reflexivity|discriminate]|constructor].
  - intros q s Hs. discriminate Hs.
  - eapply Program.steps_reachable; [apply Program.reach_start|exact E].
  - intros Hp. rewrite Hp in Hr. discriminate Hr.
  - apply Nat.leb_le. exact Hn.
  - destruct (Ht eq_refl) as [Ht1 Ht2]. exists r, w'. split; [reflexivity|]. split; [exact Hp|].
    split; [exact Ht1|exact Ht2].
Defined.
End InterruptedWitness.

(** ** A killed process

    It dies when its container was created: the daemon hears six of its requests.
    A day later, a sweep. *)
Section KilledWitness.
Abbreviation DeadExt := (Proc Docker.Sandbox (nat * Daemon)).

#[local] Instance clock4 : Verify.Clock (World DeadExt) := World_Clock.

Definition system4 : Deps DeadExt :=
  system (lift_provision (docker_provider (dying daemon_api))) absent no_velero.
Definition options4 : Options DeadExt := unattended.
Definition start4 : World DeadExt := fresh_start (6%nat, daemon0 true).

Definition left4 : Daemon := daemon_of (snd (Run system4 drill1 options4 start4)).

Example killed_drill_leaves_its_sandbox :
  (size (dm_containers left4), size (dm_networks left4)) = (2%nat, 2%nat).
Proof. vm_compute. reflexivity. Qed.

Definition next_day : Daemon := daemon_at (1700086400 * Second) left4.

Definition real_sweep : Gc.Options := {| Gc.OlderThan := Hour; Gc.DryRun := false; Gc.Force := false |}.

Lemma calm_system4 t d0 : CalmEnv system4 options4 (marked (dying daemon_api) t d0).
Proof.
  apply calm_system. split; intros; apply marked_on_ext, marks_on_world, traces_silent; intros v [k x] Hx;
    exact Hx.
Qed.

(** Checked entry by entry. *)
Definition all_over (now : Time) (m : gmap string (gmap string string)) : bool :=
  List.forallb (fun x => let l := snd x in
    negb (String.eqb (Gc.label l "firedrill") "sandbox") ||
    match Parse_RFC3339 (Gc.label l Gc.ExpiresAtLabel) with Some t => t <? now | None => false end)
    (map_to_list m).

Lemma all_over_spec now m id l :
  all_over now m = true -> m !! id = Some l -> Gc.label l "firedrill" = "sandbox" -> over now l.
Proof.
  unfold all_over. rewrite List.forallb_forall. intros H Hl Hs. specialize (H (id, l)).
  rewrite <- list_elem_of_In, elem_of_map_to_list in H. specialize (H Hl). cbv zeta in H. cbn [snd] in H.
  rewrite Hs in H. cbn [String.eqb Ascii.eqb Bool.eqb negb orb] in H. unfold over.
  destruct (Parse_RFC3339 _) as [t|]; [|done]. exists t. split; [done|]. by apply Z.ltb_lt.
Qed.

Lemma later_containers t d : dm_containers (daemon_at t d) = dm_containers d.
Proof. reflexivity. Qed.

Lemma later_networks t d : dm_networks (daemon_at t d) = dm_networks d.
Proof. reflexivity. Qed.

Lemma killed_drill_is_collected_witness :
  exists res d', Gc.SweepDocker daemon_api real_sweep next_day = ((Some res, None), d') /\
    dm_containers d' ⊆ {["other" := ∅]} /\ dm_networks d' ⊆ {["bridge" := "bridge"]}.
Proof.
  destruct (Gc.SweepDocker daemon_api real_sweep next_day) as [[[res|] [e|]] d'] eqn:E;
    try (vm_compute in E; discriminate E).
  exists res, d'. split; [reflexivity|].
  destruct (killed_drill_is_collected daemon_api system4 options4 (mret None) drill1 start4
    (fst (Run system4 drill1 options4 start4)) (snd (Run system4 drill1 options4 start4)))
    as [_ H].
  - reflexivity.
  - reflexivity.
  - apply keeps_ret.
  - apply calm_system4.
  - reflexivity.
  - discriminate.
  - apply surjective_pairing.
  - apply (H next_day real_sweep res d').
    + exact (later_containers _ left4).
    + exact (later_networks _ left4).
    + intros id d. reflexivity.
    + intros id d. reflexivity.
    + reflexivity.
    + reflexivity.
    + exact E.
    + intros id l. apply all_over_spec. vm_compute. reflexivity.
    + assert (Hold : List.forallb (fun nw => Gc.OlderThan real_sweep <?
        Sub (fst (Verify.Now (GcFacts.sweep_start daemon_api next_day))) (n_Created nw))
        (networks_seen daemon_api real_sweep next_day) = true) by (vm_compute; reflexivity).
      rewrite List.forallb_forall in Hold. intros nw Hn. apply Z.ltb_lt. exact (Hold nw Hn).
Defined.
End KilledWitness.

(** ** The same drill in a pod *)
Section PodWitness.
Abbreviation PodExt := (Proc Kubernetes.Sandbox K8s).

#[local] Instance Own_k8s : Owner Kubernetes.Sandbox K8s := Kubernetes.Pod_Owner k8s_api.

#[local] Instance clock2 : Verify.Clock (World PodExt) := busy_clock.

Definition system2 : Deps PodExt := system absent (lift_provision (k8s_provider k8s_api)) no_velero.
Definition options2 : Options PodExt := unattended.
Definition start2 : World PodExt := fresh_start (k8s0 "Completed" "Running").

Definition drill2 : Spec.Drill := {|
  drill_APIVersion := drill_APIVersion drill1; drill_Kind := drill_Kind drill1;
  drill_Metadata := drill_Metadata drill1;
  drill_Spec := {|
    Schedule := ""; spec_Objectives := spec_Objectives (drill_Spec drill1);
    spec_Source := spec_Source (drill_Spec drill1);
    spec_Sandbox := {| Provider := "kubernetes"; Image := "postgres:16"; TTL := Hour;
                       sb_Namespace := "" |};
    Spec.Verify := Spec.Verify (drill_Spec drill1);
    spec_Report := spec_Report (drill_Spec drill1) |} |}.

Definition end2 : outcome * World PodExt := Run system2 drill2 options2 start2.

Example system2_verifies : match fst end2 with
  | Ran (Some e) _ None => ev_Verified e && sbx_Destroyed (ev_Sandbox e)
  | _ => false end = true.
Proof. vm_compute. reflexivity. Qed.

Lemma calm_system2 P t : during P -> CalmEnv system2 options2 (around t P).
Proof.
  intros HP. assert (Hq : forall A (c : M K8s A), silent KubernetesFacts.objects c -> keeps P (on_world c))
    by (intros; by apply (k8s_during k8s_api)).
  apply calm_system, calm_busy_clock; [by apply (k8s_watchdog k8s_api)|
    intros; apply Hq, KubernetesFacts.quiet_api..].
Qed.

Lemma pod_drill_leaves_nothing_witness :
  w_tmp (snd end2) = ∅ /\
  KubernetesFacts.pods (ClusterLaws := k8s_laws) (ext (w_ext (snd end2))) ⊆
  KubernetesFacts.pods (ClusterLaws := k8s_laws) (k8s0 "Completed" "Running").
Proof.
  destruct end2 as [out w'] eqn:E.
  destruct (pod_drill_leaves_nothing k8s_api system2 options2 (mret None) drill2 start2 out w')
    as (Ht & Hr & _).
  - reflexivity.
  - reflexivity.
  - exact os1_fresh.
  - intros P _. apply keeps_ret.
  - intros P t. apply calm_system2.
  - reflexivity.
  - discriminate.
  - intros q s Hs. discriminate Hs.
  - exact E.
  - split; [exact Ht|]. apply Hr. intros ns n d. cbn. by case_bool_decide.
Defined.
End PodWitness.

(** ** A namespace restored by Velero *)
Section VeleroWitness.
Abbreviation SpaceExt := (Proc Velero.Drill K8s).

#[local] Instance Own_velero : Owner Velero.Drill K8s := Velero.Namespace_Owner k8s_api.

#[local] Instance clock3 : Verify.Clock (World SpaceExt) := busy_clock.

Definition clients3 : Verify.K8sClient SpaceExt := {|
  Verify.list_pods _ := mret (Ok []); Verify.list_len _ _ := mret (Ok 1) |}.

#[local] Instance TN_velero : Tenancy SpaceExt (gset string) (VeleroDrill SpaceExt) :=
  velero_tenancy k8s_api clients3.

Definition system3 : Deps SpaceExt :=
  system absent absent (lift_prepare (velero_provider k8s_api clients3)).
Definition options3 : Options SpaceExt := unattended.
Definition start3 : World SpaceExt := fresh_start (k8s0 "Completed" "Running").

Definition drill3 : Spec.Drill := {|
  drill_APIVersion := drill_APIVersion drill1; drill_Kind := drill_Kind drill1;
  drill_Metadata := drill_Metadata drill1;
  drill_Spec := {|
    Schedule := ""; spec_Objectives := spec_Objectives (drill_Spec drill1);
    spec_Source := {| src_Driver := "velero";
      src_From := {| from_Type := "velero"; URI := ""; CredentialsRef := ""; Region := "";
        Endpoint := ""; MaxBytes := 0; MaxUncompressedBytes := 0; from_Decrypt := None;
        Select := ""; Match := ""; Backup := "nightly"; from_Namespace := "shop" |};
      Format := ""; Database := "" |};
    spec_Sandbox := {| Provider := ""; Image := ""; TTL := Hour; sb_Namespace := "" |};
    Spec.Verify := [ {| RestoreSucceeded := None; Freshness := None; RowCount := None;
                   Checksum := None; Smoke := None; Canary := None; PodsReady := None;
                   ResourceCount := Some {| res_Kind := "deployments"; res_Min := 1 |} |} ];
    spec_Report := spec_Report (drill_Spec drill1) |} |}.

Definition end3 : outcome * World SpaceExt := Run system3 drill3 options3 start3.

Example system3_verifies : match fst end3 with
  | Ran (Some e) _ None => ev_Verified e && sbx_Destroyed (ev_Sandbox e)
  | _ => false end = true.
Proof. vm_compute. reflexivity. Qed.

Lemma calm_system3 P t : during P -> CalmEnv system3 options3 (around t P).
Proof.
  intros HP. assert (Hq : forall A (c : M K8s A), silent KubernetesFacts.objects c -> keeps P (on_world c)).
  { intros A c Hc. exact (velero_during k8s_api clients3 c P Hc HP). }
  apply calm_system, calm_busy_clock; [exact (velero_watchdog k8s_api clients3 1 P HP)|
    intros; apply Hq, KubernetesFacts.quiet_api..].
Qed.

Lemma velero_drill_leaves_nothing_witness :
  w_tmp (snd end3) = ∅ /\
  (KubernetesFacts.spaces (ClusterLaws := k8s_laws) (ext (w_ext (snd end3))) ⊆
   KubernetesFacts.spaces (ClusterLaws := k8s_laws) (k8s0 "Completed" "Running")) /\
  size (k_terminating (ext (w_ext (snd end3)))) = 1%nat.
Proof.
  destruct end3 as [out w'] eqn:E.
  destruct (velero_drill_leaves_nothing k8s_api system3 options3 clients3 drill3 start3 out w')
    as (Ht & Hr & _).
  - reflexivity.
  - intros P ns _. apply keeps_ret.
  - intros P r ns _. apply keeps_ret.
  - intros P t. apply calm_system3.
  - reflexivity.
  - intros q s Hs. discriminate Hs.
  - exact E.
  - split; [exact Ht|]. split; [|change w' with (snd (out, w')); rewrite <- E; vm_compute; reflexivity].
    apply Hr. split; [|reflexivity]. intros n d. cbn. by destruct (k_spaces d !! n).
Defined.
End VeleroWitness.
